(* ===== verification/_CoqProject ===== *)
-Q . S2P
Prelude.v
Errors.v
Breaker.v
Tools.v
Json.v
Float.v
Contracts.v
AgentState.v
ToolData.v
Store.v
Timeline.v
IndexRepo.v
Text.v
Regex.v
Scoring.v
Selection.v
Rewrite.v
Guardrails.v
Templates.v
Nodes.v
Workflow.v
WorkflowFrame.v
DiagnosisRuns.v
Sessions.v
Memory.v
Desk.v
Execution.v
DeskFrame.v
DeskInv.v
DeskProps.v
RunStatus.v
RunOutcome.v
ExecutionRuns.v
CaseRepo.v
CaseHistory.v
CaseApp.v
CaseInv.v
CaseSafety.v
IndexHandlers.v
Consumer.v
IndexQueue.v
Iso.v
Cursors.v
Chunking.v
Ingestion.v
System.v
CaseProps.v
ChunkingProps.v
IngestionProps.v
Library.v
Retrieval.v
RetrievalProps.v
Providers.v
RetrievalRuns.v
ProvidersProps.v
Gateway.v
IngestionRuns.v
Findings.v
TimelineView.v
Boundaries.v
Evaluation.v
Gate.v
EvaluationProps.v
Paging.v
Catalog.v
CatalogProps.v
ReadTools.v
ReadToolsProps.v
DiagnosisEvidence.v
Redaction.v
RateLimit.v
Users.v
Auth.v
AuthProofs.v
Listings.v
Api.v
ApiProps.v
Lifespan.v
EvidenceView.v
Influx.v
