(* ===== verification/Prelude.v ===== *)
(** * A model of the energy diagnosis service

    This library models the services of [src/src/energy_agent/] (paths below
    are relative to it) and proves what they guarantee.  The program diagnoses
    alarms of energy equipment, lets operators review the diagnoses, turns
    confirmed diagnoses into cases, and publishes approved cases, maintenance
    tickets and manuals to a vector index and a graph, where later diagnoses
    find them.

    ** How the program is modelled

    A service method is a computation of the monad [M] of this file: a function
    from a state to a state and a result or an exception.  [World] (file
    [Store]) is the state of the relational database, the clock, the supply of
    identifiers and the log of calls to external services; [Env] says what the
    outside world answers.  [atomically] is [session_factory.begin()]: what a
    transaction wrote is undone when it raises.  Python's [try], [raise],
    [next(..., None)], truthiness and sorting are the combinators of this file.
    Where a task can be cancelled the exceptions are [abort] (file [Tools]).
    Some services have a state of their own: users and refresh sessions
    ([UWorld], file [Users]), a run of the agent ([Run], file [Nodes]), the
    diagnosis service ([Desk], file [Desk]), which contains [World], a search
    ([Retrieval]), a client with its breaker ([Provider], file [Providers]), and
    the process ([Process], file [Lifespan]).

    ** Files

    - [Prelude]: the monad with its rules ([respects], [from], [yields],
      [triple]), record updates, and generic lemmas.
    - [Errors] (core/errors.py, api/errors.py): the exception hierarchy, codes,
      HTTP statuses and the error envelope.
    - [Breaker] (reliability/circuit_breaker.py, registry.py, policies.py): the
      circuit breaker and its abstract contract [abs_step]; [RateLimit]
      (reliability/rate_limit.py): the Lua scripts on Redis keys.
    - [Json] (core/idempotency.py): JSON values, [json.dumps] with sorted keys,
      request fingerprints. [Float]: IEEE doubles by SpecFloat.
    - [Contracts] (contracts/): the shared enumerations and records.
    - [Text]: [str.strip], white space collapsing, [len] on UTF-8 bytes and the
      class [Unicode]; [Regex]: the regular expressions of the program as
      syntax, a backtracking matcher and its language; [Iso]: the calendar,
      [isoformat] and its reader.
    - [Store] (persistence/models.py and the row contracts): tables, [World],
      [Env], transactions and audit records; [Timeline] (timeline/repository.py):
      the event log of a session; [TimelineView] (timeline/service.py): the
      merged view of a session.

    The diagnosis of an alarm:
    - [AgentState] (agent/state.py): the state of a run, its validator and its
      transition table.
    - [Tools] (tools/executor.py): the tool executor over any handlers (the
      class [ToolWorld]); [ToolData] (tools/contracts.py): the inputs and data
      of the read tools; [ReadTools] (tools/implementations/, graph/service.py):
      their handlers over tables, library and retrieval; [ReadToolsProps]: the
      merge of tickets and cases, and what the handlers cite.
    - [Guardrails] (guardrails/), [Templates] (templates/): the four checks; the
      diagnosis templates, routing and candidate rules.
    - [Nodes] (agent/nodes/diagnosis.py): one definition per node, over a class
      [Runtime] of the ports of a run; [Workflow] (agent/workflow.py): the graph
      and [ainvoke]. [WorkflowFrame]: what a run leaves alone, and how it uses
      its tools. [DiagnosisRuns]: the runtime with the tool executor, and
      concrete runs. [DiagnosisEvidence]: the run over the handlers of
      [ReadTools], from the question down to the rows of the library.
    - [Gateway] (model/gateway.py): strict schemas, the request to the model,
      its retries, and reading the answer.
    - [Memory] (contracts/diagnosis.py): the requests, what a session remembers
      and the state a run starts from; [Desk]: the stores of the service
      (persistence/repositories/diagnosis_run.py, diagnosis_step_log.py,
      alarm_dedup.py, memory/session_store.py, reliability/dedup.py,
      agent/events.py); [Execution] (agent/execution_service.py): creating a
      session, one request to diagnose, reading back.
    - [DeskFrame], [DeskInv]: what a request touches and the invariant
      [desk_wf]; [DeskProps], [RunStatus], [RunOutcome]: the theorems about
      histories of requests; [ExecutionRuns]: their witnesses, and runs that
      show where the code falls short.

    Cases and indexing:
    - [IndexRepo] (indexing/repository.py): index jobs and the transactional
      outbox, with the invariant [jobs_wf].
    - [Sessions] (persistence/repositories/diagnosis_session.py and the review
      repositories).
    - [CaseRepo] (persistence/repositories/cases.py): case rows, the event log,
      the transition transaction; [CaseHistory]: how rows may evolve.
    - [CaseApp] (cases/application.py): the case lifecycle service; [CaseInv]
      and [CaseSafety]: its invariant [case_inv] and its preservation.
    - [IndexHandlers] (indexing/handler_runtime.py): the worker's handlers.
    - [Consumer] (indexing/service.py, indexing/publisher.py): one delivery, one
      run of the publisher. [IndexQueue] (providers/rabbitmq.py,
      evaluation/drain_index_queue.py): the queues and the drainer.
    - [System]: the case service, the worker, the publisher and the ingestion
      over one store, as a step relation [sys_op] on worlds.
    - [CaseProps], [Findings]: properties of single operations, and runs that
      show where the code falls short.

    Manuals, tickets and retrieval:
    - [Chunking] (retrieval/ingestion/chunking.py, parsers.py): sections, pieces
      and chunks; [Ingestion] (retrieval/ingestion/service.py and
      persistence/repositories/manual_document.py): ingesting a document,
      indexing tickets; [ChunkingProps], [IngestionProps], [IngestionRuns]:
      their theorems, and with searches.
    - [Scoring] (retrieval/contracts.py, scoring.py, merge.py, dedup.py):
      candidates, their scores, fusion and selection; [Selection]: what the
      selection guarantees.
    - [Rewrite] (retrieval/query_rewrite.py, tokenization.py, keyword.py).
    - [Library] (providers/mysql.py): the rows of the tables, the candidate
      queries and the candidates made of rows.
    - [Retrieval] (retrieval/service.py, evidence.py): one search with its two
      caches; [RetrievalProps]: its lemmas; [RetrievalRuns]: the theorems, the
      composition with [System], concrete searches.
    - [Providers], [ProvidersProps] (providers/embedding.py, reranker.py,
      milvus.py, minio.py): the clients behind a search and an ingestion.

    What operators see:
    - [Cursors] (catalog/cursors.py), [Paging]: cursors, and reading a sorted
      list page by page; [Catalog], [CatalogProps] (catalog/): sites, devices,
      alarms and sessions; [Listings]: the lists of cases, users and failed jobs.
    - [EvidenceView] (evidence/): the detail of a piece of evidence and the time
      series of a session; [Influx] (providers/influxdb.py): the queries of the
      time series client and its summaries.

    Users, HTTP and the process:
    - [Users] (users/repository.py), [Auth] (users/service.py, jwt.py,
      password.py, tokens.py), [AuthProofs]: users, sessions, authentication.
    - [Api] (core/config.py, app.py, api/): settings, the middleware, the routes
      with their guards, readiness; [ApiProps]: who gets in.
    - [Lifespan] (bootstrap/lifespan.py): start and end of the process.
    - [Redaction] (observability/redaction.py): what is hidden in snapshots.

    Tools of the developers:
    - [Evaluation], [Gate], [EvaluationProps] (evaluation/): matching, metrics,
      the run over a split and the technical gate.
    - [Boundaries] (scripts/check_module_boundaries.py): the rules for imports.

    ** What the theorems show

    - The agent: a run ends, makes at most six tool calls, and completes only
      with causes grounded in evidence and actions a human confirms
      ([Workflow], [WorkflowFrame]); evidence named after a manual, ticket or
      case shows a row of the library that may be cited to the session
      ([DiagnosisEvidence]); the input guardrail blocks what it says
      ([Guardrails]); routing picks the one best template and the rules cite
      known evidence ([Templates]); a tool call always answers ([Tools]).
    - The diagnosis service: sessions are isolated, requests take effect once,
      every run that starts ends on record, completed sessions have their answer
      and stay as they are, the memory hands a run over to the next ([DeskProps],
      [RunStatus], [RunOutcome]); the timeline tells each event once
      ([TimelineView]).
    - Cases: four eyes, what is published, the status graph, exactly-once
      transitions ([System], [CaseProps]). What the case lifecycle reads of a
      diagnosis ([results] of [World]) is its newest answer
      ([completed_has_answer]).
    - Index jobs: no job is lost, jobs are unique and their attempts bounded
      ([System]); a delivery is settled exactly when its outcome is recorded,
      and the consumer returns ([Consumer]); draining settles each message once
      and the queues drop none ([IndexQueue]).
    - Manuals: at most one version of a document is effective, a version's
      chunks are its own and cover its text, ingestion is all or nothing and
      happens once ([ChunkingProps], [IngestionProps], [IngestionRuns]).
    - Retrieval: evidence cites library rows, within its limits and well formed;
      outages only degrade; a cited case is published and approved by another, a
      cited manual is the current version ([RetrievalRuns], [IngestionRuns]);
      the clients keep the contracts these theorems assume ([ProvidersProps]);
      tickets and cases are merged as the best of both ([ReadToolsProps]).
    - The model: requests, retries and the breaker around one call ([Gateway]).
    - Lists: reading page by page gives every row once and in order
      ([CatalogProps], [Listings]).
    - Time series: what is shown belongs to the session ([EvidenceView]); names
      stay inside their quotes, and the order of points does not matter
      ([Influx]).
    - Access: every route has its guard; outside of development nothing but the
      probes is reached without the key; admitted writes are bounded
      ([ApiProps]). Refresh tokens are used once, their reuse revokes the
      family, the last administrator stays, disabling and lock-out take effect
      ([AuthProofs]). What is logged does not depend on secrets ([Redaction]).
    - The process: its clients are those of the settings and each is closed once
      ([Lifespan]).
    - Reliability: the breaker refines its contract, the rate limiter admits
      its limit ([Breaker], [RateLimit]).
    - Evaluation ends with a verdict that is the conjunction of its checks
      ([EvaluationProps]); the boundary check finds exactly the cycles
      ([Boundaries]).
    - [Findings], the ends of [DiagnosisRuns], [DiagnosisEvidence],
      [ExecutionRuns], [RetrievalRuns], [IngestionRuns], [ProvidersProps],
      [Gateway], [IndexQueue], [Listings], [ApiProps], [EvidenceView], [Influx],
      [Lifespan], [EvaluationProps] and [Boundaries], [cancelled_probe_blocks_tool]
      and [exhausted_job_never_settles]: concrete runs with an outcome the code
      does not intend.

    ** Conventions and bounds

    Identifiers, hashes and the answers of services are arbitrary functions
    ([Env], [UEnv]); the JWT and password libraries, Unicode normalisation and
    the character classes beyond ASCII are parameters ([Libraries], [Unicode]),
    as are LIKE, what [fromisoformat] accepts beyond what [isoformat] writes
    ([other_iso]), PDF and Word readers ([Readers]), reading numbers ([Numerals]),
    [repr], the HTTP clients ([Remote]), the ports of the timeline, of the read
    tools, of the evidence and of the HTTP layer ([TimelinePorts], [ReadPorts],
    [EvidencePorts], [HttpPorts]) and what stores answer to the process
    ([Surroundings]). What a theorem needs of them is a named hypothesis or law
    ([decode_stable]: the payload of a token is the same whenever it is decoded;
    [ChineseText]). Tool handlers, the model and the clock of a run answer by the
    number of the call, so they may answer differently each time, raise, or be
    cancelled. How the web framework matches paths and a direct exchange routes
    messages is their documented behaviour. Times are microseconds in [Z]. Floats
    are IEEE doubles ([Float]); the logarithm is a parameter ([Platform]), since
    no standard fixes its rounding. The services of a search answer by the number
    of the call too ([RetrievalPorts]); two searches run one after another. The
    theorem about outages assumes that answers keep their contract
    ([embedding_sane], [milvus_sane], [reranker_sane]).

    Loops over fuel have lemmas that their fuel is enough: [drop_spaces] in
    [Text], [mro_fuel] in [Errors], the matcher of [Regex] (the length of the
    text), the fourteen steps of [ainvoke] ([ainvoke_terminates]), cutting a text
    into pieces ([slices_concat]) and tickets into batches ([batches_concat]),
    reading alarms until a page is full ([read_alarms_spec]), the search for
    cycles ([visit_spec]), halving a batch and emptying the queue ([process_ok],
    [rounds_settle]), and a client that follows cursors ([collect_all]). Retries
    recurse on the attempts left.

    In [Desk] the stores answer, and requests run one after another, each to its
    end or to the cancellation of its task. Of a step log the times and the
    snapshots are left out, of the timeline payload of a cause its confidence.

    ** What is not modelled

    Tracing, LangFuse, metrics, log lines and message texts; loss of the
    connection to a store; the interleaving of two service operations inside each
    other ([sys_op] and [desk_op] run one after another;
    [late_index_write_reactivates] shows an interleaving that matters); the
    Cypher queries of providers/neo4j.py; deleting from the vector store (an
    external call of the handlers); the tool that appends a review, which no
    workflow calls; CORS, response headers and the text of the event stream; the
    construction of repositories and services around the clients; writing
    reports, loading the synthetic data into the stores (reload_dataset.py,
    validate_manual_vectors.py), the smoke test of the retrieval and the command
    lines. *)

From Stdlib Require Export ZArith Lia.
From stdpp Require Export base strings sorting gmap fin_maps option list.

#[export] Set Default Goal Selector "1".

(** * Field update

    [r <| proj := v |>] is the record [r] with the field [proj] replaced by
    [v], the model of Python's attribute assignment and of pydantic's
    [model_copy(update=...)].  A record takes part by giving its eta
    expansion as an instance of [Eta]. *)

Class Eta (R : Type) := eta : R -> R.
Class Setter {R T : Type} (proj : R -> T) := set : (T -> T) -> R -> R.
Arguments set {_ _} _ {_} _ _ /.

Ltac build_setter :=
  lazymatch goal with
  | |- @Setter ?R ?T ?proj =>
      let inst := constr:(_ : Eta R) in
      let body := eval hnf in inst in
      let f := fresh "f" in
      let r := fresh "r" in
      intros f r;
      let e := eval cbv beta in (body r) in
      lazymatch (eval pattern (proj r) in e) with
      | ?g _ => let t := eval cbv beta in (g (f (proj r))) in exact t
      end
  end.

#[export] Hint Extern 1 (Setter _) => build_setter : typeclass_instances.

Declare Scope rec_scope.
Delimit Scope rec_scope with rec.
Open Scope rec_scope.

Notation "r <| proj := v |>" := (set proj (fun _ => v) r)
  (at level 1, left associativity) : rec_scope.
Notation "r <| proj ::= f |>" := (set proj f r)
  (at level 1, left associativity) : rec_scope.

(** * Python values *)

(** Truthiness of [str], of [str | None] and of a list. *)
Definition str_true (s : string) : bool := negb (bool_decide (s = "")).
Definition ostr_true (o : option string) : bool :=
  match o with Some s => str_true s | None => false end.
Definition list_true {A} (l : list A) : bool :=
  match l with [] => false | _ :: _ => true end.
Definition or_empty (o : option string) : string :=
  match o with Some s => s | None => "" end.

Lemma list_true_false {A} (l : list A) : list_true l = false -> l = [].
Proof. by destruct l. Qed.

(** [sep.join(parts)]. *)
Fixpoint str_join (sep : string) (l : list string) : string :=
  match l with
  | [] => ""
  | [x] => x
  | x :: l' => (x ++ sep ++ str_join sep l')%string
  end.

(** [next((x for x in l if p(x)), None)]. *)
Fixpoint find_first {A} (p : A -> bool) (l : list A) : option A :=
  match l with
  | [] => None
  | x :: l' => if p x then Some x else find_first p l'
  end.

Lemma find_first_Some {A} (p : A -> bool) l x :
  find_first p l = Some x -> x ∈ l /\ p x = true.
Proof.
  induction l as [|y l IH]; simpl; [done|].
  destruct (p y) eqn:E; intros H.
  - injection H as ->. split; [left|done].
  - destruct (IH H). split; [by right|done].
Qed.

Lemma find_first_None {A} (p : A -> bool) l x :
  find_first p l = None -> x ∈ l -> p x = false.
Proof.
  induction l as [|y l IH]; simpl; intros H Hx; [by apply not_elem_of_nil in Hx|].
  destruct (p y) eqn:E; [done|]. apply elem_of_cons in Hx as [->|Hx]; auto.
Qed.

(** [sorted(set(l))] over strings; the byte order of UTF-8 is the code-point
    order Python sorts by. *)
Definition sorted_set (l : list string) : list string :=
  merge_sort String.le (remove_dups l).

Lemma elem_of_sorted_set x l : x ∈ sorted_set l <-> x ∈ l.
Proof. unfold sorted_set. by rewrite merge_sort_Permutation, elem_of_remove_dups. Qed.

Lemma sorted_set_Sorted l : Sorted String.le (sorted_set l).
Proof. apply Sorted_merge_sort, _. Qed.

Lemma sorted_set_NoDup l : NoDup (sorted_set l).
Proof. unfold sorted_set. rewrite merge_sort_Permutation. apply NoDup_remove_dups. Qed.

Lemma sorted_set_nil l : sorted_set l = [] <-> l = [].
Proof.
  split; [|by intros ->]. intros H. destruct l as [|x l]; [done|].
  assert (Hx : x ∈ sorted_set (x :: l)) by (rewrite elem_of_sorted_set; left).
  rewrite H in Hx. by apply not_elem_of_nil in Hx.
Qed.

(** ** Stable sorting, by a key or a relation that is total *)

Section Sorting.
Context {A : Type} (R : relation A) `{!RelDecision R}.

Fixpoint insert_sorted (x : A) (l : list A) : list A :=
  match l with
  | [] => [x]
  | y :: l' => if decide (R y x) then y :: insert_sorted x l' else x :: l
  end.
Definition stable_sort (l : list A) : list A := fold_left (fun acc x => insert_sorted x acc) l [].

Lemma insert_sorted_permutation x l : insert_sorted x l ≡ₚ x :: l.
Proof.
  induction l as [|y l IH]; simpl; [done|]. case_decide; [|done].
  rewrite IH. apply Permutation_swap.
Qed.

Lemma stable_sort_permutation l : stable_sort l ≡ₚ l.
Proof.
  unfold stable_sort. transitivity (l ++ []); [|by rewrite app_nil_r]. generalize (@nil A) as acc.
  induction l as [|x l IH]; intros acc; simpl; [done|].
  by rewrite IH, insert_sorted_permutation, Permutation_middle.
Qed.

Context `{!Total R}.

Lemma insert_sorted_HdRel y x l : R y x -> HdRel R y l -> HdRel R y (insert_sorted x l).
Proof. intros Hx Hl. destruct l as [|z l]; simpl; [by constructor|]. inversion Hl. case_decide; by constructor. Qed.

Lemma insert_sorted_Sorted x l : Sorted R l -> Sorted R (insert_sorted x l).
Proof.
  induction 1 as [|y l Hl IH Hy]; simpl; [by repeat constructor|].
  case_decide as Hyx; constructor; [done|by apply insert_sorted_HdRel|by constructor|].
  constructor. by destruct (total R x y).
Qed.

Lemma stable_sort_Sorted l : Sorted R (stable_sort l).
Proof.
  unfold stable_sort. assert (H : Sorted R (@nil A)) by constructor. revert H.
  generalize (@nil A) as acc. induction l as [|x l IH]; intros acc H; simpl; [done|].
  by apply IH, insert_sorted_Sorted.
Qed.

(** What is in order stays. *)
Lemma insert_sorted_last x l : Forall (fun y => R y x) l -> insert_sorted x l = l ++ [x].
Proof. induction 1 as [|y l Hy _ IH]; simpl; [done|]. by rewrite decide_True, IH. Qed.

Lemma stable_sort_id `{!Transitive R} l : Sorted R l -> stable_sort l = l.
Proof.
  intros Hl%(Sorted_StronglySorted _). unfold stable_sort.
  change l with ([] ++ l) at 2. assert (H : Forall (fun x => Forall (R x) l) (@nil A)) by constructor.
  revert H. generalize (@nil A) as acc.
  induction Hl as [|x l Hl IH Hx]; intros acc H; simpl; [by rewrite app_nil_r|].
  rewrite insert_sorted_last by (eapply Forall_impl; [exact H|]; intros y Hy; by inversion Hy).
  rewrite IH, <- app_assoc; [done|]. apply Forall_app. split; [|by constructor].
  eapply Forall_impl; [exact H|]. intros y Hy. by inversion Hy.
Qed.
End Sorting.

Lemma filter_full {A} (P : A -> Prop) `{!forall x, Decision (P x)} (l : list A) :
  Forall P l -> filter P l = l.
Proof. induction 1 as [|x l Hx _ IH]; [done|]. by rewrite filter_cons_True, IH. Qed.

(** * Computations with state and exceptions

    [M S E A] is a computation on the state [S] that returns an [A] or raises
    an [E].  An exception keeps the state reached so far; only a database
    transaction ([atomically]) takes it back. *)

Inductive outcome (E A : Type) : Type :=
| Ok (a : A)
| Raise (e : E).
Arguments Ok {E A} a.
Arguments Raise {E A} e.

Definition M (S E A : Type) : Type := S -> S * outcome E A.

Definition ret {S E A} (a : A) : M S E A := fun s => (s, Ok a).
Definition raise {S E A} (e : E) : M S E A := fun s => (s, Raise e).
Definition bind {S E A B} (m : M S E A) (k : A -> M S E B) : M S E B :=
  fun s => match m s with
           | (s', Ok a) => k a s'
           | (s', Raise e) => (s', Raise e)
           end.
Definition gets {S E A} (f : S -> A) : M S E A := fun s => (s, Ok (f s)).
Definition modify {S E} (f : S -> S) : M S E unit := fun s => (f s, Ok tt).
(** [try: m except Exception as e: h e]. *)
Definition catch {S E A} (m : M S E A) (h : E -> M S E A) : M S E A :=
  fun s => match m s with
           | (s', Ok a) => (s', Ok a)
           | (s', Raise e) => h e s'
           end.
(** [try: m except ...: h ... else: k]. *)
Definition try_else {S E A B} (m : M S E A) (k : A -> M S E B)
    (h : E -> M S E B) : M S E B :=
  fun s => match m s with
           | (s', Ok a) => k a s'
           | (s', Raise e) => h e s'
           end.
Definition guard {S E} (b : bool) (e : E) : M S E unit :=
  if b then ret tt else raise e.
Definition when {S E} (b : bool) (m : M S E unit) : M S E unit :=
  if b then m else ret tt.

Declare Scope py_scope.
Delimit Scope py_scope with py.
Notation "x <- m ;; k" := (bind m (fun x => k))
  (at level 84, m at next level, right associativity) : py_scope.
Notation "m ;;; k" := (bind m (fun _ => k))
  (at level 84, right associativity) : py_scope.
Open Scope py_scope.

(** [for x in l: f x]. *)
Fixpoint for_each {S E A} (f : A -> M S E unit) (l : list A) : M S E unit :=
  match l with
  | [] => ret tt
  | x :: l' => f x ;;; for_each f l'
  end.

(** [[await f(x) for x in l]]. *)
Fixpoint map_m {S E A B} (f : A -> M S E B) (l : list A) : M S E (list B) :=
  match l with
  | [] => ret []
  | x :: l' => y <- f x ;; ys <- map_m f l' ;; ret (y :: ys)
  end.

(** * Respecting a relation between the states before and after

    [respects R m] says that every run of [m], whether it returns or raises,
    relates its initial state to its final state by the preorder [R].  With
    [R] a monotonicity it states a history property, with
    [fun s s' => I s -> I s'] the preservation of the invariant [I]. *)

Definition respects {S E A} (R : S -> S -> Prop) (m : M S E A) : Prop :=
  forall s, R s (fst (m s)).

Lemma respects_fst {S E A} (R : S -> S -> Prop) (m : M S E A) s s' o :
  respects R m -> m s = (s', o) -> R s s'.
Proof. intros H E'. specialize (H s). by rewrite E' in H. Qed.

Definition keeps {S} (I : S -> Prop) : S -> S -> Prop := fun s s' => I s -> I s'.

#[export] Instance keeps_preorder {S} (I : S -> Prop) : PreOrder (keeps I).
Proof. split; unfold keeps; repeat intro; auto. Qed.

Section Respects.
Context {S E : Type} (R : S -> S -> Prop) `{!PreOrder R}.

Lemma respects_ret {A} (a : A) : respects R (ret (E := E) a).
Proof. intros s. reflexivity. Qed.

Lemma respects_raise {A} (e : E) : respects R (raise (A := A) e).
Proof. intros s. reflexivity. Qed.

Lemma respects_gets {A} (f : S -> A) : respects R (gets (E := E) f).
Proof. intros s. reflexivity. Qed.

Lemma respects_modify (f : S -> S) :
  (forall s, R s (f s)) -> respects R (modify (E := E) f).
Proof. intros H s. apply H. Qed.

Lemma respects_bind {A B} (m : M S E A) (k : A -> M S E B) :
  respects R m -> (forall a, respects R (k a)) -> respects R (bind m k).
Proof.
  intros Hm Hk s. unfold bind. specialize (Hm s).
  destruct (m s) as [s' [a|e]]; simpl in *; [|done].
  etransitivity; [exact Hm|apply Hk].
Qed.

Lemma respects_catch {A} (m : M S E A) (h : E -> M S E A) :
  respects R m -> (forall e, respects R (h e)) -> respects R (catch m h).
Proof.
  intros Hm Hh s. unfold catch. specialize (Hm s).
  destruct (m s) as [s' [a|e]]; simpl in *; [done|].
  etransitivity; [exact Hm|apply Hh].
Qed.

Lemma respects_try_else {A B} (m : M S E A) (k : A -> M S E B) (h : E -> M S E B) :
  respects R m -> (forall a, respects R (k a)) -> (forall e, respects R (h e)) ->
  respects R (try_else m k h).
Proof.
  intros Hm Hk Hh s. unfold try_else. specialize (Hm s).
  destruct (m s) as [s' [a|e]]; simpl in *; (etransitivity; [exact Hm|]).
  - apply Hk.
  - apply Hh.
Qed.

Lemma respects_guard (b : bool) (e : E) : respects R (guard b e).
Proof. destruct b; intros s; reflexivity. Qed.

Lemma respects_when (b : bool) (m : M S E unit) :
  respects R m -> respects R (when b m).
Proof. destruct b; [done|]. intros _ s. reflexivity. Qed.

Lemma respects_for_each {A} (f : A -> M S E unit) (l : list A) :
  (forall a, respects R (f a)) -> respects R (for_each f l).
Proof.
  intros Hf. induction l as [|x l IH]; simpl.
  - apply respects_ret.
  - apply respects_bind; auto.
Qed.

Lemma respects_map_m {A B} (f : A -> M S E B) (l : list A) :
  (forall a, respects R (f a)) -> respects R (map_m f l).
Proof.
  intros Hf. induction l as [|x l IH]; simpl.
  - apply respects_ret.
  - apply respects_bind; [auto|]. intros y. apply respects_bind; [auto|].
    intros ys. apply respects_ret.
Qed.
End Respects.

Create HintDb pres discriminated.
#[export] Hint Resolve respects_ret respects_raise respects_gets respects_guard : pres.
#[export] Hint Extern 0 (PreOrder _) => typeclasses eauto : pres.

(** Case analysis on the scrutinee of the innermost [match] or [if]. *)
Ltac split_match :=
  match goal with
  | |- context [match ?x with _ => _ end] =>
      lazymatch x with
      | context [match _ with _ => _ end] => fail
      | _ => destruct x eqn:?
      end
  end.

(** Decompose a [respects] goal along the structure of the computation, and
    close its leaves with the lemmas of the database [pres]. *)
Ltac respect_step :=
  first
    [ solve [eauto with pres nocore]
    | lazymatch goal with
      | |- respects _ (bind _ _) => apply respects_bind; [typeclasses eauto| |intros ?]
      | |- respects _ (catch _ _) => apply respects_catch; [typeclasses eauto| |intros ?]
      | |- respects _ (try_else _ _ _) => apply respects_try_else; [typeclasses eauto| |intros ?|intros ?]
      | |- respects _ (when _ _) => apply respects_when; [typeclasses eauto|]
      | |- respects _ (for_each _ _) => apply respects_for_each; [typeclasses eauto|intros ?]
      | |- respects _ (map_m _ _) => apply respects_map_m; [typeclasses eauto|intros ?]
      | |- respects _ (match ?x with _ => _ end) => destruct x eqn:?
      | |- respects _ (let _ := _ in _) => cbv zeta
      end ].
Ltac respect := repeat respect_step.

(** ** Knowledge about the state

    [from P R m]: the runs of [m] that start in a state with [P] respect [R].
    The rules carry what a computation has read ([P]) to the point where it
    writes. *)

Definition from {S E A} (P : S -> Prop) (R : S -> S -> Prop) (m : M S E A) : Prop :=
  forall s, P s -> R s (fst (m s)).

Section From.
Context {S E : Type} (R : S -> S -> Prop) `{!PreOrder R}.

Lemma from_respects {A} (P : S -> Prop) (m : M S E A) : respects R m -> from P R m.
Proof. intros H s _. apply H. Qed.

Lemma respects_from {A} (m : M S E A) : from (fun _ => True) R m -> respects R m.
Proof. intros H s. by apply H. Qed.

Lemma from_weaken {A} (P Q : S -> Prop) (m : M S E A) :
  from Q R m -> (forall s, P s -> Q s) -> from P R m.
Proof. intros H HP s Hs. auto. Qed.

(** The first step keeps what is known. *)
Lemma from_bind {A B} (P : S -> Prop) (m : M S E A) (k : A -> M S E B) :
  respects R m -> respects (keeps P) m -> (forall a, from P R (k a)) -> from P R (bind m k).
Proof.
  intros Hm HP Hk s Hs. unfold bind. specialize (Hm s). specialize (HP s Hs).
  destruct (m s) as [s' [a|e]]; simpl in *; [|done].
  etransitivity; [exact Hm|by apply Hk].
Qed.

(** The first step keeps the state and its result is known. *)
Lemma from_read {A B} (P : S -> Prop) (m : M S E A) (Q : A -> S -> Prop) (k : A -> M S E B) :
  (forall s, P s -> exists o, m s = (s, o) /\ match o with Ok a => Q a s | Raise _ => True end) ->
  (forall a, from (fun s => P s /\ Q a s) R (k a)) -> from P R (bind m k).
Proof.
  intros Hm Hk s Hs. unfold bind. destruct (Hm s Hs) as (o & -> & Ho).
  destruct o as [a|e]; simpl; [by apply Hk|reflexivity].
Qed.

Lemma from_gets {A B} (P : S -> Prop) (f : S -> A) (k : A -> M S E B) :
  (forall a, from (fun s => P s /\ f s = a) R (k a)) -> from P R (bind (gets f) k).
Proof. intros Hk. apply (from_read _ _ (fun a s => f s = a)); [|done]. intros s Hs. by exists (Ok (f s)). Qed.

Lemma from_guard {B} (P : S -> Prop) (b : bool) (e : E) (k : unit -> M S E B) :
  (b = true -> from P R (k tt)) -> from P R (bind (guard b e) k).
Proof.
  intros Hk s Hs. destruct b; unfold bind, guard; simpl; [by apply Hk|reflexivity].
Qed.

(** The first step needs what is known, the rest does not. *)
Lemma from_bind_last {A B} (P : S -> Prop) (m : M S E A) (k : A -> M S E B) :
  from P R m -> (forall a, respects R (k a)) -> from P R (bind m k).
Proof.
  intros Hm Hk s Hs. unfold bind. specialize (Hm s Hs).
  destruct (m s) as [s' [a|e]]; simpl in *; [|done]. etransitivity; [exact Hm|apply Hk].
Qed.

(** The first step establishes something new. *)
Lemma from_bind_post {A B} (P : S -> Prop) (Q : A -> S -> Prop) (m : M S E A)
    (k : A -> M S E B) :
  from P R m -> (forall s s' a, P s -> m s = (s', Ok a) -> Q a s') ->
  (forall a, from (Q a) R (k a)) -> from P R (bind m k).
Proof.
  intros Hm HQ Hk s Hs. unfold bind. specialize (Hm s Hs). specialize (HQ s).
  destruct (m s) as [s' [a|e]] eqn:Em; simpl in *; [|done].
  etransitivity; [exact Hm|]. apply Hk. by eapply HQ.
Qed.

Lemma from_catch {A} (P : S -> Prop) (m : M S E A) (h : E -> M S E A) :
  from P R m -> (forall e, respects R (h e)) -> from P R (catch m h).
Proof.
  intros Hm Hh s Hs. unfold catch. specialize (Hm s Hs).
  destruct (m s) as [s' [a|e]]; simpl in *; [done|]. etransitivity; [exact Hm|apply Hh].
Qed.

Lemma from_modify {B} (P Q : S -> Prop) (f : S -> S) (k : unit -> M S E B) :
  (forall s, P s -> R s (f s) /\ Q (f s)) -> from Q R (k tt) -> from P R (bind (modify f) k).
Proof.
  intros Hf Hk s Hs. unfold bind, modify. simpl. destruct (Hf s Hs).
  etransitivity; [done|by apply Hk].
Qed.
End From.

(** An invariant may be used on the way. *)
Lemma from_inv {S E A} (P I : S -> Prop) (m : M S E A) :
  from (fun s => P s /\ I s) (keeps I) m -> from P (keeps I) m.
Proof. intros H s Hs Hi. by apply H. Qed.

(** ** Results and triples

    [yields Q m]: what [m] returns satisfies [Q].  [triple P m Q X]: from a
    state with [P], [m] returns with [Q] or raises with [X]. *)

Definition yields {S E A} (Q : A -> Prop) (m : M S E A) : Prop :=
  forall s s' a, m s = (s', Ok a) -> Q a.

Definition triple {S E A} (P : S -> Prop) (m : M S E A) (Q : A -> S -> Prop)
    (X : E -> S -> Prop) : Prop :=
  forall s, P s -> match m s with (s', Ok a) => Q a s' | (s', Raise e) => X e s' end.

Section Triples.
Context {S E : Type}.

Lemma yields_ret {A} (Q : A -> Prop) a : Q a -> yields Q (ret (S := S) (E := E) a).
Proof. intros HQ s s' b H. injection H as _ <-. done. Qed.

Lemma yields_raise {A} (Q : A -> Prop) e : yields Q (raise (S := S) (E := E) e).
Proof. intros s s' b H. discriminate H. Qed.

Lemma yields_bind {A B} (Q : B -> Prop) (m : M S E A) (k : A -> M S E B) :
  (forall a, yields Q (k a)) -> yields Q (bind m k).
Proof.
  intros Hk s s' b H. unfold bind in H. destruct (m s) as [s1 [a|e]]; [by eapply Hk|discriminate H].
Qed.

(** What the first step yields is known to the rest. *)
Lemma yields_bind_post {A B} (P : A -> Prop) (Q : B -> Prop) (m : M S E A) (k : A -> M S E B) :
  yields P m -> (forall a, P a -> yields Q (k a)) -> yields Q (bind m k).
Proof.
  intros Hm Hk s s' b H. unfold bind in H. destruct (m s) as [s1 [a|e]] eqn:Em; [|discriminate H].
  by eapply Hk; [eapply Hm|].
Qed.

Lemma yields_try_else {A B} (Q : B -> Prop) (m : M S E A) k (h : E -> M S E B) :
  (forall a, yields Q (k a)) -> (forall e, yields Q (h e)) -> yields Q (try_else m k h).
Proof.
  intros Hk Hh s s' b H. unfold try_else in H.
  destruct (m s) as [s1 [a|e]]; [by eapply Hk|by eapply Hh].
Qed.

Lemma triple_ret {A} (P : S -> Prop) (a : A) X : triple (E := E) P (ret a) (fun b s => b = a /\ P s) X.
Proof. intros s Hs. done. Qed.

Lemma triple_bind {A B} P (m : M S E A) (k : A -> M S E B) Q' Q X :
  triple P m Q' X -> (forall a, triple (Q' a) (k a) Q X) -> triple P (bind m k) Q X.
Proof.
  intros Hm Hk s Hs. unfold bind. specialize (Hm s Hs).
  destruct (m s) as [s' [a|e]]; [by apply Hk|done].
Qed.

Lemma triple_catch {A} P (m : M S E A) (h : E -> M S E A) Q X' X :
  triple P m Q X' -> (forall e, triple (X' e) (h e) Q X) -> triple P (catch m h) Q X.
Proof.
  intros Hm Hh s Hs. unfold catch. specialize (Hm s Hs).
  destruct (m s) as [s' [a|e]]; [done|by apply Hh].
Qed.

Lemma triple_conseq {A} P P' (m : M S E A) Q Q' X X' :
  triple P' m Q' X' -> (forall s, P s -> P' s) -> (forall a s, Q' a s -> Q a s) ->
  (forall e s, X' e s -> X e s) -> triple P m Q X.
Proof.
  intros Hm HP HQ HX s Hs. specialize (Hm s (HP s Hs)).
  destruct (m s) as [s' [a|e]]; auto.
Qed.

(** What a computation keeps. *)
Lemma triple_keeps {A} P (m : M S E A) :
  respects (keeps P) m -> triple P m (fun _ => P) (fun _ => P).
Proof. intros Hm s Hs. specialize (Hm s Hs). by destruct (m s) as [s' [a|e]]. Qed.

Lemma triple_yields {A} P (m : M S E A) Q Y X :
  yields Y m -> triple P m Q X -> triple P m (fun a s => Y a /\ Q a s) X.
Proof.
  intros HY Hm s Hs. specialize (Hm s Hs). destruct (m s) as [s' [a|e]] eqn:E'; [|done].
  split; [by eapply HY|done].
Qed.
End Triples.

Lemma yields_map_m {S E A B} (Q : B -> Prop) (f : A -> M S E B) l :
  (forall a, a ∈ l -> yields Q (f a)) -> yields (Forall Q) (map_m f l).
Proof.
  induction l as [|a l IH]; intros Hf; simpl; [by apply yields_ret|].
  eapply yields_bind_post; [apply Hf; left|]. intros b Hb.
  eapply yields_bind_post; [apply IH; intros x Hx; apply Hf; by right|]. intros bs Hbs.
  apply yields_ret. by constructor.
Qed.

Lemma yields_catch {S E A} (Q : A -> Prop) (m : M S E A) (h : E -> M S E A) :
  yields Q m -> (forall e, yields Q (h e)) -> yields Q (catch m h).
Proof.
  intros Hm Hh s s' a. unfold catch. destruct (m s) as [s1 [b|e]] eqn:Em.
  - intros [= -> ->]. by eapply Hm.
  - intros H. by eapply Hh.
Qed.

Lemma yields_map_m2 {S E A B} (Q : A -> B -> Prop) (f : A -> M S E B) l :
  (forall a, yields (Q a) (f a)) -> yields (Forall2 Q l) (map_m f l).
Proof.
  intros Hf. induction l as [|a l IH]; simpl; [by apply yields_ret|].
  eapply yields_bind_post; [apply Hf|]. intros b Hb.
  eapply yields_bind_post; [apply IH|]. intros bs Hbs. apply yields_ret. by constructor.
Qed.

Lemma yields_guard {S E} (b : bool) (e : E) : yields (S := S) (fun _ => b = true) (guard b e).
Proof. destruct b; [by apply yields_ret|apply yields_raise]. Qed.

Lemma yields_any {S E A} (m : M S E A) : yields (fun _ => True) m.
Proof. by intros ???. Qed.

(** What a step yields is known to the rest. *)
Lemma respects_bind_yields {S E A B} (R : S -> S -> Prop) `{!PreOrder R} (Q : A -> Prop)
    (m : M S E A) (k : A -> M S E B) :
  yields Q m -> respects R m -> (forall a, Q a -> respects R (k a)) -> respects R (bind m k).
Proof.
  intros HQ Hm Hk s. unfold bind. specialize (Hm s). specialize (HQ s).
  destruct (m s) as [s' [a|e]]; simpl in *; [|done].
  etransitivity; [exact Hm|]. by apply Hk, (HQ s').
Qed.

(** * Runs *)

(** The result of a computation that is known to return. *)
Lemma bind_ok_inv {S E A B} (m : M S E A) (k : A -> M S E B) s s' b :
  bind m k s = (s', Ok b) ->
  exists a s1, m s = (s1, Ok a) /\ k a s1 = (s', Ok b).
Proof.
  unfold bind. destruct (m s) as [s1 [a|e]]; intros H; [eauto|done].
Qed.

Lemma bind_ok {S E A B} (m : M S E A) (k : A -> M S E B) s s1 a :
  m s = (s1, Ok a) -> bind m k s = k a s1.
Proof. unfold bind. by intros ->. Qed.

Lemma bind_raise {S E A B} (m : M S E A) (k : A -> M S E B) s s1 e :
  m s = (s1, Raise e) -> bind m k s = (s1, Raise e).
Proof. unfold bind. by intros ->. Qed.

Lemma catch_ok {S E A} (m : M S E A) h s s1 a :
  m s = (s1, Ok a) -> catch m h s = (s1, Ok a).
Proof. unfold catch. by intros ->. Qed.

Lemma catch_raise {S E A} (m : M S E A) h s s1 e :
  m s = (s1, Raise e) -> catch m h s = h e s1.
Proof. unfold catch. by intros ->. Qed.

(** Take a successful run apart: [bind]s, guards, returns and the matches on
    values that were read. *)
Lemma bind_gets {S E A B} (f : S -> A) (k : A -> M S E B) s : bind (gets f) k s = k (f s) s.
Proof. done. Qed.
Lemma bind_modify {S E B} (f : S -> S) (k : unit -> M S E B) s :
  bind (modify f) k s = k tt (f s).
Proof. done. Qed.
Lemma bind_ret {S E A B} (a : A) (k : A -> M S E B) s : bind (ret a) k s = k a s.
Proof. done. Qed.
Lemma bind_guard {S E B} (b : bool) (e : E) (k : unit -> M S E B) s :
  bind (guard b e) k s = if b then k tt s else (s, Raise e).
Proof. by destruct b. Qed.

Ltac run_step H :=
  lazymatch type of H with
  | bind (gets _) _ _ = _ => rewrite bind_gets in H; cbv beta in H
  | bind (modify _) _ _ = _ => rewrite bind_modify in H; cbv beta in H
  | bind (ret _) _ _ = _ => rewrite bind_ret in H; cbv beta in H
  | bind (guard ?b _) _ _ = _ =>
      rewrite bind_guard in H; destruct b eqn:?; [|discriminate H]; cbv beta in H
  | bind (match ?x with _ => _ end) _ _ = (_, Ok _) => destruct x eqn:?
  | bind _ _ _ = (_, Ok _) =>
      let a := fresh "v" in let s1 := fresh "s1" in
      let H1 := fresh "Hrun" in let H2 := fresh "Hk" in
      apply bind_ok_inv in H as (a & s1 & H1 & H2); rename H2 into H; cbv beta in H
  | ret _ _ = (_, _) => unfold ret in H; injection H as ? ?
  | raise _ _ = (_, Ok _) => discriminate H
  | (match ?x with _ => _ end) _ = (_, Ok _) => destruct x eqn:?
  | (match ?x with _ => _ end) = (_, Ok _) => destruct x eqn:?
  | (let _ := _ in _) _ = _ => cbv zeta in H
  end.
Ltac run_inv H := repeat run_step H.
