(* ===== verification/Errors.v ===== *)
(** * Domain errors and their HTTP status

    [core/errors.py] (the exception classes, their codes and their
    inheritance) and the status mapping of [api/errors.py]. *)

From S2P Require Import Prelude.

(** One constructor per exception class of [core/errors.py]. *)
Inductive error_class : Type :=
| DomainError
| InvalidStateTransitionError
| ResourceNotFoundError
| DependencyUnavailableError
| ConflictError
| AuthenticationError
| AuthInvalidCredentialsError
| AuthAccountLockedError
| AuthAccountDisabledError
| AuthTokenMissingError
| AuthTokenInvalidError
| AuthTokenExpiredError
| AuthRefreshInvalidError
| AuthRefreshExpiredError
| AuthRefreshReusedError
| AuthCurrentPasswordInvalidError
| UserNotFoundError
| UserUsernameExistsError
| UserEmailExistsError
| UserLastAdminProtectedError
| PermissionDeniedError
| InvalidRequestError
| RateLimitExceededError
| AuthPasswordChangeRequiredError
| AuthNewPasswordInvalidError
| UserSelfDisableForbiddenError
| UserSelfRoleChangeForbiddenError
| UserRoleInvalidError
| ActorRequiredError
| ActorRoleInvalidError
| SelfReviewForbiddenError
| ClarificationStaleError
| UnknownClarificationQuestionError
| ClarificationAlreadyAnsweredError
| SessionNotReviewableError
| DiagnosisReviewInvalidError
| InvalidEvidenceReferenceError
| RootCauseOverrideReasonRequiredError
| CaseNotFoundError
| CaseNotEditableError
| CaseNotReadyError
| CaseStateConflictError
| CaseVersionConflictError
| CaseReviewConflictError
| CaseIndexFailedError
| CaseNotIndexedError
| IdempotencyConflictError
| DependencyTimeoutError
| UnsupportedIntentError
| RagError
| DocumentTypeUnsupportedError
| DocumentTooLargeError
| DocumentHashConflictError
| DocumentParseError
| OcrRequiredError
| MinioUnavailableError
| MinioChecksumMismatchError
| EmbeddingUnavailableError
| EmbeddingDimensionError
| EmbeddingResponseError
| MilvusUnavailableError
| MilvusSchemaMismatchError
| VectorSearchError
| RerankerUnavailableError
| RerankerResponseError
| RetrievalChannelsFailedError
| IndexJobNotFoundError
| IndexJobStateConflictError
| RabbitMQUnavailableError
| GraphUnavailableError
| TemplateNotFoundDomainError.

#[export] Instance error_class_eq_dec : EqDecision error_class.
Proof. solve_decision. Defined.

(** The class each exception class derives from ([None]: [Exception]). *)
Definition base (c : error_class) : option error_class :=
  match c with
  | DomainError => None
  | InvalidStateTransitionError => Some DomainError
  | ResourceNotFoundError => Some DomainError
  | DependencyUnavailableError => Some DomainError
  | ConflictError => Some DomainError
  | AuthenticationError => Some DomainError
  | AuthInvalidCredentialsError => Some AuthenticationError
  | AuthAccountLockedError => Some AuthenticationError
  | AuthAccountDisabledError => Some AuthenticationError
  | AuthTokenMissingError => Some AuthenticationError
  | AuthTokenInvalidError => Some AuthenticationError
  | AuthTokenExpiredError => Some AuthenticationError
  | AuthRefreshInvalidError => Some AuthenticationError
  | AuthRefreshExpiredError => Some AuthenticationError
  | AuthRefreshReusedError => Some AuthenticationError
  | AuthCurrentPasswordInvalidError => Some AuthenticationError
  | UserNotFoundError => Some ResourceNotFoundError
  | UserUsernameExistsError => Some ConflictError
  | UserEmailExistsError => Some ConflictError
  | UserLastAdminProtectedError => Some ConflictError
  | PermissionDeniedError => Some DomainError
  | InvalidRequestError => Some DomainError
  | RateLimitExceededError => Some DomainError
  | AuthPasswordChangeRequiredError => Some PermissionDeniedError
  | AuthNewPasswordInvalidError => Some InvalidRequestError
  | UserSelfDisableForbiddenError => Some PermissionDeniedError
  | UserSelfRoleChangeForbiddenError => Some PermissionDeniedError
  | UserRoleInvalidError => Some InvalidRequestError
  | ActorRequiredError => Some AuthenticationError
  | ActorRoleInvalidError => Some AuthenticationError
  | SelfReviewForbiddenError => Some PermissionDeniedError
  | ClarificationStaleError => Some ConflictError
  | UnknownClarificationQuestionError => Some InvalidRequestError
  | ClarificationAlreadyAnsweredError => Some ConflictError
  | SessionNotReviewableError => Some ConflictError
  | DiagnosisReviewInvalidError => Some InvalidRequestError
  | InvalidEvidenceReferenceError => Some InvalidRequestError
  | RootCauseOverrideReasonRequiredError => Some InvalidRequestError
  | CaseNotFoundError => Some ResourceNotFoundError
  | CaseNotEditableError => Some ConflictError
  | CaseNotReadyError => Some InvalidRequestError
  | CaseStateConflictError => Some ConflictError
  | CaseVersionConflictError => Some ConflictError
  | CaseReviewConflictError => Some ConflictError
  | CaseIndexFailedError => Some DependencyUnavailableError
  | CaseNotIndexedError => Some ConflictError
  | IdempotencyConflictError => Some ConflictError
  | DependencyTimeoutError => Some DomainError
  | UnsupportedIntentError => Some DomainError
  | RagError => Some DomainError
  | DocumentTypeUnsupportedError => Some RagError
  | DocumentTooLargeError => Some RagError
  | DocumentHashConflictError => Some ConflictError
  | DocumentParseError => Some RagError
  | OcrRequiredError => Some DocumentParseError
  | MinioUnavailableError => Some DependencyUnavailableError
  | MinioChecksumMismatchError => Some RagError
  | EmbeddingUnavailableError => Some DependencyUnavailableError
  | EmbeddingDimensionError => Some RagError
  | EmbeddingResponseError => Some RagError
  | MilvusUnavailableError => Some DependencyUnavailableError
  | MilvusSchemaMismatchError => Some RagError
  | VectorSearchError => Some DependencyUnavailableError
  | RerankerUnavailableError => Some DependencyUnavailableError
  | RerankerResponseError => Some RagError
  | RetrievalChannelsFailedError => Some DependencyUnavailableError
  | IndexJobNotFoundError => Some ResourceNotFoundError
  | IndexJobStateConflictError => Some ConflictError
  | RabbitMQUnavailableError => Some DependencyUnavailableError
  | GraphUnavailableError => Some DependencyUnavailableError
  | TemplateNotFoundDomainError => Some InvalidRequestError
  end.

(** The class attribute [code]. *)
Definition code (c : error_class) : string :=
  match c with
  | DomainError => "DOMAIN_ERROR"
  | InvalidStateTransitionError => "INVALID_STATE_TRANSITION"
  | ResourceNotFoundError => "RESOURCE_NOT_FOUND"
  | DependencyUnavailableError => "DEPENDENCY_UNAVAILABLE"
  | ConflictError => "STATE_CONFLICT"
  | AuthenticationError => "AUTHENTICATION_FAILED"
  | AuthInvalidCredentialsError => "AUTH_INVALID_CREDENTIALS"
  | AuthAccountLockedError => "AUTH_ACCOUNT_LOCKED"
  | AuthAccountDisabledError => "AUTH_ACCOUNT_DISABLED"
  | AuthTokenMissingError => "AUTH_TOKEN_MISSING"
  | AuthTokenInvalidError => "AUTH_TOKEN_INVALID"
  | AuthTokenExpiredError => "AUTH_TOKEN_EXPIRED"
  | AuthRefreshInvalidError => "AUTH_REFRESH_INVALID"
  | AuthRefreshExpiredError => "AUTH_REFRESH_EXPIRED"
  | AuthRefreshReusedError => "AUTH_REFRESH_REUSED"
  | AuthCurrentPasswordInvalidError => "AUTH_CURRENT_PASSWORD_INVALID"
  | UserNotFoundError => "USER_NOT_FOUND"
  | UserUsernameExistsError => "USER_USERNAME_EXISTS"
  | UserEmailExistsError => "USER_EMAIL_EXISTS"
  | UserLastAdminProtectedError => "USER_LAST_ADMIN_PROTECTED"
  | PermissionDeniedError => "ROLE_FORBIDDEN"
  | InvalidRequestError => "INVALID_REQUEST"
  | RateLimitExceededError => "RATE_LIMITED"
  | AuthPasswordChangeRequiredError => "AUTH_PASSWORD_CHANGE_REQUIRED"
  | AuthNewPasswordInvalidError => "AUTH_NEW_PASSWORD_INVALID"
  | UserSelfDisableForbiddenError => "USER_SELF_DISABLE_FORBIDDEN"
  | UserSelfRoleChangeForbiddenError => "USER_SELF_ROLE_CHANGE_FORBIDDEN"
  | UserRoleInvalidError => "USER_ROLE_INVALID"
  | ActorRequiredError => "ACTOR_REQUIRED"
  | ActorRoleInvalidError => "ACTOR_ROLE_INVALID"
  | SelfReviewForbiddenError => "SELF_REVIEW_FORBIDDEN"
  | ClarificationStaleError => "CLARIFICATION_STALE"
  | UnknownClarificationQuestionError => "UNKNOWN_CLARIFICATION_QUESTION"
  | ClarificationAlreadyAnsweredError => "CLARIFICATION_ALREADY_ANSWERED"
  | SessionNotReviewableError => "SESSION_NOT_REVIEWABLE"
  | DiagnosisReviewInvalidError => "DIAGNOSIS_REVIEW_INVALID"
  | InvalidEvidenceReferenceError => "INVALID_EVIDENCE_REFERENCE"
  | RootCauseOverrideReasonRequiredError => "ROOT_CAUSE_OVERRIDE_REASON_REQUIRED"
  | CaseNotFoundError => "CASE_NOT_FOUND"
  | CaseNotEditableError => "CASE_NOT_EDITABLE"
  | CaseNotReadyError => "CASE_NOT_READY"
  | CaseStateConflictError => "CASE_STATE_CONFLICT"
  | CaseVersionConflictError => "CASE_VERSION_CONFLICT"
  | CaseReviewConflictError => "CASE_REVIEW_CONFLICT"
  | CaseIndexFailedError => "CASE_INDEX_FAILED"
  | CaseNotIndexedError => "CASE_NOT_INDEXED"
  | IdempotencyConflictError => "IDEMPOTENCY_CONFLICT"
  | DependencyTimeoutError => "DEPENDENCY_TIMEOUT"
  | UnsupportedIntentError => "UNSUPPORTED_INTENT"
  | RagError => "RAG_ERROR"
  | DocumentTypeUnsupportedError => "DOCUMENT_TYPE_UNSUPPORTED"
  | DocumentTooLargeError => "DOCUMENT_TOO_LARGE"
  | DocumentHashConflictError => "DOCUMENT_HASH_CONFLICT"
  | DocumentParseError => "DOCUMENT_PARSE_FAILED"
  | OcrRequiredError => "OCR_REQUIRED"
  | MinioUnavailableError => "MINIO_UNAVAILABLE"
  | MinioChecksumMismatchError => "MINIO_CHECKSUM_MISMATCH"
  | EmbeddingUnavailableError => "EMBEDDING_UNAVAILABLE"
  | EmbeddingDimensionError => "EMBEDDING_DIMENSION_INVALID"
  | EmbeddingResponseError => "EMBEDDING_RESPONSE_INVALID"
  | MilvusUnavailableError => "MILVUS_UNAVAILABLE"
  | MilvusSchemaMismatchError => "MILVUS_SCHEMA_MISMATCH"
  | VectorSearchError => "VECTOR_SEARCH_FAILED"
  | RerankerUnavailableError => "RERANKER_UNAVAILABLE"
  | RerankerResponseError => "RERANKER_RESPONSE_INVALID"
  | RetrievalChannelsFailedError => "RETRIEVAL_ALL_CHANNELS_FAILED"
  | IndexJobNotFoundError => "INDEX_JOB_NOT_FOUND"
  | IndexJobStateConflictError => "INDEX_JOB_STATE_CONFLICT"
  | RabbitMQUnavailableError => "RABBITMQ_UNAVAILABLE"
  | GraphUnavailableError => "GRAPH_UNAVAILABLE"
  | TemplateNotFoundDomainError => "TEMPLATE_NOT_FOUND"
  end.

(** The class attribute [retryable] where a class body assigns it. *)
Definition own_retryable (c : error_class) : option bool :=
  match c with
  | DomainError => Some false
  | DependencyUnavailableError => Some true
  | RateLimitExceededError => Some true
  | DependencyTimeoutError => Some true
  | _ => None
  end.

(** The method resolution order below [Exception].  Four steps are enough:
    [mro_complete] shows that each chain ends in [DomainError]. *)
Fixpoint mro_fuel (n : nat) (c : error_class) : list error_class :=
  match n with
  | 0 => [c]
  | S n' => c :: match base c with Some b => mro_fuel n' b | None => [] end
  end.
Definition mro (c : error_class) : list error_class := mro_fuel 4 c.

Definition isinstance (c d : error_class) : bool := bool_decide (d ∈ mro c).

(** Attribute lookup of [retryable] along the class hierarchy. *)
Fixpoint first_some {A B} (f : A -> option B) (l : list A) : option B :=
  match l with
  | [] => None
  | x :: l' => match f x with Some y => Some y | None => first_some f l' end
  end.
Definition retryable (c : error_class) : bool :=
  default false (first_some own_retryable (mro c)).

(** [handle_domain_error]: the status of the response. *)
Definition http_status (c : error_class) : Z :=
  if isinstance c RateLimitExceededError then 429
  else if isinstance c AuthenticationError then 401
  else if isinstance c PermissionDeniedError then 403
  else if isinstance c InvalidRequestError then 422
  else if isinstance c ResourceNotFoundError then 404
  else if isinstance c ConflictError then 409
  else if isinstance c DependencyTimeoutError then 504
  else if retryable c then 503
  else 400.

(** [type(exc).__name__] of the domain errors. *)
Definition class_name (c : error_class) : string :=
  match c with
  | DomainError => "DomainError"
  | InvalidStateTransitionError => "InvalidStateTransitionError"
  | ResourceNotFoundError => "ResourceNotFoundError"
  | DependencyUnavailableError => "DependencyUnavailableError"
  | ConflictError => "ConflictError"
  | AuthenticationError => "AuthenticationError"
  | AuthInvalidCredentialsError => "AuthInvalidCredentialsError"
  | AuthAccountLockedError => "AuthAccountLockedError"
  | AuthAccountDisabledError => "AuthAccountDisabledError"
  | AuthTokenMissingError => "AuthTokenMissingError"
  | AuthTokenInvalidError => "AuthTokenInvalidError"
  | AuthTokenExpiredError => "AuthTokenExpiredError"
  | AuthRefreshInvalidError => "AuthRefreshInvalidError"
  | AuthRefreshExpiredError => "AuthRefreshExpiredError"
  | AuthRefreshReusedError => "AuthRefreshReusedError"
  | AuthCurrentPasswordInvalidError => "AuthCurrentPasswordInvalidError"
  | UserNotFoundError => "UserNotFoundError"
  | UserUsernameExistsError => "UserUsernameExistsError"
  | UserEmailExistsError => "UserEmailExistsError"
  | UserLastAdminProtectedError => "UserLastAdminProtectedError"
  | PermissionDeniedError => "PermissionDeniedError"
  | InvalidRequestError => "InvalidRequestError"
  | RateLimitExceededError => "RateLimitExceededError"
  | AuthPasswordChangeRequiredError => "AuthPasswordChangeRequiredError"
  | AuthNewPasswordInvalidError => "AuthNewPasswordInvalidError"
  | UserSelfDisableForbiddenError => "UserSelfDisableForbiddenError"
  | UserSelfRoleChangeForbiddenError => "UserSelfRoleChangeForbiddenError"
  | UserRoleInvalidError => "UserRoleInvalidError"
  | ActorRequiredError => "ActorRequiredError"
  | ActorRoleInvalidError => "ActorRoleInvalidError"
  | SelfReviewForbiddenError => "SelfReviewForbiddenError"
  | ClarificationStaleError => "ClarificationStaleError"
  | UnknownClarificationQuestionError => "UnknownClarificationQuestionError"
  | ClarificationAlreadyAnsweredError => "ClarificationAlreadyAnsweredError"
  | SessionNotReviewableError => "SessionNotReviewableError"
  | DiagnosisReviewInvalidError => "DiagnosisReviewInvalidError"
  | InvalidEvidenceReferenceError => "InvalidEvidenceReferenceError"
  | RootCauseOverrideReasonRequiredError => "RootCauseOverrideReasonRequiredError"
  | CaseNotFoundError => "CaseNotFoundError"
  | CaseNotEditableError => "CaseNotEditableError"
  | CaseNotReadyError => "CaseNotReadyError"
  | CaseStateConflictError => "CaseStateConflictError"
  | CaseVersionConflictError => "CaseVersionConflictError"
  | CaseReviewConflictError => "CaseReviewConflictError"
  | CaseIndexFailedError => "CaseIndexFailedError"
  | CaseNotIndexedError => "CaseNotIndexedError"
  | IdempotencyConflictError => "IdempotencyConflictError"
  | DependencyTimeoutError => "DependencyTimeoutError"
  | UnsupportedIntentError => "UnsupportedIntentError"
  | RagError => "RagError"
  | DocumentTypeUnsupportedError => "DocumentTypeUnsupportedError"
  | DocumentTooLargeError => "DocumentTooLargeError"
  | DocumentHashConflictError => "DocumentHashConflictError"
  | DocumentParseError => "DocumentParseError"
  | OcrRequiredError => "OcrRequiredError"
  | MinioUnavailableError => "MinioUnavailableError"
  | MinioChecksumMismatchError => "MinioChecksumMismatchError"
  | EmbeddingUnavailableError => "EmbeddingUnavailableError"
  | EmbeddingDimensionError => "EmbeddingDimensionError"
  | EmbeddingResponseError => "EmbeddingResponseError"
  | MilvusUnavailableError => "MilvusUnavailableError"
  | MilvusSchemaMismatchError => "MilvusSchemaMismatchError"
  | VectorSearchError => "VectorSearchError"
  | RerankerUnavailableError => "RerankerUnavailableError"
  | RerankerResponseError => "RerankerResponseError"
  | RetrievalChannelsFailedError => "RetrievalChannelsFailedError"
  | IndexJobNotFoundError => "IndexJobNotFoundError"
  | IndexJobStateConflictError => "IndexJobStateConflictError"
  | RabbitMQUnavailableError => "RabbitMQUnavailableError"
  | GraphUnavailableError => "GraphUnavailableError"
  | TemplateNotFoundDomainError => "TemplateNotFoundDomainError"
  end.

(** Exceptions a computation of the model raises: a domain error with the
    string list its [details] carry (message texts are not modelled), or one of
    the exceptions of Python, pydantic and SQLAlchemy the code lets escape. *)
Inductive exn : Type :=
| Domain (c : error_class) (details : list string)
| RuntimeError
| AssertionError
| ValueError
| ValidationError
| IntegrityError
| MultipleResultsFound
| IndexError
| TypeError
| KeyError
| AttributeError
| OverflowError
| ZeroDivisionError
| TemplateNotFoundError (reason : string)
| TemplateAmbiguousError (reason : string)
| ProviderError
| TimeoutError
| ConnectionError
| PermanentIndexError (reason : string)
| StaleIndexEventError.

(** [type(exc).__name__]; [ProviderError] stands for the exception classes of
    the client libraries. *)
Definition exn_name (e : exn) : string :=
  match e with
  | Domain c _ => class_name c
  | RuntimeError => "RuntimeError"
  | AssertionError => "AssertionError"
  | ValueError => "ValueError"
  | ValidationError => "ValidationError"
  | IntegrityError => "IntegrityError"
  | MultipleResultsFound => "MultipleResultsFound"
  | IndexError => "IndexError"
  | TypeError => "TypeError"
  | KeyError => "KeyError"
  | AttributeError => "AttributeError"
  | OverflowError => "OverflowError"
  | ZeroDivisionError => "ZeroDivisionError"
  | TemplateNotFoundError _ => "TemplateNotFoundError"
  | TemplateAmbiguousError _ => "TemplateAmbiguousError"
  | ProviderError => "ProviderError"
  | TimeoutError => "TimeoutError"
  | ConnectionError => "ConnectionError"
  | PermanentIndexError _ => "PermanentIndexError"
  | StaleIndexEventError => "StaleIndexEventError"
  end.

Definition throw {S A} (c : error_class) : M S exn A := raise (Domain c []).

(** [error_response] of the three handlers: the status, the code and the
    retryable flag of the envelope. *)
Definition error_response (e : exn) : Z * string * bool :=
  match e with
  | Domain c _ => (http_status c, code c, retryable c)
  | _ => (500%Z, "INTERNAL_ERROR", false)
  end.

Lemma mro_complete c : DomainError ∈ mro c /\ base DomainError = None.
Proof. split; [|done]. apply (bool_decide_unpack (DomainError ∈ mro c)). destruct c; vm_compute; exact I. Qed.

(** Every class, to search the hierarchy. *)
Definition error_classes : list error_class :=
  [DomainError; InvalidStateTransitionError; ResourceNotFoundError;
   DependencyUnavailableError; ConflictError; AuthenticationError;
   AuthInvalidCredentialsError; AuthAccountLockedError; AuthAccountDisabledError;
   AuthTokenMissingError; AuthTokenInvalidError; AuthTokenExpiredError;
   AuthRefreshInvalidError; AuthRefreshExpiredError; AuthRefreshReusedError;
   AuthCurrentPasswordInvalidError; UserNotFoundError; UserUsernameExistsError;
   UserEmailExistsError; UserLastAdminProtectedError; PermissionDeniedError;
   InvalidRequestError; RateLimitExceededError; AuthPasswordChangeRequiredError;
   AuthNewPasswordInvalidError; UserSelfDisableForbiddenError;
   UserSelfRoleChangeForbiddenError; UserRoleInvalidError; ActorRequiredError;
   ActorRoleInvalidError; SelfReviewForbiddenError; ClarificationStaleError;
   UnknownClarificationQuestionError; ClarificationAlreadyAnsweredError;
   SessionNotReviewableError; DiagnosisReviewInvalidError;
   InvalidEvidenceReferenceError; RootCauseOverrideReasonRequiredError;
   CaseNotFoundError; CaseNotEditableError; CaseNotReadyError;
   CaseStateConflictError; CaseVersionConflictError; CaseReviewConflictError;
   CaseIndexFailedError; CaseNotIndexedError; IdempotencyConflictError;
   DependencyTimeoutError; UnsupportedIntentError; RagError;
   DocumentTypeUnsupportedError; DocumentTooLargeError; DocumentHashConflictError;
   DocumentParseError; OcrRequiredError; MinioUnavailableError;
   MinioChecksumMismatchError; EmbeddingUnavailableError; EmbeddingDimensionError;
   EmbeddingResponseError; MilvusUnavailableError; MilvusSchemaMismatchError;
   VectorSearchError; RerankerUnavailableError; RerankerResponseError;
   RetrievalChannelsFailedError; IndexJobNotFoundError; IndexJobStateConflictError;
   RabbitMQUnavailableError; GraphUnavailableError; TemplateNotFoundDomainError].

Lemma code_lookup c :
  find_first (fun d => bool_decide (code d = code c)) error_classes = Some c.
Proof. destruct c; vm_compute; reflexivity. Qed.

(** the API's error codes identify the exception class: no two classes of
    the hierarchy share a code. *)
Theorem code_injective : forall c d, code c = code d -> c = d.
Proof.
  intros c d H. pose proof (code_lookup c) as Hc. rewrite H, code_lookup in Hc.
  by injection Hc.
Qed.

Lemma code_injective_witness : code CaseNotFoundError = code CaseNotFoundError /\
  CaseNotFoundError = CaseNotFoundError.
Proof. split; [reflexivity|]. apply code_injective. reflexivity. Defined.

(** a client sees a retryable error exactly under the statuses 429, 503 and
    504; every other status is final, and no exception class is left without
    one of the nine statuses. *)
Theorem retryable_statuses : forall c,
  (retryable c = true <-> http_status c ∈ [429; 503; 504]%Z) /\
  http_status c ∈ [400; 401; 403; 404; 409; 422; 429; 503; 504]%Z.
Proof.
  intros c.
  rewrite <- (bool_decide_spec (http_status c ∈ [429; 503; 504]%Z)),
    <- (bool_decide_spec (http_status c ∈ [400; 401; 403; 404; 409; 422; 429; 503; 504]%Z)).
  destruct c; vm_compute; repeat split; (discriminate || tauto).
Qed.

(** the status is inherited: below a class that fixes it, a subclass is
    answered with the status of its base. *)
Theorem status_inherited : forall c b,
  base c = Some b -> b <> DomainError ->
  http_status c = http_status b.
Proof.
  intros c b Hb H1. destruct c; simpl in Hb; try discriminate Hb;
    injection Hb as <-; try (by vm_compute); by destruct H1.
Qed.

Lemma status_inherited_witness :
  base CaseVersionConflictError = Some ConflictError /\
  http_status CaseVersionConflictError = 409%Z.
Proof.
  split; [reflexivity|].
  rewrite (status_inherited CaseVersionConflictError ConflictError);
    [reflexivity|reflexivity|discriminate].
Defined.
