(* ===== verification/Breaker.v ===== *)
(** * Circuit breakers

    [reliability/circuit_breaker.py], [policies.py], [contracts.py] and
    [registry.py].  Clock readings are integers of a fixed unit (nanoseconds);
    an operation that reads the clock takes its readings as arguments, in the
    order it makes them. *)

From S2P Require Import Prelude Errors.
Open Scope Z_scope.

(** [reliability/contracts.py:13-16 CircuitState] *)
Inductive CircuitState : Type := CLOSED | OPEN | HALF_OPEN.

#[export] Instance CircuitState_eq_dec : EqDecision CircuitState.
Proof. solve_decision. Defined.

(** [reliability/policies.py:4-7 CircuitBreakerPolicy] *)
Record CircuitBreakerPolicy := mkPolicy {
  failure_threshold : Z;
  recovery_timeout : Z;
}.

Definition default_policy : CircuitBreakerPolicy := mkPolicy 3 (30 * 10 ^ 9).

(** [reliability/policies.py:10-12 DEPENDENCIES] *)
Definition DEPENDENCIES : list string :=
  ["model"; "influxdb"; "embedding"; "milvus"; "reranker"; "neo4j"; "rabbitmq"].

(** The attributes of a [CircuitBreaker]; [gauge] is the value of the metric
    CIRCUIT_BREAKER_STATE, in thousandths.
    [reliability/circuit_breaker.py:14-27 CircuitBreaker.__init__] *)
Record CircuitBreaker := mkBreaker {
  policy : CircuitBreakerPolicy;
  state : CircuitState;
  failure_count : Z;
  opened_at : option Z;
  half_open_probe_active : bool;
  gauge : Z;
}.

#[export] Instance CircuitBreaker_eta : Eta CircuitBreaker := fun b =>
  mkBreaker (policy b) (state b) (failure_count b) (opened_at b)
    (half_open_probe_active b) (gauge b).

(** [reliability/circuit_breaker.py:29-35 CircuitBreaker._publish_state] *)
Definition state_value (s : CircuitState) : Z :=
  match s with CLOSED => 0 | HALF_OPEN => 500 | OPEN => 1000 end.
Definition publish_state (b : CircuitBreaker) : CircuitBreaker :=
  b <| gauge := state_value (state b) |>.

Definition new_breaker (p : CircuitBreakerPolicy) : CircuitBreaker :=
  publish_state (mkBreaker p CLOSED 0 None false 0).

(** [allow]: [true] where the call returns, [false] where it raises
    CircuitOpenError.  [t1] is the reading stored when [opened_at] is unset,
    [t2] the reading compared with the recovery timeout.
    [reliability/circuit_breaker.py:37-50 CircuitBreaker.allow] *)
Definition allow (t1 t2 : Z) (b : CircuitBreaker) : CircuitBreaker * bool :=
  let probe (b : CircuitBreaker) :=
    if half_open_probe_active b then (b, false)
    else (b <| half_open_probe_active := true |>, true) in
  match state b with
  | CLOSED => (b, true)
  | OPEN =>
      let since := default t1 (opened_at b) in
      let b := b <| opened_at := Some since |> in
      if t2 - since <? recovery_timeout (policy b) then (b, false)
      else probe (publish_state (b <| state := HALF_OPEN |>)
                  <| half_open_probe_active := false |>)
  | HALF_OPEN => probe b
  end.

(** [reliability/circuit_breaker.py:52-57 CircuitBreaker.record_success] *)
Definition record_success (b : CircuitBreaker) : CircuitBreaker :=
  publish_state
    (b <| state := CLOSED |> <| failure_count := 0 |> <| opened_at := None |>
       <| half_open_probe_active := false |>).

(** [reliability/circuit_breaker.py:59-71 CircuitBreaker.record_failure] *)
Definition record_failure (t : Z) (countable : bool) (b : CircuitBreaker) : CircuitBreaker :=
  if negb countable then b <| half_open_probe_active := false |>
  else
    let b := b <| failure_count ::= Z.succ |> in
    let b :=
      if bool_decide (state b = HALF_OPEN)
         || (failure_threshold (policy b) <=? failure_count b)
      then b <| state := OPEN |> <| opened_at := Some t |>
      else b in
    publish_state (b <| half_open_probe_active := false |>).

(** [reliability/contracts.py:19-24 BreakerSnapshot] *)
Record BreakerSnapshot := mkSnapshot {
  snap_dependency : string;
  snap_state : CircuitState;
  snap_failure_count : Z;
  snap_opened_at : option Z;
}.
(** [reliability/circuit_breaker.py:73-79 CircuitBreaker.snapshot] *)
Definition snapshot (dep : string) (b : CircuitBreaker) : BreakerSnapshot :=
  mkSnapshot dep (state b) (failure_count b) (opened_at b).

(** The registry is a dict from dependency names to breakers.
    [reliability/registry.py:6-7 CircuitBreakerRegistry.__init__] *)
Definition new_registry (p : CircuitBreakerPolicy) : gmap string CircuitBreaker :=
  list_to_map (map (fun name => (name, new_breaker p)) DEPENDENCIES).
(** An unknown dependency raises ValueError.
    [reliability/registry.py:9-13 CircuitBreakerRegistry.get] *)
Definition registry_get (r : gmap string CircuitBreaker) (dep : string)
  : outcome exn CircuitBreaker :=
  match r !! dep with Some b => Ok b | None => Raise ValueError end.

(** ** The events a breaker sees *)

Inductive event : Type :=
| Allow (t1 t2 : Z)
| Success
| Failure (t : Z) (countable : bool).

Definition step (b : CircuitBreaker) (e : event) : CircuitBreaker :=
  match e with
  | Allow t1 t2 => fst (allow t1 t2 b)
  | Success => record_success b
  | Failure t countable => record_failure t countable b
  end.
Definition run (b : CircuitBreaker) (es : list event) : CircuitBreaker := fold_left step es b.

(** ** The contract: an abstract breaker

    [Closed n]: n countable failures since the last success, below the
    threshold; [Tripped t n]: refusing calls since [t]; [Trial p n]: half
    open, [p] says whether the trial call is out. *)
Inductive abstract : Type :=
| Closed (n : Z)
| Tripped (since n : Z)
| Trial (probing : bool) (n : Z).

Definition abs_allow (p : CircuitBreakerPolicy) (t2 : Z) (a : abstract) : abstract * bool :=
  match a with
  | Closed n => (Closed n, true)
  | Tripped since n =>
      if t2 - since <? recovery_timeout p then (a, false) else (Trial true n, true)
  | Trial true n => (a, false)
  | Trial false n => (Trial true n, true)
  end.

Definition abs_step (p : CircuitBreakerPolicy) (a : abstract) (e : event) : abstract :=
  match e, a with
  | Allow _ t2, _ => fst (abs_allow p t2 a)
  | Success, _ => Closed 0
  | Failure _ false, Trial _ n => Trial false n
  | Failure _ false, _ => a
  | Failure t true, Closed n =>
      if failure_threshold p <=? n + 1 then Tripped t (n + 1) else Closed (n + 1)
  | Failure t true, Tripped since n =>
      if failure_threshold p <=? n + 1 then Tripped t (n + 1) else Tripped since (n + 1)
  | Failure t true, Trial _ n => Tripped t (n + 1)
  end.

(** The concrete breaker represents the abstract one. *)
Definition represents (b : CircuitBreaker) (a : abstract) : Prop :=
  gauge b = state_value (state b) /\
  match a with
  | Closed n => state b = CLOSED /\ failure_count b = n /\ opened_at b = None
                /\ half_open_probe_active b = false
  | Tripped since n => state b = OPEN /\ failure_count b = n /\ opened_at b = Some since
                       /\ half_open_probe_active b = false
  | Trial p n => state b = HALF_OPEN /\ failure_count b = n
                 /\ half_open_probe_active b = p
  end.

Ltac breaker_cases b := destruct b as [p s n o h g]; simpl in *.

Lemma step_policy b e : policy (step b e) = policy b.
Proof.
  breaker_cases b. destruct e as [t1 t2| |t c]; simpl; unfold allow, record_failure; simpl.
  - destruct s; simpl; [done| |by destruct h].
    by destruct (_ <? _).
  - done.
  - destruct c; simpl; [|done]. by destruct (_ || _).
Qed.

Lemma represents_new p : represents (new_breaker p) (Closed 0).
Proof. done. Qed.

Lemma allow_refines t1 t2 b a : represents b a ->
  represents (fst (allow t1 t2 b)) (fst (abs_allow (policy b) t2 a)) /\
  snd (allow t1 t2 b) = snd (abs_allow (policy b) t2 a).
Proof.
  breaker_cases b. unfold represents, allow; simpl. intros [Hg Ha].
  destruct a as [m|since m|pr m]; simpl in Ha; destruct_and!; subst; simpl.
  - done.
  - by destruct (_ <? _).
  - by destruct pr.
Qed.

Lemma step_refines b a e : represents b a -> represents (step b e) (abs_step (policy b) a e).
Proof.
  intros H. destruct e as [t1 t2| |t c].
  - by apply allow_refines.
  - by destruct b.
  - breaker_cases b. unfold represents, record_failure in *; simpl in *.
    destruct H as [Hg Ha].
    destruct a as [m|since m|pr m]; simpl in Ha; destruct_and!; subst; destruct c; simpl;
      try done; unfold Z.succ; by destruct (_ <=? _).
Qed.

Lemma run_refines es b a : represents b a ->
  policy (run b es) = policy b /\
  represents (run b es) (fold_left (abs_step (policy b)) es a).
Proof.
  revert b a. induction es as [|e es IH]; intros b a Ha; [done|]. simpl.
  destruct (IH _ _ (step_refines _ _ e Ha)) as [Hp Hr].
  rewrite step_policy in Hp, Hr. done.
Qed.

(** C39: refinement.  A breaker driven by any sequence of admissions, successes
    and failures from its construction represents the abstract breaker driven
    by the same sequence, and admits the next call exactly when the abstract
    one does; in particular its gauge always shows its state and an OPEN
    breaker always knows since when it is open. *)
Theorem breaker_refines_contract p es t1 t2 :
  let b := run (new_breaker p) es in
  let a := fold_left (abs_step p) es (Closed 0) in
  represents b a /\ snd (allow t1 t2 b) = snd (abs_allow p t2 a).
Proof.
  destruct (run_refines es _ _ (represents_new p)) as [Hp Ha]. simpl in Hp, Ha.
  split; [done|]. destruct (allow_refines t1 t2 _ _ Ha) as [_ ->]. by rewrite Hp.
Qed.

(** while the recovery timeout has not elapsed since the breaker opened,
    [allow] refuses every call and changes nothing. *)
Theorem open_rejects t1 t2 b since :
  state b = OPEN -> opened_at b = Some since ->
  t2 - since < recovery_timeout (policy b) ->
  allow t1 t2 b = (b, false).
Proof.
  breaker_cases b. intros -> -> Hlt. unfold allow; simpl.
  by rewrite (proj2 (Z.ltb_lt _ _) Hlt).
Qed.

(** half open, at most one trial call is out: after one admission every
    further [allow] is refused until an outcome is recorded. *)
Theorem single_probe t1 t2 t1' t2' b :
  state b <> CLOSED -> snd (allow t1 t2 b) = true ->
  state (fst (allow t1 t2 b)) = HALF_OPEN /\
  allow t1' t2' (fst (allow t1 t2 b)) = (fst (allow t1 t2 b), false).
Proof.
  breaker_cases b. unfold allow; simpl.
  destruct s; simpl; intros Hs; [done| |].
  - by destruct (_ <? _).
  - by destruct h.
Qed.

Lemma failures_below p es n :
  Forall (fun e => exists t, e = Failure t true) es ->
  0 <= n -> n + Z.of_nat (length es) < failure_threshold p ->
  fold_left (abs_step p) es (Closed n) = Closed (n + Z.of_nat (length es)).
Proof.
  intros Hes. revert n. induction Hes as [|e es [t ->] _ IH]; intros n Hn Hlt; simpl in *.
  - f_equal. lia.
  - rewrite (proj2 (Z.leb_gt _ _)) by lia. rewrite IH by lia. f_equal. lia.
Qed.

(** a closed breaker opens exactly at the threshold: k consecutive
    countable failures leave a fresh breaker closed when k is below the
    threshold and open, since the last of them, when k reaches it. *)
Theorem opens_at_threshold p es t :
  1 <= failure_threshold p ->
  Forall (fun e => exists t, e = Failure t true) es ->
  Z.of_nat (length es) + 1 <= failure_threshold p ->
  let b := run (new_breaker p) (es ++ [Failure t true]) in
  (Z.of_nat (length es) + 1 < failure_threshold p -> state b = CLOSED) /\
  (Z.of_nat (length es) + 1 = failure_threshold p ->
     state b = OPEN /\ opened_at b = Some t).
Proof.
  intros Hth Hes Hle b.
  destruct (run_refines (es ++ [Failure t true]) _ _ (represents_new p)) as [_ [_ Hb]].
  fold b in Hb. simpl in Hb. rewrite fold_left_app, (failures_below p es 0), Z.add_0_l in Hb
    by (done || lia). simpl in Hb.
  destruct (failure_threshold p <=? Z.of_nat (length es) + 1) eqn:E;
    [apply Z.leb_le in E | apply Z.leb_gt in E];
    simpl in Hb; destruct Hb as (? & ? & ? & ?); split; intros; (lia || done).
Qed.

Definition tripped_example : CircuitBreaker :=
  run (new_breaker default_policy) [Failure 1 true; Failure 2 true; Failure 3 true].

Lemma open_rejects_witness :
  allow 0 4 tripped_example = (tripped_example, false).
Proof. apply (open_rejects 0 4 tripped_example 3); reflexivity. Defined.

Lemma single_probe_witness :
  let t := 31 * 10 ^ 9 in
  state (fst (allow t t tripped_example)) = HALF_OPEN /\
  allow t t (fst (allow t t tripped_example)) = (fst (allow t t tripped_example), false).
Proof. apply (single_probe _ _ _ _ tripped_example); [discriminate|reflexivity]. Defined.

Lemma opens_at_threshold_witness :
  let b := run (new_breaker default_policy) ([Failure 1 true; Failure 2 true] ++ [Failure 9 true]) in
  (Z.of_nat 2 + 1 < 3 -> state b = CLOSED) /\
  (Z.of_nat 2 + 1 = 3 -> state b = OPEN /\ opened_at b = Some 9).
Proof.
  apply (opens_at_threshold default_policy [Failure 1 true; Failure 2 true] 9);
    [vm_compute; discriminate|repeat constructor; eexists; reflexivity|vm_compute; discriminate].
Defined.
