(* ===== verification/Tools.v ===== *)
(** * The tool executor

    [tools/executor.py], [tools/policies.py], [tools/registry.py] and the
    results of [tools/contracts.py].  What the handlers and the log answer is an
    argument of the model; clock readings are nanoseconds. *)

From S2P Require Import Prelude Errors Breaker.
Open Scope Z_scope.

(** An exception that escapes: an [Exception], or the cancellation of the task,
    which [except Exception] does not catch. *)
Inductive abort : Type :=
| Exc (e : exn)
| Cancelled.

(** [try: m] [except Exception as e: h e] *)
Definition except {S A} (m : M S abort A) (h : exn -> M S abort A) : M S abort A :=
  catch m (fun a => match a with Exc e => h e | Cancelled => raise Cancelled end).

(** [tools/contracts.py:9-15 ToolStatus] *)
Inductive ToolStatus : Type := TOOL_OK | PARTIAL_SUCCESS | NOT_FOUND | TIMEOUT | DEGRADED | FAILED.
#[export] Instance ToolStatus_eq_dec : EqDecision ToolStatus.
Proof. solve_decision. Defined.

Definition status_value (s : ToolStatus) : string :=
  match s with
  | TOOL_OK => "OK" | PARTIAL_SUCCESS => "PARTIAL_SUCCESS" | NOT_FOUND => "NOT_FOUND"
  | TIMEOUT => "TIMEOUT" | DEGRADED => "DEGRADED" | FAILED => "FAILED"
  end.

(** [tools/contracts.py:30-38 ToolMeta] *)
Record ToolMeta := mkMeta {
  tm_trace_id : string;
  source_system : string;
  provider_type : string;
  partial_result : bool;
  latency_ms : Z;
  attempts : Z;
  meta_retryable : bool;
  retrieval_mode : option string;
}.
#[export] Instance ToolMeta_eta : Eta ToolMeta := fun m =>
  mkMeta (tm_trace_id m) (source_system m) (provider_type m) (partial_result m) (latency_ms m)
    (attempts m) (meta_retryable m) (retrieval_mode m).

(** [tools/contracts.py:41-61 ToolResult] *)
Record ToolResult (Data : Type) := mkToolResult {
  success : bool;
  tr_status : ToolStatus;
  data : option Data;
  meta : ToolMeta;
  error_code : string;
  error_message : string;
  tr_warnings : list string;
}.
Arguments mkToolResult {Data}.
Arguments success {Data}.
Arguments tr_status {Data}.
Arguments data {Data}.
Arguments meta {Data}.
Arguments error_code {Data}.
Arguments error_message {Data}.
Arguments tr_warnings {Data}.
#[export] Instance ToolResult_eta Data : Eta (ToolResult Data) := fun r =>
  mkToolResult (success r) (tr_status r) (data r) (meta r) (error_code r) (error_message r)
    (tr_warnings r).

(** [schema] says whether the arguments validate; the handler is [handle] of the
    world below.  [tools/registry.py:11-21 ToolRegistration] *)
Record ToolRegistration (Args : Type) := mkRegistration {
  schema : Args -> bool;
  dependency : option string;
  read_only : bool;
  requires_human_action : bool;
}.
Arguments mkRegistration {Args}.
Arguments schema {Args}.
Arguments dependency {Args}.
Arguments read_only {Args}.
Arguments requires_human_action {Args}.

(** [tools/policies.py:1-1 MAX_TOOL_CALLS_PER_RUN] *)
Definition MAX_TOOL_CALLS_PER_RUN : Z := 8.
(** [tools/policies.py:2-2 DEFAULT_MAX_ATTEMPTS] *)
Definition DEFAULT_MAX_ATTEMPTS : Z := 2.

(** [tools/executor.py:128-141 ToolExecutor._failure] *)
Definition failure {Data} (trace_id code : string) (s : ToolStatus) (n : Z) : ToolResult Data :=
  mkToolResult false s None
    (mkMeta trace_id "energy-agent" "real" false 0 n
       (bool_decide (s = TIMEOUT \/ s = DEGRADED)) None)
    code code [].

(** What the handlers, the tool log and the clock answer: the n-th invocation of a
    handler (with [asyncio.wait_for], so that it may time out), the n-th log
    entry, the n-th clock reading. *)
Class ToolWorld (Args Data : Type) := mkToolWorld {
  handle : nat -> string -> Args -> outcome abort (ToolResult Data);
  log_answer : nat -> outcome abort unit;
  clock : nat -> Z;
}.

(** The executor, the breakers it shares, and the history of handler
    invocations and log entries.
    [tools/executor.py:25-36 ToolExecutor.__init__] *)
Record ToolExecutor (Args Data : Type) := mkExecutor {
  registry : gmap string (ToolRegistration Args);
  calls : Z;
  circuit_breakers : option (gmap string CircuitBreaker);
  invoked : list (string * Args);
  logged : list (string * ToolResult Data);
  readings : nat;
}.
Arguments mkExecutor {Args Data}.
Arguments registry {Args Data}.
Arguments calls {Args Data}.
Arguments circuit_breakers {Args Data}.
Arguments invoked {Args Data}.
Arguments logged {Args Data}.
Arguments readings {Args Data}.
#[export] Instance ToolExecutor_eta Args Data : Eta (ToolExecutor Args Data) := fun x =>
  mkExecutor (registry x) (calls x) (circuit_breakers x) (invoked x) (logged x) (readings x).

Section Executor.
Context {Args Data : Type} `{W : ToolWorld Args Data}.
Abbreviation X := (M (ToolExecutor Args Data) abort).

(** [ToolExecutor(registry, tracer, tool_logger, circuit_breakers)]. *)
Definition new_executor (r : gmap string (ToolRegistration Args))
  (bs : option (gmap string CircuitBreaker)) : ToolExecutor Args Data :=
  mkExecutor r 0 bs [] [] 0.

Definition monotonic : X Z :=
  n <- gets readings ;;
  modify (fun x => x <| readings := S n |>) ;;; ret (clock n).

Definition liftO {A} (o : outcome abort A) : X A :=
  match o with Ok a => ret a | Raise e => raise e end.

Definition invoke (name : string) (payload : Args) : X (ToolResult Data) :=
  n <- gets (fun x => length (invoked x)) ;;
  modify (fun x => x <| invoked ::= fun l => l ++ [(name, payload)] |>) ;;;
  liftO (handle n name payload).

Definition tool_logger (name : string) (r : ToolResult Data) : X unit :=
  n <- gets (fun x => length (logged x)) ;;
  modify (fun x => x <| logged ::= fun l => l ++ [(name, r)] |>) ;;;
  liftO (log_answer n).

(** The breaker of a dependency is an object of the registry. *)
Definition on_breaker (dep : option string) (f : CircuitBreaker -> CircuitBreaker) : X unit :=
  match dep with
  | Some d => modify (fun x => x <| circuit_breakers ::= fmap (alter f d) |>)
  | None => ret tt
  end.

Definition record_verdict (dep : option string) (ok : bool) : X unit :=
  if ok then on_breaker dep record_success
  else t <- monotonic ;; on_breaker dep (record_failure t true).

Definition bad_status (s : ToolStatus) : bool :=
  match s with TIMEOUT | DEGRADED | FAILED => true | _ => false end.

Definition elapsed (started : Z) : X Z :=
  t <- monotonic ;; ret (Z.quot (t - started) 1000000).

(** The failure a caught exception is answered with. *)
Definition answer_failure (name : string) (dep : option string) (started : Z)
  (r : ToolResult Data) : X (option (ToolResult Data)) :=
  ms <- elapsed started ;;
  let r := r <| meta ::= fun m => m <| latency_ms := ms |> |> in
  tool_logger name r ;;;
  record_verdict dep false ;;;
  ret (Some r).

(** One turn of the loop: [None] is the next attempt. *)
Definition attempt (name : string) (payload : Args) (trace_id : string) (dep : option string)
  (started n : Z) : X (option (ToolResult Data)) :=
  except
    (r <- invoke name payload ;;
     ms <- elapsed started ;;
     let r := r <| meta ::= fun m => m <| attempts := n |> <| latency_ms := ms |> |> in
     tool_logger name r ;;;
     record_verdict dep (negb (bad_status (tr_status r))) ;;;
     ret (Some r))
    (fun e =>
       match e with
       | TimeoutError | ConnectionError =>
           if n =? DEFAULT_MAX_ATTEMPTS then
             answer_failure name dep started
               (failure trace_id "TOOL_TIMEOUT"
                  (match e with TimeoutError => TIMEOUT | _ => DEGRADED end) n)
           else ret None
       | _ =>
           answer_failure name dep started
             (failure trace_id "TOOL_PROVIDER_FAILED" FAILED 1)
       end).

(** [for attempt in range(1, DEFAULT_MAX_ATTEMPTS + 1)]. *)
Fixpoint attempts_from (left : nat) (name : string) (payload : Args) (trace_id : string)
  (dep : option string) (started n : Z) : X (ToolResult Data) :=
  match left with
  | O => ret (failure trace_id "TOOL_PROVIDER_FAILED" FAILED 1)
  | S left' =>
      o <- attempt name payload trace_id dep started n ;;
      match o with
      | Some r => ret r
      | None => attempts_from left' name payload trace_id dep started (n + 1)
      end
  end.

(** The dependency whose breaker guards the call, if there is one. *)
Definition guarded (reg : ToolRegistration Args) : X (option string) :=
  bs <- gets circuit_breakers ;;
  match dependency reg, bs with
  | Some d, Some bs =>
      if str_true d then
        match registry_get bs d with
        | Ok _ => ret (Some d)
        | Raise e => raise (Exc e)
        end
      else ret None
  | _, _ => ret None
  end.

(** [breaker.allow()]: [false] where it raises CircuitOpenError. *)
Definition allow_call (dep : option string) : X bool :=
  match dep with
  | None => ret true
  | Some d =>
      bs <- gets circuit_breakers ;;
      match bs ≫= lookup d with
      | None => ret true
      | Some b =>
          t1 <- monotonic ;; t2 <- monotonic ;;
          on_breaker dep (fun b => fst (allow t1 t2 b)) ;;;
          ret (snd (allow t1 t2 b))
      end
  end.

(** [tools/executor.py:42-126 ToolExecutor.execute] *)
Definition execute (name : string) (arguments : Args) (trace_id : string) : X (ToolResult Data) :=
  modify (fun x => x <| calls ::= Z.succ |>) ;;;
  n <- gets calls ;;
  if MAX_TOOL_CALLS_PER_RUN <? n then ret (failure trace_id "TOOL_BUDGET_EXCEEDED" FAILED 1)
  else
    r <- gets registry ;;
    match r !! name with
    | None => ret (failure trace_id "TOOL_NOT_AVAILABLE" DEGRADED 1)
    | Some reg =>
        if negb (schema reg arguments) then ret (failure trace_id "TOOL_ARGUMENT_INVALID" FAILED 1)
        else
          dep <- guarded reg ;;
          ok <- allow_call dep ;;
          if negb ok then ret (failure trace_id "CIRCUIT_OPEN" DEGRADED 1)
          else
            started <- monotonic ;;
            attempts_from (Z.to_nat DEFAULT_MAX_ATTEMPTS) name arguments trace_id dep started 1
    end.
End Executor.

(** ** The budget *)

Section Budget.
Context {Args Data : Type} `{W : ToolWorld Args Data}.
Context (name : string) (payload : Args).

(** At most [k] invocations of the handler with the payload, and nothing else
    that counts. *)
Definition spends (k : nat) (x x' : ToolExecutor Args Data) : Prop :=
  calls x' = calls x /\ registry x' = registry x
  /\ exists n, (n <= k)%nat /\ invoked x' = invoked x ++ replicate n (name, payload).
Definition costs {A} (k : nat) (m : M (ToolExecutor Args Data) abort A) : Prop :=
  forall x, spends k x (fst (m x)).

Lemma spends_trans k l x y z : spends k x y -> spends l y z -> spends (k + l) x z.
Proof.
  intros (Hc & Hr & n & Hn & Hi) (Hc' & Hr' & n' & Hn' & Hi'). split_and!; [congruence..|].
  exists (n + n')%nat. split; [lia|]. by rewrite Hi', Hi, replicate_add, app_assoc.
Qed.

Lemma spends_weaken k l x y : (k <= l)%nat -> spends k x y -> spends l x y.
Proof. intros Hl (? & ? & n & ? & ?). split_and!; [done..|]. exists n. split; [lia|done]. Qed.

Lemma spends_refl x : spends 0 x x.
Proof. split_and!; [done..|]. exists 0%nat. split; [done|]. by rewrite app_nil_r. Qed.

Lemma costs_bind {A B} k l (m : M _ abort A) (f : A -> M _ abort B) :
  costs k m -> (forall a, costs l (f a)) -> costs (k + l) (bind m f).
Proof.
  intros Hm Hf x. specialize (Hm x). unfold bind. destruct (m x) as [x' [a|e]]; simpl in *.
  - by eapply spends_trans; [|apply Hf].
  - eapply spends_weaken; [|done]. lia.
Qed.

Lemma costs_bind0 {A B} k (m : M _ abort A) (f : A -> M _ abort B) :
  costs 0 m -> (forall a, costs k (f a)) -> costs k (bind m f).
Proof. apply (costs_bind 0). Qed.

Lemma costs_except {A} k l (m : M _ abort A) h :
  costs k m -> (forall e, costs l (h e)) -> costs (k + l) (except m h).
Proof.
  intros Hm Hh x. specialize (Hm x). unfold except, catch.
  destruct (m x) as [x' [a|[e|]]]; simpl in *.
  - eapply spends_weaken; [|done]. lia.
  - by eapply spends_trans; [|apply Hh].
  - eapply spends_weaken; [|done]. lia.
Qed.

Lemma costs_ret {A} (a : A) : costs 0 (ret a).
Proof. intros x. apply spends_refl. Qed.
Lemma costs_raise {A} (e : abort) : costs 0 (raise (A := A) e).
Proof. intros x. apply spends_refl. Qed.
Lemma costs_gets {A} (f : _ -> A) : costs 0 (gets f).
Proof. intros x. apply spends_refl. Qed.
Lemma costs_free (f : ToolExecutor Args Data -> ToolExecutor Args Data) :
  (forall x, calls (f x) = calls x /\ registry (f x) = registry x /\ invoked (f x) = invoked x) ->
  costs 0 (modify f).
Proof.
  intros Hf x. destruct (Hf x) as (H1 & H2 & H3). split_and!; [done..|]. exists 0%nat.
  split; [done|]. by rewrite app_nil_r.
Qed.
Lemma costs_lift {A} (o : outcome abort A) : costs 0 (liftO o).
Proof. destruct o; [apply costs_ret|apply costs_raise]. Qed.

Lemma costs_monotonic : costs 0 monotonic.
Proof.
  apply costs_bind0; [apply costs_gets|]. intros n. apply costs_bind0; [|intros; apply costs_ret].
  by apply costs_free.
Qed.

Lemma costs_log n r : costs 0 (tool_logger n r).
Proof.
  apply costs_bind0; [apply costs_gets|]. intros i. apply costs_bind0; [|intros; apply costs_lift].
  by apply costs_free.
Qed.

Lemma costs_breaker dep f : costs 0 (on_breaker dep f).
Proof. destruct dep; [|apply costs_ret]. by apply costs_free. Qed.

Lemma costs_verdict dep ok : costs 0 (record_verdict dep ok).
Proof.
  destruct ok; [apply costs_breaker|]. apply costs_bind0; [apply costs_monotonic|].
  intros. apply costs_breaker.
Qed.

Lemma costs_elapsed s : costs 0 (elapsed s).
Proof. apply costs_bind0; [apply costs_monotonic|]. intros. apply costs_ret. Qed.

Ltac cheap :=
  repeat first
    [ solve [auto using costs_elapsed, costs_log, costs_verdict, costs_ret, costs_monotonic,
                        costs_breaker, costs_gets, costs_raise]
    | apply costs_bind0; [|intros; cbv zeta] ].

Lemma costs_answer n dep s r : costs 0 (answer_failure n dep s r).
Proof. unfold answer_failure. cheap. Qed.

Lemma costs_invoke : costs 1 (invoke name payload).
Proof.
  apply costs_bind0; [apply costs_gets|]. intros n. apply (costs_bind 1 0); [|intros; apply costs_lift].
  intros x. split_and!; [done..|]. by exists 1%nat.
Qed.

Lemma costs_attempt t dep s n : costs 1 (attempt name payload t dep s n).
Proof.
  apply (costs_except 1 0).
  - apply (costs_bind 1 0); [apply costs_invoke|]. intros r.
    cheap.
  - intros e. destruct e; try apply costs_answer;
      (destruct (n =? _); [apply costs_answer|apply costs_ret]).
Qed.

Lemma costs_attempts left t dep s n : costs left (attempts_from left name payload t dep s n).
Proof.
  revert n. induction left as [|left IH]; intros n; simpl; [apply costs_ret|].
  apply (costs_bind 1 left); [apply costs_attempt|]. intros [r|]; [|apply IH].
  intros x. eapply spends_weaken, spends_refl. lia.
Qed.

Lemma costs_guarded reg : costs 0 (guarded reg).
Proof.
  apply costs_bind0; [apply costs_gets|]. intros bs. repeat case_match;
    auto using costs_ret, costs_raise.
Qed.

Lemma costs_allow dep : costs 0 (allow_call dep).
Proof.
  destruct dep; [|apply costs_ret]. apply costs_bind0; [apply costs_gets|]. intros bs.
  case_match; [|apply costs_ret].
  cheap.
Qed.

(** One call: two attempts at most, and none once the budget is spent. *)
Lemma execute_spends t x :
  let x' := fst (execute name payload t x) in
  calls x' = calls x + 1 /\ registry x' = registry x
  /\ exists n, (n <= if (8 <=? calls x)%Z then 0 else 2)%nat
       /\ invoked x' = invoked x ++ replicate n (name, payload).
Proof.
  assert (Hc : costs 2 (r <- gets registry ;;
    match r !! name with
    | None => ret (failure t "TOOL_NOT_AVAILABLE" DEGRADED 1)
    | Some reg =>
        if negb (schema reg payload) then ret (failure t "TOOL_ARGUMENT_INVALID" FAILED 1)
        else
          dep <- guarded reg ;; ok <- allow_call dep ;;
          if negb ok then ret (failure t "CIRCUIT_OPEN" DEGRADED 1)
          else
            started <- monotonic ;;
            attempts_from (Z.to_nat DEFAULT_MAX_ATTEMPTS) name payload t dep started 1
    end)).
  { assert (Hr : forall r : ToolResult Data, costs 2 (ret r))
      by (intros r y; eapply spends_weaken, spends_refl; lia).
    apply costs_bind0; [apply costs_gets|]. intros r. destruct (r !! name) as [reg|]; [|done].
    destruct (negb _); [done|]. apply costs_bind0; [apply costs_guarded|]. intros dep.
    apply costs_bind0; [apply costs_allow|]. intros []; simpl; [|done].
    apply costs_bind0; [apply costs_monotonic|]. intros s.
    exact (costs_attempts (Z.to_nat DEFAULT_MAX_ATTEMPTS) t dep s 1). }
  unfold execute. rewrite bind_modify, bind_gets. simpl. unfold Z.succ.
  destruct (MAX_TOOL_CALLS_PER_RUN <? calls x + 1) eqn:Hb.
  - apply Z.ltb_lt in Hb. unfold MAX_TOOL_CALLS_PER_RUN in Hb. simpl. split_and!; [done..|].
    exists 0%nat. split; [lia|]. by rewrite app_nil_r.
  - apply Z.ltb_ge in Hb. unfold MAX_TOOL_CALLS_PER_RUN in Hb.
    destruct (Hc (x <| calls ::= Z.succ |>)) as (H1 & H2 & n & Hn & Hi). simpl in *.
    rewrite (proj2 (Z.leb_gt _ _)) by lia. split_and!; [done..|]. by exists n.
Qed.
End Budget.

(** A sequence of calls by one run of the workflow. *)
Definition execute_all {Args Data} `{ToolWorld Args Data} (t : string) (l : list (string * Args))
  : M (ToolExecutor Args Data) abort unit :=
  for_each (fun c => execute (fst c) (snd c) t ;;; ret tt) l.

(** the tool budget: whatever calls a run makes and however the handlers
    behave, the handlers are invoked sixteen times at most, twice for each of
    the first eight calls; later calls are refused without any effect. *)
Theorem tool_budget {Args Data} `{ToolWorld Args Data} r bs t l :
  let x := fst (execute_all t l (new_executor r bs)) in
  (length (invoked x) <= 16)%nat
  /\ forall name args, 8 <= calls x ->
       execute name args t x
       = (x <| calls ::= Z.succ |>, Ok (failure t "TOOL_BUDGET_EXCEEDED" FAILED 1)).
Proof.
  set (I := fun x : ToolExecutor Args Data =>
    0 <= calls x /\ Z.of_nat (length (invoked x)) <= 2 * Z.min (calls x) 8).
  assert (Hk : respects (keeps I) (execute_all t l)).
  { apply respects_for_each; [apply _|]. intros [name args]. simpl.
    apply respects_bind; [apply _| |intros; apply respects_ret, _]. intros y [Hy0 Hy].
    destruct (execute_spends name args t y) as (Hc & _ & n & Hn & Hi). unfold I.
    rewrite Hi, Hc, length_app, length_replicate. destruct (8 <=? calls y) eqn:E; lia. }
  intros x. specialize (Hk (new_executor r bs)). fold x in Hk.
  destruct Hk as [H0 Hl]; [by split|]. split; [lia|].
  intros name args Hc. unfold execute. rewrite bind_modify, bind_gets. simpl.
  by rewrite (proj2 (Z.ltb_lt _ _)) by (unfold MAX_TOOL_CALLS_PER_RUN; lia).
Qed.

(** ** Every call is answered *)

Section Answers.
Context {Args Data : Type} `{W : ToolWorld Args Data}.
(** The log works and nobody cancels the task. *)
Context (log_works : forall n, log_answer n = Ok tt).
Context (not_cancelled : forall n name payload, handle n name payload <> Raise Cancelled).

(** No trial call is out on any breaker other than that of [dep]. *)
Definition idle_but (dep : option string) (bs : option (gmap string CircuitBreaker)) : Prop :=
  forall m d b, bs = Some m -> m !! d = Some b -> Some d <> dep -> half_open_probe_active b = false.
Definition idle (x : ToolExecutor Args Data) : Prop := idle_but None (circuit_breakers x).

(** Returns and leaves the breakers alone. *)
Definition quiet {A} (m : M (ToolExecutor Args Data) abort A) : Prop :=
  forall x, exists x' a, m x = (x', Ok a) /\ circuit_breakers x' = circuit_breakers x.

Lemma quiet_bind {A B} (m : M (ToolExecutor Args Data) abort A) (k : A -> M _ abort B) :
  quiet m -> (forall a, quiet (k a)) -> quiet (bind m k).
Proof.
  intros Hm Hk x. destruct (Hm x) as (x1 & a & E & Hb). destruct (Hk a x1) as (x2 & b & E' & Hb').
  exists x2, b. rewrite (bind_ok _ _ _ _ _ E). split; [done|congruence].
Qed.

Lemma quiet_monotonic : quiet monotonic.
Proof. intros x. by do 2 eexists. Qed.
Lemma quiet_elapsed s : quiet (elapsed s).
Proof. intros x. by do 2 eexists. Qed.
Lemma quiet_log n r : quiet (tool_logger n r).
Proof.
  intros x. unfold tool_logger, bind, gets, modify. rewrite log_works. by do 2 eexists.
Qed.

Lemma breaker_settled f dep bs :
  (forall b, half_open_probe_active (f b) = false) ->
  idle_but dep bs ->
  idle_but None (match dep with Some d => fmap (alter f d) bs | None => bs end).
Proof.
  intros Hf Hi. destruct dep as [d|]; [|done]. intros m d' b Hm Hb _.
  destruct bs as [m0|]; [|done]. injection Hm as <-.
  destruct (decide (d = d')) as [->|Hne].
  - rewrite lookup_alter_eq in Hb. destruct (m0 !! d'); [|done]. injection Hb as <-. apply Hf.
  - rewrite lookup_alter_ne in Hb by done. apply (Hi m0 d' b eq_refl Hb). congruence.
Qed.

Lemma settled_failure t b : half_open_probe_active (record_failure t true b) = false.
Proof. unfold record_failure; simpl. by repeat case_match. Qed.

Lemma verdict_settles dep ok x :
  idle_but dep (circuit_breakers x) ->
  exists x', record_verdict dep ok x = (x', Ok tt) /\ idle x'.
Proof.
  intros Hi. unfold idle. destruct ok; unfold record_verdict.
  - exists (fst (on_breaker dep record_success x)). split; [by destruct dep|].
    pose proof (breaker_settled record_success dep _ (fun _ => eq_refl) Hi). by destruct dep.
  - pose proof (breaker_settled _ dep _ (settled_failure (clock (readings x))) Hi) as Hs.
    by destruct dep; (eexists; split; [reflexivity|]).
Qed.

(** A result the caller may take for a success comes from the handler. *)
Definition genuine (name : string) (payload : Args) (r : ToolResult Data) : Prop :=
  success r = true ->
  exists n r0, handle n name payload = Ok r0 /\ success r0 = true
    /\ data r = data r0 /\ tr_status r = tr_status r0.

Lemma answer_settles name dep s r x :
  idle_but dep (circuit_breakers x) ->
  exists x' r', answer_failure name dep s r x = (x', Ok (Some r')) /\ idle x'
    /\ success r' = success r.
Proof.
  intros Hi. unfold answer_failure.
  destruct (quiet_elapsed s x) as (x1 & ms & E1 & H1). rewrite (bind_ok _ _ _ _ _ E1). cbv zeta.
  match goal with |- context [tool_logger name ?r'] => set (r1 := r') end.
  destruct (quiet_log name r1 x1) as (x2 & [] & E2 & H2). rewrite (bind_ok _ _ _ _ _ E2).
  destruct (verdict_settles dep false x2) as (x3 & E3 & H3); [by rewrite H2, H1|].
  rewrite (bind_ok _ _ _ _ _ E3). by exists x3, r1.
Qed.

Lemma attempt_answers name payload t dep s n x :
  idle_but dep (circuit_breakers x) ->
  exists x' o, attempt name payload t dep s n x = (x', Ok o)
    /\ match o with
       | Some r => idle x' /\ genuine name payload r
       | None => idle_but dep (circuit_breakers x') /\ n <> DEFAULT_MAX_ATTEMPTS
       end.
Proof.
  intros Hi. unfold attempt, except.
  set (x0 := x <| invoked ::= fun l => l ++ [(name, payload)] |>).
  assert (Hinv : invoke name payload x = (x0, handle (length (invoked x)) name payload))
    by (unfold invoke, bind, gets, modify, liftO; by destruct (handle _ _ _)).
  pose proof (not_cancelled (length (invoked x)) name payload) as Hnc.
  destruct (handle _ _ _) as [r|[e|]] eqn:Hh; [| |done].
  - destruct (quiet_elapsed s x0) as (x1 & ms & E1 & H1).
    set (r1 := r <| meta ::= fun m => m <| attempts := n |> <| latency_ms := ms |> |>).
    destruct (quiet_log name r1 x1) as (x2 & [] & E2 & H2).
    destruct (verdict_settles dep (negb (bad_status (tr_status r1))) x2) as (x3 & E3 & H3);
      [by rewrite H2, H1|].
    exists x3, (Some r1). split; [|split; [done|by exists (length (invoked x)), r]].
    apply catch_ok. rewrite (bind_ok _ _ _ _ _ Hinv), (bind_ok _ _ _ _ _ E1). cbv zeta.
    fold r1. by rewrite (bind_ok _ _ _ _ _ E2), (bind_ok _ _ _ _ _ E3).
  - rewrite (catch_raise _ _ x x0 (Exc e)) by (by apply bind_raise).
    assert (Hanswer : forall code st k, exists x' o,
      answer_failure name dep s (failure t code st k) x0 = (x', Ok o)
      /\ match o with
         | Some r => idle x' /\ genuine name payload r
         | None => idle_but dep (circuit_breakers x') /\ n <> DEFAULT_MAX_ATTEMPTS
         end).
    { intros code st k. destruct (answer_settles name dep s (failure t code st k) x0 Hi)
        as (x1 & r1 & E1 & H1 & H2). exists x1, (Some r1). split_and!; [done..|].
      unfold genuine. by rewrite H2. }
    destruct e; auto; (destruct (Z.eqb_spec n DEFAULT_MAX_ATTEMPTS); [by auto|by exists x0, None]).
Qed.

Lemma attempts_answer name payload t dep s x :
  idle_but dep (circuit_breakers x) ->
  exists x' r, attempts_from (Z.to_nat DEFAULT_MAX_ATTEMPTS) name payload t dep s 1 x = (x', Ok r)
    /\ idle x' /\ genuine name payload r.
Proof.
  intros Hi. change (Z.to_nat DEFAULT_MAX_ATTEMPTS) with 2%nat. cbn [attempts_from].
  destruct (attempt_answers name payload t dep s 1 x Hi) as (x1 & [r|] & E1 & H1);
    rewrite (bind_ok _ _ _ _ _ E1); [by exists x1, r|]. destruct H1 as [H1 _].
  destruct (attempt_answers name payload t dep s (1 + 1) x1 H1) as (x2 & [r|] & E2 & H2);
    rewrite (bind_ok _ _ _ _ _ E2); [by exists x2, r|]. by destruct H2.
Qed.

(** [breaker.allow()] starts a trial call only on the breaker of the call. *)
Lemma allow_keeps dep x :
  idle x ->
  exists x' ok, allow_call dep x = (x', Ok ok)
    /\ (if ok then idle_but dep (circuit_breakers x') else idle x').
Proof.
  intros Hi. destruct dep as [d|]; [|by exists x, true]. unfold allow_call.
  rewrite bind_gets. destruct (circuit_breakers x ≫= lookup d) as [b|] eqn:Hb.
  - destruct (circuit_breakers x) as [m|] eqn:Hm; [|done]. simpl in Hb.
    assert (Hb0 : half_open_probe_active b = false).
    { eapply Hi; [by rewrite Hm|done|done]. }
    eexists _, _. split; [reflexivity|]. simpl. rewrite Hm. simpl.
    set (t1 := clock _). set (t2 := clock _).
    assert (Hother : forall m' d' b', alter (fun b => fst (allow t1 t2 b)) d m = m' ->
              m' !! d' = Some b' -> d' <> d -> half_open_probe_active b' = false).
    { intros m' d' b' <- Hl Hne. rewrite lookup_alter_ne in Hl by done.
      eapply Hi; [by rewrite Hm|done|done]. }
    destruct (snd (allow t1 t2 b)) eqn:Ha.
    + intros m' d' b' [= <-] Hl Hne. eapply Hother; [done..|congruence].
    + intros m' d' b' [= <-] Hl _. destruct (decide (d' = d)) as [->|]; [|by eapply Hother].
      rewrite lookup_alter_eq, Hb in Hl. injection Hl as <-. revert Ha. unfold allow.
      destruct (Breaker.state b); simpl; rewrite ?Hb0; [done| |done].
      case_match; simpl; by rewrite ?Hb0.
  - exists x, true. split; [done|]. intros m d' b' Hm Hl Hne. by eapply Hi.
Qed.

(** The registry knows the dependencies of the tools. *)
Definition known_dependencies (x : ToolExecutor Args Data) : Prop :=
  forall name reg d m, registry x !! name = Some reg -> dependency reg = Some d ->
    circuit_breakers x = Some m -> is_Some (m !! d).

End Answers.

(** ** A trial call that is cancelled *)

(** The breaker of [d] waits for the outcome of a trial call. *)
Definition probing {Args Data} (d : string) (x : ToolExecutor Args Data) : Prop :=
  exists m b, circuit_breakers x = Some m /\ m !! d = Some b
    /\ Breaker.state b = HALF_OPEN /\ half_open_probe_active b = true.

Lemma probing_refuses {Args Data} `{ToolWorld Args Data} d x :
  probing d x -> exists x', allow_call (Some d) x = (x', Ok false)
    /\ circuit_breakers x' = circuit_breakers x /\ invoked x' = invoked x.
Proof.
  intros (m & b & Hm & Hb & Hs & Hp).
  assert (Hal : forall t1 t2, allow t1 t2 b = (b, false))
    by (intros; unfold allow; by rewrite Hs, Hp).
  unfold allow_call. rewrite bind_gets, Hm. simpl. rewrite Hb.
  eexists. split; [unfold bind, monotonic, bind, gets, modify, ret; simpl; by rewrite Hal|].
  simpl. rewrite Hm. split; [|done]. simpl. f_equal. apply alter_id. intros b' Hb'.
  rewrite Hb in Hb'. injection Hb' as <-. by rewrite Hal.
Qed.

(** a trial call that never ends: once the task of a half-open breaker's trial
    call was cancelled, no outcome is recorded, and every later call of a tool
    with that dependency is refused, leaves the breaker as it is and does not
    reach the handler. *)
Theorem cancelled_probe_blocks_tool {Args Data} `{ToolWorld Args Data} d name reg args t x :
  probing d x -> registry x !! name = Some reg -> dependency reg = Some d -> d <> ""%string ->
  schema reg args = true -> calls x < 8 ->
  exists x', execute name args t x = (x', Ok (failure t "CIRCUIT_OPEN" DEGRADED 1))
    /\ probing d x' /\ invoked x' = invoked x.
Proof.
  intros Hprobe Hreg Hd Hne Hargs Hc. set (x0 := x <| calls ::= Z.succ |>).
  assert (Hprobe0 : probing d x0) by done.
  destruct (probing_refuses d x0 Hprobe0) as (x1 & Ha & Hb & Hi).
  exists x1. split; [|split; [|done]].
  - unfold execute. rewrite bind_modify, bind_gets. simpl.
    rewrite (proj2 (Z.ltb_ge _ _)) by (unfold MAX_TOOL_CALLS_PER_RUN; lia).
    rewrite bind_gets. simpl. rewrite Hreg, Hargs. simpl. fold x0.
    assert (Hg : guarded reg x0 = (x0, Ok (Some d))).
    { destruct Hprobe0 as (m & b & Hm & Hl & _). unfold guarded. rewrite bind_gets, Hd, Hm.
      unfold registry_get, str_true. rewrite Hl. by rewrite (bool_decide_eq_false_2 _ Hne). }
    by rewrite (bind_ok _ _ _ _ _ Hg), (bind_ok _ _ _ _ _ Ha).
  - destruct Hprobe0 as (m & b & Hm & Hl & Hs). exists m, b. by rewrite Hb.
Qed.

(** ** Examples *)

(** Handlers that time out, fail, or are cancelled by their arguments. *)
#[export] Instance demo_tools : ToolWorld string string := {|
  handle n name args :=
    if bool_decide (args = "slow") then Raise (Exc TimeoutError)
    else if bool_decide (args = "cancel") then Raise Cancelled
    else if bool_decide (args = "broken") then Raise (Exc RuntimeError)
    else Ok (mkToolResult true TOOL_OK (Some args)
               (mkMeta "t" "demo" "real" false 0 1 false None) "" "" []);
  log_answer _ := Ok tt;
  clock n := Z.of_nat n * 1000000000;
|}.
(** The same tools for a caller that stays. *)
Definition patient_tools : ToolWorld string string := {|
  handle n name args :=
    if bool_decide (args = "slow") then Raise (Exc TimeoutError)
    else Ok (mkToolResult true TOOL_OK (Some args)
               (mkMeta "t" "demo" "real" false 0 1 false None) "" "" []);
  log_answer _ := Ok tt;
  clock n := Z.of_nat n * 1000000000;
|}.
Definition demo_registration : ToolRegistration string :=
  mkRegistration (fun a => str_true a) (Some "influxdb") true false.
Definition open_breaker : CircuitBreaker :=
  run (new_breaker default_policy) [Failure 0 true; Failure 0 true; Failure 0 true].
Definition demo_executor (b : CircuitBreaker) : ToolExecutor string string :=
  new_executor {["series" := demo_registration]} (Some {["influxdb" := b]}).

Example execute_examples :
  let answer l := match execute_all "t" l (demo_executor (new_breaker default_policy)) with
                  | (x, o) => (length (invoked x), map (fun r => error_code (snd r)) (logged x), o)
                  end in
  answer [("series", "cpu")] = (1%nat, [""], Ok tt)
  /\ answer [("series", "slow")] = (2%nat, ["TOOL_TIMEOUT"], Ok tt)
  /\ answer [("series", "")] = (0%nat, [], Ok tt)
  /\ answer [("series", "broken"); ("series", "broken"); ("series", "broken"); ("series", "cpu")]
     = (3%nat, ["TOOL_PROVIDER_FAILED"; "TOOL_PROVIDER_FAILED"; "TOOL_PROVIDER_FAILED"], Ok tt).
Proof. vm_compute. done. Qed.


(** The breaker is open, its recovery time is over when the 32nd second begins,
    and the task of the trial call is cancelled. *)
Definition cancelled_executor : ToolExecutor string string :=
  fst (execute "series" "cancel" "t" ((demo_executor open_breaker) <| readings := 31%nat |>)).

Lemma cancelled_probe_blocks_tool_witness :
  snd (execute "series" "cancel" "t" ((demo_executor open_breaker) <| readings := 31%nat |>))
  = Raise Cancelled
  /\ exists x', execute "series" "cpu" "t" cancelled_executor
                = (x', Ok (failure "t" "CIRCUIT_OPEN" DEGRADED 1))
       /\ probing "influxdb" x' /\ invoked x' = invoked cancelled_executor.
Proof.
  split; [vm_compute; reflexivity|].
  apply (cancelled_probe_blocks_tool "influxdb" "series" demo_registration);
    [|vm_compute; reflexivity|reflexivity|discriminate|reflexivity|vm_compute; reflexivity].
  eexists _, _. split; [vm_compute; reflexivity|]. split; [vm_compute; reflexivity|].
  split; reflexivity.
Defined.
