(* ===== verification/Json.v ===== *)
(** * JSON values and request fingerprints

    The values pydantic's [model_dump(mode="json")] produces, the rendering
    [json.dumps(..., ensure_ascii=False, sort_keys=True, separators=(",", ":"))]
    makes of them, and [core/idempotency.py]. *)

From S2P Require Import Prelude.
From stdpp Require Import pretty.
From Stdlib Require Import Ascii.
Open Scope Z_scope.

(** A dict keeps its items in insertion order; its keys are distinct.  A float
    is given by its [repr], which [json.dumps] writes. *)
Inductive json : Type :=
| JNull
| JBool (b : bool)
| JInt (z : Z)
| JFloat (repr : string)
| JStr (s : string)
| JList (l : list json)
| JObj (kvs : list (string * json)).

Definition jopt (o : option string) : json :=
  match o with Some s => JStr s | None => JNull end.
Definition jstrs (l : list string) : json := JList (map JStr l).

(** ** Rendering *)

Definition hex_digit (n : nat) : ascii :=
  ascii_of_nat (if (n <? 10)%nat then 48 + n else 87 + n).

(** The escapes of the [json] module for one byte of UTF-8 text: quote,
    backslash and the control characters; other text is copied. *)
Definition escape_char (c : ascii) : string :=
  let n := nat_of_ascii c in
  if (n =? 34)%nat then String "\" (String c "")
  else if (n =? 92)%nat then "\\"
  else if (n =? 10)%nat then "\n"
  else if (n =? 13)%nat then "\r"
  else if (n =? 9)%nat then "\t"
  else if (n =? 8)%nat then "\b"
  else if (n =? 12)%nat then "\f"
  else if (n <? 32)%nat then
    ("\u00" ++ String (hex_digit (n / 16)) (String (hex_digit (n mod 16)) ""))%string
  else String c "".

Fixpoint escape (s : string) : string :=
  match s with
  | "" => ""
  | String c s' => (escape_char c ++ escape s')%string
  end.

Definition quote_char : string := String (ascii_of_nat 34) "".
Definition quoted (s : string) : string := (quote_char ++ escape s ++ quote_char)%string.

(** Items in the order of their keys, as [sort_keys=True] puts them. *)
Definition item_le (x y : string * json) : Prop := String.le (fst x) (fst y).
#[export] Instance item_le_dec x y : Decision (item_le x y) := String.le_dec (fst x) (fst y).
Definition sort_items (l : list (string * json)) : list (string * json) :=
  merge_sort item_le l.

Fixpoint sort_keys (j : json) : json :=
  match j with
  | JList l => JList (map sort_keys l)
  | JObj kvs => JObj (sort_items (map (fun kv => (fst kv, sort_keys (snd kv))) kvs))
  | _ => j
  end.

Fixpoint render (j : json) : string :=
  match j with
  | JNull => "null"
  | JBool b => if b then "true" else "false"
  | JInt z => pretty z
  | JFloat repr => repr
  | JStr s => quoted s
  | JList l => ("[" ++ str_join "," (map render l) ++ "]")%string
  | JObj kvs =>
      ("{" ++ str_join "," (map (fun kv => (quoted (fst kv) ++ ":" ++ render (snd kv))%string) kvs)
       ++ "}")%string
  end.

Definition dumps (j : json) : string := render (sort_keys j).

(** [hashlib.sha256(text).hexdigest()] is an argument of the model.
    [core/idempotency.py:5-13 request_fingerprint] *)
Definition request_fingerprint (sha256 : string -> string) (scope : string) (payload : json)
  : string :=
  sha256 (dumps (JObj [("scope", JStr scope); ("payload", payload)])).

(** ** The order of the keys of a dict does not matter *)

#[export] Instance item_le_trans : Transitive item_le.
Proof. intros x y z. unfold item_le. apply transitivity. Qed.
#[export] Instance item_le_total : Total item_le.
Proof. intros x y. unfold item_le. apply total, _. Qed.

Lemma nodup_keys_inj (l : list (string * json)) x y :
  NoDup (map fst l) -> x ∈ l -> y ∈ l -> fst x = fst y -> x = y.
Proof.
  induction l as [|z l IH]; simpl; intros Hnd Hx Hy Hk; [by apply not_elem_of_nil in Hx|].
  apply NoDup_cons in Hnd as [Hz Hnd].
  apply elem_of_cons in Hx, Hy. destruct Hx as [->|Hx], Hy as [->|Hy]; auto.
  - destruct Hz. rewrite Hk. by apply list_elem_of_fmap_2.
  - destruct Hz. rewrite <- Hk. by apply list_elem_of_fmap_2.
Qed.

Lemma sort_items_permutation l l' :
  NoDup (map fst l) -> l ≡ₚ l' -> sort_items l = sort_items l'.
Proof.
  intros Hnd Hp. unfold sort_items. apply (StronglySorted_unique_strong item_le).
  - intros x y Hx Hy Hxy Hyx. rewrite merge_sort_Permutation in Hx, Hy.
    rewrite <- Hp in Hy. apply (nodup_keys_inj l); [done..|]. by apply (anti_symm String.le).
  - apply StronglySorted_merge_sort; apply _.
  - apply StronglySorted_merge_sort; apply _.
  - by rewrite !merge_sort_Permutation.
Qed.

(** a fingerprint does not depend on the order in which the keys of the
    payload were set, at the top level: a retried request whose body lists its
    fields in another order is recognised as the same request. *)
Theorem fingerprint_key_order sha256 scope kvs kvs' :
  NoDup (map fst kvs) -> kvs ≡ₚ kvs' ->
  request_fingerprint sha256 scope (JObj kvs) = request_fingerprint sha256 scope (JObj kvs').
Proof.
  intros Hnd Hp. unfold request_fingerprint, dumps. f_equal. simpl.
  rewrite (sort_items_permutation
    (map (fun kv => (fst kv, sort_keys (snd kv))) kvs)
    (map (fun kv => (fst kv, sort_keys (snd kv))) kvs')); [done| |by apply Permutation_map].
  rewrite map_map. done.
Qed.

Lemma fingerprint_key_order_witness :
  request_fingerprint (fun s => s) "case.submit"
    (JObj [("case_id", JStr "c1"); ("approved", JBool true)])
  = request_fingerprint (fun s => s) "case.submit"
    (JObj [("approved", JBool true); ("case_id", JStr "c1")]).
Proof.
  apply fingerprint_key_order; [|apply Permutation_swap].
  apply (bool_decide_unpack _). vm_compute. exact I.
Defined.

Example dumps_example :
  dumps (JObj [("b", JInt (-12)); ("a", JList [JNull; JBool true])])
  = ("{" ++ quoted "a" ++ ":[null,true]," ++ quoted "b" ++ ":-12}")%string.
Proof. vm_compute. reflexivity. Qed.
