(* ===== verification/Float.v ===== *)
(** * Python floats

    IEEE 754 binary64 numbers with round to nearest, computed with the Standard
    Library's [SpecFloat]. *)

From Stdlib Require Import SpecFloat.
From S2P Require Import Prelude.
Open Scope Z_scope.

Definition float : Type := spec_float.

Definition fadd : float -> float -> float := SFadd 53 1024.
Definition fmul : float -> float -> float := SFmul 53 1024.
Definition fdiv : float -> float -> float := SFdiv 53 1024.
Definition fsub : float -> float -> float := SFsub 53 1024.
Definition fsqrt : float -> float := SFsqrt 53 1024.
Definition float_of_Z (n : Z) : float := binary_normalize 53 1024 n 0 false.
(** The literal of the decimal number [n / d]: a quotient is rounded once. *)
Definition literal (n d : Z) : float := fdiv (float_of_Z n) (float_of_Z d).

Definition fle (x y : float) : bool := SFleb x y.
Definition flt (x y : float) : bool := SFltb x y.
(** [min(x, y)] keeps the first of equal arguments. *)
Definition fmin (x y : float) : float := if flt y x then y else x.

Definition fmax (x y : float) : float := if flt x y then y else x.
Definition feq (x y : float) : bool := SFeqb x y.
Definition zero : float := S754_zero false.
(** [bool(x)], and [x or 0.0] of a float that may be missing. *)
Definition ftrue (x : float) : bool := negb (feq x zero).
Definition or_zero (o : option float) : float :=
  match o with Some x => if ftrue x then x else zero | None => zero end.

(** [min] and [max] of a list: the first of equal values. *)
Definition fmin_of (x : float) (l : list float) : float := fold_left fmin l x.
Definition fmax_of (x : float) (l : list float) : float := fold_left fmax l x.

(** [sum] of floats: from Python 3.12 on the rounding errors are summed up beside
    the sum (Neumaier's algorithm); the start is the integer 0, so the first item
    is exact. *)
Definition is_finite (x : float) : bool :=
  match x with S754_zero _ | S754_finite _ _ _ => true | _ => false end.
Fixpoint sum_from (total c : float) (l : list float) : float :=
  match l with
  | [] => if ftrue c && is_finite c then fadd total c else total
  | x :: l' =>
      let t := fadd total x in
      let e := if fle (SFabs x) (SFabs total) then fadd (fsub total t) x
               else fadd (fsub x t) total in
      sum_from t (fadd c e) l'
  end.
Definition fsum (l : list float) : float :=
  match l with [] => zero | x :: l' => sum_from (fadd zero x) zero l' end.

(** Truncation of a finite float towards zero. *)
Definition truncated (x : float) : Z :=
  match x with
  | S754_finite s m e =>
      let z := if 0 <=? e then Z.pos m * 2 ^ e else Z.pos m / 2 ^ (- e) in if s then - z else z
  | _ => 0
  end.

(** [sorted(l, key=key, reverse=True)]: stable and descending. *)
Fixpoint insert_desc {A} (key : A -> float) (x : A) (l : list A) : list A :=
  match l with
  | [] => [x]
  | y :: l' => if flt (key y) (key x) then x :: l else y :: insert_desc key x l'
  end.
Fixpoint insert_all {A} (key : A -> float) (l acc : list A) : list A :=
  match l with
  | [] => acc
  | x :: l' => insert_all key l' (insert_desc key x acc)
  end.
Definition sorted_desc {A} (key : A -> float) (l : list A) : list A := insert_all key l [].

Lemma insert_desc_permutation {A} (key : A -> float) x l : insert_desc key x l ≡ₚ x :: l.
Proof.
  induction l as [|y l IH]; simpl; [done|]. destruct (flt _ _); [done|].
  rewrite IH. apply Permutation_swap.
Qed.

Lemma insert_all_permutation {A} (key : A -> float) l acc : insert_all key l acc ≡ₚ l ++ acc.
Proof.
  revert acc. induction l as [|x l IH]; intros acc; simpl; [done|].
  by rewrite IH, insert_desc_permutation, Permutation_middle.
Qed.

Lemma sorted_desc_permutation {A} (key : A -> float) l : sorted_desc key l ≡ₚ l.
Proof. unfold sorted_desc. by rewrite insert_all_permutation, app_nil_r. Qed.

(** 0.55 + 0.1 and min(..., 0.8), as Python computes them. *)
Example literal_example :
  fle (fadd (literal 55 100) (literal 1 10)) (literal 8 10) = true
  /\ fadd (literal 1 10) (literal 2 10) <> literal 3 10.
Proof. vm_compute. by split. Qed.

(** [sum([0.1] * 10)] is 1.0, although the additions one by one give less. *)
Example fsum_example :
  fsum (replicate 10 (literal 1 10)) = float_of_Z 1
  /\ fold_left fadd (replicate 10 (literal 1 10)) zero <> float_of_Z 1.
Proof. vm_compute. by split. Qed.

(** A descending list: no later item is greater than an earlier one. *)
Definition descending {A} (key : A -> float) (l : list A) : Prop :=
  forall i j x y, (i < j)%nat -> l !! i = Some x -> l !! j = Some y -> flt (key x) (key y) = false.

(** Comparisons from the two sides agree. *)
Lemma compare_opp x y : SFcompare y x = CompOpp <$> SFcompare x y.
Proof.
  destruct x as [[]|[]| |[] mx ex], y as [[]|[]| |[] my ey]; try done; simpl;
    rewrite (Z.compare_antisym ex ey), <-(Pos.compare_cont_antisym mx my Eq : _ = PosDef.Pos.compare_cont Eq my mx);
    by destruct (Z.compare ex ey), (Pos.compare_cont Eq mx my).
Qed.

Lemma fle_not_flt x y : fle x y = true -> flt y x = false.
Proof.
  unfold fle, flt, SFleb, SFltb. rewrite (compare_opp x y).
  by destruct (SFcompare x y) as [[]|].
Qed.
