(* ===== verification/Contracts.v ===== *)
(** * Shared contracts

    The enumerations of [contracts/common.py], the actors of
    [core/context.py], and the parts of a diagnosis
    ([contracts/diagnosis_components.py]). *)

From S2P Require Import Prelude Errors Json Float.
Open Scope Z_scope.

(** [contracts/common.py:10-19 DiagnosisPhase] *)
Inductive DiagnosisPhase : Type :=
| INIT | PLAN_READY | DATA_FETCHING | EVIDENCE_READY | NEED_USER_INPUT
| DRAFT_READY | REVIEWING | COMPLETED | PHASE_FAILED.
(** [contracts/common.py:22-24 SessionSource] *)
Inductive SessionSource : Type := ALARM | CHAT.
(** [contracts/common.py:27-32 RiskLevel] *)
Inductive RiskLevel : Type := LOW | MEDIUM | HIGH | CRITICAL | UNKNOWN.
(** [contracts/common.py:35-39 DiagnosisIntent] *)
Inductive DiagnosisIntent : Type :=
| FAULT_DIAGNOSIS | KNOWLEDGE_QA | HISTORY_TICKET_QUERY | FOLLOWUP_CLARIFICATION.
(** [core/context.py:6-10 ActorRole] *)
Inductive ActorRole : Type := VIEWER | OPERATOR | REVIEWER | ADMIN.

#[export] Instance DiagnosisPhase_eq_dec : EqDecision DiagnosisPhase.
Proof. solve_decision. Defined.
#[export] Instance RiskLevel_eq_dec : EqDecision RiskLevel.
Proof. solve_decision. Defined.
#[export] Instance ActorRole_eq_dec : EqDecision ActorRole.
Proof. solve_decision. Defined.

Definition role_value (r : ActorRole) : string :=
  match r with
  | VIEWER => "viewer" | OPERATOR => "operator" | REVIEWER => "reviewer" | ADMIN => "admin"
  end.

(** [core/context.py:13-17 ActorContext] *)
Record ActorContext := mkActor {
  actor_id : string;
  actor_role : ActorRole;
}.

(** [contracts/diagnosis_components.py:49-67 Evidence] *)
Record Evidence := mkEvidence {
  evidence_id : string;
  source_type : string;
  source_id : string;
  summary : string;
  citation : string;
  ev_verified : bool;
  reliability : float;
  relevance : float;
  retrieval_score : option float;
  source_reliability : option float;
  verification_score : option float;
  freshness_score : option float;
  relevance_to_alarm : option float;
  final_score : option float;
  ev_chunk_id : option string;
  package_id : option string;
  ev_need_manual_confirmation : bool;
  metadata : list (string * json);
}.

(** [contracts/diagnosis_components.py:70-76 CandidateCause] *)
Record CandidateCause := mkCause {
  cause : string;
  confidence : float;
  supporting_evidence : list string;
  contradicting_evidence : list string;
  cause_missing : list string;
  cause_need_confirmation : bool;
}.

(** [contracts/diagnosis_components.py:8-13 DeviceContext] *)
Record DeviceContext := mkDevice {
  dc_site_id : option string;
  dc_device_id : string;
  dc_device_type : option string;
  dc_device_model : option string;
  dc_manufacturer : option string;
}.

(** [contracts/diagnosis_components.py:16-19 AlarmContext] *)
Record AlarmContext := mkAlarm {
  ac_alarm_id : string;
  ac_alarm_name : string;
  ac_trigger_time : option Z;
}.

(** [contracts/diagnosis_components.py:33-38 PlanStep] *)
Record PlanStep := mkPlanStep {
  step_id : string;
  goal : string;
  step_tool : option string;
  step_required : bool;
  step_parameters : list (string * json);
}.

(** [contracts/diagnosis_components.py:41-46 ToolResultSummary] *)
Record ToolResultSummary := mkToolSummary {
  ts_tool_name : string;
  ts_status : string;
  ts_has_usable_data : bool;
  ts_result_ref : option string;
  ts_summary : option string;
}.

(** [contracts/diagnosis_components.py:86-88 UserFeedback] *)
Record UserFeedback := mkFeedback {
  fb_question_id : string;
  fb_answer : string;
}.

(** [contracts/diagnosis_components.py:79-83 ClarificationQuestion] *)
Record ClarificationQuestion := mkQuestion {
  question_id : string;
  question : string;
  reason : string;
  expected_answer_type : string;
}.

(** [value.get(key)] of a dict of strings: [None] for a missing key, a null or
    a value that is not a string. *)
Definition dict_get (key : string) (d : list (string * json)) : option json :=
  snd <$> find_first (fun kv => bool_decide (fst kv = key)) d.
Definition dict_str (key : string) (d : list (string * json)) : option string :=
  match dict_get key d with Some (JStr s) => Some s | _ => None end.
