(* ===== verification/AgentState.v ===== *)
(** * The state of a diagnosis

    [guardrails/contracts.py], the structured result of
    [contracts/diagnosis.py] and [agent/state.py]. *)

From S2P Require Import Prelude Errors Json Float Contracts.
Open Scope Z_scope.

(** [guardrails/contracts.py:8-9 ActionExecutionStatus] *)
Inductive ActionExecutionStatus : Type := NOT_EXECUTED.

(** [guardrails/contracts.py:12-19 RecommendedAction] *)
Record RecommendedAction := mkAction {
  action_id : string;
  description : string;
  act_risk_level : RiskLevel;
  act_requires_human_confirmation : bool;
  act_required_role : option string;
  act_evidence_refs : list string;
  execution_status : ActionExecutionStatus;
}.

(** [guardrails/contracts.py:22-26 GuardrailStatus] *)
Inductive GuardrailStatus : Type :=
| PASSED | PASSED_WITH_WARNINGS | GUARD_NEED_USER_INPUT | BLOCKED.

(** [guardrails/contracts.py:29-37 GuardrailDecision] *)
Record GuardrailDecision := mkDecision {
  status : GuardrailStatus;
  violations : list string;
  gd_warnings : list string;
  gd_risk_level : RiskLevel;
  gd_requires_human_confirmation : bool;
  blocked_actions : list string;
  checked_evidence_refs : list string;
  decision_version : string;
}.

#[export] Instance GuardrailDecision_eta : Eta GuardrailDecision := fun d =>
  mkDecision (status d) (violations d) (gd_warnings d) (gd_risk_level d)
    (gd_requires_human_confirmation d) (blocked_actions d) (checked_evidence_refs d)
    (decision_version d).
#[export] Instance GuardrailStatus_eq_dec : EqDecision GuardrailStatus.
Proof. solve_decision. Defined.

(** A decision with the defaults of the model. *)
Definition decide_with (s : GuardrailStatus) (vs ws : list string) : GuardrailDecision :=
  mkDecision s vs ws LOW false [] [] "guardrail.v1".

(** The dict [final_response] always has the fields of this model; its causes,
    evidence and actions are dumped from the records used here.
    [contracts/diagnosis.py:67-79 StructuredDiagnosisResult] *)
Record StructuredDiagnosisResult := mkStructured {
  res_summary : string;
  res_candidate_causes : list CandidateCause;
  res_evidence : list Evidence;
  res_inspection_steps : list string;
  res_safety_notes : list string;
  res_missing_information : list string;
  res_recommend_ticket : bool;
  res_risk_level : RiskLevel;
  res_warnings : list string;
  res_degraded_components : list string;
  res_recommended_actions : list RecommendedAction;
  res_guardrail_decision : option GuardrailDecision;
}.

#[export] Instance StructuredDiagnosisResult_eta : Eta StructuredDiagnosisResult := fun r =>
  mkStructured (res_summary r) (res_candidate_causes r) (res_evidence r)
    (res_inspection_steps r) (res_safety_notes r) (res_missing_information r)
    (res_recommend_ticket r) (res_risk_level r) (res_warnings r) (res_degraded_components r)
    (res_recommended_actions r) (res_guardrail_decision r).

(** What reading the empty dict with the defaults of the code gives. *)
Definition empty_response : StructuredDiagnosisResult :=
  mkStructured "" [] [] [] [] [] false UNKNOWN [] [] [] None.

(** [agent/state.py:42-84 DiagnosisState] *)
Record DiagnosisState := mkState {
  session_id : string;
  run_id : string;
  trace_id : string;
  phase : DiagnosisPhase;
  source : SessionSource;
  user_message : option string;
  followup_mode : option string;
  memory_revision : Z;
  parent_run_id : option string;
  intent : option DiagnosisIntent;
  diagnosis_template_id : option string;
  diagnosis_template_version : option string;
  alarm_category : option string;
  template_route_basis : option string;
  device_context : option DeviceContext;
  alarm_context : option AlarmContext;
  time_window : option (Z * Z);
  plan : list PlanStep;
  tool_results : list ToolResultSummary;
  evidence : list Evidence;
  evidence_refs : list string;
  candidate_causes : list CandidateCause;
  clarification_questions : list ClarificationQuestion;
  user_feedback : list UserFeedback;
  risk_level : RiskLevel;
  warnings : list string;
  errors : list string;
  degraded_components : list string;
  final_response : option StructuredDiagnosisResult;
  recommended_actions : list RecommendedAction;
  guardrail_decision : option GuardrailDecision;
  prompt_version : string;
  started_at : Z;
  updated_at : Z;
}.

#[export] Instance DiagnosisState_eta : Eta DiagnosisState := fun s =>
  mkState (session_id s) (run_id s) (trace_id s) (phase s) (source s) (user_message s)
    (followup_mode s) (memory_revision s) (parent_run_id s) (intent s)
    (diagnosis_template_id s) (diagnosis_template_version s) (alarm_category s)
    (template_route_basis s) (device_context s) (alarm_context s) (time_window s) (plan s)
    (tool_results s) (evidence s) (evidence_refs s) (candidate_causes s)
    (clarification_questions s) (user_feedback s) (risk_level s) (warnings s) (errors s)
    (degraded_components s) (final_response s) (recommended_actions s) (guardrail_decision s)
    (prompt_version s) (started_at s) (updated_at s).

(** [agent/state.py:78-84 DiagnosisState.validate_phase_requirements] *)
Definition phase_requirements (s : DiagnosisState) : bool :=
  match phase s with
  | NEED_USER_INPUT => list_true (clarification_questions s)
  | COMPLETED => match final_response s with Some _ => true | None => false end
  | _ => true
  end.
Definition model_validate (s : DiagnosisState) : outcome exn DiagnosisState :=
  if phase_requirements s then Ok s else Raise ValidationError.

(** [agent/state.py:87-112 _ALLOWED_TRANSITIONS] *)
Definition ALLOWED_TRANSITIONS (p : DiagnosisPhase) : list DiagnosisPhase :=
  match p with
  | INIT => [PLAN_READY; PHASE_FAILED]
  | PLAN_READY => [DATA_FETCHING; NEED_USER_INPUT; PHASE_FAILED]
  | DATA_FETCHING => [EVIDENCE_READY; NEED_USER_INPUT; PHASE_FAILED]
  | EVIDENCE_READY => [NEED_USER_INPUT; DRAFT_READY; PHASE_FAILED]
  | NEED_USER_INPUT => [PLAN_READY; DATA_FETCHING; EVIDENCE_READY; PHASE_FAILED]
  | DRAFT_READY => [REVIEWING; PHASE_FAILED]
  | REVIEWING => [DRAFT_READY; COMPLETED; PHASE_FAILED]
  | COMPLETED => []
  | PHASE_FAILED => []
  end.

(** [updates] are the keyword arguments, as an update of the state.
    [agent/state.py:115-123 transition_state] *)
Definition transition_state (now : Z) (s : DiagnosisState) (target : DiagnosisPhase)
  (updates : DiagnosisState -> DiagnosisState) : outcome exn DiagnosisState :=
  if bool_decide (target ∈ ALLOWED_TRANSITIONS (phase s))
  then model_validate (updates (s <| phase := target |> <| updated_at := now |>))
  else Raise (Domain InvalidStateTransitionError []).
