(* ===== verification/ToolData.v ===== *)
(** * What the read tools are given and return

    The inputs of [tools/contracts.py] and the data of the handlers in
    [tools/implementations/], typed as the handlers build them. *)

From S2P Require Import Prelude Errors Json Float Contracts Tools.
Open Scope Z_scope.

(** The rows of device_profile and alarm_event, the columns the workflow reads.
    [persistence/models.py:147-158 DeviceProfileModel] *)
Record DeviceRow := mkDeviceRow {
  row_device_id : string;
  row_site_id : string;
  row_device_type : string;
  row_device_model : string;
  row_manufacturer : string;
  row_status : string;
}.
(** [persistence/models.py:161-171 AlarmEventModel] *)
Record AlarmRow := mkAlarmRow {
  row_alarm_id : string;
  row_alarm_name : string;
  row_alarm_level : string;
  row_trigger_time : Z;
}.

(** [retrieval/contracts.py:38-59 RetrievalCandidate] with the package of
    RankedEvidence, the fields [model_dump] gives the workflow. *)
Record RankedEvidence := mkRanked {
  rk_source_type : string;
  rk_source_id : string;
  rk_chunk_id : option string;
  rk_content_summary : string;
  rk_citation : string;
  rk_metadata : list (string * json);
  rk_source_reliability : float;
  rk_verification_score : float;
  rk_freshness_score : float;
  rk_relevance_to_alarm : float;
  rk_retrieval_score : float;
  rk_final_score : float;
  rk_package_id : option string;
}.

(** [graph/contracts.py:17-24 GraphRelation] *)
Record GraphRelation := mkGraphRelation {
  gr_alarm_name : string;
  gr_fault_cause : string;
  gr_component : option string;
  gr_actions : list string;
  gr_support_case_ids : list string;
  gr_support_count : Z;
  gr_template_ids : list string;
}.

(** The data of a tool result: a row, the summaries of the metrics by name, the
    ranked evidence with the degraded components of the retrieval, or the
    relations of the graph. *)
Inductive ToolData : Type :=
| DeviceData (d : DeviceRow)
| AlarmData (a : AlarmRow)
| SeriesData (summaries : list (string * list (string * json)))
| PackageData (ranked_evidence : list RankedEvidence) (degraded_components : list string)
| RelationsData (relations : list GraphRelation).

(** [tools/contracts.py:18-27 ToolContext], the fields the workflow sets. *)
Record ToolContext := mkContext {
  cx_trace_id : string;
  cx_source_system : string;
  cx_site_id : option string;
  cx_session_id : option string;
}.

(** The filters of a search, as the workflow sets them. *)
Record SearchFilters := mkFilters {
  f_device_type : option string;
  f_device_model : option string;
  f_manufacturer : option string;
  f_alarm_name : option string;
}.

(** The arguments the workflow passes; times are instants. *)
Inductive ToolInput : Type :=
| DeviceProfileInput (context : ToolContext) (device_id : string)
| AlarmDetailInput (context : ToolContext) (alarm_id : string) (device_id : option string)
| TimeseriesWindowInput (context : ToolContext) (device_id : string)
    (measurements metrics : list string) (start_time end_time : Z)
| ManualSearchInput (context : ToolContext) (query : string) (filters : SearchFilters)
| TicketSearchInput (context : ToolContext) (query : string) (filters : SearchFilters)
    (verified_only : bool)
| GraphRelationsInput (context : ToolContext) (alarm_name : string)
    (device_type : option string) (relation_depth top_k : Z).

(** The schema of each tool accepts its own input;
    [tools/contracts.py:77-98 TimeseriesWindowInput] wants metrics, measurements,
    and only known measurements. *)
Definition allowed_measurements : list string :=
  ["pcs_metrics"; "fan_metrics"; "environment_metrics"; "inverter_metrics"].
Definition input_valid (name : string) (i : ToolInput) : bool :=
  match i with
  | DeviceProfileInput _ _ => bool_decide (name = "get_device_profile")
  | AlarmDetailInput _ _ _ => bool_decide (name = "get_alarm_detail")
  | TimeseriesWindowInput _ _ ms mt _ _ =>
      bool_decide (name = "query_timeseries_window") && list_true ms && list_true mt
      && forallb (fun m => bool_decide (m ∈ allowed_measurements)) ms
  | ManualSearchInput _ _ _ => bool_decide (name = "search_manual_chunks")
  | TicketSearchInput _ _ _ _ => bool_decide (name = "search_similar_tickets")
  | GraphRelationsInput _ _ _ depth k =>
      bool_decide (name = "query_graph_relations")
      && (1 <=? depth) && (depth <=? 3) && (1 <=? k) && (k <=? 20)
  end.

(** The read tools the application registers: the schemas and the dependencies
    whose breakers guard them.
    [tools/implementations/read_tools.py:186-193 register] *)
Definition read_tools : gmap string (ToolRegistration ToolInput) :=
  list_to_map (map (fun t => (fst t, mkRegistration (input_valid (fst t)) (snd t) true false))
    [("get_device_profile", None); ("get_alarm_detail", None);
     ("query_timeseries_window", Some "influxdb"); ("search_manual_chunks", None);
     ("search_similar_tickets", None); ("query_graph_relations", Some "neo4j")]).

(** ** Dicts *)

(** [bool(value)] *)
Definition json_true (j : json) : bool :=
  match j with
  | JNull => false
  | JBool b => b
  | JInt z => negb (z =? 0)
  | JFloat r => negb (bool_decide (r = "0.0") || bool_decide (r = "-0.0"))
  | JStr s => str_true s
  | JList l => list_true l
  | JObj l => list_true l
  end.

(** [d[key] = value]: an existing key keeps its place. *)
Fixpoint dict_set {A} (key : string) (v : A) (d : list (string * A)) : list (string * A) :=
  match d with
  | [] => [(key, v)]
  | (k, w) :: d' => if bool_decide (k = key) then (k, v) :: d' else (k, w) :: dict_set key v d'
  end.
(** [{**d, **e}] *)
Definition dict_merge {A} (d e : list (string * A)) : list (string * A) :=
  fold_left (fun d kv => dict_set (fst kv) (snd kv) d) e d.

(** [relation.model_dump(mode="json")]. *)
Definition dump_relation (r : GraphRelation) : list (string * json) :=
  [("alarm_name", JStr (gr_alarm_name r)); ("fault_cause", JStr (gr_fault_cause r));
   ("component", jopt (gr_component r)); ("actions", jstrs (gr_actions r));
   ("support_case_ids", jstrs (gr_support_case_ids r));
   ("support_count", JInt (gr_support_count r)); ("template_ids", jstrs (gr_template_ids r))].

Lemma dict_set_keys {A} key (v : A) d k :
  k ∈ map fst (dict_set key v d) <-> k = key \/ k ∈ map fst d.
Proof.
  induction d as [|[k' w] d IH]; simpl.
  - rewrite list_elem_of_singleton, elem_of_nil. tauto.
  - case_bool_decide as Hk; simpl; rewrite !elem_of_cons; [|rewrite IH; tauto].
    split; [tauto|]. intros [->|?]; auto.
Qed.

Lemma dict_set_NoDup {A} key (v : A) d : NoDup (map fst d) -> NoDup (map fst (dict_set key v d)).
Proof.
  induction d as [|[k w] d IH]; simpl; intros Hd.
  - apply NoDup_singleton.
  - apply NoDup_cons in Hd as [Hk Hd]. case_bool_decide as E; simpl; [by constructor|].
    constructor; [|by apply IH]. rewrite dict_set_keys. intros [?|?]; [by apply E|done].
Qed.
