(* ===== verification/Store.v ===== *)
(** * The store: tables, outside world, primitives

    The rows of [persistence/models.py] the case lifecycle and the indexing
    pipeline share, the state [World] every operation of these components runs
    on, and the environment [Env]: clock, identifiers, hash and the answers of
    the external services. *)

From S2P Require Import Prelude Errors Json Contracts.
Open Scope Z_scope.

(** ** Rows *)

(** [contracts/cases.py:9-12 DiagnosisReviewResult] *)
Inductive DiagnosisReviewResult : Type := CONFIRMED | REVIEW_REJECTED | NEEDS_MORE_INFO.
(** [contracts/cases.py:15-21 CaseStatus] *)
Inductive CaseStatus : Type :=
| DRAFT | PENDING_REVIEW | APPROVED | REJECTED | DISABLED | SUPERSEDED.
(** [indexing/contracts.py:9-16 IndexStatus] (equally [CaseIndexStatus] of
    [contracts/cases.py]). *)
Inductive IndexStatus : Type :=
| IDX_PENDING | IDX_QUEUED | IDX_RUNNING | IDX_INDEXED | IDX_DEGRADED | IDX_FAILED
| IDX_TOMBSTONED.
(** [indexing/contracts.py:19-27 IndexJobStatus] *)
Inductive IndexJobStatus : Type :=
| JOB_PENDING | JOB_QUEUED | JOB_RUNNING | JOB_INDEXED | JOB_DEGRADED | JOB_FAILED
| JOB_TOMBSTONED | JOB_STALE.
(** [indexing/contracts.py:30-33 OutboxPublishStatus] *)
Inductive OutboxPublishStatus : Type := OB_PENDING | OB_PUBLISHED | OB_FAILED.
(** [indexing/contracts.py:36-40 EntityType] *)
Inductive EntityType : Type :=
| MANUAL_DOCUMENT | MAINTENANCE_TICKET | DIAGNOSIS_CASE | TEMPLATE_GRAPH.
(** [indexing/contracts.py:43-47 IndexOperation] *)
Inductive IndexOperation : Type := UPSERT | REINDEX | TOMBSTONE | GRAPH_PROJECT.

#[export] Instance DiagnosisReviewResult_eq_dec : EqDecision DiagnosisReviewResult.
Proof. solve_decision. Defined.
#[export] Instance CaseStatus_eq_dec : EqDecision CaseStatus.
Proof. solve_decision. Defined.
#[export] Instance IndexStatus_eq_dec : EqDecision IndexStatus.
Proof. solve_decision. Defined.
#[export] Instance IndexJobStatus_eq_dec : EqDecision IndexJobStatus.
Proof. solve_decision. Defined.
#[export] Instance OutboxPublishStatus_eq_dec : EqDecision OutboxPublishStatus.
Proof. solve_decision. Defined.
#[export] Instance EntityType_eq_dec : EqDecision EntityType.
Proof. solve_decision. Defined.
#[export] Instance IndexOperation_eq_dec : EqDecision IndexOperation.
Proof. solve_decision. Defined.

(** [contracts/cases.py:72-101 DiagnosisCase], which is also the row of the
    table diagnosis_case.  The three JSON columns are nullable in the row
    ([None] is the JSON null SQLAlchemy stores for [None]) and lists in the
    contract: [case_record] of [CaseRepo.v] rejects the nulls.  The two fields
    of the contract that are not columns, [index_job_id] and
    [graph_projection_status], are part of [CaseView] there. *)
Record DiagnosisCase := mkCase {
  case_id : string;
  source_session_id : string;
  source_run_id : string;
  source_review_id : string;
  source_ticket_id : option string;
  device_type : option string;
  device_model : option string;
  manufacturer : option string;
  alarm_name : option string;
  symptom_summary : option string;
  timeseries_features : option string;
  root_cause : string;
  resolution_steps : option (list string);
  safety_notes : option (list string);
  evidence_refs : option (list string);
  review_status : CaseStatus;
  reviewer : option string;
  review_comment : option string;
  case_version : Z;
  embedding_text : option string;
  index_status : IndexStatus;
  index_error_code : option string;
  is_active : bool;
  supersedes_case_id : option string;
  created_by : string;
  created_at : Z;
  updated_at : Z;
}.
#[export] Instance DiagnosisCase_eta : Eta DiagnosisCase := fun c =>
  mkCase (case_id c) (source_session_id c) (source_run_id c) (source_review_id c)
    (source_ticket_id c) (device_type c) (device_model c) (manufacturer c) (alarm_name c)
    (symptom_summary c) (timeseries_features c) (root_cause c) (resolution_steps c)
    (safety_notes c) (evidence_refs c) (review_status c) (reviewer c) (review_comment c)
    (case_version c) (embedding_text c) (index_status c) (index_error_code c) (is_active c)
    (supersedes_case_id c) (created_by c) (created_at c) (updated_at c).

(** [contracts/cases.py:145-155 CaseReviewEvent], with the two columns of
    case_review_event the contract leaves out. *)
Record CaseReviewEvent := mkEvent {
  ev_case_id : string;
  ev_actor_id : string;
  ev_actor_role : string;
  ev_action : string;
  ev_from_status : option CaseStatus;
  ev_to_status : CaseStatus;
  ev_comment : option string;
  ev_idempotency_key : option string;
  ev_request_hash : string;
  ev_trace_id : string;
  ev_created_at : Z;
}.

(** [indexing/contracts.py:63-80 IndexJobCreate] *)
Record IndexJobCreate := mkJobCreate {
  jc_entity_type : EntityType;
  jc_entity_id : string;
  jc_entity_version : string;
  jc_operation : IndexOperation;
  jc_trace_id : string;
  jc_correlation_id : string;
  jc_causation_id : string;
  jc_max_attempts : Z;
}.

(** [indexing/contracts.py:73-80 IndexJobCreate.idempotency_key] *)
Definition idempotency_key (r : IndexJobCreate) : EntityType * string * string * IndexOperation :=
  (jc_entity_type r, jc_entity_id r, jc_entity_version r, jc_operation r).

(** [indexing/contracts.py:50-60 IndexJobMessage] *)
Record IndexJobMessage := mkMessage {
  m_job_id : string;
  m_entity_type : EntityType;
  m_entity_id : string;
  m_entity_version : string;
  m_operation : IndexOperation;
  m_trace_id : string;
  m_correlation_id : string;
  m_causation_id : string;
  m_requested_at : Z;
}.

(** [indexing/contracts.py:83-99 IndexJobRecord], the row of index_job. *)
Record IndexJob := mkJob {
  job_id : string;
  request : IndexJobCreate;
  status : IndexJobStatus;
  attempt_count : Z;
  last_error_code : option string;
  last_error_message : option string;
  next_attempt_at : option Z;
  job_created_at : Z;
  started_at : option Z;
  finished_at : option Z;
  job_updated_at : Z;
}.
#[export] Instance IndexJob_eta : Eta IndexJob := fun j =>
  mkJob (job_id j) (request j) (status j) (attempt_count j) (last_error_code j)
    (last_error_message j) (next_attempt_at j) (job_created_at j) (started_at j)
    (finished_at j) (job_updated_at j).

Record OutboxRow := mkOutbox {
  ob_id : Z;
  ob_job_id : string;
  ob_event_type : string;
  ob_payload : IndexJobMessage;
  publish_status : OutboxPublishStatus;
  publish_attempts : Z;
  ob_last_error_code : option string;
  ob_created_at : Z;
  published_at : option Z;
  ob_updated_at : Z;
}.
#[export] Instance OutboxRow_eta : Eta OutboxRow := fun o =>
  mkOutbox (ob_id o) (ob_job_id o) (ob_event_type o) (ob_payload o) (publish_status o)
    (publish_attempts o) (ob_last_error_code o) (ob_created_at o) (published_at o)
    (ob_updated_at o).

Record MaintenanceTicket := mkTicket {
  ticket_id : string;
  t_device_model : string;
  t_manufacturer : option string;
  t_alarm_name : string;
  fault_symptom : option string;
  t_root_cause : option string;
  action_taken : option string;
  close_time : option Z;
  is_verified : bool;
  t_index_generation : option string;
  t_embedding_text : option string;
  t_index_status : IndexStatus;
  t_index_error_code : option string;
  t_indexed_at : option Z;
  t_updated_at : Z;
}.
#[export] Instance MaintenanceTicket_eta : Eta MaintenanceTicket := fun t =>
  mkTicket (ticket_id t) (t_device_model t) (t_manufacturer t) (t_alarm_name t)
    (fault_symptom t) (t_root_cause t) (action_taken t) (close_time t) (is_verified t)
    (t_index_generation t) (t_embedding_text t) (t_index_status t) (t_index_error_code t)
    (t_indexed_at t) (t_updated_at t).

Record ManualDocument := mkDocument {
  doc_id : string;
  version : string;
  d_device_type : string;
  d_device_model : option string;
  d_manufacturer : option string;
  effective : bool;
  d_review_status : string;
  d_index_generation : option string;
  d_index_status : IndexStatus;
  d_index_error_code : option string;
  d_object_key : string;
  d_file_sha256 : string;
  d_chunk_count : nat;
  d_updated_at : Z;
}.
#[export] Instance ManualDocument_eta : Eta ManualDocument := fun d =>
  mkDocument (doc_id d) (version d) (d_device_type d) (d_device_model d) (d_manufacturer d)
    (effective d) (d_review_status d) (d_index_generation d) (d_index_status d)
    (d_index_error_code d) (d_object_key d) (d_file_sha256 d) (d_chunk_count d) (d_updated_at d).

Record ManualChunk := mkChunk {
  chunk_id : string;
  c_doc_id : string;
  c_version : string;
  c_device_type : string;
  c_device_model : option string;
  c_manufacturer : option string;
  c_alarm_name : option string;
  c_chapter_title : string;
  c_page_no : option Z;
  c_section_type : string;
  summary_or_content : string;
  c_verified : bool;
  c_effective : bool;
  c_content_hash : string;
  c_chunk_order : nat;
  c_keywords : list string;
  c_embedding_text : option string;
  c_index_generation : option string;
  c_indexed_at : option Z;
}.
#[export] Instance ManualChunk_eta : Eta ManualChunk := fun c =>
  mkChunk (chunk_id c) (c_doc_id c) (c_version c) (c_device_type c) (c_device_model c)
    (c_manufacturer c) (c_alarm_name c) (c_chapter_title c) (c_page_no c) (c_section_type c)
    (summary_or_content c) (c_verified c) (c_effective c) (c_content_hash c) (c_chunk_order c)
    (c_keywords c) (c_embedding_text c) (c_index_generation c) (c_indexed_at c).

(** [graph/contracts.py GraphProjectionStatus], the values the handlers use. *)
Inductive GraphProjectionStatus : Type := PROJECTED | GRAPH_DEGRADED | GRAPH_TOMBSTONED.
#[export] Instance GraphProjectionStatus_eq_dec : EqDecision GraphProjectionStatus.
Proof. solve_decision. Defined.

Record GraphProjection := mkProjection {
  projection_id : string;
  p_entity_type : EntityType;
  p_entity_id : string;
  p_entity_version : string;
  p_status : GraphProjectionStatus;
  p_last_error_code : option string;
  projected_at : option Z;
  p_updated_at : Z;
}.
#[export] Instance GraphProjection_eta : Eta GraphProjection := fun p =>
  mkProjection (projection_id p) (p_entity_type p) (p_entity_id p) (p_entity_version p)
    (p_status p) (p_last_error_code p) (projected_at p) (p_updated_at p).

(** The row of audit_event; the snapshot is the redacted dict. *)
Record AuditEvent := mkAudit {
  au_actor_id : string;
  au_actor_role : string;
  au_action : string;
  au_resource_type : string;
  au_resource_id : string;
  au_session_id : option string;
  au_case_id : option string;
  au_trace_id : string;
  au_outcome : string;
  au_created_at : Z;
}.

(** [contracts/diagnosis.py:21-39 DiagnosisSessionRecord] *)
Record DiagnosisSession := mkSession {
  s_id : string;
  s_source : SessionSource;
  s_site_id : option string;
  s_device_id : option string;
  s_alarm_id : option string;
  s_alarm_name : option string;
  s_phase : DiagnosisPhase;
  final_summary : option string;
  s_risk_level : RiskLevel;
  s_trace_id : string;
  s_run_id : string;
  s_created_by : option string;
  latest_review_status : option DiagnosisReviewResult;
  s_created_at : Z;
  s_updated_at : Z;
}.
#[export] Instance DiagnosisSession_eta : Eta DiagnosisSession := fun s =>
  mkSession (s_id s) (s_source s) (s_site_id s) (s_device_id s) (s_alarm_id s) (s_alarm_name s)
    (s_phase s) (final_summary s) (s_risk_level s) (s_trace_id s) (s_run_id s)
    (s_created_by s) (latest_review_status s) (s_created_at s) (s_updated_at s).

(** [contracts/diagnosis.py:67-89 DiagnosisResultRecord], the fields the case
    lifecycle reads; candidate causes are their names. *)
Record DiagnosisResult := mkResult {
  r_run_id : string;
  r_summary : string;
  candidate_causes : list string;
  evidence : list Evidence;
  r_safety_notes : list string;
}.

(** The row of diagnosis_review. *)
Record DiagnosisReview := mkReview {
  review_id : string;
  rv_session_id : string;
  rv_run_id : string;
  rv_actor_id : string;
  rv_actor_role : string;
  rv_result : DiagnosisReviewResult;
  rv_root_cause : option string;
  rv_resolution_steps : list string;
  rv_comments : option string;
  rv_evidence_refs : list string;
  rv_source_ticket_id : option string;
  rv_override_reason : option string;
  rv_requested_questions : list string;
  rv_idempotency_key : option string;
  rv_request_hash : string;
  rv_trace_id : string;
  rv_created_at : Z;
}.

#[export] Instance DiagnosisReview_eta : Eta DiagnosisReview := fun r =>
  mkReview (review_id r) (rv_session_id r) (rv_run_id r) (rv_actor_id r) (rv_actor_role r)
    (rv_result r) (rv_root_cause r) (rv_resolution_steps r) (rv_comments r) (rv_evidence_refs r)
    (rv_source_ticket_id r) (rv_override_reason r) (rv_requested_questions r)
    (rv_idempotency_key r) (rv_request_hash r) (rv_trace_id r) (rv_created_at r).

(** [timeline/contracts.py:14-20 TimelineEventType] *)
Inductive TimelineEventType : Type :=
| USER_MESSAGE | CLARIFICATION_QUESTION | CLARIFICATION_ANSWER | DIAGNOSIS_RESULT
| REVIEW_SUBMITTED | CASE_CREATED.
#[export] Instance TimelineEventType_eq_dec : EqDecision TimelineEventType.
Proof. solve_decision. Defined.

(** [timeline/contracts.py:23-36 TimelineEventRecord], the row of
    diagnosis_timeline_event. *)
Record TimelineEvent := mkTimeline {
  event_id : string;
  tl_session_id : string;
  tl_run_id : option string;
  event_type : TimelineEventType;
  tl_actor_id : option string;
  tl_actor_role : option string;
  payload : json;
  sequence : Z;
  tl_created_at : Z;
}.

(** ** Calls to the services outside *)

(** A row of a Milvus collection (of three: manual, ticket, case).  The
    vector itself stays with the embedding service: the row carries the text
    it was computed from. *)
Record VectorRow := mkVectorRow {
  vr_id : string;
  vr_source_id : string;
  vr_device_type : string;
  vr_device_model : string;
  vr_manufacturer : string;
  vr_alarm_name : string;
  vr_index_generation : string;
  vr_case_version : option Z;
  vr_verified : bool;
  vr_effective : bool;
  vr_close_time : option Z;
  vr_embedding : Z;
}.

Inductive call : Type :=
| Embed (texts : list string)
| MilvusUpsert (collection : string) (rows : list VectorRow)
| MilvusDelete (collection : string) (ids : list string)
| PutObject (object_key : string) (content : string) (content_type : string)
| GraphProjectCase (case_id : string) (version : Z)
    (device_type alarm_name fault_cause resolution_action : string)
| GraphTombstone (case_id : string)
| Publish (routing_key : string) (m : IndexJobMessage)
| PublishRaw (routing_key : string) (body : string)
| Ack
| Reject.

(** ** The state *)

Record World := mkWorld {
  cases : gmap string DiagnosisCase;
  case_events : list CaseReviewEvent;
  jobs : gmap string IndexJob;
  outbox : list OutboxRow;
  tickets : gmap string MaintenanceTicket;
  documents : list ManualDocument;
  chunks : list ManualChunk;
  projections : list GraphProjection;
  audits : list AuditEvent;
  sessions : gmap string DiagnosisSession;
  results : gmap string DiagnosisResult;
  reviews : list DiagnosisReview;
  timeline : list TimelineEvent;
  calls : list call;
  ticks : nat;
  ids : nat;
}.
#[export] Instance World_eta : Eta World := fun w =>
  mkWorld (cases w) (case_events w) (jobs w) (outbox w) (tickets w) (documents w) (chunks w)
    (projections w) (audits w) (sessions w) (results w) (reviews w) (timeline w) (calls w) (ticks w) (ids w).

Definition empty_world : World :=
  mkWorld ∅ [] ∅ [] ∅ [] [] [] [] ∅ ∅ [] [] [] 0 0.

(** What the code takes from outside.  [utc n] is the [n]-th reading of the
    clock and [uuid n] the [n]-th identifier.  [answer past c] is the
    exception the call [c] raises after the calls [past] (most recent first),
    [None] when it succeeds; [embedding
    past texts] are the vectors the embedding service returns: both are
    arbitrary functions, so every theorem holds whatever the services answer
    and however the answers change. *)
Class Env := mkEnv {
  utc : nat -> Z;
  uuid : nat -> string;
  sha256 : string -> string;
  context_trace_id : option string;
  answer : list call -> call -> option exn;
  embedding : list call -> list string -> list Z;
}.

(** ** Primitives *)

Section Primitives.
Context `{Env}.

(** [core/time.py:4-5 utc_now] *)
Definition utc_now : M World exn Z :=
  fun w => (w <| ticks ::= S |>, Ok (utc (ticks w))).

(** [core/ids.py:4-5 new_id] *)
Definition new_id : M World exn string :=
  fun w => (w <| ids ::= S |>, Ok (uuid (ids w))).

(** [cases/application.py:110-113 CaseApplicationService.trace_id] *)
Definition trace_id : M World exn string :=
  match context_trace_id with Some t => ret t | None => new_id end.

(** A call to an external service is recorded; when the service fails the
    provider raises. *)
Definition external (c : call) : M World exn unit :=
  fun w => (w <| calls ::= cons c |>,
            match answer (calls w) c with None => Ok tt | Some e => Raise e end).
Definition embed (texts : list string) : M World exn (list Z) :=
  past <- gets calls ;;
  external (Embed texts) ;;;
  ret (embedding past texts).

(** [session_factory.begin()]: a transaction that ends with an exception is
    rolled back; readings of the clock and identifiers stay used. *)
Definition atomically {A} (m : M World exn A) : M World exn A :=
  fun w => match m w with
           | (w', Ok a) => (w', Ok a)
           | (w', Raise e) => (w <| ticks := ticks w' |> <| ids := ids w' |>, Raise e)
           end.

(** [persistence/repositories/audit.py:18-57 AuditRepository.write] *)
Definition audit_write (actor role action rtype rid trace outc : string)
    (session case : option string) : M World exn unit :=
  atomically (
    now <- utc_now ;;
    modify (fun w => w <| audits ::= fun l =>
      l ++ [mkAudit actor role action rtype rid session case trace outc now] |>)).
End Primitives.

(** ** Relations that do not look at the clock, the audit trail or the calls *)

(** What a component promises about a relation between worlds so that the
    primitives respect it: it is a preorder that ignores the clock, the
    identifier supply and the audit table ([Clocked]), and the record of
    external calls as well ([Framed]). *)
Class Clocked (R : World -> World -> Prop) := {
  framed_preorder :: PreOrder R;
  framed_clock : forall w t i, R w (w <| ticks := t |> <| ids := i |>);
  framed_audits : forall w l, R w (w <| audits := l |>);
}.
Class Framed (R : World -> World -> Prop) := {
  framed_clocked :: Clocked R;
  framed_calls : forall w l, R w (w <| calls := l |>);
}.

Section ClockedPrimitives.
Context `{Env} (R : World -> World -> Prop) `{!Clocked R}.

Lemma respects_atomically {A} (m : M World exn A) :
  respects R m -> respects R (atomically m).
Proof.
  intros Hm w. unfold atomically. specialize (Hm w).
  destruct (m w) as [w' [a|e]]; [done|]. apply framed_clock.
Qed.

Lemma respects_utc_now : respects R utc_now.
Proof. intros w. apply (framed_clock w (S (ticks w)) (ids w)). Qed.

Lemma respects_new_id : respects R new_id.
Proof. intros w. apply (framed_clock w (ticks w) (S (ids w))). Qed.

Lemma respects_trace_id : respects R trace_id.
Proof.
  unfold trace_id. destruct context_trace_id;
    [apply respects_ret, _ | apply respects_new_id].
Qed.

Lemma respects_audit_write a b c d e f g h i :
  respects R (audit_write a b c d e f g h i).
Proof.
  apply respects_atomically, respects_bind; [apply _|apply respects_utc_now|].
  intros now w. apply framed_audits.
Qed.
End ClockedPrimitives.

Section FramedPrimitives.
Context `{Env} (R : World -> World -> Prop) `{!Framed R}.

Lemma respects_external c : respects R (external c).
Proof. intros w. apply framed_calls. Qed.

Lemma respects_embed texts : respects R (embed texts).
Proof.
  apply respects_bind; [apply _|apply respects_gets, _|]. intros past.
  apply respects_bind; [apply _|apply respects_external|]. intros _.
  apply respects_ret, _.
Qed.
End FramedPrimitives.

#[export] Hint Extern 0 (Clocked _) => typeclasses eauto : pres.
#[export] Hint Extern 0 (Framed _) => typeclasses eauto : pres.
#[export] Hint Resolve respects_utc_now respects_new_id respects_trace_id respects_external
  respects_embed respects_audit_write : pres.

(** An invariant of some tables is framed when it depends on them only. *)
Lemma framed_keeps (I : World -> Prop) :
  (forall w t i, I w -> I (w <| ticks := t |> <| ids := i |>)) ->
  (forall w l, I w -> I (w <| calls := l |>)) ->
  (forall w l, I w -> I (w <| audits := l |>)) ->
  Framed (keeps I).
Proof. intros H1 H2 H3. split; [split; [apply _|exact H1|exact H3]|exact H2]. Qed.

Lemma clocked_keeps (I : World -> Prop) :
  (forall w t i, I w -> I (w <| ticks := t |> <| ids := i |>)) ->
  (forall w l, I w -> I (w <| audits := l |>)) ->
  Clocked (keeps I).
Proof. intros H1 H2. split; [apply _|exact H1|exact H2]. Qed.

#[export] Hint Extern 1 (Framed (keeps _)) =>
  apply framed_keeps; intros; assumption : typeclass_instances.

(** The transaction of a computation that is followed from known facts. *)
Lemma from_atomically `{Env} (R : World -> World -> Prop) `{!Clocked R} {A} P (m : M World exn A) :
  from P R m -> from P R (atomically m).
Proof.
  intros Hm w Hw. unfold atomically. specialize (Hm w Hw).
  destruct (m w) as [w' [a|e]]; [done|]. apply framed_clock.
Qed.

Ltac respect ::=
  repeat (first
    [ lazymatch goal with
      | |- respects _ (atomically _) => apply respects_atomically; [apply _|]
      end
    | respect_step ]).

(** Follow a computation from known facts up to its next write. *)
Ltac follow_step :=
  lazymatch goal with
  | |- respects ?R (atomically _) => apply respects_atomically; [typeclasses eauto|]
  | |- respects _ (bind (gets _) _) => apply respects_from
  | |- from _ _ (atomically _) => apply from_atomically; [typeclasses eauto|]
  | |- from _ _ (bind (gets _) _) => apply from_gets; [typeclasses eauto|intros ?]
  | |- from _ _ (bind (guard _ _) _) => apply from_guard; [typeclasses eauto|intros ?]
  | |- from _ _ (bind (modify _) _) => fail "write"
  | |- from _ _ (bind _ _) =>
      apply from_bind; [typeclasses eauto|solve [respect]|solve [respect]|intros ?]
  | |- from _ _ (match ?x with _ => _ end) => destruct x eqn:?
  | |- from _ _ (let _ := _ in _) => cbv zeta
  | |- from _ _ _ => apply from_respects; solve [respect]
  | |- respects _ _ => respect_step
  end.
Ltac follow := repeat follow_step.

(** A successful transaction is a run of its body. *)
Lemma atomically_ok {A} (m : M World exn A) w w' a :
  atomically m w = (w', Ok a) -> m w = (w', Ok a).
Proof. unfold atomically. by destruct (m w) as [w1 [b|e]]. Qed.

Lemma bind_utc_now `{Env} {B} (k : Z -> M World exn B) w :
  bind utc_now k w = k (utc (ticks w)) (w <| ticks ::= S |>).
Proof. done. Qed.

(** A transaction that fails changes nothing but the clock. *)
Lemma atomically_raise {A} (m : M World exn A) w w' e :
  atomically m w = (w', Raise e) -> exists t i, w' = w <| ticks := t |> <| ids := i |>.
Proof.
  unfold atomically. destruct (m w) as [w1 [b|e']]; intros H; [discriminate H|].
  injection H as <- <-. by exists (ticks w1), (ids w1).
Qed.

(** ** An environment to evaluate with

    The clock counts, identifiers are distinct, hashing is the identity and
    each text is embedded as its position. *)
Fixpoint tally (n : nat) : string :=
  match n with 0%nat => "i" | S m => String (Ascii.ascii_of_nat 105) (tally m) end.
Definition demo_env (ans : list call -> call -> option exn) : Env :=
  mkEnv Z.of_nat tally (fun s => s) None ans (fun _ ts => imap (fun i _ => Z.of_nat i) ts).
Definition all_fine : list call -> call -> option exn := fun _ _ => None.
