(* ===== verification/Timeline.v ===== *)
(** * The session timeline

    [timeline/repository.py] and the writing half of [timeline/service.py]. *)

From S2P Require Import Prelude Errors Json Contracts Store.
Open Scope Z_scope.

Definition event_type_value (t : TimelineEventType) : string :=
  match t with
  | USER_MESSAGE => "user_message"
  | CLARIFICATION_QUESTION => "clarification_question"
  | CLARIFICATION_ANSWER => "clarification_answer"
  | DIAGNOSIS_RESULT => "diagnosis_result"
  | REVIEW_SUBMITTED => "review_submitted"
  | CASE_CREATED => "case_created"
  end.

Definition session_events (sid : string) (w : World) : list TimelineEvent :=
  filter (fun e => tl_session_id e = sid) (timeline w).
Definition max_sequence (l : list TimelineEvent) : Z := foldr Z.max 0 (sequence <$> l).

Section TimelineWriter.
Context `{Env}.

(** [timeline/contracts.py:10-11 timeline_event_id] *)
Definition timeline_event_id (sid : string) (t : TimelineEventType) (key : string) : string :=
  sha256 (sid ++ ":" ++ event_type_value t ++ ":" ++ key)%string.

(** [timeline/repository.py:31-66 TimelineRepository.append] *)
Definition timeline_insert (eid sid : string) (rid : option string) (t : TimelineEventType)
    (actor : option ActorContext) (pl : json) : M World exn TimelineEvent :=
  atomically (
    existing <- gets (fun w => find_first (fun e => bool_decide (event_id e = eid)) (timeline w)) ;;
    match existing with
    | Some e => ret e
    | None =>
        top <- gets (fun w => max_sequence (session_events sid w)) ;;
        now <- utc_now ;;
        let e := mkTimeline eid sid rid t (actor_id <$> actor)
                   ((fun a => role_value (actor_role a)) <$> actor) pl (top + 1) now in
        modify (fun w => w <| timeline ::= fun l => l ++ [e] |>) ;;;
        ret e
    end).

(** [timeline/service.py:57-76 TimelineService.append] *)
Definition timeline_append (sid : string) (t : TimelineEventType) (key : string)
    (rid : option string) (actor : option ActorContext) (pl : json) : M World exn unit :=
  timeline_insert (timeline_event_id sid t key) sid rid t actor pl ;;; ret tt.

(** [timeline/repository.py:68-81 TimelineRepository.list]: the sequence
    numbers of a session grow along the table ([timeline_wf] below), so the
    order by sequence is the order of the table. *)
Definition timeline_list (sid : string) : M World exn (list TimelineEvent) :=
  gets (session_events sid).
End TimelineWriter.

(** ** The sequence numbers of a session are 1, 2, 3, ... *)

Record timeline_wf (w : World) : Prop := {
  wf_dense : forall sid k e, session_events sid w !! k = Some e -> sequence e = Z.of_nat k + 1;
  wf_ids : NoDup (event_id <$> timeline w);
}.

Lemma timeline_wf_ext w w' : timeline w' = timeline w -> timeline_wf w -> timeline_wf w'.
Proof. unfold session_events. intros E []. split; unfold session_events in *; rewrite ?E; done. Qed.

#[export] Instance timeline_wf_framed : Framed (keeps timeline_wf).
Proof. apply framed_keeps; intros; (eapply timeline_wf_ext; [|eassumption]; done). Qed.

Lemma max_sequence_dense l n :
  (forall k e, l !! k = Some e -> sequence e = n + Z.of_nat k + 1) -> 0 <= n ->
  max_sequence l = match l with [] => 0 | _ => n + Z.of_nat (length l) end.
Proof.
  revert n. induction l as [|e l IH]; intros n Hl Hn; [done|].
  change (max_sequence (e :: l)) with (Z.max (sequence e) (max_sequence l)).
  rewrite (IH (n + 1)).
  - rewrite (Hl 0%nat e eq_refl). destruct l; simpl; lia.
  - intros k e' Hk. rewrite (Hl (S k) e' Hk). lia.
  - lia.
Qed.

Lemma timeline_insert_wf `{Env} eid sid rid t actor pl :
  respects (keeps timeline_wf) (timeline_insert eid sid rid t actor pl).
Proof.
  apply respects_atomically; [apply _|]. intros w W. unfold bind at 1, gets.
  destruct (find_first _ (timeline w)) as [e|] eqn:Hex; [done|].
  cbn -[max_sequence]. destruct W as [W1 W2].
  rewrite (max_sequence_dense _ 0); [|intros; rewrite (W1 sid k e); [lia|done]|done].
  split; unfold session_events in *; simpl.
  - intros sid' k e. rewrite list.filter_app. intros [Hk|[Hlen Hk]]%lookup_app_Some; [by eapply W1|].
    rewrite list.filter_cons, list.filter_nil in Hk. simpl in Hk. case_decide; [|done]. subst sid'.
    apply list_lookup_singleton_Some in Hk as [Hk <-]. simpl.
    destruct (filter _ (timeline w)); simpl in *; lia.
  - rewrite fmap_app. simpl. apply NoDup_app. split; [done|]. split; [|apply NoDup_singleton].
    intros x Hx ->%list_elem_of_singleton. apply list_elem_of_fmap in Hx as (e & -> & He).
    assert (Hf : bool_decide (event_id e = event_id e) = false) by
      (apply (find_first_None _ _ _ Hex He)).
    by rewrite bool_decide_true in Hf.
Qed.

Lemma timeline_empty : timeline_wf empty_world.
Proof.
  split; [|apply NoDup_nil_2]. intros sid k e. unfold session_events, empty_world. by destruct k.
Qed.

Inductive timeline_op `{Env} : World -> World -> Prop :=
| tl_append w sid t key rid actor pl :
    timeline_op w (fst (timeline_append sid t key rid actor pl w)).

(** whatever is appended, in whatever order and however often, the events
    of a session carry the consecutive sequence numbers 1, 2, 3, ... in the
    order in which they were stored, and no event id occurs twice. *)
Theorem timeline_sequences `{Env} w sid k e :
  rtc timeline_op empty_world w ->
  (session_events sid w !! k = Some e -> sequence e = Z.of_nat k + 1) /\
  NoDup (event_id <$> timeline w).
Proof.
  intros Hr. assert (W : timeline_wf w).
  { assert (W0 := timeline_empty). revert W0. induction Hr as [w|w1 w2 w3 [] _ IH]; [done|]. intros W. apply IH.
    unfold timeline_append. refine (respects_bind _ _ _ (timeline_insert_wf _ _ _ _ _ _) _ _ W).
    intros ?. apply respects_ret, _. }
  split; [apply (wf_dense _ W)|apply (wf_ids _ W)].
Qed.

(** appending the same event again (same session, type and key, whatever
    the payload) returns the stored event and changes no table. *)
Theorem timeline_append_idempotent `{Env} w sid t key rid actor pl rid' actor' pl' :
  let w1 := fst (timeline_append sid t key rid actor pl w) in
  fst (timeline_append sid t key rid' actor' pl' w1) = w1.
Proof.
  set (eid := timeline_event_id sid t key).
  assert (Hex : forall w2, find_first (fun e => bool_decide (event_id e = eid)) (timeline w2)
      <> None -> fst (timeline_append sid t key rid' actor' pl' w2) = w2).
  { intros w2 Hn. unfold timeline_append, timeline_insert, bind, atomically, gets. fold eid.
    by destruct (find_first _ (timeline w2)). }
  intros w1. apply Hex. unfold w1, timeline_append, timeline_insert, bind, atomically, gets.
  fold eid. destruct (find_first _ (timeline w)) as [e|] eqn:He; simpl; [by rewrite He|].
  clear -He. induction (timeline w) as [|e l IH]; simpl in *;
    [by rewrite bool_decide_true|]. case_bool_decide; auto.
Qed.

(** Two events of a session. *)
Definition demo_timeline : World :=
  let add key w := fst (@timeline_append (demo_env all_fine) "s1" USER_MESSAGE key None
                          None (JObj []) w) in
  add "b" (add "a" empty_world).

Lemma timeline_sequences_witness :
  (exists e, session_events "s1" demo_timeline !! 1%nat = Some e /\ sequence e = 1 + 1)
  /\ NoDup (event_id <$> timeline demo_timeline).
Proof.
  destruct (session_events "s1" demo_timeline !! 1%nat) as [e|] eqn:He;
    [|exfalso; vm_compute in He; discriminate He].
  destruct (@timeline_sequences (demo_env all_fine) demo_timeline "s1" 1 e) as [H1 H2].
  - eapply rtc_l; [apply tl_append|]. eapply rtc_l; [apply tl_append|]. apply rtc_refl.
  - split; [|exact H2]. exists e. split; [reflexivity|]. exact (H1 He).
Defined.
