(* ===== verification/IndexRepo.v ===== *)
(** * Index jobs and the transactional outbox

    [indexing/repository.py] and the rules of [indexing/contracts.py]: jobs,
    their statuses and attempts, and the outbox rows a publisher sends; the invariant of
    both tables. *)

From S2P Require Import Prelude Errors Json Contracts Store.
Open Scope Z_scope.

(** [indexing/contracts.py:102-103 should_dead_letter] *)
Definition should_dead_letter (attempts max_attempts : Z) (retry : bool) : bool :=
  negb retry || (max_attempts <=? attempts).

(** The statuses after which a delivery of the message is ignored. *)
Definition job_done (s : IndexJobStatus) : bool :=
  bool_decide (s ∈ [JOB_INDEXED; JOB_DEGRADED; JOB_TOMBSTONED; JOB_STALE]).

Definition job_of_key (key : EntityType * string * string * IndexOperation) (w : World)
  : option IndexJob :=
  find_first (fun j => bool_decide (idempotency_key (request j) = key))
    (snd <$> map_to_list (jobs w)).

Definition next_outbox_id (w : World) : Z := Z.of_nat (length (outbox w)) + 1.

Definition set_job (j : IndexJob) (w : World) : World := w <| jobs ::= insert (job_id j) j |>.
Definition update_outbox (oid : Z) (f : OutboxRow -> OutboxRow) (w : World) : World :=
  w <| outbox ::= map (fun o => if bool_decide (ob_id o = oid) then f o else o) |>.
Definition find_outbox (oid : Z) (w : World) : option OutboxRow :=
  find_first (fun o => bool_decide (ob_id o = oid)) (outbox w).

Section IndexRepository.
Context `{Env}.

(** Building the record validates the attempts.
    [indexing/contracts.py:95-99 IndexJobRecord.validate_attempts] *)
Definition validate_attempts (j : IndexJob) : M World exn IndexJob :=
  if jc_max_attempts (request j) <? attempt_count j then raise ValidationError else ret j.

Definition message_of (jid : string) (r : IndexJobCreate) (trace causation : string) (now : Z)
  : IndexJobMessage :=
  mkMessage jid (jc_entity_type r) (jc_entity_id r) (jc_entity_version r) (jc_operation r)
    trace (jc_correlation_id r) causation now.

(** [indexing/repository.py:76-128 IndexRepository._add_job] *)
Definition add_job (r : IndexJobCreate) : M World exn IndexJob :=
  existing <- gets (job_of_key (idempotency_key r)) ;;
  match existing with
  | Some j => validate_attempts j
  | None =>
      now <- utc_now ;;
      jid <- new_id ;;
      let message := message_of jid r (jc_trace_id r) (jc_causation_id r) now in
      let model := mkJob jid r JOB_PENDING 0 None None None now None None now in
      taken <- gets (fun w => jobs w !! jid) ;;
      match taken with
      | Some _ => raise IntegrityError
      | None =>
          modify (fun w => set_job model w
            <| outbox ::= fun l => l ++ [mkOutbox (next_outbox_id w) jid
                 "index.job.requested.v1" message OB_PENDING 0 None now None now] |>) ;;;
          ret model
      end
  end.

(** [indexing/repository.py:57-59 IndexRepository.create_job] *)
Definition create_job (r : IndexJobCreate) : M World exn IndexJob := atomically (add_job r).

(** [indexing/repository.py:130-136 IndexRepository.get] *)
Definition get_job (jid : string) : M World exn (option IndexJob) :=
  j <- gets (fun w => jobs w !! jid) ;;
  match j with
  | Some j => j' <- validate_attempts j ;; ret (Some j')
  | None => ret None
  end.

(** Rows come in the order of their autoincrement id, which is the order of
    the list.  [indexing/repository.py:138-152 IndexRepository.pending_outbox] *)
Definition pending_outbox (limit : nat) : M World exn (list OutboxRow) :=
  gets (fun w =>
    take limit (filter (fun o => publish_status o = OB_PENDING) (outbox w))).

(** [indexing/repository.py:154-166 IndexRepository.mark_published] *)
Definition mark_published (oid : Z) (jid : string) : M World exn unit :=
  now <- utc_now ;;
  atomically (
    row <- gets (find_outbox oid) ;;
    job <- gets (fun w => jobs w !! jid) ;;
    match row with
    | Some o =>
        when (bool_decide (publish_status o = OB_PENDING))
          (modify (update_outbox oid (fun o =>
             o <| publish_status := OB_PUBLISHED |> <| publish_attempts ::= Z.succ |>
               <| published_at := Some now |> <| ob_updated_at := now |>)))
    | None => ret tt
    end ;;;
    match job with
    | Some j =>
        when (bool_decide (status j = JOB_PENDING))
          (modify (set_job (j <| status := JOB_QUEUED |> <| job_updated_at := now |>)))
    | None => ret tt
    end).

(** [indexing/repository.py:168-174 IndexRepository.mark_publish_failed] *)
Definition mark_publish_failed (oid : Z) (error_code : string) : M World exn unit :=
  atomically (
    row <- gets (find_outbox oid) ;;
    match row with
    | Some _ =>
        now <- utc_now ;;
        modify (update_outbox oid (fun o =>
          o <| publish_attempts ::= Z.succ |> <| ob_last_error_code := Some error_code |>
            <| ob_updated_at := now |>))
    | None => ret tt
    end).

(** [indexing/repository.py:176-193 IndexRepository.start] *)
Definition start (jid : string) : M World exn (option IndexJob) :=
  now <- utc_now ;;
  atomically (
    model <- gets (fun w => jobs w !! jid) ;;
    match model with
    | None => ret None
    | Some j =>
        if job_done (status j) then (j' <- validate_attempts j ;; ret (Some j'))
        else
          let j := j <| status := JOB_RUNNING |> <| attempt_count ::= Z.succ |>
                     <| started_at := Some now |> <| job_updated_at := now |> in
          modify (set_job j) ;;;
          j' <- validate_attempts j ;;
          ret (Some j')
    end).

(** [indexing/repository.py:195-203 IndexRepository.finish] *)
Definition finish (jid : string) (st : IndexJobStatus) : M World exn unit :=
  atomically (
    model <- gets (fun w => jobs w !! jid) ;;
    match model with
    | None => ret tt
    | Some j =>
        t1 <- utc_now ;;
        t2 <- utc_now ;;
        modify (set_job (j <| status := st |> <| finished_at := Some t1 |>
          <| job_updated_at := t2 |> <| last_error_code := None |>
          <| last_error_message := None |>))
    end).

(** The entity of a dead-lettered job is marked as failed.
    [indexing/repository.py:228-254 case_entity] *)
Definition fail_entity (r : IndexJobCreate) (error_code : string) : M World exn unit :=
  let eid := jc_entity_id r in
  match jc_entity_type r with
  | DIAGNOSIS_CASE =>
      c <- gets (fun w => cases w !! eid) ;;
      match c with
      | Some c =>
          now <- utc_now ;;
          modify (fun w => w <| cases ::= insert eid
            (c <| index_status := IDX_FAILED |> <| index_error_code := Some error_code |>
               <| is_active := false |> <| updated_at := now |>) |>)
      | None => ret tt
      end
  | MAINTENANCE_TICKET =>
      t <- gets (fun w => tickets w !! eid) ;;
      match t with
      | Some t =>
          now <- utc_now ;;
          modify (fun w => w <| tickets ::= insert eid
            (t <| t_index_status := IDX_FAILED |> <| t_index_error_code := Some error_code |>
               <| t_updated_at := now |>) |>)
      | None => ret tt
      end
  | MANUAL_DOCUMENT =>
      let selected d := bool_decide (doc_id d = eid)
        && bool_decide (d_index_generation d = Some (jc_entity_version r)) in
      rows <- gets (fun w => filter (fun d => selected d = true) (documents w)) ;;
      match rows with
      | [] => ret tt
      | _ :: _ :: _ => raise MultipleResultsFound
      | [_] =>
          now <- utc_now ;;
          modify (fun w => w <| documents ::= map (fun d => if selected d
            then d <| d_index_status := IDX_FAILED |>
                   <| d_index_error_code := Some error_code |> <| d_updated_at := now |>
            else d) |>)
      end
  | TEMPLATE_GRAPH => ret tt
  end.

(** [retry_delay] is the delay in microseconds, [None] for a dead letter.
    [indexing/repository.py:205-254 IndexRepository.fail] *)
Definition fail (jid error_code error_message : string) (retry_delay : option Z)
  : M World exn unit :=
  atomically (
    model <- gets (fun w => jobs w !! jid) ;;
    match model with
    | None => ret tt
    | Some j =>
        next <- match retry_delay with
                | Some d => t <- utc_now ;; ret (Some (t + d))
                | None => ret None
                end ;;
        fin <- match retry_delay with
               | Some _ => ret None
               | None => t <- utc_now ;; ret (Some t)
               end ;;
        now <- utc_now ;;
        modify (set_job
          (j <| status := if retry_delay is Some _ then JOB_QUEUED else JOB_FAILED |>
             <| last_error_code := Some error_code |>
             <| last_error_message := Some (String.substring 0 512 error_message) |>
             <| next_attempt_at := next |> <| finished_at := fin |>
             <| job_updated_at := now |>)) ;;;
        when (negb (bool_decide (is_Some retry_delay))) (fail_entity (request j) error_code)
    end).

(** [indexing/repository.py:256-289 IndexRepository.retry] *)
Definition retry (jid trace : string) : M World exn (option IndexJob) :=
  atomically (
    model <- gets (fun w => jobs w !! jid) ;;
    match model with
    | None => ret None
    | Some j =>
        if negb (bool_decide (status j = JOB_FAILED)) then ret None
        else
          now <- utc_now ;;
          let message := message_of (job_id j) (request j) trace (job_id j) now in
          let j' := j <| status := JOB_PENDING |> <| attempt_count := 0 |>
                      <| last_error_code := None |> <| last_error_message := None |>
                      <| job_updated_at := now |> in
          modify (fun w => set_job j' w
            <| outbox ::= fun l => l ++ [mkOutbox (next_outbox_id w) (job_id j)
                 "index.job.retried.v1" message OB_PENDING 0 None now None now] |>) ;;;
          r <- validate_attempts j' ;;
          ret (Some r)
    end).
End IndexRepository.

(** ** The invariant of the job table and of the outbox *)

(** A request as pydantic admits it: [max_attempts: int = Field(ge=1, le=20)]. *)
Definition valid_request (r : IndexJobCreate) : Prop := 1 <= jc_max_attempts r <= 20.

(** The well-formed job store: rows carry their key, attempts stay within the
    limit, an entity version has one job per operation, outbox ids count from
    one, and each job still waiting to be sent has an unsent outbox row. *)
Record jobs_wf (w : World) : Prop := {
  wf_id : forall i j, jobs w !! i = Some j -> job_id j = i;
  wf_attempts : forall i j, jobs w !! i = Some j -> attempt_count j <= jc_max_attempts (request j);
  wf_max : forall i j, jobs w !! i = Some j -> valid_request (request j);
  wf_key : forall i1 i2 j1 j2, jobs w !! i1 = Some j1 -> jobs w !! i2 = Some j2 ->
    idempotency_key (request j1) = idempotency_key (request j2) -> i1 = i2;
  wf_outbox : forall k o, outbox w !! k = Some o -> ob_id o = Z.of_nat k + 1;
  wf_pending : forall i j, jobs w !! i = Some j -> status j = JOB_PENDING ->
    exists o, o ∈ outbox w /\ ob_job_id o = i /\ publish_status o = OB_PENDING;
}.

Lemma jobs_wf_ext w w' : jobs w' = jobs w -> outbox w' = outbox w -> jobs_wf w -> jobs_wf w'.
Proof. intros Hj Ho []. split; rewrite ?Hj, ?Ho; assumption. Qed.

#[export] Instance jobs_wf_framed : Framed (keeps jobs_wf).
Proof. apply framed_keeps; intros; (eapply jobs_wf_ext; [| |eassumption]; done). Qed.

Lemma jobs_wf_empty : jobs_wf empty_world.
Proof. split; unfold empty_world; simpl; intros *; rewrite ?lookup_empty, ?lookup_nil; by intros. Qed.

Lemma job_of_key_Some key w j :
  job_of_key key w = Some j ->
  idempotency_key (request j) = key /\ exists i, jobs w !! i = Some j.
Proof.
  intros [Hin Hk]%find_first_Some. apply bool_decide_eq_true in Hk. split; [done|].
  apply list_elem_of_fmap in Hin as ([i j'] & -> & Hij).
  exists i. by apply elem_of_map_to_list in Hij.
Qed.

Lemma job_of_key_None key w i j :
  job_of_key key w = None -> jobs w !! i = Some j -> idempotency_key (request j) <> key.
Proof.
  intros Hn Hj Hk. eapply (find_first_None _ _ j) in Hn.
  - by apply bool_decide_eq_false in Hn.
  - apply list_elem_of_fmap. exists (i, j). split; [done|]. by apply elem_of_map_to_list.
Qed.

(** Updating a job in place. *)
Lemma set_job_wf w i j j' :
  jobs w !! i = Some j -> job_id j' = job_id j -> request j' = request j ->
  attempt_count j' <= jc_max_attempts (request j) ->
  (status j' = JOB_PENDING -> status j = JOB_PENDING \/
     exists o, o ∈ outbox w /\ ob_job_id o = i /\ publish_status o = OB_PENDING) ->
  jobs_wf w -> jobs_wf (set_job j' w).
Proof.
  intros Hj Hid Hr Ha Hp W. assert (Hi : job_id j = i) by (by eapply wf_id).
  unfold set_job. rewrite Hid, Hi. destruct W as [W1 W2 W3 W4 W5 W6].
  split; simpl; [| | | |done|].
  - intros i1 j1 [[<- <-]|[? ?]]%lookup_insert_Some; [congruence|eauto].
  - intros i1 j1 [[<- <-]|[? ?]]%lookup_insert_Some; [congruence|eauto].
  - intros i1 j1 [[<- <-]|[? ?]]%lookup_insert_Some; [rewrite Hr; eauto|eauto].
  - intros i1 i2 j1 j2 [[<- <-]|[? ?]]%lookup_insert_Some [[<- <-]|[? ?]]%lookup_insert_Some;
      rewrite ?Hr; eauto.
  - intros i1 j1 [[<- <-]|[? ?]]%lookup_insert_Some Hs; [|eauto].
    destruct (Hp Hs) as [Hs'|Ho]; eauto.
Qed.

Lemma update_outbox_wf oid f w :
  (forall o, ob_id (f o) = ob_id o) ->
  (forall o, o ∈ outbox w -> ob_id o = oid -> publish_status o = OB_PENDING ->
     publish_status (f o) <> OB_PENDING ->
     forall j, jobs w !! ob_job_id o = Some j -> status j <> JOB_PENDING) ->
  (forall o, ob_job_id (f o) = ob_job_id o) ->
  jobs_wf w -> jobs_wf (update_outbox oid f w).
Proof.
  intros Hid Hp Hjob [W1 W2 W3 W4 W5 W6]. split; simpl; [done..| |].
  - intros k o Ho. rewrite list_lookup_fmap in Ho.
    destruct (outbox w !! k) as [o'|] eqn:E; simpl in Ho; [|done].
    injection Ho as <-. case_bool_decide; rewrite ?Hid; eauto.
  - intros i j Hj Hs. destruct (W6 i j Hj Hs) as (o & Hin & Ho & Hpub).
    exists (if bool_decide (ob_id o = oid) then f o else o). split.
    + apply (list_elem_of_fmap_2 (fun o => if bool_decide (ob_id o = oid) then f o else o) _ _ Hin).
    + case_bool_decide; [|done]. split; [by rewrite Hjob|].
      destruct (decide (publish_status (f o) = OB_PENDING)) as [|Hne]; [done|].
      exfalso. apply (Hp o Hin) with j; auto. by rewrite Ho.
Qed.

(** Appending an outbox row for a job. *)
Lemma outbox_append_wf w o :
  ob_id o = next_outbox_id w -> jobs_wf w ->
  jobs_wf (w <| outbox ::= fun l => l ++ [o] |>).
Proof.
  intros Hid [W1 W2 W3 W4 W5 W6]. split; simpl; [done..| |].
  - intros k o' Hk. apply lookup_app_Some in Hk as [Hk|[Hlen Hk]]; [eauto|].
    apply list_lookup_singleton_Some in Hk as [Hk <-]. rewrite Hid. unfold next_outbox_id. lia.
  - intros i j Hj Hs. destruct (W6 i j Hj Hs) as (o' & Hin & ?).
    exists o'. split; [|done]. apply elem_of_app. by left.
Qed.

Section Preservation.
Context `{Env}.

Lemma add_job_wf r : valid_request r -> respects (keeps jobs_wf) (add_job r).
Proof.
  intros Hr w W. unfold add_job, bind, gets.
  destruct (job_of_key (idempotency_key r) w) as [j|] eqn:Hkey; simpl.
  { unfold validate_attempts. by destruct (_ <? _). }
  destruct (jobs w !! uuid (ids w)) as [j|] eqn:Hfresh; simpl;
    [by eapply jobs_wf_ext; last exact W|].
  set (jid := uuid (ids w)) in *. destruct W as [W1 W2 W3 W4 W5 W6].
  split; simpl.
  - intros i j [[<- <-]|[? ?]]%lookup_insert_Some; eauto.
  - intros i j [[<- <-]|[? ?]]%lookup_insert_Some; [|eauto].
    unfold valid_request in Hr. simpl. lia.
  - intros i j [[<- <-]|[? ?]]%lookup_insert_Some; eauto.
  - intros i1 i2 j1 j2 [[<- <-]|[? ?]]%lookup_insert_Some
      [[<- <-]|[? ?]]%lookup_insert_Some Hk; simpl in *; eauto.
    + exfalso. by eapply job_of_key_None in Hkey; [apply Hkey|].
    + exfalso. by eapply job_of_key_None in Hkey; [apply Hkey|].
  - intros k o Hk. apply lookup_app_Some in Hk as [Hk|[Hlen Hk]]; [eauto|].
    apply list_lookup_singleton_Some in Hk as [Hk <-]. simpl.
    unfold next_outbox_id; simpl. lia.
  - intros i j [[<- <-]|[? ?]]%lookup_insert_Some Hs.
    + eexists. split; [apply elem_of_app; right; left|]. done.
    + destruct (W6 i j) as (o & ? & ?); [done..|]. exists o. split; [|done].
      apply elem_of_app. by left.
Qed.

(** [mark_published] updates the row and the job; the two updates commute. *)
Definition queued_job (now : Z) (jid : string) (w : World) : World :=
  match jobs w !! jid with
  | Some j =>
      if bool_decide (status j = JOB_PENDING)
      then set_job (j <| status := JOB_QUEUED |> <| job_updated_at := now |>) w else w
  | None => w
  end.
Definition published_row (now : Z) (oid : Z) (w : World) : World :=
  match find_outbox oid w with
  | Some o =>
      if bool_decide (publish_status o = OB_PENDING)
      then update_outbox oid (fun o =>
             o <| publish_status := OB_PUBLISHED |> <| publish_attempts ::= Z.succ |>
               <| published_at := Some now |> <| ob_updated_at := now |>) w
      else w
  | None => w
  end.

Lemma mark_published_run oid jid w :
  fst (mark_published oid jid w)
  = published_row (utc (ticks w)) oid (queued_job (utc (ticks w)) jid (w <| ticks ::= S |>)).
Proof.
  unfold mark_published, bind, utc_now, atomically, gets, queued_job, published_row,
    when, find_outbox, modify, ret. simpl.
  destruct (find_first _ (outbox w)) as [o|] eqn:Ho; simpl;
    [destruct (bool_decide (publish_status o = _)) eqn:Ep; simpl|];
    (destruct (jobs w !! jid) as [j|]; simpl;
      [destruct (bool_decide (status j = _)); simpl|]);
    rewrite ?Ho, ?Ep; reflexivity.
Qed.

Lemma queued_job_wf now jid w : jobs_wf w -> jobs_wf (queued_job now jid w).
Proof.
  intros W. unfold queued_job. destruct (jobs w !! jid) as [j|] eqn:Hj; [|done].
  case_bool_decide; [|done]. eapply set_job_wf; try done. simpl. by eapply wf_attempts.
Qed.

Lemma queued_job_not_pending now jid w j : jobs_wf w ->
  jobs (queued_job now jid w) !! jid = Some j -> status j <> JOB_PENDING.
Proof.
  intros W. unfold queued_job. destruct (jobs w !! jid) as [j'|] eqn:Hj'; [|congruence].
  case_bool_decide; [|congruence]. simpl. rewrite (wf_id _ W _ _ Hj'), lookup_insert_eq.
  by intros [= <-].
Qed.

Lemma queued_job_outbox now jid w : outbox (queued_job now jid w) = outbox w.
Proof.
  unfold queued_job. destruct (jobs w !! jid); [|done]. by case_bool_decide.
Qed.

(** The publisher marks a row together with the job the row names. *)
Lemma mark_published_wf oid jid w :
  (forall o, find_outbox oid w = Some o -> ob_job_id o = jid) ->
  jobs_wf w -> jobs_wf (fst (mark_published oid jid w)).
Proof.
  intros Hpair W. rewrite mark_published_run. set (now := utc (ticks w)).
  assert (W1 : jobs_wf (w <| ticks ::= S |>)) by (eapply jobs_wf_ext; [| |exact W]; done).
  pose proof (queued_job_wf now jid _ W1) as W2.
  pose proof (fun j => queued_job_not_pending now jid (w <| ticks ::= S |>) j W1) as Hnp.
  unfold published_row, find_outbox in *. rewrite queued_job_outbox. simpl.
  destruct (find_first _ (outbox w)) as [o|] eqn:Ho; [|done].
  case_bool_decide as Hpub; [|done].
  apply update_outbox_wf; try done.
  intros o' Ho' Hid _ _ j Hj. rewrite queued_job_outbox in Ho'. simpl in Ho'.
  apply (Hnp j). rewrite <- Hj. f_equal. rewrite <- (Hpair o eq_refl).
  apply find_first_Some in Ho as [Hin Hid']. apply bool_decide_eq_true in Hid'.
  apply list_elem_of_lookup in Ho' as [k Hk], Hin as [k' Hk'].
  pose proof (wf_outbox _ W _ _ Hk). pose proof (wf_outbox _ W _ _ Hk').
  assert (k = k') as -> by lia. congruence.
Qed.

Lemma mark_publish_failed_wf oid code :
  respects (keeps jobs_wf) (mark_publish_failed oid code).
Proof.
  unfold mark_publish_failed. respect. intros w W. by apply update_outbox_wf.
Qed.

Lemma start_wf jid : respects (keeps jobs_wf) (start jid).
Proof.
  intros w W. unfold start, bind, utc_now, atomically, gets, validate_attempts. simpl.
  assert (W1 : jobs_wf (w <| ticks ::= S |>)) by (eapply jobs_wf_ext; [| |exact W]; done).
  destruct (jobs w !! jid) as [j|] eqn:Hj; simpl; [|done].
  destruct (job_done (status j)); simpl.
  - destruct (_ <? _); simpl; [by eapply jobs_wf_ext; [| |exact W]|done].
  - destruct (_ <? _) eqn:Hlt; simpl; [by eapply jobs_wf_ext; [| |exact W]|].
    eapply set_job_wf; try done. simpl. simpl in Hlt. apply Z.ltb_ge in Hlt. lia.
Qed.

Lemma finish_wf jid st : st <> JOB_PENDING -> respects (keeps jobs_wf) (finish jid st).
Proof.
  intros Hst w W. unfold finish, bind, utc_now, atomically, gets. simpl.
  destruct (jobs w !! jid) as [j|] eqn:Hj; simpl; [|done].
  eapply jobs_wf_ext; [| |eapply (set_job_wf w jid j); [done|..|exact W]]; try done.
  simpl. by eapply wf_attempts.
Qed.

Lemma fail_entity_wf r code : respects (keeps jobs_wf) (fail_entity r code).
Proof.
  unfold fail_entity. respect; intros w W; by eapply jobs_wf_ext; [| |exact W].
Qed.

(** A job rewritten in place after some readings of the clock. *)
Lemma set_job_later w jid j t j' :
  jobs w !! jid = Some j -> jobs_wf w ->
  job_id j' = job_id j -> request j' = request j ->
  attempt_count j' <= jc_max_attempts (request j) -> status j' <> JOB_PENDING ->
  jobs_wf (set_job j' (w <| ticks := t |>)).
Proof.
  intros Hj W ????.
  eapply (jobs_wf_ext (set_job j' w)); [done..|].
  by eapply (set_job_wf w jid j).
Qed.

Lemma fail_wf jid code msg delay : respects (keeps jobs_wf) (fail jid code msg delay).
Proof.
  unfold fail. apply respects_atomically; [apply _|]. intros w W. unfold bind at 1, gets.
  destruct (jobs w !! jid) as [j|] eqn:Hj; simpl; [|done].
  assert (Hmax : attempt_count j <= jc_max_attempts (request j)) by by eapply wf_attempts.
  destruct delay as [d|]; cbn -[set_job fail_entity].
  - by eapply (set_job_later w jid j).
  - apply fail_entity_wf. by eapply (set_job_later w jid j).
Qed.

Lemma retry_wf jid trace : respects (keeps jobs_wf) (retry jid trace).
Proof.
  unfold retry. apply respects_atomically; [apply _|]. intros w W. unfold bind at 1, gets.
  destruct (jobs w !! jid) as [j|] eqn:Hj; simpl; [|done].
  destruct (negb _); [done|].
  assert (Hid : job_id j = jid) by by eapply wf_id.
  assert (Hmax : valid_request (request j)) by by eapply wf_max.
  match goal with |- jobs_wf (fst ?m) => assert (Hrun : fst m =
    set_job (j <| status := JOB_PENDING |> <| attempt_count := 0 |>
      <| last_error_code := None |> <| last_error_message := None |>
      <| job_updated_at := utc (ticks w) |>)
     (w <| ticks ::= S |> <| outbox ::= fun l => l ++ [mkOutbox (next_outbox_id w) (job_id j)
        "index.job.retried.v1" (message_of (job_id j) (request j) trace (job_id j) (utc (ticks w)))
        OB_PENDING 0 None (utc (ticks w)) None (utc (ticks w))] |>)) end.
  { cbn. unfold validate_attempts. by destruct (_ <? _). }
  rewrite Hrun. eapply set_job_wf; [exact Hj|done|done| | |].
  - simpl. unfold valid_request in Hmax. lia.
  - intros _. right. eexists. split; [apply elem_of_app; right; by left|done].
  - apply outbox_append_wf; [done|]. by eapply jobs_wf_ext; [| |exact W].
Qed.
End Preservation.
