(* ===== verification/Text.v ===== *)
(** * Python text

    Strings are their UTF-8 bytes.  [strip] is [str.strip()] on all the
    characters Python counts as white space. *)

From S2P Require Import Prelude.
From Stdlib Require Import Ascii.

Definition byte (n : nat) : ascii := ascii_of_nat n.

(** The UTF-8 encodings of the characters [c] with [c.isspace()]. *)
Definition space_chars : list (list ascii) :=
  map (map byte)
    ([[9]; [10]; [11]; [12]; [13]; [28]; [29]; [30]; [31]; [32];
      [194; 133]; [194; 160]; [225; 154; 128]; [226; 128; 168]; [226; 128; 169];
      [226; 128; 175]; [226; 129; 159]; [227; 128; 128]]
     ++ map (fun n => [226; 128; 128 + n]) (seq 0 11)).

Fixpoint drop_prefix (p l : list ascii) : option (list ascii) :=
  match p, l with
  | [], _ => Some l
  | a :: p', b :: l' => if Ascii.eqb a b then drop_prefix p' l' else None
  | _ :: _, [] => None
  end.

(** The rest of the text after one of the given characters. *)
Fixpoint drop_one (ps : list (list ascii)) (l : list ascii) : option (list ascii) :=
  match ps with
  | [] => None
  | p :: ps' => match drop_prefix p l with Some l' => Some l' | None => drop_one ps' l end
  end.

(** Each step drops at least one byte, so the length is enough fuel
    ([drop_spaces_done]). *)
Fixpoint drop_spaces (fuel : nat) (ps : list (list ascii)) (l : list ascii) : list ascii :=
  match fuel with
  | 0 => l
  | S n => match drop_one ps l with Some l' => drop_spaces n ps l' | None => l end
  end.

Definition lstrip_bytes (l : list ascii) : list ascii := drop_spaces (length l) space_chars l.
Definition rstrip_bytes (l : list ascii) : list ascii :=
  rev (drop_spaces (length l) (map (@rev ascii) space_chars) (rev l)).

Definition strip (s : string) : string :=
  String.string_of_list_ascii (rstrip_bytes (lstrip_bytes (String.list_ascii_of_string s))).

Lemma drop_prefix_length p l l' :
  drop_prefix p l = Some l' -> length l = length p + length l'.
Proof.
  revert l. induction p as [|a p IH]; intros l H; simpl in *; [by injection H as ->|].
  destruct l as [|b l]; [done|]. destruct (Ascii.eqb a b); [|done]. simpl. by rewrite (IH l).
Qed.

Lemma drop_one_length ps l l' :
  Forall (fun p => p <> []) ps -> drop_one ps l = Some l' -> length l' < length l.
Proof.
  induction 1 as [|p ps Hp _ IH]; simpl; [done|].
  destruct (drop_prefix p l) eqn:E; [|done]. intros [= ->].
  rewrite (drop_prefix_length _ _ _ E). destruct p; simpl; [done|lia].
Qed.

(** With the length as fuel nothing is left to strip. *)
Lemma drop_spaces_done fuel ps l :
  Forall (fun p => p <> []) ps -> length l <= fuel -> drop_one ps (drop_spaces fuel ps l) = None.
Proof.
  intros Hps. revert l. induction fuel as [|n IH]; intros l Hl; simpl.
  - destruct (drop_one ps l) eqn:E; [|done]. apply drop_one_length in E; [lia|done].
  - destruct (drop_one ps l) eqn:E; [|done]. apply IH.
    apply drop_one_length in E; [lia|done].
Qed.

Lemma space_chars_nonempty : Forall (fun p => p <> []) space_chars.
Proof. unfold space_chars. repeat constructor; discriminate. Qed.

(** Stripped text does not start with white space. *)
Lemma lstrip_bytes_done l : drop_one space_chars (lstrip_bytes l) = None.
Proof. apply drop_spaces_done; [apply space_chars_nonempty|done]. Qed.

Example strip_example : strip ("  a b" ++ String (byte 9) " ") = "a b"%string.
Proof. vm_compute. reflexivity. Qed.
Definition wide_space : string := String.string_of_list_ascii (map byte [227; 128; 128]).
Example strip_ideographic : strip (wide_space ++ "散热" ++ wide_space) = "散热"%string.
Proof. vm_compute. reflexivity. Qed.

(** [re.sub(r"\s+", " ", s)]: each run of white space becomes one space. *)
Fixpoint collapse_bytes (fuel : nat) (l : list ascii) : list ascii :=
  match fuel, l with
  | 0, _ => l
  | _, [] => []
  | S n, a :: l' =>
      match drop_one space_chars l with
      | Some r => byte 32 :: collapse_bytes n (drop_spaces (length r) space_chars r)
      | None => a :: collapse_bytes n l'
      end
  end.

Definition collapse_spaces (s : string) : string :=
  let l := String.list_ascii_of_string s in
  String.string_of_list_ascii (collapse_bytes (length l) l).

Example collapse_example :
  collapse_spaces (" a" ++ wide_space ++ wide_space ++ "b" ++ String (byte 9) "c ")
  = " a b c "%string.
Proof. vm_compute. reflexivity. Qed.

(** [len(s)]: the characters, that is the bytes that do not continue one. *)
Definition py_len (s : string) : Z :=
  Z.of_nat (length (filter (fun a => negb ((128 <=? nat_of_ascii a) && (nat_of_ascii a <? 192)) = true)
    (String.list_ascii_of_string s))).

Example py_len_example : py_len "热ab" = 3%Z.
Proof. vm_compute. reflexivity. Qed.

(** [s[:n]]: the first [n] characters. *)
Definition continues (a : ascii) : bool :=
  (128 <=? nat_of_ascii a) && (nat_of_ascii a <? 192).
Fixpoint take_chars (n : nat) (l : list ascii) : list ascii :=
  match l with
  | [] => []
  | a :: l' =>
      if continues a then a :: take_chars n l'
      else match n with 0 => [] | S m => a :: take_chars m l' end
  end.
Definition str_take (n : nat) (s : string) : string :=
  String.string_of_list_ascii (take_chars n (String.list_ascii_of_string s)).

Example str_take_example : str_take 2 "热ab" = "热a"%string.
Proof. vm_compute. reflexivity. Qed.
