(* ===== verification/Regex.v ===== *)
(** * Text as code points, and regular expressions

    The source matches user text with Python's [re].  [search], [finditer] and
    [fullmatch] are a backtracking matcher for the constructs the source uses,
    in the priority order of [re]; [matches] is their meaning, and
    [ends_correct] says that the matcher finds exactly what matches. *)

From S2P Require Import Prelude Text.
From Stdlib Require Import Ascii.
Open Scope N_scope.

(** ** Code points *)

Abbreviation text := (list N).

(** The code points of a UTF-8 string. *)
Fixpoint utf8 (l : list ascii) : text :=
  match l with
  | [] => []
  | a :: l1 =>
      let x := N_of_ascii a in
      if x <? 128 then x :: utf8 l1
      else if x <? 224 then
        match l1 with
        | b :: l2 => ((x mod 32) * 64 + N_of_ascii b mod 64) :: utf8 l2
        | [] => []
        end
      else if x <? 240 then
        match l1 with
        | b :: c :: l3 =>
            ((x mod 16) * 4096 + (N_of_ascii b mod 64) * 64 + N_of_ascii c mod 64) :: utf8 l3
        | _ => []
        end
      else
        match l1 with
        | b :: c :: d :: l4 =>
            ((x mod 8) * 262144 + (N_of_ascii b mod 64) * 4096 + (N_of_ascii c mod 64) * 64
             + N_of_ascii d mod 64) :: utf8 l4
        | _ => []
        end
  end.
Definition chars (s : string) : text := utf8 (String.list_ascii_of_string s).

Example chars_example : chars "a停机" = [97; 20572; 26426].
Proof. reflexivity. Qed.

(** The UTF-8 encoding of a code point. *)
Definition encode (x : N) : list ascii :=
  map ascii_of_N
    (if x <? 128 then [x]
     else if x <? 2048 then [192 + x / 64; 128 + x mod 64]
     else if x <? 65536 then [224 + x / 4096; 128 + x / 64 mod 64; 128 + x mod 64]
     else [240 + x / 262144; 128 + x / 4096 mod 64; 128 + x / 64 mod 64; 128 + x mod 64]).
Definition unchars (t : text) : string :=
  String.string_of_list_ascii (concat (map encode t)).

Example unchars_example : unchars (chars "a停é") = "a停é"%string.
Proof. reflexivity. Qed.

(** What the source takes from the Unicode database beyond ASCII: [isalnum] of a
    character, and [lower] of a character between the text before it, reversed,
    and the text after it (a final sigma has a form of its own). *)
Class Unicode := mkUnicode {
  alnum_other : N -> bool;
  lower_other : text -> N -> text -> text;
}.

Definition in_range (a b x : N) : bool := (a <=? x) && (x <=? b).

Definition demo_unicode : Unicode := mkUnicode (in_range 19968 40959) (fun _ x _ => [x]).
Definition ascii_lower (x : N) : N := if in_range 65 90 x then x + 32 else x.

(** [str.lower()]. *)
Fixpoint lower_from `{Unicode} (pre t : text) : text :=
  match t with
  | [] => []
  | x :: post =>
      (if x <? 128 then [ascii_lower x] else lower_other pre x post) ++ lower_from (x :: pre) post
  end.
Definition lower `{Unicode} (t : text) : text := lower_from [] t.

(** Documented behaviour of Unicode text the theorems use: Chinese characters (the
    CJK unified ideographs) are letters without case. *)
Definition chinese (x : N) : bool := in_range 19968 40959 x.
Class ChineseText (U : Unicode) : Prop := mkChineseText {
  alnum_chinese x : chinese x = true -> alnum_other x = true;
  lower_chinese pre x post : chinese x = true -> lower_other pre x post = [x];
}.
#[export] Instance demo_chinese : ChineseText demo_unicode.
Proof. by split. Qed.

(** ASCII and Chinese text. *)
Definition plain (t : text) : bool := forallb (fun x => (x <? 128) || chinese x) t.

Lemma lower_plain {U : Unicode} `{!ChineseText U} t : plain t = true -> lower t = map ascii_lower t.
Proof.
  unfold lower. generalize (@nil N) as pre. induction t as [|x t IH]; intros pre; simpl; [done|].
  intros [Hx Ht]%andb_true_iff. rewrite IH by done. destruct (x <? 128) eqn:E; simpl; [done|].
  simpl in Hx. rewrite lower_chinese by done. simpl. f_equal. unfold ascii_lower.
  destruct (in_range 65 90 x) eqn:E1; [|done]. apply N.ltb_ge in E.
  apply andb_true_iff in E1 as [_ E1%N.leb_le]. lia.
Qed.

(** [c.isspace()], which is [\s]. *)
Definition is_space (x : N) : bool :=
  in_range 9 13 x || in_range 28 32 x || (x =? 133) || (x =? 160) || (x =? 5760)
  || in_range 8192 8202 x || (x =? 8232) || (x =? 8233) || (x =? 8239) || (x =? 8287)
  || (x =? 12288).

(** [c in \w]. *)
Definition is_word `{Unicode} (x : N) : bool :=
  if x <? 128 then in_range 48 57 x || in_range 65 90 x || in_range 97 122 x || (x =? 95)
  else alnum_other x.

(** [t in s] for strings. *)
Fixpoint is_prefix (t s : text) : bool :=
  match t, s with
  | [], _ => true
  | _ :: _, [] => false
  | a :: t', b :: s' => (a =? b) && is_prefix t' s'
  end.
Fixpoint contains (t s : text) : bool :=
  is_prefix t s || match s with [] => false | _ :: s' => contains t s' end.

Lemma is_prefix_correct t s : is_prefix t s = true <-> exists u, s = t ++ u.
Proof.
  revert s. induction t as [|a t IH]; intros s; simpl; [split; [by exists s|done]|].
  destruct s as [|b s]; [split; [done|by intros [u ?]]|].
  rewrite andb_true_iff, N.eqb_eq, IH. split.
  - intros [-> [u ->]]. by exists u.
  - intros [u [= -> ->]]. split; [done|by exists u].
Qed.

Lemma contains_correct t s : contains t s = true <-> exists pre post, s = pre ++ t ++ post.
Proof.
  induction s as [|a s IH]; simpl; rewrite orb_true_iff, is_prefix_correct.
  - split.
    + intros [[u Hu]|?]; [by exists [], u|done].
    + intros (pre & post & Hs). symmetry in Hs. apply app_nil in Hs as [-> Hs]. left. by exists post.
  - rewrite IH. split.
    + intros [[u Hu]|(pre & post & ->)]; [by exists [], u|by exists (a :: pre), post].
    + intros ([|b pre] & post & Hs); [left; by exists post|]. right. injection Hs as -> ->.
      by exists pre, post.
Qed.

(** ** Regular expressions *)

(** Characters, [r{lo,hi}] of a set of characters (greedy, [hi] may be open),
    sequence, alternatives, [(?:r)*] (greedy), the empty match, [\b] and
    [(?<!set)]. *)
Inductive regex : Type :=
| RSet (p : N -> bool)
| RRep (p : N -> bool) (lo : nat) (hi : option nat)
| RSeq (r1 r2 : regex)
| RAlt (r1 r2 : regex)
| RStar (r : regex)
| REps
| RBoundary
| RNotBehind (p : N -> bool).

Section Matching.
Context `{Unicode}.

(** The character before (of the reversed text before the position) and after. *)
Definition word_at (l : text) : bool := match l with x :: _ => is_word x | [] => false end.
Definition boundary (pre post : text) : bool := xorb (word_at pre) (word_at post).
Definition behind (p : N -> bool) (pre : text) : bool :=
  match pre with x :: _ => p x | [] => false end.

(** [matches r pre m post]: [r] matches [m] where [pre] is the text before it,
    reversed, and [post] the text after it. *)
Inductive matches : regex -> text -> text -> text -> Prop :=
| m_set p c pre post : p c = true -> matches (RSet p) pre [c] post
| m_rep p lo hi m pre post :
    Forall (fun c => p c = true) m -> (lo <= length m)%nat ->
    match hi with Some h => (length m <= h)%nat | None => True end ->
    matches (RRep p lo hi) pre m post
| m_seq r1 r2 m1 m2 pre post :
    matches r1 pre m1 (m2 ++ post) -> matches r2 (rev m1 ++ pre) m2 post ->
    matches (RSeq r1 r2) pre (m1 ++ m2) post
| m_left r1 r2 m pre post : matches r1 pre m post -> matches (RAlt r1 r2) pre m post
| m_right r1 r2 m pre post : matches r2 pre m post -> matches (RAlt r1 r2) pre m post
| m_star_nil r pre post : matches (RStar r) pre [] post
| m_star_cons r m1 m2 pre post :
    m1 <> [] -> matches r pre m1 (m2 ++ post) -> matches (RStar r) (rev m1 ++ pre) m2 post ->
    matches (RStar r) pre (m1 ++ m2) post
| m_eps pre post : matches REps pre [] post
| m_boundary pre post : boundary pre post = true -> matches RBoundary pre [] post
| m_not_behind p pre post : behind p pre = false -> matches (RNotBehind p) pre [] post.

(** The positions after 0, 1, 2, ... characters of [p], at most [h] of them. *)
Fixpoint runs (p : N -> bool) (h : nat) (pre s : text) : list (text * text) :=
  (pre, s) ::
  match h, s with
  | S h', c :: s' => if p c then runs p h' (c :: pre) s' else []
  | _, _ => []
  end.

(** Repetition: a round that consumes nothing is not repeated, so the length of the
    text is enough fuel. *)
Fixpoint star (f : text -> text -> list (text * text)) (n : nat) (pre s : text)
  : list (text * text) :=
  match n with
  | O => [(pre, s)]
  | S n' =>
      flat_map (fun q => if (length (snd q) <? length s)%nat then star f n' (fst q) (snd q) else [])
        (f pre s) ++ [(pre, s)]
  end.

(** The ends of the matches that start here, in the order [re] tries them. *)
Fixpoint ends (r : regex) (pre s : text) : list (text * text) :=
  match r with
  | RSet p => match s with c :: s' => if p c then [(c :: pre, s')] else [] | [] => [] end
  | RRep p lo hi => rev (drop lo (runs p (default (length s) hi) pre s))
  | RSeq r1 r2 => flat_map (fun q => ends r2 (fst q) (snd q)) (ends r1 pre s)
  | RAlt r1 r2 => ends r1 pre s ++ ends r2 pre s
  | RStar r => star (ends r) (length s) pre s
  | REps => [(pre, s)]
  | RBoundary => if boundary pre s then [(pre, s)] else []
  | RNotBehind p => if behind p pre then [] else [(pre, s)]
  end.

(** [re.match] at a position: the end of the first match. *)
Definition match_here (r : regex) (pre s : text) : option (text * text) := head (ends r pre s).

(** The first match at or after a position: its start and its end. *)
Fixpoint find_from (r : regex) (pre s : text) : option ((text * text) * (text * text)) :=
  match match_here r pre s with
  | Some e => Some ((pre, s), e)
  | None => match s with [] => None | c :: s' => find_from r (c :: pre) s' end
  end.

(** [re.search(r, s) is not None]. *)
Definition search (r : regex) (s : text) : bool :=
  match find_from r [] s with Some _ => true | None => false end.

(** [re.fullmatch(r, s) is not None]. *)
Definition fullmatch (r : regex) (s : text) : bool :=
  existsb (fun q => match snd q with [] => true | _ => false end) (ends r [] s).

(** [re.finditer] for a pattern that matches no empty text: the matches, from
    left to right, without overlap.  Each match consumes a character, so the
    length of the text is enough fuel. *)
Fixpoint finditer_from (fuel : nat) (r : regex) (pre s : text)
  : list ((text * text) * (text * text)) :=
  match fuel with
  | O => []
  | S n =>
      match find_from r pre s with
      | Some (b, e) => (b, e) :: finditer_from n r (fst e) (snd e)
      | None => []
      end
  end.
Definition finditer (r : regex) (s : text) : list ((text * text) * (text * text)) :=
  finditer_from (length s) r [] s.
End Matching.

(** The matched text between the start and the end of a match. *)
Definition matched (m : (text * text) * (text * text)) : text :=
  take (length (snd (fst m)) - length (snd (snd m))) (snd (fst m)).

(** Literal text, and text without regard to the case of its ASCII letters: under
    [re.IGNORECASE] i, k and s match the other characters Unicode folds to
    them (dotted and dotless i, the Kelvin sign, long s). *)
Definition fold_char (x : N) : N :=
  if (x =? 304) || (x =? 305) then 105
  else if x =? 8490 then 107
  else if x =? 383 then 115
  else ascii_lower x.
Definition any_of (l : text) (x : N) : bool := existsb (N.eqb x) l.
Definition dot (x : N) : bool := negb (x =? 10).

Fixpoint seq_of (l : list regex) : regex :=
  match l with [] => REps | [r] => r | r :: l' => RSeq r (seq_of l') end.
Fixpoint alt_of (l : list regex) : regex :=
  match l with [] => REps | [r] => r | r :: l' => RAlt r (alt_of l') end.
Definition lit (s : string) : regex :=
  seq_of (map (fun c => RSet (N.eqb c)) (chars s)).
Definition ilit (s : string) : regex :=
  seq_of (map (fun c => RSet (fun x => fold_char x =? ascii_lower c)) (chars s)).
Definition lits (l : list string) : regex := alt_of (map lit l).
Definition ilits (l : list string) : regex := alt_of (map ilit l).
Definition opt (r : regex) : regex := RAlt r REps.

(** ** The matcher is sound and complete *)

Section Correctness.
Context `{Unicode}.

Lemma runs_correct p h pre s q :
  q ∈ runs p h pre s <->
  exists m, s = m ++ snd q /\ fst q = rev m ++ pre /\ Forall (fun c => p c = true) m
            /\ (length m <= h)%nat.
Proof.
  revert pre s. induction h as [|h IH]; intros pre s; simpl.
  - rewrite list_elem_of_singleton. split.
    + intros ->. exists []. by split_and!.
    + intros ([|c m] & -> & Hq & _ & Hl); simpl in *; [|lia]. by destruct q; simpl in *; subst.
  - destruct s as [|c s].
    + rewrite list_elem_of_singleton. split.
      * intros ->. exists []. split_and!; simpl; [done..|lia].
      * intros (m & Hs & Hq & _). symmetry in Hs. apply app_nil in Hs as [-> Hs].
        destruct q; simpl in *; by subst.
    + rewrite elem_of_cons. split.
      * intros [->|Hq]; [exists []; split_and!; simpl; [done..|lia]|].
        destruct (p c) eqn:Hc; [|by apply not_elem_of_nil in Hq].
        apply IH in Hq as (m & -> & Hq & Hm & Hl). exists (c :: m).
        split_and!; [done| |by constructor|simpl; lia]. rewrite Hq. simpl. by rewrite <-app_assoc.
      * intros ([|d m] & Hs & Hq & Hm & Hl).
        -- left. destruct q; simpl in *; by subst.
        -- right. injection Hs as -> ->. apply Forall_cons in Hm as [-> Hm]. apply IH.
           exists m. split_and!; [done| |done|simpl in Hl; lia].
           rewrite Hq. simpl. by rewrite <-app_assoc.
Qed.

(** The position after [k] characters is the [k]-th run. *)
Lemma runs_lookup p h pre s k q :
  runs p h pre s !! k = Some q -> length s = (k + length (snd q))%nat.
Proof.
  revert pre s k. induction h as [|h IH]; intros pre s k; simpl.
  - intros [-> <-]%list_lookup_singleton_Some. done.
  - destruct s as [|c s]; [by intros [-> <-]%list_lookup_singleton_Some|].
    destruct k as [|k]; simpl; [by intros [= <-]|]. destruct (p c); [|done].
    intros Hq%IH. by rewrite Hq.
Qed.

Lemma elem_of_drop_runs p lo h pre s q :
  q ∈ drop lo (runs p h pre s) <->
  q ∈ runs p h pre s /\ (lo + length (snd q) <= length s)%nat.
Proof.
  rewrite !list_elem_of_lookup. split.
  - intros [k Hk]. rewrite lookup_drop in Hk. split; [by eexists|].
    apply runs_lookup in Hk. lia.
  - intros [[k Hk] Hl]. pose proof (runs_lookup _ _ _ _ _ _ Hk). exists (k - lo)%nat.
    rewrite lookup_drop. by replace (lo + (k - lo))%nat with k by lia.
Qed.

Lemma reps_correct p lo hi pre s q :
  q ∈ rev (drop lo (runs p (default (length s) hi) pre s)) <->
  exists m, s = m ++ snd q /\ fst q = rev m ++ pre /\ matches (RRep p lo hi) pre m (snd q).
Proof.
  rewrite list_elem_of_In, <-in_rev, <-list_elem_of_In, elem_of_drop_runs, runs_correct.
  split.
  - intros [(m & -> & Hq & Hm & Hl) Hlo]. exists m. split_and!; [done..|].
    rewrite length_app in Hlo. apply m_rep; [done| |by destruct hi].
    lia.
  - intros (m & -> & Hq & Hm). inversion Hm; subst. rewrite length_app. split; [|lia].
    exists m. split_and!; [done..|]. destruct hi; simpl; [done|rewrite ?length_app; lia].
Qed.

Lemma star_correct f r :
  (forall pre s q, q ∈ f pre s <->
     exists m, s = m ++ snd q /\ fst q = rev m ++ pre /\ matches r pre m (snd q)) ->
  forall n pre s q, (length s <= n)%nat ->
    q ∈ star f n pre s <->
    exists m, s = m ++ snd q /\ fst q = rev m ++ pre /\ matches (RStar r) pre m (snd q).
Proof.
  intros Hf. induction n as [|n IH]; intros pre s q Hn; cbn [star].
  - destruct s; [|simpl in Hn; lia]. rewrite list_elem_of_singleton. split.
    + intros ->. exists []. split_and!; [done..|apply m_star_nil].
    + intros (m & Hs & Hq & _). symmetry in Hs. apply app_nil in Hs as [-> Hs].
      destruct q; simpl in *; by subst.
  - rewrite elem_of_app, list_elem_of_singleton, list_elem_of_In, in_flat_map. split.
    + intros [(q1 & H1%list_elem_of_In & H2)| ->].
      2: { exists []. split_and!; [done..|apply m_star_nil]. }
      destruct (Nat.ltb_spec (length (snd q1)) (length s)) as [Hl|]; [|done].
      apply list_elem_of_In, IH in H2 as (m2 & Hs2 & Hq2 & Hm2); [|lia].
      apply Hf in H1 as (m1 & -> & Hq1 & Hm1). rewrite Hq1, Hs2 in *.
      exists (m1 ++ m2). rewrite <-app_assoc.
      split_and!; [done|by rewrite Hq2, rev_app_distr, <-app_assoc|].
      apply m_star_cons; [|done..]. intros ->. simpl in Hl. lia.
    + intros (m & -> & Hq & Hm).
      inversion Hm as [| | | | |?|? m1 m2 ? ? Hne H1 H2| | |]; subst; [right; by destruct q; simpl in *; subst|].
      left. exists (rev m1 ++ pre, m2 ++ snd q). split; apply list_elem_of_In.
      * apply Hf. exists m1. by rewrite <-app_assoc.
      * simpl. assert (length m1 <> 0%nat) by (by destruct m1).
        rewrite !length_app in *. destruct (Nat.ltb_spec (length m2 + length (snd q))
          (length m1 + length m2 + length (snd q))); [|lia].
        apply IH; [rewrite length_app; lia|]. exists m2. split_and!; [done| |done]. simpl.
        by rewrite Hq, rev_app_distr, <-app_assoc.
Qed.

(** The matcher tries exactly the matches that start at a position. *)
Lemma ends_correct r pre s q :
  q ∈ ends r pre s <->
  exists m, s = m ++ snd q /\ fst q = rev m ++ pre /\ matches r pre m (snd q).
Proof.
  revert pre s q. induction r as [p|p lo hi|r1 IH1 r2 IH2|r1 IH1 r2 IH2|r IH| | |p];
    intros pre s q; cbn [ends].
  - destruct s as [|c s]; [|destruct (p c) eqn:Hc].
    + rewrite elem_of_nil. split; [done|]. intros (m & Hs & _ & Hm). by inversion Hm; subst.
    + rewrite list_elem_of_singleton. split.
      * intros ->. exists [c]. by split_and!; [..|constructor].
      * intros (m & Hs & Hq & Hm). inversion Hm; subst. injection Hs as -> ->.
        by destruct q; simpl in *; subst.
    + rewrite elem_of_nil. split; [done|]. intros (m & Hs & _ & Hm). inversion Hm; subst.
      injection Hs as -> ->. congruence.
  - apply reps_correct.
  - rewrite list_elem_of_In, in_flat_map. split.
    + intros (q1 & H1%list_elem_of_In & H2%list_elem_of_In).
      apply IH1 in H1 as (m1 & -> & Hq1 & Hm1). apply IH2 in H2 as (m2 & Hs2 & Hq2 & Hm2).
      rewrite Hq1 in *. exists (m1 ++ m2). rewrite <-app_assoc, <-Hs2.
      split_and!; [done|by rewrite Hq2, rev_app_distr, <-app_assoc|].
      apply m_seq; [by rewrite <-Hs2|done].
    + intros (m & -> & Hq & Hm). inversion Hm as [| |? ? m1 m2 ? ? H1 H2| | | | | | |]; subst.
      exists (rev m1 ++ pre, m2 ++ snd q). split; apply list_elem_of_In.
      * apply IH1. exists m1. by rewrite <-app_assoc.
      * apply IH2. exists m2. split_and!; [done| |done]. simpl.
        by rewrite Hq, rev_app_distr, <-app_assoc.
  - rewrite elem_of_app, IH1, IH2. split.
    + by intros [(m & ? & ? & ?)|(m & ? & ? & ?)]; exists m; split_and!;
        [| |apply m_left| | |apply m_right].
    + intros (m & ? & ? & Hm). inversion Hm; subst; [left|right]; by exists m.
  - by apply star_correct.
  - rewrite list_elem_of_singleton. split.
    + intros ->. exists []. by split_and!; [..|constructor].
    + intros (m & -> & Hq & Hm). inversion Hm; subst. by destruct q; simpl in *; subst.
  - destruct (boundary pre s) eqn:Hb.
    + rewrite list_elem_of_singleton. split.
      * intros ->. exists []. by split_and!; [..|constructor].
      * intros (m & -> & Hq & Hm). inversion Hm; subst. by destruct q; simpl in *; subst.
    + rewrite elem_of_nil. split; [done|]. intros (m & -> & Hq & Hm). inversion Hm; subst.
      simpl in Hb. congruence.
  - destruct (behind p pre) eqn:Hb.
    + rewrite elem_of_nil. split; [done|]. intros (m & -> & Hq & Hm). inversion Hm; subst.
      congruence.
    + rewrite list_elem_of_singleton. split.
      * intros ->. exists []. by split_and!; [..|constructor].
      * intros (m & -> & Hq & Hm). inversion Hm; subst. by destruct q; simpl in *; subst.
Qed.

Lemma match_here_correct r pre s :
  match_here r pre s = None <-> forall m post, s = m ++ post -> ~ matches r pre m post.
Proof.
  unfold match_here. split.
  - intros Hn m post -> Hm. assert (Hin : (rev m ++ pre, post) ∈ ends r pre (m ++ post))
      by (apply ends_correct; by exists m).
    destruct (ends r pre (m ++ post)); [by apply not_elem_of_nil in Hin|done].
  - intros Hn. destruct (ends r pre s) as [|q l] eqn:He; [done|]. exfalso.
    assert (Hin : q ∈ ends r pre s) by (rewrite He; by left).
    apply ends_correct in Hin as (m & Hs & _ & Hm). by eapply Hn.
Qed.

(** The first match found is a match, and no match starts further left. *)
Lemma find_from_correct r pre s :
  match find_from r pre s with
  | Some (b, e) => exists p m, s = p ++ m ++ snd e /\ b = (rev p ++ pre, m ++ snd e)
      /\ fst e = rev m ++ rev p ++ pre /\ matches r (rev p ++ pre) m (snd e)
      /\ forall p' m' post', (length p' < length p)%nat -> s = p' ++ m' ++ post' ->
           ~ matches r (rev p' ++ pre) m' post'
  | None => forall p m post, s = p ++ m ++ post -> ~ matches r (rev p ++ pre) m post
  end.
Proof.
  revert pre. induction s as [|c s IH]; intros pre; cbn [find_from].
  - destruct (match_here r pre []) as [e|] eqn:Hh.
    + destruct (ends r pre []) as [|q l] eqn:He; unfold match_here in Hh; rewrite He in Hh; [done|].
      injection Hh as ->. assert (Hin : e ∈ ends r pre []) by (rewrite He; by left).
      apply ends_correct in Hin as (m & Hs & Hq & Hm). exists [], m.
      simpl. rewrite <-Hs. split_and!; try done. intros; lia.
    + intros p m post Hs. symmetry in Hs. apply app_nil in Hs as [-> Hs].
      apply app_nil in Hs as [-> ->]. by apply (proj1 (match_here_correct r pre []) Hh).
  - destruct (match_here r pre (c :: s)) as [e|] eqn:Hh.
    + destruct (ends r pre (c :: s)) as [|q l] eqn:He; unfold match_here in Hh; rewrite He in Hh;
        [done|].
      injection Hh as ->. assert (Hin : e ∈ ends r pre (c :: s)) by (rewrite He; by left).
      apply ends_correct in Hin as (m & Hs & Hq & Hm). exists [], m.
      simpl. rewrite <-Hs. split_and!; try done. intros; lia.
    + pose proof (proj1 (match_here_correct r pre (c :: s)) Hh) as Hno.
      specialize (IH (c :: pre)). destruct (find_from r (c :: pre) s) as [[b e]|].
      * destruct IH as (p & m & Hs & Hb & Hq & Hm & Hl). exists (c :: p), m. simpl.
        rewrite <-!app_assoc. simpl. split_and!; [by rewrite Hs|done..|].
        intros [|d p'] m' post' Hlt Hs'; simpl in *; [by apply Hno|].
        injection Hs' as <- Hs'. rewrite <-app_assoc. apply (Hl p'); [lia|done].
      * intros [|d p] m post Hs; simpl in *; [by apply Hno|]. injection Hs as <- Hs.
        rewrite <-app_assoc. by apply IH.
Qed.

(** [search] decides whether a pattern occurs: it returns true exactly when
    some part of the text, with its surroundings, is matched by the pattern. *)
Lemma search_correct r s :
  search r s = true <-> exists pre m post, s = pre ++ m ++ post /\ matches r (rev pre) m post.
Proof.
  pose proof (find_from_correct r [] s) as Hf. unfold search.
  destruct (find_from r [] s) as [[b e]|].
  - destruct Hf as (p & m & Hs & _ & _ & Hm & _). split; [|done]. intros _.
    exists p, m, (snd e). split; [done|]. by rewrite app_nil_r in Hm.
  - split; [done|]. intros (p & m & post & Hs & Hm). exfalso.
    eapply Hf; [exact Hs|]. by rewrite app_nil_r.
Qed.

Lemma fullmatch_correct r s : fullmatch r s = true <-> matches r [] s [].
Proof.
  unfold fullmatch. rewrite existsb_exists. split.
  - intros (q & Hq%list_elem_of_In & He). apply ends_correct in Hq as (m & -> & _ & Hm).
    destruct (snd q); [|done]. by rewrite app_nil_r.
  - intros Hm. exists (rev s ++ [], []). split; [|done]. apply list_elem_of_In, ends_correct.
    exists s. by rewrite app_nil_r.
Qed.
End Correctness.
