(* ===== verification/Scoring.v ===== *)
(** * Scoring and selecting evidence

    [retrieval/contracts.py], [retrieval/scoring.py], [retrieval/merge.py] and
    [retrieval/dedup.py]: the candidates of a search, their scores, the fusion of
    the two channels and the selection of the final evidence. *)

From S2P Require Import Prelude Json Float Text Regex.
Open Scope Z_scope.

(** ** Candidates *)

(** [retrieval/contracts.py:16-20 SourceType] *)
Inductive SourceType := SRC_MANUAL | SRC_TICKET | SRC_CASE | SRC_GRAPH.
#[export] Instance SourceType_eq_dec : EqDecision SourceType.
Proof. solve_decision. Defined.
Definition source_type_value (s : SourceType) : string :=
  match s with
  | SRC_MANUAL => "manual" | SRC_TICKET => "ticket" | SRC_CASE => "case" | SRC_GRAPH => "graph"
  end.

(** The values of the metadata dict of a candidate, and dicts that keep the order
    of their keys. *)
Inductive value := VNone | VBool (b : bool) | VInt (z : Z) | VStr (s : string) | VTime (t : Z).
Definition truthy (v : value) : bool :=
  match v with
  | VNone => false | VBool b => b | VInt z => negb (z =? 0) | VStr s => str_true s | VTime _ => true
  end.
Definition lookup_key {A} (key : string) (d : list (string * A)) : option A :=
  snd <$> find_first (fun kv => bool_decide (fst kv = key)) d.
(** [bool(d.get(key))] and [bool(d.get(key, True))]. *)
Definition is_set (key : string) (d : list (string * value)) : bool :=
  match lookup_key key d with Some v => truthy v | None => false end.
Definition is_set_or_missing (key : string) (d : list (string * value)) : bool :=
  match lookup_key key d with Some v => truthy v | None => true end.

(** [retrieval/contracts.py:38-59 RetrievalCandidate] *)
Record RetrievalCandidate := mkCandidate {
  source_type : SourceType;
  source_id : string;
  cd_chunk_id : option string;
  content_summary : string;
  citation : string;
  metadata : list (string * value);
  keyword_score : option float;
  vector_score : option float;
  rerank_score : option float;
  source_reliability : float;
  verification_score : float;
  freshness_score : float;
  relevance_to_alarm : float;
  cd_retrieval_score : float;
  final_score : float;
  need_manual_confirmation : bool;
  embedding : option (list float);
}.
#[export] Instance RetrievalCandidate_eta : Eta RetrievalCandidate := fun c =>
  mkCandidate (source_type c) (source_id c) (cd_chunk_id c) (content_summary c) (citation c)
    (metadata c) (keyword_score c) (vector_score c) (rerank_score c) (source_reliability c)
    (verification_score c) (freshness_score c) (relevance_to_alarm c) (cd_retrieval_score c)
    (final_score c) (need_manual_confirmation c) (embedding c).

(** [retrieval/contracts.py:57-59 identity] *)
Definition identity (c : RetrievalCandidate) : string * string * string :=
  (source_type_value (source_type c), source_id c, or_empty (cd_chunk_id c)).

(** ** Weights *)

(** [retrieval/scoring.py:7-16 ScoreWeights] *)
Record ScoreWeights := mkWeights {
  w_keyword : float;
  w_vector : float;
  w_rerank : float;
  w_final_retrieval : float;
  w_source_reliability : float;
  w_verification : float;
  w_relevance_to_alarm : float;
  w_freshness : float;
}.
(** [retrieval/scoring.py:19-19 DEFAULT_SCORE_WEIGHTS] *)
Definition DEFAULT_SCORE_WEIGHTS : ScoreWeights :=
  mkWeights (literal 30 100) (literal 40 100) (literal 30 100) (literal 35 100) (literal 20 100)
    (literal 15 100) (literal 15 100) (literal 15 100).

(** ** Scores *)

Definition one : float := float_of_Z 1.

(** [retrieval/scoring.py:22-28 normalize_scores] *)
Definition normalize_scores (values : list float) : list float :=
  match values with
  | [] => []
  | v :: rest =>
      let low := fmin_of v rest in
      let high := fmax_of v rest in
      if feq high low then map (fun _ => if flt zero high then one else zero) values
      else map (fun x => fdiv (fsub x low) (fsub high low)) values
  end.

(** [retrieval/scoring.py:31-45 retrieval_score]: the mean of the channels that
    answered, by their weights. *)
Definition retrieval_score (keyword vector rerank : option float) (w : ScoreWeights) : float :=
  let channels := [(keyword, w_keyword w); (vector, w_vector w); (rerank, w_rerank w)] in
  let available := fsum (omap (fun c => match fst c with Some _ => Some (snd c) | None => None end)
                           channels) in
  if ftrue available
  then fdiv (fsum (map (fun c => fmul (or_zero (fst c)) (snd c)) channels)) available
  else zero.

(** [retrieval/scoring.py:48-62 final_score] *)
Definition combine (retrieval reliability verification relevance freshness : float)
  (w : ScoreWeights) : float :=
  fadd (fadd (fadd (fadd (fmul (w_final_retrieval w) retrieval)
                         (fmul (w_source_reliability w) reliability))
                   (fmul (w_verification w) verification))
             (fmul (w_relevance_to_alarm w) relevance))
       (fmul (w_freshness w) freshness).

(** [retrieval/scoring.py:65-70 source_reliability] *)
Definition reliability_of (s : SourceType) (m : list (string * value)) : float :=
  match s with
  | SRC_MANUAL =>
      match lookup_key "source_class" m with
      | None => one
      | Some (VStr v) => if bool_decide (v = "official_manual") then one else literal 95 100
      | Some _ => literal 95 100
      end
  | SRC_CASE => literal 95 100
  | _ => if is_set "verified" m then literal 85 100 else literal 65 100
  end.

(** [retrieval/scoring.py:73-78 verification_score] *)
Definition verification_of (s : SourceType) (m : list (string * value)) : float :=
  if bool_decide (s = SRC_MANUAL)
  then if is_set_or_missing "verified" m then one else literal 30 100
  else if is_set "verified" m && is_set_or_missing "closed" m then one
  else if is_set "closed" m then literal 70 100 else literal 30 100.

(** [(current - value).days], for instants in microseconds. *)
Definition days (t : Z) : Z := t / 86400000000.

(** [retrieval/scoring.py:81-101 freshness_score] *)
Definition freshness_of (s : SourceType) (timestamp : option Z) (now : Z) (effective : bool)
  : float :=
  if bool_decide (s = SRC_MANUAL) then if effective then literal 85 100 else literal 50 100
  else match timestamp with
  | None => literal 60 100
  | Some t =>
      let months := fdiv (float_of_Z (Z.max 0 (days (now - t)))) (literal 3044 100) in
      if fle months (float_of_Z 3) then one
      else if fle months (float_of_Z 6) then literal 85 100
      else if fle months (float_of_Z 12) then literal 70 100
      else literal 50 100
  end.

(** The filters of a search: a dict of JSON values; [ftext] is a filter that is a
    string, [flist] one that is a list of strings, as the schemas of the tools
    demand. *)
Abbreviation filters := (list (string * json)).
Definition ftext (key : string) (f : filters) : option string :=
  match lookup_key key f with
  | Some (JStr s) => if str_true s then Some s else None
  | _ => None
  end.
Definition flist (key : string) (f : filters) : list string :=
  match lookup_key key f with
  | Some (JList l) => omap (fun j => match j with JStr s => Some s | _ => None end) l
  | _ => []
  end.

Section Scores.
Context `{Unicode}.

Definition anchors : list string :=
  ["alarm_name"; "device_type"; "device_model"; "manufacturer"; "component"].
Definition actual_is (actual : option value) (expected : string) : bool :=
  match actual with Some (VStr s) => bool_decide (s = expected) | _ => false end.
Definition present (actual : option value) : bool :=
  match actual with Some v => truthy v | None => false end.
Definition ratio (a b : nat) : float := fdiv (float_of_Z (Z.of_nat a)) (float_of_Z (Z.of_nat b)).

(** [retrieval/scoring.py:104-117 alarm_relevance] *)
Definition alarm_relevance (c : RetrievalCandidate) (f : filters) : float :=
  let applicable := omap (fun key => (fun e => (e, lookup_key key (metadata c))) <$> ftext key f)
                      anchors in
  if existsb (fun p => present (snd p) && negb (actual_is (snd p) (fst p))) (take 3 applicable)
  then literal 20 100
  else
    let matched := length (filter (fun p => present (snd p) && actual_is (snd p) (fst p) = true)
                             applicable) in
    let base := match applicable with
                | [] => literal 50 100
                | _ => ratio matched (length applicable)
                end in
    let terms := flist "symptom_terms" f in
    let base :=
      match terms with
      | [] => base
      | _ =>
          let t := lower (chars (content_summary c)) in
          let hit := length (filter (fun s => contains (lower (chars s)) t = true) terms) in
          fadd (fmul (literal 75 100) base) (fmul (literal 25 100) (ratio hit (length terms)))
      end in
    fmin one (fmax zero base).

(** [retrieval/scoring.py:120-152 score_candidate] *)
Definition score_candidate (c : RetrievalCandidate) (f : filters) (w : ScoreWeights) (now : Z)
  : RetrievalCandidate :=
  let reliability := reliability_of (source_type c) (metadata c) in
  let verification := verification_of (source_type c) (metadata c) in
  let timestamp := match lookup_key "close_time" (metadata c) with
                   | Some (VTime t) => Some t
                   | _ => None
                   end in
  let freshness := freshness_of (source_type c) timestamp now
                     (is_set_or_missing "effective" (metadata c)) in
  let relevance := alarm_relevance c f in
  let retrieval := retrieval_score (keyword_score c) (vector_score c) (rerank_score c) w in
  let final := combine retrieval reliability verification relevance freshness w in
  c <| source_reliability := reliability |> <| verification_score := verification |>
    <| freshness_score := freshness |> <| relevance_to_alarm := relevance |>
    <| cd_retrieval_score := retrieval |> <| final_score := final |>
    <| need_manual_confirmation :=
         bool_decide (source_type c = SRC_CASE) || flt final (literal 65 100)
         || fle relevance (literal 20 100) |>.
End Scores.

(** ** Fusion *)

(** [d[key] = v]: an existing key keeps its place. *)
Fixpoint put_identity (key : string * string * string) (v : RetrievalCandidate)
  (d : list ((string * string * string) * RetrievalCandidate)) :=
  match d with
  | [] => [(key, v)]
  | (k, x) :: d' =>
      if bool_decide (k = key) then (k, v) :: d' else (k, x) :: put_identity key v d'
  end.
Definition get_identity (key : string * string * string)
  (d : list ((string * string * string) * RetrievalCandidate)) : option RetrievalCandidate :=
  snd <$> find_first (fun kv => bool_decide (fst kv = key)) d.

Definition embedding_or (x y : option (list float)) : option (list float) :=
  match x with Some (_ :: _) => x | _ => y end.

(** [retrieval/merge.py:5-29 merge_candidates]: the candidates of both channels by
    identity, those of the keyword channel first. *)
Definition merge_candidates (keyword vector : list RetrievalCandidate) (limit : nat)
  : list RetrievalCandidate :=
  let ks := normalize_scores (map (fun c => or_zero (keyword_score c)) keyword) in
  let vs := normalize_scores (map (fun c => or_zero (vector_score c)) vector) in
  let merged := fold_left (fun d cs =>
      put_identity (identity (fst cs)) ((fst cs) <| keyword_score := Some (snd cs) |>) d)
    (zip keyword ks) [] in
  let merged := fold_left (fun d cs =>
      let n := (fst cs) <| vector_score := Some (snd cs) |> in
      put_identity (identity (fst cs))
        (match get_identity (identity (fst cs)) d with
         | Some e => e <| vector_score := vector_score n |>
                       <| embedding := embedding_or (embedding n) (embedding e) |>
         | None => n
         end) d)
    (zip vector vs) merged in
  take limit (map snd merged).

(** ** Selection *)

(** [retrieval/dedup.py:6-10 cosine_similarity] *)
Definition cosine_similarity (l r : list float) : float :=
  if negb (length l =? length r)%nat || negb (list_true l) then zero
  else
    let norm v := fsqrt (fsum (map (fun x => fmul x x) v)) in
    let denominator := fmul (norm l) (norm r) in
    if ftrue denominator
    then fdiv (fsum (zip_with fmul l r)) denominator
    else zero.

Record Limits := mkLimits {
  top_k : nat;
  semantic_threshold : float;
  max_chunks_per_document : nat;
  max_results_per_ticket : nat;
  minimum_quality : float;
}.

Definition some_embedding (c : RetrievalCandidate) : option (list float) :=
  match embedding c with Some (x :: v) => Some (x :: v) | _ => None end.
Definition too_similar (lim : Limits) (c : RetrievalCandidate) (selected : list RetrievalCandidate)
  : bool :=
  match some_embedding c with
  | None => false
  | Some v =>
      existsb (fun e => match some_embedding e with
                        | Some u => flt (semantic_threshold lim) (cosine_similarity v u)
                        | None => false
                        end) selected
  end.
Definition document (c : RetrievalCandidate) : string * string :=
  (source_type_value (source_type c), source_id c).

(** One pass over the ordered candidates; [selected], [identities] and [counts] are
    the variables of the loop.
    [retrieval/dedup.py:22-46 candidate] *)
Fixpoint select (lim : Limits) (l selected : list RetrievalCandidate)
  (identities : list (string * string * string)) (counts : gmap (string * string) nat)
  : list RetrievalCandidate * list (string * string * string) :=
  match l with
  | [] => (selected, identities)
  | c :: l' =>
      if flt (final_score c) (minimum_quality lim) || bool_decide (identity c ∈ identities)
      then select lim l' selected identities counts
      else
        let limit := if bool_decide (source_type c = SRC_MANUAL)
                     then max_chunks_per_document lim else max_results_per_ticket lim in
        let n := default 0%nat (counts !! document c) in
        if (limit <=? n)%nat then select lim l' selected identities counts
        else if too_similar lim c selected then select lim l' selected identities counts
        else
          let selected' := selected ++ [c] in
          let identities' := identity c :: identities in
          if (length selected' =? top_k lim)%nat then (selected', identities')
          else select lim l' selected' identities' (<[document c := S n]> counts)
  end.

(** [retrieval/dedup.py:13-63 deduplicate_and_diversify] *)
Definition deduplicate_and_diversify (candidates : list RetrievalCandidate) (lim : Limits)
  : list RetrievalCandidate :=
  let ordered := sorted_desc final_score candidates in
  let '(selected, identities) := select lim ordered [] [] ∅ in
  match remove_dups (map source_type selected), selected with
  | [s], _ :: _ :: _ =>
      match find_first (fun c => negb (bool_decide (source_type c = s))
                                && fle (minimum_quality lim) (final_score c)
                                && negb (bool_decide (identity c ∈ identities))) ordered with
      | Some alternate =>
          sorted_desc final_score (removelast selected ++ [alternate])
      | None => selected
      end
  | _, _ => selected
  end.
