(* ===== verification/Selection.v ===== *)
(** * What the selection of evidence guarantees

    [select] keeps the best candidates one by one; what it returns respects the
    limits, and it leaves out only what a limit excludes. *)

From S2P Require Import Prelude Json Float Text Regex Scoring.
Open Scope Z_scope.

Definition limit_of (lim : Limits) (c : RetrievalCandidate) : nat :=
  if bool_decide (source_type c = SRC_MANUAL)
  then max_chunks_per_document lim else max_results_per_ticket lim.

(** The selected candidates of a document. *)
Definition of_document (d : string * string) (l : list RetrievalCandidate) : list RetrievalCandidate :=
  filter (fun c => document c = d) l.

Definition good (lim : Limits) (c : RetrievalCandidate) : Prop :=
  flt (final_score c) (minimum_quality lim) = false.

(** What holds of the selected candidates, whatever their similarity. *)
Record well_chosen (lim : Limits) (l : list RetrievalCandidate) : Prop := {
  wc_identities : NoDup (map identity l);
  wc_documents c : c ∈ l -> (length (of_document (document c) l) <= limit_of lim c)%nat;
  wc_quality : Forall (good lim) l;
  wc_length : (0 < top_k lim)%nat -> (length l <= top_k lim)%nat;
}.

(** No candidate is too similar to one before it. *)
Definition diverse (lim : Limits) (l : list RetrievalCandidate) : Prop :=
  forall i c, l !! i = Some c -> too_similar lim c (take i l) = false.

(** The reasons to leave a candidate out. *)
Definition excluded (lim : Limits) (l : list RetrievalCandidate) (c : RetrievalCandidate) : Prop :=
  ~ good lim c \/ identity c ∈ map identity l
  \/ (limit_of lim c <= length (of_document (document c) l))%nat \/ too_similar lim c l = true.

(** The variables of the loop agree. *)
Record loop (lim : Limits) (l : list RetrievalCandidate) (ids : list (string * string * string))
  (counts : gmap (string * string) nat) : Prop := {
  lp_ids i : i ∈ ids <-> i ∈ map identity l;
  lp_counts d : default 0%nat (counts !! d) = length (of_document d l);
  lp_chosen : well_chosen lim l;
  lp_diverse : diverse lim l;
  lp_open : (0 < top_k lim)%nat -> (length l < top_k lim)%nat;
}.

Lemma loop_start lim : loop lim [] [] ∅.
Proof.
  split; [done|done| |done|simpl; lia].
  split; [constructor|by intros c ?%elem_of_nil|constructor|simpl; lia].
Qed.

Lemma of_document_snoc d l c :
  of_document d (l ++ [c]) = of_document d l ++ (if decide (document c = d) then [c] else []).
Proof. unfold of_document. by rewrite list.filter_app. Qed.

Lemma of_document_none d l : (forall c, c ∈ l -> document c <> d) -> of_document d l = [].
Proof.
  intros Hd. unfold of_document. induction l as [|c l IH]; [done|].
  rewrite filter_cons_False by (apply Hd; left). apply IH. intros x Hx. apply Hd. by right.
Qed.

Lemma document_limit lim c d : document c = document d -> limit_of lim c = limit_of lim d.
Proof.
  unfold document, limit_of. intros [= E _]. destruct (source_type c), (source_type d); done.
Qed.

Lemma well_chosen_snoc lim l c :
  well_chosen lim l -> good lim c -> (identity c ∉ map identity l) ->
  (length (of_document (document c) l) < limit_of lim c)%nat ->
  ((0 < top_k lim)%nat -> (length l < top_k lim)%nat) -> well_chosen lim (l ++ [c]).
Proof.
  intros [W1 W2 W3 W4] Hg Hi Hd Hk. split.
  - rewrite map_app. apply NoDup_app. split; [done|]. split; [|apply NoDup_singleton].
    intros x Hx ->%list_elem_of_singleton. done.
  - intros x [Hx| ->%list_elem_of_singleton]%elem_of_app; rewrite of_document_snoc, length_app;
      destruct (decide _) as [E|E]; simpl; try lia; [|specialize (W2 x Hx); lia].
    rewrite <-E, (document_limit lim x c) by done. lia.
  - apply Forall_app. split; [done|by apply Forall_singleton].
  - intros Hp. rewrite length_app. simpl. specialize (Hk Hp). lia.
Qed.

Lemma diverse_snoc lim l c : diverse lim l -> too_similar lim c l = false -> diverse lim (l ++ [c]).
Proof.
  intros Hd Hc i x [Hx|[Hi Hx]]%lookup_app_Some.
  - rewrite take_app_le by (apply lookup_lt_Some in Hx; lia). by apply Hd.
  - apply list_lookup_singleton_Some in Hx as [Hx <-].
    rewrite take_app_ge, Hx by lia. simpl. by rewrite app_nil_r.
Qed.

(** What grows stays excluded. *)
Lemma excluded_app lim l k c : excluded lim l c -> excluded lim (l ++ k) c.
Proof.
  intros [?|[?|[Hl|Hs]]]; [by left|right; left|right; right; left|right; right; right].
  - rewrite map_app. apply elem_of_app. by left.
  - unfold of_document in *. rewrite list.filter_app, length_app. lia.
  - unfold too_similar in *. destruct (some_embedding c); [|done].
    rewrite existsb_app. by rewrite Hs.
Qed.

Lemma select_spec lim l sel ids counts :
  loop lim sel ids counts ->
  let r := select lim l sel ids counts in
  exists k, fst r = sel ++ k /\ k `sublist_of` l /\ well_chosen lim (fst r) /\ diverse lim (fst r)
    /\ (forall i, i ∈ snd r <-> i ∈ map identity (fst r))
    /\ ((length (fst r) < top_k lim)%nat \/ top_k lim = 0%nat ->
          forall c, c ∈ l -> c ∈ k \/ excluded lim (fst r) c).
Proof.
  revert sel ids counts. induction l as [|c l IH]; intros sel ids counts L; cbn [select].
  { exists []. rewrite app_nil_r. destruct L as [L1 L2 L3 L4 L5]. simpl.
    split_and!; [done|constructor|done..|]. by intros _ c ?%elem_of_nil. }
  assert (Hskip : excluded lim sel c ->
    let r := select lim l sel ids counts in
    exists k, fst r = sel ++ k /\ k `sublist_of` c :: l /\ well_chosen lim (fst r)
      /\ diverse lim (fst r) /\ (forall i, i ∈ snd r <-> i ∈ map identity (fst r))
      /\ ((length (fst r) < top_k lim)%nat \/ top_k lim = 0%nat ->
            forall x, x ∈ c :: l -> x ∈ k \/ excluded lim (fst r) x)).
  { intros Hx. destruct (IH sel ids counts L) as (k & E & Hk & W & D & I & M). exists k.
    split_and!; try done; [by apply sublist_cons|].
    intros Hlen x [->|Hin]%elem_of_cons; [|by apply M]. right. rewrite E. by apply excluded_app. }
  destruct (flt (final_score c) (minimum_quality lim)) eqn:Hq; simpl;
    [apply Hskip; left; unfold good; by rewrite Hq|].
  case_bool_decide as Hid; [apply Hskip; right; left; by apply (lp_ids _ _ _ _ L)|].
  rewrite (lp_counts _ _ _ _ L). fold (limit_of lim c).
  destruct (Nat.leb_spec (limit_of lim c) (length (of_document (document c) sel))) as [Hl|Hl];
    [apply Hskip; by right; right; left|].
  destruct (too_similar lim c sel) eqn:Hs; [apply Hskip; by right; right; right|].
  destruct L as [L1 L2 L3 L4 L5].
  assert (W : well_chosen lim (sel ++ [c])) by (apply well_chosen_snoc; [exact L3|exact Hq|by rewrite <-L1|exact Hl|exact L5]).
  assert (D : diverse lim (sel ++ [c])) by by apply diverse_snoc.
  assert (I : forall i, i ∈ identity c :: ids <-> i ∈ map identity (sel ++ [c])).
  { intros i. rewrite map_app, elem_of_app, elem_of_cons, L1. simpl. rewrite list_elem_of_singleton.
    tauto. }
  destruct (Nat.eqb_spec (length (sel ++ [c])) (top_k lim)) as [Hk|Hk].
  - exists [c]. split_and!; try done; [by apply sublist_skip, sublist_nil_l|].
    simpl. rewrite length_app in *. simpl in *. intros []; lia.
  - destruct (IH (sel ++ [c]) (identity c :: ids) (<[document c := S (length (of_document (document c) sel))]> counts))
      as (k & E & Hsub & W' & D' & I' & M).
    { split; [done| |done|done|].
      - intros d. rewrite of_document_snoc, length_app. destruct (decide (document c = d)) as [<-|Hd].
        + rewrite lookup_insert_eq. simpl. lia.
        + rewrite lookup_insert_ne by done. simpl. rewrite L2. lia.
      - intros Hp. specialize (L5 Hp). rewrite length_app in *. simpl in *. lia. }
    exists (c :: k). split_and!; [by rewrite E, <-app_assoc|by apply sublist_skip|done..|].
    intros Hlen x [->|Hin]%elem_of_cons; [left; left|].
    destruct (M Hlen x Hin) as [?|?]; [left; by right|by right].
Qed.

(** ** The selection *)

Definition all_of (s : SourceType) (l : list RetrievalCandidate) : Prop :=
  forall c, c ∈ l -> source_type c = s.

Lemma deduplicate_single s l lim :
  all_of s l ->
  deduplicate_and_diversify l lim = fst (select lim (sorted_desc final_score l) [] [] ∅).
Proof.
  intros Hs. unfold deduplicate_and_diversify.
  destruct (select_spec lim (sorted_desc final_score l) [] [] ∅ (loop_start lim))
    as (k & E & Hk & _). destruct (select _ _ _ _ _) as [sel ids]. simpl in *. subst k.
  assert (Hall : forall c, c ∈ sorted_desc final_score l -> source_type c = s).
  { intros c Hc. apply Hs. by rewrite <-(sorted_desc_permutation final_score l). }
  destruct (remove_dups (map source_type sel)) as [|t [|]] eqn:Er; [done| |done].
  destruct sel as [|c1 [|c2 sel]]; [done..|].
  assert (t = s) as ->.
  { assert (Ht : t ∈ map source_type (c1 :: c2 :: sel)) by
      (apply elem_of_remove_dups; rewrite Er; left).
    apply list_elem_of_fmap in Ht as (c & -> & Hc). apply Hall. by eapply elem_of_sublist. }
  destruct (find_first _ _) as [a|] eqn:Hf; [|done].
  apply find_first_Some in Hf as [Ha Hb]. rewrite (Hall a Ha) in Hb.
  by rewrite bool_decide_eq_true_2 in Hb.
Qed.

(** Candidates of one source are selected one by one. *)
Lemma deduplicate_one_source s l lim :
  all_of s l ->
  let r := deduplicate_and_diversify l lim in
  (forall c, c ∈ r -> c ∈ l) /\ well_chosen lim r.
Proof.
  intros Hs. rewrite (deduplicate_single s) by done.
  destruct (select_spec lim (sorted_desc final_score l) [] [] ∅ (loop_start lim))
    as (k & E & Hk & W & _). split; [|done].
  intros c Hc. rewrite E in Hc. rewrite <-(sorted_desc_permutation final_score l).
  by eapply elem_of_sublist.
Qed.

(** Only identities, documents, sources and final scores count. *)
Lemma well_chosen_map lim (f : RetrievalCandidate -> RetrievalCandidate) l :
  (forall c, source_type (f c) = source_type c /\ identity (f c) = identity c
             /\ final_score (f c) = final_score c) ->
  well_chosen lim l -> well_chosen lim (map f l).
Proof.
  intros Hf [W1 W2 W3 W4].
  assert (Hd : forall c, document (f c) = document c).
  { intros c. destruct (Hf c) as (_ & Hi & _). unfold identity, document in *. congruence. }
  assert (Ho : forall d k, length (of_document d (map f k)) = length (of_document d k)).
  { intros d k. unfold of_document. induction k as [|c k IH]; [done|].
    cbn [map]. rewrite !filter_cons, Hd. destruct (decide _); cbn [length]; by rewrite IH. }
  split.
  - rewrite map_map. erewrite map_ext; [exact W1|]. intros c. apply (Hf c).
  - intros c (c' & -> & Hc')%list_elem_of_fmap. rewrite Hd, Ho.
    unfold limit_of. rewrite (proj1 (Hf c')). by apply W2.
  - apply Forall_map, (Forall_impl _ _ _ W3). intros c. unfold good.
    by rewrite (proj2 (proj2 (Hf c))).
  - by rewrite length_map.
Qed.

Lemma filter_sublist {A} (P : A -> Prop) `{!forall a, Decision (P a)} (k l : list A) :
  k `sublist_of` l -> filter P k `sublist_of` filter P l.
Proof.
  induction 1 as [|x k l _ IH|x k l _ IH]; [constructor|..]; rewrite !filter_cons;
    destruct (decide (P x)); try done; by constructor.
Qed.

Lemma well_chosen_sublist lim l k : k `sublist_of` l -> well_chosen lim l -> well_chosen lim k.
Proof.
  intros Hk [W1 W2 W3 W4].
  assert (Hin : forall c, c ∈ k -> c ∈ l) by (intros c Hc; by eapply elem_of_sublist).
  split.
  - eapply sublist_NoDup; [exact W1|]. by apply (fmap_sublist identity).
  - intros c Hc. etransitivity; [|apply (W2 c); auto]. by apply sublist_length, filter_sublist.
  - apply Forall_forall. intros c Hc. eapply Forall_forall; [exact W3|auto].
  - intros Hp. etransitivity; [by apply sublist_length|auto].
Qed.

#[export] Instance well_chosen_permutation lim : Proper ((≡ₚ) ==> impl) (well_chosen lim).
Proof.
  intros l k Hp [W1 W2 W3 W4]. split.
  - by rewrite <-(Permutation_map identity Hp).
  - intros c Hc. unfold of_document. rewrite <-Hp. apply W2. by rewrite Hp.
  - by rewrite <-Hp.
  - by rewrite <-Hp.
Qed.

Lemma removelast_sublist {A} (l : list A) : removelast l `sublist_of` l.
Proof.
  induction l as [|x l IH]; simpl; [constructor|]. destruct l; [by constructor|].
  by apply sublist_skip.
Qed.

Lemma length_removelast {A} (x : A) l : length (removelast (x :: l)) = length l.
Proof. revert x. induction l as [|y l IH]; intros x; [done|]. simpl. f_equal. apply IH. Qed.

(** whatever the candidates, the selection returns candidates, each identity
    once, all of the required quality, at most [top_k] of them and no more of a
    document or ticket than its limit. *)
Theorem selection_respects_limits candidates lim :
  (0 < top_k lim)%nat -> (0 < max_chunks_per_document lim)%nat ->
  (0 < max_results_per_ticket lim)%nat ->
  let r := deduplicate_and_diversify candidates lim in
  (forall c, c ∈ r -> c ∈ candidates) /\ NoDup (map identity r)
  /\ (forall c, c ∈ r -> flt (final_score c) (minimum_quality lim) = false)
  /\ (length r <= top_k lim)%nat
  /\ (forall c, c ∈ r -> (length (filter (fun x => document x = document c) r) <=
        if bool_decide (source_type c = SRC_MANUAL) then max_chunks_per_document lim
        else max_results_per_ticket lim)%nat).
Proof.
  intros Hk Hm Ht r.
  assert (H : (forall c, c ∈ r -> c ∈ candidates) /\ well_chosen lim r); [|].
  2: { destruct H as [Hin [W1 W2 W3 W4]]. split_and!; try done; [|by apply W4].
       intros c Hc. eapply Forall_forall in W3; [exact W3|done]. }
  subst r. unfold deduplicate_and_diversify.
  destruct (select_spec lim (sorted_desc final_score candidates) [] [] ∅ (loop_start lim))
    as (k & E & Hsub & W & _ & I & _).
  destruct (select _ _ _ _ _) as [sel ids]. simpl in *. subst k.
  assert (Hin : forall c, c ∈ sorted_desc final_score candidates -> c ∈ candidates) by
    (intros c; by rewrite (sorted_desc_permutation final_score candidates)).
  assert (Hsel : forall c, c ∈ sel -> c ∈ candidates) by
    (intros c Hc; apply Hin; by eapply elem_of_sublist).
  destruct (remove_dups (map source_type sel)) as [|s [|]] eqn:Er; [done| |done].
  destruct sel as [|c1 [|c2 sel']] eqn:Esel; [done..|]. rewrite <-Esel in *.
  destruct (find_first _ _) as [a|] eqn:Hf; [|done].
  apply find_first_Some in Hf as [Ha [[Hs Hq]%andb_true_iff Hi]%andb_true_iff].
  apply negb_true_iff, bool_decide_eq_false in Hs. apply negb_true_iff, bool_decide_eq_false in Hi.
  pose proof (removelast_sublist sel) as Hrl. rewrite I in Hi.
  assert (Hone : forall c, c ∈ sel -> source_type c = s).
  { intros c Hc. apply list_elem_of_singleton. rewrite <-Er. apply elem_of_remove_dups.
    by apply list_elem_of_fmap_2. }
  split.
  - intros c. rewrite (sorted_desc_permutation final_score). intros [Hc|Hc]%elem_of_app.
    + apply Hsel. by eapply elem_of_sublist.
    + apply list_elem_of_singleton in Hc as ->. by apply Hin.
  - rewrite (sorted_desc_permutation final_score). apply well_chosen_snoc.
    + by eapply well_chosen_sublist.
    + by apply fle_not_flt.
    + intros Hin'. apply Hi. eapply elem_of_sublist; [exact Hin'|]. by apply (fmap_sublist identity).
    + assert (of_document (document a) (removelast sel) = []) as ->.
      { apply of_document_none. intros c Hc Hd. apply Hs.
        rewrite <-(Hone c) by by eapply elem_of_sublist. unfold document in Hd. injection Hd as Hd _.
        by destruct (source_type c), (source_type a). }
      unfold limit_of. simpl. case_bool_decide; lia.
    + intros _. pose proof (wc_length _ _ W Hk) as Hlen. rewrite Esel in *.
      rewrite length_removelast. simpl in *. lia.
Qed.

(** Two good manual chunks and a ticket: the second chunk makes room for it. *)
Definition demo_candidate (s : SourceType) (i : string) (chunk : option string) (q : Z)
  : RetrievalCandidate :=
  mkCandidate s i chunk "" "" [] None None None zero zero zero zero zero (literal q 100) false None.
Definition demo_limits : Limits := mkLimits 2 (literal 92 100) 2 1 (literal 45 100).
Definition demo_pool : list RetrievalCandidate :=
  [demo_candidate SRC_TICKET "T1" None 50; demo_candidate SRC_MANUAL "M1" (Some "C1") 90;
   demo_candidate SRC_MANUAL "M1" (Some "C2") 80; demo_candidate SRC_TICKET "T2" None 30].

Example demo_selection :
  map identity (deduplicate_and_diversify demo_pool demo_limits)
  = [("manual", "M1", "C1"); ("ticket", "T1", "")].
Proof. vm_compute. done. Qed.

Lemma selection_respects_limits_witness :
  NoDup (map identity (deduplicate_and_diversify demo_pool demo_limits))
  /\ (length (deduplicate_and_diversify demo_pool demo_limits) <= 2)%nat.
Proof.
  destruct (selection_respects_limits demo_pool demo_limits) as (_ & H1 & _ & H2 & _);
    [simpl; lia..|]. by split.
Defined.
