(* ===== verification/Rewrite.v ===== *)
(** * Queries: rewriting, tokens and keyword ranking

    [retrieval/query_rewrite.py], [retrieval/tokenization.py] and
    [retrieval/keyword.py]. *)

From S2P Require Import Prelude Errors Json Float Text Regex Tools Scoring.
From Stdlib Require Import SpecFloat.
Open Scope Z_scope.

(** What the source takes from the Unicode database ([\d] beyond ASCII) and from the
    C library ([math.log], whose rounding no standard fixes). *)
Class Platform := mkPlatform {
  digit_other : N -> bool;
  log : float -> float;
}.

(** [list(dict.fromkeys(l))]: the first of equal items stays. *)
Fixpoint unique_from (seen l : list string) : list string :=
  match l with
  | [] => []
  | x :: l' =>
      if bool_decide (x ∈ seen) then unique_from seen l' else x :: unique_from (x :: seen) l'
  end.
Definition unique : list string -> list string := unique_from [].

Lemma unique_from_spec seen l :
  NoDup (unique_from seen l) /\ forall x, x ∈ unique_from seen l <-> x ∈ l /\ (x ∉ seen).
Proof.
  revert seen. induction l as [|y l IH]; intros seen; simpl.
  - split; [constructor|]. intros x. rewrite !elem_of_nil. tauto.
  - case_bool_decide as Hy.
    + destruct (IH seen) as [Hn Hx]. split; [done|]. intros x. rewrite Hx, elem_of_cons.
      split; [tauto|]. intros [[->|?] ?]; [done|tauto].
    + destruct (IH (y :: seen)) as [Hn Hx]. split.
      * constructor; [|done]. rewrite Hx, elem_of_cons. tauto.
      * intros x. rewrite elem_of_cons, Hx, elem_of_cons, elem_of_cons.
        destruct (decide (x = y)) as [->|]; tauto.
Qed.

Lemma unique_NoDup l : NoDup (unique l).
Proof. apply unique_from_spec. Qed.
Lemma elem_of_unique x l : x ∈ unique l <-> x ∈ l.
Proof. unfold unique. rewrite (proj2 (unique_from_spec [] l)), elem_of_nil. tauto. Qed.

(** ** Tokens *)

Section Tokens.
Context `{Unicode} `{Platform}.

Definition is_digit (x : N) : bool :=
  if (x <? 128)%N then in_range 48 57 x else digit_other x.

(** [[a-z]+(?:[-_]\w+)*|\d+(?:\.\d+)*] *)
Definition WORD : regex :=
  RAlt (RSeq (RRep (in_range 97 122) 1 None)
             (RStar (RSeq (RSet (any_of (chars "-_"))) (RRep is_word 1 None))))
       (RSeq (RRep is_digit 1 None)
             (RStar (RSeq (RSet (any_of (chars "."))) (RRep is_digit 1 None)))).
Definition CHINESE : regex := RRep chinese 1 None.

Fixpoint bigrams (t : Regex.text) : list Regex.text :=
  match t with
  | a :: (b :: _) as t' => [a; b] :: bigrams t'
  | _ => []
  end.

(** [retrieval/tokenization.py:4-11 tokenize] *)
Definition tokenize (s : string) : list string :=
  let normalized := lower (chars s) in
  let words := map (fun m => unchars (matched m)) (finditer WORD normalized) in
  let chinese_runs := map matched (finditer CHINESE normalized) in
  words ++ map unchars (concat (map (fun run =>
    match run with [x] => [[x]] | _ => bigrams run end) chinese_runs)).

(** ** Keyword ranking *)

Definition of_nat (n : nat) : float := float_of_Z (Z.of_nat n).
Definition count (x : string) (l : list string) : nat :=
  length (filter (fun y => y = x) l).

Section Rank.
Context {R : Type} (field : string -> R -> string).

Definition joined (names : list string) (row : R) : string :=
  str_join " " (map (fun n => field n row) names).

(** The weight of one query term in a document of the collection.
    [retrieval/keyword.py:36-36 idf] *)
Definition term_weight (documents : list (list string)) (avg_len : float) (tokens : list string)
  (term : string) : option float :=
  let frequency := count term tokens in
  if (frequency =? 0)%nat then None
  else
    let df := length (filter (fun d => term ∈ d) documents) in
    let idf := log (fadd one (fdiv (fadd (float_of_Z (Z.of_nat (length documents) - Z.of_nat df))
                                     (literal 1 2))
                                (fadd (of_nat df) (literal 1 2)))) in
    Some (fdiv (fmul (fmul idf (of_nat frequency)) (literal 22 10))
            (fadd (of_nat frequency)
               (fmul (literal 12 10)
                  (fadd (literal 1 4)
                     (fdiv (fmul (literal 3 4) (of_nat (length tokens))) avg_len))))).

(** [sum(w for term in exact_terms if term and term.lower() in text)] *)
Definition exact_bonus (w : float) (exact_terms : list string) (text : string) : float :=
  fsum (omap (fun t => if str_true t && contains (lower (chars t)) (lower (chars text))
                       then Some w else None) exact_terms).

(** [retrieval/keyword.py:10-56 rank], with the raw and the normalised score. *)
Definition rank (query : string) (rows : list R) (fields : list string) (top_k : nat)
  (title_fields exact_terms : list string) : list (R * (float * float)) :=
  let query_tokens := tokenize query in
  if negb (list_true query_tokens) || negb (list_true rows) then []
  else
    let documents := map (fun r => tokenize (joined fields r)) rows in
    let mean := fdiv (of_nat (sum_list (map length documents))) (of_nat (length documents)) in
    let avg_len := if ftrue mean then mean else one in
    let scored := omap (fun rt =>
        let '(row, tokens) := rt in
        let score := fold_left (fun s term =>
            match term_weight documents avg_len tokens term with
            | Some x => fadd s x
            | None => s
            end) query_tokens zero in
        let score := fadd score (exact_bonus (literal 15 10) exact_terms (joined title_fields row)) in
        let score := fadd score (exact_bonus (literal 75 100) exact_terms (joined fields row)) in
        if flt zero score then Some (score, row) else None) (zip rows documents) in
    match scored with
    | [] => []
    | s :: rest =>
        let maximum := fmax_of (fst s) (map fst rest) in
        map (fun sr => (snd sr, (fst sr, fdiv (fst sr) maximum)))
          (take top_k (sorted_desc fst scored))
    end.

(** Only rows are ranked, at most [top_k] of them. *)
Lemma rank_rows query rows fields k titles exact x :
  x ∈ rank query rows fields k titles exact -> fst x ∈ rows.
Proof.
  unfold rank. destruct (_ || _); [by intros ?%elem_of_nil|]. cbv zeta.
  set (documents := map _ rows). set (scored := omap _ _).
  assert (Hs : forall sr, sr ∈ scored -> snd sr ∈ rows).
  { unfold scored. intros sr ([row tokens] & Hz & Hsr)%list_elem_of_omap.
    destruct (flt _ _); [|done]. injection Hsr as <-. simpl. by apply elem_of_zip_l in Hz. }
  destruct scored as [|s rest]; [by intros ?%elem_of_nil|].
  intros (sr & -> & Hsr)%list_elem_of_fmap. simpl. apply Hs.
  rewrite <-(sorted_desc_permutation fst). apply list_elem_of_lookup in Hsr as [i Hi].
  apply lookup_take_Some in Hi as [Hi _]. by eapply list_elem_of_lookup_2.
Qed.

Lemma rank_length query rows fields k titles exact :
  (length (rank query rows fields k titles exact) <= k)%nat.
Proof.
  unfold rank. destruct (_ || _); [simpl; lia|]. cbv zeta. destruct (omap _ _); [simpl; lia|].
  rewrite length_map, length_take. lia.
Qed.
End Rank.

(** ** Rewriting a query *)

(** [retrieval/contracts.py:23-35 QueryRewrite] *)
Record QueryRewrite := mkRewrite {
  normalized_alarm_name : string;
  qr_device_type : option string;
  qr_device_model : option string;
  qr_manufacturer : option string;
  qr_component : option string;
  symptom_terms : list string;
  manual_query : string;
  ticket_query : string;
  keyword_terms : list string;
  rewrite_mode : string;
  rewrite_version : string;
  warnings : list string;
}.
#[export] Instance QueryRewrite_eta : Eta QueryRewrite := fun q =>
  mkRewrite (normalized_alarm_name q) (qr_device_type q) (qr_device_model q) (qr_manufacturer q)
    (qr_component q) (symptom_terms q) (manual_query q) (ticket_query q) (keyword_terms q)
    (rewrite_mode q) (rewrite_version q) (warnings q).

(** [retrieval/query_rewrite.py:8-8 DEVICE_ALIASES] *)
Definition DEVICE_ALIASES : list (string * string) :=
  [("储能变流器", "PCS"); ("储能柜", "PCS"); ("变流器", "PCS"); ("pcs", "PCS")].
(** [retrieval/query_rewrite.py:9-14 ALARM_ALIASES] *)
Definition ALARM_ALIASES : list (string * string) :=
  [("温度高", "温度告警"); ("过温", "温度告警"); ("温升", "温度告警"); ("温度异常", "温度告警")].
(** [retrieval/query_rewrite.py:15-15 COMPONENT_ALIASES] *)
Definition COMPONENT_ALIASES : list (string * string) := [("风扇", "散热风扇"); ("风机", "散热风扇")].
(** [retrieval/query_rewrite.py:16-16 THERMAL_EXPANSIONS] *)
Definition THERMAL_EXPANSIONS : list string := ["散热"; "散热风扇"; "滤网"; "风道"].

(** [retrieval/query_rewrite.py:19-20 _normalize_spaces] *)
Definition normalize_spaces (s : string) : string := strip (collapse_spaces s).
(** [retrieval/query_rewrite.py:23-25 _first_alias] *)
Definition first_alias (text : string) (aliases : list (string * string)) : option string :=
  let lowered := lower (chars text) in
  snd <$> find_first (fun a => contains (chars (fst a)) lowered) aliases.

(** [\b[A-Z]{1,8}[-_]?\d{2,}[A-Z0-9_-]*\b] without regard to case. *)
Definition letter (x : N) : bool := in_range 97 122 (fold_char x).
Definition IDENTIFIER : regex :=
  seq_of [RBoundary; RRep letter 1 (Some 8%nat); RRep (any_of (chars "-_")) 0 (Some 1%nat);
          RRep is_digit 2 None;
          RRep (fun x => letter x || in_range 48 57 x || any_of (chars "_-") x) 0 None; RBoundary].

(** [list(filter(None, l))] of optional strings. *)
Definition non_empty (l : list (option string)) : list string :=
  omap (fun o => match o with Some s => if str_true s then Some s else None | None => None end) l.
Definition or_else (x y : option string) : option string := if ostr_true x then x else y.

(** [retrieval/query_rewrite.py:28-73 rule_rewrite] *)
Definition rule_rewrite (query : string)
  (alarm_name device_type device_model manufacturer : option string) : QueryRewrite :=
  let text := normalize_spaces (str_join " " (non_empty [Some query; Some (or_empty alarm_name)])) in
  let normalized_device := or_else (first_alias text DEVICE_ALIASES) device_type in
  let normalized_alarm :=
    or_empty (or_else (or_else (first_alias text ALARM_ALIASES) alarm_name) (Some query)) in
  let component := first_alias text COMPONENT_ALIASES in
  let symptoms := unique (map snd (filter (fun a => contains (chars (fst a)) (chars text) = true)
                                     ALARM_ALIASES)) in
  let identifiers := map (fun m => unchars (matched m)) (finditer IDENTIFIER (chars text)) in
  let terms := unique (non_empty
    ([normalized_device; device_model; manufacturer; Some normalized_alarm; component]
     ++ map Some symptoms
     ++ (if bool_decide (normalized_alarm = "温度告警") then map Some THERMAL_EXPANSIONS else [])
     ++ map Some identifiers)) in
  let prefix := str_join " " (non_empty [normalized_device; device_model; Some normalized_alarm]) in
  mkRewrite normalized_alarm normalized_device device_model manufacturer component symptoms
    (normalize_spaces (prefix ++ " 原因 标准排查步骤 " ++ str_join " " terms))
    (normalize_spaces (prefix ++ " 故障现象 根因 处理动作 " ++ str_join " " terms))
    terms "rules" "rag.query_rewrite.v1.0" [].

(** The answer of the model to a rewrite, when it is a valid one; [port] is the
    model, if there is one.
    [retrieval/query_rewrite.py:76-99 rewrite_query] *)
Definition rewrite_query (query : string)
  (alarm_name device_type device_model manufacturer : option string) (mode : string)
  (port : option (QueryRewrite -> outcome abort (option QueryRewrite))) : outcome abort QueryRewrite :=
  let result := rule_rewrite query alarm_name device_type device_model manufacturer in
  let failed := result <| warnings ::= fun l => l ++ ["QUERY_REWRITE_FAILED"] |> in
  match port with
  | Some ask =>
      if bool_decide (mode = "model_enhanced") then
        match ask result with
        | Ok (Some e) => Ok (e <| rewrite_mode := "model_enhanced" |>)
        | Ok None => Ok failed
        | Raise Cancelled => Raise Cancelled
        | Raise (Exc _) => Ok failed
        end
      else Ok result
  | None => Ok result
  end.

(** Only the cancellation of the model's answer escapes. *)
Lemma rewrite_query_raises q a d m f mode port e :
  rewrite_query q a d m f mode port = Raise e ->
  exists p r, port = Some p /\ p r = Raise e /\ e = Cancelled.
Proof.
  unfold rewrite_query. generalize (rule_rewrite q a d m f). intros r. cbv zeta.
  destruct port as [p|]; [|done]. destruct (bool_decide _); [|done].
  destruct (p r) as [[?|]|[?|]] eqn:E; try done. intros [= <-]. by exists p, r.
Qed.

Lemma or_else_true x s : str_true s = true -> str_true (or_empty (or_else x (Some s))) = true.
Proof. intros Hs. unfold or_else. destruct (ostr_true x) eqn:E; [by destruct x|done]. Qed.

(** The terms of a rewrite are distinct and not empty, and the alarm is one of them
    whenever there is a query. *)
Lemma rule_rewrite_terms query alarm_name device_type device_model manufacturer :
  let q := rule_rewrite query alarm_name device_type device_model manufacturer in
  NoDup (keyword_terms q) /\ (forall t, t ∈ keyword_terms q -> str_true t = true)
  /\ (str_true query = true -> normalized_alarm_name q ∈ keyword_terms q).
Proof.
  unfold rule_rewrite. cbv zeta. cbn [keyword_terms normalized_alarm_name].
  split; [apply unique_NoDup|]. split.
  - intros t. rewrite elem_of_unique. unfold non_empty.
    intros (o & _ & Ho)%list_elem_of_omap. destruct o as [s|]; [|done].
    destruct (str_true s) eqn:E; [|done]. by injection Ho as <-.
  - intros Hq. apply elem_of_unique. unfold non_empty. apply list_elem_of_omap.
    set (a := or_empty (or_else _ (Some query))). exists (Some a). split; [do 3 right; left|].
    assert (str_true a = true) as ->; [|done]. by apply or_else_true.
Qed.
End Tokens.

Definition demo_platform : Platform := mkPlatform (fun _ => false) (fun x => x).

Example tokenize_example :
  @tokenize demo_unicode demo_platform "PCS-01 温度高 3.5度"
  = ["pcs-01"; "3.5"; "温度"; "度高"; "度"].
Proof. vm_compute. done. Qed.

Example rewrite_example :
  let q := @rule_rewrite demo_unicode demo_platform "储能变流器PCS-001 风扇 温度高" None None None None in
  normalized_alarm_name q = "温度告警" /\ qr_device_type q = Some "PCS"
  /\ keyword_terms q = ["PCS"; "温度告警"; "散热风扇"; "散热"; "滤网"; "风道"].
Proof. vm_compute. done. Qed.
