(* ===== verification/Templates.v ===== *)
(** * Diagnosis templates

    [templates/contracts.py], [definitions.py], [registry.py], [routing.py] and
    [rules.py]. *)

From Stdlib Require Import SpecFloat.
From S2P Require Import Prelude Errors Json Float Contracts Text Regex.
Open Scope Z_scope.

(** [templates/contracts.py:6-10 CandidateRule] *)
Record CandidateRule := mkRule {
  rule_cause : string;
  evidence_terms : list string;
  rule_missing : list string;
  base_confidence : float;
}.

(** [templates/contracts.py:13-16 TemplateGraphRelation] *)
Record TemplateGraphRelation := mkRelation {
  fault_cause : string;
  component : string;
  rel_actions : list string;
}.

(** [templates/contracts.py:19-35 DiagnosisTemplate] *)
Record DiagnosisTemplate := mkTemplate {
  template_id : string;
  template_version : string;
  device_type : string;
  device_aliases : list string;
  tpl_alarm_category : string;
  alarm_patterns : list string;
  alarm_aliases : list string;
  measurements : list string;
  metrics : list string;
  default_window_minutes : Z;
  plan_steps : list string;
  candidate_rules : list CandidateRule;
  clarification_rules : list string;
  inspection_steps : list string;
  safety_notes : list string;
  graph_relations : list TemplateGraphRelation;
}.

(** ** The registered templates *)

(** [templates/definitions.py:7-7 SAFETY] *)
Definition SAFETY : list string := ["涉及停机、断电或回路切换时，必须由授权人员人工确认并执行。"].

(** [templates/definitions.py:10-14 _rules] *)
Definition rules (rows : list (string * list string * string)) : list CandidateRule :=
  map (fun r => mkRule (fst (fst r)) (snd (fst r)) [snd r] (literal 55 100)) rows.

(** [templates/definitions.py:18-69 DiagnosisTemplate] *)
Definition pcs_temperature_abnormal : DiagnosisTemplate :=
  mkTemplate "pcs_temperature_abnormal_v1" "1.1.0" "PCS" ["储能变流器"; "储能柜"]
    "temperature" ["机柜温度异常"; "温度持续升高"; "温度高"] ["pcs温度异常"; "柜温告警"]
    ["pcs_metrics"; "fan_metrics"; "environment_metrics"]
    ["cabinet_temperature"; "ambient_temperature"; "fan_speed"; "fan_status"; "output_power"; "dc_current"]
    30
    ["核验设备与告警"; "分析温度和散热时序"; "检索手册与案例"; "现场确认"]
    (rules
       [("散热风扇失效或转速异常", ["风扇"; "fan_speed"; "不转"], "确认风扇供电与机械状态");
        ("滤网或风道堵塞", ["滤网"; "风道"; "堵塞"], "检查滤网压差与积尘");
        ("环境温度或负荷过高", ["环境温度"; "负荷"; "output_power"], "核对环境温度与负荷");
        ("温度传感器漂移", ["传感器"; "漂移"], "使用独立测温仪交叉校验")])
    ["确认风扇是否运转"; "补充独立测温值"]
    ["核对独立测温值"; "检查风扇与供电"; "检查滤网和风道"; "核对环境与负荷"]
    SAFETY
    [mkRelation "散热风扇失效或转速异常" "散热风扇" ["检查供电与转速"];
     mkRelation "滤网或风道堵塞" "风道与滤网" ["清洁滤网并检查风道"];
     mkRelation "环境温度或负荷过高" "设备通用部件" ["核对环境温度与设备负荷"];
     mkRelation "温度传感器漂移" "温度传感器" ["使用独立测温仪交叉校验"]].

(** [templates/definitions.py:70-112 DiagnosisTemplate] *)
Definition pcs_fan_abnormal : DiagnosisTemplate :=
  mkTemplate "pcs_fan_abnormal_v1" "1.1.0" "PCS" ["储能变流器"; "储能柜"]
    "fan" ["风扇异常"; "风扇故障"; "风扇告警"] ["fan abnormal"; "风机异常"]
    ["fan_metrics"; "pcs_metrics"]
    ["fan_speed"; "fan_status"; "fan_current"; "cabinet_temperature"; "control_signal"]
    30
    ["核验风扇告警"; "对比指令与反馈"; "检索历史案例"; "现场检查"]
    (rules
       [("风扇供电异常", ["fan_current"; "供电"; "电流"], "测量风扇供电");
        ("风扇机械卡滞", ["卡滞"; "异响"; "不转"], "断电后检查叶轮");
        ("控制信号异常", ["control_signal"; "控制信号"], "核对控制指令");
        ("状态反馈或转速传感器异常", ["反馈"; "fan_speed"; "转速传感器"], "交叉校验实际转速")])
    ["风扇是否实际转动"; "是否存在异响"]
    ["检查风扇供电"; "检查机械卡滞"; "核对控制信号"; "交叉校验转速反馈"]
    SAFETY
    [mkRelation "风扇机械卡滞" "散热风扇" ["检查叶轮和轴承"];
     mkRelation "风扇供电异常" "散热风扇" ["测量风扇供电"];
     mkRelation "控制信号异常" "散热风扇" ["核对控制指令"];
     mkRelation "状态反馈或转速传感器异常" "散热风扇" ["交叉校验实际转速"]].

(** [templates/definitions.py:113-146 DiagnosisTemplate] *)
Definition pcs_temperature_sensor_abnormal : DiagnosisTemplate :=
  mkTemplate "pcs_temperature_sensor_abnormal_v1" "1.0.0" "PCS" ["储能变流器"; "储能柜"]
    "sensor" ["温度传感器异常"; "温度传感器故障"; "测温异常"] ["sensor abnormal"; "温度探头异常"]
    ["pcs_metrics"; "environment_metrics"]
    ["cabinet_temperature"; "redundant_temperature"; "ambient_temperature"; "sensor_quality"; "sensor_status"]
    30
    ["核验传感器告警"; "比较冗余测点"; "检查数据质量"; "现场交叉测温"]
    (rules
       [("温度传感器漂移", ["漂移"; "redundant_temperature"], "使用独立测温仪校验");
        ("线路或接触异常", ["线路"; "接触"; "sensor_status"], "检查端子与线束");
        ("数据质量或通讯异常", ["sensor_quality"; "质量"; "通讯"], "核对采集质量码");
        ("真实温升而非传感器故障", ["真实温升"; "ambient_temperature"], "核对多个测点趋势")])
    ["补充独立测温值"; "确认端子和线束状态"]
    ["比较冗余测点"; "检查质量码"; "检查端子线束"; "独立测温"]
    SAFETY
    [mkRelation "线路或接触异常" "温度传感器" ["检查端子与线束"]].

(** [templates/definitions.py:147-180 DiagnosisTemplate] *)
Definition pv_inverter_communication_abnormal : DiagnosisTemplate :=
  mkTemplate "pv_inverter_communication_abnormal_v1" "1.0.0" "PV_INVERTER" ["光伏逆变器"; "逆变器"]
    "communication" ["通讯异常"; "通信异常"; "离线"] ["communication abnormal"; "通讯中断"]
    ["inverter_metrics"]
    ["communication_status"; "heartbeat_age"; "packet_loss"; "auxiliary_power"; "dc_voltage"]
    30
    ["核验通讯告警"; "分析心跳与丢包"; "核查供电"; "检查网关和参数"]
    (rules
       [("网络链路中断", ["packet_loss"; "链路"; "心跳"], "检查交换机与链路");
        ("通讯参数或协议配置异常", ["协议"; "参数"; "配置"], "核对地址、波特率与协议");
        ("辅助供电异常", ["auxiliary_power"; "辅助供电"], "测量辅助电源");
        ("网关、采集器或 EMS 异常", ["网关"; "采集器"; "ems"], "检查上游采集链路")])
    ["确认本地面板是否在线"; "同网段设备是否同时离线"]
    ["检查链路和交换机"; "核对通讯参数"; "检查辅助电源"; "检查网关与采集器"]
    SAFETY
    [mkRelation "网络链路中断" "通讯链路" ["检查交换机、网线和光纤"]].

(** [templates/definitions.py:181-226 DiagnosisTemplate] *)
Definition pv_inverter_power_abnormal : DiagnosisTemplate :=
  mkTemplate "pv_inverter_power_abnormal_v1" "1.0.0" "PV_INVERTER" ["光伏逆变器"; "逆变器"]
    "power" ["功率异常"; "功率偏低"; "无功率"] ["power abnormal"; "出力异常"]
    ["inverter_metrics"; "environment_metrics"]
    ["active_power"; "dc_voltage"; "dc_current"; "ac_voltage"; "ac_current"; "irradiance";
     "grid_frequency"; "cabinet_temperature"]
    30
    ["核验功率告警"; "比较辐照与直流输入"; "检查电网侧"; "核查降额与测量"]
    (rules
       [("辐照度或直流输入不足", ["irradiance"; "dc_voltage"; "直流输入"], "核对辐照和直流输入");
        ("直流侧组串异常", ["组串"; "dc_current"], "检查组串电流一致性");
        ("电网侧限发或电压频率异常", ["限发"; "ac_voltage"; "grid_frequency"], "核对调度与电网参数");
        ("热降额", ["cabinet_temperature"; "热降额"; "温度"], "核对温度与降额状态");
        ("功率测量异常", ["测量"; "active_power"], "交叉校验电表")])
    ["确认是否存在调度限发"; "补充同阵列逆变器出力"]
    ["核对辐照与直流输入"; "检查组串"; "核对电网与限发"; "检查温度和电表"]
    SAFETY
    [mkRelation "直流侧组串异常" "光伏组串" ["检查组串电流与连接"]].

(** [templates/definitions.py:17-227 TEMPLATES] *)
Definition TEMPLATES : list DiagnosisTemplate :=
  [pcs_temperature_abnormal; pcs_fan_abnormal; pcs_temperature_sensor_abnormal;
   pv_inverter_communication_abnormal; pv_inverter_power_abnormal].

(** ** The registry *)

(** Two templates with one id are refused; the dict keeps the order of the list.
    [templates/registry.py:13-16 TemplateRegistry.__init__] *)
Definition new_registry (l : list DiagnosisTemplate) : outcome exn (list DiagnosisTemplate) :=
  if bool_decide (NoDup (map template_id l)) then Ok l else Raise ValueError.

(** [templates/registry.py:22-26 TemplateRegistry.get] *)
Definition get (r : list DiagnosisTemplate) (id : string) : outcome exn DiagnosisTemplate :=
  match find_first (fun t => bool_decide (template_id t = id)) r with
  | Some t => Ok t
  | None => Raise (TemplateNotFoundError id)
  end.

#[export] Instance DiagnosisTemplate_eq_dec : EqDecision DiagnosisTemplate.
Proof.
  assert (EqDecision spec_float) by solve_decision.
  assert (EqDecision CandidateRule) by solve_decision.
  assert (EqDecision TemplateGraphRelation) by solve_decision.
  solve_decision.
Defined.

Section Routing.
Context `{Unicode}.

(** [(s or "").strip().lower()]. *)
Definition normalized (o : option string) : text := lower (chars (strip (or_empty o))).

Definition alarm_terms (t : DiagnosisTemplate) : list text :=
  map (fun s => lower (chars s)) (alarm_patterns t ++ alarm_aliases t).
Definition device_names (t : DiagnosisTemplate) : list text :=
  map (fun s => lower (chars s)) (device_type t :: device_aliases t).

(** The score of a template and its basis, when the template is a candidate. *)
Definition candidate (device alarm category user : text) (t : DiagnosisTemplate)
  : option (Z * list string) :=
  if list_true device && negb (bool_decide (device ∈ device_names t)) then None
  else
    let hit (x : text) := list_true x && existsb (fun term => contains term x) (alarm_terms t) in
    let parts :=
      [(list_true device, 4, "device_type");
       (hit alarm, 3, "alarm_name");
       (list_true category && bool_decide (category = lower (chars (tpl_alarm_category t))),
         2, "alarm_category");
       (hit user, 1, "controlled_term")] in
    let on := filter (fun p => fst (fst p) = true) parts in
    let score := fold_left (fun n p => n + snd (fst p)) on 0 in
    let basis := map snd on in
    if negb (score =? 0)
       && (negb (list_true alarm) && negb (list_true category) && negb (list_true user)
           || ((if list_true device then 1 else 0) <? length basis)%nat)
    then Some (score, basis) else None.

Definition candidates (r : list DiagnosisTemplate) (device alarm category user : text)
  : list (Z * DiagnosisTemplate * string) :=
  omap (fun t => (fun c => (fst c, t, str_join "+" (snd c))) <$> candidate device alarm category user t) r.

(** [max] of the scores, of a non-empty list. *)
Definition best_score (l : list (Z * DiagnosisTemplate * string)) : Z :=
  fold_left (fun m c => Z.max m (fst (fst c))) l 0.

(** [templates/registry.py:28-73 TemplateRegistry.route] *)
Definition route (r : list DiagnosisTemplate)
  (device_type alarm_name alarm_category user_text : option string)
  : outcome exn (DiagnosisTemplate * string) :=
  let cs := candidates r (normalized device_type) (normalized alarm_name)
              (normalized alarm_category) (normalized user_text) in
  match cs with
  | [] => Raise (TemplateNotFoundError "TEMPLATE_UNSUPPORTED_DEVICE_OR_ALARM")
  | _ =>
      match filter (fun c => fst (fst c) = best_score cs) cs with
      | [c] => Ok (snd (fst c), snd c)
      | _ => Raise (TemplateAmbiguousError "TEMPLATE_AMBIGUOUS")
      end
  end.

(** ** Rules *)

(** [term.lower() in text.lower()] *)
Definition occurs (term text : string) : bool :=
  contains (lower (chars term)) (lower (chars text)).

(** The cause a rule gives: it cites the evidence that mentions one of its terms,
    or, when only the feedback or the joined summaries do, the first two. *)
Definition apply_rule (evs : list Evidence) (feedback : string) (r : CandidateRule)
  : option CandidateCause :=
  let searchable := (str_join " " (map summary evs) ++ " " ++ feedback)%string in
  let mentions s := existsb (fun term => occurs term s) (evidence_terms r) in
  let refs := map evidence_id (filter (fun e => mentions (summary e) = true) evs) in
  let cause_with refs :=
    mkCause (rule_cause r)
      (fmin (if str_true feedback then fadd (base_confidence r) (literal 1 10)
             else base_confidence r) (literal 8 10))
      refs [] (rule_missing r) true in
  match refs with
  | [] => if mentions searchable then Some (cause_with (map evidence_id (take 2 evs))) else None
  | _ => Some (cause_with refs)
  end.

(** [templates/rules.py:5-33 evaluate_candidate_rules] *)
Definition evaluate_candidate_rules (t : DiagnosisTemplate) (evs : list Evidence)
  (feedback : string) : list CandidateCause :=
  take 4 (sorted_desc confidence (omap (apply_rule evs feedback) (candidate_rules t))).
End Routing.

(** ** Routing picks the one best template *)

Section RouteProofs.
Context `{Unicode}.

Lemma candidate_positive d a c u t n b :
  candidate d a c u t = Some (n, b) -> 0 < n.
Proof.
  unfold candidate. destruct (_ && negb _); [done|].
  destruct (list_true d), (list_true a && _), (list_true c && _), (list_true u && _);
    simpl; repeat (case_match; simpl); intros; simplify_eq; lia.
Qed.

Lemma best_score_max l m :
  m <= fold_left (fun m c => Z.max m (fst (fst c))) l m
  /\ (forall c : Z * DiagnosisTemplate * string, c ∈ l ->
        fst (fst c) <= fold_left (fun m c => Z.max m (fst (fst c))) l m)
  /\ (fold_left (fun m c => Z.max m (fst (fst c))) l m = m
      \/ exists c, c ∈ l /\ fold_left (fun m c => Z.max m (fst (fst c))) l m = fst (fst c)).
Proof.
  revert m. induction l as [|x l IH]; intros m; simpl.
  - split_and!; [lia|intros c Hc; by apply not_elem_of_nil in Hc|by left].
  - destruct (IH (Z.max m (fst (fst x)))) as (H1 & H2 & H3). split_and!; [lia| |].
    + intros c [->|Hc]%elem_of_cons; [lia|auto].
    + destruct H3 as [H3|(c & Hc & H3)]; [|right; exists c; split; [by right|done]].
      destruct (Z.max_spec m (fst (fst x))) as [[_ Hm]|[_ Hm]]; rewrite Hm in H3 |- *.
      * right. exists x. split; [by left|done].
      * by left.
Qed.

Lemma omap_ext_in {A B} (f g : A -> option B) (l : list A) :
  (forall x, x ∈ l -> f x = g x) -> omap f l = omap g l.
Proof.
  induction l as [|x l IH]; intros Hfg; csimpl; [done|].
  rewrite (Hfg x) by left. rewrite IH; [done|]. intros y Hy. apply Hfg. by right.
Qed.

(** A singleton among the elements of a list without duplicates. *)
Lemma filter_singleton {A} (P : A -> Prop) `{!forall x, Decision (P x)} (l : list A) x :
  NoDup l -> x ∈ l -> P x -> (forall y, y ∈ l -> P y -> y = x) -> filter P l = [x].
Proof.
  intros Hl Hx Hp Hu. apply Permutation_singleton_r, NoDup_Permutation.
  - by apply NoDup_filter.
  - apply NoDup_singleton.
  - intros y. rewrite list_elem_of_filter, list_elem_of_singleton. naive_solver.
Qed.

Lemma elem_of_candidates r d a c u n t b :
  (n, t, b) ∈ candidates r d a c u <->
  t ∈ r /\ exists bs, candidate d a c u t = Some (n, bs) /\ b = str_join "+" bs.
Proof.
  unfold candidates. rewrite list_elem_of_omap. split.
  - intros (t' & Ht & Hc). destruct (candidate d a c u t') as [[n' bs]|] eqn:E; [|done].
    injection Hc as -> -> <-. split; [done|]. by exists bs.
  - intros (Ht & bs & Hc & ->). exists t. by rewrite Hc.
Qed.

Lemma candidates_NoDup r d a c u : NoDup r -> NoDup (candidates r d a c u).
Proof.
  intros Hr. unfold candidates. induction Hr as [|t r Ht Hr IH]; simpl; [constructor|].
  destruct (candidate d a c u t) as [[n bs]|] eqn:E; simpl; [|done]. constructor; [|done].
  fold (candidates r d a c u). by intros [? _]%elem_of_candidates.
Qed.

(** routing returns a template exactly when it is the one candidate with the
    highest score; otherwise it raises, so no tie is broken silently. *)
Theorem route_picks_unique_best r dt an ac ut t b :
  NoDup r ->
  let cand := candidate (normalized dt) (normalized an) (normalized ac) (normalized ut) in
  route r dt an ac ut = Ok (t, b) <->
  t ∈ r /\ exists n bs, cand t = Some (n, bs) /\ b = str_join "+" bs
    /\ forall t' n' bs', t' ∈ r -> cand t' = Some (n', bs') -> t' <> t -> n' < n.
Proof.
  intros Hr cand. unfold route. set (cs := candidates _ _ _ _ _).
  destruct (best_score_max cs 0) as (_ & Hmax & Hbest). fold (best_score cs) in Hmax, Hbest.
  assert (Hin : forall n t b, (n, t, b) ∈ cs <->
                  t ∈ r /\ exists bs, cand t = Some (n, bs) /\ b = str_join "+" bs)
    by (intros; apply elem_of_candidates).
  split.
  - intros Hroute.
    assert (Hf : filter (fun c => fst (fst c) = best_score cs) cs = [(best_score cs, t, b)]).
    { destruct cs as [|c0 cs']; [done|]. destruct (filter _ (c0 :: cs')) as [|c [|]] eqn:E; try done.
      injection Hroute as <- <-.
      assert (Hc : c ∈ [c]) by left. rewrite <-E in Hc. apply list_elem_of_filter in Hc as [Hc _].
      destruct c as [[n t] b]; simpl in *. by rewrite <-Hc. }
    assert (Hc : (best_score cs, t, b) ∈ [(best_score cs, t, b)]) by left.
    rewrite <-Hf in Hc. apply list_elem_of_filter in Hc as [_ Hc].
    apply Hin in Hc as (Ht & bs & Hc & ->). split; [done|]. exists (best_score cs), bs.
    split_and!; [done..|]. intros t' n' bs' Ht' Hc' Hne.
    assert (Hc2 : (n', t', str_join "+" bs') ∈ cs) by (apply Hin; eauto).
    pose proof (Hmax _ Hc2). simpl in *. destruct (decide (n' = best_score cs)) as [->|]; [|lia].
    assert (Hc3 : (best_score cs, t', str_join "+" bs') ∈
                  filter (fun c => fst (fst c) = best_score cs) cs)
      by (by apply list_elem_of_filter).
    rewrite Hf in Hc3. apply list_elem_of_singleton in Hc3. congruence.
  - intros (Ht & n & bs & Hc & -> & Hlt).
    assert (Hcs : (n, t, str_join "+" bs) ∈ cs) by (apply Hin; eauto).
    assert (Hn : n = best_score cs).
    { destruct Hbest as [Hb|([[n2 t2] b2] & Hc2 & Hb)].
      - pose proof (Hmax _ Hcs). apply candidate_positive in Hc. simpl in *. lia.
      - pose proof (Hmax _ Hcs). apply Hin in Hc2 as (Ht2 & bs2 & Hc2 & _). simpl in *.
        destruct (decide (t2 = t)) as [->|Hne]; [congruence|]. specialize (Hlt _ _ _ Ht2 Hc2 Hne). lia. }
    assert (Hnd : NoDup cs) by (by apply candidates_NoDup). clearbody cs.
    rewrite (filter_singleton _ cs (n, t, str_join "+" bs)); [|done..|].
    + destruct cs; [by apply not_elem_of_nil in Hcs|done].
    + intros [[n2 t2] b2] Hc2 Hb. simpl in Hb. subst n2.
      apply Hin in Hc2 as (Ht2 & bs2 & Hc2 & ->).
      destruct (decide (t2 = t)) as [->|Hne]; [congruence|].
      specialize (Hlt _ _ _ Ht2 Hc2 Hne). lia.
Qed.
End RouteProofs.

(** ** The registered templates are routed to *)

Section DefaultRoutes.
Context `{U : Unicode} `{!ChineseText U}.

(** The names of a template are ASCII and Chinese text. *)
Definition plain_template (t : DiagnosisTemplate) : bool :=
  forallb (fun s => plain (chars s))
    (device_type t :: device_aliases t ++ alarm_patterns t ++ alarm_aliases t
     ++ [tpl_alarm_category t]).
Definition plain_option (o : option string) : bool := plain (chars (strip (or_empty o))).

Lemma lower_demo s : plain (chars s) = true ->
  lower (chars s) = @lower demo_unicode (chars s).
Proof. intros Hs. by rewrite !lower_plain. Qed.

Lemma map_lower_demo l : forallb (fun s => plain (chars s)) l = true ->
  map (fun s => lower (chars s)) l = map (fun s => @lower demo_unicode (chars s)) l.
Proof.
  rewrite forallb_forall. intros Hl. apply map_ext_in. intros s Hs. by apply lower_demo, Hl.
Qed.

Lemma candidate_demo d a c u t : plain_template t = true ->
  candidate d a c u t = @candidate demo_unicode d a c u t.
Proof.
  unfold plain_template. simpl. rewrite !forallb_app, !andb_true_iff.
  intros (Hd & Hal & Hp & Ha & Hc). simpl in Hc. rewrite andb_true_r in Hc.
  unfold candidate, device_names, alarm_terms. rewrite !map_lower_demo, lower_demo; try done.
  - by rewrite forallb_app, Hp, Ha.
  - simpl. by rewrite Hd, Hal.
Qed.

(** On plain text routing does not depend on the Unicode tables. *)
Lemma route_demo r dt an ac ut :
  forallb plain_template r = true ->
  plain_option dt = true -> plain_option an = true -> plain_option ac = true ->
  plain_option ut = true ->
  route r dt an ac ut = @route demo_unicode r dt an ac ut.
Proof.
  intros Hr H1 H2 H3 H4. unfold route, normalized.
  rewrite (lower_demo _ H1), (lower_demo _ H2), (lower_demo _ H3), (lower_demo _ H4).
  assert (Hcs : forall d a c u, candidates r d a c u = @candidates demo_unicode r d a c u).
  { intros d a c u. unfold candidates. rewrite forallb_forall in Hr. apply omap_ext_in.
    intros t Ht. by rewrite candidate_demo by (by apply Hr, list_elem_of_In). }
  by rewrite Hcs.
Qed.

(** every registered pairing routes home: any name of a template's device
    with any of its alarm names is routed to that template. *)
Theorem registered_alarms_route t d a :
  t ∈ TEMPLATES -> d ∈ device_type t :: device_aliases t ->
  a ∈ alarm_patterns t ++ alarm_aliases t ->
  route TEMPLATES (Some d) (Some a) None None = Ok (t, "device_type+alarm_name").
Proof.
  intros Ht Hd Ha.
  set (ok := fun t => forallb (fun d => forallb (fun a =>
    plain_option (Some d) && plain_option (Some a)
    && match @route demo_unicode TEMPLATES (Some d) (Some a) None None with
       | Ok (t', b) => bool_decide (t' = t /\ b = "device_type+alarm_name"%string)
       | Raise _ => false
       end) (alarm_patterns t ++ alarm_aliases t)) (device_type t :: device_aliases t)).
  assert (Hall : forallb ok TEMPLATES = true) by (vm_compute; reflexivity).
  rewrite forallb_forall in Hall. specialize (Hall t (proj1 (list_elem_of_In _ _) Ht)).
  unfold ok in Hall. rewrite forallb_forall in Hall.
  specialize (Hall d (proj1 (list_elem_of_In _ _) Hd)). cbv beta in Hall.
  rewrite forallb_forall in Hall.
  specialize (Hall a (proj1 (list_elem_of_In _ _) Ha)). cbv beta in Hall.
  apply andb_true_iff in Hall as [[Hpd Hpa]%andb_true_iff Hr].
  rewrite route_demo; [|by vm_compute|done..].
  destruct (@route demo_unicode TEMPLATES (Some d) (Some a) None None) as [[t' b]|e]; [|done].
  apply bool_decide_eq_true in Hr as [-> ->]. done.
Qed.
End DefaultRoutes.

Lemma registered_alarms_route_witness :
  @route demo_unicode TEMPLATES (Some "储能柜") (Some "风扇故障") None None
  = Ok (pcs_fan_abnormal, "device_type+alarm_name").
Proof.
  apply (registered_alarms_route (U := demo_unicode));
    apply (bool_decide_unpack _); vm_compute; exact I.
Defined.

Lemma route_picks_unique_best_witness :
  pcs_fan_abnormal ∈ TEMPLATES
  /\ exists n bs, @candidate demo_unicode [] (@normalized demo_unicode (Some "风扇故障"))
                   [] [] pcs_fan_abnormal = Some (n, bs).
Proof.
  assert (Hn : NoDup TEMPLATES) by (apply (bool_decide_unpack _); vm_compute; exact I).
  destruct (proj1 (@route_picks_unique_best demo_unicode TEMPLATES None (Some "风扇故障")
    None None pcs_fan_abnormal "alarm_name" Hn)) as (Hin & n & bs & Hc & _);
    [vm_compute; reflexivity|].
  split; [exact Hin|exists n, bs; exact Hc].
Defined.

(** ** Rules give grounded causes *)

Section Rules.
Context `{Unicode}.

Lemma rule_grounded evs fb r c :
  apply_rule evs fb r = Some c ->
  cause c = rule_cause r
  /\ (forall ref, ref ∈ supporting_evidence c -> ref ∈ map evidence_id evs)
  /\ (evs <> [] -> supporting_evidence c <> [])
  /\ (exists term, term ∈ evidence_terms r
        /\ ((exists e, e ∈ evs /\ occurs term (summary e) = true
                       /\ evidence_id e ∈ supporting_evidence c)
            \/ occurs term (str_join " " (map summary evs) ++ " " ++ fb)%string = true)).
Proof.
  unfold apply_rule. destruct (map evidence_id _) as [|i l] eqn:Hl.
  - destruct (existsb _ _) eqn:Hm; [|done]. intros [= <-]. simpl. split_and!; [done| | |].
    + intros ref (e & -> & He)%list_elem_of_fmap. apply list_elem_of_fmap. exists e.
      split; [done|]. by eapply elem_of_take in He as (k & ? & _); eapply list_elem_of_lookup_2.
    + by destruct evs as [|? [|]].
    + apply existsb_exists in Hm as (term & Ht & Ho). exists term.
      split; [by apply list_elem_of_In|by right].
  - intros [= <-]. simpl. rewrite <-Hl. split_and!; [done| |by rewrite Hl|].
    + intros ref (e & -> & [_ He]%list_elem_of_filter)%list_elem_of_fmap.
      by apply list_elem_of_fmap_2.
    + assert (Hi : i ∈ i :: l) by left. rewrite <-Hl in Hi.
      apply list_elem_of_fmap in Hi as (e & -> & He).
      pose proof He as [Hm Hin]%list_elem_of_filter.
      apply existsb_exists in Hm as (term & Ht & Ho). exists term.
      split; [by apply list_elem_of_In|]. left. exists e.
      split_and!; [done..|by apply list_elem_of_fmap_2].
Qed.

Lemma elem_of_evaluate t evs fb c :
  c ∈ evaluate_candidate_rules t evs fb ->
  exists r, r ∈ candidate_rules t /\ apply_rule evs fb r = Some c.
Proof.
  intros (k & Hc & _)%elem_of_take. apply list_elem_of_lookup_2 in Hc.
  rewrite sorted_desc_permutation in Hc. by apply list_elem_of_omap in Hc.
Qed.

(** the causes the rules propose are grounded: at most four, each the cause of
    a rule of the template one of whose terms was mentioned, citing only known
    evidence, and some when there is any, with confidence 0.55, or 0.65 when the
    user gave feedback. *)
Theorem candidate_rules_grounded t evs fb :
  t ∈ TEMPLATES ->
  (length (evaluate_candidate_rules t evs fb) <= 4)%nat
  /\ forall c, c ∈ evaluate_candidate_rules t evs fb ->
       confidence c = (if str_true fb then fadd (literal 55 100) (literal 1 10)
                       else literal 55 100)
       /\ (forall ref, ref ∈ supporting_evidence c -> ref ∈ map evidence_id evs)
       /\ (evs <> [] -> supporting_evidence c <> [])
       /\ exists r term, r ∈ candidate_rules t /\ cause c = rule_cause r
            /\ term ∈ evidence_terms r
            /\ ((exists e, e ∈ evs /\ occurs term (summary e) = true
                           /\ evidence_id e ∈ supporting_evidence c)
                \/ occurs term (str_join " " (map summary evs) ++ " " ++ fb)%string = true).
Proof.
  intros Ht. split; [apply firstn_le_length|]. intros c (r & Hr & Hc)%elem_of_evaluate.
  destruct (rule_grounded _ _ _ _ Hc) as (Hcause & Hk & Hne & term & Hterm & Ho).
  split_and!; [|done|done|by exists r, term].
  assert (Hb : base_confidence r = literal 55 100).
  { assert (Hall : Forall (fun t => Forall (fun r => base_confidence r = literal 55 100)
                             (candidate_rules t)) TEMPLATES) by (repeat constructor).
    rewrite Forall_forall in Hall. specialize (Hall t Ht). rewrite Forall_forall in Hall. auto. }
  unfold apply_rule in Hc. rewrite Hb in Hc.
  destruct (map evidence_id _); [destruct (existsb _ _); [|done]|];
    injection Hc as <-; by destruct (str_true fb).
Qed.
End Rules.

Lemma candidate_rules_grounded_witness :
  let e := mkEvidence "manual:M1" "manual" "M1" "检查风扇供电与转速" "[手册: M1]" true
             (literal 9 10) (literal 9 10) None None None None None None None None false [] in
  @evaluate_candidate_rules demo_unicode pcs_fan_abnormal [e] "" <> []
  /\ (length (@evaluate_candidate_rules demo_unicode pcs_fan_abnormal [e] "") <= 4)%nat.
Proof.
  split; [vm_compute; discriminate|].
  apply (candidate_rules_grounded (H := demo_unicode) pcs_fan_abnormal).
  apply (bool_decide_unpack _); vm_compute; exact I.
Defined.
