(* ===== verification/Nodes.v ===== *)
(** * The nodes of the diagnosis workflow

    [agent/nodes/diagnosis.py]: one definition per node.  A node returns the
    state with its updates applied; the tools, the model, the event stream, the
    memory writer and the step log are the operations of a [Runtime]. *)

From stdpp Require Import pretty.
From S2P Require Import Prelude Errors Json Float Contracts AgentState Tools ToolData Text Regex.
From S2P Require Import Guardrails Templates.
Open Scope Z_scope.

(** [contracts/events.py:7-13 SSEEventType] *)
Inductive SSEEventType : Type :=
| INTENT_IDENTIFIED | DATA_FETCH_STARTED | RETRIEVAL_COMPLETED | EVENT_NEED_USER_INPUT
| DRAFT_GENERATED | EVENT_COMPLETED.

(** The ports of [agent/ports.py] a run of the workflow uses.  The model answers
    with a validated envelope or not at all; without a gateway it is not asked.
    [agent/nodes/diagnosis.py:43-50 DiagnosisNodeDependencies] *)
Class Runtime (S : Type) := mkRuntime {
  tool_names : list string;
  run_tool : string -> ToolInput -> string -> M S abort (ToolResult ToolData);
  emit : SSEEventType -> DiagnosisState -> M S abort unit;
  has_model : bool;
  generate_questions : DiagnosisState -> list ClarificationQuestion ->
    M S abort (option (list ClarificationQuestion));
  generate_causes : DiagnosisState -> list CandidateCause ->
    M S abort (option (list CandidateCause));
  generate_response : DiagnosisState -> StructuredDiagnosisResult ->
    M S abort (option StructuredDiagnosisResult);
  memory_writer : DiagnosisState -> M S abort unit;
  step_logger : DiagnosisState -> string -> outcome exn DiagnosisState -> M S abort unit;
  utc_now : M S abort Z;
}.

(** ** Entities in the text *)

Definition id_set (x : N) : bool := id_char (fold_char x).
Definition ALARM_ID : regex :=
  seq_of [RNotBehind id_set; opt (ilit "EVAL-"); ilit "ALARM-"; RRep id_set 1 None].
Definition DEVICE_ID : regex :=
  seq_of [RNotBehind id_set; RRep id_set 0 None; ilits ["PCS"; "PV_INVERTER"; "PV"]; ilit "-";
          RRep id_set 1 None].

Section Entities.
Context `{Unicode}.

(** [r.sub(repl, s)] for a pattern that matches no empty text; each match consumes
    a character, so the length of the text is enough fuel. *)
Fixpoint sub_from (fuel : nat) (r : regex) (repl pre s : text) : text :=
  match fuel with
  | O => s
  | S n =>
      match find_from r pre s with
      | Some ((_, b), (pre', e)) =>
          take (length s - length b) s ++ repl ++ sub_from n r repl pre' e
      | None => s
      end
  end.
Definition sub (r : regex) (repl s : text) : text := sub_from (length s) r repl [] s.

(** [max(l, key=len)]: the first of the longest. *)
Fixpoint longest (best : text) (l : list text) : text :=
  match l with
  | [] => best
  | x :: l' => longest (if (length best <? length x)%nat then x else best) l'
  end.

(** [agent/nodes/diagnosis.py:53-58 _extract_entity_ids] *)
Definition extract_entity_ids (s : text) : option string * option string :=
  let alarm := head (finditer ALARM_ID s) in
  let without_alarm := sub ALARM_ID [32%N] s in
  let devices := map matched (finditer DEVICE_ID without_alarm) in
  (match devices with [] => None | d :: l => Some (unchars (longest d l)) end,
   (fun m => unchars (matched m)) <$> alarm).
End Entities.

(** ** Tool results *)

(** [agent/nodes/diagnosis.py:61-68 _has_usable_tool_data] *)
Definition has_usable_tool_data (d : option ToolData) : bool :=
  match d with
  | None => false
  | Some (DeviceData _) | Some (AlarmData _) => true
  | Some (SeriesData l) =>
      match find_first (fun k => existsb (fun kv => bool_decide (fst kv = k)) l)
              ["relations"; "ranked_evidence"] with
      | Some k => match snd <$> find_first (fun kv => bool_decide (fst kv = k)) l with
                  | Some v => list_true v
                  | None => true
                  end
      | None => list_true l
      end
  | Some (PackageData ranked _) => list_true ranked
  | Some (RelationsData rows) => list_true rows
  end.

(** [agent/nodes/diagnosis.py:71-78 _context] *)
Definition context (s : DiagnosisState) : ToolContext :=
  mkContext (trace_id s) "energy-agent" (device_context s ≫= dc_site_id) (Some (session_id s)).

(** [agent/nodes/diagnosis.py:81-87 _tool_summary] *)
Definition tool_summary (name : string) (r : ToolResult ToolData) : ToolResultSummary :=
  mkToolSummary name (status_value (tr_status r)) (has_usable_tool_data (data r)) None
    (Some (name ++ ":" ++ status_value (tr_status r))%string).

(** The state of a run: the dict [tool_data] the nodes share, and the rest. *)
Record Run (S : Type) := mkRun {
  tool_data : gmap string (ToolResult ToolData);
  env : S;
}.
Arguments mkRun {S}.
Arguments tool_data {S}.
Arguments env {S}.

Section Nodes.
Context {W : Type} `{Unicode} `{Runtime W}.
Abbreviation N := (M (Run W) abort).

Definition port {A} (m : M W abort A) : N A := fun r =>
  let (e, o) := m (env r) in (mkRun (tool_data r) e, o).
Definition fail {A} (e : exn) : N A := raise (Exc e).
Definition lift_exn {A} (o : outcome exn A) : N A :=
  match o with Ok a => ret a | Raise e => fail e end.
(** [assert value] *)
Definition assert_some {A} (o : option A) : N A :=
  match o with Some a => ret a | None => fail AssertionError end.
Definition assert_str (o : option string) : N string :=
  match o with
  | Some s => if str_true s then ret s else fail AssertionError
  | None => fail AssertionError
  end.

(** The tool is run and its result kept in [tool_data]. *)
Definition fetch (s : DiagnosisState) (name : string) (i : ToolInput)
  : N (ToolResult ToolData) :=
  r <- port (run_tool name i (trace_id s)) ;;
  modify (fun run => mkRun (<[name := r]> (tool_data run)) (env run)) ;;;
  ret r.

(** [data["..."]] of a result that reports success. *)
Definition device_data (r : ToolResult ToolData) : N DeviceRow :=
  match data r with Some (DeviceData d) => ret d | Some _ => fail KeyError | None => fail TypeError end.
Definition alarm_data (r : ToolResult ToolData) : N AlarmRow :=
  match data r with Some (AlarmData a) => ret a | Some _ => fail KeyError | None => fail TypeError end.
Definition series_data (r : ToolResult ToolData) : N (list (string * list (string * json))) :=
  match data r with Some (SeriesData l) => ret l | _ => fail AttributeError end.

Definition planning_allowed_tools : list string := tool_names ++ ["query_graph_relations"].

(** ** Input *)

(** [agent/nodes/diagnosis.py:109-116 intent_router] *)
Definition intent_router (s : DiagnosisState) : N DiagnosisState :=
  port (emit INTENT_IDENTIFIED s) ;;;
  ret (s <| intent := Some (if list_true (user_feedback s) then FOLLOWUP_CLARIFICATION
                            else FAULT_DIAGNOSIS) |>).

(** [agent/nodes/diagnosis.py:118-164 entity_parser] *)
Definition entity_parser (s : DiagnosisState) : N DiagnosisState :=
  let d := Service.check_state_input s in
  if bool_decide (status d = BLOCKED) then
    ret (s <| phase := NEED_USER_INPUT |>
           <| clarification_questions :=
                [mkQuestion "guardrail_input" "请仅描述设备现象，并移除命令、查询语句或非法字符。"
                   "输入未通过安全校验" "text"] |>
           <| errors := violations d |> <| warnings := gd_warnings d |>
           <| guardrail_decision := Some d |>)
  else
    let entity_text := str_join " " (or_empty (user_message s) :: map fb_answer (user_feedback s)) in
    let (device_id, alarm_id) := extract_entity_ids (chars entity_text) in
    let device := match device_context s with
                  | Some dc => Some dc
                  | None => if ostr_true device_id
                            then Some (mkDevice None (or_empty device_id) None None None) else None
                  end in
    let alarm := match alarm_context s with
                 | Some ac => Some ac
                 | None => if ostr_true alarm_id
                           then Some (mkAlarm (or_empty alarm_id) "" None) else None
                 end in
    match device, alarm with
    | Some dc, Some ac =>
        ret (s <| device_context := Some dc |> <| alarm_context := Some ac |>
               <| warnings := warnings s ++ gd_warnings d |> <| guardrail_decision := Some d |>)
    | _, _ =>
        ret (s <| phase := NEED_USER_INPUT |>
               <| clarification_questions :=
                    [mkQuestion "missing_entity"
                       "请补充可核验的设备编号和告警编号，例如：设备 PCS-001，告警 ALARM-001。"
                       "诊断需要可追溯的设备与告警实体" "text"] |>
               <| errors := ["设备或告警实体缺失"] |>)
    end.

(** [agent/nodes/diagnosis.py:166-185 clarification_applier] *)
Definition clarification_applier (s : DiagnosisState) : N DiagnosisState :=
  let updated := s <| phase := EVIDENCE_READY |> <| clarification_questions := [] |>
                   <| errors := [] |> in
  planned <- lift_exn (model_validate updated) ;;
  let d := Service.check_state_plan planned planning_allowed_tools in
  let s' := updated <| guardrail_decision := Some d |> in
  if bool_decide (status d = BLOCKED) then
    ret (s' <| phase := NEED_USER_INPUT |> <| errors := errors s ++ violations d |>
            <| clarification_questions :=
                 [mkQuestion "guardrail_plan" "诊断计划未通过安全校验，请由人工审核。"
                    (str_join "; " (violations d)) "text"] |>)
  else ret s'.

(** ** Plan *)

Definition read_steps : list PlanStep :=
  let step id goal tool := mkPlanStep id goal (Some tool) true [] in
  [step "S1" "查询设备画像" "get_device_profile"; step "S2" "查询告警详情" "get_alarm_detail";
   step "S3" "查询最近时序窗口" "query_timeseries_window";
   step "S4" "检索设备手册" "search_manual_chunks";
   step "S5" "检索已审核相似工单" "search_similar_tickets";
   step "S6" "查询图谱补充关系" "query_graph_relations"].

(** [enumerate(l, 1)] *)
Definition enumerate {A} (l : list A) : list (Z * A) := imap (fun i x => (Z.of_nat i + 1, x)) l.

Definition plan_of (t : DiagnosisTemplate) : list PlanStep :=
  read_steps
  ++ map (fun p => mkPlanStep ("T" ++ pretty (fst p))%string (snd p) None true [])
       (enumerate (plan_steps t)).

(** [agent/nodes/diagnosis.py:187-263 plan_builder] *)
Definition plan_builder (s : DiagnosisState) : N DiagnosisState :=
  ac <- assert_some (alarm_context s) ;;
  match route TEMPLATES (device_context s ≫= dc_device_type) (Some (ac_alarm_name ac)) None
          (user_message s) with
  | Raise (TemplateNotFoundError reason) | Raise (TemplateAmbiguousError reason) =>
      ret (s <| phase := NEED_USER_INPUT |>
             <| clarification_questions :=
                  [mkQuestion "template_route" "请补充标准设备类型和准确告警名称。" reason "text"] |>
             <| errors := [reason] |>)
  | Raise e => fail e
  | Ok (t, basis) =>
      let s' := s <| diagnosis_template_id := Some (template_id t) |>
                  <| diagnosis_template_version := Some (template_version t) |>
                  <| plan := plan_of t |> in
      let d := Service.check_state_plan s' planning_allowed_tools in
      let s' := s' <| alarm_category := Some (tpl_alarm_category t) |>
                   <| guardrail_decision := Some d |> in
      if bool_decide (status d = BLOCKED) then ret (s' <| errors := violations d |>)
      else ret (s' <| template_route_basis := Some basis |> <| phase := PLAN_READY |>)
  end.

(** ** Tools *)

(** [agent/nodes/diagnosis.py:265-313 tool_dispatcher] *)
Definition tool_dispatcher (s : DiagnosisState) : N DiagnosisState :=
  dc <- assert_some (device_context s) ;;
  ac <- assert_some (alarm_context s) ;;
  port (emit DATA_FETCH_STARTED s) ;;;
  device <- port (run_tool "get_device_profile"
              (DeviceProfileInput (context s) (dc_device_id dc)) (trace_id s)) ;;
  alarm <- port (run_tool "get_alarm_detail"
             (AlarmDetailInput (context s) (ac_alarm_id ac) (Some (dc_device_id dc))) (trace_id s)) ;;
  modify (fun run => mkRun (<["get_alarm_detail" := alarm]>
                             (<["get_device_profile" := device]> (tool_data run))) (env run)) ;;;
  let s' := s <| phase := DATA_FETCHING |>
              <| tool_results := tool_results s ++ [tool_summary "get_device_profile" device;
                                                    tool_summary "get_alarm_detail" alarm] |> in
  s' <- (if success device then
           d <- device_data device ;;
           ret (s' <| device_context := Some (mkDevice (Some (row_site_id d)) (row_device_id d)
                        (Some (row_device_type d)) (Some (row_device_model d))
                        (Some (row_manufacturer d))) |>)
         else ret s') ;;
  if success alarm then
    a <- alarm_data alarm ;;
    ret (s' <| alarm_context := Some (mkAlarm (row_alarm_id a) (row_alarm_name a)
                 (Some (row_trigger_time a))) |>)
  else ret s'.

(** Instants are microseconds. *)
Definition minutes (n : Z) : Z := n * 60000000.

(** [agent/nodes/diagnosis.py:315-347 timeseries_fetcher] *)
Definition timeseries_fetcher (s : DiagnosisState) : N DiagnosisState :=
  dc <- assert_some (device_context s) ;;
  tid <- assert_str (diagnosis_template_id s) ;;
  t <- lift_exn (get TEMPLATES tid) ;;
  stop <- match alarm_context s ≫= ac_trigger_time with
          | Some time => ret time
          | None => port utc_now
          end ;;
  r <- fetch s "query_timeseries_window"
         (TimeseriesWindowInput (context s) (dc_device_id dc) (measurements t) (metrics t)
            (stop - minutes (default_window_minutes t)) stop) ;;
  ret (s <| tool_results := tool_results s ++ [tool_summary "query_timeseries_window" r] |>
         <| degraded_components :=
              if bad_status (tr_status r) then degraded_components s ++ ["influxdb"]
              else degraded_components s |>).

(** The device and alarm a search is filtered by. *)
Definition filters_of (dc : DeviceContext) (ac : AlarmContext) : SearchFilters :=
  mkFilters (dc_device_type dc) (dc_device_model dc) (dc_manufacturer dc)
    (Some (ac_alarm_name ac)).
(** [state.user_message or state.alarm_context.alarm_name] *)
Definition retrieval_query (s : DiagnosisState) (ac : AlarmContext) : string :=
  if ostr_true (user_message s) then or_empty (user_message s) else ac_alarm_name ac.

(** [result.data.get("retrieval_metadata", {}).get("degraded_components", [])] *)
Definition degraded_of (r : ToolResult ToolData) : list string :=
  match data r with Some (PackageData _ l) => l | _ => [] end.

(** [agent/nodes/diagnosis.py:349-379 ticket_fetcher] *)
Definition ticket_fetcher (s : DiagnosisState) : N DiagnosisState :=
  dc <- assert_some (device_context s) ;;
  ac <- assert_some (alarm_context s) ;;
  r <- fetch s "search_similar_tickets"
         (TicketSearchInput (context s) (retrieval_query s ac) (filters_of dc ac) true) ;;
  ret (s <| tool_results := tool_results s ++ [tool_summary "search_similar_tickets" r] |>
         <| degraded_components := sorted_set (degraded_components s ++ degraded_of r) |>).

(** [agent/nodes/diagnosis.py:381-410 doc_retriever] *)
Definition doc_retriever (s : DiagnosisState) : N DiagnosisState :=
  dc <- assert_some (device_context s) ;;
  ac <- assert_some (alarm_context s) ;;
  r <- fetch s "search_manual_chunks"
         (ManualSearchInput (context s) (retrieval_query s ac) (filters_of dc ac)) ;;
  ret (s <| tool_results := tool_results s ++ [tool_summary "search_manual_chunks" r] |>
         <| degraded_components := sorted_set (degraded_components s ++ degraded_of r) |>).

(** [agent/nodes/diagnosis.py:412-435 graph_fetcher] *)
Definition graph_fetcher (s : DiagnosisState) : N DiagnosisState :=
  dc <- assert_some (device_context s) ;;
  ac <- assert_some (alarm_context s) ;;
  r <- fetch s "query_graph_relations"
         (GraphRelationsInput (context s) (ac_alarm_name ac) (dc_device_type dc) 2 2) ;;
  let degraded := if bool_decide (tr_status r = DEGRADED)
                  then degraded_components s ++ ["neo4j"] else degraded_components s in
  ret (s <| tool_results := tool_results s ++ [tool_summary "query_graph_relations" r] |>
         <| degraded_components := sorted_set degraded |>).

(** ** Evidence *)

(** [Evidence(...)]: the scores lie between 0 and 1. *)
Definition unit_float (x : float) : bool := fle (literal 0 1) x && fle x (literal 1 1).
Definition valid_evidence (e : Evidence) : bool :=
  forallb unit_float (reliability e :: relevance e
    :: omap id [retrieval_score e; source_reliability e; verification_score e;
                freshness_score e; relevance_to_alarm e; final_score e]).
Definition new_evidence (e : Evidence) : N Evidence :=
  if valid_evidence e then ret e else fail ValidationError.

(** [if tool_data.get(name) and result.success]. *)
Definition succeeded (run : Run W) (name : string) : option (ToolResult ToolData) :=
  match tool_data run !! name with
  | Some r => if success r then Some r else None
  | None => None
  end.

Definition device_evidence (d : DeviceRow) : Evidence :=
  mkEvidence ("device:" ++ row_device_id d)%string "device" (row_device_id d)
    (row_device_type d ++ " " ++ row_device_model d ++ "，状态 " ++ row_status d)%string
    ("[设备: " ++ row_device_id d ++ "]")%string true (literal 1 1) (literal 1 1)
    None None None None None None None None false
    [("device_type", JStr (row_device_type d)); ("device_model", JStr (row_device_model d));
     ("manufacturer", JStr (row_manufacturer d))].

Definition alarm_evidence (a : AlarmRow) : Evidence :=
  mkEvidence ("alarm:" ++ row_alarm_id a)%string "alarm" (row_alarm_id a)
    (row_alarm_name a ++ "，等级 " ++ row_alarm_level a)%string
    ("[告警: " ++ row_alarm_id a ++ "]")%string true (literal 1 1) (literal 1 1)
    None None None None None None None None false [].

Definition series_evidence (s : DiagnosisState) (dc : DeviceContext)
  (l : list (string * list (string * json))) : Evidence :=
  let rising := map fst (filter (fun m => dict_str "trend" (snd m) = Some "rising") l) in
  let names := str_join ", " rising in
  mkEvidence ("timeseries:" ++ dc_device_id dc ++ ":" ++ run_id s)%string "timeseries"
    (dc_device_id dc)
    ("上升指标: " ++ (if str_true names then names else "无") ++ "；统计摘要已裁剪")%string
    ("[时序: device=" ++ dc_device_id dc ++ ", window=" ++ run_id s ++ "]")%string
    true (literal 95 100) (literal 95 100) None None None None None None None None false
    [("metrics", JObj (map (fun m => (fst m, JObj (snd m))) l))].

Definition ranked_evidence_of (r : ToolResult ToolData) (row : RankedEvidence) : Evidence :=
  let chunk := if ostr_true (rk_chunk_id row) then rk_chunk_id row else None in
  mkEvidence
    (rk_source_type row ++ ":" ++ rk_source_id row
     ++ match chunk with Some c => ":" ++ c | None => "" end)%string
    (rk_source_type row) (rk_source_id row) (str_take 500 (rk_content_summary row))
    (rk_citation row)
    (match dict_get "verified" (rk_metadata row) with Some j => json_true j | None => false end)
    (rk_source_reliability row) (rk_relevance_to_alarm row)
    (Some (rk_retrieval_score row)) (Some (rk_source_reliability row))
    (Some (rk_verification_score row)) (Some (rk_freshness_score row))
    (Some (rk_relevance_to_alarm row)) (Some (rk_final_score row)) chunk
    (if ostr_true (rk_package_id row) then rk_package_id row else None) false
    (dict_merge [("retrieval_mode", jopt (retrieval_mode (meta r)))] (rk_metadata row)).

Definition ranked_of (o : option (ToolResult ToolData)) : list Evidence :=
  match o with
  | Some r => match data r with
              | Some (PackageData rows _) => map (ranked_evidence_of r) rows
              | _ => []
              end
  | None => []
  end.

Definition graph_reliability (support_count : Z) : float :=
  fmin (fadd (literal 60 100) (fmul (float_of_Z (Z.min support_count 2)) (literal 5 100)))
    (literal 70 100).

Definition graph_evidence (g : GraphRelation) : Evidence :=
  let arrow sep := (gr_alarm_name g ++ sep ++ gr_fault_cause g)%string in
  mkEvidence ("graph:" ++ arrow ":")%string "graph" (arrow "->")
    (arrow " 可能关联 " ++ "；部件 "
     ++ (if ostr_true (gr_component g) then or_empty (gr_component g) else "未知")
     ++ "；审核案例支撑 " ++ pretty (gr_support_count g))%string
    ("[图谱: " ++ arrow " -> " ++ "]")%string false
    (graph_reliability (gr_support_count g)) (literal 65 100)
    None (Some (graph_reliability (gr_support_count g))) None None None None None None true
    (dump_relation g).

Definition relations_of (o : option (ToolResult ToolData)) : list GraphRelation :=
  match o with
  | Some r => match data r with Some (RelationsData l) => l | _ => [] end
  | None => []
  end.

(** [list({item.evidence_id: item for item in evidence}.values())] *)
Definition dedup (l : list Evidence) : list Evidence :=
  map snd (fold_left (fun d e => dict_set (evidence_id e) e d) l []).

(** [agent/nodes/diagnosis.py:437-589 evidence_aggregator] *)
Definition evidence_aggregator (s : DiagnosisState) : N DiagnosisState :=
  run <- gets id ;;
  device <- match succeeded run "get_device_profile" with
            | Some r => d <- device_data r ;; e <- new_evidence (device_evidence d) ;; ret [e]
            | None => ret []
            end ;;
  alarm <- match succeeded run "get_alarm_detail" with
           | Some r => a <- alarm_data r ;; e <- new_evidence (alarm_evidence a) ;; ret [e]
           | None => ret []
           end ;;
  series <- match succeeded run "query_timeseries_window", device_context s with
            | Some r, Some dc =>
                l <- series_data r ;; e <- new_evidence (series_evidence s dc l) ;; ret [e]
            | _, _ => ret []
            end ;;
  ranked <- map_m new_evidence (ranked_of (succeeded run "search_manual_chunks")
                                ++ ranked_of (succeeded run "search_similar_tickets")) ;;
  let graph := succeeded run "query_graph_relations" in
  match graph with
  | Some r => match data r with
              | Some _ => _ <- assert_some (alarm_context s) ;; ret tt
              | None => ret tt
              end
  | None => ret tt
  end ;;;
  graph <- map_m new_evidence (map graph_evidence (take 2 (relations_of graph))) ;;
  let values := dedup (device ++ alarm ++ series ++ ranked ++ graph) in
  port (emit RETRIEVAL_COMPLETED s) ;;;
  ret (s <| phase := EVIDENCE_READY |> <| evidence := values |>
         <| evidence_refs := map evidence_id values |>).

(** [agent/nodes/diagnosis.py:591-602 gap_detector] *)
Definition gap_detector (s : DiagnosisState) : N DiagnosisState :=
  let types := map source_type (evidence s) in
  ret (s <| errors :=
    (if mem "device" types then [] else ["设备画像缺失"])
    ++ (if mem "alarm" types then [] else ["告警详情缺失"])
    ++ (if negb (mem "timeseries" types) && negb (list_true (user_feedback s))
        then ["关键时序不可用"] else [])
    ++ (if existsb (fun t => mem t types) ["manual"; "ticket"; "case"]
        then [] else ["手册和已审核工单证据缺失"]) |>).

(** ** Clarification *)

(** ["时序" in gap] *)
Definition about_series (gap : string) : bool := contains (chars "时序") (chars gap).

Definition gap_question (t : option DiagnosisTemplate) (p : Z * string) : ClarificationQuestion :=
  let text :=
    match t with
    | Some t =>
        if about_series (snd p) then
          default "" (clarification_rules t !!
            Nat.min (Z.to_nat (fst p - 1)) (length (clarification_rules t) - 1))
        else "请补充对应设备或现场检查信息。"
    | None => "请补充对应设备或现场检查信息。"
    end in
  mkQuestion ("gap_" ++ pretty (fst p))%string text (snd p) "text".

(** [agent/nodes/diagnosis.py:604-656 clarification_generator] *)
Definition clarification_generator (s : DiagnosisState) : N DiagnosisState :=
  t <- (if ostr_true (diagnosis_template_id s)
        then t <- lift_exn (get TEMPLATES (or_empty (diagnosis_template_id s))) ;; ret (Some t)
        else ret None) ;;
  let questions :=
    if list_true (clarification_questions s) then clarification_questions s
    else map (gap_question t) (enumerate (take 3 (errors s))) in
  let preserve := match t with Some _ => existsb about_series (errors s) | None => false end in
  questions <-
    (if has_model && list_true questions && negb (list_true (clarification_questions s))
        && negb preserve
     then enhanced <- port (generate_questions s questions) ;;
          ret (match enhanced with Some l => take 3 l | None => questions end)
     else ret questions) ;;
  port (emit EVENT_NEED_USER_INPUT s) ;;;
  match final_response s with Some _ => port (memory_writer s) | None => ret tt end ;;;
  ret (s <| phase := NEED_USER_INPUT |> <| clarification_questions := questions |>).

(** ** Answer *)

(** [agent/nodes/diagnosis.py:658-705 reason_generator] *)
Definition reason_generator (s : DiagnosisState) : N DiagnosisState :=
  tid <- assert_str (diagnosis_template_id s) ;;
  t <- lift_exn (get TEMPLATES tid) ;;
  let feedback := str_join " " (map fb_answer (user_feedback s)) in
  let causes := evaluate_candidate_rules t (evidence s) feedback in
  causes <-
    (if has_model && list_true causes
     then enhanced <- port (generate_causes s causes) ;;
          ret (match enhanced with Some l => take 4 l | None => causes end)
     else ret causes) ;;
  ret (s <| phase := DRAFT_READY |> <| candidate_causes := take 4 causes |>).

(** The actions the inspection steps of the template recommend. *)
Definition template_actions (t : DiagnosisTemplate) (evs : list Evidence)
  : list RecommendedAction :=
  map (fun p =>
    mkAction ("action-" ++ pretty (fst p))%string (snd p) (classify_action (snd p))
      (high_risk (classify_action (snd p)))
      (if high_risk (classify_action (snd p)) then Some "operator" else None)
      (map evidence_id (filter (fun e => source_type e ∉ ["graph"; "device"; "alarm"]) evs))
      NOT_EXECUTED)
    (enumerate (inspection_steps t)).

(** The answer the template gives for a state. *)
Definition template_response (t : DiagnosisTemplate) (s : DiagnosisState)
  : StructuredDiagnosisResult :=
  mkStructured
    (if list_true (candidate_causes s)
     then "已基于设备、告警、时序与知识证据形成候选诊断，需按顺序现场确认。"
     else "当前证据不足以形成候选根因，建议人工接管。")
    (candidate_causes s) (evidence s) (inspection_steps t) (safety_notes t)
    (sorted_set (concat (map cause_missing (candidate_causes s))))
    (negb (list_true (candidate_causes s)) || list_true (degraded_components s))
    MEDIUM (warnings s) (sorted_set (degraded_components s))
    (template_actions t (evidence s)) None.

(** [agent/nodes/diagnosis.py:707-782 response_generator] *)
Definition response_generator (s : DiagnosisState) : N DiagnosisState :=
  tid <- assert_str (diagnosis_template_id s) ;;
  t <- lift_exn (get TEMPLATES tid) ;;
  let result := template_response t s in
  result <-
    (if has_model
     then enhanced <- port (generate_response s result) ;;
          ret (default result enhanced)
     else ret result) ;;
  port (emit DRAFT_GENERATED s) ;;;
  ret (s <| final_response := Some result |>
         <| recommended_actions := template_actions t (evidence s) |>).

(** [agent/nodes/diagnosis.py:784-819 rule_checker] *)
Definition rule_checker (s : DiagnosisState) : N DiagnosisState :=
  let decision := Service.evaluate s None in
  let supported := Service.supported_candidates s in
  let response := Service.sanitize_response (default empty_response (final_response s))
                    decision supported in
  let decision :=
    if negb (length supported =? length (candidate_causes s))%nat
    then Service.evaluate s (Some supported) else decision in
  let decision :=
    if negb (list_true supported)
    then decision <| status := GUARD_NEED_USER_INPUT |>
                  <| violations ::= fun l => l ++ ["NO_VERIFIABLE_ROOT_CAUSE"] |>
    else decision in
  let response := response <| res_guardrail_decision := Some decision |> in
  let s' := s <| candidate_causes := supported |> <| guardrail_decision := Some decision |>
              <| final_response := Some response |> in
  match status decision with
  | BLOCKED | GUARD_NEED_USER_INPUT => ret (s' <| errors := errors s ++ violations decision |>)
  | _ => ret (s' <| phase := REVIEWING |>)
  end.

(** [agent/nodes/diagnosis.py:821-823 memory_writer_node] *)
Definition memory_writer_node (s : DiagnosisState) : N DiagnosisState :=
  port (memory_writer s) ;;; ret (s <| phase := COMPLETED |>).
End Nodes.
