(* ===== verification/Workflow.v ===== *)
(** * The diagnosis workflow

    [agent/workflow.py] and [agent/nodes/base.py]: the graph of the nodes, and
    what every run of it guarantees. *)

From S2P Require Import Prelude Errors Json Float Contracts AgentState Tools ToolData Text Regex.
From S2P Require Import Guardrails Templates Nodes.
Open Scope Z_scope.

(** [agent/nodes/diagnosis.py:825-842 nodes] *)
Inductive node : Type :=
| INTENT_ROUTER | ENTITY_PARSER | CLARIFICATION_APPLIER | PLAN_BUILDER | TOOL_DISPATCHER
| TIMESERIES_FETCHER | TICKET_FETCHER | DOC_RETRIEVER | GRAPH_FETCHER | EVIDENCE_AGGREGATOR
| GAP_DETECTOR | CLARIFICATION_GENERATOR | REASON_GENERATOR | RESPONSE_GENERATOR | RULE_CHECKER
| MEMORY_WRITER.

#[export] Instance node_eq_dec : EqDecision node.
Proof. solve_decision. Defined.

Definition node_name (n : node) : string :=
  match n with
  | INTENT_ROUTER => "intent_router" | ENTITY_PARSER => "entity_parser"
  | CLARIFICATION_APPLIER => "clarification_applier" | PLAN_BUILDER => "plan_builder"
  | TOOL_DISPATCHER => "tool_dispatcher" | TIMESERIES_FETCHER => "timeseries_fetcher"
  | TICKET_FETCHER => "ticket_fetcher" | DOC_RETRIEVER => "doc_retriever"
  | GRAPH_FETCHER => "graph_fetcher" | EVIDENCE_AGGREGATOR => "evidence_aggregator"
  | GAP_DETECTOR => "gap_detector" | CLARIFICATION_GENERATOR => "clarification_generator"
  | REASON_GENERATOR => "reason_generator" | RESPONSE_GENERATOR => "response_generator"
  | RULE_CHECKER => "rule_checker" | MEMORY_WRITER => "memory_writer"
  end.

(** The edges: the node after [n], which the state after [n] decides; [None] is END.
    [agent/workflow.py:22-91 build_diagnosis_graph] *)
Definition next (n : node) (s : DiagnosisState) : option node :=
  match n with
  | INTENT_ROUTER =>
      Some (if bool_decide (followup_mode s = Some "answer_clarification")
               && list_true (evidence s)
            then CLARIFICATION_APPLIER else ENTITY_PARSER)
  | CLARIFICATION_APPLIER => Some GAP_DETECTOR
  | ENTITY_PARSER =>
      Some (if bool_decide (phase s = NEED_USER_INPUT)
            then CLARIFICATION_GENERATOR else TOOL_DISPATCHER)
  | TOOL_DISPATCHER => Some PLAN_BUILDER
  | PLAN_BUILDER =>
      Some (if bool_decide (phase s = NEED_USER_INPUT) || list_true (errors s)
            then CLARIFICATION_GENERATOR else TIMESERIES_FETCHER)
  | TIMESERIES_FETCHER => Some TICKET_FETCHER
  | TICKET_FETCHER => Some DOC_RETRIEVER
  | DOC_RETRIEVER => Some GRAPH_FETCHER
  | GRAPH_FETCHER => Some EVIDENCE_AGGREGATOR
  | EVIDENCE_AGGREGATOR => Some GAP_DETECTOR
  | GAP_DETECTOR =>
      Some (if list_true (errors s) then CLARIFICATION_GENERATOR else REASON_GENERATOR)
  | CLARIFICATION_GENERATOR => None
  | REASON_GENERATOR => Some RESPONSE_GENERATOR
  | RESPONSE_GENERATOR => Some RULE_CHECKER
  | RULE_CHECKER =>
      Some (if list_true (errors s) then CLARIFICATION_GENERATOR else MEMORY_WRITER)
  | MEMORY_WRITER => None
  end.

Section Graph.
Context {W : Type} `{Unicode} `{R : Runtime W}.
Abbreviation N := (M (Run W) abort).

Definition node_body (n : node) : DiagnosisState -> N DiagnosisState :=
  match n with
  | INTENT_ROUTER => intent_router
  | ENTITY_PARSER => entity_parser
  | CLARIFICATION_APPLIER => clarification_applier
  | PLAN_BUILDER => plan_builder
  | TOOL_DISPATCHER => tool_dispatcher
  | TIMESERIES_FETCHER => timeseries_fetcher
  | TICKET_FETCHER => ticket_fetcher
  | DOC_RETRIEVER => doc_retriever
  | GRAPH_FETCHER => graph_fetcher
  | EVIDENCE_AGGREGATOR => evidence_aggregator
  | GAP_DETECTOR => gap_detector
  | CLARIFICATION_GENERATOR => clarification_generator
  | REASON_GENERATOR => reason_generator
  | RESPONSE_GENERATOR => response_generator
  | RULE_CHECKER => rule_checker
  | MEMORY_WRITER => memory_writer_node
  end.

(** A node with its step log: an exception is logged and raised again.
    [agent/nodes/base.py:32-82 traced_node] *)
Definition traced_node (n : node) (s : DiagnosisState) : N DiagnosisState :=
  s' <- except (node_body n s)
          (fun e => port (step_logger s (node_name n) (Raise e)) ;;; fail e) ;;
  port (step_logger s (node_name n) (Ok s')) ;;;
  ret s'.

(** The run of the graph from a node on; [None] is out of fuel.  LangGraph builds
    the state a node reads with the model of the state, so its validators run
    before every node. *)
Fixpoint run_from (fuel : nat) (n : node) (s : DiagnosisState) : N (option DiagnosisState) :=
  match fuel with
  | O => ret None
  | S fuel' =>
      s <- lift_exn (model_validate s) ;;
      s' <- traced_node n s ;;
      match next n s' with
      | None => ret (Some s')
      | Some n' => run_from fuel' n' s'
      end
  end.

(** The longest path has fourteen nodes ([ainvoke_enough_fuel]). *)
Definition ainvoke (s : DiagnosisState) : N (option DiagnosisState) :=
  run_from 14 INTENT_ROUTER s.

(** ** Termination *)

(** How many nodes may still run, this one included. *)
Definition height (n : node) : nat :=
  match n with
  | INTENT_ROUTER => 14 | ENTITY_PARSER => 13 | TOOL_DISPATCHER => 12 | PLAN_BUILDER => 11
  | TIMESERIES_FETCHER => 10 | TICKET_FETCHER => 9 | DOC_RETRIEVER => 8 | GRAPH_FETCHER => 7
  | EVIDENCE_AGGREGATOR => 6 | CLARIFICATION_APPLIER => 6 | GAP_DETECTOR => 5
  | REASON_GENERATOR => 4 | RESPONSE_GENERATOR => 3 | RULE_CHECKER => 2
  | CLARIFICATION_GENERATOR => 1 | MEMORY_WRITER => 1
  end.

Lemma next_height n s n' : next n s = Some n' -> (height n' < height n)%nat.
Proof. destruct n; simpl; intros [= <-]; repeat case_match; simpl; lia. Qed.

Lemma run_from_fuel fuel n s r r' o :
  (height n <= fuel)%nat -> run_from fuel n s r = (r', Ok o) -> o <> None.
Proof.
  revert n s r. induction fuel as [|fuel IH]; intros n s r Hh Hrun;
    [destruct n; simpl in Hh; lia|].
  cbn [run_from] in Hrun. apply bind_ok_inv in Hrun as (s0 & r0 & _ & Hrun).
  apply bind_ok_inv in Hrun as (s1 & r1 & _ & Hrun).
  destruct (next n s1) as [n'|] eqn:Hn; [|injection Hrun as _ <-; done].
  eapply IH; [|exact Hrun]. apply next_height in Hn. lia.
Qed.

(** ** Where a run ends *)

(** The last node of a run that returns, with the state it was given. *)
Lemma run_from_last fuel n s r r' s' :
  run_from fuel n s r = (r', Ok (Some s')) ->
  exists last s1 r1, (last = CLARIFICATION_GENERATOR \/ last = MEMORY_WRITER)
    /\ traced_node last s1 r1 = (r', Ok s').
Proof.
  revert n s r. induction fuel as [|fuel IH]; intros n s r Hrun; [done|].
  cbn [run_from] in Hrun. apply bind_ok_inv in Hrun as (s0 & r0 & _ & Hrun).
  apply bind_ok_inv in Hrun as (s1 & r1 & Ht & Hrun).
  destruct (next n s1) as [n'|] eqn:Hn; [by eapply IH|]. injection Hrun as -> ->.
  exists n, s0, r0. split; [destruct n; try done; auto|done].
Qed.

Lemma traced_body n s r r' s' :
  traced_node n s r = (r', Ok s') -> exists r1, node_body n s r = (r1, Ok s').
Proof.
  unfold traced_node. intros Ht. apply bind_ok_inv in Ht as (s1 & r1 & Hb & Ht).
  apply bind_ok_inv in Ht as (u & r2 & _ & [= -> ->]). unfold except, catch in Hb.
  destruct (node_body n s r) as [r3 [a|[e|]]]; [injection Hb as -> ->; by exists r1| |done].
  by apply bind_ok_inv in Hb as (? & ? & _ & ?).
Qed.

Lemma clarified s r r' s' :
  clarification_generator s r = (r', Ok s') ->
  phase s' = NEED_USER_INPUT /\ final_response s' = final_response s.
Proof.
  unfold clarification_generator. intros Hrun.
  repeat (apply bind_ok_inv in Hrun as (? & ? & _ & Hrun); cbv zeta in Hrun).
  unfold ret in Hrun. by injection Hrun as _ <-.
Qed.

(** C33: the workflow terminates: with a budget of fourteen nodes a run never stops
    half way, and a run that returns has either asked the user or completed. *)
Theorem ainvoke_terminates s r r' o :
  ainvoke s r = (r', Ok o) ->
  exists s', o = Some s' /\ (phase s' = NEED_USER_INPUT \/ phase s' = COMPLETED).
Proof.
  intros Hrun. destruct o as [s'|]; [|by eapply run_from_fuel in Hrun; [|simpl; lia]].
  exists s'. split; [done|].
  apply run_from_last in Hrun as (n & s1 & r1 & Hn & (r2 & Hb)%traced_body).
  destruct Hn as [->| ->]; [left; by destruct (clarified _ _ _ _ Hb)|right].
  simpl in Hb. by apply bind_ok_inv in Hb as (? & ? & _ & [= _ <-]).
Qed.

(** ** What a completed run has gone through *)

Lemma validated_same (s s0 : DiagnosisState) (r r0 : Run W) :
  lift_exn (model_validate s) r = (r0, Ok s0) -> s0 = s /\ r0 = r.
Proof. unfold model_validate. destruct (phase_requirements s); by intros [= -> ->]. Qed.

(** One node of a run, taken apart. *)
Lemma run_from_step fuel n s r r' s' :
  run_from fuel n s r = (r', Ok (Some s')) ->
  exists s1 r1 r2 fuel', node_body n s r = (r1, Ok s1)
    /\ match next n s1 with
       | None => s' = s1
       | Some n' => run_from fuel' n' s1 r2 = (r', Ok (Some s'))
       end.
Proof.
  destruct fuel as [|fuel]; [done|]. cbn [run_from]. intros Hrun.
  apply bind_ok_inv in Hrun as (s0 & r0 & [-> ->]%validated_same & Hrun).
  apply bind_ok_inv in Hrun as (s1 & r1 & Ht & Hrun). pose proof Ht as [r2 Hb]%traced_body.
  exists s1, r2, r1, fuel. split; [done|].
  destruct (next n s1) as [n'|]; [done|]. by injection Hrun as _ <-.
Qed.

(** A run that completes answers, checks the answer without finding an error, and
    writes it. *)
Lemma completed_path fuel n s r r' s' :
  run_from fuel n s r = (r', Ok (Some s')) -> phase s' = COMPLETED ->
  n <> RULE_CHECKER -> n <> MEMORY_WRITER ->
  exists (s0 s1 s2 : DiagnosisState) (r0 r1 r2 r3 r4 r5 : Run W),
    response_generator s0 r0 = (r1, Ok s1) /\ rule_checker s1 r2 = (r3, Ok s2)
    /\ errors s2 = [] /\ memory_writer_node s2 r4 = (r5, Ok s').
Proof.
  intros Hrun Hc. revert n s r Hrun. induction fuel as [|fuel IH]; intros n s r Hrun Hn1 Hn2; [done|].
  destruct (decide (n = CLARIFICATION_GENERATOR)) as [->|Hn3].
  { apply run_from_step in Hrun as (s1 & r1 & _ & _ & Hb & ->).
    destruct (clarified _ _ _ _ Hb). congruence. }
  destruct (decide (n = RESPONSE_GENERATOR)) as [->|Hn4].
  - apply run_from_step in Hrun as (s1 & r1 & r2 & f2 & H1 & Hrun). simpl in Hrun.
    apply run_from_step in Hrun as (s2 & r3 & r4 & f4 & H2 & Hrun). simpl in Hrun.
    destruct (list_true (errors s2)) eqn:He.
    + apply run_from_step in Hrun as (s3 & r5 & _ & _ & Hb & ->).
      destruct (clarified _ _ _ _ Hb). congruence.
    + apply run_from_step in Hrun as (s3 & r5 & _ & _ & Hb & ->).
      apply list_true_false in He. by exists s, s1, s2, r, r1, r2, r3, r4, r5.
  - cbn [run_from] in Hrun. apply bind_ok_inv in Hrun as (s0 & r0 & _ & Hrun).
    apply bind_ok_inv in Hrun as (s1 & r1 & _ & Hrun).
    destruct (next n s1) as [n'|] eqn:Hnext; [|by destruct n].
    eapply IH; [exact Hrun|..];
      (destruct n; simpl in Hnext; try done; injection Hnext as <-; by repeat case_match).
Qed.

(** What [rule_checker] establishes when it finds no error. *)
Lemma rule_checker_passes s (r r' : Run W) s' resp :
  rule_checker s r = (r', Ok s') -> errors s' = [] -> final_response s = Some resp ->
  let supported := Service.supported_candidates s in
  supported <> [] /\ candidate_causes s' = supported /\ evidence s' = evidence s
  /\ recommended_actions s' = recommended_actions s
  /\ strip (res_summary resp) <> ""
  /\ (forall a, a ∈ recommended_actions s ->
       safe_action (Service.source_by_ref (evidence s)) (res_safety_notes resp) a)
  /\ exists d, status d <> BLOCKED /\ final_response s'
       = Some ((Service.sanitize_response resp (Service.evaluate s None) supported)
               <| res_guardrail_decision := Some d |>).
Proof.
  intros Hrun He Hresp supported. unfold rule_checker in Hrun. cbv zeta in Hrun.
  fold supported in Hrun. rewrite Hresp in Hrun. simpl default in Hrun.
  set (d1 := if negb (length supported =? length (candidate_causes s))%nat
             then Service.evaluate s (Some supported) else Service.evaluate s None) in Hrun.
  assert (Hd1 : exists os, d1 = Service.evaluate s os) by (unfold d1; destruct (negb _); eauto).
  clearbody d1. destruct Hd1 as [os ->].
  destruct (list_true supported) eqn:Hs; cbn [negb] in Hrun.
  - destruct (status (Service.evaluate s os)) eqn:Hst; injection Hrun as _ <-; simpl in He.
    1, 2: assert (Hnb : status (Service.evaluate s os) <> BLOCKED) by congruence;
      destruct (evaluate_passes _ _ Hnb) as (_ & Hsum & Hact); rewrite Hresp in Hsum, Hact;
      split_and!; try done; [by intros Hn; rewrite Hn in Hs|by eexists].
    + by destruct (evaluate_never_asks s os).
    + apply app_nil in He as [_ Hv]. by destruct (evaluate_blocked s os).
  - injection Hrun as _ <-. simpl in He. by apply app_nil in He as [_ [_ ?]%app_nil].
Qed.

Lemma response_generated s r r' s' :
  response_generator s r = (r', Ok s') ->
  exists t resp, final_response s' = Some resp /\ candidate_causes s' = candidate_causes s
    /\ evidence s' = evidence s /\ recommended_actions s' = template_actions t (evidence s)
    /\ (has_model = false -> resp = template_response t s).
Proof.
  unfold response_generator. intros Hrun.
  apply bind_ok_inv in Hrun as (tid & r1 & _ & Hrun).
  apply bind_ok_inv in Hrun as (t & r2 & _ & Hrun). cbv zeta in Hrun.
  apply bind_ok_inv in Hrun as (resp & r3 & Hresp & Hrun).
  apply bind_ok_inv in Hrun as (u & r4 & _ & Hrun). injection Hrun as _ <-.
  exists t, resp. split_and!; [done..|]. intros Hm. rewrite Hm in Hresp. by injection Hresp.
Qed.

End Graph.
