(* ===== verification/WorkflowFrame.v ===== *)
(** * What a run keeps, whatever its runtime

    Every node leaves the identity of the run alone, and only the memory writer
    completes it; a relation every operation of the runtime respects is
    respected by a whole run. *)

From S2P Require Import Prelude Errors Json Float Contracts AgentState Tools ToolData Text Regex.
From S2P Require Import Guardrails Templates Nodes Workflow.
Open Scope Z_scope.

(** The fields no node changes. *)
Definition same_run (s s' : DiagnosisState) : Prop :=
  session_id s' = session_id s /\ run_id s' = run_id s /\ trace_id s' = trace_id s
  /\ user_feedback s' = user_feedback s /\ memory_revision s' = memory_revision s
  /\ source s' = source s /\ user_message s' = user_message s.

#[export] Instance same_run_preorder : PreOrder same_run.
Proof.
  split; unfold same_run; [by repeat split|]. intros s1 s2 s3 H1 H2.
  destruct H1 as (?&?&?&?&?&?&?), H2 as (?&?&?&?&?&?&?). by repeat split; etransitivity.
Qed.

(** A node keeps the run, and its phase becomes COMPLETED in the memory writer only. *)
Definition node_keeps (n : node) (s s' : DiagnosisState) : Prop :=
  same_run s s' /\ (phase s' = COMPLETED -> n = MEMORY_WRITER \/ phase s = COMPLETED).

Section Frame.
Context {W : Type} `{Unicode} `{RT : Runtime W}.
Abbreviation N := (M (Run W) abort).

Lemma yields_lift {A} (Q : A -> Prop) (o : outcome exn A) :
  (forall a, o = Ok a -> Q a) -> yields Q (lift_exn (W := W) o).
Proof. destruct o; intros HQ; [apply yields_ret; auto|apply yields_raise]. Qed.

(** The states a computation can return, along its structure. *)
Ltac yield :=
  repeat lazymatch goal with
    | |- yields _ (let _ := _ in _) => cbv zeta
    | |- yields _ (bind _ _) => apply yields_bind; intros
    | |- yields _ (fail _) => apply yields_raise
    | |- yields _ (ret _) => apply yields_ret
    | |- yields _ (match ?x with _ => _ end) => destruct x eqn:?
    | |- node_keeps _ _ _ => split; [by repeat split|simpl; intros; auto; discriminate]
    end.

Lemma node_body_keeps n s : yields (node_keeps n s) (node_body n s).
Proof.
  destruct n; cbn [node_body].
  - unfold intent_router. yield.
  - unfold entity_parser. yield.
  - unfold clarification_applier. yield.
  - unfold plan_builder. yield.
  - unfold tool_dispatcher. do 6 (apply yields_bind; intros). cbv zeta.
    apply (yields_bind_post (node_keeps TOOL_DISPATCHER s)); [|intros s' Hs']; yield.
    all: by destruct Hs' as [Hr Hp]; split; [by repeat split; apply Hr|].
  - unfold timeseries_fetcher. yield.
  - unfold ticket_fetcher. yield.
  - unfold doc_retriever. yield.
  - unfold graph_fetcher. yield.
  - unfold evidence_aggregator. yield.
  - unfold gap_detector. yield.
  - unfold clarification_generator. yield.
  - unfold reason_generator. yield.
  - unfold response_generator. yield.
  - unfold rule_checker. yield.
  - unfold memory_writer_node. yield.
Qed.

Lemma traced_keeps n s : yields (node_keeps n s) (traced_node n s).
Proof. intros r r' s' [r1 Hb]%traced_body. by eapply node_body_keeps. Qed.

(** ** Framing *)

Context (R : W -> W -> Prop) `{!PreOrder R}.

Definition framed (r r' : Run W) : Prop := R (env r) (env r').
#[export] Instance framed_preorder : PreOrder framed.
Proof. split; unfold framed; [by intros r|]. intros r1 r2 r3. apply transitivity. Qed.

Lemma framed_port {A} (m : M W abort A) : respects R m -> respects framed (port m).
Proof.
  intros Hm r. unfold framed, port. specialize (Hm (env r)).
  by destruct (m (env r)) as [e o].
Qed.

(** What is asked of the runtime, for the states of one run. *)
Record runtime_frame (s0 : DiagnosisState) : Prop := {
  frame_tool name i t : respects R (run_tool name i t);
  frame_emit ev s : same_run s0 s -> respects R (emit ev s);
  frame_questions s l : respects R (generate_questions s l);
  frame_causes s l : respects R (generate_causes s l);
  frame_response s a : respects R (generate_response s a);
  frame_writer s : same_run s0 s -> respects R (memory_writer s);
  frame_now : respects R utc_now;
}.

Lemma framed_fail {A} e : respects framed (fail (A := A) e).
Proof. intros r. unfold framed. reflexivity. Qed.
Lemma framed_lift {A} (o : outcome exn A) : respects framed (lift_exn o).
Proof. destruct o; [apply respects_ret, _|apply framed_fail]. Qed.
Lemma framed_some {A} (o : option A) : respects framed (assert_some o).
Proof. destruct o; [apply respects_ret, _|apply framed_fail]. Qed.
Lemma framed_str o : respects framed (assert_str o).
Proof. unfold assert_str. repeat case_match; try apply framed_fail; apply respects_ret, _. Qed.
Lemma framed_data (f : gmap string (ToolResult ToolData) -> gmap string (ToolResult ToolData)) :
  respects framed (modify (E := abort) (fun run => mkRun (f (tool_data run)) (env run))).
Proof. intros r. unfold framed. reflexivity. Qed.
Lemma framed_evidence e : respects framed (new_evidence e).
Proof. unfold new_evidence. case_match; [apply respects_ret, _|apply framed_fail]. Qed.

Section Node.
Context (s : DiagnosisState) (F : runtime_frame s).

Lemma framed_fetch name i : respects framed (fetch s name i).
Proof.
  unfold fetch. apply respects_bind; [apply _|by apply framed_port, F|]. intros r.
  apply respects_bind; [apply _|apply (framed_data (insert name r))|].
  intros u. apply respects_ret, _.
Qed.

Ltac frame :=
  cbv zeta;
  repeat lazymatch goal with
    | |- respects _ (bind _ _) => apply respects_bind; [apply _| |intros ?; cbv zeta]
    | |- respects _ (ret _) => apply respects_ret, _
    | |- respects _ (fail _) => apply framed_fail
    | |- respects _ (gets _) => apply respects_gets, _
    | |- respects _ (lift_exn _) => apply framed_lift
    | |- respects _ (assert_some _) => apply framed_some
    | |- respects _ (assert_str _) => apply framed_str
    | |- respects _ (new_evidence _) => apply framed_evidence
    | |- respects _ (fetch _ _ _) => apply framed_fetch
    | |- respects _ (map_m _ _) => apply respects_map_m; [apply _|intros]
    | |- respects _ (modify _) =>
        apply (framed_data (fun m => <["get_alarm_detail" := _]> (<["get_device_profile" := _]> m)))
    | |- respects framed (port _) => apply framed_port, F
    | |- respects _ (match ?x with _ => _ end) => destruct x eqn:?
    | |- same_run _ _ => reflexivity
    end.

Lemma node_body_framed n : respects framed (node_body n s).
Proof.
  destruct n; cbn [node_body].
  - unfold intent_router. frame.
  - unfold entity_parser. frame.
  - unfold clarification_applier. frame.
  - unfold plan_builder. frame.
  - unfold tool_dispatcher, device_data, alarm_data. frame.
  - unfold timeseries_fetcher. frame.
  - unfold ticket_fetcher. frame.
  - unfold doc_retriever. frame.
  - unfold graph_fetcher. frame.
  - unfold evidence_aggregator, device_data, alarm_data, series_data. frame.
  - unfold gap_detector. frame.
  - unfold clarification_generator. frame.
  - unfold reason_generator. frame.
  - unfold response_generator. frame.
  - unfold rule_checker. frame.
  - unfold memory_writer_node. frame.
Qed.
End Node.
End Frame.

(** ** Whole runs *)

Section Runs.
Context {W : Type} `{Unicode} `{RT : Runtime W} (R : W -> W -> Prop) `{!PreOrder R}.

(** A node with its step log. *)
Lemma traced_framed n s :
  runtime_frame R s ->
  (forall o, (forall s', o = Ok s' -> node_keeps n s s') ->
     respects R (step_logger s (node_name n) o)) ->
  respects (framed R) (traced_node n s).
Proof.
  intros F Hlog r. unfold traced_node, bind, except, catch.
  pose proof (node_body_framed R s F n r) as Hb. pose proof (node_body_keeps n s r) as Hk.
  destruct (node_body n s r) as [r1 [s1|[e|]]]; simpl in Hb |- *; [| |done].
  - specialize (Hk _ _ eq_refl).
    pose proof (framed_port R _ (Hlog (Ok s1) ltac:(by intros ? [= <-])) r1) as Hl.
    destruct (port _ r1) as [r2 [u|a]]; simpl in *; by etransitivity.
  - pose proof (framed_port R _ (Hlog (Raise e) ltac:(done)) r1) as Hl.
    destruct (port _ r1) as [r2 [u|a]]; simpl in *; by etransitivity.
Qed.

(** A run respects what its nodes respect; before the last node the run is not
    completed. *)
Lemma run_from_framed s0 fuel n s :
  (forall n s, same_run s0 s -> phase s <> COMPLETED -> respects (framed R) (traced_node n s)) ->
  same_run s0 s -> phase s <> COMPLETED ->
  respects (framed R) (run_from fuel n s).
Proof.
  intros Hn. revert n s. induction fuel as [|fuel IH]; intros n s Hs Hp; cbn [run_from];
    [apply respects_ret, _|].
  intros r. unfold bind at 1. destruct (lift_exn (model_validate s) r) as [r0 [s1|a]] eqn:Hv.
  - apply validated_same in Hv as [-> ->].
    unfold bind. pose proof (Hn n s Hs Hp r) as Ht. pose proof (traced_keeps n s r) as Hk.
    destruct (traced_node n s r) as [r1 [s1|a]]; simpl in Ht |- *; [|done].
    destruct (Hk _ _ eq_refl) as [Hs1 Hp1].
    destruct (next n s1) as [n'|] eqn:Hnext; [|done].
    etransitivity; [exact Ht|]. apply IH; [by etransitivity|].
    intros Hc. destruct (Hp1 Hc) as [->|]; done.
  - unfold model_validate in Hv. destruct (phase_requirements s); [done|].
    by injection Hv as <- _.
Qed.

Lemma run_from_same fuel n s r r' s' :
  run_from fuel n s r = (r', Ok (Some s')) -> same_run s s'.
Proof.
  revert n s r. induction fuel as [|fuel IH]; intros n s r Hrun; [done|].
  cbn [run_from] in Hrun. apply bind_ok_inv in Hrun as (s0 & r0 & [-> ->]%validated_same & Hrun).
  apply bind_ok_inv in Hrun as (s1 & r1 & [Hs _]%traced_keeps & Hrun).
  destruct (next n s1) as [n'|]; [|by injection Hrun as _ <-].
  etransitivity; [exact Hs|]. by eapply IH.
Qed.

(** A run that returns has logged its last state. *)
Lemma run_from_logged fuel n s r r' s' :
  run_from fuel n s r = (r', Ok (Some s')) ->
  exists s1 n1 e e', same_run s s1 /\ step_logger s1 (node_name n1) (Ok s') e = (e', Ok tt)
    /\ env r' = e'.
Proof.
  revert n s r. induction fuel as [|fuel IH]; intros n s r Hrun; [done|].
  cbn [run_from] in Hrun. apply bind_ok_inv in Hrun as (s0 & r0 & [-> ->]%validated_same & Hrun).
  apply bind_ok_inv in Hrun as (s1 & r1 & Ht & Hrun). pose proof Ht as [Hs _]%traced_keeps.
  destruct (next n s1) as [n'|].
  { apply IH in Hrun as (s2 & n2 & e & e' & Hs2 & Hl & He).
    exists s2, n2, e, e'. split_and!; [by etransitivity|done|done]. }
  injection Hrun as <- <-. unfold traced_node in Ht.
  apply bind_ok_inv in Ht as (s2 & r2 & _ & Ht). apply bind_ok_inv in Ht as ([] & r3 & Hl & Ht).
  injection Ht as -> ->. unfold port in Hl.
  destruct (step_logger s (node_name n) (Ok s1) (env r2)) as [e o] eqn:E.
  injection Hl as <- ->. by exists s, n, (env r2), e.
Qed.
End Runs.

(** ** The tool calls of a run

    What a run of the workflow asks of the tools, proved against the interface
    [CountedRuntime]: any runtime that counts its tool calls. *)

(** A runtime that counts the tool calls it was asked for; its other operations
    make none. *)
Class CountedRuntime (W : Type) `{R : Runtime W} := mkCounted {
  tool_calls : W -> Z;
  run_tool_counts name i t e : tool_calls (fst (run_tool name i t e)) = tool_calls e + 1;
  emit_counts ev s e : tool_calls (fst (emit ev s e)) = tool_calls e;
  questions_count s l e : tool_calls (fst (generate_questions s l e)) = tool_calls e;
  causes_count s l e : tool_calls (fst (generate_causes s l e)) = tool_calls e;
  response_counts s a e : tool_calls (fst (generate_response s a e)) = tool_calls e;
  writer_counts s e : tool_calls (fst (memory_writer s e)) = tool_calls e;
  logger_counts s n o e : tool_calls (fst (step_logger s n o e)) = tool_calls e;
  now_counts e : tool_calls (fst (utc_now e)) = tool_calls e;
}.

Section Counting.
Context {W : Type} `{Unicode} `{CW : CountedRuntime W}.
Abbreviation N := (M (Run W) abort).

Definition count (r : Run W) : Z := tool_calls (env r).

(** At most [k] tool calls, however the computation ends. *)
Definition calls_at_most {A} (k : Z) (m : N A) : Prop :=
  forall r, count r <= count (fst (m r)) <= count r + k.

Lemma at_most_weaken {A} k l (m : N A) : k <= l -> calls_at_most k m -> calls_at_most l m.
Proof. intros Hkl Hm r. specialize (Hm r). lia. Qed.

Lemma at_most_bind {A B} k l (m : N A) (f : A -> N B) :
  0 <= l -> calls_at_most k m -> (forall a, calls_at_most l (f a)) ->
  calls_at_most (k + l) (bind m f).
Proof.
  intros Hl Hm Hf r. specialize (Hm r). unfold bind. destruct (m r) as [r1 [a|e]]; simpl in *.
  - specialize (Hf a r1). lia.
  - lia.
Qed.

Lemma at_most_bind0 {A B} k (m : N A) (f : A -> N B) :
  0 <= k -> calls_at_most 0 m -> (forall a, calls_at_most k (f a)) -> calls_at_most k (bind m f).
Proof. intros Hk. by apply (at_most_bind 0 k). Qed.

Lemma at_most_ret {A} (a : A) : calls_at_most 0 (ret a).
Proof. intros r. simpl. lia. Qed.
Lemma at_most_fail {A} e : calls_at_most 0 (fail (A := A) e).
Proof. intros r. simpl. lia. Qed.
Lemma at_most_gets {A} (f : Run W -> A) : calls_at_most 0 (gets f).
Proof. intros r. simpl. lia. Qed.
Lemma at_most_lift {A} (o : outcome exn A) : calls_at_most 0 (lift_exn (W := W) o).
Proof. destruct o; [apply at_most_ret|apply at_most_fail]. Qed.
Lemma at_most_some {A} (o : option A) : calls_at_most 0 (assert_some o).
Proof. destruct o; [apply at_most_ret|apply at_most_fail]. Qed.
Lemma at_most_str o : calls_at_most 0 (assert_str o).
Proof. unfold assert_str. repeat case_match; auto using at_most_ret, at_most_fail. Qed.

Lemma at_most_port {A} k (m : M W abort A) :
  0 <= k -> (forall e, tool_calls (fst (m e)) = tool_calls e + k) -> calls_at_most k (port m).
Proof.
  intros Hk Hm r. unfold count, port. specialize (Hm (env r)).
  destruct (m (env r)) as [e o]. simpl in *. lia.
Qed.
Lemma at_most_quiet {A} (m : M W abort A) :
  (forall e, tool_calls (fst (m e)) = tool_calls e) -> calls_at_most 0 (port m).
Proof. intros Hm. apply at_most_port; [lia|]. intros e. rewrite Hm. lia. Qed.

Lemma at_most_tool name i t : calls_at_most 1 (port (run_tool name i t)).
Proof. apply at_most_port; [lia|]. intros e. apply run_tool_counts. Qed.

Lemma at_most_fetch s name i : calls_at_most 1 (fetch s name i).
Proof.
  apply (at_most_bind 1 0); [lia|apply at_most_tool|]. intros r.
  apply at_most_bind0; [lia| |intros; apply at_most_ret]. intros run. unfold count. simpl. lia.
Qed.

Lemma at_most_map_m {A B} (f : A -> N B) l :
  (forall a, calls_at_most 0 (f a)) -> calls_at_most 0 (map_m f l).
Proof.
  intros Hf. induction l as [|x l IH]; simpl; [apply at_most_ret|].
  apply at_most_bind0; [lia|done|]. intros y. apply at_most_bind0; [lia|done|].
  intros ys. apply at_most_ret.
Qed.

Lemma at_most_evidence e : calls_at_most 0 (new_evidence (W := W) e).
Proof. unfold new_evidence. case_match; [apply at_most_ret|apply at_most_fail]. Qed.

(** Computations without tool calls, along their structure. *)
Ltac no_calls :=
  cbv zeta;
  repeat lazymatch goal with
    | |- calls_at_most _ (bind _ _) => apply at_most_bind0; [lia| |intros; cbv zeta]
    | |- calls_at_most _ (ret _) => apply at_most_ret
    | |- calls_at_most _ (fail _) => apply at_most_fail
    | |- calls_at_most _ (gets _) => apply at_most_gets
    | |- calls_at_most _ (lift_exn _) => apply at_most_lift
    | |- calls_at_most _ (assert_some _) => apply at_most_some
    | |- calls_at_most _ (assert_str _) => apply at_most_str
    | |- calls_at_most _ (new_evidence _) => apply at_most_evidence
    | |- calls_at_most _ (map_m _ _) => apply at_most_map_m; intros
    | |- calls_at_most _ (port _) => apply at_most_quiet; intros
    | |- tool_calls (fst (emit _ _ _)) = _ => apply emit_counts
    | |- tool_calls (fst (generate_questions _ _ _)) = _ => apply questions_count
    | |- tool_calls (fst (generate_causes _ _ _)) = _ => apply causes_count
    | |- tool_calls (fst (generate_response _ _ _)) = _ => apply response_counts
    | |- tool_calls (fst (memory_writer _ _)) = _ => apply writer_counts
    | |- tool_calls (fst (step_logger _ _ _ _)) = _ => apply logger_counts
    | |- tool_calls (fst (utc_now _)) = _ => apply now_counts
    | |- calls_at_most _ (match ?x with _ => _ end) => destruct x eqn:?
    end.

(** The tool calls each node makes, and the most a run can still make from it. *)
Definition node_calls (n : node) : Z :=
  match n with
  | TOOL_DISPATCHER => 2
  | TIMESERIES_FETCHER | TICKET_FETCHER | DOC_RETRIEVER | GRAPH_FETCHER => 1
  | _ => 0
  end.
Definition calls_ahead (n : node) : Z :=
  match n with
  | INTENT_ROUTER | ENTITY_PARSER | TOOL_DISPATCHER => 6
  | PLAN_BUILDER | TIMESERIES_FETCHER => 4
  | TICKET_FETCHER => 3
  | DOC_RETRIEVER => 2
  | GRAPH_FETCHER => 1
  | _ => 0
  end.

Lemma calls_ahead_next n s n' : next n s = Some n' -> node_calls n + calls_ahead n' <= calls_ahead n.
Proof. destruct n; simpl; intros [= <-]; repeat case_match; simpl; lia. Qed.

Lemma calls_ahead_bound n : node_calls n <= calls_ahead n /\ 0 <= node_calls n.
Proof. by destruct n. Qed.

Lemma dispatcher_calls s : calls_at_most 2 (tool_dispatcher s).
Proof.
  unfold tool_dispatcher. do 3 (apply at_most_bind0; [lia|no_calls|intros]).
  apply (at_most_bind 1 1); [lia|apply at_most_tool|intros device].
  apply (at_most_bind 1 0); [lia|apply at_most_tool|intros alarm].
  apply at_most_bind0; [lia|intros run; unfold count; simpl; lia|intros u].
  unfold device_data, alarm_data. no_calls.
Qed.

Ltac one_fetch :=
  repeat lazymatch goal with
    | |- calls_at_most _ (bind (fetch _ _ _) _) => fail
    | |- calls_at_most _ (bind _ _) => apply at_most_bind0; [lia|no_calls|intros; cbv zeta]
    end;
  apply (at_most_bind 1 0); [lia|apply at_most_fetch|intros; apply at_most_ret].

Lemma node_body_calls n s : calls_at_most (node_calls n) (node_body n s).
Proof.
  destruct n; cbn [node_body node_calls]; try apply dispatcher_calls.
  - unfold intent_router. no_calls.
  - unfold entity_parser. no_calls.
  - unfold clarification_applier. no_calls.
  - unfold plan_builder. no_calls.
  - unfold timeseries_fetcher. one_fetch.
  - unfold ticket_fetcher. one_fetch.
  - unfold doc_retriever. one_fetch.
  - unfold graph_fetcher. one_fetch.
  - unfold evidence_aggregator, device_data, alarm_data, series_data. no_calls.
  - unfold gap_detector. no_calls.
  - unfold clarification_generator. no_calls.
  - unfold reason_generator. no_calls.
  - unfold response_generator. no_calls.
  - unfold rule_checker. no_calls.
  - unfold memory_writer_node. no_calls.
Qed.

Lemma at_most_except {A} k (m : N A) h :
  0 <= k -> calls_at_most k m -> (forall e, calls_at_most 0 (h e)) -> calls_at_most k (except m h).
Proof.
  intros Hk Hm Hh r. specialize (Hm r). unfold except, catch.
  destruct (m r) as [r1 [a|[e|]]]; simpl in *; [done| |done]. specialize (Hh e r1). lia.
Qed.

Lemma traced_calls n s : calls_at_most (node_calls n) (traced_node n s).
Proof.
  destruct (calls_ahead_bound n) as [_ Hn]. unfold traced_node.
  replace (node_calls n) with (node_calls n + 0) by lia. apply at_most_bind; [lia| |].
  - apply at_most_except; [lia|apply node_body_calls|]. intros e. no_calls.
  - intros s'. no_calls.
Qed.

Lemma run_from_calls fuel n s : calls_at_most (calls_ahead n) (run_from fuel n s).
Proof.
  revert n s. induction fuel as [|fuel IH]; intros n s; cbn [run_from].
  - destruct (calls_ahead_bound n). eapply at_most_weaken, at_most_ret. lia.
  - destruct (calls_ahead_bound n). apply at_most_bind0; [lia|apply at_most_lift|intros s0].
    apply (at_most_weaken (node_calls n + (calls_ahead n - node_calls n))); [lia|].
    apply at_most_bind; [lia|apply traced_calls|]. intros s1. destruct (next n s1) as [n'|] eqn:Hn.
    + apply calls_ahead_next in Hn. eapply at_most_weaken, IH. lia.
    + eapply at_most_weaken, at_most_ret. lia.
Qed.

(** a run of the workflow makes six tool calls at most, however it ends:
    two of the eight calls the budget allows are never used. *)
Theorem six_tool_calls s r :
  count (fst (ainvoke s r)) <= count r + 6 /\ 6 < MAX_TOOL_CALLS_PER_RUN.
Proof.
  split; [|done]. pose proof (run_from_calls 14 INTENT_ROUTER s r) as Hc.
  unfold ainvoke. simpl calls_ahead in Hc. lia.
Qed.

(** From the node that asks the user no tool is called. *)
Lemma clarifying_calls fuel s r : count (fst (run_from fuel CLARIFICATION_GENERATOR s r)) = count r.
Proof. pose proof (run_from_calls fuel CLARIFICATION_GENERATOR s r) as Hc. simpl in Hc. lia. Qed.

Lemma run_from_inv fuel n s (r r' : Run W) s' :
  run_from (S fuel) n s r = (r', Ok (Some s')) ->
  exists s1 r1, count r <= count r1 <= count r + node_calls n
    /\ (exists r2, node_body n s r = (r2, Ok s1))
    /\ match next n s1 with
       | None => r' = r1 /\ s' = s1
       | Some n' => run_from fuel n' s1 r1 = (r', Ok (Some s'))
       end.
Proof.
  cbn [run_from]. intros Hrun.
  apply bind_ok_inv in Hrun as (s0 & r0 & [-> ->]%validated_same & Hrun).
  apply bind_ok_inv in Hrun as (s1 & r1 & Ht & Hrun).
  pose proof (traced_calls n s r) as Hc. rewrite Ht in Hc. simpl in Hc.
  exists s1, r1. split_and!; [lia|lia|by eapply traced_body|].
  destruct (next n s1); [done|]. by injection Hrun as -> ->.
Qed.

Lemma clarified_keeps s (r r' : Run W) s' :
  list_true (clarification_questions s) = true -> clarification_generator s r = (r', Ok s') ->
  clarification_questions s' = clarification_questions s.
Proof.
  unfold clarification_generator. intros Hq Hrun. rewrite Hq in Hrun.
  apply bind_ok_inv in Hrun as (t & r1 & _ & Hrun). cbv zeta in Hrun.
  rewrite Hq, andb_false_r in Hrun. simpl in Hrun.
  apply bind_ok_inv in Hrun as (? & ? & [= <- <-] & Hrun).
  repeat (apply bind_ok_inv in Hrun as (? & ? & _ & Hrun)). by injection Hrun as _ <-.
Qed.

(** a message the input guardrail blocks reaches no tool: the run ends by
    asking the user to leave the commands out. *)
Theorem blocked_input_reaches_no_tool s r r' s' :
  status (Service.check_state_input s) = BLOCKED ->
  followup_mode s <> Some "answer_clarification"%string ->
  ainvoke s r = (r', Ok (Some s')) ->
  count r' = count r /\ phase s' = NEED_USER_INPUT
  /\ map question_id (clarification_questions s') = ["guardrail_input"%string].
Proof.
  intros Hb Hf Hrun. unfold ainvoke in Hrun.
  apply run_from_inv in Hrun as (s1 & r1 & Hc1 & (r2 & Hi) & Hrun).
  apply bind_ok_inv in Hi as (u & r3 & _ & [= _ <-]). cbn [next] in Hrun.
  rewrite (bool_decide_eq_false_2 (_ = Some "answer_clarification"%string)) in Hrun by done.
  cbn [andb] in Hrun. apply run_from_inv in Hrun as (s2 & r4 & Hc2 & (r5 & He) & Hrun).
  cbn [node_body] in He. unfold entity_parser in He.
  replace (Service.check_state_input _) with (Service.check_state_input s) in He by done.
  cbv zeta in He. rewrite (bool_decide_eq_true_2 _ Hb) in He. injection He as _ <-.
  cbn [next] in Hrun. rewrite bool_decide_eq_true_2 in Hrun by done.
  apply run_from_inv in Hrun as (s3 & r6 & Hc3 & (r7 & Hg) & -> & ->).
  cbn [node_calls] in *. split; [lia|]. cbn [node_body] in Hg.
  destruct (clarified _ _ _ _ Hg) as [Hp _]. split; [done|].
  apply clarified_keeps in Hg as ->; done.
Qed.
End Counting.
