(* ===== verification/DiagnosisRuns.v ===== *)
(** * Runs of the workflow with the tool executor

    [bootstrap/diagnosis_runtime.py]: the runtime of a run, made of the tool
    executor over the registered read tools, a model that may be absent, and the
    callbacks of the execution service; and concrete runs, some with an outcome
    the code does not intend. *)

From S2P Require Import Prelude Errors Breaker Json Float Contracts AgentState Tools ToolData.
From S2P Require Import Text Regex Guardrails Templates Nodes Workflow WorkflowFrame.
Open Scope Z_scope.

(** What the model answers, when there is one. *)
Record ModelAnswers := mkModel {
  model_questions : DiagnosisState -> list ClarificationQuestion ->
    option (list ClarificationQuestion);
  model_causes : DiagnosisState -> list CandidateCause -> option (list CandidateCause);
  model_response : DiagnosisState -> StructuredDiagnosisResult -> option StructuredDiagnosisResult;
}.

(** The executor of the run, and what its callbacks have seen. *)
Record RunEnv := mkEnv {
  executor : ToolExecutor ToolInput ToolData;
  emitted : list SSEEventType;
  written : list DiagnosisState;
  steps : list (string * outcome exn DiagnosisState);
}.
#[export] Instance RunEnv_eta : Eta RunEnv := fun e =>
  mkEnv (executor e) (emitted e) (written e) (steps e).

Section App.
Context `{TW : ToolWorld ToolInput ToolData} (model : option ModelAnswers).
Abbreviation E := (M RunEnv abort).

Definition on_executor {A} (m : M (ToolExecutor ToolInput ToolData) abort A) : E A := fun e =>
  let (x, o) := m (executor e) in (e <| executor := x |>, o).
Definition ask_model {A} (f : ModelAnswers -> option A) : E (option A) := ret (model ≫= f).

(** [bootstrap/diagnosis_runtime.py:26-50 DefaultDiagnosisRuntimeFactory.create] *)
Definition app_runtime : Runtime RunEnv := {|
  tool_names := map fst (map_to_list read_tools);
  run_tool name i t := on_executor (execute name i t);
  emit ev _ := modify (fun e => e <| emitted ::= fun l => l ++ [ev] |>);
  has_model := match model with Some _ => true | None => false end;
  generate_questions s l := ask_model (fun m => model_questions m s l);
  generate_causes s l := ask_model (fun m => model_causes m s l);
  generate_response s a := ask_model (fun m => model_response m s a);
  memory_writer s := modify (fun e => e <| written ::= fun l => l ++ [s] |>);
  step_logger _ name o := modify (fun e => e <| steps ::= fun l => l ++ [(name, o)] |>);
  utc_now := on_executor monotonic;
|}.

#[export] Instance app_counted : @CountedRuntime RunEnv app_runtime.
Proof.
  refine (@mkCounted _ app_runtime (fun e => calls (executor e)) _ _ _ _ _ _ _ _); try done.
  intros name i t e. cbn [run_tool app_runtime]. unfold on_executor.
  pose proof (execute_spends name i t (executor e)) as (Hc & _).
  destruct (execute name i t (executor e)) as [x o]. simpl in *. done.
Defined.

(** A run of the graph with an executor of its own that shares the breakers. *)
Definition fresh_run (bs : option (gmap string CircuitBreaker)) : Run RunEnv :=
  mkRun ∅ (mkEnv (new_executor read_tools bs) [] [] []).
Definition diagnose_with `{Unicode} (bs : option (gmap string CircuitBreaker)) (s : DiagnosisState)
  : Run RunEnv * outcome abort (option DiagnosisState) :=
  @ainvoke RunEnv _ app_runtime s (fresh_run bs).
End App.

(** ** A plant with one cabinet *)

Module Demo.

Definition meta (n : string) : ToolMeta := mkMeta "t" n "real" false 0 1 false (Some "hybrid").
Definition ok (d : ToolData) : outcome abort (ToolResult ToolData) :=
  Ok (mkToolResult true TOOL_OK (Some d) (meta "demo") "" "" []).
Definition missing : outcome abort (ToolResult ToolData) :=
  Ok (mkToolResult false NOT_FOUND None (meta "demo") "NOT_FOUND" "No matching data" []).

Definition cabinet : DeviceRow := mkDeviceRow "PCS-001" "S1" "PCS" "PCS-500" "ACME" "running".
Definition fan_alarm : AlarmRow := mkAlarmRow "ALARM-001" "风扇故障" "high" 3600000000.
Definition manual_row : RankedEvidence :=
  mkRanked "manual" "M1" (Some "C1") "检查风扇供电与转速" "[手册: M1]" [("verified", JBool true)]
    (literal 9 10) (literal 1 1) (literal 6 10) (literal 8 10) (literal 7 10) (literal 8 10) None.

(** [with_series]: whether the time series are available; [with_manual]: whether
    the manual is. *)
Definition plant (with_series with_manual : bool) : ToolWorld ToolInput ToolData := {|
  handle _ name _ :=
    if bool_decide (name = "get_device_profile") then ok (DeviceData cabinet)
    else if bool_decide (name = "get_alarm_detail") then ok (AlarmData fan_alarm)
    else if bool_decide (name = "query_timeseries_window") then
      if with_series then ok (SeriesData [("fan_speed", [("trend", JStr "rising")])]) else missing
    else if bool_decide (name = "search_manual_chunks") then
      if with_manual then ok (PackageData [manual_row] []) else missing
    else missing;
  log_answer _ := Ok tt;
  clock n := Z.of_nat n;
|}.

(** A message about an alarm, in a new session. *)
Definition start (message : string) : DiagnosisState :=
  mkState "s1" "r1" "t1" INIT CHAT (Some message) (Some "new_information") 1 None None
    None None None None None None None [] [] [] [] [] [] [] UNKNOWN [] [] [] None [] None
    "diag.response_generator.v1.0" 0 0.

Definition diagnose (with_series with_manual : bool) (model : option ModelAnswers)
  (s : DiagnosisState) :=
  @diagnose_with (plant with_series with_manual) model demo_unicode None s.

Definition result (r : Run RunEnv * outcome abort (option DiagnosisState)) : DiagnosisState :=
  match snd r with Ok (Some s) => s | _ => start "" end.

Definition message : string := "PCS-001 触发 ALARM-001，风扇不转".
Definition completed := diagnose true true None (start message).

Example completed_run :
  phase (result completed) = COMPLETED
  /\ map cause (candidate_causes (result completed)) = ["风扇供电异常"; "状态反馈或转速传感器异常"]
  /\ map evidence_id (evidence (result completed))
     = ["device:PCS-001"; "alarm:ALARM-001"; "timeseries:PCS-001:r1"; "manual:M1:C1"]
  /\ emitted (env (fst completed))
     = [INTENT_IDENTIFIED; DATA_FETCH_STARTED; RETRIEVAL_COMPLETED; DRAFT_GENERATED].
Proof. vm_compute. done. Qed.

(** Without the time series the user is asked the questions of the template. *)
Example clarifying_run :
  let s := result (diagnose false true None (start message)) in
  phase s = NEED_USER_INPUT
  /\ map question (clarification_questions s) = ["风扇是否实际转动"].
Proof. vm_compute. done. Qed.

(** A model that adds a cause without evidence and a command to the answer, and
    one that answers nothing to a request for questions. *)
Definition invented : CandidateCause := mkCause "雷击" (literal 9 10) [] [] [] false.
Definition command : RecommendedAction :=
  mkAction "a1" "立即停机" HIGH false None [] NOT_EXECUTED.
Definition reckless_model : ModelAnswers :=
  mkModel (fun _ l => Some l) (fun _ l => Some l)
    (fun _ a => Some (a <| res_candidate_causes := [invented] |>
                        <| res_recommended_actions := [command] |>)).
Definition silent_model : ModelAnswers :=
  mkModel (fun _ _ => Some []) (fun _ l => Some l) (fun _ a => Some a).

(** The user answers a question of an earlier run. *)
Definition followup (message : string) (extra : list PlanStep) : DiagnosisState :=
  (result completed) <| phase := INIT |> <| user_message := Some message |>
    <| followup_mode := Some "answer_clarification" |>
    <| user_feedback := [mkFeedback "gap_1" "风扇不转"] |> <| final_response := None |>
    <| guardrail_decision := None |> <| plan ::= fun l => l ++ extra |>.
Definition write_step : PlanStep := mkPlanStep "S7" "write" (Some "write_review_result") true [].
End Demo.

(** ** Witnesses *)

Section Witnesses.
Context (P := Demo.plant true true).


Lemma ainvoke_terminates_witness :
  exists s', snd Demo.completed = Ok (Some s')
    /\ (phase s' = NEED_USER_INPUT \/ phase s' = COMPLETED).
Proof.
  destruct (@ainvoke_terminates RunEnv demo_unicode (@app_runtime P None)
    (Demo.start Demo.message) (fresh_run None) (fst Demo.completed)
    (Some (Demo.result Demo.completed))) as (s' & H1 & H2); [vm_compute; reflexivity|].
  exists s'. split; [|exact H2]. rewrite <-H1. vm_compute. reflexivity.
Defined.

Lemma blocked_input_reaches_no_tool_witness :
  let r := Demo.diagnose true true None (Demo.start "PCS-001 立即停机") in
  calls (executor (env (fst r))) = 0 /\ phase (Demo.result r) = NEED_USER_INPUT.
Proof.
  destruct (@blocked_input_reaches_no_tool RunEnv demo_unicode (@app_runtime P None)
    (@app_counted P None) (Demo.start "PCS-001 立即停机") (fresh_run None)
    (fst (Demo.diagnose true true None (Demo.start "PCS-001 立即停机")))
    (Demo.result (Demo.diagnose true true None (Demo.start "PCS-001 立即停机"))))
    as (H1 & H2 & _).
  - vm_compute. reflexivity.
  - discriminate.
  - vm_compute. reflexivity.
  - split; [exact H1|exact H2].
Defined.
End Witnesses.

(** ** Where the code falls short *)

(** the answer of the model is not checked: the guardrails examine the causes
    and actions of the state, while the stored answer is the model's; a run
    completes with an invented cause and an unconfirmed high-risk action. *)
Theorem model_answer_unchecked :
  let s := Demo.result (Demo.diagnose true true (Some Demo.reckless_model)
                          (Demo.start Demo.message)) in
  phase s = COMPLETED
  /\ exists a, final_response s = Some a
       /\ res_candidate_causes a = [Demo.invented] /\ supporting_evidence Demo.invented = []
       /\ res_recommended_actions a = [Demo.command]
       /\ act_risk_level Demo.command = HIGH
       /\ act_requires_human_confirmation Demo.command = false
       /\ status <$> res_guardrail_decision a = Some PASSED.
Proof. vm_compute. split; [done|]. eexists. done. Qed.

(** a blocked plan does not stop a follow-up: [gap_detector] replaces the
    errors of [clarification_applier], so a run whose plan holds a write tool
    completes. *)
Theorem blocked_followup_completes :
  let s := Demo.followup Demo.message [Demo.write_step] in
  status (Service.check_state_plan s (map fst (map_to_list read_tools))) = BLOCKED
  /\ let s' := Demo.result (Demo.diagnose true true None s) in
     phase s' = COMPLETED
     /\ map question_id (clarification_questions s') = ["guardrail_plan"].
Proof. vm_compute. done. Qed.

(** the messages of a follow-up skip the input guardrail: the message that is
    blocked in a new session is accepted as the answer to a question. *)
Theorem followup_skips_input_guard :
  let s := Demo.followup "请立即停机" [] in
  status (@Service.check_state_input demo_unicode s) = BLOCKED
  /\ phase (Demo.result (Demo.diagnose true true None s)) = COMPLETED.
Proof. vm_compute. done. Qed.

(** an empty envelope fails the run: when the model answers the request for
    questions with none, the state asks the user without a question, which its
    own validator rejects. *)
Theorem empty_envelope_is_invalid :
  let s := Demo.result (Demo.diagnose true false (Some Demo.silent_model)
                          (Demo.start Demo.message)) in
  phase s = NEED_USER_INPUT /\ clarification_questions s = []
  /\ model_validate s = Raise ValidationError.
Proof. vm_compute. done. Qed.

(** The phases of the logged steps, in order. *)
Definition phases (r : Run RunEnv) : list DiagnosisPhase :=
  omap (fun st => match snd st with Ok s => Some (phase s) | Raise _ => None end) (steps (env r)).

(** the workflow does not follow the transition table of its state: in a run
    that completes, the plan is ready after the data were fetched, a transition
    [transition_state] refuses. *)
Theorem phases_leave_the_table :
  phases (fst Demo.completed)
  = [INIT; INIT; DATA_FETCHING; PLAN_READY; PLAN_READY; PLAN_READY; PLAN_READY; PLAN_READY;
     EVIDENCE_READY; EVIDENCE_READY; DRAFT_READY; DRAFT_READY; REVIEWING; COMPLETED]
  /\ forall now s updates, phase s = DATA_FETCHING ->
       transition_state now s PLAN_READY updates = Raise (Domain InvalidStateTransitionError []).
Proof.
  split; [vm_compute; done|]. intros now s updates Hs. unfold transition_state. rewrite Hs.
  by rewrite bool_decide_eq_false_2 by set_solver.
Qed.
