(* ===== verification/Sessions.v ===== *)
(** * Diagnosis sessions and reviews

    [persistence/repositories/diagnosis_session.py],
    [persistence/repositories/diagnosis_review.py] and
    [persistence/repositories/review_recorder.py], with the request validators
    of [contracts/cases.py] and [tools/contracts.py]. *)

From S2P Require Import Prelude Errors Json Contracts Store.
Open Scope Z_scope.

(** The values of the enumerations. *)
Definition review_result_value (r : DiagnosisReviewResult) : string :=
  match r with
  | CONFIRMED => "confirmed" | REVIEW_REJECTED => "rejected" | NEEDS_MORE_INFO => "needs_more_info"
  end.

(** [contracts/cases.py:34-58 DiagnosisReviewRequest] *)
Record DiagnosisReviewRequest := mkReviewRequest {
  q_review_result : DiagnosisReviewResult;
  q_root_cause : option string;
  q_resolution_steps : list string;
  q_comments : option string;
  q_evidence_refs : list string;
  q_source_ticket_id : option string;
  q_override_reason : option string;
  q_requested_questions : list string;
}.

(** The request is accepted (the constructor does not raise).
    [contracts/cases.py:44-58 DiagnosisReviewRequest.validate_decision] *)
Definition validate_decision (q : DiagnosisReviewRequest) : bool :=
  (length (q_requested_questions q) <=? 3)%nat &&
  negb (bool_decide (q_review_result q = CONFIRMED)
        && (negb (ostr_true (q_root_cause q)) || negb (list_true (q_resolution_steps q))
            || negb (list_true (q_evidence_refs q)))) &&
  negb (bool_decide (q_review_result q = REVIEW_REJECTED) && negb (ostr_true (q_comments q))) &&
  negb (bool_decide (q_review_result q = NEEDS_MORE_INFO)
        && negb (ostr_true (q_comments q) || list_true (q_requested_questions q))).

(** [payload.model_dump(mode="json")]. *)
Definition dump_review (q : DiagnosisReviewRequest) : json :=
  JObj [("review_result", JStr (review_result_value (q_review_result q)));
        ("root_cause", jopt (q_root_cause q));
        ("resolution_steps", jstrs (q_resolution_steps q));
        ("comments", jopt (q_comments q));
        ("evidence_refs", jstrs (q_evidence_refs q));
        ("source_ticket_id", jopt (q_source_ticket_id q));
        ("override_reason", jopt (q_override_reason q));
        ("requested_questions", jstrs (q_requested_questions q))].

(** The fields of [contracts/diagnosis.py:153-158 DiagnosisSessionUpdate] that
    are set. *)
Inductive session_update : Type :=
| SetPhase (p : DiagnosisPhase)
| SetFinalSummary (s : option string)
| SetRiskLevel (r : RiskLevel)
| SetRunId (r : string)
| SetLatestReview (r : DiagnosisReviewResult).

Definition session_setattr (s : DiagnosisSession) (u : session_update) : DiagnosisSession :=
  match u with
  | SetPhase p => s <| s_phase := p |>
  | SetFinalSummary t => s <| final_summary := t |>
  | SetRiskLevel r => s <| s_risk_level := r |>
  | SetRunId r => s <| s_run_id := r |>
  | SetLatestReview r => s <| latest_review_status := Some r |>
  end.

Section Repositories.
Context `{Env}.

(** [persistence/repositories/diagnosis_session.py:63-74
    DiagnosisSessionRepository.get] *)
Definition session_get (sid : string) : M World exn (option DiagnosisSession) :=
  gets (fun w => sessions w !! sid).

(** [persistence/repositories/diagnosis_session.py:76-103
    DiagnosisSessionRepository.update] *)
Definition session_update_row (sid : string) (us : list session_update)
  : M World exn DiagnosisSession :=
  atomically (
    model <- gets (fun w => sessions w !! sid) ;;
    match model with
    | None => throw ResourceNotFoundError
    | Some s =>
        now <- utc_now ;;
        let s' := (foldl session_setattr s us) <| s_updated_at := now |> in
        modify (fun w => w <| sessions ::= insert sid s' |>) ;;;
        ret s'
    end).

(** [persistence/repositories/diagnosis_run.py:256-268
    DiagnosisResultRepository.latest]: the newest result of the session. *)
Definition latest_result (sid : string) : M World exn (option DiagnosisResult) :=
  gets (fun w => results w !! sid).

Definition review_of_key (sid key : string) (w : World) : option DiagnosisReview :=
  find_first (fun r => bool_decide (rv_session_id r = sid)
                       && bool_decide (rv_idempotency_key r = Some key)) (reviews w).

(** [values] carries everything but the time.  The table refuses a second row
    of a review id, and a second row of a session under one key.
    [persistence/repositories/diagnosis_review.py:15-36
    DiagnosisReviewRepository.append] *)
Definition review_append (values : DiagnosisReview) : M World exn DiagnosisReview :=
  let key := rv_idempotency_key values in
  atomically (
    existing <- gets (fun w => if ostr_true key
      then review_of_key (rv_session_id values) (or_empty key) w else None) ;;
    match existing with
    | Some r =>
        guard (bool_decide (rv_request_hash r = rv_request_hash values))
          (Domain IdempotencyConflictError []) ;;;
        ret r
    | None =>
        now <- utc_now ;;
        let model := values <| rv_created_at := now |> in
        clash <- gets (fun w =>
          existsb (fun r => bool_decide (review_id r = review_id model)) (reviews w)
          || match key with
             | Some k => bool_decide (is_Some (review_of_key (rv_session_id values) k w))
             | None => false
             end) ;;
        guard (negb clash) IntegrityError ;;;
        modify (fun w => w <| reviews ::= fun l => l ++ [model] |>) ;;;
        ret model
    end).

(** The review of a request, validated as the recorder's input.
    [tools/contracts.py:171-181 AppendCaseReviewInput.require_human_action]
    with [explicit_human_action] set; the reviewer is the operator. *)
Definition require_human_action (actor : ActorContext) : bool :=
  str_true (actor_id actor) && negb (bool_decide (actor_role actor = VIEWER)).

(** [persistence/repositories/review_recorder.py:10-31
    RepositoryDiagnosisReviewRecorder.append] *)
Definition recorder_append (rid sid run trace hash : string) (q : DiagnosisReviewRequest)
    (actor : ActorContext) (key : option string) : M World exn (string * Z) :=
  guard (require_human_action actor) ValidationError ;;;
  r <- review_append (mkReview rid sid run (actor_id actor) (role_value (actor_role actor))
         (q_review_result q) (q_root_cause q) (q_resolution_steps q)
         (if ostr_true (q_comments q) then q_comments q else None)
         (q_evidence_refs q) (q_source_ticket_id q) (q_override_reason q)
         (q_requested_questions q) key hash trace 0) ;;
  ret (review_id r, rv_created_at r).
End Repositories.
