(* ===== verification/Memory.v ===== *)
(** * What a session remembers between its runs

    The requests and the memory payload of [contracts/diagnosis.py], the payload
    a run leaves ([_memory_payload] of [agent/execution_service.py]) and the
    state the next run starts from. *)

From S2P Require Import Prelude Errors Json Float Contracts Store AgentState.
Open Scope Z_scope.

(** ** Requests *)

(** [contracts/diagnosis.py:92-103 CreateSessionRequest] *)
Record CreateSessionRequest := mkCreateSession {
  cr_source : SessionSource;
  cr_site_id : option string;
  cr_device_id : option string;
  cr_alarm_id : option string;
  cr_alarm_name : option string;
}.
(** [contracts/diagnosis.py:99-103 CreateSessionRequest.validate_alarm_source] *)
Definition validate_alarm_source (q : CreateSessionRequest) : bool :=
  match cr_source q with
  | ALARM => ostr_true (cr_device_id q) && ostr_true (cr_alarm_id q)
  | CHAT => true
  end.

(** [contracts/diagnosis.py:106-112 CreateSessionResponse] *)
Record CreateSessionResponse := mkCreated {
  created_session_id : string;
  created_run_id : string;
  created_phase : DiagnosisPhase;
  created_trace_id : string;
  merged : bool;
  duplicate_count : Z;
}.

(** [contracts/diagnosis.py:115-117 ClarificationAnswer] *)
Record ClarificationAnswer := mkAnswer {
  ca_question_id : string;
  ca_answer : string;
}.

(** [contracts/diagnosis.py:120-125 DiagnosisChatRequest] *)
Record DiagnosisChatRequest := mkChat {
  chat_session_id : string;
  message : string;
  clarification_answers : list ClarificationAnswer;
  expected_memory_revision : option Z;
  chat_followup_mode : option string;
}.

(** [payload.model_dump(mode="json")] of both requests. *)
Definition source_value (s : SessionSource) : string :=
  match s with ALARM => "alarm" | CHAT => "chat" end.
Definition dump_create (q : CreateSessionRequest) : json :=
  JObj [("source", JStr (source_value (cr_source q))); ("site_id", jopt (cr_site_id q));
        ("device_id", jopt (cr_device_id q)); ("alarm_id", jopt (cr_alarm_id q));
        ("alarm_name", jopt (cr_alarm_name q))].
Definition dump_answer (a : ClarificationAnswer) : json :=
  JObj [("question_id", JStr (ca_question_id a)); ("answer", JStr (ca_answer a))].
Definition dump_chat (q : DiagnosisChatRequest) : json :=
  JObj [("session_id", JStr (chat_session_id q)); ("message", JStr (message q));
        ("clarification_answers", JList (map dump_answer (clarification_answers q)));
        ("expected_memory_revision",
           match expected_memory_revision q with Some n => JInt n | None => JNull end);
        ("followup_mode", jopt (chat_followup_mode q))].

(** ** The payload *)

(** The dicts of the payload; [None] is a missing key, or a null. *)
Record DeviceDict := mkDeviceDict {
  dd_site_id : option string;
  dd_device_id : option string;
  dd_device_type : option string;
  dd_device_model : option string;
  dd_manufacturer : option string;
}.
Record AlarmDict := mkAlarmDict {
  ad_alarm_id : option string;
  ad_alarm_name : option string;
  ad_trigger_time : option Z;
}.

(** [contracts/diagnosis.py:179-211 SessionMemoryPayload]; the answers and the
    feedback history, which the code always writes together, are one field. *)
Record SessionMemoryPayload := mkMemory {
  mem_session_id : string;
  mem_phase : DiagnosisPhase;
  mem_run_id : string;
  mem_trace_id : string;
  mem_updated_at : Z;
  mem_device_context : option DeviceDict;
  mem_alarm_context : option AlarmDict;
  mem_intent : option DiagnosisIntent;
  mem_template_id : option string;
  mem_template_version : option string;
  mem_alarm_category : option string;
  mem_plan : list PlanStep;
  tool_summaries : list ToolResultSummary;
  mem_evidence : list Evidence;
  mem_evidence_refs : list string;
  mem_candidate_causes : list CandidateCause;
  mem_questions : list ClarificationQuestion;
  final_result : option StructuredDiagnosisResult;
  mem_degraded : list string;
  mem_prompt_version : string;
  mem_final_summary : option string;
  mem_risk_level : RiskLevel;
  mem_revision : Z;
  mem_parent_run_id : option string;
  mem_time_window : option (Z * Z);
  pending_question_ids : list string;
  resolved_question_ids : list string;
  user_feedback_history : list ClarificationAnswer;
  evidence_package_ids : list string;
  last_completed_node : option string;
}.
#[export] Instance SessionMemoryPayload_eta : Eta SessionMemoryPayload := fun m =>
  mkMemory (mem_session_id m) (mem_phase m) (mem_run_id m) (mem_trace_id m) (mem_updated_at m)
    (mem_device_context m) (mem_alarm_context m) (mem_intent m) (mem_template_id m)
    (mem_template_version m) (mem_alarm_category m) (mem_plan m) (tool_summaries m)
    (mem_evidence m) (mem_evidence_refs m) (mem_candidate_causes m) (mem_questions m)
    (final_result m) (mem_degraded m) (mem_prompt_version m) (mem_final_summary m)
    (mem_risk_level m) (mem_revision m) (mem_parent_run_id m) (mem_time_window m)
    (pending_question_ids m) (resolved_question_ids m) (user_feedback_history m)
    (evidence_package_ids m) (last_completed_node m).

(** [model_dump(mode="json")] of the contexts. *)
Definition dump_device (c : DeviceContext) : DeviceDict :=
  mkDeviceDict (dc_site_id c) (Some (dc_device_id c)) (dc_device_type c) (dc_device_model c)
    (dc_manufacturer c).
Definition dump_alarm (c : AlarmContext) : AlarmDict :=
  mkAlarmDict (Some (ac_alarm_id c)) (Some (ac_alarm_name c)) (ac_trigger_time c).

(** [DeviceContext.model_validate] and [AlarmContext.model_validate]: the
    identifiers and the name of the alarm are required. *)
Definition read_device (d : DeviceDict) : outcome exn DeviceContext :=
  match dd_device_id d with
  | Some i => Ok (mkDevice (dd_site_id d) i (dd_device_type d) (dd_device_model d)
                    (dd_manufacturer d))
  | None => Raise ValidationError
  end.
Definition read_alarm (d : AlarmDict) : outcome exn AlarmContext :=
  match ad_alarm_id d, ad_alarm_name d with
  | Some i, Some n => Ok (mkAlarm i n (ad_trigger_time d))
  | _, _ => Raise ValidationError
  end.

Definition answer_of (f : UserFeedback) : ClarificationAnswer :=
  mkAnswer (fb_question_id f) (fb_answer f).
Definition feedback_of (a : ClarificationAnswer) : UserFeedback :=
  mkFeedback (ca_question_id a) (ca_answer a).

(** The first memory of a session.
    [agent/execution_service.py:180-204 SessionMemoryPayload] *)
Definition first_memory (q : CreateSessionRequest) (sid rid trace : string) (now : Z)
  : SessionMemoryPayload :=
  mkMemory sid INIT rid trace now
    (match cr_site_id q, cr_device_id q with
     | None, None => None
     | s, d => Some (mkDeviceDict s d None None None)
     end)
    (match cr_alarm_id q, cr_alarm_name q with
     | None, None => None
     | i, n => Some (mkAlarmDict i n None)
     end)
    None None None None [] [] [] [] [] [] None [] "diag.response_generator.v1.0" None UNKNOWN 1
    None None [] [] [] [] None.

(** [agent/execution_service.py:659-715 DiagnosisExecutionService._memory_payload] *)
Definition memory_payload (now : Z) (s : DiagnosisState)
  (result : option StructuredDiagnosisResult) : SessionMemoryPayload :=
  let resolved := map fb_question_id (user_feedback s) in
  mkMemory (session_id s) (phase s) (run_id s) (trace_id s) now
    (dump_device <$> device_context s) (dump_alarm <$> alarm_context s) (intent s)
    (diagnosis_template_id s) (diagnosis_template_version s) (alarm_category s) (plan s)
    (tool_results s) (evidence s) (evidence_refs s) (candidate_causes s)
    (clarification_questions s) result (degraded_components s) (prompt_version s)
    (res_summary <$> result)
    (match result with Some r => res_risk_level r | None => risk_level s end)
    (memory_revision s) (parent_run_id s) (time_window s)
    (filter (fun i => i ∉ resolved) (map question_id (clarification_questions s)))
    resolved (map answer_of (user_feedback s))
    (sorted_set (filter (fun i => str_true i = true) (omap package_id (evidence s))))
    (Some (if bool_decide (phase s = COMPLETED) then "memory_writer"
           else "clarification_generator")).

(** ** The state a run starts from *)

(** [agent/execution_service.py:364-424 DiagnosisState]: from the memory, or from the
    session when the memory is gone. *)
Definition initial_state (q : DiagnosisChatRequest) (mode : string) (session : DiagnosisSession)
  (memory : option SessionMemoryPayload) (rid trace : string) (started updated : Z)
  : outcome exn DiagnosisState :=
  let device :=
    match memory ≫= mem_device_context with
    | Some d => match read_device d with Ok c => Ok (Some c) | Raise e => Raise e end
    | None => Ok (if ostr_true (s_device_id session)
                  then Some (mkDevice (s_site_id session) (or_empty (s_device_id session))
                               None None None) else None)
    end in
  let alarm :=
    match memory ≫= mem_alarm_context with
    | Some d => match read_alarm d with Ok c => Ok (Some c) | Raise e => Raise e end
    | None => Ok (if ostr_true (s_alarm_id session)
                  then Some (mkAlarm (or_empty (s_alarm_id session))
                               (or_empty (s_alarm_name session)) None) else None)
    end in
  let all {A} (f : SessionMemoryPayload -> list A) : list A :=
    match memory with Some m => f m | None => [] end in
  match device, alarm with
  | Ok device, Ok alarm =>
      Ok (mkState (chat_session_id q) rid trace INIT (s_source session) (Some (message q))
            (Some mode) (match memory with Some m => mem_revision m + 1 | None => 1 end)
            (Some (match memory with Some m => mem_run_id m | None => s_run_id session end))
            None (memory ≫= mem_template_id) (memory ≫= mem_template_version)
            (memory ≫= mem_alarm_category) None device alarm None (all mem_plan)
            (all tool_summaries) (all mem_evidence) (all mem_evidence_refs)
            (all mem_candidate_causes) []
            (map feedback_of (all user_feedback_history ++ clarification_answers q))
            UNKNOWN [] [] (all mem_degraded) None [] None "diag.response_generator.v1.0"
            started updated)
  | Raise e, _ => Raise e
  | _, Raise e => Raise e
  end.

Lemma read_dump_device c : read_device (dump_device c) = Ok c.
Proof. by destruct c. Qed.
Lemma read_dump_alarm c : read_alarm (dump_alarm c) = Ok c.
Proof. by destruct c. Qed.
Lemma feedback_answer f : feedback_of (answer_of f) = f.
Proof. by destruct f. Qed.
