(* ===== verification/Desk.v ===== *)
(** * The stores of the diagnosis service

    [persistence/repositories/diagnosis_run.py], [diagnosis_step_log.py],
    [alarm_dedup.py] and the writing half of [diagnosis_session.py] (all of
    [persistence/repositories/]), [memory/session_store.py], [reliability/dedup.py]
    and the event queue of [agent/events.py], over one state [Desk]. *)

From S2P Require Import Prelude Errors Breaker Json Float Contracts Store Timeline Sessions.
From S2P Require Import AgentState Tools ToolData Text Regex Nodes Memory.
Open Scope Z_scope.

(** ** Rows *)

(** [contracts/diagnosis.py:60-64 DiagnosisRunRecord], the row of diagnosis_run. *)
Record DiagnosisRun := mkRunRow {
  rr_id : string;
  rr_session_id : string;
  rr_trace_id : string;
  rr_idempotency_key : option string;
  rr_request_hash : string;
  rr_phase : DiagnosisPhase;
  rr_status : string;
  rr_parent_run_id : option string;
  rr_run_type : string;
  rr_template_id : option string;
  rr_template_version : option string;
  rr_alarm_category : option string;
  rr_first_event_at : option Z;
  rr_guardrail_status : option GuardrailStatus;
  rr_failure_category : option string;
  rr_started_at : Z;
  rr_ended_at : option Z;
  rr_created_at : Z;
  rr_updated_at : Z;
}.
#[export] Instance DiagnosisRun_eta : Eta DiagnosisRun := fun r =>
  mkRunRow (rr_id r) (rr_session_id r) (rr_trace_id r) (rr_idempotency_key r)
    (rr_request_hash r) (rr_phase r) (rr_status r) (rr_parent_run_id r) (rr_run_type r)
    (rr_template_id r) (rr_template_version r) (rr_alarm_category r) (rr_first_event_at r)
    (rr_guardrail_status r) (rr_failure_category r) (rr_started_at r) (rr_ended_at r)
    (rr_created_at r) (rr_updated_at r).

(** [contracts/diagnosis.py:87-89 DiagnosisResultRecord], the row of
    diagnosis_result. *)
Record ResultRow := mkResultRow {
  rs_run_id : string;
  rs_session_id : string;
  rs_result : StructuredDiagnosisResult;
  rs_created_at : Z;
  rs_updated_at : Z;
}.

(** [contracts/diagnosis.py:161-172 StepLogCreate], the columns that are not
    snapshots or times. *)
Record StepLog := mkStep {
  sl_session_id : string;
  sl_run_id : string;
  sl_trace_id : string;
  step_name : string;
  step_status : string;
  sl_error_code : option string;
}.

(** [persistence/models.py:128-144 DiagnosisAlarmDedupModel] *)
Record AlarmDedup := mkDedup {
  dd_device : string;
  dd_alarm_category : string;
  dd_session_id : string;
  alarm_ids : list string;
  first_seen_at : Z;
  last_seen_at : Z;
  dd_expires_at : Z;
  hit_count : Z;
}.
#[export] Instance AlarmDedup_eta : Eta AlarmDedup := fun d =>
  mkDedup (dd_device d) (dd_alarm_category d) (dd_session_id d) (alarm_ids d)
    (first_seen_at d) (last_seen_at d) (dd_expires_at d) (hit_count d).

(** [contracts/events.py:16-24 SSEEvent] without its payload. *)
Record SSEEvent := mkSSE {
  sse_event : SSEEventType;
  event_sequence : Z;
  timestamp : Z;
  sse_session_id : string;
  sse_run_id : string;
  sse_trace_id : string;
  sse_phase : DiagnosisPhase;
}.
(** [agent/events.py:24-29 QueueDiagnosisEventEmitter.__init__] *)
Record Emitter := mkEmitter {
  queue : list (option SSEEvent);
  em_sequence : Z;
  closed : bool;
  first_event_at : option Z;
}.
#[export] Instance Emitter_eta : Eta Emitter := fun e =>
  mkEmitter (queue e) (em_sequence e) (closed e) (first_event_at e).
Definition new_emitter : Emitter := mkEmitter [] 0 false None.

(** ** The state

    [world] has the tables this service shares with the case lifecycle, the clock
    and the identifiers; [memory] is Redis, each payload with its expiry;
    [executor] is the tool executor of the run, [emitter] the event stream of the
    request, [asked] counts the requests to the model. *)
Record Desk := mkDesk {
  world : World;
  runs : list DiagnosisRun;
  answers : list ResultRow;
  step_logs : list StepLog;
  memory : gmap string (SessionMemoryPayload * Z);
  dedup_rows : gmap string AlarmDedup;
  executor : ToolExecutor ToolInput ToolData;
  emitter : option Emitter;
  asked : nat;
}.
#[export] Instance Desk_eta : Eta Desk := fun d =>
  mkDesk (world d) (runs d) (answers d) (step_logs d) (memory d) (dedup_rows d) (executor d)
    (emitter d) (asked d).

Abbreviation D := (M Desk abort).
Definition deny {A} (c : error_class) : D A := raise (Exc (Domain c [])).
Definition require (b : bool) (c : error_class) : D unit := if b then ret tt else deny c.
Definition exn_of {A} (o : outcome exn A) : D A :=
  match o with Ok a => ret a | Raise e => raise (Exc e) end.
(** A computation of the shared tables. *)
Definition on_world {A} (m : M World exn A) : D A := fun d =>
  match m (world d) with
  | (w, Ok a) => (d <| world := w |>, Ok a)
  | (w, Raise e) => (d <| world := w |>, Raise (Exc e))
  end.

(** [ttl_seconds] of the session store, [window_seconds] of the deduplication, and
    the NFKC case folding of [unicodedata]. *)
Class DeskConfig := mkDeskConfig {
  ttl_seconds : Z;
  window_seconds : Z;
  fold_case : string -> string;
}.
Definition seconds (n : Z) : Z := n * 1000000.

(** The newest row, the later one of two that are as old. *)
Definition newest {A} (created : A -> Z) (l : list A) : option A :=
  fold_left (fun best x =>
    match best with
    | Some b => if created b <=? created x then Some x else best
    | None => Some x
    end) l None.

Section Repositories.
Context `{Env} `{Unicode} `{DeskConfig}.

Definition now : D Z := on_world Store.utc_now.

(** ** Runs *)

Definition run_exists (i : string) (d : Desk) : bool :=
  existsb (fun r => bool_decide (rr_id r = i)) (runs d).

(** The row of the run and the event of the message are one transaction; a second
    row under the same primary key is an error of the database.
    [persistence/repositories/diagnosis_run.py:53-97 DiagnosisRunRepository.create] *)
Definition run_create (row : Z -> DiagnosisRun)
  (event : option (string * string * option ActorContext * json)) : D DiagnosisRun :=
  t <- now ;;
  let r := row t in
  clash <- gets (fun d => run_exists (rr_id r) d
    || match event with
       | Some (eid, _, _, _) =>
           existsb (fun e => bool_decide (event_id e = eid)) (timeline (world d))
       | None => false
       end) ;;
  require (negb clash) DependencyUnavailableError ;;;
  modify (fun d => d <| runs ::= fun l => l ++ [r] |>) ;;;
  match event with
  | Some (eid, sid, actor, pl) =>
      modify (fun d => d <| world ::= fun w => w <| timeline ::= fun l =>
        l ++ [mkTimeline eid sid (Some (rr_id r)) USER_MESSAGE (actor_id <$> actor)
                ((fun a => role_value (actor_role a)) <$> actor) pl
                (max_sequence (session_events sid w) + 1) t] |> |>)
  | None => ret tt
  end ;;;
  ret r.

(** A session has at most one run under a key ([wf_keys] of [DeskInv]).
    [persistence/repositories/diagnosis_run.py:99-113 find_idempotent] *)
Definition find_idempotent (sid key : string) : D (option DiagnosisRun) :=
  gets (fun d => find_first (fun r => bool_decide (rr_session_id r = sid)
                                     && bool_decide (rr_idempotency_key r = Some key)) (runs d)).

(** [persistence/repositories/diagnosis_run.py:115-127 find_idempotent_global] *)
Definition find_idempotent_global (key : string) : D (option DiagnosisRun) :=
  gets (fun d => newest rr_created_at
    (filter (fun r => rr_idempotency_key r = Some key) (runs d))).

(** [persistence/repositories/diagnosis_run.py:129-141 DiagnosisRunRepository.latest] *)
Definition run_latest (sid : string) : D (option DiagnosisRun) :=
  gets (fun d => newest rr_created_at (filter (fun r => rr_session_id r = sid) (runs d))).

(** [model = await session.get(DiagnosisRunModel, run_id)] and its assignments. *)
Definition update_run (i : string) (f : DiagnosisRun -> DiagnosisRun) : D unit :=
  modify (fun d => d <| runs ::= map (fun r => if bool_decide (rr_id r = i) then f r else r) |>).

(** [persistence/repositories/diagnosis_run.py:160-170 finish] *)
Definition run_finish (i : string) (p : DiagnosisPhase) (status : string) : D unit :=
  found <- gets (run_exists i) ;;
  if found then
    t <- now ;; t' <- now ;;
    update_run i (fun r => r <| rr_phase := p |> <| rr_status := status |>
                             <| rr_ended_at := Some t |> <| rr_updated_at := t' |>)
  else ret tt.

(** [persistence/repositories/diagnosis_run.py:172-189 set_template] *)
Definition set_template (i : string) (template version category : option string) : D unit :=
  found <- gets (run_exists i) ;;
  if found then
    t <- now ;;
    update_run i (fun r => r <| rr_template_id := template |> <| rr_template_version := version |>
                             <| rr_alarm_category := category |> <| rr_updated_at := t |>)
  else ret tt.

(** [persistence/repositories/diagnosis_run.py:191-208 set_hardening_outcome] *)
Definition set_hardening_outcome (i : string) (first : option Z)
  (guard : option GuardrailStatus) (category : option string) : D unit :=
  found <- gets (run_exists i) ;;
  if found then
    t <- now ;;
    update_run i (fun r => r <| rr_first_event_at := first |> <| rr_guardrail_status := guard |>
                             <| rr_failure_category := category |> <| rr_updated_at := t |>)
  else ret tt.

(** ** Results *)

(** What the case lifecycle reads of a result. *)
Definition case_view (r : ResultRow) : DiagnosisResult :=
  mkResult (rs_run_id r) (res_summary (rs_result r))
    (map cause (res_candidate_causes (rs_result r))) (res_evidence (rs_result r))
    (res_safety_notes (rs_result r)).

Definition answer_latest (sid : string) (d : Desk) : option ResultRow :=
  newest rs_created_at (filter (fun r => rs_session_id r = sid) (answers d)).

(** The row of the run is written, or added.
    [persistence/repositories/diagnosis_run.py:243-250 model] *)
Definition put_answer (rid sid : string) (res : StructuredDiagnosisResult) (t : Z)
  (l : list ResultRow) : list ResultRow :=
  if existsb (fun r => bool_decide (rs_run_id r = rid)) l
  then map (fun r => if bool_decide (rs_run_id r = rid)
                     then mkResultRow rid sid res (rs_created_at r) t else r) l
  else l ++ [mkResultRow rid sid res t t].

(** [World] keeps of each session the newest result, as the case lifecycle reads it.
    [persistence/repositories/diagnosis_run.py:239-254 upsert] *)
Definition answer_upsert (rid sid : string) (res : StructuredDiagnosisResult) : D unit :=
  t <- now ;;
  modify (fun d => d <| answers ::= put_answer rid sid res t |>) ;;;
  modify (fun d => d <| world ::= fun w => w <| results ::= fun m =>
    match answer_latest sid d with Some r => <[sid := case_view r]> m | None => m end |> |>).

(** ** Step logs *)

(** [persistence/repositories/diagnosis_step_log.py:38-56 create] *)
Definition step_create (s : StepLog) : D unit :=
  modify (fun d => d <| step_logs ::= fun l => l ++ [s] |>).

(** ** Sessions *)

(** [persistence/repositories/diagnosis_session.py:44-61 DiagnosisSessionRepository.create] *)
Definition session_create (row : Z -> DiagnosisSession) : D unit :=
  t <- now ;;
  let s := row t in
  clash <- gets (fun d => bool_decide (is_Some (sessions (world d) !! s_id s))) ;;
  require (negb clash) DependencyUnavailableError ;;;
  modify (fun d => d <| world ::= fun w => w <| sessions ::= insert (s_id s) s |> |>).

(** ** Session memory *)

(** [memory/session_store.py:21-34 RedisSessionStore.save] *)
Definition memory_save (m : SessionMemoryPayload) : D unit :=
  t <- now ;;
  modify (fun d => d <| memory ::= insert (mem_session_id m) (m, t + seconds ttl_seconds) |>).

(** [memory/session_store.py:36-51 RedisSessionStore.get] *)
Definition memory_get (sid : string) : D (option SessionMemoryPayload) :=
  t <- now ;;
  gets (fun d => match memory d !! sid with
                 | Some (m, expires) => if t <? expires then Some m else None
                 | None => None
                 end).

(** ** Repeated alarms *)

(** [re.sub(r"[\s_/\\-]+", "", normalized)]: the separators are removed.
    [reliability/dedup.py:6-8 normalize_alarm_category] *)
Definition normalize_alarm_category (value : string) : string :=
  unchars (filter (fun x => (is_space x || any_of (chars "_/\-") x) = false) (chars (fold_case value))).
(** [reliability/dedup.py:11-13 alarm_dedup_key] *)
Definition alarm_dedup_key (device category : string) : string :=
  sha256 (device ++ String (Ascii.ascii_of_nat 0) (normalize_alarm_category category))%string.

(** [persistence/repositories/alarm_dedup.py:25-45 AlarmDedupRepository.hit] *)
Definition dedup_hit (device category alarm : string) : D (option (string * Z)) :=
  let key := alarm_dedup_key device category in
  t <- now ;;
  row <- gets (fun d => dedup_rows d !! key) ;;
  match row with
  | None => ret None
  | Some r =>
      if dd_expires_at r <=? t then ret None
      else
        diagnosis <- gets (fun d => sessions (world d) !! dd_session_id r) ;;
        match diagnosis with
        | None => ret None
        | Some s =>
            if bool_decide (s_phase s = PHASE_FAILED) then ret None
            else
              let r' := r <| last_seen_at := t |>
                          <| dd_expires_at := t + seconds window_seconds |>
                          <| hit_count ::= Z.succ |>
                          <| alarm_ids := sorted_set (alarm_ids r ++ [alarm]) |> in
              modify (fun d => d <| dedup_rows ::= insert key r' |>) ;;;
              ret (Some (dd_session_id r, hit_count r'))
        end
  end.

(** [persistence/repositories/alarm_dedup.py:47-80 AlarmDedupRepository.register] *)
Definition dedup_register (device category alarm sid : string) : D unit :=
  let key := alarm_dedup_key device category in
  t <- now ;;
  modify (fun d => d <| dedup_rows ::= insert key
    (mkDedup device (normalize_alarm_category category) sid [alarm] t t
       (t + seconds window_seconds) 1) |>).

(** ** Events *)

(** [agent/events.py:31-49 QueueDiagnosisEventEmitter.emit]; without an emitter the
    event goes nowhere ([NoopDiagnosisEventEmitter]). *)
Definition emit_event (ev : SSEEventType) (s : DiagnosisState) : D unit :=
  em <- gets emitter ;;
  match em with
  | None => ret tt
  | Some e =>
      if closed e then ret tt
      else
        first <- match first_event_at e with
                 | None => t <- now ;; ret (Some t)
                 | Some t => ret (Some t)
                 end ;;
        t <- now ;;
        let n := em_sequence e + 1 in
        modify (fun d => d <| emitter := Some (mkEmitter
          (queue e ++ [Some (mkSSE ev n t (session_id s) (run_id s) (trace_id s) (phase s))])
          n (closed e) first) |>)
  end.

(** [agent/events.py:51-54 QueueDiagnosisEventEmitter.close] *)
Definition emitter_close (e : Emitter) : Emitter :=
  if closed e then e else e <| closed := true |> <| queue ::= fun q => q ++ [None] |>.

(** [getattr(emitter, "first_event_at", None)] *)
Definition stream_started : D (option Z) := gets (fun d => emitter d ≫= first_event_at).
End Repositories.
