(* ===== verification/Execution.v ===== *)
(** * The diagnosis service

    [agent/execution_service.py]: creating a session, one request to diagnose
    with its callbacks, reading a session back.  The audit trail, the timeline and
    the deduplication of alarms are configured, as [bootstrap/services.py] does.

    ** Conventions

    A request runs to its end, or to the cancellation of its task, before the
    next one starts. *)

From S2P Require Import Prelude Errors Breaker Json Float Contracts Store Timeline Sessions.
From S2P Require Import AgentState Tools ToolData Text Regex Guardrails Templates Nodes Workflow.
From S2P Require Import Memory Desk.
Open Scope Z_scope.

(** What the model gateway answers: the n-th question put to it. *)
Class ModelPort := mkModelPort {
  model_present : bool;
  ask_questions : nat -> DiagnosisState -> list ClarificationQuestion ->
    outcome abort (option (list ClarificationQuestion));
  ask_causes : nat -> DiagnosisState -> list CandidateCause ->
    outcome abort (option (list CandidateCause));
  ask_response : nat -> DiagnosisState -> StructuredDiagnosisResult ->
    outcome abort (option StructuredDiagnosisResult);
}.

(** [contracts/diagnosis.py:135-150 DiagnosisResponse], the fields this service
    sets. *)
Record DiagnosisResponse := mkResponse {
  rp_session_id : string;
  rp_run_id : string;
  rp_trace_id : string;
  rp_phase : DiagnosisPhase;
  rp_intent : option DiagnosisIntent;
  rp_result : option StructuredDiagnosisResult;
  rp_evidence : list Evidence;
  rp_evidence_refs : list string;
  rp_tool_summaries : list ToolResultSummary;
  rp_questions : list ClarificationQuestion;
  rp_degraded : list string;
  rp_memory_revision : option Z;
}.

(** ** Payloads of the timeline *)

Definition risk_value (r : RiskLevel) : string :=
  match r with
  | LOW => "low" | MEDIUM => "medium" | HIGH => "high" | CRITICAL => "critical"
  | UNKNOWN => "unknown"
  end.
Definition dump_question (q : ClarificationQuestion) : json :=
  JObj [("question_id", JStr (question_id q)); ("question", JStr (question q));
        ("reason", JStr (reason q)); ("expected_answer_type", JStr (expected_answer_type q))].
(** The confidence of a cause is left out. *)
Definition dump_cause (c : CandidateCause) : json :=
  JObj [("cause", JStr (cause c)); ("supporting_evidence", jstrs (supporting_evidence c));
        ("contradicting_evidence", jstrs (contradicting_evidence c));
        ("missing_information", jstrs (cause_missing c));
        ("need_manual_confirmation", JBool (cause_need_confirmation c))].
Definition dump_result (r : StructuredDiagnosisResult) : json :=
  JObj [("summary", JStr (res_summary r)); ("risk_level", JStr (risk_value (res_risk_level r)));
        ("evidence_refs", jstrs (map evidence_id (res_evidence r)));
        ("candidate_causes", JList (map dump_cause (res_candidate_causes r)))].

(** ** Answers to clarification questions *)

(** [agent/execution_service.py:308-321 answer]: the answers one after the other;
    [seen] are the ids answered before in the same request. *)
Fixpoint check_each (pending resolved seen : list string) (l : list ClarificationAnswer)
  : outcome exn unit :=
  match l with
  | [] => Ok tt
  | a :: l' =>
      let i := ca_question_id a in
      if bool_decide (strip (ca_answer a) = "")
      then Raise (Domain UnknownClarificationQuestionError [])
      else if bool_decide (i ∈ resolved \/ i ∈ seen)
      then Raise (Domain ClarificationAlreadyAnsweredError [])
      else if bool_decide (i ∉ pending)
      then Raise (Domain UnknownClarificationQuestionError [])
      else check_each pending resolved (i :: seen) l'
  end.

(** The questions that may be answered. *)
Definition pending_of (m : SessionMemoryPayload) : list string :=
  if list_true (pending_question_ids m) then pending_question_ids m
  else map question_id (mem_questions m).

(** [agent/execution_service.py:298-321 memory] *)
Definition check_answers (memory : option SessionMemoryPayload) (q : DiagnosisChatRequest)
  : outcome exn unit :=
  match memory with
  | None => Raise (Domain ConflictError [])
  | Some m =>
      match expected_memory_revision q with
      | Some n =>
          if bool_decide (n = mem_revision m)
          then check_each (pending_of m) (resolved_question_ids m) [] (clarification_answers q)
          else Raise (Domain ClarificationStaleError [])
      | None => check_each (pending_of m) (resolved_question_ids m) [] (clarification_answers q)
      end
  end.

(** [agent/execution_service.py:271-273 mode] *)
Definition mode_of (q : DiagnosisChatRequest) : string :=
  if ostr_true (chat_followup_mode q) then or_empty (chat_followup_mode q)
  else if list_true (clarification_answers q) then "answer_clarification" else "new_information".

Section Execution.
Context `{Env} `{Unicode} `{DeskConfig} `{TW : ToolWorld ToolInput ToolData} `{ModelPort}.

Definition trace : D string := on_world Store.trace_id.
Definition fresh_id : D string := on_world new_id.
Definition get_row (sid : string) : D (option DiagnosisSession) := on_world (session_get sid).
Definition update_session (sid : string) (us : list session_update) : D unit :=
  on_world (session_update_row sid us) ;;; ret tt.
Definition append (sid : string) (t : TimelineEventType) (key rid : string)
  (actor : option ActorContext) (pl : json) : D unit :=
  on_world (timeline_append sid t key (Some rid) actor pl).
Definition audit (actor : option ActorContext) (action sid tr : string) : D unit :=
  match actor with
  | Some a => on_world (audit_write (actor_id a) (role_value (actor_role a)) action "diagnosis"
                          sid tr "succeeded" (Some sid) None)
  | None => ret tt
  end.

(** ** The callbacks of a run *)

(** [agent/execution_service.py:426-473 log_step] *)
Definition log_step (s : DiagnosisState) (name : string) (o : outcome exn DiagnosisState)
  : D unit :=
  step_create (mkStep (session_id s) (run_id s) (trace_id s) ("agent." ++ name)%string
    (match o with Raise _ => "FAILED" | Ok _ => "OK" end)
    (match o with Raise e => Some (exn_name e) | Ok _ => None end)) ;;;
  match o with
  | Raise _ => ret tt
  | Ok s' =>
      p <- exn_of (model_validate s') ;;
      when (ostr_true (diagnosis_template_id p))
        (set_template (run_id p) (diagnosis_template_id p) (diagnosis_template_version p)
           (alarm_category p)) ;;;
      update_session (session_id p) [SetPhase (phase p); SetRunId (run_id p)] ;;;
      t <- now ;;
      memory_save ((memory_payload t p None) <| last_completed_node := Some name |>)
  end.

(** [agent/execution_service.py:475-484 write_memory] *)
Definition write_memory (s : DiagnosisState) : D unit :=
  match final_response s with
  | Some r => answer_upsert (run_id s) (session_id s) r
  | None => ret tt
  end.

(** [agent/execution_service.py:486-510 log_tool], for the calls the executor logged;
    an entry whose write failed leaves no row. *)
Definition log_tool (sid rid tr : string) (from : nat) (l : list (string * ToolResult ToolData))
  : list StepLog :=
  omap id (imap (fun i e =>
    match log_answer (from + i) with
    | Ok _ => Some (mkStep sid rid tr ("tool." ++ fst e)%string (status_value (tr_status (snd e)))
                      (Some (error_code (snd e))))
    | Raise _ => None
    end) l).
Definition call_tool (sid rid tr name : string) (i : ToolInput) (t : string)
  : D (ToolResult ToolData) := fun d =>
  let '(x, o) := execute name i t (executor d) in
  let n := length (logged (executor d)) in
  (d <| executor := x |> <| step_logs ::= fun l => l ++ log_tool sid rid tr n (drop n (logged x)) |>,
   o).
Definition ask {A} (f : nat -> outcome abort A) : D A := fun d =>
  (d <| asked ::= S |>, f (asked d)).

(** [bootstrap/diagnosis_runtime.py:26-50 DefaultDiagnosisRuntimeFactory.create] with
    the callbacks of the run. *)
Definition service_runtime (sid rid tr : string) : Runtime Desk := {|
  tool_names := map fst (map_to_list read_tools);
  run_tool := call_tool sid rid tr;
  emit := emit_event;
  has_model := model_present;
  generate_questions s l := ask (fun n => ask_questions n s l);
  generate_causes s l := ask (fun n => ask_causes n s l);
  generate_response s r := ask (fun n => ask_response n s r);
  memory_writer := write_memory;
  step_logger := log_step;
  utc_now := now;
|}.

(** A new executor counts its calls from zero; the breakers are shared, and the
    history of the handlers goes on. *)
Definition new_run_executor : D unit :=
  modify (fun d => d <| executor ::= fun x =>
    mkExecutor read_tools 0 (circuit_breakers x) (invoked x) (logged x) (readings x) |>).

(** [await graph.ainvoke(initial)]; a run never ends out of fuel
    ([Workflow.ainvoke_terminates]). *)
Definition run_workflow (s : DiagnosisState) : D DiagnosisState := fun d =>
  let '(r, o) := @ainvoke Desk _ (service_runtime (session_id s) (run_id s) (trace_id s)) s
                   (mkRun ∅ d) in
  (env r, match o with
          | Ok (Some s') => Ok s'
          | Ok None => Raise (Exc RuntimeError)
          | Raise a => Raise a
          end).

(** ** Operations *)

(** [agent/execution_service.py:98-235 DiagnosisExecutionService.create_session] *)
Definition create_session (q : CreateSessionRequest) (key : option string)
  (actor : option ActorContext) : D CreateSessionResponse :=
  tr <- trace ;;
  let fingerprint := request_fingerprint sha256 "create_session" (dump_create q) in
  existing <- (if ostr_true key then find_idempotent_global (or_empty key) else ret None) ;;
  match existing with
  | Some r =>
      require (bool_decide (rr_request_hash r = fingerprint)) IdempotencyConflictError ;;;
      row <- get_row (rr_session_id r) ;;
      match row with
      | Some s => ret (mkCreated (rr_session_id r) (rr_id r) (s_phase s) (rr_trace_id r) false 1)
      | None => raise (Exc AssertionError)
      end
  | None =>
      let deduplicated := match cr_source q with ALARM => true | CHAT => false end
        && ostr_true (cr_device_id q) && ostr_true (cr_alarm_id q)
        && ostr_true (cr_alarm_name q) in
      hit <- (if deduplicated
              then dedup_hit (or_empty (cr_device_id q)) (or_empty (cr_alarm_name q))
                     (or_empty (cr_alarm_id q))
              else ret None) ;;
      match hit with
      | Some (sid, n) =>
          row <- get_row sid ;;
          match row with
          | Some s =>
              audit actor "diagnosis.alarm_merged" sid tr ;;;
              ret (mkCreated sid (s_run_id s) (s_phase s) (s_trace_id s) true n)
          | None => raise (Exc AssertionError)
          end
      | None =>
          sid <- fresh_id ;; rid <- fresh_id ;;
          session_create (fun t =>
            mkSession sid (cr_source q) (cr_site_id q) (cr_device_id q) (cr_alarm_id q)
              (cr_alarm_name q) INIT None UNKNOWN tr rid (actor_id <$> actor) None t t) ;;;
          run_create (fun t =>
            mkRunRow rid sid tr key fingerprint INIT "initialized" None "session_init"
              None None None None None None t None t t) None ;;;
          t <- now ;;
          memory_save (first_memory q sid rid tr t) ;;;
          when deduplicated
            (dedup_register (or_empty (cr_device_id q)) (or_empty (cr_alarm_name q))
               (or_empty (cr_alarm_id q)) sid) ;;;
          audit actor "diagnosis.created" sid tr ;;;
          ret (mkCreated sid rid INIT tr false 1)
      end
  end.

(** [agent/execution_service.py:736-774 DiagnosisExecutionService.get_session] *)
Definition get_session (sid : string) : D DiagnosisResponse :=
  trace ;;;
  row <- get_row sid ;;
  match row with
  | None => deny ResourceNotFoundError
  | Some s =>
      memory <- memory_get sid ;;
      match memory with
      | Some m =>
          ret (mkResponse sid (mem_run_id m) (mem_trace_id m) (mem_phase m) (mem_intent m)
                 (final_result m) (mem_evidence m) (mem_evidence_refs m) (tool_summaries m)
                 (mem_questions m) (mem_degraded m) (Some (mem_revision m)))
      | None =>
          run <- run_latest sid ;;
          result <- gets (answer_latest sid) ;;
          let res := rs_result <$> result in
          let evs := match res with Some r => res_evidence r | None => [] end in
          ret (mkResponse sid
                 (match run with Some r => rr_id r | None => s_run_id s end)
                 (match run with Some r => rr_trace_id r | None => s_trace_id s end)
                 (s_phase s) None res evs (map evidence_id evs) [] []
                 (match res with Some r => res_degraded_components r | None => [] end) None)
      end
  end.

(** [agent/execution_service.py:717-734 DiagnosisExecutionService._response] *)
Definition response (s : DiagnosisState) (result : option StructuredDiagnosisResult)
  : DiagnosisResponse :=
  mkResponse (session_id s) (run_id s) (trace_id s) (phase s) (intent s) result (evidence s)
    (evidence_refs s) (tool_results s) (clarification_questions s) (degraded_components s)
    (Some (memory_revision s)).

(** The result to explain, from the memory or the table.
    [agent/execution_service.py:789-798 result] *)
Definition previous_result (sid : string) (memory : option SessionMemoryPayload)
  : D (option StructuredDiagnosisResult) :=
  match memory ≫= final_result with
  | Some r => ret (Some r)
  | None => o <- gets (answer_latest sid) ;; ret (rs_result <$> o)
  end.

(** [agent/execution_service.py:776-887 DiagnosisExecutionService._explain_previous] *)
Definition explain_previous (sid tr : string) (key : option string) (fingerprint : string)
  (memory : option SessionMemoryPayload) (source : SessionSource) (msg : string)
  (actor : option ActorContext) : D DiagnosisResponse :=
  result <- previous_result sid memory ;;
  match result with
  | None => deny ConflictError
  | Some r =>
      latest <- run_latest sid ;;
      let parent := match memory with
                    | Some m => mem_run_id m
                    | None => match latest with Some l => rr_id l | None => "" end
                    end in
      rid <- fresh_id ;;
      run_create (fun t =>
        mkRunRow rid sid tr key fingerprint COMPLETED "running" (Some parent) "explanation"
          (memory ≫= mem_template_id) (memory ≫= mem_template_version)
          (memory ≫= mem_alarm_category) None None None t None t t)
        (Some (timeline_event_id sid USER_MESSAGE rid, sid, actor,
               JObj [("message", JStr msg)])) ;;;
      run_finish rid COMPLETED "completed" ;;;
      append sid DIAGNOSIS_RESULT rid rid None (dump_result r) ;;;
      started <- now ;; updated <- now ;;
      let refs := map evidence_id (res_evidence r) in
      let s := mkState sid rid tr COMPLETED source (Some msg) (Some "explain_previous_result")
                 (match memory with Some m => mem_revision m | None => 1 end) (Some parent)
                 (Some FOLLOWUP_CLARIFICATION) None None None None None None None [] []
                 (res_evidence r) refs (res_candidate_causes r) [] [] (res_risk_level r) [] []
                 [] (Some r) [] None "diag.response_generator.v1.0" started updated in
      emit_event EVENT_COMPLETED s ;;;
      ret (mkResponse sid rid tr COMPLETED (Some FOLLOWUP_CLARIFICATION) (Some r)
             (res_evidence r) refs [] [] [] (mem_revision <$> memory))
  end.

(** The run and the session at the start of a diagnosis, up to its initial state.
    [agent/execution_service.py:323-424 run_id] *)
Definition start_run (q : DiagnosisChatRequest) (key : option string)
  (actor : option ActorContext) (session : DiagnosisSession)
  (memory : option SessionMemoryPayload) (fingerprint tr : string) : D DiagnosisState :=
  let sid := chat_session_id q in
  rid <- fresh_id ;;
  run_create (fun t =>
    mkRunRow rid sid tr key fingerprint INIT "running"
      (Some (match memory with Some m => mem_run_id m | None => s_run_id session end))
      (if list_true (clarification_answers q) then "clarification" else "diagnosis")
      None None None None None None t None t t)
    (Some (timeline_event_id sid USER_MESSAGE rid, sid, actor,
           JObj [("message", JStr (message q))])) ;;;
  update_session sid [SetPhase INIT; SetRunId rid] ;;;
  for_each (fun a => append sid CLARIFICATION_ANSWER (rid ++ ":" ++ ca_question_id a)%string rid
                       actor (dump_answer a)) (clarification_answers q) ;;;
  started <- now ;; updated <- now ;;
  exn_of (initial_state q (mode_of q) session memory rid tr started updated).

(** The workflow with what is recorded when it is cancelled, or fails.
    [agent/execution_service.py:519-558 graph] *)
Definition guarded_workflow (session : DiagnosisSession) (initial : DiagnosisState)
  : D DiagnosisState :=
  let sid := session_id initial in
  let rid := run_id initial in
  new_run_executor ;;;
  catch (run_workflow initial) (fun a =>
    match a with
    | Cancelled =>
        run_finish rid (s_phase session) "cancelled" ;;;
        first <- stream_started ;;
        set_hardening_outcome rid first None (Some "stream_disconnected") ;;;
        update_session sid [SetPhase (s_phase session); SetRunId (s_run_id session)] ;;;
        raise Cancelled
    | Exc e =>
        run_finish rid PHASE_FAILED "failed" ;;;
        first <- stream_started ;;
        set_hardening_outcome rid first None (Some "workflow_exception") ;;;
        update_session sid [SetPhase PHASE_FAILED; SetRunId rid] ;;;
        raise (Exc e)
    end).

(** What is recorded of a workflow that returned.
    [agent/execution_service.py:559-657 state] *)
Definition record_outcome (q : DiagnosisChatRequest) (actor : option ActorContext)
  (rid tr : string) (output : DiagnosisState) : D DiagnosisResponse :=
  let sid := chat_session_id q in
  state <- exn_of (model_validate output) ;;
  set_template rid (diagnosis_template_id state) (diagnosis_template_version state)
    (alarm_category state) ;;;
  run_finish rid (phase state)
    (if bool_decide (phase state = COMPLETED) then "completed" else "waiting_input") ;;;
  first <- stream_started ;;
  set_hardening_outcome rid first (status <$> guardrail_decision state) None ;;;
  let result := final_response state in
  update_session sid
    ([SetPhase (phase state); SetRunId rid]
     ++ match result with
        | Some r => [SetFinalSummary (Some (res_summary r)); SetRiskLevel (res_risk_level r)]
        | None => []
        end) ;;;
  t <- now ;;
  memory_save (memory_payload t state result) ;;;
  for_each (fun c => append (session_id state) CLARIFICATION_QUESTION
                       (rid ++ ":" ++ question_id c)%string rid None (dump_question c))
    (clarification_questions state) ;;;
  match result with
  | Some r => append (session_id state) DIAGNOSIS_RESULT rid rid None (dump_result r)
  | None => ret tt
  end ;;;
  when (list_true (clarification_answers q)) (audit actor "clarification.submitted" sid tr) ;;;
  when (bool_decide (phase state = COMPLETED)) (emit_event EVENT_COMPLETED state) ;;;
  ret (response state result).

(** [agent/execution_service.py:237-657 DiagnosisExecutionService.diagnose] *)
Definition diagnose (q : DiagnosisChatRequest) (key : option string)
  (actor : option ActorContext) (event_emitter : option Emitter) : D DiagnosisResponse :=
  let sid := chat_session_id q in
  modify (fun d => d <| emitter := event_emitter |>) ;;;
  tr <- trace ;;
  row <- get_row sid ;;
  match row with
  | None => deny ResourceNotFoundError
  | Some session =>
      let fingerprint := request_fingerprint sha256 ("chat:" ++ sid)%string (dump_chat q) in
      existing <- (if ostr_true key then find_idempotent sid (or_empty key) else ret None) ;;
      match existing with
      | Some r =>
          require (bool_decide (rr_request_hash r = fingerprint)) IdempotencyConflictError ;;;
          get_session sid
      | None =>
          require (negb (bool_decide (s_phase session = PHASE_FAILED))) ConflictError ;;;
          memory <- memory_get sid ;;
          if bool_decide (s_phase session = COMPLETED) then
            require (bool_decide (mode_of q = "explain_previous_result")) ConflictError ;;;
            explain_previous sid tr key fingerprint memory (s_source session) (message q) actor
          else
            (if list_true (clarification_answers q) then exn_of (check_answers memory q)
             else ret tt) ;;;
            initial <- start_run q key actor session memory fingerprint tr ;;
            output <- guarded_workflow session initial ;;
            record_outcome q actor (run_id initial) tr output
      end
  end.
End Execution.
