(* ===== verification/DeskFrame.v ===== *)
(** * What the run of a request touches

    [touches sid rid] relates the stores before and after: everything done for the
    run [rid] of the session [sid] writes the rows of that session and that run,
    and a session becomes completed only by a run whose answer is stored. *)

From S2P Require Import Prelude Errors Breaker Json Float Contracts Store Timeline Sessions.
From S2P Require Import AgentState Tools ToolData Text Regex Guardrails Templates Nodes Workflow.
From S2P Require Import WorkflowFrame Memory Desk Execution.
Open Scope Z_scope.

(** The columns of a run that stay. *)
Definition run_view (r : DiagnosisRun) : string * string * option string * string * string :=
  (rr_id r, rr_session_id r, rr_idempotency_key r, rr_request_hash r, rr_run_type r).

(** The columns of a session that its runs keep. *)
Definition session_view (s : DiagnosisSession) :=
  (s_id s, s_source s, s_site_id s, s_device_id s, s_alarm_id s, s_alarm_name s, s_trace_id s,
   s_created_by s, latest_review_status s, s_created_at s).

(** The contexts in memory can be read back. *)
Definition memory_readable (m : SessionMemoryPayload) : Prop :=
  (forall d, mem_device_context m = Some d -> is_Some (dd_device_id d))
  /\ (forall a, mem_alarm_context m = Some a -> is_Some (ad_alarm_id a) /\ is_Some (ad_alarm_name a)).
Definition memory_ok (d : Desk) : Prop :=
  forall sid m e, memory d !! sid = Some (m, e) -> memory_readable m.

(** An answer names its run and its session. *)
Definition answer_key (a : ResultRow) : string * string := (rs_run_id a, rs_session_id a).
Definition answered (rid sid : string) (d : Desk) : Prop :=
  (rid, sid) ∈ map answer_key (answers d).
(** The answers of the run belong to the session. *)
Definition owned (rid sid : string) (d : Desk) : Prop :=
  forall a, a ∈ answers d -> rs_run_id a = rid -> rs_session_id a = sid.
(** The case lifecycle sees the newest answer of each session. *)
Definition results_ok (d : Desk) : Prop :=
  forall i, results (world d) !! i = case_view <$> answer_latest i d.

Record touches (sid rid : string) (d d' : Desk) : Prop := {
  tc_views : map run_view (runs d') = map run_view (runs d);
  tc_runs : filter (fun r => rr_id r <> rid) (runs d') = filter (fun r => rr_id r <> rid) (runs d);
  tc_answers : filter (fun r => rs_run_id r <> rid) (answers d')
               = filter (fun r => rs_run_id r <> rid) (answers d);
  tc_keys : owned rid sid d ->
    (map answer_key (answers d') = map answer_key (answers d)
     \/ ~ answered rid sid d
        /\ map answer_key (answers d') = map answer_key (answers d) ++ [(rid, sid)]);
  tc_sessions i : i <> sid -> sessions (world d') !! i = sessions (world d) !! i;
  tc_own s : sessions (world d) !! sid = Some s ->
    exists s', sessions (world d') !! sid = Some s' /\ session_view s' = session_view s;
  tc_done s' : owned rid sid d ->
    sessions (world d') !! sid = Some s' -> s_phase s' = COMPLETED ->
    (exists s, sessions (world d) !! sid = Some s /\ s_phase s = COMPLETED
               /\ s_run_id s = s_run_id s')
    \/ s_run_id s' = rid /\ answered rid sid d';
  tc_memory i : i <> sid -> memory d' !! i = memory d !! i;
  tc_readable : memory_ok d -> memory_ok d';
  tc_dedup : dedup_rows d' = dedup_rows d;
  tc_results i : i <> sid -> results (world d') !! i = results (world d) !! i;
  tc_results_ok : owned rid sid d -> results_ok d -> results_ok d';
  tc_timeline i : i <> sid -> session_events i (world d') = session_events i (world d);
  tc_cases : cases (world d') = cases (world d);
  tc_jobs : jobs (world d') = jobs (world d);
}.

Lemma owned_keys rid sid d :
  owned rid sid d <-> forall k, k ∈ map answer_key (answers d) -> fst k = rid -> snd k = sid.
Proof.
  split.
  - intros Ho k (a & -> & Ha)%list_elem_of_fmap. by apply Ho.
  - intros Hk a Ha. by apply (Hk (answer_key a)), list_elem_of_fmap_2.
Qed.

Lemma touches_owned sid rid d d' : touches sid rid d d' -> owned rid sid d -> owned rid sid d'.
Proof.
  intros T Ho. apply owned_keys. pose proof (proj1 (owned_keys _ _ _) Ho) as Hk.
  destruct (tc_keys _ _ _ _ T Ho) as [E|[_ E]]; rewrite E; [done|].
  intros k [Hin|Hin]%elem_of_app; [by apply Hk|].
  by apply list_elem_of_singleton in Hin as ->.
Qed.

Lemma touches_answered sid rid d d' :
  touches sid rid d d' -> owned rid sid d -> answered rid sid d -> answered rid sid d'.
Proof.
  intros T Ho Ha. unfold answered in *.
  destruct (tc_keys _ _ _ _ T Ho) as [->|[Hn _]]; [done|]. by destruct Hn.
Qed.

#[export] Instance touches_preorder sid rid : PreOrder (touches sid rid).
Proof.
  split.
  - intros d. split; try done; eauto.
  - intros d1 d2 d3 H1 H2.
    pose proof (touches_owned _ _ _ _ H1) as Ho. pose proof (touches_answered _ _ _ _ H2) as Ha.
    destruct H1 as [V1 U1 A1 N1 S1 O1 P1 M1 K1 D1 Q1 B1 T1 C1 J1],
      H2 as [V2 U2 A2 N2 S2 O2 P2 M2 K2 D2 Q2 B2 T2 C2 J2].
    split; try congruence; try (intros i Hi; rewrite ?S2, ?M2, ?Q2, ?T2 by done; by auto).
    + intros Hw. destruct (N1 Hw) as [E1|[Hn E1]], (N2 (Ho Hw)) as [E2|[Hn2 E2]];
        rewrite E2, E1; auto.
      * right. split; [|done]. unfold answered in *. by rewrite <-E1.
      * destruct Hn2. unfold answered. rewrite E1. apply elem_of_app. right. left.
    + intros s Hs. edestruct O1 as (s1 & H1 & E1); [exact Hs|].
      edestruct O2 as (s2 & H2 & E2); [exact H1|]. exists s2. split; [done|by etransitivity].
    + intros s' Hw Hs Hp. destruct (P2 s' (Ho Hw) Hs Hp) as [(s & Hs2 & Hp2 & E2)|[]]; [|auto].
      destruct (P1 s Hw Hs2 Hp2) as [(s1 & Hs1 & Hp1 & E1)|[E1 Hans]].
      * left. exists s1. split_and!; congruence.
      * right. split; [congruence|]. by apply Ha; [apply Ho|].
    + auto.
Qed.

Lemma map_filter_other {A} (key : A -> string) (f : A -> A) (i : string) (l : list A) :
  (forall a, key a = i -> key (f a) = i) ->
  filter (fun a => key a <> i) (map (fun a => if bool_decide (key a = i) then f a else a) l)
  = filter (fun a => key a <> i) l.
Proof.
  intros Hf. induction l as [|a l IH]; [done|]. simpl. rewrite !filter_cons, IH.
  case_bool_decide as E; [|done]. by rewrite !decide_False by (rewrite ?Hf by done; tauto).
Qed.

(** Lists that agree on [P] agree on what implies [P]. *)
Lemma filter_subsumed {A} (P Q : A -> Prop) `{!forall a, Decision (P a), !forall a, Decision (Q a)}
  (l l' : list A) :
  (forall a, a ∈ l ++ l' -> Q a -> P a) -> filter P l = filter P l' -> filter Q l = filter Q l'.
Proof.
  intros HQ Hf.
  assert (Hsub : forall k : list A, (forall a, a ∈ k -> Q a -> P a) ->
                   filter Q (filter P k) = filter Q k).
  { induction k as [|a k IH]; intros Hk; [done|]. rewrite !filter_cons.
    specialize (Hk a ltac:(left)) as Ha.
    destruct (decide (P a)); [rewrite filter_cons|];
      destruct (decide (Q a)); try tauto; rewrite IH; try done;
      intros b Hb; apply Hk; by right. }
  rewrite <-(Hsub l), <-(Hsub l'), Hf; [done|..];
    intros a Ha; apply HQ, elem_of_app; auto.
Qed.

(** A run of the workflow respects what its nodes respect. *)
Lemma workflow_framed `{Env} `{Unicode} `{DeskConfig} `{TW : ToolWorld ToolInput ToolData}
  `{ModelPort} (R : Desk -> Desk -> Prop) `{!PreOrder R} s0 :
  (forall n s, same_run s0 s -> phase s <> COMPLETED ->
     respects (framed R)
       (traced_node (R := service_runtime (session_id s0) (run_id s0) (trace_id s0)) n s)) ->
  phase s0 <> COMPLETED -> respects R (run_workflow s0).
Proof.
  intros Hn Hp d. unfold run_workflow.
  pose proof (run_from_framed (RT := service_runtime (session_id s0) (run_id s0) (trace_id s0))
                R s0 14 INTENT_ROUTER s0 Hn ltac:(reflexivity) Hp (mkRun ∅ d)) as Hf.
  unfold ainvoke. by destruct (run_from _ _ _ _) as [r o].
Qed.

Section Callbacks.
Context `{Env} `{Unicode} `{DeskConfig} `{TW : ToolWorld ToolInput ToolData} `{ModelPort}.
Context (sid rid : string).
Abbreviation R := (touches sid rid).

(** The clock and the logs are not looked at. *)
Ltac untouched := split; simpl; try done; eauto.

Lemma tc_now : respects R now.
Proof. intros d. untouched. Qed.
Lemma tc_step s : respects R (step_create s).
Proof. intros d. untouched. Qed.
Lemma tc_ask {A} (f : nat -> outcome abort A) : respects R (ask f).
Proof. intros d. untouched. Qed.
Lemma tc_executor : respects R new_run_executor.
Proof. intros d. untouched. Qed.
Lemma tc_started : respects R stream_started.
Proof. apply respects_gets, _. Qed.
Lemma tc_exn {A} (o : outcome exn A) : respects R (exn_of o).
Proof. destruct o; [apply respects_ret, _|apply respects_raise, _]. Qed.

Lemma tc_tool tr name i t : respects R (call_tool sid rid tr name i t).
Proof.
  intros d. unfold call_tool. destruct (execute name i t (executor d)) as [x o]. untouched.
Qed.

Lemma tc_emit ev s : respects R (emit_event ev s).
Proof. unfold emit_event. respect; try apply tc_now. intros d. untouched. Qed.

Lemma tc_update (f : DiagnosisRun -> DiagnosisRun) :
  (forall r, run_view (f r) = run_view r) -> respects R (update_run rid f).
Proof.
  intros Hf d. untouched.
  - rewrite map_map. apply map_ext. intros r. by case_bool_decide.
  - apply (map_filter_other rr_id). intros r <-. specialize (Hf r). by injection Hf.
Qed.

Lemma tc_template a b c : respects R (set_template rid a b c).
Proof. unfold set_template. respect; [apply tc_now|by apply tc_update]. Qed.
Lemma tc_hardening a b c : respects R (set_hardening_outcome rid a b c).
Proof. unfold set_hardening_outcome. respect; [apply tc_now|by apply tc_update]. Qed.
Lemma tc_finish p status : respects R (run_finish rid p status).
Proof. unfold run_finish. respect; [apply tc_now..|by apply tc_update]. Qed.

Lemma setattr_summary l s0 :
  (forall u, u ∈ l -> match u with SetFinalSummary _ | SetRiskLevel _ => True | _ => False end) ->
  let s1 := foldl session_setattr s0 l in
  session_view s1 = session_view s0 /\ s_phase s1 = s_phase s0 /\ s_run_id s1 = s_run_id s0.
Proof.
  revert s0. induction l as [|u l IH]; intros s0 Hl; [done|]. simpl.
  destruct (IH (session_setattr s0 u)) as (-> & -> & ->); [set_solver|].
  specialize (Hl u ltac:(left)). by destruct u.
Qed.

(** A session becomes completed by the run that answered it. *)
Lemma tc_session us (p : DiagnosisPhase) rid' (summary : list session_update) :
  us = [SetPhase p; SetRunId rid'] ++ summary ->
  (forall u, u ∈ summary -> match u with SetFinalSummary _ | SetRiskLevel _ => True | _ => False end) ->
  from (fun d => p = COMPLETED -> rid' = rid /\ answered rid sid d) R (update_session sid us).
Proof.
  intros -> Hsum d Hc. unfold update_session, on_world, bind, session_update_row, atomically.
  unfold bind, gets. destruct (sessions (world d) !! sid) as [s|] eqn:Hs; cbn -[app]; [|untouched].
  set (s1 := foldl _ _ _).
  assert (Hs1 : session_view s1 = session_view s /\ s_phase s1 = p /\ s_run_id s1 = rid').
  { unfold s1. rewrite foldl_app. simpl.
    match goal with |- context [foldl session_setattr ?s0 summary] =>
      destruct (setattr_summary summary s0 Hsum) as (-> & -> & ->) end. done. }
  destruct Hs1 as (Hv & Hp & Hr). split; simpl; try done; eauto.
  - intros i Hi. by rewrite lookup_insert_ne.
  - intros s0 [= <-]%(eq_trans (eq_sym Hs)). rewrite lookup_insert_eq. eexists. split; [done|].
    by rewrite <-Hv.
  - intros s' Ho. rewrite lookup_insert_eq. intros [= <-]. simpl. rewrite Hp, Hr.
    intros Hpc. right. by apply Hc.
Qed.

Lemma tc_phase p rid' :
  p <> COMPLETED -> respects R (update_session sid [SetPhase p; SetRunId rid']).
Proof.
  intros Hp d. apply (tc_session _ p rid' []); [done|by intros u ?%elem_of_nil|].
  by intros Hc.
Qed.

Lemma memory_payload_readable t s r : memory_readable (memory_payload t s r).
Proof.
  split; simpl; intros x; [destruct (device_context s)|destruct (alarm_context s)];
    intros [= <-]; simpl; eauto.
Qed.

Lemma memory_ok_insert d sid' m e :
  memory_readable m -> memory_ok d -> memory_ok (d <| memory ::= insert sid' (m, e) |>).
Proof.
  intros Hm Hok i m' e'. simpl. destruct (decide (i = sid')) as [->|Hi].
  - rewrite lookup_insert_eq. by intros [= <- _].
  - rewrite lookup_insert_ne by done. apply Hok.
Qed.

Lemma tc_save m : mem_session_id m = sid -> memory_readable m -> respects R (memory_save m).
Proof.
  intros <- Hm d. untouched.
  - intros i Hi. by rewrite lookup_insert_ne.
  - intros Hok.
    exact (memory_ok_insert (d <| world ::= fun w => w <| ticks ::= S |> |>) _ _ _ Hm Hok).
Qed.

Lemma latest_other i d d' :
  filter (fun a => rs_session_id a = i) (answers d') = filter (fun a => rs_session_id a = i) (answers d) ->
  answer_latest i d' = answer_latest i d.
Proof. unfold answer_latest. by intros ->. Qed.

(** Storing an answer, and what [World] shows of it. *)
Lemma put_answer_other res t l :
  filter (fun r => rs_run_id r <> rid) (put_answer rid sid res t l)
  = filter (fun r => rs_run_id r <> rid) l.
Proof.
  unfold put_answer. destruct (existsb _ _).
  - by apply (map_filter_other rs_run_id (fun r => mkResultRow rid sid res (rs_created_at r) t)).
  - rewrite list.filter_app, filter_cons_False, app_nil_r by tauto. done.
Qed.

Lemma put_answer_keys res t l :
  (forall a, a ∈ l -> rs_run_id a = rid -> rs_session_id a = sid) ->
  (map answer_key (put_answer rid sid res t l) = map answer_key l
   \/ ((rid, sid) ∉ map answer_key l)
      /\ map answer_key (put_answer rid sid res t l) = map answer_key l ++ [(rid, sid)])
  /\ (rid, sid) ∈ map answer_key (put_answer rid sid res t l).
Proof.
  intros Ho. unfold put_answer. destruct (existsb _ _) eqn:E.
  - assert (Hk : map answer_key (map (fun r => if bool_decide (rs_run_id r = rid)
        then mkResultRow rid sid res (rs_created_at r) t else r) l) = map answer_key l).
    { rewrite map_map. apply map_ext_in. intros a Ha%list_elem_of_In.
      case_bool_decide as Hr; [|done]. unfold answer_key. simpl. by rewrite Hr, (Ho a). }
    rewrite Hk. split; [by left|].
    apply existsb_exists in E as (a & Ha%list_elem_of_In & Hr%bool_decide_eq_true).
    apply list_elem_of_fmap. exists a. unfold answer_key. by rewrite Hr, (Ho a).
  - rewrite map_app. split; [right; split; [|done]|apply elem_of_app; right; left].
    intros (a & Hk & Ha)%list_elem_of_fmap. injection Hk as Hr _.
    enough (existsb (fun r => bool_decide (rs_run_id r = rid)) l = true) by congruence.
    apply existsb_exists. exists a. rewrite <-list_elem_of_In. split; [done|].
    by apply bool_decide_eq_true.
Qed.

Lemma put_answer_sessions res t l i :
  (forall a, a ∈ l -> rs_run_id a = rid -> rs_session_id a = sid) -> i <> sid ->
  filter (fun a => rs_session_id a = i) (put_answer rid sid res t l)
  = filter (fun a => rs_session_id a = i) l.
Proof.
  intros Ho Hi. apply (filter_subsumed (fun r => rs_run_id r <> rid) (fun a => rs_session_id a = i));
    [|apply put_answer_other].
  intros a [Ha|Ha]%elem_of_app <- Hr; [|by apply Hi, Ho].
  apply Hi. unfold put_answer in Ha. destruct (existsb _ _) eqn:E.
  - apply list_elem_of_fmap in Ha as (b & -> & Hb). case_bool_decide; [done|by apply Ho].
  - apply elem_of_app in Ha as [Ha| ->%list_elem_of_singleton]; [by apply Ho|done].
Qed.

Lemma newest_Some {A} (f : A -> Z) l : l <> [] -> is_Some (newest f l).
Proof.
  unfold newest. destruct l as [|x l]; [done|]. intros _. simpl. generalize x.
  induction l as [|y l IH]; intros z; simpl; [eauto|]. destruct (f z <=? f y); apply IH.
Qed.

Lemma answered_latest d : answered rid sid d -> is_Some (answer_latest sid d).
Proof.
  intros (a & Hk & Ha)%list_elem_of_fmap. injection Hk as _ Hs. apply newest_Some. intros E.
  assert (Hin : a ∈ filter (fun r => rs_session_id r = sid) (answers d)) by
    (by apply list_elem_of_filter).
  rewrite E in Hin. by apply not_elem_of_nil in Hin.
Qed.

Lemma tc_answer res : respects R (answer_upsert rid sid res).
Proof.
  unfold answer_upsert. apply respects_bind; [apply _|apply tc_now|]. intros t d.
  unfold bind, modify. cbv beta. set (d1 := d <| answers ::= put_answer rid sid res t |>).
  split; simpl; try done; eauto.
  - apply put_answer_other.
  - intros Ho. by apply put_answer_keys.
  - intros i Hi. destruct (answer_latest sid d1); [by rewrite lookup_insert_ne|done].
  - intros Ho Hok i. simpl. change (answer_latest i _) with (answer_latest i d1).
    destruct (answered_latest d1) as [r Hr]; [by apply put_answer_keys|].
    rewrite Hr. destruct (decide (i = sid)) as [->|Hi]; [by rewrite lookup_insert_eq, Hr|].
    rewrite lookup_insert_ne, (latest_other i d d1) by (done || by apply put_answer_sessions).
    apply Hok.
Qed.

Lemma answer_upsert_answers res d :
  owned rid sid d -> answered rid sid (fst (answer_upsert rid sid res d)).
Proof. intros Ho. unfold answered. by apply put_answer_keys. Qed.

(** ** The callbacks *)

(** Before a session is written as completed, its answer is there. *)
Definition ready (p : DiagnosisPhase) (d : Desk) : Prop := p = COMPLETED -> answered rid sid d.

Lemma ready_step p s : respects (keeps (ready p)) (step_create s).
Proof. intros d Hd. exact Hd. Qed.
Lemma ready_now p : respects (keeps (ready p)) now.
Proof. intros d Hd. exact Hd. Qed.
Lemma ready_template p a b c : respects (keeps (ready p)) (set_template rid a b c).
Proof. intros d Hd. unfold set_template, bind, gets. destruct (run_exists rid d); exact Hd. Qed.

Lemma ready_finish p a b : respects (keeps (ready p)) (run_finish rid a b).
Proof. intros d Hd. unfold run_finish, bind, gets. destruct (run_exists rid d); exact Hd. Qed.
Lemma ready_hardening p a b c : respects (keeps (ready p)) (set_hardening_outcome rid a b c).
Proof.
  intros d Hd. unfold set_hardening_outcome, bind, gets. destruct (run_exists rid d); exact Hd.
Qed.

Lemma tc_log_step s name o :
  session_id s = sid -> run_id s = rid ->
  (forall s', o = Ok s' -> session_id s' = sid /\ run_id s' = rid) ->
  from (fun d => forall s', o = Ok s' -> ready (phase s') d) R (log_step s name o).
Proof.
  intros Hs Hr Ho. unfold log_step. destruct o as [s'|e].
  - destruct (Ho s' eq_refl) as [Hs' Hr'].
    apply (from_weaken _ _ (ready (phase s'))); [|intros d Hd; by apply Hd].
    apply from_bind; [apply _|apply tc_step|apply ready_step|]. intros u.
    unfold model_validate. destruct (phase_requirements s'); [|intros d _; reflexivity].
    match goal with |- from _ _ (bind _ ?k) => change (from (ready (phase s')) R (k s')) end.
    cbv beta. rewrite Hs', Hr'.
    apply from_bind; [apply _|apply respects_when; [apply _|apply tc_template]|
      destruct (ostr_true _); [apply ready_template|apply respects_ret, _]|]. intros u1.
    apply from_bind_last; [apply _| |intros u2].
    + apply (from_weaken _ _ (fun d => phase s' = COMPLETED -> rid = rid /\ answered rid sid d)).
      * apply (tc_session _ (phase s') rid []); [by rewrite app_nil_r|set_solver].
      * intros d Hd Hc. split; [done|by apply Hd].
    + apply respects_bind; [apply _|apply tc_now|]. intros t.
      apply tc_save; [exact Hs'|apply (memory_payload_readable t s' None)].
  - intros d _. revert d. apply respects_bind; [apply _|apply tc_step|].
    intros u. apply respects_ret, _.
Qed.

Lemma tc_write s : session_id s = sid -> run_id s = rid -> respects R (write_memory s).
Proof.
  intros Hs Hr. unfold write_memory. rewrite Hs, Hr.
  destruct (final_response s); [apply tc_answer|apply respects_ret, _].
Qed.

Lemma service_frame tr s0 :
  session_id s0 = sid -> run_id s0 = rid ->
  @runtime_frame _ (service_runtime sid rid tr) R s0.
Proof.
  intros Hs Hr. split; intros; cbn.
  - apply tc_tool.
  - apply tc_emit.
  - apply tc_ask.
  - apply tc_ask.
  - apply tc_ask.
  - match goal with H : same_run _ _ |- _ => destruct H as (?&?&_) end. apply tc_write; congruence.
  - apply tc_now.
Qed.

(** The memory writer stores the answer before its session is completed. *)
Lemma tc_memory_writer tr s r :
  session_id s = sid -> run_id s = rid -> owned rid sid (env r) ->
  framed R r (fst (traced_node (R := service_runtime sid rid tr) MEMORY_WRITER s r)).
Proof.
  intros Hs Hr Ho. unfold traced_node. cbn [node_body]. unfold memory_writer_node, port, framed.
  unfold bind, except, catch. cbn [memory_writer step_logger service_runtime node_name].
  pose proof (tc_write s Hs Hr (env r)) as Hw.
  destruct (write_memory s (env r)) as [d1 o1] eqn:E1. simpl in Hw. destruct o1 as [u|a].
  - cbn [env tool_data]. set (s' := s <| phase := COMPLETED |>).
    pose proof (tc_log_step s "memory_writer" (Ok s') Hs Hr) as Hl.
    destruct (log_step s "memory_writer" (Ok s') d1) as [d2 o2] eqn:E2.
    assert (Hd : R d1 d2).
    2: { unfold ret. match goal with |- context [log_step ?a ?b ?c ?d] => change (log_step a b c d) with (log_step s "memory_writer" (Ok s') d1) end.
      rewrite E2. destruct o2; simpl; (etransitivity; [exact Hw|exact Hd]). }
    destruct (final_response s) as [res|] eqn:Hf.
    + replace d2 with (fst (log_step s "memory_writer" (Ok s') d1)) by by rewrite E2.
      apply Hl; [by intros s1 [= <-]|]. intros s1 [= <-] _. unfold write_memory in E1.
      rewrite Hf, Hs, Hr in E1.
      replace d1 with (fst (answer_upsert rid sid res (env r))) by by rewrite E1.
      by apply answer_upsert_answers.
    + unfold log_step, bind, step_create, modify in E2.
      assert (Hv : model_validate s' = Raise ValidationError) by
        (unfold model_validate, phase_requirements, s'; simpl; by rewrite Hf).
      rewrite Hv in E2. injection E2 as <- _. exact (tc_step _ d1).
  - destruct a as [e|]; [|done]. unfold write_memory in E1. destruct (final_response s); [|done].
    by injection E1.
Qed.

(** While the answers of the run belong to its session. *)
Definition touches_owned_run (d d' : Desk) : Prop := owned rid sid d -> R d d'.
#[local] Instance touches_owned_preorder : PreOrder touches_owned_run.
Proof.
  split; [by intros d Ho|]. intros d1 d2 d3 T1 T2 Ho.
  etransitivity; [by apply T1|]. by apply T2, (touches_owned _ _ _ _ (T1 Ho)).
Qed.

Lemma tc_traced tr n s :
  session_id s = sid -> run_id s = rid -> phase s <> COMPLETED ->
  respects (framed touches_owned_run) (traced_node (R := service_runtime sid rid tr) n s).
Proof.
  intros Hs Hr Hp. destruct (decide (n = MEMORY_WRITER)) as [->|Hn].
  - intros r Ho. by apply tc_memory_writer.
  - apply traced_framed; [apply _| |].
    + pose proof (service_frame tr s Hs Hr) as F.
      split; intros; intros d _; apply F; done.
    + intros o Ho d _. apply tc_log_step; [done..| |].
      * intros s' E. destruct (Ho s' E) as [(Hs1 & Hr1 & _) _]. split; congruence.
      * intros s' E Hc. destruct (Ho s' E) as [_ Hc']. by destruct (Hc' Hc).
Qed.

Lemma tc_workflow s0 :
  session_id s0 = sid -> run_id s0 = rid -> phase s0 <> COMPLETED ->
  from (owned rid sid) R (run_workflow s0).
Proof.
  intros Hs Hr Hp d Ho. apply (workflow_framed touches_owned_run); [|done|done].
  rewrite Hs, Hr. intros n s (Hs' & Hr' & _) Hps. by apply tc_traced; [congruence..|].
Qed.

(** ** The rest of a request *)

Lemma tc_append t key rid' actor pl : respects R (append sid t key rid' actor pl).
Proof.
  intros d. unfold append, on_world, timeline_append, timeline_insert, bind, atomically.
  unfold bind, gets. destruct (find_first _ (timeline (world d))); cbn -[session_events];
    split; simpl; try done; eauto.
  intros i Hi. unfold session_events. simpl. rewrite list.filter_app, filter_cons_False; [|done].
  by rewrite app_nil_r.
Qed.

Lemma tc_audit actor action sid' tr : respects R (audit actor action sid' tr).
Proof. unfold audit. destruct actor; [|apply respects_ret, _]. intros d. untouched. Qed.

(** The last state of a run, and how the workflow ends. *)
Lemma workflow_same s0 d d' s' :
  run_workflow s0 d = (d', Ok s') -> same_run s0 s' /\ phase_requirements s' = true.
Proof.
  unfold run_workflow. destruct (ainvoke s0 _) as [r [[s1|]|a]] eqn:E; intros Hrun;
    try discriminate Hrun.
  injection Hrun as _ <-. split; [by eapply run_from_same|].
  apply run_from_logged in E as (s2 & n & e & e' & _ & Hl & _). change (log_step s2 (node_name n) (Ok s1) e = (e', Ok tt)) in Hl.
  unfold log_step in Hl.
  apply bind_ok_inv in Hl as (u & e1 & _ & Hl). apply bind_ok_inv in Hl as (p & e2 & Hv & _).
  unfold model_validate in Hv. destruct (phase_requirements s1); [done|discriminate Hv].
Qed.
End Callbacks.
