(* ===== verification/DeskInv.v ===== *)
(** * The invariant of the diagnosis stores

    [desk_wf]: runs have distinct ids and a session has one run under a key; every
    run belongs to a session and every answer to a run; a completed session has
    the answer of its run; the case lifecycle sees the newest answers.  Every
    request of a session keeps it, and leaves the other sessions alone. *)

From S2P Require Import Prelude Errors Breaker Json Float Contracts Store Timeline Sessions.
From S2P Require Import AgentState Tools ToolData Text Regex Guardrails Templates Nodes Workflow.
From S2P Require Import WorkflowFrame Memory Desk Execution DeskFrame.
Open Scope Z_scope.

Definition run_of (rid sid : string) (d : Desk) : Prop :=
  exists r, r ∈ runs d /\ rr_id r = rid /\ rr_session_id r = sid.

Record desk_wf (d : Desk) : Prop := {
  wf_ids : NoDup (map rr_id (runs d));
  wf_keys r1 r2 k : r1 ∈ runs d -> r2 ∈ runs d -> rr_session_id r1 = rr_session_id r2 ->
    rr_idempotency_key r1 = Some k -> rr_idempotency_key r2 = Some k -> str_true k = true ->
    rr_id r1 = rr_id r2;
  wf_fk r : r ∈ runs d -> is_Some (sessions (world d) !! rr_session_id r);
  wf_answers rid sid : answered rid sid d -> run_of rid sid d;
  wf_done sid s : sessions (world d) !! sid = Some s -> s_phase s = COMPLETED ->
    answered (s_run_id s) sid d;
  wf_results : results_ok d;
}.

(** What a request of the session [sid] leaves alone. *)
Record elsewhere (sid : string) (d d' : Desk) : Prop := {
  el_sessions i : i <> sid -> sessions (world d') !! i = sessions (world d) !! i;
  el_memory i : i <> sid -> memory d' !! i = memory d !! i;
  el_results i : i <> sid -> results (world d') !! i = results (world d) !! i;
  el_runs i : i <> sid ->
    filter (fun r => rr_session_id r = i) (runs d') = filter (fun r => rr_session_id r = i) (runs d);
  el_answers i : i <> sid ->
    filter (fun a => rs_session_id a = i) (answers d')
    = filter (fun a => rs_session_id a = i) (answers d);
  el_timeline i : i <> sid -> session_events i (world d') = session_events i (world d);
  el_cases : cases (world d') = cases (world d);
  el_jobs : jobs (world d') = jobs (world d);
}.

#[export] Instance elsewhere_preorder sid : PreOrder (elsewhere sid).
Proof.
  split; [by intros d; split|]. intros d1 d2 d3 [A1 B1 C1 D1 E1 F1 G1 H1] [A2 B2 C2 D2 E2 F2 G2 H2].
  split; try congruence; intros i Hi;
    rewrite ?A2, ?B2, ?C2, ?D2, ?E2, ?F2 by done; auto.
Qed.

(** A run of the session, and what it is known to leave alone. *)
Lemma views_lookup {A B} (f : A -> B) (l l' : list A) x :
  map f l' = map f l -> x ∈ l -> exists y, y ∈ l' /\ f y = f x.
Proof.
  intros E Hx. assert (Hf : f x ∈ map f l') by (rewrite E; by apply list_elem_of_fmap_2).
  apply list_elem_of_fmap in Hf as (y & Hy & Hin). by exists y.
Qed.

Lemma views_ids (l l' : list DiagnosisRun) :
  map run_view l' = map run_view l -> map rr_id l' = map rr_id l.
Proof.
  intros E. change (map rr_id l') with (map (fun r => rr_id r) l').
  assert (Hv : forall k, map rr_id k = map (fun v => fst (fst (fst (fst v)))) (map run_view k)) by
    (intros k; by rewrite map_map).
  by rewrite !Hv, E.
Qed.

Lemma run_of_unique d rid sid r :
  desk_wf d -> run_of rid sid d -> r ∈ runs d -> rr_id r = rid -> rr_session_id r = sid.
Proof.
  intros W (r' & Hr' & Hid & <-) Hr Hrid. f_equal.
  apply list_elem_of_lookup in Hr as [i Hi], Hr' as [j Hj].
  assert (i = j) as ->; [|congruence].
  eapply (NoDup_lookup (map rr_id (runs d))); [apply W|..];
    apply list_lookup_fmap_Some; [by exists r|]. exists r'. split; [congruence|done].
Qed.

Lemma owned_wf d rid sid : desk_wf d -> run_of rid sid d -> owned rid sid d.
Proof.
  intros W Hrun a Ha Hrid.
  destruct (wf_answers d W (rs_run_id a) (rs_session_id a)) as (r & Hr & Hid & <-).
  { by apply (list_elem_of_fmap_2 answer_key). }
  apply (run_of_unique d rid sid r); congruence.
Qed.

Lemma touches_run sid rid d d' : touches sid rid d d' -> run_of rid sid d -> run_of rid sid d'.
Proof.
  intros T (r & Hr & Hid & Hsid). destruct (views_lookup _ _ _ _ (tc_views _ _ _ _ T) Hr) as (y & Hy & E).
  injection E as E1 E2 _ _ _. exists y. split_and!; congruence.
Qed.

Lemma touches_wf sid rid d d' :
  touches sid rid d d' -> run_of rid sid d -> desk_wf d -> desk_wf d'.
Proof.
  intros T Hrun W. pose proof (owned_wf _ _ _ W Hrun) as Ho.
  pose proof (tc_keys _ _ _ _ T Ho) as Hkeys.
  assert (Hsess : forall i, is_Some (sessions (world d) !! i) -> is_Some (sessions (world d') !! i)).
  { intros i [s Hs]. destruct (decide (i = sid)) as [->|Hi].
    - destruct (tc_own _ _ _ _ T _ Hs) as (s' & Hs' & _). eauto.
    - rewrite (tc_sessions _ _ _ _ T) by done. eauto. }
  assert (Hruns : forall r, r ∈ runs d' -> exists y, y ∈ runs d /\ run_view y = run_view r).
  { intros r Hr. by eapply views_lookup; [symmetry; apply T|]. }
  split.
  - rewrite (views_ids _ _ (tc_views _ _ _ _ T)). apply W.
  - intros r1 r2 k (y1 & Hy1 & E1)%Hruns (y2 & Hy2 & E2)%Hruns.
    injection E1 as <- <- <- _ _. injection E2 as <- <- <- _ _. by apply (wf_keys d W).
  - intros r (y & Hy & E)%Hruns. injection E as _ <- _ _ _. by apply Hsess, W.
  - intros rid' sid' Ha. assert (Hold : run_of rid' sid' d).
    { unfold answered in Ha. destruct Hkeys as [E|[_ E]]; rewrite E in Ha; [by apply W|].
      apply elem_of_app in Ha as [Ha|Ha]; [by apply W|].
      by apply list_elem_of_singleton in Ha as [= -> ->]. }
    destruct Hold as (r & Hr & Hid & Hsid).
    destruct (views_lookup _ _ _ _ (tc_views _ _ _ _ T) Hr) as (y & Hy & E).
    injection E as E1 E2 _ _ _. exists y. split_and!; congruence.
  - assert (Hmono : forall r s, answered r s d -> answered r s d').
    { unfold answered. intros r s Ha. destruct Hkeys as [->|[_ ->]]; [done|].
      apply elem_of_app. by left. }
    intros i s' Hs' Hp. destruct (decide (i = sid)) as [->|Hi].
    + destruct (tc_done _ _ _ _ T s' Ho Hs' Hp) as [(s & Hs & Hps & <-)|[-> Ha]]; [|done].
      by apply Hmono, (wf_done d W).
    + rewrite (tc_sessions _ _ _ _ T) in Hs' by done. by apply Hmono, (wf_done d W).
  - apply (tc_results_ok _ _ _ _ T Ho), W.
Qed.

Lemma touches_elsewhere sid rid d d' :
  touches sid rid d d' -> run_of rid sid d -> desk_wf d -> elsewhere sid d d'.
Proof.
  intros T Hrun W. pose proof (owned_wf _ _ _ W Hrun) as Ho.
  split; try apply T.
  - intros i Hi.
    apply (filter_subsumed (fun r => rr_id r <> rid) (fun r => rr_session_id r = i)); [|apply T].
    pose proof (touches_wf _ _ _ _ T Hrun W) as W'. pose proof (touches_run _ _ _ _ T Hrun) as Hrun'.
    intros r [Hr|Hr]%elem_of_app <- Hid; apply Hi;
      [by apply (run_of_unique d' rid sid r)|by apply (run_of_unique d rid sid r)].
  - intros i Hi.
    apply (filter_subsumed (fun r => rs_run_id r <> rid) (fun r => rs_session_id r = i)); [|apply T].
    pose proof (touches_owned _ _ _ _ T Ho) as Ho'.
    intros a [Ha|Ha]%elem_of_app <- Hid; apply Hi; [by apply Ho'|by apply Ho].
Qed.

(** ** Requests *)

(** Runs are only added, for the session, under the key and the hash of [mark]. *)
Definition added (sid : string) (mark : option string * string) (d d' : Desk) : Prop :=
  exists l, map run_view (runs d') = map run_view (runs d) ++ l
    /\ Forall (fun v => exists i t, v = (i, sid, fst mark, snd mark, t)) l.

#[export] Instance added_preorder sid mark : PreOrder (added sid mark).
Proof.
  split; [intros d; exists []; by rewrite app_nil_r|]. intros d1 d2 d3 (l & E & Hl) (l' & E' & Hl').
  exists (l ++ l'). split; [by rewrite E', E, app_assoc|by apply Forall_app].
Qed.

Lemma same_added sid mark d d' : map run_view (runs d') = map run_view (runs d) -> added sid mark d d'.
Proof. intros E. exists []. by rewrite app_nil_r. Qed.

(** The invariant is kept, the other sessions are left alone, runs are added as
    [mark] says; and the memory stays readable, provided [complete]. *)
Definition request (complete : Prop) (sid : string) (mark : option string * string) (d d' : Desk)
  : Prop :=
  desk_wf d -> desk_wf d' /\ elsewhere sid d d' /\ added sid mark d d'
               /\ (complete -> memory_ok d -> memory_ok d').

#[export] Instance request_preorder complete sid mark : PreOrder (request complete sid mark).
Proof.
  split; [by intros d W|]. intros d1 d2 d3 R1 R2 W. destruct (R1 W) as (W2 & E1 & A1 & M1).
  destruct (R2 W2) as (W3 & E2 & A2 & M2). split; [done|].
  split; [by etransitivity|]. split; [by etransitivity|auto].
Qed.

(** Nothing but the clock, the identifiers, the audit trail and the event stream. *)
Definition tables (d : Desk) :=
  (runs d, answers d, step_logs d, memory d, dedup_rows d, sessions (world d), results (world d),
   timeline (world d), cases (world d), jobs (world d)).
Definition idle (d d' : Desk) : Prop := tables d' = tables d.

#[export] Instance idle_preorder : PreOrder idle.
Proof. split; [by intros d|]. intros d1 d2 d3. unfold idle. by intros -> ->. Qed.

Lemma idle_request complete sid mark d d' : idle d d' -> request complete sid mark d d'.
Proof.
  intros E W. injection E as E1 E2 _ E4 _ E6 E7 E8 E9 E10. destruct W as [W1 W2 W3 W4 W5 W6].
  unfold answered, run_of, results_ok, answer_latest in *.
  split; [|split; [|split]];
    [split|split|apply same_added; by rewrite E1|unfold memory_ok; by rewrite E4];
    unfold answered, run_of, results_ok, answer_latest, session_events in *;
    rewrite ?E1, ?E2, ?E4, ?E6, ?E7, ?E8, ?E9, ?E10; try done; auto.
Qed.

(** What is known before a run is created: its session is there and the key is new. *)
Definition may_run (sid : string) (key : option string) (d : Desk) : Prop :=
  is_Some (sessions (world d) !! sid)
  /\ forall r k, r ∈ runs d -> rr_session_id r = sid -> rr_idempotency_key r = Some k ->
       key = Some k -> str_true k = false.

Lemma idle_may_run sid key d d' : idle d d' -> may_run sid key d -> may_run sid key d'.
Proof. intros E. injection E as E1 _ _ _ _ E6 _ _ _ _. unfold may_run. by rewrite E1, E6. Qed.

Section Requests.
Context `{Env} `{Unicode} `{DeskConfig} `{TW : ToolWorld ToolInput ToolData} `{ModelPort}.

(** Reads are idle. *)
Ltac idle := intros d; reflexivity.

Lemma idle_now : respects idle now.
Proof. idle. Qed.
Lemma idle_fresh : respects idle fresh_id.
Proof. idle. Qed.
Lemma idle_trace : respects idle trace.
Proof.
  unfold trace, on_world, Store.trace_id. destruct context_trace_id; idle.
Qed.
Lemma idle_row sid : respects idle (get_row sid).
Proof. idle. Qed.
Lemma idle_exn {A} (o : outcome exn A) : respects idle (exn_of o).
Proof. destruct o; [apply respects_ret, _|apply respects_raise, _]. Qed.
Lemma idle_require b c : respects idle (require b c).
Proof. destruct b; [apply respects_ret, _|apply respects_raise, _]. Qed.
Lemma idle_memory sid : respects idle (memory_get sid).
Proof. apply respects_bind; [apply _|apply idle_now|]. intros t. apply respects_gets, _. Qed.
Lemma idle_audit actor action sid tr : respects idle (audit actor action sid tr).
Proof.
  unfold audit. destruct actor; [idle|apply respects_ret, _].
Qed.
Lemma idle_emit ev s : respects idle (emit_event ev s).
Proof.
  unfold emit_event. apply respects_bind; [apply _|apply respects_gets, _|]. intros em.
  destruct em as [e|]; [|apply respects_ret, _]. destruct (closed e); [apply respects_ret, _|].
  apply respects_bind; [apply _| |intros first].
  { destruct (first_event_at e); [apply respects_ret, _|].
    apply respects_bind; [apply _|apply idle_now|]. intros t. apply respects_ret, _. }
  apply respects_bind; [apply _|apply idle_now|]. intros t. idle.
Qed.
Lemma idle_get sid : respects idle (get_session sid).
Proof.
  unfold get_session. apply respects_bind; [apply _|apply idle_trace|]. intros u.
  apply respects_bind; [apply _|apply idle_row|]. intros row.
  destruct row; [|apply respects_raise, _].
  apply respects_bind; [apply _|apply idle_memory|]. intros m.
  destruct m; [apply respects_ret, _|]. repeat (apply respects_bind; [apply _|apply respects_gets, _|intros ?]).
  apply respects_ret, _.
Qed.

Lemma respects_idle {A} complete sid mark (m : D A) :
  respects idle m -> respects (request complete sid mark) m.
Proof. intros Hm d. by apply idle_request. Qed.
Lemma keeps_may_run {A} sid key (m : D A) : respects idle m -> respects (keeps (may_run sid key)) m.
Proof. intros Hm d. exact (idle_may_run _ _ _ _ (Hm d)). Qed.

Lemma from_touches {A} complete sid mark rid (m : D A) :
  from (owned rid sid) (touches sid rid) m -> from (run_of rid sid) (request complete sid mark) m.
Proof.
  intros Hm d Hrun W. pose proof (Hm d (owned_wf _ _ _ W Hrun)) as T.
  split; [by eapply touches_wf|]. split; [by eapply touches_elsewhere|].
  split; [apply same_added, T|intros _; apply T].
Qed.

(** ** Creating a run *)

Definition event_of (sid : string) (ev : option (string * string * option ActorContext * json))
  : Prop := match ev with Some (_, s, _, _) => s = sid | None => True end.

Lemma run_create_inv row ev sid d d' o :
  event_of sid ev -> run_create row ev d = (d', o) ->
  idle d d' /\ (exists e, o = Raise (Exc e))
  \/ exists t, o = Ok (row t) /\ run_exists (rr_id (row t)) d = false
      /\ runs d' = runs d ++ [row t]
      /\ (answers d', memory d', dedup_rows d', sessions (world d'), results (world d'),
          cases (world d'), jobs (world d'))
         = (answers d, memory d, dedup_rows d, sessions (world d), results (world d),
            cases (world d), jobs (world d))
      /\ (forall i, i <> sid -> session_events i (world d') = session_events i (world d)).
Proof.
  intros Hev. unfold run_create, bind, now, on_world, Store.utc_now, gets, require, modify.
  cbn -[session_events max_sequence].
  set (t := utc (ticks (world d))). destruct (_ || _) eqn:Hc; cbn -[session_events max_sequence].
  - intros [= <- <-]. left. split; [done|by eexists].
  - apply orb_false_iff in Hc as [Hc _]. intros Hrun. right. exists t.
    destruct ev as [[[[eid sid'] actor] pl]|]; injection Hrun as <- <-; split_and!; try done.
    simpl in Hev. subst sid'. intros i Hi. unfold session_events. simpl.
    rewrite list.filter_app, filter_cons_False; [by rewrite app_nil_r|done].
Qed.

Lemma run_create_request complete row sid rid key fp ev :
  (forall t, rr_id (row t) = rid /\ rr_session_id (row t) = sid /\ rr_idempotency_key (row t) = key
             /\ rr_request_hash (row t) = fp) ->
  event_of sid ev ->
  from (may_run sid key) (request complete sid (key, fp)) (run_create row ev).
Proof.
  intros Hrow Hev d [Hs Hk] W. destruct (run_create row ev d) as [d' o] eqn:E. simpl.
  destruct (run_create_inv _ _ _ _ _ _ Hev E) as [[Hi _]|(t & -> & Hnew & Hruns & Htab & Htl)];
    [by apply (idle_request complete sid _ d)|].
  injection Htab as Ha Hm Hd Hse Hre Hca Hjo. destruct (Hrow t) as (Hid & Hsid & Hkey & Hhash).
  assert (Hfresh : rid ∉ map rr_id (runs d)).
  { intros (r & Hr & Hin)%list_elem_of_fmap.
    assert (run_exists (rr_id (row t)) d = true) as Hex; [|congruence].
    apply existsb_exists. exists r. rewrite <-list_elem_of_In. split; [done|].
    apply bool_decide_eq_true. congruence. }
  split; [|split; [|split]].
  - destruct W as [W1 W2 W3 W4 W5 W6]. split; rewrite ?Hruns, ?Hse.
    + rewrite map_app. apply NoDup_app. split; [done|]. split; [|apply NoDup_singleton].
      intros i Hi ->%list_elem_of_singleton. simpl in Hi. by rewrite Hid in Hi.
    + assert (Hold : forall r k, r ∈ runs d -> rr_session_id r = rr_session_id (row t) ->
        rr_idempotency_key r = Some k -> rr_idempotency_key (row t) = Some k ->
        str_true k = true -> False).
      { intros r k Hr E1 K1 K2 Hst. rewrite (Hk r k) in Hst; congruence. }
      intros r1 r2 k [Hr1|Hr1]%elem_of_app [Hr2|Hr2]%elem_of_app;
        try apply list_elem_of_singleton in Hr1 as ->; try apply list_elem_of_singleton in Hr2 as ->;
        intros E1 K1 K2 Hst; [by eapply W2|exfalso; by eapply Hold..|done].
    + intros r [Hr| ->%list_elem_of_singleton]%elem_of_app; [by apply W3|by rewrite Hsid].
    + intros rid' sid' Ha'. unfold answered in Ha'. rewrite Ha in Ha'.
      destruct (W4 _ _ Ha') as (r & Hr & ?). exists r. split; [|done].
      rewrite Hruns. apply elem_of_app. by left.
    + intros i s Hi Hp. unfold answered. rewrite Ha. by apply W5.
    + intros i. unfold answer_latest. rewrite Hre, Ha. apply W6.
  - split; rewrite ?Hse, ?Hm, ?Hre, ?Ha; try done.
    intros i Hi. rewrite Hruns, list.filter_app, filter_cons_False; [by rewrite app_nil_r|].
    by rewrite Hsid.
  - exists [run_view (row t)]. rewrite Hruns, map_app. split; [done|]. apply Forall_singleton.
    exists rid, (rr_run_type (row t)). unfold run_view. simpl. by rewrite Hid, Hsid, Hkey, Hhash.
  - intros _. unfold memory_ok. by rewrite Hm.
Qed.

Lemma run_create_run row sid rid ev d d' r :
  (forall t, rr_id (row t) = rid /\ rr_session_id (row t) = sid) -> event_of sid ev ->
  run_create row ev d = (d', Ok r) -> run_of rid sid d'.
Proof.
  intros Hrow Hev E.
  destruct (run_create_inv _ _ _ _ _ _ Hev E) as [[_ [e ?]]|(t & _ & _ & Hruns & _)]; [done|].
  exists (row t). rewrite Hruns. split; [apply elem_of_app; right; left|apply Hrow].
Qed.
(** ** A diagnosis *)

Lemma touches_request {A} complete sid mark rid (m : D A) :
  respects (touches sid rid) m -> from (run_of rid sid) (request complete sid mark) m.
Proof. intros Hm. apply from_touches, from_respects, Hm. Qed.

Lemma initial_fields q mode session memory rid tr t1 t2 s :
  initial_state q mode session memory rid tr t1 t2 = Ok s ->
  session_id s = chat_session_id q /\ run_id s = rid /\ phase s = INIT /\ trace_id s = tr.
Proof.
  unfold initial_state. intros Hi.
  repeat match type of Hi with
    | match ?x with _ => _ end = _ => destruct x; try discriminate Hi
    end; by injection Hi as <-.
Qed.

Lemma start_run_request complete q key actor session memory fp tr :
  from (may_run (chat_session_id q) key) (request complete (chat_session_id q) (key, fp))
    (start_run q key actor session memory fp tr).
Proof.
  unfold start_run. set (sid := chat_session_id q).
  apply from_bind; [apply _|apply respects_idle, idle_fresh|apply keeps_may_run, idle_fresh|].
  intros rid. cbv zeta.
  apply (from_bind_post _ _ (fun _ => run_of rid sid)).
  - by apply (run_create_request _ _ sid rid key).
  - intros d d' r _ E. by eapply run_create_run in E.
  - intros r. apply touches_request.
    apply respects_bind; [apply _|by apply tc_phase|intros u].
    apply respects_bind; [apply _|apply respects_for_each; [apply _|intros a; apply tc_append]|].
    intros u1. do 2 (apply respects_bind; [apply _|apply tc_now|intros ?]). apply tc_exn.
Qed.

Lemma start_run_post q key actor session memory fp tr d d' s :
  start_run q key actor session memory fp tr d = (d', Ok s) ->
  run_of (run_id s) (chat_session_id q) d' /\ session_id s = chat_session_id q /\ phase s = INIT.
Proof.
  unfold start_run. set (sid := chat_session_id q). intros Hrun.
  apply bind_ok_inv in Hrun as (rid & d1 & _ & Hrun).
  apply bind_ok_inv in Hrun as (r & d2 & Hc & Hrun).
  eapply (run_create_run _ sid rid) in Hc; [|done|done].
  apply bind_ok_inv in Hrun as (u & d3 & H3 & Hrun).
  apply bind_ok_inv in Hrun as (u1 & d4 & H4 & Hrun).
  apply bind_ok_inv in Hrun as (t1 & d5 & H5 & Hrun).
  apply bind_ok_inv in Hrun as (t2 & d6 & H6 & Hrun).
  destruct (initial_state _ _ _ _ _ _ _ _) as [s0|e] eqn:Hi; [|done].
  injection Hrun as <- <-. destruct (initial_fields _ _ _ _ _ _ _ _ _ Hi) as (Hs & -> & Hp & _).
  split; [|done].
  assert (T : touches sid rid d2 d6); [|by eapply touches_run].
  transitivity d3; [|transitivity d4; [|transitivity d5]].
  - eapply respects_fst; [|exact H3]. by apply tc_phase.
  - eapply respects_fst; [|exact H4].
    apply respects_for_each; [apply _|intros a; apply tc_append].
  - eapply respects_fst; [apply tc_now|exact H5].
  - eapply respects_fst; [apply tc_now|exact H6].
Qed.

(** A run is cancelled, fails, or returns. *)
Lemma guarded_touches session s sid :
  session_id s = sid -> phase s = INIT -> s_phase session <> COMPLETED ->
  from (owned (run_id s) sid) (touches sid (run_id s)) (guarded_workflow session s).
Proof.
  intros Hs Hp Hsp. unfold guarded_workflow. rewrite Hs. set (rid := run_id s).
  apply from_bind; [apply _|apply tc_executor|by intros d Ho; exact Ho|]. intros u.
  apply from_catch; [apply _|apply tc_workflow; [done..|by rewrite Hp]|].
  intros [e|]; (apply respects_bind; [apply _|apply tc_finish|]; intros u1;
    apply respects_bind; [apply _|apply tc_started|]; intros first;
    apply respects_bind; [apply _|apply tc_hardening|]; intros u2;
    apply respects_bind; [apply _|by apply tc_phase|intros u3; apply respects_raise, _]).
Qed.

Lemma guarded_request complete mark session s sid :
  session_id s = sid -> phase s = INIT -> s_phase session <> COMPLETED ->
  from (run_of (run_id s) sid) (request complete sid mark) (guarded_workflow session s).
Proof. intros Hs Hp Hsp. by apply from_touches, guarded_touches. Qed.

(** The session of a run that returned has the phase of its last state. *)
Lemma log_step_session s name s' d d' :
  log_step s name (Ok s') d = (d', Ok tt) ->
  exists x, sessions (world d') !! session_id s' = Some x /\ s_phase x = phase s'
            /\ s_run_id x = run_id s'.
Proof.
  unfold log_step. intros Hl. apply bind_ok_inv in Hl as (u & d1 & _ & Hl).
  apply bind_ok_inv in Hl as (p & d2 & Hv & Hl).
  assert (p = s') as ->.
  { unfold model_validate in Hv. destruct (phase_requirements s'); by injection Hv. }
  apply bind_ok_inv in Hl as (u1 & d3 & _ & Hl). apply bind_ok_inv in Hl as (u2 & d4 & Hu & Hl).
  unfold update_session, on_world, session_update_row, atomically, bind, gets in Hu.
  destruct (sessions (world d3) !! session_id s') as [x|] eqn:Hx; [|discriminate Hu].
  cbn in Hu. injection Hu as <- _. injection Hl as <-. simpl. rewrite lookup_insert_eq.
  eexists. split; [done|]. done.
Qed.

Lemma workflow_answered s0 sid d d' s' :
  session_id s0 = sid -> phase s0 = INIT -> run_of (run_id s0) sid d -> desk_wf d ->
  run_workflow s0 d = (d', Ok s') -> phase s' = COMPLETED -> answered (run_id s0) sid d'.
Proof.
  intros Hs Hp Hrun W E Hc. pose proof (owned_wf _ _ _ W Hrun) as Ho.
  assert (T : touches sid (run_id s0) d d').
  { replace d' with (fst (run_workflow s0 d)) by by rewrite E.
    apply tc_workflow; [done..|by rewrite Hp|done]. }
  destruct (workflow_same _ _ _ _ E) as [(Hs' & Hr' & _) _].
  unfold run_workflow in E. destruct (ainvoke s0 _) as [r [[s1|]|a]] eqn:Ea; try discriminate E.
  injection E as <- ->. apply run_from_logged in Ea as (s2 & n & e & e' & _ & Hl & He).
  apply log_step_session in Hl as (x & Hx & Hpx & Hrx). subst e'.
  rewrite Hs', Hs in Hx. rewrite Hr' in Hrx.
  destruct (tc_done _ _ _ _ T x Ho Hx) as [(s & Hss & Hps & Hrs)|[_ Ha]]; [congruence| |done].
  apply (touches_answered _ _ _ _ T Ho). rewrite <-Hrx, <-Hrs. by apply (wf_done d W).
Qed.

Lemma guarded_post session s sid d d' s' :
  session_id s = sid -> phase s = INIT -> run_of (run_id s) sid d -> desk_wf d ->
  guarded_workflow session s d = (d', Ok s') ->
  run_of (run_id s) sid d' /\ same_run s s' /\ phase_requirements s' = true
  /\ (phase s' = COMPLETED -> answered (run_id s) sid d').
Proof.
  intros Hs Hp Hrun W E. unfold guarded_workflow in E.
  apply bind_ok_inv in E as (u & d1 & Hx & E).
  assert (T : touches sid (run_id s) d d1) by (eapply respects_fst; [apply tc_executor|exact Hx]).
  pose proof (touches_run _ _ _ _ T Hrun) as Hrun1.
  pose proof (touches_wf _ _ _ _ T Hrun W) as W1. unfold catch in E.
  destruct (run_workflow s d1) as [d2 [s2|a]] eqn:Hw.
  - injection E as <- <-. split_and!; [|by eapply workflow_same..|by eapply workflow_answered].
    eapply touches_run; [|exact Hrun1]. replace d2 with (fst (run_workflow s d1)) by by rewrite Hw.
    apply tc_workflow; [done..|by rewrite Hp|by apply owned_wf].
  - exfalso. destruct a; repeat (apply bind_ok_inv in E as (? & ? & _ & E)); done.
Qed.

Lemma ready_kept {A} rid sid p (m : D A) :
  respects (fun d d' => answers d' = answers d) m -> respects (keeps (ready sid rid p)) m.
Proof. intros Hm d Hd Hp. unfold answered. rewrite Hm. by apply Hd. Qed.

(** What is recorded of the outcome. *)
Lemma record_touches q actor rid tr s :
  session_id s = chat_session_id q ->
  from (ready (chat_session_id q) rid (phase s)) (touches (chat_session_id q) rid)
    (record_outcome q actor rid tr s).
Proof.
  intros Hs. set (sid := chat_session_id q). unfold record_outcome, model_validate.
  destruct (phase_requirements s); [|intros d _; reflexivity]. fold sid.
  match goal with |- from ?P ?R (bind _ ?k) => change (from P R (k s)) end. cbv beta.
  apply from_bind; [apply _|apply tc_template|apply ready_template|]. intros u1.
  apply from_bind; [apply _|apply tc_finish|apply ready_finish|]. intros u2.
  apply from_bind; [apply _|apply tc_started|by intros d Hd|]. intros first.
  apply from_bind; [apply _|apply tc_hardening|apply ready_hardening|]. intros u3. cbv zeta.
  apply from_bind_last; [apply _| |intros u4].
  { apply (from_weaken _ _ (fun d => phase s = COMPLETED -> rid = rid /\ answered rid sid d));
      [|intros d Hd Hc; split; [done|by apply Hd]].
    eapply (tc_session sid rid _ (phase s) rid); [done|].
    destruct (final_response s); intros u; rewrite ?elem_of_cons, elem_of_nil;
      [intros [->|[->|[]]]; done|done]. }
  apply respects_bind; [apply _|apply tc_now|]. intros t.
  apply respects_bind; [apply _|apply tc_save; [exact Hs|apply memory_payload_readable]|]. intros u5.
  apply respects_bind; [apply _|apply respects_for_each; [apply _|]|intros u6].
  { intros c. rewrite Hs. apply tc_append. }
  apply respects_bind; [apply _| |intros u7].
  { destruct (final_response s); [rewrite Hs; apply tc_append|apply respects_ret, _]. }
  apply respects_bind; [apply _|apply respects_when; [apply _|apply tc_audit]|]. intros u8.
  apply respects_bind; [apply _|apply respects_when; [apply _|apply tc_emit]|]. intros u9.
  apply respects_ret, _.
Qed.

Lemma record_request complete mark q actor rid tr s :
  session_id s = chat_session_id q ->
  from (fun d => run_of rid (chat_session_id q) d
                 /\ (phase s = COMPLETED -> answered rid (chat_session_id q) d))
    (request complete (chat_session_id q) mark) (record_outcome q actor rid tr s).
Proof.
  intros Hs d [Hrun Hans] W. pose proof (record_touches q actor rid tr s Hs d Hans) as T.
  split; [by eapply touches_wf|]. split; [by eapply touches_elsewhere|].
  split; [apply same_added, T|intros _; apply T].
Qed.

Lemma idle_previous sid memory : respects idle (previous_result sid memory).
Proof.
  unfold previous_result. destruct (memory ≫= final_result); [apply respects_ret, _|].
  apply respects_bind; [apply _|apply respects_gets, _|intros o; apply respects_ret, _].
Qed.

Lemma explain_request complete sid tr key fp memory source msg actor :
  from (may_run sid key) (request complete sid (key, fp))
    (explain_previous sid tr key fp memory source msg actor).
Proof.
  unfold explain_previous. apply from_bind; [apply _|apply respects_idle, idle_previous|
    apply keeps_may_run, idle_previous|]. intros [r|]; [|intros d _; reflexivity].
  apply from_bind; [apply _|apply respects_idle, respects_gets, _|
    apply keeps_may_run, respects_gets, _|]. intros latest. cbv zeta.
  apply from_bind; [apply _|apply respects_idle, idle_fresh|apply keeps_may_run, idle_fresh|].
  intros rid. apply (from_bind_post _ _ (fun _ => run_of rid sid)).
  - by apply (run_create_request _ _ sid rid key).
  - intros d d' row _ E. by eapply run_create_run in E.
  - intros row. apply touches_request.
    apply respects_bind; [apply _|apply tc_finish|]. intros u1.
    apply respects_bind; [apply _|apply tc_append|]. intros u2.
    do 2 (apply respects_bind; [apply _|apply tc_now|intros ?]).
    apply respects_bind; [apply _|apply tc_emit|intros u3; apply respects_ret, _].
Qed.

Lemma get_row_eq sid d : get_row sid d = (d, Ok (sessions (world d) !! sid)).
Proof. by destruct d. Qed.

Lemma new_key sid key d :
  is_Some (sessions (world d) !! sid) ->
  (ostr_true key = true -> fst (find_idempotent sid (or_empty key) d) = d ->
   snd (find_idempotent sid (or_empty key) d) = Ok None) ->
  may_run sid key d.
Proof.
  intros Hs Hf. split; [done|]. intros r k Hr Hsid Hkey ->. destruct (str_true k) eqn:Hk; [|done].
  specialize (Hf Hk eq_refl). injection Hf as Hf. apply (find_first_None _ _ r) in Hf; [|done].
  cbv beta in Hf. by rewrite Hsid, Hkey, !bool_decide_eq_true_2 in Hf.
Qed.

Definition chat_fingerprint (q : DiagnosisChatRequest) : string :=
  request_fingerprint sha256 ("chat:" ++ chat_session_id q)%string (dump_chat q).

(** One request to diagnose. *)
Lemma diagnose_request complete q key actor em :
  respects (request complete (chat_session_id q) (key, chat_fingerprint q))
    (diagnose q key actor em).
Proof.
  set (sid := chat_session_id q). unfold diagnose. fold sid.
  change (request_fingerprint sha256 ("chat:" ++ sid)%string (dump_chat q))
    with (chat_fingerprint q).
  apply respects_bind; [apply _|apply respects_idle; by intros d|]. intros u.
  apply respects_bind; [apply _|apply respects_idle, idle_trace|]. intros tr.
  apply respects_from, (from_read _ _ _ (fun row d => sessions (world d) !! sid = row)).
  { intros d _. rewrite get_row_eq. by eexists. }
  intros [session|]; [|intros d _; reflexivity]. cbv zeta.
  set (found := if ostr_true key then _ else _).
  apply (from_read _ _ _ (fun existing d => existing = None -> may_run sid key d)).
  { intros d [_ Hs]. unfold found. destruct (ostr_true key) eqn:Hk; eexists; (split; [done|]);
      intros Hn; apply new_key; eauto; [|congruence]. intros _ _. unfold find_idempotent, gets. simpl.
    by rewrite Hn. }
  intros [r|].
  { apply from_respects. apply respects_bind; [apply _|apply respects_idle, idle_require|].
    intros u1. apply respects_idle, idle_get. }
  apply (from_weaken _ _ (may_run sid key)); [|by intros d [_ Hd]; apply Hd].
  apply from_bind; [apply _|apply respects_idle, idle_require|apply keeps_may_run, idle_require|].
  intros u1.
  apply from_bind; [apply _|apply respects_idle, idle_memory|apply keeps_may_run, idle_memory|].
  intros memory. case_bool_decide as Hphase.
  { apply from_bind; [apply _|apply respects_idle, idle_require|apply keeps_may_run, idle_require|].
    intros u2. apply explain_request. }
  set (checked := if list_true _ then _ else _).
  assert (Hck : respects idle checked) by
    (unfold checked; destruct (list_true _); [apply idle_exn|apply respects_ret, _]).
  apply from_bind; [apply _|by apply respects_idle|by apply keeps_may_run|]. intros u2.
  set (fp := chat_fingerprint q). clearbody fp.
  intros d Hd W. unfold bind.
  pose proof (start_run_request complete q key actor session memory fp tr d Hd W) as (W1 & E1 & A1 & M1).
  destruct (start_run q key actor session memory fp tr d) as [d1 [s|a]] eqn:Es;
    [|split_and!; [exact W1|exact E1|exact A1|exact M1]].
  destruct (start_run_post _ _ _ _ _ _ _ _ _ _ Es) as (Hrun & Hsid & Hp).
  simpl in W1, E1, A1, M1.
  pose proof (guarded_request complete (key, fp) session s sid Hsid Hp Hphase d1 Hrun W1)
    as (W2 & E2 & A2 & M2).
  destruct (guarded_workflow session s d1) as [d2 [s'|a]] eqn:Eg; simpl in W2, E2, A2, M2;
    [|split_and!; [done|by etransitivity|by etransitivity|auto]].
  destruct (guarded_post _ _ _ _ _ _ Hsid Hp Hrun W1 Eg) as (Hrun2 & (Hs' & _) & _ & Ha).
  destruct (record_request complete (key, fp) q actor (run_id s) tr s') with (s := d2)
    as (W3 & E3 & A3 & M3);
    [congruence|split; [done|exact Ha]|exact W2|].
  split_and!; [done|etransitivity; [exact E1|]; by etransitivity|
    etransitivity; [exact A1|]; by etransitivity|auto].
Qed.
(** ** Creating a session *)

(** Everything but the deduplication is as before. *)
Definition quiet (d d' : Desk) : Prop := idle (d <| dedup_rows := ∅ |>) (d' <| dedup_rows := ∅ |>).

#[local] Instance quiet_preorder : PreOrder quiet.
Proof. split; [by intros d|]. intros d1 d2 d3. unfold quiet, idle. by intros -> ->. Qed.

Lemma quiet_request complete sid mark d d' : quiet d d' -> request complete sid mark d d'.
Proof.
  intros Q W. assert (W1 : desk_wf (d <| dedup_rows := ∅ |>)) by (by destruct W).
  destruct (idle_request complete sid mark _ _ Q W1) as (W2 & E & A & M).
  split; [by destruct W2|split; [by destruct E|split; [exact A|exact M]]].
Qed.

Lemma quiet_may_run sid key d d' : quiet d d' -> may_run sid key d -> may_run sid key d'.
Proof. intros Q Hd. exact (idle_may_run sid key _ _ Q Hd). Qed.

Lemma idle_quiet {A} (m : D A) : respects idle m -> respects quiet m.
Proof.
  intros Hm d. specialize (Hm d). unfold quiet, idle, tables in *. simpl. congruence.
Qed.

Lemma quiet_hit device category alarm : respects quiet (dedup_hit device category alarm).
Proof.
  unfold dedup_hit. apply respects_bind; [apply _|apply idle_quiet, idle_now|]. intros t.
  apply respects_bind; [apply _|apply respects_gets, _|]. intros [r|]; [|apply respects_ret, _].
  case_match; [apply respects_ret, _|].
  apply respects_bind; [apply _|apply respects_gets, _|]. intros [x|]; [|apply respects_ret, _].
  case_bool_decide; [apply respects_ret, _|]. cbv zeta.
  apply respects_bind; [apply _| |intros u; apply respects_ret, _]. by intros d.
Qed.

Lemma quiet_register device category alarm sid :
  respects quiet (dedup_register device category alarm sid).
Proof.
  unfold dedup_register. apply respects_bind; [apply _|apply idle_quiet, idle_now|].
  by intros t d.
Qed.

(** A new session has no runs yet. *)
Lemma session_create_new row sid d d' :
  (forall t, s_id (row t) = sid /\ s_phase (row t) = INIT) ->
  desk_wf d -> session_create row d = (d', Ok tt) ->
  sessions (world d) !! sid = None /\ desk_wf d' /\ elsewhere sid d d'
  /\ (runs d', memory d') = (runs d, memory d)
  /\ forall key, may_run sid key d'.
Proof.
  intros Hrow W. unfold session_create, bind, now, on_world, Store.utc_now, gets, require, modify.
  cbn. set (t := utc (ticks (world d))). destruct (Hrow t) as [Hid Hp]. rewrite Hid.
  case_bool_decide as Hc; [done|]. intros [= <-].
  assert (Hn : sessions (world d) !! sid = None) by (by apply eq_None_not_Some).
  assert (Hlook : forall i, i <> sid -> <[sid := row t]> (sessions (world d)) !! i
                                       = sessions (world d) !! i) by
    (intros i Hi; by rewrite lookup_insert_ne).
  destruct W as [W1 W2 W3 W4 W5 W6]. split; [done|]. split; [split; simpl; try done|].
  - intros r Hr. destruct (decide (rr_session_id r = sid)) as [->|Hi];
      [by rewrite lookup_insert_eq|rewrite Hlook by done; by apply W3].
  - intros i s. destruct (decide (i = sid)) as [->|Hi].
    + rewrite lookup_insert_eq. intros [= <-]. by rewrite Hp.
    + rewrite Hlook by done. apply W5.
  - split; [by split|]. split; [done|]. intros key. split; simpl; [by rewrite lookup_insert_eq|].
    intros r k Hr Hs. specialize (W3 r Hr). rewrite Hs, Hn in W3. by destruct W3.
Qed.

(** Either nothing happened, or a session that was not there before was made. *)
Definition created (complete : Prop) (mark : option string * string) (d d' : Desk) : Prop :=
  quiet d d' \/ exists sid, sessions (world d) !! sid = None /\ request complete sid mark d d'.

Lemma created_bind {A B} complete mark (m : D A) (k : A -> D B) :
  respects quiet m -> (forall a, respects (created complete mark) (k a)) ->
  respects (created complete mark) (bind m k).
Proof.
  intros Hm Hk d. specialize (Hm d). unfold bind. destruct (m d) as [d1 [a|e]]; [|by left].
  simpl in Hm. destruct (Hk a d1) as [Hq|(sid & Hn & Hr)].
  - left. by transitivity d1.
  - right. exists sid. split.
    + pose proof Hm as E. injection E as _ _ _ _ E _ _ _ _. by rewrite <-E.
    + transitivity d1; [by apply quiet_request|done].
Qed.

Lemma quiet_created {A} complete mark (m : D A) :
  respects quiet m -> respects (created complete mark) m.
Proof. intros Hm d. left. apply Hm. Qed.

Lemma save_request (complete : Prop) sid mark m :
  mem_session_id m = sid -> (complete -> memory_readable m) ->
  respects (request complete sid mark) (memory_save m).
Proof.
  intros <- Hm d W. split; [by destruct W|]. split; [split; simpl; try done|].
  2: split; [by apply same_added|].
  - intros i Hi. by rewrite lookup_insert_ne.
  - intros Hc Hok.
    apply (memory_ok_insert (d <| world := fst (Store.utc_now (world d)) |>));
      [by apply Hm|exact Hok].
Qed.

Lemma new_session_request complete mark row sid key (k : D CreateSessionResponse) :
  (forall t, s_id (row t) = sid /\ s_phase (row t) = INIT) ->
  from (may_run sid key) (request complete sid mark) k ->
  respects (created complete mark) (session_create row ;;; k).
Proof.
  intros Hrow Hk d. unfold bind. destruct (session_create row d) as [d1 [[]|e]] eqn:E.
  - destruct (decide (sessions (world d) !! sid = None)) as [Hn|Hn].
    + right. exists sid. split; [done|]. intros W.
      destruct (session_create_new _ _ _ _ Hrow W E) as (_ & W1 & E1 & Hmem & Hm).
      destruct (Hk d1 (Hm key) W1) as (W2 & E2 & A2 & M2). injection Hmem as Hmr Hmem.
      split; [done|]. split; [by etransitivity|].
      split; [etransitivity; [|exact A2]; apply same_added; by rewrite Hmr|].
      intros Hc Hok. apply M2; [done|]. unfold memory_ok. by rewrite Hmem.
    + exfalso. revert E. unfold session_create, bind, now, on_world, Store.utc_now, gets, require.
      cbn. destruct (Hrow (utc (ticks (world d)))) as [-> _]. case_bool_decide as Hc; [done|].
      by apply eq_None_not_Some in Hc.
  - left. revert E. unfold session_create, bind, now, on_world, Store.utc_now, gets, require, modify.
    cbn. case_bool_decide; by intros [= <- _].
Qed.

(** The contexts of the session have their identifiers, and the alarm its name. *)
Definition complete (q : CreateSessionRequest) : Prop :=
  (is_Some (cr_site_id q) -> is_Some (cr_device_id q))
  /\ (is_Some (cr_alarm_id q) <-> is_Some (cr_alarm_name q)).

Lemma first_readable q sid rid tr t : complete q -> memory_readable (first_memory q sid rid tr t).
Proof.
  intros [Hd Ha]. split; simpl; intros x.
  - destruct (cr_site_id q), (cr_device_id q); intros [= <-]; simpl; eauto.
  - destruct (cr_alarm_id q), (cr_alarm_name q); intros [= <-]; simpl; split; eauto; by apply Ha.
Qed.

Definition create_fingerprint (q : CreateSessionRequest) : string :=
  request_fingerprint sha256 "create_session" (dump_create q).

Lemma create_created q key actor :
  respects (created (complete q) (key, create_fingerprint q)) (create_session q key actor).
Proof.
  unfold create_session. fold (create_fingerprint q). apply created_bind; [apply idle_quiet, idle_trace|]. intros tr. cbv zeta.
  apply created_bind; [destruct (ostr_true key); [apply respects_gets, _|apply respects_ret, _]|].
  intros [r|].
  { apply quiet_created, respects_bind; [apply _|apply idle_quiet, idle_require|]. intros u.
    apply respects_bind; [apply _|apply idle_quiet, idle_row|]. intros [x|];
      [apply respects_ret, _|apply respects_raise, _]. }
  set (dd := _ && _ && _ && _). clearbody dd.
  apply created_bind; [destruct dd; [apply quiet_hit|apply respects_ret, _]|]. intros [[sid n]|].
  { apply quiet_created, respects_bind; [apply _|apply idle_quiet, idle_row|].
    intros [x|]; [|apply respects_raise, _].
    apply respects_bind; [apply _|apply idle_quiet, idle_audit|intros u; apply respects_ret, _]. }
  apply created_bind; [apply idle_quiet, idle_fresh|]. intros sid.
  apply created_bind; [apply idle_quiet, idle_fresh|]. intros rid.
  apply (new_session_request _ _ _ sid key); [done|].
  apply (from_bind_post _ _ (fun _ => run_of rid sid)).
  - by apply (run_create_request _ _ sid rid key).
  - intros d d' row _ E. by apply (run_create_run _ sid rid) in E.
  - intros row. apply from_bind; [apply _|apply respects_idle, idle_now|by intros d Hd|]. intros t.
    apply from_respects, respects_bind; [apply _|by apply save_request, first_readable|]. intros u.
    apply respects_bind; [apply _|apply respects_when; [apply _|]|intros u1].
    { intros d. apply quiet_request, quiet_register. }
    apply respects_bind; [apply _|apply respects_idle, idle_audit|intros u2; apply respects_ret, _].
Qed.
End Requests.
