(* ===== verification/DeskProps.v ===== *)
(** * What the diagnosis service guarantees

    Theorems about every sequence of requests to create a session, to diagnose
    and to read back. *)

From S2P Require Import Prelude Errors Breaker Json Float Contracts Store Timeline Sessions.
From S2P Require Import AgentState Tools ToolData Text Regex Guardrails Templates Nodes Workflow.
From S2P Require Import DiagnosisRuns WorkflowFrame Memory Desk Execution DeskFrame DeskInv.
Open Scope Z_scope.

(** ** Histories *)

Inductive desk_op :=
| Create (q : CreateSessionRequest) (key : option string) (actor : option ActorContext)
| Chat (q : DiagnosisChatRequest) (key : option string) (actor : option ActorContext)
    (em : option Emitter)
| Read (sid : string).

Definition first_desk : Desk :=
  mkDesk empty_world [] [] [] ∅ ∅ (new_executor read_tools None) None 0.

Lemma first_desk_wf : desk_wf first_desk.
Proof.
  split; try done.
  - constructor.
  - by intros r1 r2 k H%elem_of_nil.
  - by intros r H%elem_of_nil.
  - by intros rid sid H%elem_of_nil.
Qed.

(** The session a request runs in. *)
Definition op_session (o : desk_op) : option string :=
  match o with Chat q _ _ _ => Some (chat_session_id q) | _ => None end.

(** The rows, the memory, the events of a session, and the cases made of it, are
    as before. *)
Record intact (i : string) (d d' : Desk) : Prop := {
  in_session : sessions (world d') !! i = sessions (world d) !! i;
  in_memory : memory d' !! i = memory d !! i;
  in_result : results (world d') !! i = results (world d) !! i;
  in_runs : filter (fun r => rr_session_id r = i) (runs d')
            = filter (fun r => rr_session_id r = i) (runs d);
  in_answers : filter (fun a => rs_session_id a = i) (answers d')
               = filter (fun a => rs_session_id a = i) (answers d);
  in_timeline : session_events i (world d') = session_events i (world d);
  in_cases : cases (world d') = cases (world d);
  in_jobs : jobs (world d') = jobs (world d);
}.

Lemma elsewhere_intact sid i d d' : elsewhere sid d d' -> i <> sid -> intact i d d'.
Proof. intros [] Hi. split; auto. Qed.

Lemma idle_intact i d d' : idle d d' -> intact i d d'.
Proof.
  intros E. injection E as E1 E2 _ E4 _ E6 E7 E8 E9 E10.
  split; unfold session_events; by rewrite ?E1, ?E2, ?E4, ?E6, ?E7, ?E8, ?E9, ?E10.
Qed.

Lemma quiet_intact i d d' : quiet d d' -> intact i d d'.
Proof. intros Q. by destruct (idle_intact i _ _ Q). Qed.

(** Sessions, answers and memory are as before. *)
Definition same_state (d d' : Desk) : Prop :=
  (sessions (world d'), answers d', memory d', results (world d'))
  = (sessions (world d), answers d, memory d, results (world d)).

#[export] Instance same_state_preorder : PreOrder same_state.
Proof. split; [by intros d|]. intros d1 d2 d3. unfold same_state. by intros -> ->. Qed.

Lemma idle_same d d' : idle d d' -> same_state d d'.
Proof. intros E. injection E as _ E2 _ E4 _ E6 E7 _ _ _. unfold same_state. congruence. Qed.

Section Histories.
Context `{Env} `{Unicode} `{DeskConfig} `{TW : ToolWorld ToolInput ToolData} `{ModelPort}.

(** A request; one the validation of the body refuses does not reach the service. *)
Definition perform (d : Desk) (o : desk_op) : Desk :=
  match o with
  | Create q key actor =>
      if validate_alarm_source q then fst (create_session q key actor d) else d
  | Chat q key actor em => fst (diagnose q key actor em d)
  | Read sid => fst (get_session sid d)
  end.
Definition history (ops : list desk_op) : Desk := foldl perform first_desk ops.

(** Requests whose new sessions have complete contexts. *)
Definition complete_op (o : desk_op) : Prop :=
  match o with Create q _ _ => complete q | _ => True end.

Lemma perform_kept d o :
  desk_wf d ->
  desk_wf (perform d o)
  /\ (complete_op o -> memory_ok d -> memory_ok (perform d o))
  /\ forall i, is_Some (sessions (world d) !! i) -> op_session o <> Some i ->
       intact i d (perform d o).
Proof.
  intros W. destruct o as [q key actor|q key actor em|sid]; simpl.
  - destruct (validate_alarm_source q);
      [|split; [done|split; [done|intros; by apply idle_intact]]].
    destruct (create_created q key actor d) as [Hq|(sid & Hn & Hr)].
    + destruct (quiet_request (complete q) "" (None, "") _ _ Hq W) as (W' & _ & _ & M).
      split; [done|split; [done|intros; by apply quiet_intact]].
    + destruct (Hr W) as (W' & E & _ & M). split; [done|split; [done|]]. intros i Hi _.
      apply (elsewhere_intact sid); [done|]. intros ->. rewrite Hn in Hi. by destruct Hi.
  - destruct (diagnose_request True q key actor em d W) as (W' & E & _ & M).
    split; [done|split; [by intros _; apply M|]]. intros i _ Hi.
    apply (elsewhere_intact (chat_session_id q)); [done|]. congruence.
  - pose proof (idle_get sid d) as Hi.
    destruct (idle_request True sid (None, "") _ _ Hi W) as (W' & _ & _ & M).
    split; [done|split; [by intros _; apply M|]]. intros i _ _. by apply idle_intact.
Qed.

Lemma history_snoc ops o : history (ops ++ [o]) = perform (history ops) o.
Proof. unfold history. by rewrite foldl_app. Qed.

Lemma history_wf ops : desk_wf (history ops).
Proof.
  induction ops as [|o ops IH] using rev_ind; [apply first_desk_wf|].
  rewrite history_snoc. by apply perform_kept.
Qed.

Lemma history_memory ops : Forall complete_op ops -> memory_ok (history ops).
Proof.
  induction ops as [|o ops IH] using rev_ind; intros Hc; [done|].
  rewrite history_snoc. apply Forall_app in Hc as [Hc [Ho _]%Forall_cons_1].
  destruct (perform_kept (history ops) o (history_wf ops)) as (_ & M & _). apply M; [exact Ho|by apply IH].
Qed.

(** ** Sessions that are over *)

Lemma from_idle_bind {A B} (P : Desk -> Prop) (R : Desk -> Desk -> Prop) `{!PreOrder R}
  (m : D A) (k : A -> D B) :
  (forall d d', idle d d' -> R d d') -> (forall d d', idle d d' -> P d -> P d') ->
  respects idle m -> (forall a, from P R (k a)) -> from P R (bind m k).
Proof.
  intros HR HP Hm Hk. apply from_bind; [done| | |done]; intros d; [apply HR, Hm|].
  intros Hd. by eapply HP, Hd.
Qed.

Lemma explain_same sid tr key fp m source msg actor :
  respects same_state (explain_previous sid tr key fp m source msg actor).
Proof.
  assert (I : forall A (x : D A), respects idle x -> respects same_state x) by
    (intros A x Hx d; apply idle_same, Hx).
  unfold explain_previous. apply respects_bind; [apply _|apply I, idle_previous|]. intros [r|];
    [|apply I; intros d; reflexivity].
  apply respects_bind; [apply _|apply respects_gets, _|]. intros latest. cbv zeta.
  apply respects_bind; [apply _|apply I, idle_fresh|]. intros rid.
  apply respects_bind; [apply _| |intros row].
  { intros d. destruct (run_create _ _ d) as [d' o] eqn:E.
    apply (run_create_inv _ _ sid) in E as [[Hi _]|(t & _ & _ & _ & E & _)]; [|..|done];
      [by apply idle_same|]. injection E as E1 E2 _ E4 E5 _ _. unfold same_state. simpl. congruence. }
  apply respects_bind; [apply _| |intros u1].
  { unfold run_finish. respect; try (apply I, idle_now). by intros d. }
  apply respects_bind; [apply _| |intros u2].
  { intros d. unfold append, on_world, timeline_append, timeline_insert, bind, atomically, gets.
    by destruct (find_first _ (timeline (world d))). }
  do 2 (apply respects_bind; [apply _|apply I, idle_now|intros ?]).
  apply respects_bind; [apply _|apply I, idle_emit|intros u3; apply respects_ret, _].
Qed.

Lemma terminal_diagnose q key actor em s :
  s_phase s = COMPLETED \/ s_phase s = PHASE_FAILED ->
  from (fun d => sessions (world d) !! chat_session_id q = Some s) same_state
    (diagnose q key actor em).
Proof.
  intros Hp. set (sid := chat_session_id q).
  assert (IR := idle_same).
  assert (IP : forall d d', idle d d' -> sessions (world d) !! sid = Some s ->
                 sessions (world d') !! sid = Some s).
  { intros d d' E. injection E as _ _ _ _ _ -> _ _ _ _. done. }
  unfold diagnose. fold sid. apply from_idle_bind; [apply _|done..|by intros d|]. intros u.
  apply from_idle_bind; [apply _|done..|apply idle_trace|]. intros tr.
  apply (from_read _ _ _ (fun row d => row = Some s /\ sessions (world d) !! sid = Some s)).
  { intros d Hs. rewrite get_row_eq. eexists. by split. }
  intros row. cbv zeta. destruct row as [x|]; [|intros d _; reflexivity].
  apply (from_weaken _ _ (fun d => x = s /\ sessions (world d) !! sid = Some s));
    [|intros d [_ [E Hs]]; split; [congruence|exact Hs]].
  intros d [-> Hs]. revert d Hs. apply from_idle_bind; [apply _|done..| |].
  { destruct (ostr_true key); [apply respects_gets, _|apply respects_ret, _]. }
  intros [r|].
  { apply from_respects. intros d. apply idle_same. revert d.
    apply respects_bind; [apply _|apply idle_require|intros u1; apply idle_get]. }
  destruct Hp as [Hp|Hp]; rewrite Hp.
  - apply from_idle_bind; [apply _|done..|apply idle_require|]. intros u1.
    apply from_idle_bind; [apply _|done..|apply idle_memory|]. intros m.
    rewrite bool_decide_eq_true_2 by done.
    apply from_idle_bind; [apply _|done..|apply idle_require|]. intros u2.
    apply from_respects, explain_same.
  - intros d _. reflexivity.
Qed.

(** ** Keys *)

Lemma same_run_id d r r' : desk_wf d -> r ∈ runs d -> r' ∈ runs d -> rr_id r = rr_id r' -> r = r'.
Proof.
  intros W [i Hi]%list_elem_of_lookup [j Hj]%list_elem_of_lookup E.
  assert (i = j) as ->; [|congruence].
  eapply (NoDup_lookup (map rr_id (runs d))); [apply W|..]; apply list_lookup_fmap_Some; eauto.
Qed.

(** A request under a key the session has used. *)
Lemma keyed_diagnose q k actor em d r s :
  str_true k = true -> sessions (world d) !! chat_session_id q = Some s ->
  find_first (fun r => bool_decide (rr_session_id r = chat_session_id q)
                      && bool_decide (rr_idempotency_key r = Some k)) (runs d) = Some r ->
  let d1 := fst (trace (d <| emitter := em |>)) in
  idle d d1 /\
  diagnose q (Some k) actor em d
  = if bool_decide (rr_request_hash r = chat_fingerprint q)
    then get_session (chat_session_id q) d1
    else (d1, Raise (Exc (Domain IdempotencyConflictError []))).
Proof.
  intros Hk Hs Hf. cbv zeta. unfold diagnose, bind at 1, modify. unfold bind at 1.
  pose proof (idle_trace (d <| emitter := em |>)) as Hi.
  destruct (trace _) as [d1 [tr|e]] eqn:Ht.
  2: { unfold trace, on_world, Store.trace_id in Ht. destruct context_trace_id; discriminate Ht. }
  split; [exact Hi|]. injection Hi as E1 _ _ _ _ E6 _ _ _ _. simpl in E1, E6.
  unfold bind at 1. rewrite get_row_eq, E6, Hs. cbn [ostr_true or_empty]. rewrite Hk.
  unfold bind at 1, find_idempotent, gets. rewrite E1, Hf. cbv beta iota zeta.
  fold (chat_fingerprint q). unfold require. by case_bool_decide.
Qed.

Lemma added_find d d' q k :
  added (chat_session_id q) (Some k, chat_fingerprint q) d d' ->
  length (runs d') = length (runs d) \/
  exists r, r ∈ runs d' /\ rr_session_id r = chat_session_id q /\ rr_idempotency_key r = Some k
    /\ rr_request_hash r = chat_fingerprint q.
Proof.
  intros (l & E & Hl). destruct l as [|v l].
  - left. rewrite <-(length_map run_view), E, app_nil_r, length_map. done.
  - right. apply Forall_cons_1 in Hl as [(i & t & ->) _]. simpl in E.
    assert (Hv : (i, chat_session_id q, Some k, chat_fingerprint q, t) ∈ map run_view (runs d')) by
      (rewrite E; apply elem_of_app; right; left).
    apply list_elem_of_fmap in Hv as (r & Hr & Hin). injection Hr as -> E1 E2 E3 ->. by exists r.
Qed.

Lemma trace_ok d : exists d' tr, trace d = (d', Ok tr).
Proof. unfold trace, on_world, Store.trace_id. destruct context_trace_id; by do 2 eexists. Qed.

(** ** Theorems *)

(** C7: sessions are isolated: a request of one session, or for a new one, leaves
    the row, the memory, the runs, the answers and the events of every other
    session as they were, and the cases and index jobs of the whole system. *)
Theorem sessions_isolated ops o i :
  let d := history ops in
  is_Some (sessions (world d) !! i) -> op_session o <> Some i -> intact i d (perform d o).
Proof. intros d Hi Ho. by apply perform_kept; [apply history_wf|..]. Qed.


(** C11: a request to diagnose takes effect once: unless it was refused before its
    run was created, the same request under the same key changes nothing and
    answers the state of the session, and another request under that key is
    refused. *)
Theorem chat_exactly_once ops q k actor em q' actor' em' :
  let d := history ops in let d1 := perform d (Chat q (Some k) actor em) in
  str_true k = true -> length (runs d1) <> length (runs d) ->
  chat_session_id q' = chat_session_id q ->
  idle d1 (perform d1 (Chat q' (Some k) actor' em')) /\
  snd (diagnose q' (Some k) actor' em' d1)
  = (if bool_decide (chat_fingerprint q' = chat_fingerprint q)
     then snd (get_session (chat_session_id q) (fst (trace (d1 <| emitter := em' |>))))
     else Raise (Exc (Domain IdempotencyConflictError []))).
Proof.
  intros d d1 Hk Hn Hq. pose proof (history_wf ops) as W. fold d in W.
  destruct (diagnose_request True q (Some k) actor em d W) as (W1 & _ & A & _).
  change (fst _) with d1 in W1, A.
  destruct (added_find _ _ _ _ A) as [?|(r & Hr & Hrs & Hrk & Hrh)]; [done|].
  destruct (wf_fk d1 W1 r Hr) as [s Hs]. rewrite Hrs in Hs.
  set (p := fun r => bool_decide (rr_session_id r = chat_session_id q')
                     && bool_decide (rr_idempotency_key r = Some k)).
  destruct (find_first p (runs d1)) as [r'|] eqn:Hf.
  2: { apply (find_first_None _ _ r) in Hf; [|done]. unfold p in Hf.
       by rewrite Hq, Hrs, Hrk, !bool_decide_eq_true_2 in Hf. }
  assert (r' = r) as ->.
  { apply find_first_Some in Hf as [Hr' [E1%bool_decide_eq_true E2%bool_decide_eq_true]%andb_true_iff].
    apply (same_run_id d1); [done..|]. apply (wf_keys d1 W1 _ _ k); congruence. }
  destruct (keyed_diagnose q' k actor' em' d1 r s Hk ltac:(congruence) Hf) as [Hi E]. cbv zeta in E.
  unfold perform. rewrite E, Hrh, Hq. clear E.
  rewrite (bool_decide_ext _ (chat_fingerprint q' = chat_fingerprint q)) by (split; congruence).
  case_bool_decide; (split; [|reflexivity]); [etransitivity; [exact Hi|apply idle_get]|exact Hi].
Qed.

(** a completed or failed session is over: whatever is asked of it or of
    others afterwards, its row, its memory and its answers stay as they are. *)
Theorem terminal_sessions_frozen ops ops' sid s :
  let d := history ops in let d' := foldl perform d ops' in
  sessions (world d) !! sid = Some s -> s_phase s = COMPLETED \/ s_phase s = PHASE_FAILED ->
  sessions (world d') !! sid = Some s /\ memory d' !! sid = memory d !! sid
  /\ filter (fun a => rs_session_id a = sid) (answers d')
     = filter (fun a => rs_session_id a = sid) (answers d)
  /\ results (world d') !! sid = results (world d) !! sid.
Proof.
  intros d d' Hs Hp. unfold d'. clear d'. subst d.
  induction ops' as [|o ops' IH] using rev_ind; [done|]. rewrite foldl_app. simpl.
  destruct IH as (Hs1 & <- & <- & <-).
  assert (W : desk_wf (foldl perform (history ops) ops')) by
    (unfold history; rewrite <-foldl_app; apply history_wf).
  set (d1 := foldl perform (history ops) ops') in *. clearbody d1.
  destruct (decide (op_session o = Some sid)) as [Ho|Ho].
  - destruct o as [| q key actor em|]; try done. injection Ho as <-.
    pose proof (terminal_diagnose q key actor em s Hp d1 Hs1) as E. simpl in *.
    injection E as -> -> -> ->. done.
  - destruct (perform_kept d1 o W) as (_ & _ & Hi).
    destruct (Hi sid ltac:(eauto) Ho) as [-> -> -> _ -> _ _ _]. done.
Qed.


(** ** Answers to questions *)

Lemma check_each_spec pending resolved seen l :
  check_each pending resolved seen l = Ok tt <->
  NoDup (map ca_question_id l)
  /\ forall a, a ∈ l -> strip (ca_answer a) <> "" /\ ca_question_id a ∈ pending
       /\ (ca_question_id a ∉ resolved) /\ (ca_question_id a ∉ seen).
Proof.
  revert seen. induction l as [|a l IH]; intros seen; simpl.
  - split; [intros _|done]. split; [apply NoDup_nil_2|by intros a ?%elem_of_nil].
  - repeat case_bool_decide; rewrite ?IH, NoDup_cons; split; try done.
    + intros [_ Ha]. destruct (Ha a) as [? _]; [left|done].
    + intros [_ Ha]. destruct (Ha a) as (_ & _ & ? & ?); [left|tauto].
    + intros [_ Ha]. destruct (Ha a) as (_ & ? & _); [left|done].
    + intros [Hn Ha]. split.
      * split; [|done]. intros (b & E & Hb)%list_elem_of_fmap.
        destruct (Ha b Hb) as (_ & _ & _ & Hs). rewrite <-E in Hs. destruct Hs. left.
      * intros b [->|Hb]%elem_of_cons; [tauto|]. destruct (Ha b Hb) as (? & ? & ? & Hs).
        split_and!; try done. intros Hin. apply Hs. by right.
    + intros [[Hni Hn] Ha]. split; [done|]. intros b Hb.
      destruct (Ha b) as (? & ? & ? & ?); [by right|]. split_and!; try done.
      intros [E|Hin]%elem_of_cons; [|done]. apply Hni. rewrite <-E.
      by apply (list_elem_of_fmap_2 ca_question_id).
Qed.

(** the answers of a request are accepted exactly when the session has a
    memory of the revision the user expects, no question is answered twice, and
    each answer is not blank and for a question that waits for one. *)
Theorem answers_accepted memory q :
  check_answers memory q = Ok tt <->
  exists m, memory = Some m
    /\ (forall n, expected_memory_revision q = Some n -> n = mem_revision m)
    /\ NoDup (map ca_question_id (clarification_answers q))
    /\ forall a, a ∈ clarification_answers q ->
         strip (ca_answer a) <> "" /\ ca_question_id a ∈ pending_of m
         /\ (ca_question_id a ∉ resolved_question_ids m).
Proof.
  assert (Hc : forall m, check_each (pending_of m) (resolved_question_ids m) []
      (clarification_answers q) = Ok tt <->
    NoDup (map ca_question_id (clarification_answers q))
    /\ forall a, a ∈ clarification_answers q ->
         strip (ca_answer a) <> "" /\ ca_question_id a ∈ pending_of m
         /\ (ca_question_id a ∉ resolved_question_ids m)).
  { intros m. rewrite check_each_spec. split; intros [Hn Ha]; (split; [done|]); intros a Hin;
      destruct (Ha a Hin) as (?&?&?); split_and!; try tauto. apply not_elem_of_nil. }
  unfold check_answers. destruct memory as [m|]; [|by split; [done|intros (m & ? & _)]].
  destruct (expected_memory_revision q) as [n|]; [case_bool_decide as Hr|].
  - rewrite Hc. split; [intros []; exists m; split_and!; [done|by intros ? [= <-]|done..]|].
    by intros (m' & [= <-] & _ & ?).
  - split; [done|]. intros (m' & [= <-] & Hn & _). by destruct Hr, (Hn n).
  - rewrite Hc. split; [intros []; by exists m|]. by intros (m' & [= <-] & _ & ?).
Qed.

(** ** Repeated alarms *)

(** an alarm of a device that comes again within the window, by whatever
    spelling of its name has the same normal form, is merged into the session it
    has: no session and no run is made, the hits are counted and the window is
    extended. *)
Theorem repeated_alarm_merges q actor d device alarm name r s :
  let d0 := fst (trace d) in let t := utc (ticks (world d0)) in
  let key := alarm_dedup_key device name in
  cr_source q = ALARM -> cr_device_id q = Some device -> cr_alarm_id q = Some alarm ->
  cr_alarm_name q = Some name ->
  str_true device = true -> str_true alarm = true -> str_true name = true ->
  dedup_rows d !! key = Some r -> t < dd_expires_at r ->
  sessions (world d) !! dd_session_id r = Some s -> s_phase s <> PHASE_FAILED ->
  let x := create_session q None actor d in
  snd x = Ok (mkCreated (dd_session_id r) (s_run_id s) (s_phase s) (s_trace_id s) true
                (hit_count r + 1))
  /\ idle (d <| dedup_rows ::= insert key
             (mkDedup (dd_device r) (dd_alarm_category r) (dd_session_id r)
                (sorted_set (alarm_ids r ++ [alarm])) (first_seen_at r) t
                (t + seconds window_seconds) (hit_count r + 1)) |>) (fst x).
Proof.
  intros d0 t key Hsrc Hdev Hal Hname Td Ta Tn Hrow Ht Hs Hp x.
  destruct (trace_ok d) as (d1 & tr & E). assert (d0 = d1) as Hd0 by (unfold d0; by rewrite E).
  pose proof (idle_trace d) as Hi. rewrite E in Hi. simpl in Hi.
  unfold x, create_session. rewrite (bind_ok _ _ _ _ _ E). cbn [ostr_true]. rewrite bind_ret.
  cbv beta iota zeta. rewrite Hsrc, Hdev, Hal, Hname. cbn [ostr_true or_empty andb].
  rewrite Td, Ta, Tn. cbn [andb]. subst d1. clearbody d0.
  injection Hi as Ei Ea El Em Er Es Et Eu Ec Ej.
  assert (Hhit : exists d2, dedup_hit device name alarm d0
    = (d2, Ok (Some (dd_session_id r, hit_count r + 1)))
    /\ idle (d0 <| dedup_rows ::= insert key
         (mkDedup (dd_device r) (dd_alarm_category r) (dd_session_id r)
            (sorted_set (alarm_ids r ++ [alarm])) (first_seen_at r) t
            (t + seconds window_seconds) (hit_count r + 1)) |>) d2).
  { eexists. unfold dedup_hit, now, on_world, Store.utc_now, bind, gets, modify. fold key.
    cbn -[seconds sorted_set]. rewrite Er, Hrow. cbn -[seconds sorted_set].
    apply Z.leb_gt in Ht. fold t. rewrite Ht. cbn -[seconds sorted_set]. rewrite Es, Hs.
    rewrite bool_decide_eq_false_2 by done. split; [reflexivity|].
    unfold idle, tables. cbn -[seconds sorted_set]. by rewrite Es. }
  destruct Hhit as (d2 & Hh & Hi2). rewrite (bind_ok _ _ _ _ _ Hh).
  cbv beta iota. rewrite (bind_ok _ _ _ _ _ (get_row_eq _ d2)). cbv beta.
  injection Hi2 as Ei2 Ea2 El2 Em2 Er2 Es2 Et2 Eu2 Ec2 Ej2. simpl in *. rewrite Es2, Es, Hs.
  pose proof (idle_audit actor "diagnosis.alarm_merged" (dd_session_id r) tr d2) as Hi3.
  assert (Ha : exists d3, audit actor "diagnosis.alarm_merged" (dd_session_id r) tr d2 = (d3, Ok tt)) by
    (unfold audit; destruct actor; by eexists).
  destruct Ha as [d3 Ha]. rewrite Ha in Hi3. rewrite (bind_ok _ _ _ _ _ Ha). split; [done|].
  etransitivity; [|exact Hi3]. unfold idle, tables. simpl. congruence.
Qed.
End Histories.
