(* ===== verification/RunStatus.v ===== *)
(** * How runs end

    A run of the diagnosis service is created as running; when its session can be
    read from memory, the request leaves it completed, waiting for input,
    cancelled or failed. *)

From S2P Require Import Prelude Errors Breaker Json Float Contracts Store Timeline Sessions.
From S2P Require Import AgentState Tools ToolData Text Regex Guardrails Templates Nodes Workflow.
From S2P Require Import DiagnosisRuns WorkflowFrame Memory Desk Execution DeskFrame DeskInv DeskProps.
Open Scope Z_scope.

Definition none_running (d : Desk) : Prop := forall r, r ∈ runs d -> rr_status r <> "running".
Definition others_done (rid : string) (d : Desk) : Prop :=
  forall r, r ∈ runs d -> rr_id r <> rid -> rr_status r <> "running".

(** No status changes. *)
Definition same_status (d d' : Desk) : Prop := map rr_status (runs d') = map rr_status (runs d).

#[export] Instance same_status_preorder : PreOrder same_status.
Proof. split; [by intros d|]. intros d1 d2 d3. unfold same_status. by intros -> ->. Qed.

Lemma same_status_done d d' : same_status d d' -> none_running d -> none_running d'.
Proof.
  intros E Hd r Hr. destruct (views_lookup _ _ _ _ (eq_sym E) Hr) as (y & Hy & <-). by apply Hd.
Qed.

Lemma idle_status d d' : idle d d' -> same_status d d'.
Proof. intros E. injection E as E _ _ _ _ _ _ _ _ _. unfold same_status. by rewrite E. Qed.

Lemma idle_keeps d d' : idle d d' -> keeps none_running d d'.
Proof. intros Hi Hd. eapply same_status_done; [by apply idle_status|exact Hd]. Qed.

Lemma touches_others sid rid d d' : touches sid rid d d' -> others_done rid d -> others_done rid d'.
Proof.
  intros T Ho r Hr Hid. apply Ho; [|done]. apply (list_elem_of_filter (fun r => rr_id r <> rid)).
  rewrite <-(tc_runs _ _ _ _ T). by apply list_elem_of_filter.
Qed.

Section Statuses.
Context `{Env} `{Unicode} `{DeskConfig} `{TW : ToolWorld ToolInput ToolData} `{ModelPort}.

(** ** What leaves the statuses alone *)

Lemma st_idle {A} (m : D A) : respects idle m -> respects same_status m.
Proof. intros Hm d. apply idle_status, Hm. Qed.

Lemma st_update i (f : DiagnosisRun -> DiagnosisRun) :
  (forall r, rr_status (f r) = rr_status r) -> respects same_status (update_run i f).
Proof.
  intros Hf d. unfold same_status. simpl. rewrite map_map. apply map_ext. intros r.
  by case_bool_decide.
Qed.

Lemma st_hardening i a b c : respects same_status (set_hardening_outcome i a b c).
Proof. unfold set_hardening_outcome. respect; [apply st_idle, idle_now|by apply st_update]. Qed.
Lemma st_session sid us : respects same_status (update_session sid us).
Proof.
  intros d. unfold update_session, on_world, bind, session_update_row, atomically, bind, gets.
  by destruct (sessions (world d) !! sid).
Qed.
Lemma st_append sid t key rid actor pl : respects same_status (append sid t key rid actor pl).
Proof.
  intros d. unfold append, on_world, timeline_append, timeline_insert, bind, atomically, gets.
  by destruct (find_first _ (timeline (world d))).
Qed.
Lemma st_save m : respects same_status (memory_save m).
Proof. by intros d. Qed.
Lemma st_started : respects same_status stream_started.
Proof. apply respects_gets, _. Qed.

(** ** What ends a run *)

Lemma finish_done rid p st d :
  st <> "running" -> others_done rid d -> none_running (fst (run_finish rid p st d)).
Proof.
  intros Hst Ho. unfold run_finish, bind, gets. destruct (run_exists rid d) eqn:E.
  - simpl. intros r (r0 & -> & Hr0)%list_elem_of_fmap. case_bool_decide; [exact Hst|by apply Ho].
  - intros r Hr. apply Ho; [exact Hr|]. intros Hid.
    enough (run_exists rid d = true) by congruence.
    apply existsb_exists. exists r. rewrite <-list_elem_of_In. split; [exact Hr|].
    by apply bool_decide_eq_true.
Qed.

Lemma finish_then {A} rid p st (k : unit -> D A) d :
  st <> "running" -> others_done rid d -> (forall u, respects same_status (k u)) ->
  none_running (fst (bind (run_finish rid p st) k d)).
Proof.
  intros Hst Ho Hk. pose proof (finish_done rid p st d Hst Ho) as Hd. unfold bind.
  destruct (run_finish rid p st d) as [d1 [u|e]]; [|done].
  eapply same_status_done; [apply Hk|exact Hd].
Qed.

Lemma guarded_done session s sid d d' o :
  session_id s = sid -> phase s = INIT -> s_phase session <> COMPLETED ->
  run_of (run_id s) sid d -> desk_wf d -> others_done (run_id s) d ->
  guarded_workflow session s d = (d', o) ->
  match o with Ok _ => others_done (run_id s) d' | Raise _ => none_running d' end.
Proof.
  intros Hs Hp Hsp Hrun W Hd E. pose proof (owned_wf _ _ _ W Hrun) as Ho.
  pose proof (guarded_touches session s sid Hs Hp Hsp d Ho) as T. rewrite E in T. simpl in T.
  destruct o as [s'|a]; [by eapply touches_others|].
  unfold guarded_workflow, catch, bind at 1 in E.
  pose proof (tc_executor sid (run_id s) d) as T1.
  destruct (new_run_executor d) as [d1 [u|]] eqn:E1; [|unfold new_run_executor in E1; discriminate E1].
  simpl in T1. pose proof (tc_workflow sid (run_id s) s Hs eq_refl ltac:(by rewrite Hp) d1
    (touches_owned _ _ _ _ T1 Ho)) as T2.
  destruct (run_workflow s d1) as [d2 [s2|e]]; [discriminate E|]. simpl in T2.
  replace d' with (fst (d', Raise (A := DiagnosisState) a)) by done. rewrite <-E.
  assert (Hd2 : others_done (run_id s) d2) by
    (eapply touches_others; [exact T2|]; by eapply touches_others).
  destruct e; apply finish_then; try done; intros u1;
    (apply respects_bind; [apply _|apply st_started|]; intros first;
     apply respects_bind; [apply _|apply st_hardening|]; intros u2;
     apply respects_bind; [apply _|apply st_session|intros u3; apply respects_raise, _]).
Qed.

Lemma record_done q actor rid tr s d :
  phase_requirements s = true -> others_done rid d ->
  none_running (fst (record_outcome q actor rid tr s d)).
Proof.
  intros Hs Ho. unfold record_outcome, model_validate, bind at 1. rewrite Hs. simpl exn_of.
  unfold ret at 1. unfold bind at 1.
  pose proof (tc_template "" rid (diagnosis_template_id s) (diagnosis_template_version s)
                (alarm_category s) d) as T.
  destruct (set_template rid _ _ _ d) as [d1 [u|e]] eqn:E.
  2: { exfalso. revert E. unfold set_template, bind, gets. by destruct (run_exists rid d). }
  apply finish_then; [by case_bool_decide|by eapply touches_others|]. intros u1.
  apply respects_bind; [apply _|apply st_started|]. intros first.
  apply respects_bind; [apply _|apply st_hardening|]. intros u2. cbv zeta.
  apply respects_bind; [apply _|apply st_session|]. intros u3.
  apply respects_bind; [apply _|apply st_idle, idle_now|]. intros t.
  apply respects_bind; [apply _|apply st_save|]. intros u4.
  apply respects_bind; [apply _|apply respects_for_each; [apply _|intros c; apply st_append]|].
  intros u5. apply respects_bind; [apply _| |intros u6].
  { destruct (final_response s); [apply st_append|apply respects_ret, _]. }
  apply respects_bind; [apply _|apply respects_when; [apply _|apply st_idle, idle_audit]|]. intros u7.
  apply respects_bind; [apply _|apply respects_when; [apply _|apply st_idle, idle_emit]|].
  intros u8. apply respects_ret, _.
Qed.

(** ** The start of a run *)

Lemma run_exists_ids rid d : run_exists rid d = false -> rid ∉ map rr_id (runs d).
Proof.
  intros E (r & -> & Hr)%list_elem_of_fmap.
  enough (run_exists (rr_id r) d = true) by congruence.
  apply existsb_exists. exists r. rewrite <-list_elem_of_In. by rewrite bool_decide_eq_true.
Qed.

Lemma run_create_others row ev sid rid d d' r :
  (forall t, rr_id (row t) = rid) -> event_of sid ev ->
  run_create row ev d = (d', Ok r) ->
  (none_running d -> others_done rid d') /\ (rid ∉ map rr_id (runs d))
  /\ sessions (world d') = sessions (world d).
Proof.
  intros Hid Hev E.
  destruct (run_create_inv _ _ _ _ _ _ Hev E) as [[_ [e ?]]|(t & _ & Hnew & Hr & Ht & _)]; [done|].
  injection Ht as _ _ _ Hs _ _ _. split_and!; [|apply run_exists_ids; by rewrite <-(Hid t)|done].
  intros Hd x. rewrite Hr. intros [Hx| ->%list_elem_of_singleton]%elem_of_app Hn; [by apply Hd|]. by rewrite Hid in Hn.
Qed.

Lemma explain_done sid tr key fp m source msg actor :
  respects (keeps none_running) (explain_previous sid tr key fp m source msg actor).
Proof.
  assert (I : forall A (x : D A), respects idle x -> respects (keeps none_running) x) by
    (intros A x Hx d; apply idle_keeps, Hx).
  unfold explain_previous. apply respects_bind; [apply _|apply I, idle_previous|]. intros [r|];
    [|apply I; intros d; reflexivity].
  apply respects_bind; [apply _|apply respects_gets, _|]. intros latest. cbv zeta.
  apply respects_bind; [apply _|apply I, idle_fresh|]. intros rid d Hd. unfold bind at 1.
  destruct (run_create _ _ d) as [d1 [row|e]] eqn:E.
  - apply (run_create_others _ _ sid rid) in E as (Ho & _); [|done..].
    apply finish_then; [done|by apply Ho|]. intros u.
    apply respects_bind; [apply _|apply st_append|]. intros u2.
    do 2 (apply respects_bind; [apply _|apply st_idle, idle_now|intros ?]).
    apply respects_bind; [apply _|apply st_idle, idle_emit|intros u3; apply respects_ret, _].
  - apply (run_create_inv _ _ sid) in E as [[Hi _]|(t & ? & _)]; [|done..].
    eapply same_status_done; [by apply idle_status|done].
Qed.

(** Once its run is created, a request whose memory can be read has its state. *)
Lemma initial_state_total q mode session m rid tr t1 t2 :
  (forall x, m = Some x -> memory_readable x) ->
  exists s, initial_state q mode session m rid tr t1 t2 = Ok s.
Proof.
  intros Hm. unfold initial_state. destruct m as [m|]; simpl; [|by eexists].
  destruct (Hm m eq_refl) as [Hd Ha].
  destruct (mem_device_context m) as [dd|]; [destruct (Hd dd eq_refl) as [i Hi];
    unfold read_device; rewrite Hi|];
  (destruct (mem_alarm_context m) as [ad|]; [destruct (Ha ad eq_refl) as [[j Hj] [n Hn]];
    unfold read_alarm; rewrite Hj, Hn|]; by eexists).
Qed.

Lemma append_total sid t key rid actor pl d :
  exists d', append sid t key rid actor pl d = (d', Ok tt).
Proof.
  unfold append, on_world, timeline_append, timeline_insert, bind, atomically, gets.
  destruct (find_first _ (timeline (world d))); by eexists.
Qed.

Lemma for_each_total {A} (f : A -> D unit) l :
  (forall a d, exists d', f a d = (d', Ok tt)) -> forall d, exists d', for_each f l d = (d', Ok tt).
Proof.
  intros Hf. induction l as [|a l IH]; intros d; simpl; [by eexists|]. unfold bind.
  destruct (Hf a d) as [d1 ->]. apply IH.
Qed.

Lemma update_total sid us d :
  is_Some (sessions (world d) !! sid) -> exists d', update_session sid us d = (d', Ok tt).
Proof.
  intros [x Hx]. unfold update_session, on_world, bind, session_update_row, atomically, bind, gets.
  rewrite Hx. by eexists.
Qed.

Lemma start_run_total q key actor session m fp tr d :
  (forall x, m = Some x -> memory_readable x) -> is_Some (sessions (world d) !! chat_session_id q) ->
  match start_run q key actor session m fp tr d with
  | (d', Ok s) => (none_running d -> others_done (run_id s) d') /\ (run_id s ∉ map rr_id (runs d))
      /\ is_Some (sessions (world d') !! chat_session_id q)
  | (d', Raise _) => idle d d'
  end.
Proof.
  intros Hm Hx. unfold start_run. set (sid := chat_session_id q) in *.
  pose proof (idle_fresh d) as Hi. unfold bind at 1. destruct (fresh_id d) as [d0 [rid|e]] eqn:E0;
    [|discriminate E0]. simpl in Hi.
  assert (Hx0 : is_Some (sessions (world d0) !! sid)) by
    (injection Hi as _ _ _ _ _ -> _ _ _ _; exact Hx).
  cbv zeta. unfold bind at 1. destruct (run_create _ _ d0) as [d1 [row|e]] eqn:E1.
  2: { apply (run_create_inv _ _ sid) in E1 as [[Hi1 _]|(t & ? & _)]; [|done..].
       by etransitivity. }
  apply (run_create_others _ _ sid rid) in E1 as (Ho & Hnew & Hs); [|done..]. rewrite <-Hs in Hx0.
  unfold bind at 1. destruct (update_total sid [SetPhase INIT; SetRunId rid] d1 Hx0) as [d2 E2].
  pose proof (tc_phase sid rid INIT rid ltac:(done) d1) as T2. rewrite E2 in T2 |- *. simpl in T2.
  unfold bind at 1. set (f := fun a => append _ _ _ _ _ _).
  destruct (for_each_total f (clarification_answers q)
              (fun a d => append_total _ _ _ _ _ _ d) d2) as [d3 E3].
  assert (T3 : touches sid rid d2 d3).
  { replace d3 with (fst (for_each f (clarification_answers q) d2)) by by rewrite E3.
    refine (respects_for_each (touches sid rid) f _ _ d2). intros a. apply tc_append. }
  rewrite E3. unfold bind at 1. pose proof (tc_now sid rid d3) as T4.
  destruct (now d3) as [d4 [t1|e]] eqn:E4; [|discriminate E4]. simpl in T4.
  unfold bind at 1. pose proof (tc_now sid rid d4) as T5.
  destruct (now d4) as [d5 [t2|e]] eqn:E5; [|discriminate E5]. simpl in T5.
  destruct (initial_state_total q (mode_of q) session m rid tr t1 t2 Hm) as [s Hs'].
  destruct (initial_fields _ _ _ _ _ _ _ _ _ Hs') as (_ & Hrid & _). rewrite Hs'. simpl.
  assert (T : touches sid rid d1 d5) by (by do 3 (etransitivity; [eassumption|])).
  rewrite Hrid. assert (Er : runs d0 = runs d) by (by injection Hi). rewrite <-Er. split_and!; [|done|].
  - intros Hd. apply (touches_others sid rid d1); [exact T|]. apply Ho. by eapply idle_keeps.
  - destruct Hx0 as [y Hy]. destruct (tc_own _ _ _ _ T y Hy) as (y' & -> & _). by eexists.
Qed.

(** ** A request *)

Lemma memory_get_readable sid d d' m x :
  memory_get sid d = (d', Ok m) -> memory_ok d -> m = Some x -> memory_readable x.
Proof.
  unfold memory_get, bind, now, on_world, Store.utc_now, gets. cbn. intros [= _ <-] Hok.
  destruct (memory d !! sid) as [[y e]|] eqn:E; [|done]. case_match; [|done]. intros [= <-].
  by eapply Hok.
Qed.

(** What a request starts from. *)
Definition sound (d : Desk) : Prop := desk_wf d /\ memory_ok d.

Lemma idle_sound d d' : idle d d' -> sound d -> sound d'.
Proof.
  intros Hi [W M]. destruct (idle_request True "" (None, "") _ _ Hi W) as (W' & _ & _ & M').
  split; auto.
Qed.

Lemma get_calm sid d : snd (get_session sid d) <> Raise Cancelled.
Proof.
  unfold get_session. destruct (trace_ok d) as (d1 & tr & E). rewrite (bind_ok _ _ _ _ _ E).
  rewrite (bind_ok _ _ _ _ _ (get_row_eq sid d1)). cbv beta.
  destruct (sessions (world d1) !! sid) as [s|]; [|done].
  unfold bind at 1. destruct (memory_get sid d1) as [d2 [[m|]|e]] eqn:Em; [done..|discriminate Em].
Qed.

(** A request is refused or replayed, explains the answer of its session, or
    starts a run. *)
Definition starts_run (q : DiagnosisChatRequest) (key : option string)
  (actor : option ActorContext) (session : DiagnosisSession) (d : Desk)
  (x : Desk * outcome abort DiagnosisResponse) : Prop :=
  exists m fp tr, may_run (chat_session_id q) key d /\ (forall y, m = Some y -> memory_readable y)
    /\ (initial <- start_run q key actor session m fp tr ;;
        output <- guarded_workflow session initial ;;
        record_outcome q actor (run_id initial) tr output) d = x.

Lemma diagnose_cases q key actor em d x :
  sound d -> diagnose q key actor em d = x ->
  let sid := chat_session_id q in
  idle d (fst x) /\ snd x <> Raise Cancelled
  \/ exists d1 s, idle d d1 /\ sessions (world d) !! sid = Some s
     /\ (s_phase s = COMPLETED /\ (exists tr fp m,
            explain_previous sid tr key fp m (s_source s) (message q) actor d1 = x)
         \/ s_phase s <> COMPLETED /\ starts_run q key actor s d1 x).
Proof.
  intros Hd E. cbv zeta. unfold diagnose in E. set (sid := chat_session_id q) in *.
  set (d0 := d <| emitter := em |>). rewrite bind_modify in E. cbv beta in E. fold d0 in E.
  pose proof (idle_trace d0) as Hi1. destruct (trace_ok d0) as (d1 & tr & E1).
  rewrite (bind_ok _ _ _ _ _ E1) in E. rewrite E1 in Hi1. change (idle d d1) in Hi1. clear E1.
  rewrite (bind_ok _ _ _ _ _ (get_row_eq sid d1)) in E. cbv beta in E.
  assert (Hsd : sessions (world d1) = sessions (world d)) by (by injection Hi1).
  destruct (sessions (world d1) !! sid) as [s|] eqn:Hs; [|by left; subst x].
  rewrite Hsd in Hs. cbv zeta in E. set (fp := request_fingerprint _ _ _) in E. clearbody fp.
  set (found := if ostr_true key then _ else _) in E.
  assert (Hf : exists existing, found d1 = (d1, Ok existing)
                /\ (existing = None -> may_run sid key d1)).
  { unfold found. destruct (ostr_true key) eqn:Hk; eexists; (split; [done|]);
      intros Hn; apply new_key; rewrite ?Hsd; eauto; [|congruence]. intros _ _.
    unfold find_idempotent, gets. simpl. by rewrite Hn. }
  destruct Hf as (existing & Hf & Hmay). rewrite (bind_ok _ _ _ _ _ Hf) in E. cbv beta in E.
  destruct existing as [r|].
  { left. subst x. unfold require. destruct (bool_decide _); [|done]. rewrite bind_ret.
    split; [etransitivity; [exact Hi1|apply idle_get]|apply get_calm]. }
  specialize (Hmay eq_refl). unfold require in E. destruct (negb _); [|by left; subst x].
  rewrite bind_ret in E. destruct (idle_sound _ _ Hi1 Hd) as [_ M1].
  pose proof (idle_memory sid d1) as Hi2. pose proof (memory_get_readable sid d1) as Hr.
  unfold bind at 1 in E. destruct (memory_get sid d1) as [d2 [m|e]] eqn:Em; [|discriminate Em].
  simpl in Hi2. specialize (Hr d2 m). clear Em.
  pose proof (idle_may_run _ _ _ _ Hi2 Hmay) as Hmay2.
  assert (Hi12 : idle d d2) by by etransitivity.
  case_bool_decide as Hp.
  { destruct (bool_decide (mode_of q = _)); [|by left; subst x]. rewrite bind_ret in E.
    right. exists d2, s. split; [done|]. split; [done|]. left. split; [done|]. by do 3 eexists. }
  set (checked := if list_true _ then _ else _) in E.
  assert (Hck : exists o, checked d2 = (d2, o) /\ o <> Raise Cancelled).
  { unfold checked. destruct (list_true _); [|by eexists].
    destruct (check_answers m q) as [[]|]; by eexists. }
  destruct Hck as ([u|e] & Hc & Hnc); unfold bind at 1 in E; rewrite Hc in E.
  2: { left. subst x. split; [done|]. simpl. congruence. }
  right. exists d2, s. split; [done|]. split; [done|]. right. split; [done|].
  exists m, fp, tr. split; [exact Hmay2|]. split; [naive_solver|exact E].
Qed.

Lemma diagnose_done q key actor em :
  from sound (keeps none_running) (diagnose q key actor em).
Proof.
  intros d Hd Hn. destruct (diagnose_cases q key actor em d _ Hd eq_refl)
    as [[Hi _]|(d1 & s & Hi & Hs & [[_ (tr & fp & m & E)]|[Hp (m & fp & tr & Hmay & Hm & E)]])].
  - by eapply idle_keeps.
  - rewrite <-E. apply explain_done. by eapply idle_keeps.
  - rewrite <-E. destruct (idle_sound _ _ Hi Hd) as [W1 M1]. apply (idle_keeps _ _ Hi) in Hn.
    unfold bind at 1.
    pose proof (start_run_total q key actor s m fp tr d1 Hm (proj1 Hmay)) as Ho.
    pose proof (start_run_request True q key actor s m fp tr d1 Hmay W1) as (W2 & _).
    destruct (start_run q key actor s m fp tr d1) as [d2 [s0|a]] eqn:Es;
      [|by eapply idle_keeps]. destruct Ho as [Ho _]. specialize (Ho Hn).
    destruct (start_run_post _ _ _ _ _ _ _ _ _ _ Es) as (Hrun & Hsid & Hps). simpl in W2.
    unfold bind at 1. destruct (guarded_workflow s s0 d2) as [d3 [s'|a]] eqn:Eg;
      pose proof (guarded_done s s0 _ _ _ _ Hsid Hps Hp Hrun W2 Ho Eg) as Ho3; [|exact Ho3].
    destruct (guarded_post _ _ _ _ _ _ Hsid Hps Hrun W2 Eg) as (_ & _ & Hreq & _).
    by apply record_done.
Qed.

(** ** Creating a session *)

Lemma create_done q key actor : respects (keeps none_running) (create_session q key actor).
Proof.
  assert (I : forall A (x : D A), respects quiet x -> respects (keeps none_running) x).
  { intros A x Hx d. specialize (Hx d). intros Hd. injection Hx as E _ _ _ _ _ _ _ _.
    intros r. simpl. rewrite E. apply Hd. }
  assert (I' : forall A (x : D A), respects idle x -> respects (keeps none_running) x) by
    (intros A x Hx; by apply I, idle_quiet).
  unfold create_session. apply respects_bind; [apply _|apply I', idle_trace|]. intros tr. cbv zeta.
  apply respects_bind; [apply _|destruct (ostr_true key);
    [apply respects_gets, _|apply respects_ret, _]|]. intros [r|].
  { apply respects_bind; [apply _|apply I', idle_require|]. intros u.
    apply respects_bind; [apply _|apply I', idle_row|]. intros [x|];
      [apply respects_ret, _|apply respects_raise, _]. }
  set (dd := _ && _ && _ && _). clearbody dd.
  apply respects_bind; [apply _|destruct dd; [apply I, quiet_hit|apply respects_ret, _]|].
  intros [[sid n]|].
  { apply respects_bind; [apply _|apply I', idle_row|]. intros [x|]; [|apply respects_raise, _].
    apply respects_bind; [apply _|apply I', idle_audit|intros u; apply respects_ret, _]. }
  apply respects_bind; [apply _|apply I', idle_fresh|]. intros sid.
  apply respects_bind; [apply _|apply I', idle_fresh|]. intros rid.
  apply respects_bind; [apply _| |intros u].
  { unfold session_create. apply respects_bind; [apply _|apply I', idle_now|]. intros t.
    apply respects_bind; [apply _|apply respects_gets, _|]. intros clash.
    apply respects_bind; [apply _|apply I', idle_require|]. intros u d Hd. exact Hd. }
  apply respects_bind; [apply _| |intros row].
  { intros d Hd. destruct (run_create _ _ d) as [d' o] eqn:E.
    apply (run_create_inv _ _ sid) in E as [[Hi _]|(t & _ & _ & Hr & _)]; [by eapply idle_keeps| |done].
    intros r. simpl. rewrite Hr. intros [Hin| ->%list_elem_of_singleton]%elem_of_app; [by apply Hd|done]. }
  apply respects_bind; [apply _|apply I', idle_now|]. intros t.
  apply respects_bind; [apply _|intros d Hd; exact Hd|]. intros u1.
  apply respects_bind; [apply _|apply respects_when; [apply _|apply I, quiet_register]|]. intros u2.
  apply respects_bind; [apply _|apply I', idle_audit|intros u3; apply respects_ret, _].
Qed.

End Statuses.
