(* ===== verification/RunOutcome.v ===== *)
(** * What is on record of a run

    The end of a request that started a run: the row of the run, the session and
    the answer agree, whether the workflow returned, failed or was cancelled. *)

From S2P Require Import Prelude Errors Breaker Json Float Contracts Store Timeline Sessions.
From S2P Require Import AgentState Tools ToolData Text Regex Guardrails Templates Nodes Workflow.
From S2P Require Import DiagnosisRuns WorkflowFrame Memory Desk Execution DeskFrame DeskInv DeskProps.
From S2P Require Import RunStatus.
Open Scope Z_scope.

(** [passes R Q m]: [m] returns a value with [Q], and its states are related. *)
Definition passes {A} (R : Desk -> Desk -> Prop) (Q : A -> Prop) (m : D A) : Prop :=
  forall d, exists d' a, m d = (d', Ok a) /\ R d d' /\ Q a.

Section Passes.
Context (R : Desk -> Desk -> Prop) `{!PreOrder R}.

Lemma passes_ret {A} (Q : A -> Prop) a : Q a -> passes R Q (ret a).
Proof. intros Ha d. exists d, a. by split_and!. Qed.
Lemma passes_bind {A B} (P : A -> Prop) (Q : B -> Prop) m (k : A -> D B) :
  passes R P m -> (forall a, P a -> passes R Q (k a)) -> passes R Q (bind m k).
Proof.
  intros Hm Hk d. destruct (Hm d) as (d1 & a & E1 & R1 & Ha).
  destruct (Hk a Ha d1) as (d2 & b & E2 & R2 & Hb). exists d2, b.
  rewrite (bind_ok _ _ _ _ _ E1). split_and!; [done|by etransitivity|done].
Qed.
Lemma passes_total {A} (m : D A) :
  (forall d, exists d' a, m d = (d', Ok a)) -> respects R m -> passes R (fun _ => True) m.
Proof.
  intros Ht Hm d. destruct (Ht d) as (d' & a & E). exists d', a. split_and!; [done| |done].
  specialize (Hm d). by rewrite E in Hm.
Qed.
Lemma passes_when b (m : D unit) :
  passes R (fun _ => True) m -> passes R (fun _ => True) (when b m).
Proof. intros Hm. destruct b; [done|by apply passes_ret]. Qed.
Lemma passes_for_each {A} (f : A -> D unit) l :
  (forall a, passes R (fun _ => True) (f a)) -> passes R (fun _ => True) (for_each f l).
Proof.
  intros Hf. induction l as [|a l IH]; simpl; [by apply passes_ret|].
  eapply passes_bind; [apply Hf|]. by intros _ _.
Qed.
End Passes.

(** The ends of the runs, and the sessions. *)
Definition end_view (r : DiagnosisRun) := (rr_id r, rr_session_id r, rr_status r, rr_phase r).
Definition same_ends (d d' : Desk) : Prop :=
  (map end_view (runs d'), sessions (world d')) = (map end_view (runs d), sessions (world d)).
Definition ended (rid sid st : string) (p : DiagnosisPhase) (d : Desk) : Prop :=
  (rid, sid, st, p) ∈ map end_view (runs d).

#[export] Instance same_ends_preorder : PreOrder same_ends.
Proof. split; [by intros d|]. intros d1 d2 d3. unfold same_ends. by intros -> ->. Qed.

(** The row of the session. *)
Definition at_phase (sid : string) (p : DiagnosisPhase) (rid : string) (d : Desk) : Prop :=
  exists s, sessions (world d) !! sid = Some s /\ s_phase s = p /\ s_run_id s = rid.

Lemma same_ends_ended d d' rid sid st p :
  same_ends d d' -> ended rid sid st p d -> ended rid sid st p d'.
Proof. intros [= E _]. unfold ended. by rewrite E. Qed.
Lemma same_ends_phase d d' sid p rid : same_ends d d' -> at_phase sid p rid d -> at_phase sid p rid d'.
Proof. intros [= _ E]. unfold at_phase. by rewrite E. Qed.

Section Outcomes.
Context `{Env} `{Unicode} `{DeskConfig} `{TW : ToolWorld ToolInput ToolData} `{ModelPort}.

Abbreviation quietly := (passes same_ends (fun _ => True)).

Lemma ends_hardening i a b c : quietly (set_hardening_outcome i a b c).
Proof.
  apply passes_total.
  - intros d. unfold set_hardening_outcome, bind, gets. destruct (run_exists i d); by do 2 eexists.
  - unfold set_hardening_outcome. respect; [by intros d|]. intros d. unfold same_ends. simpl.
    rewrite map_map. f_equal. apply map_ext. intros r. by case_bool_decide.
Qed.
Lemma ends_template i a b c : quietly (set_template i a b c).
Proof.
  apply passes_total.
  - intros d. unfold set_template, bind, gets. destruct (run_exists i d); by do 2 eexists.
  - unfold set_template. respect; [by intros d|]. intros d. unfold same_ends. simpl.
    rewrite map_map. f_equal. apply map_ext. intros r. by case_bool_decide.
Qed.
Lemma ends_started : quietly stream_started.
Proof. intros d. by do 2 eexists. Qed.
Lemma ends_now : quietly now.
Proof. intros d. by do 2 eexists. Qed.
Lemma ends_save m : quietly (memory_save m).
Proof. intros d. by do 2 eexists. Qed.
Lemma ends_append sid t key rid actor pl : quietly (append sid t key rid actor pl).
Proof.
  intros d. unfold append, on_world, timeline_append, timeline_insert, bind, atomically, gets.
  destruct (find_first _ (timeline (world d))); by do 2 eexists.
Qed.
Lemma ends_audit actor action sid tr : quietly (audit actor action sid tr).
Proof. intros d. unfold audit. destruct actor; by do 2 eexists. Qed.
Lemma ends_emit ev s : quietly (emit_event ev s).
Proof.
  intros d. unfold emit_event, bind, gets. destruct (emitter d) as [e|]; [|by do 2 eexists].
  destruct (closed e); [by do 2 eexists|]. destruct (first_event_at e); by do 2 eexists.
Qed.

(** ** The writes that end a run *)

Lemma finish_ended rid sid p st d :
  run_of rid sid d ->
  exists d', run_finish rid p st d = (d', Ok tt) /\ ended rid sid st p d'
             /\ sessions (world d') = sessions (world d).
Proof.
  intros (r & Hr & Hid & Hsid). unfold run_finish, bind, gets.
  assert (run_exists rid d = true) as ->.
  { apply existsb_exists. exists r. rewrite <-list_elem_of_In. split; [done|].
    by apply bool_decide_eq_true. }
  eexists. split; [done|]. split; [|done]. unfold ended. simpl. rewrite map_map.
  apply list_elem_of_fmap. exists r. split; [|done].
  rewrite bool_decide_eq_true_2 by done. unfold end_view. simpl. congruence.
Qed.

Lemma update_phase sid p rid us d :
  is_Some (sessions (world d) !! sid) ->
  (forall u, u ∈ us -> match u with SetFinalSummary _ | SetRiskLevel _ => True | _ => False end) ->
  exists d', update_session sid ([SetPhase p; SetRunId rid] ++ us) d = (d', Ok tt)
             /\ at_phase sid p rid d' /\ runs d' = runs d.
Proof.
  intros [x Hx] Hus. unfold update_session, on_world, bind, session_update_row, atomically, bind, gets.
  rewrite Hx. eexists. split; [done|]. split; [|done]. eexists. simpl.
  split; [apply lookup_insert_eq|]. simpl.
  match goal with |- context [foldl session_setattr ?s0 us] =>
    destruct (setattr_summary us s0 Hus) as (_ & -> & ->) end. done.
Qed.

(** ** What the request of a run leaves on record *)

Definition recorded (session : DiagnosisSession) (rid sid : string)
  (x : Desk * outcome abort DiagnosisResponse) : Prop :=
  match snd x with
  | Ok r =>
      rp_run_id r = rid /\ at_phase sid (rp_phase r) rid (fst x)
      /\ ended rid sid (if bool_decide (rp_phase r = COMPLETED) then "completed" else "waiting_input")
           (rp_phase r) (fst x)
  | Raise Cancelled =>
      at_phase sid (s_phase session) (s_run_id session) (fst x)
      /\ ended rid sid "cancelled" (s_phase session) (fst x)
  | Raise (Exc _) =>
      at_phase sid PHASE_FAILED rid (fst x) /\ ended rid sid "failed" PHASE_FAILED (fst x)
  end.

Lemma touches_session sid rid d d' :
  touches sid rid d d' -> is_Some (sessions (world d) !! sid) -> is_Some (sessions (world d') !! sid).
Proof. intros T [s Hs]. destruct (tc_own _ _ _ _ T s Hs) as (s' & -> & _). by eexists. Qed.

(** The writes after a run that did not return. *)
Lemma abandon sid rid p st category prid (e : abort) d :
  run_of rid sid d -> is_Some (sessions (world d) !! sid) ->
  exists d', (run_finish rid p st ;;;
              first <- stream_started ;;
              set_hardening_outcome rid first None category ;;;
              update_session sid [SetPhase p; SetRunId prid] ;;;
              raise (A := DiagnosisState) e) d = (d', Raise e)
    /\ at_phase sid p prid d' /\ ended rid sid st p d'.
Proof.
  intros Hrun Hs. destruct (finish_ended rid sid p st d Hrun) as (d1 & E1 & Hend & Hs1).
  rewrite (bind_ok _ _ _ _ _ E1).
  destruct (ends_started d1) as (d2 & first & E2 & R2 & _). rewrite (bind_ok _ _ _ _ _ E2).
  destruct (ends_hardening rid first None category d2) as (d3 & u & E3 & R3 & _).
  rewrite (bind_ok _ _ _ _ _ E3).
  destruct (update_phase sid p prid [] d3) as (d4 & E4 & Hp & Hr4).
  - injection R2 as _ R2. injection R3 as _ R3. by rewrite R3, R2, Hs1.
  - by intros ? ?%elem_of_nil.
  - rewrite app_nil_r in E4. rewrite (bind_ok _ _ _ _ _ E4). exists d4. split_and!; [done..|].
    unfold ended. rewrite Hr4. by eapply same_ends_ended, same_ends_ended.
Qed.

Lemma guarded_recorded session s sid d d' a :
  session_id s = sid -> phase s = INIT -> s_phase session <> COMPLETED ->
  run_of (run_id s) sid d -> desk_wf d -> is_Some (sessions (world d) !! sid) ->
  guarded_workflow session s d = (d', Raise a) -> recorded session (run_id s) sid (d', Raise a).
Proof.
  intros Hs Hp Hsp Hrun W Hx E. pose proof (owned_wf _ _ _ W Hrun) as Ho.
  unfold guarded_workflow, catch, bind at 1 in E.
  pose proof (tc_executor sid (run_id s) d) as T1.
  destruct (new_run_executor d) as [d1 [u|]] eqn:E1; [|unfold new_run_executor in E1; discriminate E1].
  simpl in T1. pose proof (tc_workflow sid (run_id s) s Hs eq_refl ltac:(by rewrite Hp) d1
    (touches_owned _ _ _ _ T1 Ho)) as T2.
  destruct (run_workflow s d1) as [d2 [s2|e]]; [discriminate E|]. simpl in T2. rewrite Hs in E.
  assert (T : touches sid (run_id s) d d2) by by etransitivity.
  pose proof (touches_run _ _ _ _ T Hrun) as Hrun2. pose proof (touches_session _ _ _ _ T Hx) as Hx2.
  destruct e as [e|].
  - destruct (abandon sid (run_id s) PHASE_FAILED "failed" (Some "workflow_exception") (run_id s)
                (Exc e) d2 Hrun2 Hx2) as (d3 & E3 & Hp3 & He3).
    rewrite E3 in E. by injection E as <- <-.
  - destruct (abandon sid (run_id s) (s_phase session) "cancelled" (Some "stream_disconnected")
                (s_run_id session) Cancelled d2 Hrun2 Hx2) as (d3 & E3 & Hp3 & He3).
    rewrite E3 in E. by injection E as <- <-.
Qed.

Lemma record_recorded session q actor rid tr s d :
  phase_requirements s = true -> session_id s = chat_session_id q -> run_id s = rid ->
  run_of rid (chat_session_id q) d -> is_Some (sessions (world d) !! chat_session_id q) ->
  recorded session rid (chat_session_id q) (record_outcome q actor rid tr s d).
Proof.
  intros Hreq Hs Hr Hrun Hx. set (sid := chat_session_id q) in *.
  unfold record_outcome, model_validate. rewrite Hreq. cbn [exn_of]. rewrite bind_ret. cbv beta zeta.
  destruct (ends_template rid (diagnosis_template_id s) (diagnosis_template_version s)
              (alarm_category s) d) as (d1 & u & E1 & R1 & _). rewrite (bind_ok _ _ _ _ _ E1).
  pose proof (tc_template sid rid (diagnosis_template_id s) (diagnosis_template_version s)
                (alarm_category s) d) as T1. rewrite E1 in T1. simpl in T1.
  edestruct (finish_ended rid sid (phase s)
    (if bool_decide (phase s = COMPLETED) then "completed" else "waiting_input") d1)
    as (d2 & E2 & Hend & Hs2); [by eapply touches_run|]. rewrite (bind_ok _ _ _ _ _ E2).
  destruct (ends_started d2) as (d3 & first & E3 & R3 & _). rewrite (bind_ok _ _ _ _ _ E3).
  destruct (ends_hardening rid first (status <$> guardrail_decision s) None d3)
    as (d4 & u4 & E4 & R4 & _). rewrite (bind_ok _ _ _ _ _ E4). fold sid.
  edestruct (update_phase sid (phase s) rid) as (d5 & E5 & Hp5 & Hr5).
  3: { rewrite (bind_ok _ _ _ _ _ E5).
    assert (He5 : ended rid sid (if bool_decide (phase s = COMPLETED) then "completed"
                                 else "waiting_input") (phase s) d5).
    { unfold ended. rewrite Hr5. eapply same_ends_ended; [exact R4|]. by eapply same_ends_ended; [exact R3|]. }
    match goal with |- recorded _ _ _ (?m d5) =>
      assert (Hm : passes same_ends (fun r => r = response s (final_response s)) m) end.
    { eapply passes_bind; [apply _|apply ends_now|]. intros t _.
      eapply passes_bind; [apply _|apply ends_save|]. intros u5 _.
      eapply passes_bind; [apply _|apply passes_for_each; [apply _|intros c; apply ends_append]|].
      intros u6 _. apply (passes_bind _ (fun _ => True)); [|intros u7 _].
      { destruct (final_response s); [apply ends_append|by apply (passes_ret _ _)]. }
      eapply passes_bind; [apply _|apply passes_when; [apply _|apply ends_audit]|]. intros u8 _.
      eapply passes_bind; [apply _|apply passes_when; [apply _|apply ends_emit]|]. intros u9 _.
      apply (passes_ret same_ends). reflexivity. }
    destruct (Hm d5) as (d6 & r & -> & R6 & ->). unfold recorded. simpl.
    split_and!; [exact Hr|by eapply same_ends_phase|by eapply same_ends_ended]. }
  - injection R3 as _ R3. injection R4 as _ R4. rewrite R4, R3, Hs2. by eapply touches_session.
  - destruct (final_response s); intros x; rewrite ?elem_of_cons, elem_of_nil; [|done].
    by intros [->|[->|[]]].
Qed.

End Outcomes.
