(* ===== verification/ExecutionRuns.v ===== *)
(** * Runs of the diagnosis service

    Sessions in a plant with one cabinet: the hypotheses of the theorems hold in
    them, and some end as the code does not intend. *)

From S2P Require Import Prelude Errors Breaker Json Float Contracts Store Timeline Sessions.
From S2P Require Import AgentState Tools ToolData Text Regex Guardrails Templates Nodes Workflow.
From S2P Require Import DiagnosisRuns WorkflowFrame Memory Desk Execution DeskFrame DeskInv DeskProps.
From S2P Require Import RunStatus RunOutcome.
Open Scope Z_scope.

Module Plant.

Definition config : DeskConfig := mkDeskConfig 3600 1800 (fun s => s).
Definition no_model : ModelPort :=
  mkModelPort false (fun _ _ _ => Ok None) (fun _ _ _ => Ok None) (fun _ _ _ => Ok None).
(** The task is cancelled while the model words the answer. *)
Definition cancelled_model : ModelPort :=
  mkModelPort true (fun _ _ _ => Ok None) (fun _ _ _ => Raise Cancelled)
    (fun _ _ _ => Raise Cancelled).

Abbreviation running series M :=
  (@perform (demo_env all_fine) demo_unicode config (Demo.plant series true) M).
Abbreviation past :=
  (@history (demo_env all_fine) demo_unicode config (Demo.plant true true) no_model).
Abbreviation chat series M q key :=
  (@diagnose (demo_env all_fine) demo_unicode config (Demo.plant series true) M q key None None).
Abbreviation create q key := (@create_session (demo_env all_fine) config q key None).

Definition talk : CreateSessionRequest := mkCreateSession CHAT None None None None.
Definition alarm : CreateSessionRequest :=
  mkCreateSession ALARM None (Some "PCS-001") (Some "ALARM-001") (Some "风扇故障").
(** The first session made, and its first run. *)
Definition sid : string := "ii".
Definition say (msg : string) : DiagnosisChatRequest := mkChat sid msg [] None None.
Definition reply (l : list ClarificationAnswer) : DiagnosisChatRequest :=
  mkChat sid "回复" l None None.

(** A session that completes, another one, and one that waits for an answer. *)
Definition asked_once : list desk_op :=
  [Create talk None None; Chat (say Demo.message) (Some "k1") None None].
Definition two_sessions : list desk_op := asked_once ++ [Create talk None None].
Definition waiting : Desk := fst (chat true no_model (say "风扇坏了") None (past [Create talk None None])).

Example session_completes :
  let d := past asked_once in
  (s_phase <$> sessions (world d) !! sid) = Some COMPLETED
  /\ map rr_status (runs d) = ["initialized"; "completed"]
  /\ map rs_run_id (answers d) = ["iiiii"].
Proof. vm_compute. done. Qed.

Example session_waits :
  (s_phase <$> sessions (world waiting) !! sid) = Some NEED_USER_INPUT
  /\ map rr_status (runs waiting) = ["initialized"; "waiting_input"].
Proof. vm_compute. done. Qed.
End Plant.

(** ** Witnesses *)

Section Witnesses.
Import Plant.
Abbreviation on f := (f (demo_env all_fine) demo_unicode config (Demo.plant true true) no_model).

Lemma sessions_isolated_witness :
  let o := Chat (mkChat "iiiiiii" Demo.message [] None None) None None None in
  intact sid (past two_sessions) (running true no_model (past two_sessions) o)
  /\ running true no_model (past two_sessions) o <> past two_sessions.
Proof.
  split.
  - apply (on (@sessions_isolated)); [|discriminate]. vm_compute. by eexists.
  - intros E. apply (f_equal (fun d => length (runs d))) in E. vm_compute in E. discriminate E.
Defined.


Lemma terminal_sessions_frozen_witness :
  let again := [Chat (say "再诊断一次") (Some "k2") None None;
                Chat (mkChat sid "解释" [] None (Some "explain_previous_result")) None None None] in
  sessions (world (foldl (running true no_model) (past asked_once) again)) !! sid
  = sessions (world (past asked_once)) !! sid
  /\ length (runs (foldl (running true no_model) (past asked_once) again)) = 3%nat.
Proof.
  intros again. split; [|by vm_compute].
  destruct (sessions (world (past asked_once)) !! sid) as [s|] eqn:Hs;
    [|exfalso; vm_compute in Hs; discriminate Hs].
  apply (on (@terminal_sessions_frozen) asked_once again sid s Hs).
  left. vm_compute in Hs. injection Hs as <-. reflexivity.
Defined.

Abbreviation opened := (past [Create talk None None]).
Abbreviation told := (running true no_model opened (Chat (say Demo.message) (Some "k1") None None)).
Lemma chat_exactly_once_witness :
  idle told (running true no_model told (Chat (say Demo.message) (Some "k1") None None))
  /\ snd (@diagnose (demo_env all_fine) demo_unicode config (Demo.plant true true) no_model
            (say "另一条") (Some "k1") None None told)
     = Raise (Exc (Domain IdempotencyConflictError [])).
Proof.
  assert (Hk : str_true "k1" = true) by reflexivity.
  assert (Hn : length (runs told) <> length (runs opened)) by (vm_compute; discriminate).
  destruct (on (@chat_exactly_once) [Create talk None None] (say Demo.message) "k1" None None
      (say Demo.message) None None Hk Hn eq_refl) as [Hi _].
  destruct (on (@chat_exactly_once) [Create talk None None] (say Demo.message) "k1" None None
      (say "另一条") None None Hk Hn eq_refl) as [_ E].
  split; [exact Hi|]. rewrite E. rewrite bool_decide_eq_false_2; [reflexivity|].
  vm_compute. discriminate.
Defined.


Abbreviation alarmed := (fst (create alarm None first_desk)).
Definition alarm_row : AlarmDedup :=
  mkDedup "PCS-001" "风扇故障" sid ["ALARM-001"] 5 5 1800000005 1.
Definition alarm_session : DiagnosisSession :=
  mkSession sid ALARM None (Some "PCS-001") (Some "ALARM-001") (Some "风扇故障") INIT None UNKNOWN
    "i" "iii" None None 1 1.
Lemma repeated_alarm_merges_witness :
  snd (create alarm None alarmed) = Ok (mkCreated sid "iii" INIT "i" true 2).
Proof.
  destruct (@repeated_alarm_merges (demo_env all_fine) config alarm None alarmed "PCS-001"
    "ALARM-001" "风扇故障" alarm_row alarm_session) as [H _];
    [vm_compute; reflexivity..|vm_compute; discriminate|]. exact H.
Defined.

End Witnesses.

(** ** Where the code falls short *)

Section Shortcomings.
Import Plant.

(** A run that never ends: the alarm of a session may have no name, and then the
    context the session remembers cannot be read back; the request fails after its
    run was created and before the workflow, whose failures are recorded. *)
Theorem nameless_alarm_runs_forever :
  let q := mkCreateSession ALARM None (Some "PCS-001") (Some "ALARM-001") None in
  let d := fst (create q None first_desk) in
  let x := chat true no_model (say "请诊断") None d in
  validate_alarm_source q = true /\ snd x = Raise (Exc ValidationError)
  /\ map rr_status (runs (fst x)) = ["initialized"; "running"].
Proof. vm_compute. done. Qed.

(** The same for a site without a device. *)
Theorem site_without_device_runs_forever :
  let d := fst (create (mkCreateSession CHAT (Some "S1") None None None) None first_desk) in
  let x := chat true no_model (say "请诊断") None d in
  snd x = Raise (Exc ValidationError)
  /\ map rr_status (runs (fst x)) = ["initialized"; "running"].
Proof. vm_compute. done. Qed.

(** A question asked a second time cannot be answered: the rules name it as they
    did the first time, and that name is answered already. *)
Theorem asked_again_unanswerable :
  let first := chat true no_model (reply [mkAnswer "missing_entity" "不知道"]) None waiting in
  let second := chat true no_model (reply [mkAnswer "missing_entity" "PCS-001 ALARM-001"]) None
                  (fst first) in
  match snd first with
  | Ok r => rp_phase r = NEED_USER_INPUT /\ map question_id (rp_questions r) = ["missing_entity"]
  | Raise _ => False
  end
  /\ snd second = Raise (Exc (Domain ClarificationAlreadyAnsweredError [])).
Proof. vm_compute. done. Qed.

(** The key of a message blocks the creation of a session: the creation looks for
    the key among the runs of all sessions. *)
Theorem keys_clash_across_operations :
  let d := past asked_once in
  snd (create talk (Some "k2") d) <> Raise (Exc (Domain IdempotencyConflictError []))
  /\ snd (create talk (Some "k1") d) = Raise (Exc (Domain IdempotencyConflictError [])).
Proof. vm_compute. done. Qed.

(** A cancelled run leaves its answer behind: the session is restored, but the
    memory holds the answer, which is then refused. *)
Theorem cancelled_answer_is_lost :
  let answer := reply [mkAnswer "missing_entity" "PCS-001 ALARM-001"] in
  let x := chat true cancelled_model answer None waiting in
  snd x = Raise Cancelled
  /\ (s_phase <$> sessions (world (fst x)) !! sid) = Some NEED_USER_INPUT
  /\ snd (chat true no_model answer None (fst x))
     = Raise (Exc (Domain ClarificationAlreadyAnsweredError [])).
Proof. vm_compute. done. Qed.
End Shortcomings.
