(* ===== verification/CaseRepo.v ===== *)
(** * The case repository

    [persistence/repositories/cases.py]: the table diagnosis_case, the event
    log case_review_event, and the transaction of a status transition. *)

From S2P Require Import Prelude Errors Json Contracts Store IndexRepo.
Open Scope Z_scope.

(** An assignment of a column by [setattr].  The optional columns can be set
    to [None]; [root_cause] is NOT NULL.
    [contracts/cases.py:104-114 CasePatchRequest] (and the updates of the
    transitions). *)
Inductive case_update : Type :=
| SetDeviceType (v : option string)
| SetDeviceModel (v : option string)
| SetManufacturer (v : option string)
| SetAlarmName (v : option string)
| SetSymptomSummary (v : option string)
| SetTimeseriesFeatures (v : option string)
| SetRootCause (v : option string)
| SetResolutionSteps (v : option (list string))
| SetSafetyNotes (v : option (list string))
| SetEvidenceRefs (v : option (list string))
| SetIsActive (v : bool)
| SetIndexStatus (v : IndexStatus)
| SetReviewer (v : string)
| SetReviewComment (v : option string).

(** The row after the assignment, [None] when the flush violates NOT NULL. *)
Definition setattr (c : DiagnosisCase) (u : case_update) : option DiagnosisCase :=
  match u with
  | SetDeviceType v => Some (c <| device_type := v |>)
  | SetDeviceModel v => Some (c <| device_model := v |>)
  | SetManufacturer v => Some (c <| manufacturer := v |>)
  | SetAlarmName v => Some (c <| alarm_name := v |>)
  | SetSymptomSummary v => Some (c <| symptom_summary := v |>)
  | SetTimeseriesFeatures v => Some (c <| timeseries_features := v |>)
  | SetRootCause (Some v) => Some (c <| root_cause := v |>)
  | SetRootCause None => None
  | SetResolutionSteps v => Some (c <| resolution_steps := v |>)
  | SetSafetyNotes v => Some (c <| safety_notes := v |>)
  | SetEvidenceRefs v => Some (c <| evidence_refs := v |>)
  | SetIsActive v => Some (c <| is_active := v |>)
  | SetIndexStatus v => Some (c <| index_status := v |>)
  | SetReviewer v => Some (c <| reviewer := Some v |>)
  | SetReviewComment v => Some (c <| review_comment := v |>)
  end.
Fixpoint setattrs (c : DiagnosisCase) (us : list case_update) : option DiagnosisCase :=
  match us with
  | [] => Some c
  | u :: us' => match setattr c u with Some c' => setattrs c' us' | None => None end
  end.

(** The columns a client may patch. *)
Definition patchable (u : case_update) : bool :=
  match u with
  | SetIsActive _ | SetIndexStatus _ | SetReviewer _ | SetReviewComment _ => false
  | _ => true
  end.

(** [cases/ports.py:19-22 CaseTransitionResult]; [tr_job_id] is the
    [index_job_id] of the returned record. *)
Record CaseTransitionResult := mkTransition {
  tr_case : DiagnosisCase;
  tr_job_id : option string;
  replayed : bool;
}.

Definition put_case (cid : string) (c : DiagnosisCase) (w : World) : World :=
  w <| cases ::= insert cid c |>.

(** The request of a transition. *)
Record transition_args := mkArgs {
  a_case_id : string;
  expected : CaseStatus;
  target : CaseStatus;
  a_actor_id : string;
  a_actor_role : string;
  a_action : string;
  a_trace_id : string;
  a_request_hash : string;
  a_idempotency_key : option string;
  a_comment : option string;
  a_updates : list case_update;
  a_index_request : option IndexJobCreate;
}.

Section CaseRepository.
Context `{Env}.

(** Whether the composition root gave the repository an index repository. *)
Context (index_repository : bool).

(** [persistence/repositories/cases.py:25-31 case_record] *)
Definition case_record (c : DiagnosisCase) : M World exn DiagnosisCase :=
  if bool_decide (is_Some (resolution_steps c)) && bool_decide (is_Some (safety_notes c))
     && bool_decide (is_Some (evidence_refs c)) && (1 <=? case_version c)
  then ret c else raise ValidationError.

(** The row [values] with both timestamps set to now; the table refuses a
    second row of a case id or of a version of a session.
    [persistence/repositories/cases.py:43-48 CaseRepository.create] *)
Definition create (values : DiagnosisCase) : M World exn DiagnosisCase :=
  now <- utc_now ;;
  let model := values <| created_at := now |> <| updated_at := now |> in
  atomically (
    clash <- gets (fun w => bool_decide (is_Some (cases w !! case_id model))
      || existsb (fun c => bool_decide (source_session_id c = source_session_id model)
                           && (case_version c =? case_version model))
           (snd <$> map_to_list (cases w))) ;;
    guard (negb clash) IntegrityError ;;;
    modify (put_case (case_id model) model)) ;;;
  case_record model.

(** [persistence/repositories/cases.py:50-53 CaseRepository.get] *)
Definition repo_get (cid : string) : M World exn (option DiagnosisCase) :=
  model <- gets (fun w => cases w !! cid) ;;
  match model with
  | Some c => r <- case_record c ;; ret (Some r)
  | None => ret None
  end.

(** [scalar_one_or_none] raises when the query finds several rows.
    [persistence/repositories/cases.py:55-64 CaseRepository.get_by_review] *)
Definition get_by_review (rid : string) : M World exn (option DiagnosisCase) :=
  rows <- gets (fun w => filter (fun c => source_review_id c = rid)
                           (snd <$> map_to_list (cases w))) ;;
  match rows with
  | [] => ret None
  | [c] => r <- case_record c ;; ret (Some r)
  | _ :: _ :: _ => raise MultipleResultsFound
  end.

(** [persistence/repositories/cases.py:164-178 CaseRepository.update_draft] *)
Definition update_draft (cid : string) (values : list case_update) (actor : string)
    (privileged : bool) : M World exn DiagnosisCase :=
  c' <- atomically (
    model <- gets (fun w => cases w !! cid) ;;
    match model with
    | None => throw CaseNotFoundError
    | Some c =>
        guard (bool_decide (review_status c = DRAFT)) (Domain CaseNotEditableError []) ;;;
        guard (bool_decide (created_by c = actor) || privileged)
          (Domain CaseNotEditableError []) ;;;
        now <- utc_now ;;
        match setattrs c values with
        | None => raise IntegrityError
        | Some c' =>
            let c' := c' <| updated_at := now |> in
            modify (put_case cid c') ;;; ret c'
        end
    end) ;;
  case_record c'.

Definition find_event (cid key : string) (w : World) : option CaseReviewEvent :=
  find_first (fun e => bool_decide (ev_case_id e = cid)
                       && bool_decide (ev_idempotency_key e = Some key)) (case_events w).

(** The table refuses a second event of a case under one key. *)
Definition insert_event (e : CaseReviewEvent) : M World exn unit :=
  clash <- gets (fun w => match ev_idempotency_key e with
                          | Some k => bool_decide (is_Some (find_event (ev_case_id e) k w))
                          | None => false
                          end) ;;
  guard (negb clash) IntegrityError ;;;
  modify (fun w => w <| case_events ::= fun l => l ++ [e] |>).

(** The transaction of a transition: the row, the event and the index job
    are written together.
    [persistence/repositories/cases.py:196-245 CaseReviewEventModel] *)
Definition transition_tx (a : transition_args) : M World exn CaseTransitionResult :=
  atomically (
    model <- gets (fun w => cases w !! a_case_id a) ;;
    match model with
    | None => throw CaseNotFoundError
    | Some c =>
        existing <- gets (fun w => if ostr_true (a_idempotency_key a)
          then find_event (a_case_id a) (or_empty (a_idempotency_key a)) w else None) ;;
        match existing with
        | Some e =>
            guard (bool_decide (ev_request_hash e = a_request_hash a))
              (Domain CaseStateConflictError []) ;;;
            r <- case_record c ;;
            ret (mkTransition r None true)
        | None =>
            guard (bool_decide (review_status c = expected a))
              (Domain CaseStateConflictError []) ;;;
            now <- utc_now ;;
            t <- utc_now ;;
            match setattrs (c <| review_status := target a |>) (a_updates a) with
            | None => raise IntegrityError
            | Some c' =>
                let c' := c' <| updated_at := now |> in
                modify (put_case (a_case_id a) c') ;;;
                insert_event (mkEvent (a_case_id a) (a_actor_id a) (a_actor_role a)
                  (a_action a) (Some (review_status c)) (target a) (a_comment a)
                  (a_idempotency_key a) (a_request_hash a) (a_trace_id a) t) ;;;
                jid <- match a_index_request a with
                       | None => ret None
                       | Some rq =>
                           guard index_repository RuntimeError ;;;
                           j <- add_job rq ;; ret (Some (job_id j))
                       end ;;
                ret (mkTransition c' jid false)
            end
        end
    end).

(** [persistence/repositories/cases.py:180-250 CaseRepository.transition] *)
Definition transition (a : transition_args) : M World exn CaseTransitionResult :=
  r <- transition_tx a ;;
  if replayed r then ret r
  else c <- case_record (tr_case r) ;; ret (mkTransition c (tr_job_id r) false).

(** [persistence/repositories/cases.py:252-290 CaseRepository.queue_index] *)
Definition queue_index (cid : string) (rq : IndexJobCreate)
    (actor role action trace hash : string) (key : option string)
  : M World exn (DiagnosisCase * string) :=
  guard index_repository RuntimeError ;;;
  r <- atomically (
    model <- gets (fun w => cases w !! cid) ;;
    match model with
    | None => throw CaseNotFoundError
    | Some c =>
        now <- utc_now ;;
        let c' := c <| index_status := IDX_QUEUED |> <| is_active := false |>
                    <| updated_at := now |> in
        modify (put_case cid c') ;;;
        t <- utc_now ;;
        insert_event (mkEvent cid actor role action (Some (review_status c)) (review_status c)
          None key hash trace t) ;;;
        j <- add_job rq ;;
        ret (c', job_id j)
    end) ;;
  c <- case_record (fst r) ;;
  ret (c, snd r).

(** [persistence/repositories/cases.py:292-308 CaseRepository.find_idempotent_event] *)
Definition find_idempotent_event (cid key : string)
  : M World exn (option (string * option string)) :=
  gets (fun w => (fun e => (ev_request_hash e, ev_comment e)) <$> find_event cid key w).

(** [persistence/repositories/cases.py:310-339 CaseRepository.append_event] *)
Definition append_event (cid actor role action : string) (from to : CaseStatus)
    (comment key : option string) (hash trace : string) : M World exn unit :=
  atomically (
    now <- utc_now ;;
    insert_event (mkEvent cid actor role action (Some from) to comment key hash trace now)).

(** [embedding_text] and [active] are left alone when they are [None].
    [persistence/repositories/cases.py:341-362 CaseRepository.set_index] *)
Definition set_index (cid : string) (st : IndexStatus) (error_code : option string)
    (text : option string) (active : option bool) : M World exn DiagnosisCase :=
  c' <- atomically (
    model <- gets (fun w => cases w !! cid) ;;
    match model with
    | None => throw CaseNotFoundError
    | Some c =>
        now <- utc_now ;;
        let c1 := c <| index_status := st |> <| index_error_code := error_code |> in
        let c2 := match text with Some t => c1 <| embedding_text := Some t |> | None => c1 end in
        let c3 := match active with Some b => c2 <| is_active := b |> | None => c2 end in
        let c' := c3 <| updated_at := now |> in
        modify (put_case cid c') ;;; ret c'
    end) ;;
  case_record c'.

(** [persistence/repositories/cases.py:364-373 CaseRepository.next_version] *)
Definition next_version (sid : string) : M World exn Z :=
  gets (fun w => foldr Z.max 0
    (case_version <$> filter (fun c => source_session_id c = sid)
       (snd <$> map_to_list (cases w))) + 1).

(** [persistence/repositories/cases.py:375-400 CaseRepository.history]; the
    log is in the order of its timestamps. *)
Definition history (cid : string) : M World exn (list CaseReviewEvent) :=
  gets (fun w => filter (fun e => ev_case_id e = cid) (case_events w)).
End CaseRepository.

(** ** The operations that only read *)

Section Reads.
Context `{Env} (R : World -> World -> Prop) `{!Clocked R}.

Lemma respects_case_record c : respects R (case_record c).
Proof. unfold case_record. respect. Qed.
Hint Resolve respects_case_record : pres.

Lemma respects_repo_get cid : respects R (repo_get cid).
Proof. unfold repo_get. respect. Qed.

Lemma respects_get_by_review rid : respects R (get_by_review rid).
Proof. unfold get_by_review. respect. Qed.

Lemma respects_next_version sid : respects R (next_version sid).
Proof. apply respects_gets, _. Qed.

Lemma respects_find_idempotent_event cid key : respects R (find_idempotent_event cid key).
Proof. apply respects_gets, _. Qed.

Lemma respects_history cid : respects R (history cid).
Proof. apply respects_gets, _. Qed.

Lemma respects_validate_attempts j : respects R (validate_attempts j).
Proof. unfold validate_attempts. respect. Qed.
End Reads.

#[export] Hint Resolve respects_case_record respects_repo_get respects_get_by_review
  respects_next_version respects_find_idempotent_event respects_history
  respects_validate_attempts : pres.
