(* ===== verification/CaseHistory.v ===== *)
(** * The life of a case

    The status graph of a case, and the history every operation of the case
    repository and of the index repository adds to: cases move along the graph,
    keep their identity, are frozen once submitted, and their log only grows. *)

From S2P Require Import Prelude Errors Json Contracts Store IndexRepo CaseRepo.
Open Scope Z_scope.

(** The moves of the status: the [expected] and [target] pairs of
    [cases/application.py] and of the worker. *)
Definition edge (a b : CaseStatus) : bool :=
  match a, b with
  | DRAFT, PENDING_REVIEW
  | PENDING_REVIEW, APPROVED | PENDING_REVIEW, REJECTED
  | APPROVED, DISABLED | APPROVED, SUPERSEDED => true
  | _, _ => false
  end.
Definition moves : CaseStatus -> CaseStatus -> Prop := rtc (fun a b => edge a b = true).

(** What a reviewer judges. *)
Definition content (c : DiagnosisCase) :=
  (device_type c, device_model c, manufacturer c, alarm_name c, symptom_summary c,
   (timeseries_features c, root_cause c, resolution_steps c, safety_notes c, evidence_refs c)).

(** What identifies a case and its origin. *)
Definition identity (c : DiagnosisCase) :=
  (case_id c, source_session_id c, source_run_id c, source_review_id c, source_ticket_id c,
   (case_version c, supersedes_case_id c, created_by c, created_at c)).

Record evolves (c c' : DiagnosisCase) : Prop := {
  ev_identity : identity c' = identity c;
  ev_moves : moves (review_status c) (review_status c');
  ev_frozen : review_status c <> DRAFT -> content c' = content c;
}.

(** The history relation between two states of the store. *)
Record case_history_of (w w' : World) : Prop := {
  h_cases : forall cid c, cases w !! cid = Some c ->
    exists c', cases w' !! cid = Some c' /\ evolves c c';
  h_events : exists l, case_events w' = case_events w ++ l;
}.

Lemma edge_from_draft a b : edge a b = true -> b <> DRAFT.
Proof. by destruct a, b. Qed.

Lemma moves_not_draft a b : moves a b -> a <> DRAFT -> b <> DRAFT.
Proof.
  intros H. induction H as [a|a b c Hab _ IH]; [done|]. intros _.
  apply IH. by eapply edge_from_draft.
Qed.

Lemma moves_edge a b : edge a b = true -> moves a b.
Proof. intros H. by apply rtc_once. Qed.

#[export] Instance evolves_preorder : PreOrder evolves.
Proof.
  split.
  - intros c. split; [done|apply rtc_refl|done].
  - intros c1 c2 c3 [I1 M1 F1] [I2 M2 F2]. split.
    + congruence.
    + unfold moves in *; by etransitivity.
    + intros Hn. rewrite F2, F1; [done..|]. by eapply moves_not_draft.
Qed.

#[export] Instance case_history_preorder : PreOrder case_history_of.
Proof.
  split.
  - intros w. split; [|exists []; by rewrite app_nil_r].
    intros cid c Hc. by exists c.
  - intros w1 w2 w3 [C1 [l1 E1]] [C2 [l2 E2]]. split.
    + intros cid c Hc. destruct (C1 _ _ Hc) as (c2 & Hc2 & Hv).
      destruct (C2 _ _ Hc2) as (c3 & Hc3 & Hv'). exists c3. split; [done|by etransitivity].
    + exists (l1 ++ l2). by rewrite E2, E1, app_assoc.
Qed.

(** A change that leaves the two tables alone. *)
Lemma history_same w w' :
  cases w' = cases w -> case_events w' = case_events w -> case_history_of w w'.
Proof.
  intros Hc He. split; [rewrite Hc; intros cid c H; by exists c|].
  exists []. by rewrite He, app_nil_r.
Qed.

#[export] Instance case_history_framed : Framed case_history_of.
Proof. split; [split; [apply _|..]|]; intros; by apply history_same. Qed.

(** Replacing one case by a later state of it. *)
Lemma history_put w cid c c' :
  cases w !! cid = Some c -> evolves c c' -> case_history_of w (put_case cid c' w).
Proof.
  intros Hc Hv. split; [|exists []; by rewrite app_nil_r].
  intros k d Hd. simpl. destruct (decide (k = cid)) as [->|Hne].
  - exists c'. rewrite lookup_insert_eq. split; [done|]. congruence.
  - exists d. by rewrite lookup_insert_ne.
Qed.

Lemma history_insert w cid c :
  cases w !! cid = None -> case_history_of w (put_case cid c w).
Proof.
  intros Hc. split; [|exists []; by rewrite app_nil_r].
  intros k d Hd. simpl. exists d. rewrite lookup_insert_ne; [done|congruence].
Qed.

(** ** The assignments of the service evolve a case *)

Lemma setattr_identity c u c' : setattr c u = Some c' ->
  identity c' = identity c /\ review_status c' = review_status c
  /\ (patchable u = false -> content c' = content c).
Proof.
  destruct u as [| | | | | |[]| | | | | | |]; simpl; intros H;
    (injection H as <- || discriminate H); done.
Qed.

Lemma setattrs_identity us c c' : setattrs c us = Some c' ->
  identity c' = identity c /\ review_status c' = review_status c
  /\ (Forall (fun u => patchable u = false) us -> content c' = content c).
Proof.
  revert c. induction us as [|u us IH]; intros c H; simpl in H; [by injection H as ->|].
  destruct (setattr c u) as [c1|] eqn:E; [|done].
  apply setattr_identity in E as (I1 & S1 & F1). apply IH in H as (I2 & S2 & F2).
  split; [congruence|]. split; [congruence|].
  intros [Hu Hus]%Forall_cons. rewrite F2, F1; done.
Qed.

(** ** The operations of the case repository *)

Section Repository.
Context `{Env} (ir : bool).

Lemma add_job_history r : respects case_history_of (add_job r).
Proof.
  unfold add_job, validate_attempts. respect.
  apply respects_modify. intros w. by apply history_same.
Qed.
Hint Resolve add_job_history : pres.

Lemma insert_event_history e : respects case_history_of (insert_event e).
Proof.
  unfold insert_event. respect. apply respects_modify. intros w.
  split; [intros cid c Hc; by exists c|]. by exists [e].
Qed.
Hint Resolve insert_event_history : pres.

(** One assignment of a row that was read in the same transaction. *)
Lemma put_history {A} cid c c' (k : M World exn A) :
  evolves c c' -> respects case_history_of k ->
  from (fun w => cases w !! cid = Some c) case_history_of
    (modify (put_case cid c') ;;; k).
Proof.
  intros Hv Hk. eapply from_modify; [apply _| |by apply (from_respects _ (fun _ => True))].
  intros w Hc. split; [by eapply history_put|exact I].
Qed.

Lemma create_history values : respects case_history_of (create values).
Proof.
  unfold create. respect_step; [respect|]. respect_step; [|respect].
  follow_step. follow_step. follow_step. follow_step.
  intros w [_ Hc]. destruct a0; [done|]. apply orb_false_iff in Hc as [Hc _].
  apply bool_decide_eq_false in Hc. apply history_insert. by apply eq_None_not_Some.
Qed.
Lemma update_draft_history cid us actor priv :
  respects case_history_of (update_draft cid us actor priv).
Proof.
  unfold update_draft. respect_step; [|respect]. follow.
  apply from_weaken with (Q := fun w => cases w !! cid = Some d); [|by intros w []].
  apply put_history; [|respect].
  apply bool_decide_eq_true in H0. destruct (setattrs_identity _ _ _ Heqo0) as (I1 & S1 & _).
  split; [done| |done]. simpl. rewrite S1. apply rtc_refl.
Qed.

(** A transition along an edge of the graph that assigns no patchable
    column. *)
Lemma transition_history a :
  edge (expected a) (target a) = true ->
  Forall (fun u => patchable u = false) (a_updates a) ->
  respects case_history_of (transition ir a).
Proof.
  intros He Hus. unfold transition, transition_tx. respect_step; [|respect]. follow.
  apply from_weaken with (Q := fun w => cases w !! a_case_id a = Some d); [|by intros w [[]]].
  apply put_history; [|respect].
  match goal with H : bool_decide (_ = expected a) = true |- _ =>
    apply bool_decide_eq_true in H as Hst end.
  match goal with H : setattrs _ _ = Some _ |- _ =>
    destruct (setattrs_identity _ _ _ H) as (I1 & S1 & F1) end.
  split; [done| |intros _; by apply F1]. simpl. rewrite S1, Hst. by apply moves_edge.
Qed.

Lemma queue_index_history cid rq x1 x2 x3 x4 x5 x6 :
  respects case_history_of (queue_index ir cid rq x1 x2 x3 x4 x5 x6).
Proof.
  unfold queue_index. respect_step; [respect|]. respect_step; [|respect]. follow.
  apply from_weaken with (Q := fun w => cases w !! cid = Some d); [|by intros w []].
  apply put_history; [|respect]. split; [done|apply rtc_refl|done].
Qed.

Lemma append_event_history x1 x2 x3 x4 x5 x6 x7 x8 x9 x10 :
  respects case_history_of (append_event x1 x2 x3 x4 x5 x6 x7 x8 x9 x10).
Proof. unfold append_event. respect. Qed.

Lemma set_index_history cid st code text active :
  respects case_history_of (set_index cid st code text active).
Proof.
  unfold set_index. respect_step; [|respect]. follow.
  apply from_weaken with (Q := fun w => cases w !! cid = Some d); [|by intros w []].
  apply put_history; [|respect]. destruct text, active; (split; [done|apply rtc_refl|done]).
Qed.
End Repository.

#[export] Hint Resolve add_job_history insert_event_history create_history
  update_draft_history queue_index_history
  append_event_history set_index_history : pres.
#[export] Hint Extern 2 (respects case_history_of (transition _ _)) =>
  apply transition_history; [reflexivity|repeat constructor] : pres.
