(* ===== verification/CaseApp.v ===== *)
(** * The case lifecycle service

    [cases/application.py] (the operations behind [cases/service.py],
    [cases/lifecycle.py], [cases/diagnosis_review.py] and [cases/indexing.py]):
    from the review of a diagnosis to the draft of a case, its approval, index,
    revision, supersession and disabling. *)

From stdpp Require Import pretty.
From S2P Require Import Prelude Errors Json Contracts Store Text Timeline IndexRepo Sessions.
From S2P Require Import CaseRepo.
Open Scope Z_scope.

Definition case_status_value (s : CaseStatus) : string :=
  match s with
  | DRAFT => "DRAFT" | PENDING_REVIEW => "PENDING_REVIEW" | APPROVED => "APPROVED"
  | REJECTED => "REJECTED" | DISABLED => "DISABLED" | SUPERSEDED => "SUPERSEDED"
  end.

(** [contracts/cases.py:117-127 CaseReviewRequest] *)
Record CaseReviewRequest := mkCaseReview {
  decision : string;
  cr_comment : option string;
}.
(** [contracts/cases.py:121-127 CaseReviewRequest.validate_decision] *)
Definition validate_case_review (q : CaseReviewRequest) : bool :=
  (bool_decide (decision q = "approve") || bool_decide (decision q = "reject")) &&
  negb (bool_decide (decision q = "reject") && negb (ostr_true (cr_comment q))).

(** [contracts/cases.py:61-69 DiagnosisReviewResponse] *)
Record DiagnosisReviewResponse := mkReviewResponse {
  rr_review_id : string;
  rr_session_id : string;
  rr_run_id : string;
  rr_review_result : DiagnosisReviewResult;
  rr_case_id : option string;
  rr_case_status : option CaseStatus;
  rr_trace_id : string;
  rr_created_at : Z;
}.

(** What the operations return: the case with the id of the index job queued
    for it ([index_job_id] of [contracts/cases.py:72-101 DiagnosisCase]). *)
Record CaseView := mkView {
  case : DiagnosisCase;
  index_job_id : option string;
}.

(** The truthy values of a list of optional strings. *)
Definition truthy (l : list (option string)) : list string :=
  filter (fun s => str_true s = true) (omap id l).

Definition steps_of (c : DiagnosisCase) : list string := default [] (resolution_steps c).
Definition refs_of (c : DiagnosisCase) : list string := default [] (evidence_refs c).

Definition newline : string := String (Ascii.ascii_of_nat 10) "".

(** [cases/application.py:52-62 build_embedding_text] *)
Definition build_embedding_text (c : DiagnosisCase) : string :=
  let parts := [device_type c; device_model c; alarm_name c; symptom_summary c;
                timeseries_features c; Some (root_cause c);
                Some (str_join "；" (steps_of c))] in
  str_join newline (filter (fun s => str_true s = true) (map strip (truthy parts))).

(** [cases/application.py:65-79 missing_case_fields] *)
Definition missing_case_fields (c : DiagnosisCase) (valid : list string) : list string :=
  let required := [("device_type", ostr_true (device_type c));
                   ("device_model", ostr_true (device_model c));
                   ("alarm_name", ostr_true (alarm_name c));
                   ("symptom_summary", ostr_true (symptom_summary c));
                   ("root_cause", str_true (root_cause c));
                   ("resolution_steps", list_true (steps_of c));
                   ("evidence_refs", list_true (refs_of c));
                   ("created_by", str_true (created_by c))] in
  map fst (filter (fun kv => snd kv = false) required)
  ++ (if existsb (fun r => negb (bool_decide (r ∈ valid))) (refs_of c)
      then ["valid_evidence_refs"] else []).

(** What the composition root passes to the service. *)
Record CaseConfig := mkConfig {
  cfg_index_repository : bool;
  cfg_embedding : bool;
  cfg_milvus : bool;
  index_execution_mode : string;
  index_max_attempts : Z;
  cfg_timeline : bool;
}.

Section CaseApplicationService.
Context `{Env} (cfg : CaseConfig).

Let rabbitmq : bool := bool_decide (index_execution_mode cfg = "rabbitmq").
Let sync : bool := bool_decide (index_execution_mode cfg = "sync").
Let privileged (actor : ActorContext) : bool :=
  bool_decide (actor_role actor ∈ [REVIEWER; ADMIN]).
Let fingerprint : string -> json -> string := request_fingerprint sha256.

(** Building the request validates [max_attempts].
    [cases/application.py:748-759 CaseApplicationService._index_request] *)
Definition index_request (c : DiagnosisCase) (op : IndexOperation) : M World exn IndexJobCreate :=
  trace <- trace_id ;;
  guard ((1 <=? index_max_attempts cfg) && (index_max_attempts cfg <=? 20)) ValidationError ;;;
  ret (mkJobCreate DIAGNOSIS_CASE (case_id c) (pretty (case_version c)) op trace
         (source_session_id c) (source_review_id c) (index_max_attempts cfg)).

(** [cases/application.py:761-775 CaseApplicationService._audit_case] *)
Definition audit_case (actor : ActorContext) (action : string) (c : DiagnosisCase)
  : M World exn unit :=
  trace <- trace_id ;;
  audit_write (actor_id actor) (role_value (actor_role actor)) action "case" (case_id c)
    trace "succeeded" (Some (source_session_id c)) (Some (case_id c)).

(** [cases/application.py:323-327 CaseApplicationService.get] *)
Definition get (cid : string) : M World exn DiagnosisCase :=
  c <- repo_get cid ;;
  match c with Some c => ret c | None => throw CaseNotFoundError end.

(** [cases/application.py:256-321 CaseApplicationService._create_draft] *)
Definition create_draft (sid run rid : string) (q : DiagnosisReviewRequest)
    (actor : ActorContext) (result : DiagnosisResult) : M World exn DiagnosisCase :=
  _ <- trace_id ;;
  _ <- trace_id ;;
  session <- session_get sid ;;
  match session, q_root_cause q with
  | Some s, Some cause =>
      let device := find_first (fun i => bool_decide (source_type i = "device"))
                      (evidence result) in
      let timeseries := summary <$>
        find_first (fun i => bool_decide (source_type i = "timeseries")) (evidence result) in
      let field k := d ← device; dict_str k (metadata d) in
      cid <- new_id ;;
      v <- next_version sid ;;
      c <- create (mkCase cid sid run rid (q_source_ticket_id q) (field "device_type")
             (field "device_model") (field "manufacturer") (s_alarm_name s)
             (Some (r_summary result)) timeseries cause (Some (q_resolution_steps q))
             (Some (r_safety_notes result)) (Some (q_evidence_refs q)) DRAFT None None v
             None IDX_PENDING None false None (actor_id actor) 0 0) ;;
      trace <- trace_id ;;
      audit_write (actor_id actor) (role_value (actor_role actor)) "case.created" "case"
        (case_id c) trace "succeeded" (Some sid) (Some (case_id c)) ;;;
      ret c
  | _, _ => raise AssertionError
  end.

(** The two events of [cases/application.py:217-244
    timeline]. *)
Definition review_timeline (sid run rid : string) (q : DiagnosisReviewRequest)
    (actor : ActorContext) (c : option DiagnosisCase) : M World exn unit :=
  timeline_append sid REVIEW_SUBMITTED rid (Some run) (Some actor)
    (JObj [("review_id", JStr rid);
           ("review_result", JStr (review_result_value (q_review_result q)));
           ("comments", JStr (or_empty (q_comments q)));
           ("requested_questions", jstrs (q_requested_questions q));
           ("evidence_refs", jstrs (q_evidence_refs q))]) ;;;
  match c with
  | Some c =>
      timeline_append sid CASE_CREATED (case_id c) (Some run) (Some actor)
        (JObj [("case_id", JStr (case_id c));
               ("case_status", JStr (case_status_value (review_status c)));
               ("case_version", JInt (case_version c))])
  | None => ret tt
  end.

(** [cases/application.py:115-254 CaseApplicationService.review_diagnosis] *)
Definition review_diagnosis (sid : string) (q : DiagnosisReviewRequest) (actor : ActorContext)
    (key : option string) : M World exn DiagnosisReviewResponse :=
  trace <- trace_id ;;
  session <- session_get sid ;;
  result <- latest_result sid ;;
  match session, result with
  | Some s, Some result =>
      guard (bool_decide (s_phase s ∈ [COMPLETED; NEED_USER_INPUT]))
        (Domain SessionNotReviewableError []) ;;;
      let valid := map evidence_id (evidence result) in
      guard (negb (existsb (fun r => negb (bool_decide (r ∈ valid))) (q_evidence_refs q)))
        (Domain InvalidEvidenceReferenceError []) ;;;
      guard (negb (bool_decide (q_review_result q = CONFIRMED)
                   && negb (existsb (fun c => bool_decide (q_root_cause q = Some c))
                              (candidate_causes result))
                   && negb (ostr_true (q_override_reason q))))
        (Domain RootCauseOverrideReasonRequiredError []) ;;;
      rid <- new_id ;;
      let hash := fingerprint ("diagnosis_review:" ++ sid)%string (dump_review q) in
      review <- recorder_append rid sid (r_run_id result) trace hash q actor key ;;
      let rid := fst review in
      c <- match q_review_result q with
           | CONFIRMED =>
               c <- get_by_review rid ;;
               match c with
               | Some c => ret (Some c)
               | None =>
                   c <- create_draft sid (r_run_id result) rid q actor result ;;
                   ret (Some c)
               end
           | NEEDS_MORE_INFO =>
               session_update_row sid
                 [SetPhase NEED_USER_INPUT; SetLatestReview (q_review_result q)] ;;;
               ret None
           | REVIEW_REJECTED =>
               session_update_row sid [SetLatestReview (q_review_result q)] ;;;
               ret None
           end ;;
      audit_write (actor_id actor) (role_value (actor_role actor))
        ("diagnosis.review." ++ review_result_value (q_review_result q))%string "diagnosis"
        sid trace "succeeded" (Some sid) (case_id <$> c) ;;;
      when (cfg_timeline cfg) (review_timeline sid (r_run_id result) rid q actor c) ;;;
      now <- utc_now ;;
      ret (mkReviewResponse rid sid (r_run_id result) (q_review_result q)
             (case_id <$> c) (review_status <$> c) trace now)
  | _, _ => throw SessionNotReviewableError
  end.

(** [cases/application.py:337-353 CaseApplicationService.patch] *)
Definition patch (cid : string) (values : list case_update) (actor : ActorContext)
  : M World exn DiagnosisCase :=
  _ <- trace_id ;;
  c <- update_draft cid values (actor_id actor) (privileged actor) ;;
  audit_case actor "case.updated" c ;;;
  ret c.

(** [cases/application.py:355-392 CaseApplicationService.submit] *)
Definition submit (cid : string) (actor : ActorContext) (key : option string)
  : M World exn DiagnosisCase :=
  _ <- trace_id ;;
  c <- get cid ;;
  guard (bool_decide (created_by c = actor_id actor) || privileged actor)
    (Domain CaseNotEditableError []) ;;;
  result <- latest_result (source_session_id c) ;;
  let valid := match result with Some r => map evidence_id (evidence r) | None => [] end in
  let missing := missing_case_fields c valid in
  guard (negb (list_true missing)) (Domain CaseNotReadyError missing) ;;;
  trace <- trace_id ;;
  t <- transition (cfg_index_repository cfg)
         (mkArgs cid DRAFT PENDING_REVIEW (actor_id actor) (role_value (actor_role actor))
            "case.submitted" trace (fingerprint "case.submit" (JObj [("case_id", JStr cid)]))
            key None [] None) ;;
  if replayed t then ret (tr_case t)
  else audit_case actor "case.submitted" (tr_case t) ;;; ret (tr_case t).

(** The row of the vector collection: [cases/application.py:651-668 upsert]. *)
Definition case_row (c : DiagnosisCase) (v : Z) : VectorRow :=
  mkVectorRow (case_id c) (case_id c) (or_empty (device_type c)) (or_empty (device_model c))
    (or_empty (manufacturer c)) (or_empty (alarm_name c))
    ("case-v" ++ pretty (case_version c))%string (Some (case_version c)) true true None v.

(** [cases/application.py:629-686 CaseApplicationService._index] *)
Definition index_case (c : DiagnosisCase) (actor : ActorContext) (prefix : string)
  : M World exn DiagnosisCase :=
  let text := build_embedding_text c in
  catch (
    guard (cfg_embedding cfg && cfg_milvus cfg) RuntimeError ;;;
    _ <- trace_id ;;
    vectors <- embed [text] ;;
    match vectors with
    | [] => raise IndexError
    | v :: _ =>
        _ <- trace_id ;;
        external (MilvusUpsert "case" [case_row c v]) ;;;
        updated <- set_index (case_id c) IDX_INDEXED None (Some text) (Some true) ;;
        audit_case actor (prefix ++ "_succeeded")%string updated ;;;
        ret updated
    end)
  (fun _ =>
    updated <- set_index (case_id c) IDX_FAILED (Some "CASE_INDEX_PROVIDER_FAILED")
                 (Some text) (Some false) ;;
    audit_case actor (prefix ++ "_failed")%string updated ;;;
    ret updated).

(** [cases/application.py:688-709 CaseApplicationService._tombstone] *)
Definition tombstone_case (c : DiagnosisCase) (actor : ActorContext) (prefix : string)
  : M World exn DiagnosisCase :=
  catch (
    when (cfg_milvus cfg) (external (MilvusDelete "case" [case_id c])) ;;;
    updated <- set_index (case_id c) IDX_TOMBSTONED None None (Some false) ;;
    audit_case actor (prefix ++ "_succeeded")%string updated ;;;
    ret updated)
  (fun _ =>
    updated <- set_index (case_id c) IDX_FAILED (Some "CASE_TOMBSTONE_PROVIDER_FAILED")
                 None (Some false) ;;
    audit_case actor (prefix ++ "_failed")%string updated ;;;
    ret updated).

(** The index request of a transition in rabbitmq mode. *)
Definition request_if (b : bool) (c : DiagnosisCase) (op : IndexOperation)
  : M World exn (option IndexJobCreate) :=
  if b then r <- index_request c op ;; ret (Some r) else ret None.

Definition queued_or_pending (r : option IndexJobCreate) : IndexStatus :=
  match r with Some _ => IDX_QUEUED | None => IDX_PENDING end.

(** [cases/application.py:711-746 CaseApplicationService._supersede] *)
Definition supersede (cid : string) (actor : ActorContext) : M World exn unit :=
  _ <- trace_id ;;
  current <- get cid ;;
  rq <- request_if rabbitmq current TOMBSTONE ;;
  trace <- trace_id ;;
  t <- transition (cfg_index_repository cfg)
         (mkArgs cid APPROVED SUPERSEDED (actor_id actor) (role_value (actor_role actor))
            "case.superseded" trace
            (fingerprint "case.supersede" (JObj [("case_id", JStr cid)]))
            (Some ("supersede:" ++ cid)%string) None
            [SetIsActive false; SetIndexStatus (queued_or_pending rq)] rq) ;;
  old <- (if sync then tombstone_case (tr_case t) actor "case.supersede" else ret (tr_case t)) ;;
  when (negb (replayed t)) (audit_case actor "case.superseded" old).

(** [cases/application.py:394-450 CaseApplicationService.review_case] *)
Definition review_case (cid : string) (q : CaseReviewRequest) (actor : ActorContext)
    (key : option string) : M World exn CaseView :=
  _ <- trace_id ;;
  c <- get cid ;;
  guard (negb (bool_decide (created_by c = actor_id actor)))
    (Domain SelfReviewForbiddenError []) ;;;
  let approve := bool_decide (decision q = "approve") in
  let target := if approve then APPROVED else REJECTED in
  let action := if approve then "case.approved" else "case.rejected" in
  rq <- request_if (approve && rabbitmq) c UPSERT ;;
  trace <- trace_id ;;
  t <- transition (cfg_index_repository cfg)
         (mkArgs cid PENDING_REVIEW target (actor_id actor) (role_value (actor_role actor))
            action trace
            (fingerprint "case.review" (JObj [("case_id", JStr cid);
               ("decision", JStr (decision q)); ("comment", jopt (cr_comment q))]))
            key (cr_comment q)
            ([SetReviewer (actor_id actor); SetReviewComment (cr_comment q)]
             ++ match rq with
                | Some _ => [SetIndexStatus IDX_QUEUED; SetIsActive false]
                | None => []
                end) rq) ;;
  if replayed t then ret (mkView (tr_case t) (tr_job_id t))
  else
    updated <- (if approve
      then
        updated <- (if sync
          then u <- index_case (tr_case t) actor "case" ;; ret (mkView u None)
          else ret (mkView (tr_case t) (tr_job_id t))) ;;
        when (bool_decide (index_status (case updated) = IDX_INDEXED)
              && ostr_true (supersedes_case_id (case updated)))
          (supersede (or_empty (supersedes_case_id (case updated))) actor) ;;;
        ret updated
      else ret (mkView (tr_case t) (tr_job_id t))) ;;
    audit_case actor action (case updated) ;;;
    ret updated.

(** [cases/application.py:452-497 CaseApplicationService.disable] *)
Definition disable (cid reason : string) (actor : ActorContext) (key : option string)
  : M World exn CaseView :=
  _ <- trace_id ;;
  current <- get cid ;;
  rq <- request_if rabbitmq current TOMBSTONE ;;
  trace <- trace_id ;;
  t <- transition (cfg_index_repository cfg)
         (mkArgs cid APPROVED DISABLED (actor_id actor) (role_value (actor_role actor))
            "case.disabled" trace
            (fingerprint "case.disable"
               (JObj [("case_id", JStr cid); ("reason", JStr reason)]))
            key (Some reason) [SetIsActive false; SetIndexStatus (queued_or_pending rq)] rq) ;;
  v <- (if sync
    then u <- tombstone_case (tr_case t) actor "case.disable" ;; ret (mkView u None)
    else ret (mkView (tr_case t) (tr_job_id t))) ;;
  when (negb (replayed t)) (audit_case actor "case.disabled" (case v)) ;;;
  ret v.

(** The fields of [contracts/cases.py:104-114 CasePatchRequest] that are set,
    and the dump of all of them. *)
Definition update_item (u : case_update) : string * json :=
  match u with
  | SetDeviceType v => ("device_type", jopt v)
  | SetDeviceModel v => ("device_model", jopt v)
  | SetManufacturer v => ("manufacturer", jopt v)
  | SetAlarmName v => ("alarm_name", jopt v)
  | SetSymptomSummary v => ("symptom_summary", jopt v)
  | SetTimeseriesFeatures v => ("timeseries_features", jopt v)
  | SetRootCause v => ("root_cause", jopt v)
  | SetResolutionSteps v => ("resolution_steps", default JNull (jstrs <$> v))
  | SetSafetyNotes v => ("safety_notes", default JNull (jstrs <$> v))
  | SetEvidenceRefs v => ("evidence_refs", default JNull (jstrs <$> v))
  | SetIsActive _ | SetIndexStatus _ | SetReviewer _ | SetReviewComment _ => ("", JNull)
  end.
Definition dump_patch (us : list case_update) : list (string * json) :=
  map (fun k => (k, default JNull (dict_get k (map update_item us))))
    ["device_type"; "device_model"; "manufacturer"; "alarm_name"; "symptom_summary";
     "timeseries_features"; "root_cause"; "resolution_steps"; "safety_notes"; "evidence_refs"].

(** The copy of the original that a revision starts from.
    [cases/application.py:522-546 values] *)
Definition revision_values (original : DiagnosisCase) (payload : list case_update)
    (cid : string) (v : Z) (actor : ActorContext) : option DiagnosisCase :=
  copy ← setattrs original payload;
  Some (copy <| case_id := cid |> <| case_version := v |> <| review_status := DRAFT |>
    <| index_status := IDX_PENDING |> <| is_active := false |>
    <| supersedes_case_id := Some (case_id original) |> <| created_by := actor_id actor |>
    <| reviewer := None |> <| review_comment := None |> <| embedding_text := None |>
    <| index_error_code := None |>).

(** [cases/application.py:522-563 revision], the revision once no earlier request of
    the key answers. *)
Definition revise (cid : string) (original : DiagnosisCase) (payload : list case_update)
    (submit_for_review : bool) (hash : string) (actor : ActorContext) (key : option string)
  : M World exn DiagnosisCase :=
  nid <- new_id ;;
  v <- next_version (source_session_id original) ;;
  revision <- match revision_values original payload nid v actor with
              | None => raise IntegrityError
              | Some values => create values
              end ;;
  trace <- trace_id ;;
  append_event cid (actor_id actor) (role_value (actor_role actor))
    "case.revision_created" (review_status original) (review_status original)
    (Some (case_id revision)) key hash trace ;;;
  audit_case actor "case.revision_created" revision ;;;
  if submit_for_review then submit (case_id revision) actor key else ret revision.

(** [cases/application.py:499-563 CaseApplicationService.revision] *)
Definition revision (cid : string) (payload : list case_update) (submit_for_review : bool)
    (actor : ActorContext) (key : option string) : M World exn DiagnosisCase :=
  original <- get cid ;;
  let hash := fingerprint "case.revision"
    (JObj (("case_id", JStr cid) :: dump_patch payload
           ++ [("submit_for_review", JBool submit_for_review)])) in
  event <- (if ostr_true key then find_idempotent_event cid (or_empty key) else ret None) ;;
  existing <- match event with
              | Some (h, comment) =>
                  guard (bool_decide (h = hash)) (Domain CaseStateConflictError []) ;;;
                  (if ostr_true comment then repo_get (or_empty comment) else ret None)
              | None => ret None
              end ;;
  match existing with
  | Some c => ret c
  | None =>
      guard (bool_decide (review_status original ∈ [APPROVED; REJECTED]))
        (Domain CaseStateConflictError []) ;;;
      revise cid original payload submit_for_review hash actor key
  end.

Definition retryable_status (s : IndexStatus) : bool :=
  bool_decide (s ∈ [IDX_FAILED; IDX_PENDING; IDX_DEGRADED]).

(** [cases/application.py:565-623 CaseApplicationService.reindex] *)
Definition reindex (cid : string) (actor : ActorContext) (key : option string)
  : M World exn CaseView :=
  c <- get cid ;;
  let hash := fingerprint "case.reindex" (JObj [("case_id", JStr cid)]) in
  event <- (if ostr_true key then find_idempotent_event cid (or_empty key) else ret None) ;;
  match event with
  | Some (h, _) =>
      guard (bool_decide (h = hash)) (Domain CaseStateConflictError []) ;;;
      c <- get cid ;; ret (mkView c None)
  | None =>
      let retry_upsert := bool_decide (review_status c = APPROVED)
                          && retryable_status (index_status c) in
      let retry_tombstone := bool_decide (review_status c ∈ [DISABLED; SUPERSEDED])
                             && retryable_status (index_status c) in
      guard (retry_upsert || retry_tombstone) (Domain CaseNotIndexedError []) ;;;
      if rabbitmq then
        rq <- index_request c (if retry_upsert then REINDEX else TOMBSTONE) ;;
        trace <- trace_id ;;
        u <- queue_index (cfg_index_repository cfg) cid rq (actor_id actor)
               (role_value (actor_role actor)) "case.reindex_queued" trace hash key ;;
        audit_case actor "case.reindex_queued" (fst u) ;;;
        ret (mkView (fst u) (Some (snd u)))
      else
        trace <- trace_id ;;
        append_event cid (actor_id actor) (role_value (actor_role actor))
          "case.reindex_started" (review_status c) (review_status c) None key hash trace ;;;
        audit_case actor "case.reindex_started" c ;;;
        u <- (if retry_tombstone then tombstone_case c actor "case.tombstone_retry"
              else index_case c actor "case.reindex") ;;
        ret (mkView u None)
  end.

(** [cases/application.py:625-627 CaseApplicationService.history] *)
Definition case_history (cid : string) : M World exn (list CaseReviewEvent) :=
  get cid ;;; history cid.
End CaseApplicationService.
