(* ===== verification/CaseInv.v ===== *)
(** * What holds of every case

    The invariant of the case lifecycle: an active case is approved and
    indexed, a case past its draft is complete, an approved case was approved
    by somebody else than its author; and that each operation of
    [cases/application.py] keeps it. *)

From S2P Require Import Prelude Errors Json Contracts Store Timeline IndexRepo Sessions CaseRepo.
From S2P Require Import CaseHistory CaseApp.
Open Scope Z_scope.

(** No required field is empty ([missing_case_fields] finds nothing besides
    the evidence references, whose evidence may disappear later). *)
Definition complete (c : DiagnosisCase) : Prop := missing_case_fields c (refs_of c) = [].

Definition was_approved (s : CaseStatus) : bool :=
  match s with APPROVED | DISABLED | SUPERSEDED => true | _ => false end.

(** The approval of a case by an actor, as the log has it. *)
Definition approval_event (cid actor : string) (e : CaseReviewEvent) : Prop :=
  ev_case_id e = cid /\ ev_action e = "case.approved" /\ ev_actor_id e = actor
  /\ ev_from_status e = Some PENDING_REVIEW /\ ev_to_status e = APPROVED.

Record case_ok (evs : list CaseReviewEvent) (cid : string) (c : DiagnosisCase) : Prop := {
  ok_key : case_id c = cid;
  ok_active : is_active c = true ->
    review_status c = APPROVED /\ index_status c ∈ [IDX_INDEXED; IDX_DEGRADED];
  ok_complete : review_status c <> DRAFT -> complete c;
  ok_approved : was_approved (review_status c) = true ->
    exists actor e, reviewer c = Some actor /\ actor <> created_by c
      /\ e ∈ evs /\ approval_event cid actor e;
}.

Definition case_inv (w : World) : Prop :=
  forall cid c, cases w !! cid = Some c -> case_ok (case_events w) cid c.

Lemma case_ok_more evs l cid c : case_ok evs cid c -> case_ok (evs ++ l) cid c.
Proof.
  intros [K A C P]. split; [done..|]. intros Ha. destruct (P Ha) as (x & e & ? & ? & He & ?).
  exists x, e. split_and!; [done..| |done]. apply elem_of_app. by left.
Qed.

Lemma case_inv_same w w' :
  cases w' = cases w -> case_events w' = case_events w -> case_inv w -> case_inv w'.
Proof. unfold case_inv. by intros -> ->. Qed.

#[export] Instance case_inv_framed : Framed (keeps case_inv).
Proof. apply framed_keeps; intros; (eapply case_inv_same; [| |eassumption]); done. Qed.

(** Writing one row and appending to the log. *)
Lemma case_inv_put w w' cid c l :
  cases w' = <[cid:=c]> (cases w) -> case_events w' = case_events w ++ l ->
  case_ok (case_events w ++ l) cid c -> case_inv w -> case_inv w'.
Proof.
  intros Hc He Hok Hi k d. rewrite Hc, He. destruct (decide (k = cid)) as [->|Hne].
  - rewrite lookup_insert_eq. by intros [= <-].
  - rewrite lookup_insert_ne by done. intros Hd. by apply case_ok_more, Hi.
Qed.

(** Completeness and approval look at the content and the author only. *)
Lemma complete_content c c' :
  content c' = content c -> created_by c' = created_by c -> complete c -> complete c'.
Proof.
  unfold complete, missing_case_fields, refs_of, steps_of, content.
  intros [= E1 E2 _ E3 E4 _ E5 E6 _ E7] E8. by rewrite E1, E2, E3, E4, E5, E6, E7, E8.
Qed.

Lemma missing_complete c valid : missing_case_fields c valid = [] -> complete c.
Proof.
  unfold complete, missing_case_fields. intros [-> _]%app_eq_nil. simpl.
  destruct (existsb _ (refs_of c)) eqn:E; [|done].
  apply existsb_exists in E as (x & Hx & Hn). apply list_elem_of_In in Hx.
  by rewrite bool_decide_true in Hn.
Qed.

(** ** The case repository *)

(** The two tables of the case repository are untouched. *)
Definition same_tables (w w' : World) : Prop :=
  cases w' = cases w /\ case_events w' = case_events w.
#[export] Instance same_tables_preorder : PreOrder same_tables.
Proof. split; unfold same_tables; [done|]. intros w1 w2 w3 [-> ->] [-> ->]. done. Qed.
#[export] Instance same_tables_framed : Framed same_tables.
Proof. split; [split; [apply _|done..]|done]. Qed.

Section Repository.
Context `{Env} (ir : bool).

Lemma case_record_ok c w w' c' : case_record c w = (w', Ok c') -> w' = w /\ c' = c.
Proof. unfold case_record. intros Hr. run_inv Hr. by subst. Qed.

Lemma add_job_tables r : respects same_tables (add_job r).
Proof. unfold add_job. respect. by apply respects_modify. Qed.

Lemma insert_event_ok e w w' u : insert_event e w = (w', Ok u) ->
  cases w' = cases w /\ case_events w' = case_events w ++ [e].
Proof. unfold insert_event. intros Hr. run_inv Hr. unfold modify in Hr. by injection Hr as <-. Qed.

(** What a transition that is not a replay writes. *)
Definition transition_written (a : transition_args) (w w' : World) (c c' : DiagnosisCase)
  : Prop :=
  exists t,
    cases w !! a_case_id a = Some c /\ review_status c = expected a
    /\ cases w' = <[a_case_id a := c']> (cases w)
    /\ case_events w' = case_events w ++
         [mkEvent (a_case_id a) (a_actor_id a) (a_actor_role a) (a_action a)
            (Some (expected a)) (target a) (a_comment a) (a_idempotency_key a)
            (a_request_hash a) (a_trace_id a) t].

(** Every transaction that commits is a replay, which returns the row as it
    is and writes nothing, or the write of one row and one event. *)
Lemma transition_tx_ok a w w' r :
  transition_tx ir a w = (w', Ok r) ->
  (replayed r = true /\ tr_job_id r = None /\ cases w !! a_case_id a = Some (tr_case r)
   /\ w' = w)
  \/ (replayed r = false /\ exists c c' now,
        setattrs (c <| review_status := target a |>) (a_updates a) = Some c'
        /\ tr_case r = c' <| updated_at := now |>
        /\ transition_written a w w' c (tr_case r)).
Proof.
  unfold transition_tx. intros Hrun%atomically_ok.
  run_step Hrun. run_step Hrun; [|done]. run_step Hrun. run_step Hrun.
  { (* a replay *)
    run_step Hrun. run_step Hrun. apply case_record_ok in Hrun0 as [-> ->].
    run_inv Hrun. subst r w'. by left. }
  right. run_step Hrun. rewrite bind_utc_now in Hrun. cbv beta in Hrun.
  rewrite bind_utc_now in Hrun. cbv beta in Hrun. run_step Hrun; [|done].
  run_step Hrun. run_step Hrun. apply insert_event_ok in Hrun0 as [Hc2 He2].
  apply bind_ok_inv in Hrun as (jid & s3 & Hj & Hrun). run_inv Hrun. subst r s3.
  apply (respects_fst same_tables) in Hj; [|respect; apply add_job_tables].
  destruct Hj as [Hc3 He3]. split; [done|]. simpl in *.
  eexists d, _, _. split; [done|]. split; [done|]. eexists.
  apply bool_decide_eq_true in Heqb. rewrite Hc3, Hc2, He3, He2, Heqb.
  split_and!; done.
Qed.

Lemma transition_ok a w w' r :
  transition ir a w = (w', Ok r) -> exists r', transition_tx ir a w = (w', Ok r')
    /\ tr_case r = tr_case r' /\ replayed r = replayed r' /\ tr_job_id r = tr_job_id r'.
Proof.
  unfold transition. intros Hr. run_step Hr. destruct (replayed v) eqn:Ev; run_inv Hr.
  - subst. by exists r.
  - subst. apply case_record_ok in Hrun0 as [-> ->]. by exists v.
Qed.

(** Whatever its outcome, a transition leaves the tables alone or commits
    its write. *)
Lemma transition_tables a w :
  same_tables w (fst (transition ir a w))
  \/ exists c c' now,
       setattrs (c <| review_status := target a |>) (a_updates a) = Some c'
       /\ transition_written a w (fst (transition ir a w)) c (c' <| updated_at := now |>).
Proof.
  unfold transition. destruct (transition_tx ir a w) as [w1 [r|e]] eqn:Htx.
  - rewrite (bind_ok _ _ _ _ _ Htx).
    assert (Hs : forall k, same_tables w1 (fst ((if replayed r then ret r
      else c <- case_record (tr_case r);; ret (k c)) w1))).
    { intros k. destruct (replayed r); [done|]. apply (respects_bind same_tables); respect. }
    destruct (Hs (fun c => mkTransition c (tr_job_id r) false)) as [Hc He]. clear Hs.
    apply transition_tx_ok in Htx as [(_ & _ & _ & ->)|(_ & c & c' & now & Hu & Hr & Ht)].
    + by left.
    + right. exists c, c', now. split; [done|]. rewrite <- Hr.
      destruct Ht as (t & ? & ? & Hc1 & He1). exists t. by rewrite Hc, He.
  - rewrite (bind_raise _ _ _ _ _ Htx). left. simpl.
    by apply atomically_raise in Htx as (t & i & ->).
Qed.

(** The invariant survives a transition whose new row satisfies it. *)
Lemma transition_inv P a :
  (forall w c c' now t, P w -> case_inv w -> cases w !! a_case_id a = Some c ->
     review_status c = expected a ->
     setattrs (c <| review_status := target a |>) (a_updates a) = Some c' ->
     case_ok (case_events w ++
         [mkEvent (a_case_id a) (a_actor_id a) (a_actor_role a) (a_action a)
            (Some (expected a)) (target a) (a_comment a) (a_idempotency_key a)
            (a_request_hash a) (a_trace_id a) t]) (a_case_id a) (c' <| updated_at := now |>)) ->
  from P (keeps case_inv) (transition ir a).
Proof.
  intros Hok w HP Hi. destruct (transition_tables a w) as [[Hc He]|(c & c' & now & Hu & t & Ht)].
  - by eapply case_inv_same.
  - destruct Ht as (Hc & Hst & Hc' & He'). eapply case_inv_put; [done..| |done]. by eapply Hok.
Qed.

Lemma add_job_inv r : respects (keeps case_inv) (add_job r).
Proof.
  intros w Hi. destruct (add_job_tables r w) as [Hc He]. by eapply case_inv_same.
Qed.
Hint Resolve add_job_inv : pres.

Lemma insert_event_inv e : respects (keeps case_inv) (insert_event e).
Proof.
  unfold insert_event. respect. apply respects_modify. intros w Hi cid c Hc. simpl.
  by apply case_ok_more, Hi.
Qed.
Hint Resolve insert_event_inv : pres.

Lemma create_inv values :
  review_status values = DRAFT -> is_active values = false ->
  respects (keeps case_inv) (create values).
Proof.
  intros Hst Hact. unfold create. respect_step; [respect|]. respect_step; [|respect]. follow.
  intros w _ Hi. eapply case_inv_put with (l := []); [done|by rewrite app_nil_r| |done].
  split; simpl; rewrite ?Hst, ?Hact; done.
Qed.

(** A row that differs from an earlier state in its bookkeeping only. *)
Lemma case_ok_same evs cid c c' :
  case_ok evs cid c -> identity c' = identity c -> content c' = content c ->
  review_status c' = review_status c -> reviewer c' = reviewer c ->
  (is_active c' = true ->
     review_status c = APPROVED /\ index_status c' ∈ [IDX_INDEXED; IDX_DEGRADED]) ->
  case_ok evs cid c'.
Proof.
  intros [K A C P] [= Hid _ _ _ _ _ _ Hby _] Hct Hst Hrev Hact.
  split; rewrite ?Hid, ?Hst, ?Hrev, ?Hby; [done..| |done].
  intros Hn. eapply complete_content; [done..|]. by apply C.
Qed.

Lemma put_inv {A} cid c c' (k : M World exn A) :
  (forall w, case_inv w -> cases w !! cid = Some c -> case_ok (case_events w) cid c') ->
  respects (keeps case_inv) k ->
  from (fun w => cases w !! cid = Some c) (keeps case_inv) (modify (put_case cid c') ;;; k).
Proof.
  intros Hok Hk. eapply from_modify; [apply _| |by apply (from_respects _ (fun _ => True))].
  intros w Hc. split; [|exact I]. intros Hi.
  eapply case_inv_put with (l := []); [done|by rewrite app_nil_r| |done].
  rewrite app_nil_r. by apply Hok.
Qed.

Lemma setattrs_active us c c' :
  Forall (fun u => patchable u = true) us -> setattrs c us = Some c' ->
  is_active c' = is_active c.
Proof.
  revert c. induction us as [|u us IH]; intros c Hus Hs; simpl in Hs; [by injection Hs as ->|].
  apply Forall_cons in Hus as [Hu Hus]. destruct (setattr c u) as [c1|] eqn:E; [|done].
  rewrite (IH _ Hus Hs). destruct u as [| | | | | |[]| | | | | | |]; simpl in *;
    (injection E as <- || discriminate); done.
Qed.

Lemma update_draft_inv cid us actor priv :
  Forall (fun u => patchable u = true) us ->
  respects (keeps case_inv) (update_draft cid us actor priv).
Proof.
  intros Hus. unfold update_draft. respect_step; [|respect]. follow.
  apply from_weaken with (Q := fun w => cases w !! cid = Some d); [|by intros w []].
  apply put_inv; [|respect]. intros w Hi Hc.
  apply bool_decide_eq_true in H0. destruct (Hi _ _ Hc) as [K A _ _].
  destruct (setattrs_identity _ _ _ Heqo0) as (Hid & Hst & _).
  pose proof (setattrs_active _ _ _ Hus Heqo0) as Hact.
  split; simpl; rewrite ?Hst, ?Hact, ?H0; try done.
  - by injection Hid as ->.
  - intros Ha. destruct (A Ha). congruence.
Qed.

Lemma queue_index_inv cid rq x1 x2 x3 x4 x5 x6 :
  respects (keeps case_inv) (queue_index ir cid rq x1 x2 x3 x4 x5 x6).
Proof.
  unfold queue_index. respect_step; [respect|]. respect_step; [|respect]. follow.
  apply from_weaken with (Q := fun w => cases w !! cid = Some d); [|by intros w []].
  apply put_inv; [|respect].
  intros w Hi Hc. by apply (case_ok_same _ _ d); [apply Hi|..].
Qed.

Lemma append_event_inv x1 x2 x3 x4 x5 x6 x7 x8 x9 x10 :
  respects (keeps case_inv) (append_event x1 x2 x3 x4 x5 x6 x7 x8 x9 x10).
Proof. unfold append_event. respect. Qed.

Definition approved (cid : string) (w : World) : Prop :=
  exists c, cases w !! cid = Some c /\ review_status c = APPROVED.

(** Activating is for approved cases only. *)
Lemma set_index_inv cid st code text b :
  (b = true -> st ∈ [IDX_INDEXED; IDX_DEGRADED]) ->
  from (fun w => b = true -> approved cid w) (keeps case_inv)
    (set_index cid st code text (Some b)).
Proof.
  intros Hb. unfold set_index. apply from_bind_last; [apply _| |respect]. follow.
  intros w [Hap Hc] Hi.
  eapply (put_inv cid d); [|respect|exact Hc|exact Hi].
  intros w' Hi' Hc'. apply (case_ok_same _ _ d); [by apply Hi'|by destruct text..|].
  assert (Hst : b = true -> review_status d = APPROVED).
  { intros Ht. destruct (Hap Ht) as (c & Hc1 & Hst). congruence. }
  destruct text; simpl; auto.
Qed.
End Repository.

#[export] Hint Resolve add_job_inv insert_event_inv update_draft_inv queue_index_inv
  append_event_inv : pres.
#[export] Hint Extern 2 (respects (keeps case_inv) (set_index _ _ _ _ (Some false))) =>
  (intros ? ?; apply set_index_inv; [discriminate|discriminate|assumption]) : pres.
