(* ===== verification/CaseSafety.v ===== *)
(** * The operations of the case service keep the history and the invariant

    For each operation of [CaseApp.v]: it respects [case_history_of] and
    [keeps case_inv], on every branch and whatever the outside answers. *)

From S2P Require Import Prelude Errors Json Contracts Store Timeline IndexRepo Sessions CaseRepo.
From S2P Require Import CaseHistory CaseApp CaseInv.
Open Scope Z_scope.

(** ** Operations that leave the cases alone *)

Section Other.
Context `{Env} (cfg : CaseConfig) (R : World -> World -> Prop) `{!Clocked R}.

Lemma respects_index_request c op : respects R (index_request cfg c op).
Proof. unfold index_request. respect. Qed.
Hint Resolve respects_index_request : pres.

Lemma respects_request_if b c op : respects R (request_if cfg b c op).
Proof. unfold request_if. respect. Qed.

Lemma respects_audit_case actor action c : respects R (audit_case actor action c).
Proof. unfold audit_case. respect. Qed.

Lemma respects_get cid : respects R (get cid).
Proof. unfold get, throw. respect. Qed.

Lemma respects_session_get sid : respects R (session_get sid).
Proof. apply respects_gets, _. Qed.

Lemma respects_latest_result sid : respects R (latest_result sid).
Proof. apply respects_gets, _. Qed.
End Other.
#[export] Hint Resolve respects_index_request respects_request_if respects_audit_case
  respects_get respects_session_get respects_latest_result : pres.

(** A relation that ignores the sessions, reviews and the timeline as well. *)
Class CaseFramed (R : World -> World -> Prop) := {
  case_framed :: Framed R;
  framed_tables : forall w w', same_tables w w' -> R w w';
}.
#[export] Instance case_framed_history : CaseFramed case_history_of.
Proof. split; [apply _|]. intros w w' []. by apply history_same. Qed.
#[export] Instance case_framed_inv : CaseFramed (keeps case_inv).
Proof. split; [apply _|]. intros w w' [] Hi. by eapply case_inv_same. Qed.

Section Reviews.
Context `{Env} (cfg : CaseConfig) (R : World -> World -> Prop) `{!CaseFramed R}.

Lemma respects_same_tables {A} (m : M World exn A) :
  respects same_tables m -> respects R m.
Proof. intros Hm w. apply framed_tables, Hm. Qed.

Lemma respects_review_append v : respects R (review_append v).
Proof. apply respects_same_tables. unfold review_append. respect. by apply respects_modify. Qed.
Hint Resolve respects_review_append : pres.

Lemma respects_recorder_append a b c d e f g h :
  respects R (recorder_append a b c d e f g h).
Proof. unfold recorder_append. respect. Qed.

Lemma respects_session_update_row sid us : respects R (session_update_row sid us).
Proof.
  apply respects_same_tables. unfold session_update_row, throw. respect.
  by apply respects_modify.
Qed.

Lemma respects_timeline_append a b c d e f : respects R (timeline_append a b c d e f).
Proof.
  apply respects_same_tables. unfold timeline_append, timeline_insert. respect.
  by apply respects_modify.
Qed.
Hint Resolve respects_timeline_append : pres.

Lemma respects_review_timeline a b c d e f : respects R (review_timeline a b c d e f).
Proof. unfold review_timeline. respect. Qed.
End Reviews.
#[export] Hint Extern 0 (CaseFramed _) => typeclasses eauto : pres.
#[export] Hint Resolve respects_recorder_append respects_session_update_row
  respects_review_timeline : pres.

(** ** The history *)

Section History.
Context `{Env} (cfg : CaseConfig).

Lemma create_draft_history a b c d e f : respects case_history_of (create_draft a b c d e f).
Proof. unfold create_draft. respect. Qed.
Hint Resolve create_draft_history : pres.

Lemma review_diagnosis_history a b c d : respects case_history_of (review_diagnosis cfg a b c d).
Proof. unfold review_diagnosis, throw. respect. Qed.

Lemma patch_history a b c : respects case_history_of (patch a b c).
Proof. unfold patch. respect. Qed.

Lemma submit_history a b c : respects case_history_of (submit cfg a b c).
Proof. unfold submit. respect. Qed.
Hint Resolve submit_history : pres.

Lemma index_case_history a b c : respects case_history_of (index_case cfg a b c).
Proof. unfold index_case. respect. Qed.

Lemma tombstone_case_history a b c : respects case_history_of (tombstone_case cfg a b c).
Proof. unfold tombstone_case. respect. Qed.
Hint Resolve index_case_history tombstone_case_history : pres.

Lemma supersede_history a b : respects case_history_of (supersede cfg a b).
Proof. unfold supersede. respect. Qed.
Hint Resolve supersede_history : pres.

Lemma review_case_history a b c d : respects case_history_of (review_case cfg a b c d).
Proof.
  unfold review_case. respect.
  all: apply transition_history; [by destruct (bool_decide _)|].
  all: destruct a3; repeat constructor.
Qed.

Lemma disable_history a b c d : respects case_history_of (disable cfg a b c d).
Proof. unfold disable. respect. Qed.

Lemma revise_history a b c d e f g : respects case_history_of (revise cfg a b c d e f g).
Proof. unfold revise. respect. Qed.
Hint Resolve revise_history : pres.

Lemma revision_history a b c d e : respects case_history_of (revision cfg a b c d e).
Proof. unfold revision. respect. Qed.

Lemma reindex_history a b c : respects case_history_of (reindex cfg a b c).
Proof. unfold reindex. respect. Qed.
End History.

(** ** The invariant *)

Section Invariant.
Context `{Env} (cfg : CaseConfig).

(** What [get] returns is the row. *)
Lemma get_ok cid w w' c : get cid w = (w', Ok c) -> w' = w /\ cases w !! cid = Some c.
Proof.
  unfold get, repo_get. intros Hr. run_step Hr.
  apply bind_ok_inv in Hrun as (m & s2 & Hm & Hrun).
  unfold gets in Hm. injection Hm as <- <-. destruct (cases w !! cid) as [d|].
  - run_inv Hrun. subst. run_inv Hr. subst.
    by apply case_record_ok in Hrun0 as [-> ->].
  - run_inv Hrun. by subst.
Qed.

Lemma from_get {B} (R : World -> World -> Prop) `{!PreOrder R} P cid (k : _ -> M World exn B) :
  (forall c, from (fun w => P w /\ cases w !! cid = Some c) R (k c)) ->
  from P R (bind (get cid) k).
Proof.
  intros Hk. apply (from_read _ _ _ (fun c w => cases w !! cid = Some c)); [|done].
  intros w _. exists (snd (get cid w)).
  assert (Hs : fst (get cid w) = w).
  { unfold get, repo_get, bind, gets, case_record. destruct (cases w !! cid); simpl; [|done].
    by destruct (_ && _). }
  split; [by rewrite <- Hs at 2; destruct (get cid w)|].
  destruct (get cid w) as [w1 [c|e]] eqn:Hg; [|done]. by apply get_ok in Hg as [_ ?].
Qed.

Lemma create_draft_inv a b c d e f : respects (keeps case_inv) (create_draft a b c d e f).
Proof. unfold create_draft. respect. by apply create_inv. Qed.
Hint Resolve create_draft_inv : pres.

Lemma review_diagnosis_inv a b c d : respects (keeps case_inv) (review_diagnosis cfg a b c d).
Proof. unfold review_diagnosis, throw. respect. Qed.

Lemma patch_inv a us c : Forall (fun u => patchable u = true) us ->
  respects (keeps case_inv) (patch a us c).
Proof. intros Hus. unfold patch. respect. Qed.

Lemma submit_inv cid actor key : respects (keeps case_inv) (submit cfg cid actor key).
Proof.
  unfold submit. respect_step; [respect|]. apply respects_from, from_get; [apply _|]. intros c.
  follow.
  apply from_bind_last; [apply _| |intros ?; respect]. apply transition_inv. simpl.
  intros w c1 c' now t [_ Hc] Hi Hc1 Hst [= <-].
  assert (c1 = c) as -> by congruence. destruct (Hi _ _ Hc) as [K A _ _].
  split; simpl; try done.
  - intros Ha. destruct (A Ha). congruence.
  - intros _. apply (complete_content c); [done|done|]. eapply missing_complete.
    apply list_true_false. by apply negb_true_iff.
Qed.
Hint Resolve submit_inv : pres.

(** Indexing an approved case. *)
Lemma index_case_inv c actor prefix :
  from (approved (case_id c)) (keeps case_inv) (index_case cfg c actor prefix).
Proof.
  unfold index_case. apply from_catch; [apply _| |intros ?; respect].
  follow. apply from_bind_last; [apply _| |intros ?; respect].
  intros w Hap. apply set_index_inv; [|done]. intros _. set_solver.
Qed.

Lemma tombstone_case_inv c actor prefix :
  respects (keeps case_inv) (tombstone_case cfg c actor prefix).
Proof. unfold tombstone_case. respect. Qed.
Hint Resolve tombstone_case_inv : pres.

(** Leaving the approved state deactivates: the row of [disable] and of
    [_supersede]. *)
Lemma retire_inv target cid x1 x2 x3 x4 x5 x6 x7 st rq :
  edge APPROVED target = true ->
  respects (keeps case_inv) (transition (cfg_index_repository cfg)
    (mkArgs cid APPROVED target x1 x2 x3 x4 x5 x6 x7 [SetIsActive false; SetIndexStatus st] rq)).
Proof.
  intros He. apply respects_from, transition_inv. simpl.
  intros w c c' now t _ Hi Hc Hst [= <-]. destruct (Hi _ _ Hc) as [K A C P].
  split; simpl; [done|done| |].
  - intros _. apply (complete_content c); [done|done|]. apply C. by rewrite Hst.
  - intros _. rewrite Hst in P. destruct (P eq_refl) as (x & e & ? & ? & Hx & Hy).
    exists x, e. split_and!; [done..| |done]. apply elem_of_app. by left.
Qed.
Hint Extern 2 (respects (keeps case_inv) (transition _ _)) =>
  apply retire_inv; reflexivity : pres.

Lemma supersede_inv cid actor : respects (keeps case_inv) (supersede cfg cid actor).
Proof. unfold supersede. respect. Qed.
Hint Resolve supersede_inv : pres.

Lemma disable_inv cid reason actor key :
  respects (keeps case_inv) (disable cfg cid reason actor key).
Proof. unfold disable. respect. Qed.

(** The decision of a reviewer who is not the author. *)
Lemma decide_inv (approve : bool) cid (actor author : string) x1 x2 x3 x4 x5 us rq :
  author <> actor ->
  us = [] \/ us = [SetIndexStatus IDX_QUEUED; SetIsActive false] ->
  from (fun w => exists c, cases w !! cid = Some c /\ created_by c = author)
    (keeps case_inv) (transition (cfg_index_repository cfg)
    (mkArgs cid PENDING_REVIEW (if approve then APPROVED else REJECTED) actor x1
       (if approve then "case.approved" else "case.rejected") x2 x3 x4 x5
       ([SetReviewer actor; SetReviewComment x5] ++ us) rq)).
Proof.
  intros Hne Hus. apply transition_inv. simpl.
  intros w c c' now t (c0 & Hc0 & Hby) Hi Hc Hst Hset.
  assert (c0 = c) as -> by congruence. destruct (Hi _ _ Hc) as [K A C P].
  assert (Hc' : identity c' = identity c /\ content c' = content c /\
    review_status c' = (if approve then APPROVED else REJECTED) /\ reviewer c' = Some actor /\
    is_active c' = false).
  { assert (is_active c = false) by
      (destruct (is_active c); [destruct (A eq_refl); congruence|done]).
    destruct Hus as [-> | ->]; injection Hset as <-; done. }
  clear Hset. destruct Hc' as ([= Hid _ _ _ _ _ _ Hby' _] & Hct & Hst' & Hrev & Hact).
  split; simpl; rewrite ?Hid, ?Hact, ?Hrev, ?Hby', ?Hst'; [done|done| |].
  - intros _. apply (complete_content c); [done|done|]. apply C. by rewrite Hst.
  - destruct approve; [|done]. intros _. eexists actor, _. split; [done|].
    split; [congruence|]. split; [apply elem_of_app; right; by left|]. done.
Qed.

Lemma revise_inv cid original us b hash actor key :
  Forall (fun u => patchable u = true) us ->
  respects (keeps case_inv) (revise cfg cid original us b hash actor key).
Proof.
  intros Hus. unfold revise. respect. apply create_inv.
  all: unfold revision_values in *; destruct (setattrs original us); [|discriminate];
    match goal with H : _ = Some _ |- _ => injection H as <- end; done.
Qed.

Lemma revision_inv cid us b actor key :
  Forall (fun u => patchable u = true) us ->
  respects (keeps case_inv) (revision cfg cid us b actor key).
Proof. intros Hus. unfold revision. respect; by apply revise_inv. Qed.

(** After a fresh transition the row returned is in its target state. *)
Lemma transition_target a w w' r :
  case_inv w -> transition (cfg_index_repository cfg) a w = (w', Ok r) -> replayed r = false ->
  case_id (tr_case r) = a_case_id a /\ review_status (tr_case r) = target a
  /\ cases w' !! a_case_id a = Some (tr_case r).
Proof.
  intros Hi (r' & Hr & -> & -> & _)%transition_ok Hf.
  apply transition_tx_ok in Hr as [[Ht _]|(_ & c & c' & now & Hu & Hr' & t & Hc & _ & Hc1 & _)];
    [congruence|].
  apply setattrs_identity in Hu as (Hid & Hst & _). injection Hid as Hid _ _ _ _ _ _ _ _.
  rewrite Hc1, lookup_insert_eq, Hr'. simpl. rewrite Hid, Hst. simpl.
  split_and!; [|done..]. apply (Hi _ _ Hc).
Qed.

Lemma review_case_inv cid q actor key :
  respects (keeps case_inv) (review_case cfg cid q actor key).
Proof.
  unfold review_case. respect_step; [respect|].
  apply respects_from, from_get; [apply _|]. intros c. apply from_inv. follow.
  set (approve := bool_decide (decision q = "approve")).
  apply (from_bind_post _ _ (fun t w => replayed t = false -> approve = true ->
    approved (case_id (tr_case t)) w)).
  - eapply from_weaken; [apply (decide_inv approve cid (actor_id actor) (created_by c))|].
    + by apply negb_true_iff, bool_decide_eq_false in H0.
    + destruct a0; auto.
    + intros w [[_ Hc] _]. by exists c.
  - intros w w' t [_ Hi] Hr Hf Ha. destruct (transition_target _ _ _ _ Hi Hr Hf) as (-> & Hst & Hc).
    exists (tr_case t). split; [done|]. rewrite Hst. simpl. by rewrite Ha.
  - intros t. destruct (replayed t); [apply from_respects; respect|].
    apply from_bind_last; [apply _| |intros ?; respect].
    destruct approve; [|apply from_respects; respect].
    apply from_bind_last; [apply _| |intros ?; respect].
    destruct (bool_decide (index_execution_mode cfg = "sync")); [|apply from_respects; respect].
    apply from_bind_last; [apply _| |intros ?; respect].
    eapply from_weaken; [apply index_case_inv|]. auto.
Qed.

Lemma reindex_inv cid actor key : respects (keeps case_inv) (reindex cfg cid actor key).
Proof.
  unfold reindex. apply respects_from, from_get; [apply _|]. intros c.
  apply from_weaken with (Q := fun w => cases w !! cid = Some c); [|by intros w []].
  apply from_inv, from_bind; [apply _|respect|respect|]. intros [[h comment]|].
  { apply from_respects. respect. }
  follow_step. destruct (bool_decide (index_execution_mode cfg = "rabbitmq")).
  { apply from_respects. respect. }
  follow.
  apply from_weaken with (Q := fun w => cases w !! cid = Some c /\ case_id c = cid).
  2: { intros w [Hc Hi]. split; [exact Hc|exact (ok_key _ _ _ (Hi _ _ Hc))]. }
  apply from_bind; [apply _|respect| |].
  { unfold append_event, insert_event. respect. apply respects_modify. intros w Hw. exact Hw. }
  intros _. follow. apply from_bind_last; [apply _| |intros ?; respect].
  destruct (_ && _) eqn:Ht in |- *; [apply from_respects; respect|].
  eapply from_weaken; [apply index_case_inv|]. intros w [Hc ->].
  exists c. split; [done|]. rewrite Ht, orb_false_r in H0.
  apply andb_true_iff in H0 as [Ha _]. by apply bool_decide_eq_true in Ha.
Qed.
End Invariant.
