(* ===== verification/IndexHandlers.v ===== *)
(** * The index handlers

    [indexing/handler_runtime.py]: what the worker does for a message - read
    the entity, compute its text, embed it, upsert the vector row, project the
    graph and write the outcome back. *)

From stdpp Require Import pretty.
From S2P Require Import Prelude Errors Json Contracts Store Text IndexRepo CaseRepo CaseApp.
Open Scope Z_scope.

(** [indexing/handler_runtime.py:39-42 HandlerResult] *)
Record HandlerResult := mkHandled {
  hr_status : IndexJobStatus;
  graph_degraded : bool;
}.
#[export] Instance HandlerResult_eq_dec : EqDecision HandlerResult.
Proof. solve_decision. Defined.

(** What the worker is built with ([graph.available], [repository]). *)
Record HandlerConfig := mkHandlerConfig {
  graph_available : bool;
  h_repository : bool;
}.

Definition ticket_text (t : MaintenanceTicket) : string :=
  strip (collapse_spaces (str_join " " (truthy
    [Some (t_device_model t); Some (t_alarm_name t); fault_symptom t; t_root_cause t;
     action_taken t]))).

(** [datetime.timestamp()] of a time in microseconds, truncated. *)
Definition epoch_seconds (t : Z) : Z := Z.quot t 1000000.

Definition ticket_row (e : IndexJobMessage) (t : MaintenanceTicket) (v : Z) : VectorRow :=
  mkVectorRow (ticket_id t) (ticket_id t) "" (t_device_model t) (or_empty (t_manufacturer t))
    (t_alarm_name t) (m_entity_version e) None true true
    (Some (default 0 (epoch_seconds <$> close_time t))) v.

Definition manual_row (d : ManualDocument) (c : ManualChunk) (v : Z) : VectorRow :=
  mkVectorRow (chunk_id c) (doc_id d) (d_device_type d) (or_empty (d_device_model d))
    (or_empty (d_manufacturer d)) (or_empty (c_alarm_name c)) (or_empty (d_index_generation d))
    None true true None v.

(** [zip(l, l', strict=True)]. *)
Fixpoint zip_strict {S A B} (l : list A) (l' : list B) : M S exn (list (A * B)) :=
  match l, l' with
  | [], [] => ret []
  | x :: l, y :: l' => r <- zip_strict l l' ;; ret ((x, y) :: r)
  | _, _ => raise ValueError
  end.

(** [{k: v for k, v in l}]. *)
Definition dict_of {V} (l : list (string * V)) : gmap string V :=
  foldl (fun m kv => <[fst kv := snd kv]> m) ∅ l.

Definition update_ticket (tid : string) (f : MaintenanceTicket -> MaintenanceTicket) (w : World)
  : World :=
  match tickets w !! tid with
  | Some t => if is_verified t then w <| tickets ::= insert tid (f t) |> else w
  | None => w
  end.

Section IndexHandlerRuntime.
Context `{Env} (hc : HandlerConfig).

Definition permanent {S A} (reason : string) : M S exn A := raise (PermanentIndexError reason).
Definition stale {S A} : M S exn A := raise StaleIndexEventError.

(** The first vector of an answer. *)
Definition first_vector (l : list Z) : M World exn Z :=
  match l with v :: _ => ret v | [] => raise IndexError end.

(** [indexing/handler_runtime.py:114-181 IndexHandlerRuntime._manual] *)
Definition manual (e : IndexJobMessage) : M World exn HandlerResult :=
  rows <- gets (fun w => filter (fun d => doc_id d = m_entity_id e
      /\ d_index_generation d = Some (m_entity_version e)) (documents w)) ;;
  match rows with
  | [] => permanent "INDEX_ENTITY_NOT_FOUND"
  | _ :: _ :: _ => raise MultipleResultsFound
  | [d] =>
      if negb (effective d) || negb (bool_decide (d_review_status d = "APPROVED"))
         || negb (bool_decide (d_index_generation d = Some (m_entity_version e)))
      then stale
      else
        cs <- gets (fun w => filter (fun c => c_doc_id c = m_entity_id e
                                     /\ c_version c = version d) (chunks w)) ;;
        vectors <- embed (map (fun c => if ostr_true (c_embedding_text c)
                                        then or_empty (c_embedding_text c)
                                        else summary_or_content c) cs) ;;
        pairs <- zip_strict cs vectors ;;
        external (MilvusUpsert "manual" (map (fun cv => manual_row d (fst cv) (snd cv)) pairs)) ;;;
        now <- utc_now ;;
        atomically (
          modify (fun w => w <| documents ::= map (fun x =>
            if bool_decide (doc_id x = m_entity_id e) && bool_decide (version x = version d)
               && effective x
            then x <| d_index_status := IDX_INDEXED |> <| d_index_error_code := None |>
                   <| d_updated_at := now |>
            else x) |>) ;;;
          modify (fun w => w <| chunks ::= map (fun c =>
            if bool_decide (c_doc_id c = m_entity_id e) && bool_decide (c_version c = version d)
            then c <| c_indexed_at := Some now |> else c) |>)) ;;;
        ret (mkHandled JOB_INDEXED false)
  end.

(** [indexing/handler_runtime.py:183-239 IndexHandlerRuntime._ticket] *)
Definition ticket (e : IndexJobMessage) : M World exn HandlerResult :=
  row <- gets (fun w => tickets w !! m_entity_id e) ;;
  match row with
  | None => permanent "INDEX_ENTITY_NOT_FOUND"
  | Some t =>
      if negb (bool_decide (t_index_generation t = Some (m_entity_version e)))
         || negb (is_verified t)
      then stale
      else
        let text := ticket_text t in
        vectors <- embed [text] ;;
        v <- first_vector vectors ;;
        external (MilvusUpsert "ticket" [ticket_row e t v]) ;;;
        atomically (
          t1 <- utc_now ;;
          t2 <- utc_now ;;
          modify (update_ticket (m_entity_id e) (fun t =>
            t <| t_embedding_text := Some text |> <| t_index_status := IDX_INDEXED |>
              <| t_index_error_code := None |> <| t_indexed_at := Some t1 |>
              <| t_updated_at := t2 |>))) ;;;
        ret (mkHandled JOB_INDEXED false)
  end.

(** [indexing/handler_runtime.py:241-317 IndexHandlerRuntime._ticket_batch] *)
Definition ticket_batch (es : list IndexJobMessage) : M World exn (gmap string HandlerResult) :=
  rows <- gets tickets ;;
  ordered <- map_m (fun e =>
    match rows !! m_entity_id e with
    | None => permanent "INDEX_ENTITY_NOT_FOUND"
    | Some t =>
        if negb (bool_decide (t_index_generation t = Some (m_entity_version e)))
           || negb (is_verified t)
        then stale else ret (e, t, ticket_text t)
    end) es ;;
  vectors <- embed (map snd ordered) ;;
  pairs <- zip_strict ordered vectors ;;
  external (MilvusUpsert "ticket"
    (map (fun p => ticket_row (fst (fst (fst p))) (snd (fst (fst p))) (snd p)) pairs)) ;;;
  now <- utc_now ;;
  atomically (for_each (fun p : IndexJobMessage * MaintenanceTicket * string =>
    modify (update_ticket (m_entity_id (fst (fst p))) (fun t =>
      t <| t_embedding_text := Some (snd p) |> <| t_index_status := IDX_INDEXED |>
        <| t_index_error_code := None |> <| t_indexed_at := Some now |>
        <| t_updated_at := now |>))) ordered) ;;;
  ret (dict_of (map (fun p => (m_job_id (fst (fst p)), mkHandled JOB_INDEXED false)) ordered)).

(** [indexing/handler_runtime.py:504-522 IndexHandlerRuntime._project_case_graph] *)
Definition project_case_graph (c : DiagnosisCase) : M World exn unit :=
  guard (graph_available hc) RuntimeError ;;;
  let device := strip (or_empty (device_type c)) in
  let alarm := strip (or_empty (alarm_name c)) in
  match resolution_steps c with
  | None => raise TypeError
  | Some steps =>
      let action := default "" (find_first str_true (map strip (reverse steps))) in
      guard (str_true device && str_true alarm && str_true action) ValueError ;;;
      external (GraphProjectCase (case_id c) (case_version c) device alarm (root_cause c) action)
  end.

Definition same_projection (e : IndexJobMessage) (p : GraphProjection) : bool :=
  bool_decide (p_entity_type p = m_entity_type e)
  && bool_decide (p_entity_id p = m_entity_id e)
  && bool_decide (p_entity_version p = m_entity_version e).

(** [indexing/handler_runtime.py:576-609 IndexHandlerRuntime._projection] *)
Definition projection (e : IndexJobMessage) (st : GraphProjectionStatus)
    (error_code : option string) : M World exn unit :=
  atomically (
    row <- gets (fun w => find_first (same_projection e) (projections w)) ;;
    match row with
    | Some _ => ret tt
    | None =>
        pid <- new_id ;;
        now <- utc_now ;;
        modify (fun w => w <| projections ::= fun l =>
          l ++ [mkProjection pid (m_entity_type e) (m_entity_id e) (m_entity_version e) st
                  None None now] |>)
    end ;;;
    at_ <- (if bool_decide (st = GRAPH_DEGRADED) then ret None
            else t <- utc_now ;; ret (Some t)) ;;
    now <- utc_now ;;
    modify (fun w => w <| projections ::= map (fun p =>
      if same_projection e p
      then p <| p_status := st |> <| p_last_error_code := error_code |>
             <| projected_at := at_ |> <| p_updated_at := now |>
      else p) |>)).

(** The [UPDATE] of [_set_case_index]: no row, no effect. *)
Definition index_row (st : IndexStatus) (active : bool) (text : option string) (now : Z)
    (c : DiagnosisCase) : DiagnosisCase :=
  let c1 := c <| index_status := st |> <| index_error_code := None |>
              <| is_active := active |> <| updated_at := now |> in
  match text with Some t => c1 <| embedding_text := Some t |> | None => c1 end.
Definition update_case (cid : string) (f : DiagnosisCase -> DiagnosisCase) (w : World) : World :=
  match cases w !! cid with Some c => put_case cid (f c) w | None => w end.

(** [indexing/handler_runtime.py:553-574 IndexHandlerRuntime._set_case_index] *)
Definition set_case_index (cid : string) (st : IndexStatus) (active : bool)
    (text : option string) : M World exn unit :=
  now <- utc_now ;;
  atomically (modify (update_case cid (index_row st active text now))).

(** [indexing/handler_runtime.py:524-551 IndexHandlerRuntime._queue_superseded_case] *)
Definition queue_superseded_case (e : IndexJobMessage) (old_id : string) : M World exn unit :=
  guard (h_repository hc) (PermanentIndexError "INDEX_REPOSITORY_UNAVAILABLE") ;;;
  atomically (
    row <- gets (fun w => cases w !! old_id) ;;
    match row with
    | None => ret tt
    | Some old =>
        if negb (bool_decide (review_status old = APPROVED)) then ret tt
        else
          now <- utc_now ;;
          modify (put_case old_id
            (old <| review_status := SUPERSEDED |> <| is_active := false |>
                 <| index_status := IDX_QUEUED |> <| updated_at := now |>)) ;;;
          add_job (mkJobCreate DIAGNOSIS_CASE (case_id old) (pretty (case_version old))
            TOMBSTONE (m_trace_id e) (m_correlation_id e) (m_job_id e) 3) ;;;
          ret tt
    end).

(** The text of [_case]: the stored one, or the fields joined. *)
Definition worker_text (c : DiagnosisCase) : M World exn string :=
  if ostr_true (embedding_text c) then ret (or_empty (embedding_text c))
  else match resolution_steps c with
       | None => raise TypeError
       | Some steps =>
           ret (str_join newline (truthy
             [device_type c; device_model c; alarm_name c; symptom_summary c;
              timeseries_features c; Some (root_cause c); Some (str_join "；" steps)]))
       end.

(** The graph part of an upsert; the result says whether it is degraded.
    [indexing/handler_runtime.py:387-408 graph_degraded] (and 477-490). *)
Definition project_graph (e : IndexJobMessage) (c : DiagnosisCase) : M World exn bool :=
  catch (
    if graph_available hc then
      project_case_graph c ;;; projection e PROJECTED None ;;; ret false
    else
      projection e GRAPH_DEGRADED (Some "GRAPH_DISABLED") ;;; ret true)
  (fun _ => projection e GRAPH_DEGRADED (Some "GRAPH_PROJECTION_FAILED") ;;; ret true).

Definition upsert_status (degraded : bool) : IndexStatus :=
  if degraded then IDX_DEGRADED else IDX_INDEXED.
Definition upsert_result (degraded : bool) : HandlerResult :=
  mkHandled (if degraded then JOB_DEGRADED else JOB_INDEXED) degraded.

(** The TOMBSTONE branch of [indexing/handler_runtime.py:326-352
    TOMBSTONE] *)
Definition case_tombstone (e : IndexJobMessage) (c : DiagnosisCase) : M World exn HandlerResult :=
  if is_active c || negb (bool_decide (review_status c ∈ [DISABLED; SUPERSEDED]))
  then stale
  else
    external (MilvusDelete "case" [case_id c]) ;;;
    try_else (when (graph_available hc) (external (GraphTombstone (case_id c))))
      (fun _ =>
         projection e GRAPH_TOMBSTONED None ;;;
         set_case_index (m_entity_id e) IDX_TOMBSTONED false None ;;;
         ret (mkHandled JOB_TOMBSTONED false))
      (fun _ =>
         projection e GRAPH_DEGRADED (Some "GRAPH_PROJECTION_FAILED") ;;;
         set_case_index (m_entity_id e) IDX_TOMBSTONED false None ;;;
         ret (mkHandled JOB_TOMBSTONED true)).

(** [indexing/handler_runtime.py:353-420 upsert] *)
Definition case_upsert (e : IndexJobMessage) (c : DiagnosisCase) : M World exn HandlerResult :=
  guard (bool_decide (review_status c = APPROVED)) StaleIndexEventError ;;;
  text <- worker_text c ;;
  vectors <- embed [text] ;;
  v <- first_vector vectors ;;
  external (MilvusUpsert "case" [case_row c v]) ;;;
  degraded <- project_graph e c ;;
  set_case_index (m_entity_id e) (upsert_status degraded) true (Some text) ;;;
  when (ostr_true (supersedes_case_id c))
    (queue_superseded_case e (or_empty (supersedes_case_id c))) ;;;
  ret (upsert_result degraded).

(** [indexing/handler_runtime.py:319-420 IndexHandlerRuntime._case] *)
Definition handle_case (e : IndexJobMessage) : M World exn HandlerResult :=
  row <- gets (fun w => cases w !! m_entity_id e) ;;
  match row with
  | None => permanent "INDEX_ENTITY_NOT_FOUND"
  | Some c =>
      guard (bool_decide (pretty (case_version c) = m_entity_version e)) StaleIndexEventError ;;;
      if bool_decide (m_operation e = TOMBSTONE) then case_tombstone e c else case_upsert e c
  end.

(** [indexing/handler_runtime.py:422-502 IndexHandlerRuntime._case_batch] *)
Definition case_batch (es : list IndexJobMessage) : M World exn (gmap string HandlerResult) :=
  rows <- gets cases ;;
  ordered <- map_m (fun e =>
    match rows !! m_entity_id e with
    | None => permanent "INDEX_ENTITY_NOT_FOUND"
    | Some c =>
        guard (bool_decide (pretty (case_version c) = m_entity_version e)
               && bool_decide (review_status c = APPROVED)) StaleIndexEventError ;;;
        text <- worker_text c ;;
        ret (e, c, text)
    end) es ;;
  vectors <- embed (map snd ordered) ;;
  pairs <- zip_strict ordered vectors ;;
  external (MilvusUpsert "case" (map (fun p => case_row (snd (fst (fst p))) (snd p)) pairs)) ;;;
  results <- map_m (fun p : IndexJobMessage * DiagnosisCase * string =>
    let e := fst (fst p) in
    degraded <- project_graph e (snd (fst p)) ;;
    set_case_index (m_entity_id e) (upsert_status degraded) true (Some (snd p)) ;;;
    ret (m_job_id e, upsert_result degraded)) ordered ;;
  ret (dict_of results).

(** [indexing/handler_runtime.py:63-86 IndexHandlerRuntime.handle] with
    [_dispatch] *)
Definition handle (e : IndexJobMessage) : M World exn HandlerResult :=
  match m_entity_type e with
  | TEMPLATE_GRAPH => permanent "INDEX_EVENT_INVALID"
  | MANUAL_DOCUMENT => manual e
  | MAINTENANCE_TICKET => ticket e
  | DIAGNOSIS_CASE => handle_case e
  end.

Definition handle_each (es : list IndexJobMessage) : M World exn (gmap string HandlerResult) :=
  l <- map_m (fun e => r <- handle e ;; ret (m_job_id e, r)) es ;;
  ret (dict_of l).

(** A batch is homogeneous when all its messages have the type and the
    operation of the first, an upsert or a reindex.
    [indexing/handler_runtime.py:88-105 IndexHandlerRuntime.handle_batch] *)
Definition handle_batch (es : list IndexJobMessage) : M World exn (gmap string HandlerResult) :=
  match es with
  | [] => ret ∅
  | e0 :: _ =>
      if forallb (fun e => bool_decide (m_entity_type e = m_entity_type e0)) es
         && forallb (fun e => bool_decide (m_operation e = m_operation e0)) es
         && bool_decide (m_operation e0 ∈ [UPSERT; REINDEX])
      then match m_entity_type e0 with
           | MAINTENANCE_TICKET => ticket_batch es
           | DIAGNOSIS_CASE => case_batch es
           | _ => handle_each es
           end
      else handle_each es
  end.
End IndexHandlerRuntime.
