(* ===== verification/Consumer.v ===== *)
(** * The index worker's consumer and the outbox publisher

    [indexing/service.py] and [indexing/publisher.py]. *)

From S2P Require Import Prelude Errors Json Contracts Store IndexRepo CaseRepo CaseApp.
From S2P Require Import IndexHandlers.
Open Scope Z_scope.

Record ConsumerConfig := mkConsumer {
  handlers : HandlerConfig;
  retry_delay_ms : Z;
  dead_routing_key : string;
  retry_routing_key : string;
  index_routing_key : string;
  audit_on : bool;
}.

(** A delivery: a body that is no valid message, or the message it encodes
    (a body the worker publishes again is the encoding of its message). *)
Inductive delivery : Type :=
| Garbage (body : string)
| Delivered (e : IndexJobMessage).

Definition service_actor : string := "service:index-worker".

Section IndexConsumer.
Context `{Env} (cc : ConsumerConfig).

(** [indexing/service.py:198-236 IndexConsumer._audit] *)
Definition audit (e : IndexJobMessage) (action outc : string) : M World exn unit :=
  when (audit_on cc)
    (catch (audit_write service_actor "service" action "index_job" (m_job_id e) (m_trace_id e)
              outc None (if bool_decide (m_entity_type e = DIAGNOSIS_CASE)
                         then Some (m_entity_id e) else None))
       (fun _ => ret tt)).

(** The [try] block after the handler: [indexing/service.py:98-123
    finish] *)
Definition complete_job (e : IndexJobMessage) (result : HandlerResult) : M World exn unit :=
  finish (m_job_id e) (hr_status result) ;;;
  audit e (if bool_decide (hr_status result = JOB_DEGRADED)
           then "index.degraded" else "index.succeeded") "succeeded" ;;;
  when (bool_decide (m_entity_type e = DIAGNOSIS_CASE))
    (audit e (if bool_decide (hr_status result = JOB_TOMBSTONED) then "graph.tombstoned"
              else if graph_degraded result then "graph.degraded" else "graph.projected")
       "succeeded") ;;;
  external Ack.
Definition process (e : IndexJobMessage) : M World exn unit :=
  result <- handle (handlers cc) e ;; complete_job e result.

(** [str(exc)] of a permanent error, else its [code] if it has one. *)
Definition error_code_of (ex : exn) : string :=
  match ex with
  | PermanentIndexError reason => reason
  | Domain c _ => code c
  | _ => "INDEX_PROVIDER_UNAVAILABLE"
  end.
Definition retryable_exn (ex : exn) : bool :=
  match ex with PermanentIndexError _ => false | _ => true end.

(** [except Exception]: [indexing/service.py:132-196 Exception] *)
Definition on_error (e : IndexJobMessage) (j : IndexJob) (ex : exn) : M World exn unit :=
  let dead := should_dead_letter (attempt_count j) (jc_max_attempts (request j))
                (retryable_exn ex) in
  fail (m_job_id e) (error_code_of ex) (exn_name ex)
    (if dead then None else Some (retry_delay_ms cc * 1000)) ;;;
  when dead (audit e "index.failed" "failed") ;;;
  audit e (if dead then "index.dead_lettered" else "index.retried")
    (if dead then "failed" else "retrying") ;;;
  external (Publish (if dead then dead_routing_key cc else retry_routing_key cc) e) ;;;
  external Ack.

(** [except StaleIndexEventError]: [indexing/service.py:124-131 StaleIndexEventError] *)
Definition on_stale (e : IndexJobMessage) : M World exn unit :=
  finish (m_job_id e) JOB_STALE ;;; external Ack.

(** [indexing/service.py:57-196 IndexConsumer.consume] *)
Definition consume (d : delivery) : M World exn unit :=
  match d with
  | Garbage _ => external Reject
  | Delivered e =>
      job <- start (m_job_id e) ;;
      match job with
      | None => external (Publish (dead_routing_key cc) e) ;;; external Ack
      | Some j =>
          if job_done (status j) then external Ack
          else
            audit e "index.started" "succeeded" ;;;
            catch (process e) (fun ex =>
              match ex with
              | StaleIndexEventError => on_stale e
              | _ => on_error e j ex
              end)
      end
  end.

(** One row of [publish_once]; the result counts the published rows. *)
Definition publish_row (o : OutboxRow) : M World exn nat :=
  catch (
    external (Publish (index_routing_key cc) (ob_payload o)) ;;;
    mark_published (ob_id o) (ob_job_id o) ;;;
    when (audit_on cc)
      (catch (audit_write service_actor "service" "index.queued" "index_job" (ob_job_id o)
                (m_trace_id (ob_payload o)) "succeeded" None None)
         (fun _ => ret tt)) ;;;
    ret 1%nat)
  (fun _ => mark_publish_failed (ob_id o) "INDEX_OUTBOX_PUBLISH_FAILED" ;;; ret 0%nat).

(** [indexing/publisher.py:32-62 OutboxPublisher.publish_once] *)
Definition publish_once (limit : nat) : M World exn nat :=
  rows <- pending_outbox limit ;;
  counts <- map_m publish_row rows ;;
  ret (foldr Nat.add 0%nat counts).
End IndexConsumer.

(** ** A delivery is settled only when its outcome is recorded *)

Definition settles (c : call) : Prop := c = Ack \/ c = Reject.

(** What a handler may do to jobs and calls: add jobs, and call services
    without settling the delivery. *)
Record worker_frame (w w' : World) : Prop := {
  wf_jobs_grow : jobs w ⊆ jobs w';
  wf_calls_grow : exists l, calls w' = l ++ calls w /\ Forall (fun c => ~ settles c) l;
}.

#[export] Instance worker_frame_preorder : PreOrder worker_frame.
Proof.
  split.
  - intros w. split; [done|by exists []].
  - intros w1 w2 w3 [J1 (l1 & C1 & F1)] [J2 (l2 & C2 & F2)]. split; [by etransitivity|].
    exists (l2 ++ l1). rewrite C2, C1, app_assoc. split; [done|by apply Forall_app].
Qed.
#[export] Instance worker_frame_clocked : Clocked worker_frame.
Proof. split; [apply _|..]; intros; (split; [done|by exists []]). Qed.

Section WorkerFrame.
Context `{Env} (hc : HandlerConfig).

Lemma external_frame c : ~ settles c -> respects worker_frame (external c).
Proof. intros Hc w. split; [done|]. exists [c]. split; [done|by repeat constructor]. Qed.

Lemma embed_frame texts : respects worker_frame (embed texts).
Proof. unfold embed. respect. apply external_frame. by intros []. Qed.

Lemma modify_frame f : (forall w, jobs (f w) = jobs w /\ calls (f w) = calls w) ->
  respects worker_frame (modify (E := exn) f).
Proof.
  intros Hf. apply respects_modify. intros w. destruct (Hf w) as [Hj Hc].
  split; [by rewrite Hj|]. exists []. by rewrite Hc.
Qed.

Lemma add_job_frame r : respects worker_frame (add_job r).
Proof.
  unfold add_job. follow. apply from_weaken with (Q := fun w => jobs w !! a1 = None); [|by intros w []].
  eapply (from_modify _ _ (fun _ => True)); [|apply from_respects; respect].
  intros w Hn. split; [|done]. split; [by apply insert_subseteq|by exists []].
Qed.

Hint Resolve embed_frame add_job_frame : pres.
Hint Extern 1 (respects worker_frame (external _)) =>
  apply external_frame; intros [|]; discriminate : pres.
Hint Extern 1 (respects worker_frame (modify _)) =>
  apply modify_frame; intros ?; done : pres.

Lemma zip_strict_frame {A B} (l : list A) (l' : list B) : respects worker_frame (zip_strict l l').
Proof.
  revert l'. induction l as [|x l IH]; intros [|y l']; simpl; respect.
Qed.
Hint Resolve zip_strict_frame : pres.

Lemma update_ticket_frame tid f : respects worker_frame (modify (E := exn) (update_ticket tid f)).
Proof.
  apply modify_frame. intros w. unfold update_ticket.
  destruct (tickets w !! tid) as [t|]; [|done]. by destruct (is_verified t).
Qed.
Hint Resolve update_ticket_frame : pres.

Lemma projection_frame e st code : respects worker_frame (projection e st code).
Proof. unfold projection. respect. Qed.
Hint Resolve projection_frame : pres.

Lemma set_case_index_frame cid st b text : respects worker_frame (set_case_index cid st b text).
Proof.
  unfold set_case_index. respect. apply modify_frame. intros w.
  unfold update_case. by destruct (cases w !! cid).
Qed.
Hint Resolve set_case_index_frame : pres.

Lemma handle_frame e : respects worker_frame (handle hc e).
Proof.
  unfold handle, manual, ticket, handle_case, case_tombstone, case_upsert, worker_text,
    project_graph, project_case_graph, queue_superseded_case, first_vector, permanent, stale.
  respect.
Qed.

(** A handler reports one of the statuses that end a job. *)
Lemma handle_done e : yields (fun r => job_done (hr_status r) = true) (handle hc e).
Proof.
  unfold handle, manual, ticket, handle_case, case_tombstone, case_upsert, permanent, stale.
  repeat first
    [ apply yields_bind; intros ? | apply yields_raise | apply yields_ret; reflexivity
    | apply yields_try_else; intros ? | split_match ].
  match goal with |- context [upsert_result ?b] => by destruct b; apply yields_ret end.
Qed.
End WorkerFrame.

(** The job is recorded with a status in [S], after calls that extend [C]. *)
Definition recorded (jid : string) (C : list call) (S : IndexJob -> Prop) (w : World) : Prop :=
  exists l j, calls w = l ++ C /\ jobs w !! jid = Some j /\ job_id j = jid /\ S j.

#[export] Instance recorded_clocked jid C S : Clocked (keeps (recorded jid C S)).
Proof. apply clocked_keeps; done. Qed.

(** The last call was [c], made in a state with [P]. *)
Definition after (c : call) (P : World -> Prop) (w : World) : Prop :=
  exists C, calls w = c :: C /\ P (w <| calls := C |>).

Section Settlement.
Context `{Env} (cc : ConsumerConfig).

Lemma audit_keeps R `{!Clocked R} e action outc : respects R (audit cc e action outc).
Proof. unfold audit. respect. Qed.
Hint Resolve audit_keeps : pres.

Lemma handle_recorded e jid C S :
  respects (keeps (recorded jid C S)) (handle (handlers cc) e).
Proof.
  intros w (l & j & Hc & Hj & Hid & HS).
  destruct (handle_frame (handlers cc) e w) as [Hg (l' & Hc' & _)].
  exists (l' ++ l), j. split; [by rewrite Hc', Hc, app_assoc|].
  split; [by eapply lookup_weaken|done].
Qed.

(** Rewriting the row of the job in a transaction. *)
Lemma set_job_recorded jid C (S : IndexJob -> Prop) w w' j j' :
  recorded jid C (fun _ => True) w -> jobs w !! jid = Some j -> calls w' = calls w ->
  jobs w' = <[job_id j := j']> (jobs w) -> job_id j' = job_id j -> S j' ->
  recorded jid C S w'.
Proof.
  intros (l & j0 & Hc & Hj & Hid & _) Hj' Hc' Hjs Hid' HS.
  assert (j0 = j) as -> by congruence. exists l, j'. rewrite Hc', Hjs, Hid, lookup_insert_eq.
  split_and!; [done..|congruence|done].
Qed.

Lemma finish_recorded jid C st X :
  triple (recorded jid C (fun _ => True)) (finish jid st)
    (fun _ => recorded jid C (fun j => status j = st)) X.
Proof.
  intros w Hr. destruct (id Hr) as (l & j & Hc & Hj & Hid & _).
  unfold finish, atomically, bind, gets, utc_now, modify. simpl. rewrite Hj. simpl.
  by eapply set_job_recorded.
Qed.

Lemma fail_entity_same r code :
  respects (fun w w' => jobs w' = jobs w /\ calls w' = calls w) (fail_entity r code).
Proof.
  assert (HP : PreOrder (fun w w' : World => jobs w' = jobs w /\ calls w' = calls w)).
  { split; [done|]. intros w1 w2 w3 [-> ->] [-> ->]. done. }
  assert (HC : Clocked (fun w w' : World => jobs w' = jobs w /\ calls w' = calls w))
    by (split; done).
  unfold fail_entity. respect; by apply respects_modify.
Qed.

Lemma fail_recorded jid C code msg delay X :
  (forall e w, X e w) ->
  triple (recorded jid C (fun _ => True)) (fail jid code msg delay)
    (fun _ => recorded jid C (fun j => status j = if delay is Some _ then JOB_QUEUED else JOB_FAILED)) X.
Proof.
  intros HX w Hr. destruct (id Hr) as (l & j & Hc & Hj & Hid & _).
  destruct (fail jid code msg delay w) as [w' [u|e]] eqn:Hf; [|done].
  apply atomically_ok in Hf. rewrite bind_gets in Hf. cbv beta in Hf. rewrite Hj in Hf.
  destruct delay as [d|]; cbn -[fail_entity] in Hf.
  - injection Hf as <- _. by eapply set_job_recorded.
  - apply (respects_fst _ _ _ _ _ (fail_entity_same _ _)) in Hf as [Hj' Hc'].
    simpl in Hj', Hc'. by eapply set_job_recorded; [..|exact Hj'| |].
Qed.

Lemma external_after c P X :
  (forall e w, after c P w -> X e w) ->
  triple P (external c) (fun _ => after c P) X.
Proof.
  intros HX w Hw. assert (Ha : after c P (w <| calls ::= cons c |>)).
  { exists (calls w). split; [done|]. by destruct w. }
  unfold external. destruct (answer (calls w) c); auto.
Qed.

Lemma recorded_mono jid C (S S' : IndexJob -> Prop) w :
  (forall j, S j -> S' j) -> recorded jid C S w -> recorded jid C S' w.
Proof. intros H1 (l & j & ? & ? & ? & ?). exists l, j. auto. Qed.

Lemma recorded_after jid C S c w : after c (recorded jid C S) w -> recorded jid C S w.
Proof.
  intros (C' & Hc & l & j & Hl & Hr). simpl in *. exists (c :: l), j.
  split; [by rewrite Hc, Hl|done].
Qed.

Definition here (e : IndexJobMessage) (C : list call) : World -> Prop :=
  recorded (m_job_id e) C (fun _ => True).

(** A status is recorded, then more is audited, then the delivery is settled. *)
Lemma settle_settles e C (S : IndexJob -> Prop) (m : M World exn unit) :
  respects (keeps (recorded (m_job_id e) C S)) m ->
  triple (recorded (m_job_id e) C S) (m ;;; external Ack)
    (fun _ => after Ack (recorded (m_job_id e) C S)) (fun _ => here e C).
Proof.
  intros Hm. eapply triple_bind.
  - eapply triple_conseq; [by apply triple_keeps|done|done|].
    intros ex w. by apply recorded_mono.
  - intros ?; cbv beta. apply external_after. intros ex w Hw%recorded_after. by eapply recorded_mono.
Qed.

Lemma complete_job_settles e C r :
  triple (here e C) (complete_job cc e r)
    (fun _ => after Ack (recorded (m_job_id e) C (fun j => status j = hr_status r)))
    (fun _ => here e C).
Proof.
  unfold complete_job. eapply triple_bind; [apply finish_recorded|]. intros ?; cbv beta.
  eapply triple_bind; [|intros ?; cbv beta; apply settle_settles; respect].
  eapply triple_conseq; [apply triple_keeps, audit_keeps, _|done|done|].
  intros ex w. by apply recorded_mono.
Qed.

Lemma after_mono c (P P' : World -> Prop) w : (forall w, P w -> P' w) -> after c P w -> after c P' w.
Proof. intros H1 (C' & ? & ?). exists C'. auto. Qed.

Lemma process_settles e C :
  triple (here e C) (process cc e)
    (fun _ => after Ack (recorded (m_job_id e) C (fun j => job_done (status j) = true)))
    (fun _ => here e C).
Proof.
  unfold process. eapply triple_bind.
  { apply triple_yields; [apply handle_done|]. apply triple_keeps, handle_recorded. }
  intros r w [Hd Hw]. pose proof (complete_job_settles e C r w Hw) as Ht.
  destruct (complete_job cc e r w) as [w' [u|ex]]; [|done].
  eapply after_mono; [|exact Ht]. intros w1. apply recorded_mono. by intros j0 ->.
Qed.

Lemma on_stale_settles e C :
  triple (here e C) (on_stale e)
    (fun _ => after Ack (recorded (m_job_id e) C (fun j => status j = JOB_STALE))) (fun _ _ => True).
Proof.
  unfold on_stale. eapply triple_bind; [by apply finish_recorded|].
  intros ?; cbv beta. by apply external_after.
Qed.

Definition on_error_result (e : IndexJobMessage) (j : IndexJob) (ex : exn) (C : list call)
  : World -> Prop :=
  let dead := should_dead_letter (attempt_count j) (jc_max_attempts (request j))
                (retryable_exn ex) in
  after Ack (after (Publish (if dead then dead_routing_key cc else retry_routing_key cc) e)
    (recorded (m_job_id e) C (fun j => status j = if dead then JOB_FAILED else JOB_QUEUED))).

Lemma keeps_result {A} (P : World -> Prop) (m : M World exn A) :
  respects (keeps P) m -> triple P m (fun _ => P) (fun _ _ => True).
Proof. intros Hm. by eapply triple_conseq; [by apply triple_keeps|..]. Qed.

Lemma on_error_settles e j ex C :
  triple (here e C) (on_error cc e j ex) (fun _ => on_error_result e j ex C) (fun _ _ => True).
Proof.
  unfold on_error, on_error_result. set (dead := should_dead_letter _ _ _).
  eapply triple_bind; [by apply fail_recorded|]. intros ?; cbv beta.
  eapply triple_bind; [apply keeps_result; respect|]. intros ?; cbv beta.
  eapply triple_bind; [apply keeps_result; respect|]. intros ?; cbv beta.
  eapply triple_bind; [by apply external_after|]. intros ?; cbv beta.
  eapply triple_conseq with (X' := fun _ _ => True); [by apply external_after|done| |done].
  intros u w. apply after_mono. intros w1. apply after_mono. intros w2. apply recorded_mono.
  intros j0 ->. by destruct dead.
Qed.

(** Taking an unfinished job: one more attempt, within the limit. *)
Lemma start_run jid w w1 r j :
  jobs w !! jid = Some j -> job_id j = jid -> job_done (status j) = false ->
  start jid w = (w1, Ok r) ->
  exists j1, r = Some j1 /\ job_id j1 = jid /\ status j1 = JOB_RUNNING /\ attempt_count j1 = attempt_count j + 1
    /\ request j1 = request j /\ attempt_count j1 <= jc_max_attempts (request j)
    /\ calls w1 = calls w /\ jobs w1 = <[jid := j1]> (jobs w).
Proof.
  intros Hj <- Hd Hs. unfold start in Hs. rewrite bind_utc_now in Hs. apply atomically_ok in Hs.
  rewrite bind_gets in Hs. cbv beta in Hs. simpl in Hs. rewrite Hj, Hd in Hs.
  rewrite bind_modify in Hs. unfold validate_attempts in Hs. simpl in Hs.
  destruct (_ <? _) eqn:Hlt in Hs; [discriminate Hs|]. apply Z.ltb_ge in Hlt.
  injection Hs as <- <-. eexists. split; [done|]. simpl.
  split_and!; [done|done|lia|done|simpl in *; lia|done|done].
Qed.

(** The work on a job that was taken. *)
Lemma attempt_settles e j C :
  triple (here e C)
    (audit cc e "index.started" "succeeded" ;;;
     catch (process cc e) (fun ex =>
       match ex with StaleIndexEventError => on_stale e | _ => on_error cc e j ex end))
    (fun _ w => after Ack (recorded (m_job_id e) C (fun j => job_done (status j) = true)) w
                \/ exists ex, on_error_result e j ex C w)
    (fun _ _ => True).
Proof.
  eapply triple_bind; [apply keeps_result; respect|]. intros ?; cbv beta.
  apply (triple_catch _ _ _ _ (fun _ => here e C)).
  - eapply triple_conseq with (X' := fun _ => here e C); [apply process_settles|done| |done].
    intros u w Hw. by left.
  - intros ex. cbv beta.
    assert (He : triple (here e C) (on_error cc e j ex) (fun _ w =>
        after Ack (recorded (m_job_id e) C (fun j => job_done (status j) = true)) w
        \/ exists ex, on_error_result e j ex C w) (fun _ _ => True)).
    { eapply triple_conseq with (X' := fun _ _ => True); [apply on_error_settles|done| |done].
      intros u w Hw. right. by exists ex. }
    destruct ex; try exact He.
    eapply triple_conseq with (X' := fun _ _ => True); [apply on_stale_settles|done| |done].
    intros u w Hw. left. eapply after_mono; [|exact Hw]. intros w1. apply recorded_mono.
    by intros j0 ->.
Qed.
End Settlement.


(** A demonstration store: one approved case with its running-to-be job. *)
Definition demo_request : IndexJobCreate :=
  mkJobCreate DIAGNOSIS_CASE "c1" "1" UPSERT "t" "s1" "rv1" 2.
Definition demo_job (st : IndexJobStatus) (attempts : Z) : IndexJob :=
  mkJob "j1" demo_request st attempts None None None 0 None None 0.
Definition demo_message : IndexJobMessage :=
  mkMessage "j1" DIAGNOSIS_CASE "c1" "1" UPSERT "t" "s1" "rv1" 0.
Definition demo_case : DiagnosisCase :=
  mkCase "c1" "s1" "r1" "rv1" None (Some "pcs") (Some "PCS-1") None (Some "over temperature")
    (Some "hot") None "fan" (Some ["replace fan"]) (Some []) (Some ["e1"]) APPROVED (Some "bob")
    None 1 None IDX_QUEUED None false None "alice" 0 0.
Definition demo_store (st : IndexJobStatus) (attempts : Z) : World :=
  empty_world <| cases := {["c1" := demo_case]} |>
    <| jobs := {["j1" := demo_job st attempts]} |>.
Definition demo_consumer : ConsumerConfig :=
  mkConsumer (mkHandlerConfig true true) 30000 "dead" "retry" "index" true.

Lemma demo_store_wf st attempts : st <> JOB_PENDING -> attempts <= 2 ->
  jobs_wf (demo_store st attempts).
Proof.
  intros Hst Ha. split; unfold demo_store; simpl.
  - intros i j [<- <-]%lookup_singleton_Some. done.
  - intros i j [<- <-]%lookup_singleton_Some. done.
  - intros i j [<- <-]%lookup_singleton_Some. unfold valid_request. simpl. lia.
  - by intros i1 i2 j1 j2 [<- <-]%lookup_singleton_Some [<- <-]%lookup_singleton_Some.
  - intros k o Hk. by destruct k.
  - by intros i j [<- <-]%lookup_singleton_Some.
Qed.

(** The graph service is down: the case is indexed, degraded. *)
Definition graph_down : list call -> call -> option exn := fun _ c =>
  match c with GraphProjectCase _ _ _ _ _ _ => Some ConnectionError | _ => None end.


Example demo_degraded :
  index_status <$> cases (fst (@consume (demo_env graph_down) demo_consumer
    (Delivered demo_message) (demo_store JOB_QUEUED 1))) !! "c1" = Some IDX_DEGRADED.
Proof. vm_compute. reflexivity. Qed.

#[export] Hint Resolve audit_keeps : pres.

(** ** The consumer returns *)

(** The broker takes what the consumer publishes and acknowledges. *)
Definition broker_works `{Env} : Prop :=
  forall past, answer past Ack = None /\ forall key m, answer past (Publish key m) = None.

Section Returns.
Context `{Env} (cc : ConsumerConfig) (e : IndexJobMessage).
Hypothesis Hbroker : broker_works.

(** A job of a ticket or a case: its failure handling never meets several
    generations of a document. *)
Definition single_entity (j : IndexJob) : Prop := jc_entity_type (request j) <> MANUAL_DOCUMENT.

Definition never : exn -> World -> Prop := fun _ _ => False.

Lemma external_returns C S c :
  (forall past, answer past c = None) ->
  triple (recorded (m_job_id e) C S) (external c) (fun _ => recorded (m_job_id e) C S) never.
Proof.
  intros Hc w (l & j & Hl & Hr). unfold external. rewrite Hc. exists (c :: l), j. simpl.
  by rewrite Hl.
Qed.

Lemma audit_returns P `{!Clocked (keeps P)} action outc :
  triple P (audit cc e action outc) (fun _ => P) never.
Proof.
  unfold audit. destruct (audit_on cc); [|by intros w Hw].
  apply (triple_catch _ _ _ _ (fun _ => P)); [apply triple_keeps; respect|].
  intros ex w Hw. done.
Qed.

Lemma fail_returns C code msg delay :
  triple (recorded (m_job_id e) C single_entity) (fail (m_job_id e) code msg delay)
    (fun _ => recorded (m_job_id e) C single_entity) never.
Proof.
  intros w Hr. destruct (id Hr) as (l & j & Hc & Hj & Hid & HS).
  assert (Hr' : recorded (m_job_id e) C (fun _ => True) w) by (by eapply recorded_mono).
  destruct (fail (m_job_id e) code msg delay w) as [w' [u|ex]] eqn:Hf.
  - apply atomically_ok in Hf. rewrite bind_gets in Hf. cbv beta in Hf. rewrite Hj in Hf.
    destruct delay as [d|]; cbn -[fail_entity] in Hf.
    + injection Hf as <- _. by eapply set_job_recorded.
    + apply (respects_fst _ _ _ _ _ (fail_entity_same _ _)) in Hf as [Hj' Hc'].
      simpl in Hj', Hc'. by eapply set_job_recorded; [..|exact Hj'| |].
  - unfold fail, atomically in Hf. rewrite bind_gets in Hf. rewrite Hj in Hf.
    destruct delay as [d|]; cbn -[fail_entity] in Hf; [discriminate Hf|].
    unfold fail_entity, bind, gets, utc_now, modify, ret in Hf. simpl in Hf.
    destruct (jc_entity_type (request j)) eqn:Het; [by destruct HS| | |];
      repeat (case_match; simplify_eq); done.
Qed.

Lemma finish_returns C st :
  triple (recorded (m_job_id e) C single_entity) (finish (m_job_id e) st)
    (fun _ => recorded (m_job_id e) C single_entity) never.
Proof.
  intros w Hr. destruct (id Hr) as (l & j & Hc & Hj & Hid & HS).
  assert (Hr' : recorded (m_job_id e) C (fun _ => True) w) by (by eapply recorded_mono).
  unfold finish, atomically, bind, gets, utc_now, modify. simpl. rewrite Hj. simpl.
  by eapply set_job_recorded.
Qed.

Lemma process_keeps C :
  respects (keeps (recorded (m_job_id e) C single_entity)) (process cc e).
Proof.
  unfold process, complete_job. respect_step; [apply handle_recorded|].
  respect_step; [|respect].
  - intros w Hw. pose proof (finish_returns C (hr_status a) w Hw) as Ht.
    by destruct (finish _ _ w) as [w' [u|ex]].
  - intros w (l & j & Hl & Hr). exists (Ack :: l), j. simpl. by rewrite Hl.
Qed.

Lemma attempt_returns j C :
  triple (recorded (m_job_id e) C single_entity)
    (audit cc e "index.started" "succeeded" ;;;
     catch (process cc e) (fun ex =>
       match ex with StaleIndexEventError => on_stale e | _ => on_error cc e j ex end))
    (fun _ _ => True) never.
Proof.
  set (P := recorded (m_job_id e) C single_entity).
  assert (Hack : triple P (external Ack) (fun _ _ => True) never).
  { eapply triple_conseq with (X' := never);
      [by apply external_returns; intros past; apply Hbroker|done..]. }
  eapply triple_bind; [by apply audit_returns, recorded_clocked|]. intros ?; cbv beta.
  apply (triple_catch _ _ _ _ (fun _ => P)).
  - eapply triple_conseq; [apply triple_keeps, process_keeps|done|done|done].
  - intros ex. cbv beta.
    assert (He : triple P (on_error cc e j ex) (fun _ _ => True) never).
    { unfold on_error. eapply triple_bind; [by apply fail_returns|]. intros ?; cbv beta.
      eapply triple_bind with (Q' := fun _ => P).
      { destruct (should_dead_letter _ _ _); simpl; [|by intros w Hw].
        by apply audit_returns, recorded_clocked. }
      intros ?; cbv beta.
      eapply triple_bind; [by apply audit_returns, recorded_clocked|]. intros ?; cbv beta.
      eapply triple_bind; [|intros ?; exact Hack].
      apply external_returns. intros past. apply Hbroker. }
    destruct ex; try exact He.
    unfold on_stale. eapply triple_bind; [|intros ?; exact Hack]. apply finish_returns.
Qed.
End Returns.

(** the consumer settles every delivery it takes: with a broker that
    accepts its acknowledgements and publications, and an attempt left, it
    returns - whatever the handler, the embedding service, the vector store
    and the graph do. *)
Theorem consume_returns `{Env} cc e w j :
  broker_works -> jobs w !! m_job_id e = Some j -> job_id j = m_job_id e ->
  job_done (status j) = false -> single_entity j ->
  attempt_count j < jc_max_attempts (request j) ->
  exists w', consume cc (Delivered e) w = (w', Ok tt).
Proof.
  intros Hb Hj Hid Hd HS Ha. unfold consume, bind at 1.
  destruct (start (m_job_id e) w) as [w1 [r|ex]] eqn:Hs.
  - destruct (start_run _ _ _ _ _ Hj Hid Hd Hs) as (j1 & -> & Hid1 & Hst & _ & Hr & _ & Hcs & Hjs).
    rewrite Hst. change (job_done JOB_RUNNING) with false. cbv iota.
    assert (Hin : recorded (m_job_id e) (calls w) single_entity w1).
    { exists [], j1. rewrite Hjs, lookup_insert_eq. unfold single_entity. by rewrite Hr. }
    pose proof (attempt_returns cc e Hb j1 (calls w) w1 Hin) as Ht.
    match goal with |- exists w', ?t = _ => destruct t as [w' [[]|ex]] end; [by exists w'|done].
  - exfalso. unfold start in Hs. rewrite bind_utc_now in Hs.
    unfold atomically in Hs. rewrite bind_gets in Hs. simpl in Hs. rewrite Hj, Hd in Hs.
    rewrite bind_modify in Hs. unfold validate_attempts in Hs. simpl in Hs.
    destruct (Z.ltb_spec (jc_max_attempts (request j)) (Z.succ (attempt_count j))); [lia|].
    discriminate Hs.
Qed.

(** the limit of [consume_returns] is sharp.  A job whose worker died on
    its last attempt (running, all attempts used) is never settled: each time
    its message is delivered the consumer raises before it acknowledges,
    rejects or publishes anything, and leaves the store as it was. *)
Theorem exhausted_job_never_settles `{Env} cc e w j :
  jobs w !! m_job_id e = Some j -> status j = JOB_RUNNING ->
  attempt_count j = jc_max_attempts (request j) ->
  consume cc (Delivered e) w = (w <| ticks := S (ticks w) |> <| ids := ids w |>, Raise ValidationError).
Proof.
  intros Hj Hst Ha. unfold consume, bind at 1, start. rewrite bind_utc_now.
  unfold atomically. rewrite bind_gets. simpl. rewrite Hj, Hst.
  change (job_done JOB_RUNNING) with false. cbv iota. rewrite bind_modify.
  unfold validate_attempts. simpl.
  destruct (Z.ltb_spec (jc_max_attempts (request j)) (Z.succ (attempt_count j))); [|lia].
  done.
Qed.

Lemma consume_returns_witness :
  exists w', @consume (demo_env graph_down) demo_consumer (Delivered demo_message)
    (demo_store JOB_QUEUED 1) = (w', Ok tt).
Proof.
  apply (@consume_returns (demo_env graph_down) demo_consumer demo_message
    (demo_store JOB_QUEUED 1) (demo_job JOB_QUEUED 1));
    [split; reflexivity|reflexivity|reflexivity|reflexivity|discriminate|reflexivity].
Defined.

Lemma exhausted_job_never_settles_witness :
  @consume (demo_env all_fine) demo_consumer (Delivered demo_message) (demo_store JOB_RUNNING 2)
  = ((demo_store JOB_RUNNING 2) <| ticks := 1%nat |> <| ids := 0%nat |>, Raise ValidationError).
Proof.
  apply (@exhausted_job_never_settles (demo_env all_fine) demo_consumer demo_message
    (demo_store JOB_RUNNING 2) (demo_job JOB_RUNNING 2)); reflexivity.
Defined.
