(* ===== verification/IndexQueue.v ===== *)
(** * The queue of index jobs

    [providers/rabbitmq.py]: the queues with their bindings and the publication of a
    message behind a circuit breaker. [evaluation/drain_index_queue.py]: the program that
    empties the queue in batches. How a direct exchange routes and dead-letters messages
    is AMQP's; what the broker answers is an argument. *)

From S2P Require Import Prelude Errors Json Breaker Tools Contracts Store IndexRepo CaseRepo CaseApp.
From S2P Require Import IndexHandlers Consumer.
Open Scope Z_scope.

(** ** Queues and bindings *)

Definition routing_key : string := "energy.indexing.job.v1".
Definition retry_routing_key : string := "energy.indexing.retry.v1".
Definition dead_routing_key : string := "energy.indexing.dead.v1".

(** The names of the three queues and the delay of a retry. *)
Record QueueSettings := mkQueueSettings {
  rabbitmq_index_queue : string;
  rabbitmq_index_retry_queue : string;
  rabbitmq_index_dead_queue : string;
  rabbitmq_retry_delay_ms : Z;
}.
(** A declared queue: its name, how long a message may stay, and the key under which a
    message that is rejected or has stayed too long goes on. *)
Record Queue := mkQueue {
  q_name : string;
  q_message_ttl : option Z;
  q_dead_letter_routing_key : option string;
}.
Record Topology := mkTopology {
  tp_queues : list Queue;
  tp_bindings : list (string * string);
}.

(** [providers/rabbitmq.py:33-64 declare_topology] *)
Definition declare_topology (s : QueueSettings) : Topology :=
  mkTopology
    [mkQueue (rabbitmq_index_queue s) None (Some dead_routing_key);
     mkQueue (rabbitmq_index_retry_queue s) (Some (rabbitmq_retry_delay_ms s)) (Some routing_key);
     mkQueue (rabbitmq_index_dead_queue s) None None]
    [(rabbitmq_index_queue s, routing_key); (rabbitmq_index_retry_queue s, retry_routing_key);
     (rabbitmq_index_dead_queue s, dead_routing_key)].

(** A direct exchange hands a message to the queues bound to its key. *)
Definition routed (t : Topology) (key : string) : list string :=
  map fst (filter (fun b => snd b = key) (tp_bindings t)).
(** Where a message goes that leaves a queue unacknowledged for good. *)
Definition dead_lettered (t : Topology) (q : Queue) : list string :=
  match q_dead_letter_routing_key q with Some key => routed t key | None => [] end.

(** Nothing gets lost between the queues: each key the worker publishes with reaches one
    queue; what the worker rejects is kept with the dead, what waits for a retry comes
    back to the worker after the delay, and the dead stay. *)
Theorem topology_keeps_messages s :
  let t := declare_topology s in
  routed t routing_key = [rabbitmq_index_queue s]
  /\ routed t retry_routing_key = [rabbitmq_index_retry_queue s]
  /\ routed t dead_routing_key = [rabbitmq_index_dead_queue s]
  /\ (exists main retry dead, tp_queues t = [main; retry; dead]
       /\ dead_lettered t main = [rabbitmq_index_dead_queue s] /\ q_message_ttl main = None
       /\ dead_lettered t retry = [rabbitmq_index_queue s] /\ q_message_ttl retry = Some (rabbitmq_retry_delay_ms s)
       /\ dead_lettered t dead = [] /\ q_message_ttl dead = None).
Proof. cbn. split_and!; [reflexivity..|]. do 3 eexists. by split_and!. Qed.

(** ** Publishing *)

(** The provider: its breaker, whether it has a channel, what was handed to the exchange,
    most recent first, and how often the clock was read. *)
Record Rabbit := mkRabbit {
  rb_breaker : option CircuitBreaker;
  rb_channel : bool;
  rb_sent : list (string * IndexJobMessage);
  rb_readings : nat;
}.
#[export] Instance Rabbit_eta : Eta Rabbit := fun p =>
  mkRabbit (rb_breaker p) (rb_channel p) (rb_sent p) (rb_readings p).

Section Publish.
(** The n-th publication is confirmed, not confirmed, fails or is cancelled. *)
Context (clock : nat -> Z) (exchange_publish : nat -> outcome abort bool).

Definition note_failure : M Rabbit abort unit :=
  modify (fun p => p <| rb_breaker := record_failure (clock (rb_readings p)) true <$> rb_breaker p |>
                     <| rb_readings ::= S |>).
Definition note_success : M Rabbit abort unit :=
  modify (fun p => p <| rb_breaker := record_success <$> rb_breaker p |>).
Definition allowed : M Rabbit abort unit := fun p =>
  match rb_breaker p with
  | None => (p, Ok tt)
  | Some b =>
      let '(b', ok) := allow (clock (rb_readings p)) (clock (S (rb_readings p))) b in
      (p <| rb_breaker := Some b' |> <| rb_readings := S (S (rb_readings p)) |>,
       if ok then Ok tt else Raise (Exc RuntimeError))
  end.
(** A publication that was not confirmed is a RuntimeError. *)
Definition hand_over (key : string) (m : IndexJobMessage) : M Rabbit abort unit :=
  n <- gets (fun p => length (rb_sent p)) ;;
  modify (fun p => p <| rb_sent ::= cons (key, m) |>) ;;;
  match exchange_publish n with
  | Ok true => ret tt
  | Ok false => raise (Exc RuntimeError)
  | Raise e => raise e
  end.

(** [providers/rabbitmq.py:66-96 publish] *)
Definition publish (m : IndexJobMessage) (key : option string) : M Rabbit abort unit :=
  allowed ;;;
  channel <- gets rb_channel ;;
  if negb channel then note_failure ;;; raise (Exc RuntimeError)
  else
    try_else (hand_over (if ostr_true key then or_empty key else routing_key) m)
      (fun _ => note_success)
      (fun e => match e with Exc _ => note_failure ;;; raise e | Cancelled => raise e end).

(** What the breaker of the provider learns of a publication. *)
Theorem publish_once_per_call m key p p' o :
  publish m key p = (p', o) ->
  (rb_sent p' = rb_sent p /\ o <> Ok tt)
  \/ (rb_channel p = true /\ rb_sent p' = (if ostr_true key then or_empty key else routing_key, m) :: rb_sent p
      /\ (o = Ok tt <-> exchange_publish (length (rb_sent p)) = Ok true)
      /\ (o = Ok tt -> forall b, rb_breaker p' = Some b -> state b = CLOSED /\ failure_count b = 0)).
Proof.
  unfold publish, allowed, bind, gets, note_failure, note_success, hand_over, try_else, modify, raise, ret.
  destruct (rb_breaker p) as [b|] eqn:Eb.
  - destruct (allow _ _ b) as [b' []]; cbn.
    + destruct (rb_channel p); cbn; [|intros [= <- <-]; by left].
      destruct (exchange_publish _) as [[]|[e|]]; intros [= <- <-]; right; cbn; split_and!; try done.
      intros _ b1 [= <-]. unfold record_success, publish_state. cbn. by split.
    + intros [= <- <-]. by left.
  - cbn. destruct (rb_channel p); cbn; [|intros [= <- <-]; by left].
    destruct (exchange_publish _) as [[]|[e|]]; intros [= <- <-]; right; cbn; rewrite Eb; by split_and!.
Qed.
End Publish.

(** A publication cancelled while it was the trial of a half-open breaker leaves the trial
    out: the breaker refuses every later publication. *)
Example cancelled_publish_keeps_trial (m : IndexJobMessage) :
  let opened := run (new_breaker default_policy) [Failure 0 true; Failure 0 true; Failure 0 true] in
  let '(p, o) := publish (fun n => 3600 * 10 ^ 9 + Z.of_nat n) (fun _ => Raise Cancelled) m None
                   (mkRabbit (Some opened) true [] 0) in
  o = Raise Cancelled /\ (state <$> rb_breaker p) = Some HALF_OPEN
  /\ (half_open_probe_active <$> rb_breaker p) = Some true
  /\ snd (publish (fun n => 7200 * 10 ^ 9 + Z.of_nat n) (fun _ => Ok true) m None p) = Raise (Exc RuntimeError).
Proof. vm_compute. by split_and!. Qed.

(** ** Draining the queue *)

(** A message taken from the queue, with what [start] said of its job.
    [evaluation/drain_index_queue.py:29-34 PendingMessage] *)
Record PendingMessage := mkPending {
  pm_tag : nat;
  pm_event : IndexJobMessage;
  pm_attempt_count : Z;
  pm_max_attempts : Z;
}.

(** The drainer: the store, what the next reads of the queue return ([None] when nothing
    came within the time limit, as for every read after the last one; a message carries
    its delivery tag), how messages were settled, and its two counters. *)
Record Drainer := mkDrainer {
  dr_world : World;
  dr_reads : list (option (nat * delivery));
  dr_settled : list (nat * call);
  dr_completed : nat;
  dr_failed : nat;
}.
#[export] Instance Drainer_eta : Eta Drainer := fun d =>
  mkDrainer (dr_world d) (dr_reads d) (dr_settled d) (dr_completed d) (dr_failed d).

Section Drain.
Context `{Env} (cc : ConsumerConfig).
Abbreviation D := (M Drainer exn).

Definition on_world {A} (m : M World exn A) : D A := fun d =>
  let '(w, o) := m (dr_world d) in (d <| dr_world := w |>, o).
(** [message.ack()] or [message.reject(requeue=False)] *)
Definition settle (tag : nat) (c : call) : D unit :=
  on_world (external c) ;;; modify (fun d => d <| dr_settled ::= cons (tag, c) |>).
Definition count_failed : D unit := modify (fun d => d <| dr_failed ::= S |>).

(** [queue.get(fail=False, timeout=1)] *)
Definition queue_get : D (option (nat * delivery)) := fun d =>
  match dr_reads d with
  | [] => (d, Ok None)
  | m :: l => (d <| dr_reads := l |>, Ok m)
  end.
(** [evaluation/drain_index_queue.py:60-65 messages] *)
Fixpoint take_messages (n : nat) : D (list (nat * delivery)) :=
  match n with
  | O => ret []
  | S n =>
      message <- queue_get ;;
      match message with
      | None => ret []
      | Some m => rest <- take_messages n ;; ret (m :: rest)
      end
  end.

(** The message of a job that is not finished.
    [evaluation/drain_index_queue.py:69-96 job] *)
Definition receive (m : nat * delivery) : D (option PendingMessage) :=
  let '(tag, d) := m in
  match d with
  | Garbage _ => settle tag Reject ;;; count_failed ;;; ret None
  | Delivered e =>
      job <- on_world (start (m_job_id e)) ;;
      match job with
      | None => settle tag Reject ;;; count_failed ;;; ret None
      | Some j =>
          if job_done (status j) then settle tag Ack ;;; ret None
          else ret (Some (mkPending tag e (attempt_count j) (jc_max_attempts (request j))))
      end
  end.

(** [groups[(str(event.entity_type), str(event.operation))].append(...)] *)
Definition group_key (p : PendingMessage) : EntityType * IndexOperation :=
  (m_entity_type (pm_event p), m_operation (pm_event p)).
Fixpoint add_to_group (p : PendingMessage) (groups : list (list PendingMessage)) : list (list PendingMessage) :=
  match groups with
  | [] => [[p]]
  | (q :: g) :: gs =>
      if bool_decide (group_key p = group_key q) then ((q :: g) ++ [p]) :: gs
      else (q :: g) :: add_to_group p gs
  | [] :: gs => add_to_group p gs
  end.
(** [evaluation/drain_index_queue.py:68-96 groups] *)
Definition grouped (l : list PendingMessage) : list (list PendingMessage) :=
  fold_left (fun groups p => add_to_group p groups) l [].

(** [evaluation/drain_index_queue.py:118-143 _fail] *)
Definition fail_item (p : PendingMessage) (ex : exn) : D unit :=
  let dead := should_dead_letter (pm_attempt_count p) (pm_max_attempts p) (retryable_exn ex) in
  let e := pm_event p in
  on_world (fail (m_job_id e) (error_code_of ex) (exn_name ex)
    (if dead then None else Some (retry_delay_ms cc * 1000))) ;;;
  on_world (external (Publish (if dead then Consumer.dead_routing_key cc else Consumer.retry_routing_key cc) e)) ;;;
  settle (pm_tag p) Ack ;;;
  when dead count_failed.

(** [evaluation/drain_index_queue.py:112-116 result] *)
Definition finish_item (results : gmap string HandlerResult) (p : PendingMessage) : D unit :=
  match results !! m_job_id (pm_event p) with
  | None => raise KeyError
  | Some r =>
      on_world (finish (m_job_id (pm_event p)) (hr_status r)) ;;;
      settle (pm_tag p) Ack ;;;
      modify (fun d => d <| dr_completed ::= S |>)
  end.

(** A batch that fails is handled in halves; [fuel] bounds the number of halvings.
    [evaluation/drain_index_queue.py:101-116 _process] *)
Fixpoint process (fuel : nat) (pending : list PendingMessage) : D unit :=
  try_else (on_world (handle_batch (handlers cc) (map pm_event pending)))
    (fun results => map_m (finish_item results) pending ;;; ret tt)
    (fun ex =>
       if (1 <? length pending)%nat then
         match fuel with
         | O => ret tt
         | S fuel =>
             let middle := (length pending / 2)%nat in
             process fuel (take middle pending) ;;; process fuel (drop middle pending)
         end
       else match pending with p :: _ => fail_item p ex | [] => raise IndexError end).

(** The rounds of a drain that has a channel; every round but
    the last one takes a message, and the halves of a batch are shorter than it.
    [evaluation/drain_index_queue.py:59-98 messages] *)
Fixpoint drain_rounds (fuel : nat) (batch_size : nat) : D unit :=
  messages <- take_messages batch_size ;;
  match messages, fuel with
  | [], _ | _, O => ret tt
  | _, S fuel =>
      received <- map_m receive messages ;;
      map_m (fun g => process (length g) g) (grouped (omap id received)) ;;;
      drain_rounds fuel batch_size
  end.
Definition drain (batch_size : nat) : D (nat * nat) :=
  reads <- gets dr_reads ;;
  drain_rounds (length reads) batch_size ;;;
  gets (fun d => (dr_completed d, dr_failed d)).
End Drain.

(** ** Every message is settled once *)

(** Between two states no message was read and exactly those with [tags] were settled. *)
Definition settled_by (tags : list nat) (d d' : Drainer) : Prop :=
  dr_reads d' = dr_reads d /\ exists l, dr_settled d' = l ++ dr_settled d /\ map fst l ≡ₚ tags.

Lemma settled_none d : settled_by [] d d.
Proof. split; [done|]. by exists []. Qed.
Lemma settled_trans t1 t2 d1 d2 d3 : settled_by t1 d1 d2 -> settled_by t2 d2 d3 -> settled_by (t1 ++ t2) d1 d3.
Proof.
  intros [R1 (l1 & S1 & P1)] [R2 (l2 & S2 & P2)]. split; [congruence|]. exists (l2 ++ l1).
  split; [by rewrite S2, S1, app_assoc|]. rewrite map_app, P1, P2. apply Permutation_app_comm.
Qed.
Lemma settled_perm t t' d d' : t ≡ₚ t' -> settled_by t d d' -> settled_by t' d d'.
Proof. intros Ht [R (l & S1 & P)]. split; [done|]. exists l. split; [done|]. by rewrite P. Qed.
Lemma settled_after_none t d1 d2 d3 : settled_by [] d1 d2 -> settled_by t d2 d3 -> settled_by t d1 d3.
Proof. apply settled_trans. Qed.
Lemma settled_before_none t d1 d2 d3 : settled_by t d1 d2 -> settled_by [] d2 d3 -> settled_by t d1 d3.
Proof. intros H1 H2. rewrite <-(app_nil_r t). by eapply settled_trans. Qed.

Section Settled.
Context `{Env} (cc : ConsumerConfig).

Lemma on_world_none {A} (m : M World exn A) d d' o : on_world m d = (d', o) -> settled_by [] d d'.
Proof. unfold on_world. destruct (m _). intros [= <- _]. split; [done|]. by exists []. Qed.
Lemma modify_none (f : Drainer -> Drainer) d d' u :
  (forall d, dr_reads (f d) = dr_reads d /\ dr_settled (f d) = dr_settled d) ->
  modify (E := exn) f d = (d', Ok u) -> settled_by [] d d'.
Proof. intros Hf [= <-]. destruct (Hf d) as [Hr Hs]. split; [done|]. exists []. by rewrite Hs. Qed.

Lemma settle_ok tag c d d' u : settle tag c d = (d', Ok u) -> settled_by [tag] d d'.
Proof.
  unfold settle. intros (u' & d1 & H1 & H2)%bind_ok_inv. injection H2 as <- _.
  apply on_world_none in H1 as [R (l & Hs & P)]. cbn in P. apply Permutation_nil_r, map_eq_nil in P as ->.
  split; [done|]. exists [(tag, c)]. cbn. by rewrite Hs.
Qed.
Lemma count_failed_none d d' u : count_failed d = (d', Ok u) -> settled_by [] d d'.
Proof. by apply modify_none. Qed.

Lemma fail_item_ok p ex d d' u : fail_item cc p ex d = (d', Ok u) -> settled_by [pm_tag p] d d'.
Proof.
  unfold fail_item. cbv zeta. intros (u1 & d1 & H1%on_world_none & Hr)%bind_ok_inv.
  apply bind_ok_inv in Hr as (u2 & d2 & H2%on_world_none & Hr). apply bind_ok_inv in Hr as (u3 & d3 & H3%settle_ok & Hr).
  eapply settled_after_none; [exact H1|]. eapply settled_after_none; [exact H2|].
  eapply settled_before_none; [exact H3|]. destruct (should_dead_letter _ _ _); [by apply count_failed_none in Hr|].
  injection Hr as <- _. apply settled_none.
Qed.

Lemma finish_item_ok results p d d' u : finish_item results p d = (d', Ok u) -> settled_by [pm_tag p] d d'.
Proof.
  unfold finish_item. destruct (results !! _) as [r|]; [|done].
  intros (u1 & d1 & H1%on_world_none & Hr)%bind_ok_inv. apply bind_ok_inv in Hr as (u2 & d2 & H2%settle_ok & Hr).
  eapply settled_after_none; [exact H1|]. eapply settled_before_none; [exact H2|]. by apply modify_none in Hr.
Qed.

Lemma map_m_settled {A B} (f : A -> M Drainer exn B) (tags : A -> B -> list nat) l :
  (forall a d d' b, f a d = (d', Ok b) -> settled_by (tags a b) d d') ->
  forall d d' bs, map_m f l d = (d', Ok bs) ->
    length bs = length l /\ settled_by (concat (zip_with tags l bs)) d d'.
Proof.
  intros Hf. induction l as [|a l IH]; intros d d' bs; cbn [map_m].
  - intros [= <- <-]. split; [done|apply settled_none].
  - intros (b & d1 & H1 & Hr)%bind_ok_inv. apply bind_ok_inv in Hr as (bs' & d2 & H2 & Hr).
    injection Hr as <- <-. apply IH in H2 as [Hlen H2]. split; [cbn; lia|]. cbn.
    eapply settled_trans; [by eapply Hf|exact H2].
Qed.

Lemma map_m_tags {A B} (f : A -> M Drainer exn B) (tag : A -> list nat) l d d' bs :
  (forall a d d' b, f a d = (d', Ok b) -> settled_by (tag a) d d') ->
  map_m f l d = (d', Ok bs) -> settled_by (flat_map tag l) d d'.
Proof.
  intros Hf Hm. apply (map_m_settled f (fun a _ => tag a)) in Hm as [Hlen Hs]; [|done].
  replace (flat_map tag l) with (concat (zip_with (fun a (_ : B) => tag a) l bs)); [done|].
  clear -Hlen. revert bs Hlen. induction l as [|a l IH]; intros [|b bs] Hlen; try done.
  cbn in *. by rewrite IH by lia.
Qed.

Lemma flat_map_single {A B} (f : A -> B) l : flat_map (fun a => [f a]) l = map f l.
Proof. induction l as [|a l IH]; [done|]. cbn. by rewrite IH. Qed.

(** A batch with enough fuel. *)
Lemma process_ok n pending : (length pending <= n)%nat -> forall d d' u,
  process cc n pending d = (d', Ok u) -> settled_by (map pm_tag pending) d d'.
Proof.
  revert pending. induction n as [|n IH]; intros pending Hn d d' u; cbn [process]; unfold try_else.
  all: destruct (on_world _ d) as [d1 o] eqn:E1; pose proof (on_world_none _ _ _ _ E1) as H1.
  all: intros Hr; eapply settled_after_none; [exact H1|]; destruct o as [results|ex].
  1, 3: apply bind_ok_inv in Hr as (bs & d2 & Hm & Hr); injection Hr as <- _;
    apply (map_m_tags _ (fun p => [pm_tag p])) in Hm; [|intros; by eapply finish_item_ok];
    by rewrite flat_map_single in Hm.
  - destruct (Nat.ltb_spec 1 (length pending)); [lia|]. destruct pending; [done|cbn in Hn; lia].
  - destruct (Nat.ltb_spec 1 (length pending)) as [Hl|Hl].
    + apply bind_ok_inv in Hr as (u1 & d2 & Ha & Hb).
      pose proof (Nat.div_lt (length pending) 2 ltac:(lia) ltac:(lia)) as Hdiv.
      pose proof (Nat.Div0.div_le_mono 2 (length pending) 2 ltac:(lia)) as Hone.
      change (2 / 2)%nat with 1%nat in Hone.
      rewrite <-(take_drop (length pending / 2) (map pm_tag pending)).
      change (take ?k (map ?f pending)) with (firstn k (map f pending)).
      rewrite firstn_map, skipn_map. eapply settled_trans.
      * eapply IH; [|exact Ha]. rewrite length_take. lia.
      * eapply IH; [|exact Hb]. rewrite length_drop. lia.
    + destruct pending as [|p [|q pending]]; [done| |cbn in Hl; lia]. by apply fail_item_ok in Hr.
Qed.

Lemma receive_ok m d d' o :
  receive m d = (d', Ok o) ->
  settled_by (match o with None => [fst m] | Some _ => [] end) d d'
  /\ match o with None => True | Some p => pm_tag p = fst m end.
Proof.
  destruct m as [tag [body|e]]; cbn [receive fst].
  - intros (u1 & d1 & H1%settle_ok & Hr)%bind_ok_inv. apply bind_ok_inv in Hr as (u2 & d2 & H2%count_failed_none & Hr).
    injection Hr as <- <-. split; [|done]. by eapply settled_before_none.
  - intros (job & d1 & H1%on_world_none & Hr)%bind_ok_inv. destruct job as [j|].
    + destruct (job_done (status j)); [|by injection Hr as <- <-].
      apply bind_ok_inv in Hr as (u2 & d2 & H2%settle_ok & Hr). injection Hr as <- <-. split; [|done].
      by eapply settled_after_none.
    + apply bind_ok_inv in Hr as (u2 & d2 & H2%settle_ok & Hr).
      apply bind_ok_inv in Hr as (u3 & d3 & H3%count_failed_none & Hr). injection Hr as <- <-. split; [|done].
      eapply settled_after_none; [exact H1|]. by eapply settled_before_none.
Qed.

Lemma received_ok l : forall d d' os,
  map_m receive l d = (d', Ok os) ->
  exists now, settled_by now d d' /\ now ++ map pm_tag (omap id os) ≡ₚ map fst l.
Proof.
  induction l as [|m l IH]; intros d d' os; cbn [map_m].
  - intros [= <- <-]. exists []. split; [apply settled_none|done].
  - intros (o & d1 & [H1 Ht]%receive_ok & Hr)%bind_ok_inv. apply bind_ok_inv in Hr as (os' & d2 & H2 & Hr).
    injection Hr as <- <-. apply IH in H2 as (now & Hs & Hp).
    destruct o as [p|]; cbn.
    + exists now. split; [by eapply settled_after_none|]. rewrite <-Hp, Ht. symmetry. apply Permutation_middle.
    + exists (fst m :: now). split; [exact (settled_trans [fst m] now _ _ _ H1 Hs)|]. cbn. by rewrite Hp.
Qed.

(** Grouping loses nothing. *)
Lemma add_to_group_perm p groups : concat (add_to_group p groups) ≡ₚ p :: concat groups.
Proof.
  induction groups as [|[|q g] gs IH]; [done|exact IH|]. cbn [add_to_group]. case_bool_decide; cbn.
  - rewrite <-app_assoc. cbn. rewrite <-Permutation_middle. apply perm_swap.
  - rewrite IH, <-Permutation_middle. apply perm_swap.
Qed.
Lemma grouped_perm l : concat (grouped l) ≡ₚ l.
Proof.
  unfold grouped.
  assert (Hg : forall groups, concat (fold_left (fun groups p => add_to_group p groups) l groups) ≡ₚ concat groups ++ l).
  { induction l as [|p l IH]; intros groups; cbn [fold_left]; [by rewrite app_nil_r|].
    rewrite IH, add_to_group_perm. cbn. apply Permutation_middle. }
  by rewrite Hg.
Qed.

(** Reading takes messages from the front and stops where nothing comes. *)
Lemma take_messages_ok n : forall d d' l,
  take_messages n d = (d', Ok l) ->
  exists k, dr_reads d' = drop k (dr_reads d) /\ l = omap id (take k (dr_reads d)) /\ dr_settled d' = dr_settled d
    /\ (l = [] -> n = 0%nat \/ dr_reads d = [] \/ (k = 1%nat /\ dr_reads d !! 0%nat = Some None)) /\ (k <= length (dr_reads d))%nat
    /\ (length l <= k)%nat.
Proof.
  induction n as [|n IH]; intros d d' l; cbn [take_messages].
  - intros [= <- <-]. exists 0%nat. rewrite drop_0. split_and!; [done..|by left|lia|done].
  - unfold bind at 1, queue_get. destruct (dr_reads d) as [|[m|] reads] eqn:Er.
    + intros [= <- <-]. exists 0%nat. split_and!; [done..|by right; left|done|done].
    + intros (rest & d1 & H1 & Hr)%bind_ok_inv. injection Hr as <- <-.
      apply IH in H1 as (k & Hd & -> & Hs & _ & Hk & Hlen). cbn in *. exists (S k). split_and!; try done; lia.
    + intros [= <- <-]. exists 1%nat. cbn. rewrite drop_0. split_and!; [done..|by right; right|lia|lia].
Qed.

Lemma round_settles msgs d d1 d2 received us :
  map_m receive msgs d = (d1, Ok received) ->
  map_m (fun g => process cc (length g) g) (grouped (omap id received)) d1 = (d2, Ok us) ->
  settled_by (map fst msgs) d d2.
Proof.
  intros (now & Hs & Hp)%received_ok Hm.
  apply (map_m_tags _ (map pm_tag)) in Hm; [|intros g e e' u; by apply process_ok].
  eapply settled_perm; [exact Hp|]. eapply settled_trans; [exact Hs|].
  eapply settled_perm; [|exact Hm]. rewrite flat_map_concat_map, <-concat_map.
  by apply Permutation_map, grouped_perm.
Qed.

Lemma rounds_settle size fuel : forall d d' u,
  (length (dr_reads d) <= fuel)%nat -> (0 < size)%nat ->
  drain_rounds cc fuel size d = (d', Ok u) ->
  exists k l, dr_reads d' = drop k (dr_reads d) /\ dr_settled d' = l ++ dr_settled d
    /\ map fst l ≡ₚ map fst (omap id (take k (dr_reads d)))
    /\ (dr_reads d' = [] \/ exists j, k = S j /\ dr_reads d !! j = Some None).
Proof.
  induction fuel as [|fuel IH]; intros d d' u Hf Hsize; cbn [drain_rounds];
    intros (l & d1 & (k & Hd1 & -> & Hs1 & Hstop & Hk & Hkl)%take_messages_ok & Hr)%bind_ok_inv.
  - destruct (dr_reads d) as [|? ?] eqn:E; [|cbn in Hf; lia]. exists 0%nat, [].
    cbn in Hk. assert (k = 0%nat) as -> by lia. cbn in *. injection Hr as <- _. split_and!; [done..|by left].
  - destruct (omap id (take k (dr_reads d))) as [|m msgs] eqn:Em.
    { injection Hr as <- _. exists k, []. rewrite Em. split_and!; [done..|].
      destruct Hstop as [?|[E|[-> E]]]; [done|lia| |].
      - left. by rewrite Hd1, E, drop_nil.
      - right. by exists 0%nat. }
    apply bind_ok_inv in Hr as (received & d2 & H2 & Hr). apply bind_ok_inv in Hr as (us & d3 & H3 & Hr).
    destruct (round_settles _ _ _ _ _ _ H2 H3) as [R3 (l1 & Hs3 & P3)]. rewrite <-Em in P3.
    assert (Hpos : (0 < k)%nat) by (cbn in Hkl; lia).
    apply IH in Hr as (k2 & l2 & Hd & Hs & P & Hend); [|rewrite R3, Hd1, length_drop; lia|done].
    rewrite R3, Hd1 in Hd, P, Hend. exists (k + k2)%nat, (l2 ++ l1). split_and!.
    + by rewrite Hd, drop_drop.
    + by rewrite Hs, Hs3, Hs1, app_assoc.
    + rewrite map_app, P, P3, <-take_take_drop, omap_app, map_app. apply Permutation_app_comm.
    + destruct Hend as [?|(j & -> & Hj)]; [by left|]. right. exists (k + j)%nat.
      split; [lia|]. by rewrite lookup_drop in Hj.
Qed.
End Settled.

(** draining settles each message once. When the drainer comes to its end, with
    batches of any size, each message it took from the queue was acknowledged or rejected
    exactly once - whether its job was unknown, finished before, indexed in a batch, in a
    part of a batch that had failed, or handed on for a retry or to the dead - and it
    stopped at a read that found the queue empty. *)
Theorem drain_settles_once `{Env} cc batch_size d d' counts :
  (0 < batch_size)%nat -> drain cc batch_size d = (d', Ok counts) ->
  counts = (dr_completed d', dr_failed d')
  /\ exists k settled,
    dr_reads d' = drop k (dr_reads d) /\ dr_settled d' = settled ++ dr_settled d
    /\ map fst settled ≡ₚ map fst (omap id (take k (dr_reads d)))
    /\ (dr_reads d' = [] \/ exists j, k = S j /\ dr_reads d !! j = Some None).
Proof.
  intros Hn. unfold drain. intros (reads & d1 & H1 & Hr)%bind_ok_inv. injection H1 as <- <-.
  apply bind_ok_inv in Hr as (u & d2 & H2 & Hr). injection Hr as <- <-. split; [done|].
  by apply rounds_settle in H2.
Qed.

(** ** Runs *)

Definition other_message : IndexJobMessage :=
  mkMessage "j9" DIAGNOSIS_CASE "c1" "1" UPSERT "t" "s1" "rv1" 0.
Definition demo_drainer (st : IndexJobStatus) (attempts : Z) : Drainer :=
  mkDrainer (demo_store st attempts)
    [Some (7%nat, Garbage "{"); Some (8%nat, Delivered demo_message); None; Some (9%nat, Delivered other_message); None]
    [] 0 0.

Lemma drain_settles_once_witness :
  exists d' counts,
    @drain (demo_env graph_down) demo_consumer 64 (demo_drainer JOB_QUEUED 1) = (d', Ok counts)
    /\ counts = (1%nat, 2%nat) /\ dr_settled d' = [(9%nat, Reject); (8%nat, Ack); (7%nat, Reject)]
    /\ counts = (dr_completed d', dr_failed d').
Proof.
  destruct (@drain (demo_env graph_down) demo_consumer 64 (demo_drainer JOB_QUEUED 1)) as [d' [counts|e]] eqn:E;
    [|vm_compute in E; discriminate E].
  exists d', counts. split; [done|].
  destruct (@drain_settles_once (demo_env graph_down) demo_consumer 64 (demo_drainer JOB_QUEUED 1) d' counts
    ltac:(lia) E) as [Hc _].
  vm_compute in E. injection E as <- <-. split_and!; [reflexivity..|exact Hc].
Defined.

(** A job whose message is about a version that is no longer current: the consumer closes
    it as stale, the drainer sends it round again until its attempts are used up. *)
Definition outdated_message : IndexJobMessage :=
  mkMessage "j1" DIAGNOSIS_CASE "c1" "9" UPSERT "t" "s1" "rv1" 0.
Example drainer_retries_stale :
  let run := @drain (demo_env all_fine) demo_consumer 64
    (mkDrainer (demo_store JOB_QUEUED 0) [Some (1%nat, Delivered outdated_message)] [] 0 0) in
  status <$> jobs (dr_world (fst run)) !! "j1" = Some JOB_QUEUED
  /\ head (tail (calls (dr_world (fst run)))) = Some (Publish "retry" outdated_message)
  /\ status <$> jobs (fst (@consume (demo_env all_fine) demo_consumer (Delivered outdated_message)
                             (demo_store JOB_QUEUED 0))) !! "j1" = Some JOB_STALE.
Proof. vm_compute. by split_and!. Qed.

(** One message whose job has used up its attempts stops the drain: the messages read with
    it stay unsettled. *)
Example exhausted_job_stops_drain :
  let '(d, o) := @drain (demo_env all_fine) demo_consumer 64
    (mkDrainer (demo_store JOB_RUNNING 2)
       [Some (1%nat, Delivered demo_message); Some (2%nat, Garbage "{")] [] 0 0) in
  o = Raise ValidationError /\ dr_settled d = [] /\ dr_reads d = [].
Proof. vm_compute. by split_and!. Qed.
