(* ===== verification/Iso.v ===== *)
(** * Dates as text

    [datetime.isoformat] of an instant in UTC and its inverse, as the cursors of
    [catalog/] use them.  An instant is a number of microseconds since 1970; the
    calendar is the proleptic Gregorian one of the [datetime] module. *)

From S2P Require Import Prelude.
From Stdlib Require Import Ascii.
Open Scope Z_scope.

(** ** The calendar *)

(** Days are counted in eras of 400 years that begin on the first of March, so that the
    leap day ends a year: [year_start y] is the first day of the year [y] of an era. *)
Definition year_start (y : Z) : Z := 365 * y + y / 4 - y / 100.
Definition year_of (doe : Z) : Z :=
  let e := doe / 366 in
  if (e + 1 <? 400) && (year_start (e + 1) <=? doe) then e + 1 else e.
(** Month and day of a day of the year, and back. *)
Definition month_day (doy : Z) : Z * Z :=
  let mp := (5 * doy + 2) / 153 in
  (if mp <? 10 then mp + 3 else mp - 9, doy - (153 * mp + 2) / 5 + 1).
Definition day_of_year (m d : Z) : Z :=
  (153 * (if 2 <? m then m - 3 else m + 9) + 2) / 5 + d - 1.

(** Year, month and day of a day of an era; January and February belong to the year
    before. *)
Definition of_era (doe : Z) : Z * Z * Z :=
  let yoe := year_of doe in
  let '(m, d) := month_day (doe - year_start yoe) in
  (if m <=? 2 then yoe + 1 else yoe, m, d).
Definition to_era (y m d : Z) : Z :=
  year_start (if m <=? 2 then y - 1 else y) + day_of_year m d.

(** Year, month and day of a day counted from 1970-01-01, and back. *)
Definition civil (day : Z) : Z * Z * Z :=
  let z := day + 719468 in
  let '(y, m, d) := of_era (z mod 146097) in
  (y + 400 * (z / 146097), m, d).
Definition day_of (y m d : Z) : Z :=
  let y' := if m <=? 2 then y - 1 else y in
  to_era (y' mod 400 + (if m <=? 2 then 1 else 0)) m d + 146097 * (y' / 400) - 719468.

(** All [n] numbers below [n]. *)
Fixpoint all_below (n : nat) (z : Z) (p : Z -> bool) : bool :=
  match n with
  | O => true
  | S n' => p z && all_below n' (z + 1) p
  end.
Lemma all_below_spec n z p : all_below n z p = true -> forall x, z <= x < z + Z.of_nat n -> p x = true.
Proof.
  revert z. induction n as [|n IH]; intros z; simpl; [lia|].
  intros [Hz Hn]%andb_true_iff x Hx. destruct (decide (x = z)) as [->|]; [done|].
  apply (IH (z + 1)); [done|lia].
Qed.

Definition month_ok (doy : Z) : bool :=
  let '(m, d) := month_day doy in
  (day_of_year m d =? doy) && (1 <=? m) && (m <=? 12) && (1 <=? d) && (d <=? 31).
Lemma month_checked doy : 0 <= doy < 366 -> let '(m, d) := month_day doy in
  day_of_year m d = doy /\ 1 <= m <= 12 /\ 1 <= d <= 31.
Proof.
  assert (Hall : all_below 366 0 month_ok = true) by (vm_compute; reflexivity).
  intros Hd. pose proof (all_below_spec _ _ _ Hall doy Hd) as Hok. unfold month_ok in Hok.
  destruct (month_day doy) as [m d]. rewrite !andb_true_iff, !Z.leb_le, Z.eqb_eq in Hok. lia.
Qed.

Lemma year_checked doe : 0 <= doe < 146097 ->
  0 <= year_of doe < 400 /\ 0 <= doe - year_start (year_of doe) < 366.
Proof.
  intros Hd. unfold year_of. cbv zeta. set (e := doe / 366).
  assert (He : 366 * e <= doe < 366 * e + 366).
  { pose proof (Z.div_mod doe 366 ltac:(lia)). pose proof (Z.mod_pos_bound doe 366 ltac:(lia)).
    fold e in H. lia. }
  destruct (e + 1 <? 400) eqn:E1; simpl; [destruct (year_start (e + 1) <=? doe) eqn:E2|].
  all: rewrite ?Z.ltb_lt, ?Z.ltb_ge, ?Z.leb_le, ?Z.leb_gt in *.
  all: clearbody e; unfold year_start in *; Z.to_euclidean_division_equations; lia.
Qed.

Lemma era_checked doe : 0 <= doe < 146097 -> let '(y, m, d) := of_era doe in
  to_era y m d = doe /\ 0 <= (if m <=? 2 then y - 1 else y) < 400 /\ 1 <= m <= 12 /\ 1 <= d <= 31.
Proof.
  intros Hd. unfold of_era, to_era. cbv zeta. destruct (year_checked doe Hd) as [Hy Hdoy].
  pose proof (month_checked _ Hdoy) as Hm. destruct (month_day _) as [m d].
  destruct Hm as (Hm & Hm' & Hd'). rewrite Hm. destruct (m <=? 2).
  - replace (year_of doe + 1 - 1) with (year_of doe) by lia. lia.
  - lia.
Qed.

Lemma civil_day day : let '(y, m, d) := civil day in
  day_of y m d = day /\ 1 <= m <= 12 /\ 1 <= d <= 31.
Proof.
  unfold civil. assert (Hd : 0 <= (day + 719468) mod 146097 < 146097) by (apply Z.mod_pos_bound; lia).
  pose proof (era_checked _ Hd) as He.
  pose proof (Z.div_mod (day + 719468) 146097 ltac:(lia)) as Hdm.
  destruct (of_era _) as [[y m] d]. destruct He as (He & Hy & Hm & Hd'). split; [|lia].
  unfold day_of. set (q := (day + 719468) / 146097) in *. destruct (m <=? 2) eqn:Em.
  - replace (y + 400 * q - 1) with (y - 1 + q * 400) by lia.
    rewrite Z.mod_add, Z.div_add, (Z.mod_small (y - 1)), (Z.div_small (y - 1)) by lia.
    replace (y - 1 + 1) with y by lia. lia.
  - replace (y + 400 * q) with (y + q * 400) by lia.
    rewrite Z.mod_add, Z.div_add, (Z.mod_small y), (Z.div_small y), Z.add_0_r by lia. lia.
Qed.

(** ** Digits *)

Definition digit (n : Z) : ascii := ascii_of_nat (Z.to_nat (48 + n)).
Definition digit_value (a : ascii) : option Z :=
  let n := Z.of_nat (nat_of_ascii a) in
  if (48 <=? n) && (n <=? 57) then Some (n - 48) else None.

(** The last [w] decimal digits of a number. *)
Fixpoint digits (w : nat) (n : Z) : list ascii :=
  match w with
  | O => []
  | S w' => digits w' (n / 10) ++ [digit (n mod 10)]
  end.
Fixpoint read_digits (w : nat) (acc : Z) (l : list ascii) : option (Z * list ascii) :=
  match w, l with
  | O, _ => Some (acc, l)
  | S w', a :: l' =>
      match digit_value a with Some d => read_digits w' (10 * acc + d) l' | None => None end
  | S _, [] => None
  end.

Lemma digit_value_digit n : 0 <= n < 10 -> digit_value (digit n) = Some n.
Proof.
  intros Hn. assert (n ∈ seqZ 0 10) as Hin by (apply elem_of_seqZ; lia). revert n Hn Hin.
  assert (forallb (fun n => bool_decide (digit_value (digit n) = Some n)) (seqZ 0 10) = true) as Hall
    by (vm_compute; reflexivity).
  intros n _ Hin. rewrite forallb_forall in Hall. apply list_elem_of_In in Hin.
  by apply Hall, bool_decide_eq_true in Hin.
Qed.

Lemma read_digits_app w acc n l : 0 <= n < 10 ^ Z.of_nat w ->
  read_digits w acc (digits w n ++ l) = Some (acc * 10 ^ Z.of_nat w + n, l).
Proof.
  assert (Hs : forall w1 n1 a1 k l1, 0 <= n1 < 10 ^ Z.of_nat w1 ->
    read_digits (w1 + k) a1 (digits w1 n1 ++ l1) = read_digits k (a1 * 10 ^ Z.of_nat w1 + n1) l1).
  { clear. intros w1. induction w1 as [|w1 IH]; intros n1 a1 k l1 Hn.
    - simpl in *. f_equal. lia.
    - rewrite Nat2Z.inj_succ, Z.pow_succ_r in Hn |- * by lia. cbn [digits]. rewrite <-app_assoc.
      replace (S w1 + k)%nat with (w1 + S k)%nat by lia.
      rewrite IH by (split; [apply Z.div_pos; lia|apply Z.div_lt_upper_bound; lia]).
      cbn [app read_digits]. rewrite digit_value_digit by (apply Z.mod_pos_bound; lia).
      f_equal. pose proof (Z.div_mod n1 10). lia. }
  intros Hn. rewrite <-(Nat.add_0_r w) at 1. by rewrite Hs.
Qed.

(** ** ISO 8601 *)

Definition two (n : Z) : list ascii := digits 2 n.
Definition bytes (s : string) : list ascii := String.list_ascii_of_string s.
Definition text_of_bytes (l : list ascii) : string := String.string_of_list_ascii l.

Definition DAY : Z := 86400000000.

(** [datetime.isoformat()] of an aware datetime in UTC, for the years 1 to 9999. *)
Definition iso_bytes (t : Z) : list ascii :=
  let '(y, m, d) := civil (t / DAY) in
  let us := t mod DAY in
  let s := us / 1000000 in
  let frac := us mod 1000000 in
  digits 4 y ++ bytes "-" ++ two m ++ bytes "-" ++ two d ++ bytes "T" ++ two (s / 3600)
  ++ bytes ":" ++ two (s / 60 mod 60) ++ bytes ":" ++ two (s mod 60)
  ++ (if frac =? 0 then [] else bytes "." ++ digits 6 frac) ++ bytes "+00:00".
Definition isoformat (t : Z) : string := text_of_bytes (iso_bytes t).

(** The instants a [datetime] can hold. *)
Definition is_datetime (t : Z) : bool := (-719162 * DAY <=? t) && (t <? 2932897 * DAY).

Definition expect (a : ascii) (l : list ascii) : option (list ascii) :=
  match l with b :: l' => if Ascii.eqb a b then Some l' else None | [] => None end.

Definition read_frac (l : list ascii) : option (Z * list ascii) :=
  match expect "."%char l with
  | Some l' => read_digits 6 0 l'
  | None => Some (0, l)
  end.

(** Reading back, for the form [isoformat] writes. *)
Definition read_iso_bytes (l : list ascii) : option Z :=
  '(y, l) ← read_digits 4 0 l; l ← expect "-"%char l;
  '(m, l) ← read_digits 2 0 l; l ← expect "-"%char l;
  '(d, l) ← read_digits 2 0 l; l ← expect "T"%char l;
  '(hh, l) ← read_digits 2 0 l; l ← expect ":"%char l;
  '(mi, l) ← read_digits 2 0 l; l ← expect ":"%char l;
  '(ss, l) ← read_digits 2 0 l; '(us, l) ← read_frac l;
  if decide (l = bytes "+00:00")
  then Some (day_of y m d * DAY + ((hh * 60 + mi) * 60 + ss) * 1000000 + us)
  else None.
Definition read_iso (s : string) : option Z :=
  t ← read_iso_bytes (bytes s);
  if decide (isoformat t = s /\ is_datetime t = true) then Some t else None.

(** [datetime.fromisoformat] accepts more than what [isoformat] writes; [other] is what
    it makes of the rest. *)
Definition fromisoformat (other : string -> option Z) (s : string) : option Z :=
  match read_iso s with Some t => Some t | None => other s end.

Lemma civil_year t : is_datetime t = true -> let '(y, _, _) := civil (t / DAY) in 0 <= y < 10000.
Proof.
  unfold is_datetime. rewrite andb_true_iff, Z.leb_le, Z.ltb_lt. intros [H1 H2].
  assert (Hd : -719162 <= t / DAY < 2932897).
  { split; [apply Z.div_le_lower_bound|apply Z.div_lt_upper_bound]; unfold DAY in *; lia. }
  unfold civil. set (z := t / DAY + 719468).
  assert (Hz : 0 <= z mod 146097 < 146097) by (apply Z.mod_pos_bound; lia).
  assert (Hq : 0 <= z / 146097 < 25).
  { split; [apply Z.div_le_lower_bound|apply Z.div_lt_upper_bound]; subst z; lia. }
  pose proof (era_checked _ Hz) as He.
  pose proof (Z.div_mod z 146097 ltac:(lia)) as Hdm.
  destruct (of_era _) as [[y m] d] eqn:Ey. destruct He as (He & Hy & Hm & Hd').
  destruct (m <=? 2) eqn:Em; [|lia]. split; [lia|].
  destruct (decide (y = 400)) as [->|]; [|lia].
  destruct (decide (z / 146097 = 24)) as [Hq'|]; [|lia]. exfalso.
  unfold to_era, day_of_year in He. rewrite Em in He. apply Z.leb_le in Em.
  replace (2 <? m) with false in He by (symmetry; apply Z.ltb_ge; lia).
  change (year_start (400 - 1)) with 145731 in He.
  assert (m = 1 \/ m = 2) as [->| ->] by lia.
  - change ((153 * (1 + 9) + 2) / 5) with 306 in He. subst z. lia.
  - change ((153 * (2 + 9) + 2) / 5) with 337 in He. subst z. lia.
Qed.

Lemma expect_app a l : expect a (a :: l) = Some l.
Proof. simpl. by rewrite Ascii.eqb_refl. Qed.

Ltac in_width :=
  lazymatch goal with
  | |- context [10 ^ Z.of_nat ?n] =>
      let v := eval vm_compute in (10 ^ Z.of_nat n) in change (10 ^ Z.of_nat n) with v; lia
  end.

Lemma read_iso_bytes_iso t : is_datetime t = true -> read_iso_bytes (iso_bytes t) = Some t.
Proof.
  intros Ht. pose proof (civil_year t Ht) as Hy. pose proof (civil_day (t / DAY)) as Hc.
  unfold iso_bytes. destruct (civil (t / DAY)) as [[y m] d]. destruct Hc as (Hday & Hm & Hd).
  set (us := t mod DAY) in *. set (s := us / 1000000) in *.
  assert (Hus : 0 <= us < DAY) by (apply Z.mod_pos_bound; unfold DAY; lia).
  assert (Hs : 0 <= s < 86400).
  { split; [apply Z.div_pos; lia|apply Z.div_lt_upper_bound; unfold DAY in Hus; lia]. }
  assert (Hfrac : 0 <= us mod 1000000 < 1000000) by (apply Z.mod_pos_bound; lia).
  assert (Hh : 0 <= s / 3600 < 24) by (split; [apply Z.div_pos|apply Z.div_lt_upper_bound]; lia).
  assert (Hmi : 0 <= s / 60 mod 60 < 60) by (apply Z.mod_pos_bound; lia).
  assert (Hss : 0 <= s mod 60 < 60) by (apply Z.mod_pos_bound; lia).
  assert (Hsum : (s / 3600 * 60 + s / 60 mod 60) * 60 + s mod 60 = s).
  { pose proof (Z.div_mod s 60). pose proof (Z.div_mod (s / 60) 60).
    rewrite (Z.div_div s 60 60) in * by lia. change (60 * 60) with 3600 in *. lia. }
  unfold read_iso_bytes, two. change (bytes "-") with ["-"%char]. change (bytes "T") with ["T"%char].
  change (bytes ":") with [":"%char]. rewrite read_digits_app by in_width.
  cbn [mbind option_bind app]. rewrite expect_app. cbn [mbind option_bind].
  do 2 (rewrite read_digits_app by in_width; cbn [mbind option_bind app]; rewrite expect_app;
        cbn [mbind option_bind]).
  do 2 (rewrite read_digits_app by in_width; cbn [mbind option_bind app]; rewrite expect_app;
        cbn [mbind option_bind]).
  rewrite read_digits_app by in_width. cbn [mbind option_bind]. unfold read_frac.
  assert (Hend : forall f, f = us mod 1000000 ->
    day_of (0 * 10 ^ Z.of_nat 4 + y) (0 * 10 ^ Z.of_nat 2 + m) (0 * 10 ^ Z.of_nat 2 + d) * DAY
    + (((0 * 10 ^ Z.of_nat 2 + s / 3600) * 60 + (0 * 10 ^ Z.of_nat 2 + s / 60 mod 60)) * 60
       + (0 * 10 ^ Z.of_nat 2 + s mod 60)) * 1000000 + f = t).
  { intros f ->. rewrite !Z.mul_0_l, !Z.add_0_l, Hday, Hsum.
    pose proof (Z.div_mod us 1000000 ltac:(lia)). fold s in H.
    pose proof (Z.div_mod t DAY ltac:(done)) as Hdm. fold us in Hdm. unfold DAY in *. lia. }
  destruct (us mod 1000000 =? 0) eqn:Ef.
  - apply Z.eqb_eq in Ef. cbn [app]. change (expect "." (bytes "+00:00")) with (@None (list ascii)).
    cbn [mbind option_bind]. rewrite decide_True by done. f_equal. by apply Hend.
  - change (bytes ".") with ["."%char]. cbn [app]. rewrite expect_app.
    rewrite read_digits_app by in_width. cbn [mbind option_bind].
    rewrite decide_True by done. f_equal. apply Hend. lia.
Qed.

(** Every instant is read back from its text. *)
Lemma read_isoformat t : is_datetime t = true -> read_iso (isoformat t) = Some t.
Proof.
  intros Ht. unfold read_iso, isoformat, bytes, text_of_bytes.
  rewrite String.list_ascii_of_string_of_list_ascii, read_iso_bytes_iso by done. cbn [mbind option_bind].
  by rewrite decide_True.
Qed.

Lemma fromisoformat_isoformat other t :
  is_datetime t = true -> fromisoformat other (isoformat t) = Some t.
Proof. intros Ht. unfold fromisoformat. by rewrite read_isoformat. Qed.

Lemma read_iso_datetime s t : read_iso s = Some t -> is_datetime t = true.
Proof.
  unfold read_iso. destruct (read_iso_bytes _) as [t'|]; simpl; [|done].
  destruct (decide _) as [[_ Ht]|]; [|done]. by intros [= <-].
Qed.

Example isoformat_example :
  isoformat 1767323045000000 = "2026-01-02T03:04:05+00:00"
  /\ isoformat (-62135596800000000 + 7) = "0001-01-01T00:00:00.000007+00:00"
  /\ isoformat (253402300799999999) = "9999-12-31T23:59:59.999999+00:00".
Proof. vm_compute. done. Qed.
