(* ===== verification/Cursors.v ===== *)
(** * Cursors

    [catalog/cursors.py]: the URL-safe base64 text of the key of the last row of a
    page, and its strict decoder (that of CPython 3.12). *)

From S2P Require Import Prelude Errors Regex Iso.
From Stdlib Require Import Ascii NArith.
Open Scope N_scope.

(** ** Base64 *)

Definition b64_char (n : N) : ascii :=
  ascii_of_N (if n <? 26 then 65 + n else if n <? 52 then 71 + n
              else if n <? 62 then n - 4 else if n =? 62 then 45 else 95).
(** The alphabet after the translation of [altchars]: [+] and [/] stay accepted. *)
Definition b64_value (a : ascii) : option N :=
  let x := N_of_ascii a in
  if in_range 65 90 x then Some (x - 65)
  else if in_range 97 122 x then Some (x - 71)
  else if in_range 48 57 x then Some (x + 4)
  else if (x =? 45) || (x =? 43) then Some 62
  else if (x =? 95) || (x =? 47) then Some 63
  else None.

(** [base64.urlsafe_b64encode(...).rstrip("=")], over bytes. *)
Fixpoint b64_encode (l : list N) : list ascii :=
  match l with
  | [] => []
  | [a] => [b64_char (a / 4); b64_char (a mod 4 * 16)]
  | [a; b] => [b64_char (a / 4); b64_char (a mod 4 * 16 + b / 16); b64_char (b mod 16 * 4)]
  | a :: b :: c :: l' =>
      b64_char (a / 4) :: b64_char (a mod 4 * 16 + b / 16) :: b64_char (b mod 16 * 4 + c / 64)
        :: b64_char (c mod 64) :: b64_encode l'
  end.

(** [binascii.a2b_base64(..., strict_mode=True)] after its first character; [left]
    holds the bits of the unfinished byte, [out] the bytes, reversed. *)
Fixpoint a2b (quad : nat) (left : N) (pads : nat) (started : bool) (out : list N) (l : list ascii)
  : option (list N) :=
  match l with
  | [] => match quad with O => Some (rev out) | _ => None end
  | a :: l' =>
      if Ascii.eqb a "="%char then
        match quad with
        | O | 1%nat => a2b quad left pads true out l'
        | _ => if (4 <=? quad + S pads)%nat
               then match l' with [] => Some (rev out) | _ => None end
               else a2b quad left (S pads) true out l'
        end
      else
        match b64_value a with
        | None => None
        | Some v =>
            if started then None
            else match quad with
                 | O => a2b 1 v 0 false out l'
                 | 1%nat => a2b 2 (v mod 16) 0 false (left * 4 + v / 16 :: out) l'
                 | 2%nat => a2b 3 (v mod 4) 0 false (left * 16 + v / 4 :: out) l'
                 | _ => a2b 0 0 0 false (left * 64 + v :: out) l'
                 end
        end
  end.
Definition a2b_base64 (l : list ascii) : option (list N) :=
  match l with
  | a :: _ => if Ascii.eqb a "="%char then None else a2b 0 0 0 false [] l
  | [] => Some []
  end.

(** ** UTF-8 *)

Definition scalar (x : N) : bool := (x <? 55296) || ((57344 <=? x) && (x <? 1114112)).
(** [bytes.decode()] accepts exactly the encodings of scalar values. *)
Definition utf8_valid (l : list ascii) : bool :=
  forallb scalar (utf8 l) && bool_decide (concat (map encode (utf8 l)) = l).
Definition well_encoded (s : string) : bool := utf8_valid (bytes s).

(** ** Cursors *)

(** [catalog/cursors.py:8-9 encode_cursor] *)
Definition encode_cursor (value : string) : string :=
  text_of_bytes (b64_encode (map N_of_ascii (bytes value))).

(** [catalog/cursors.py:12-23 decode_cursor] *)
Definition decode_cursor (value : option string) : outcome exn (option string) :=
  match value with
  | None | Some "" => Ok None
  | Some v =>
      let l := bytes v in
      let pads := ((4 - length l mod 4) mod 4)%nat in
      match (if forallb (fun a => N_of_ascii a <? 128) l
             then a2b_base64 (l ++ repeat "="%char pads) else None) with
      | Some out =>
          let out := map ascii_of_N out in
          if utf8_valid out && list_true out then Ok (Some (text_of_bytes out))
          else Raise (Domain InvalidRequestError [])
      | None => Raise (Domain InvalidRequestError [])
      end
  end.

(** [catalog/cursors.py:26-28 query_datetime] of a text; instants are in UTC. *)
Definition query_datetime (other : string -> option Z) (s : string) : option Z :=
  fromisoformat other s.

(** ** The round trip *)

Lemma b64_value_char n : n < 64 ->
  b64_value (b64_char n) = Some n /\ Ascii.eqb (b64_char n) "="%char = false
  /\ (N_of_ascii (b64_char n) <? 128) = true.
Proof.
  assert (Hall : forallb (fun k => let n := N.of_nat k in
    bool_decide (b64_value (b64_char n) = Some n) && negb (Ascii.eqb (b64_char n) "="%char)
    && (N_of_ascii (b64_char n) <? 128)) (seq 0 64) = true) by (vm_compute; reflexivity).
  intros Hn. rewrite forallb_forall in Hall. specialize (Hall (N.to_nat n)). cbv zeta in Hall.
  rewrite N2Nat.id, !andb_true_iff, negb_true_iff, bool_decide_eq_true in Hall.
  assert (In (N.to_nat n) (seq 0 64)) as Hin by (apply in_seq; lia).
  destruct (Hall Hin) as [[? ?] ?]. done.
Qed.

Lemma a2b_step quad left pads out n l : n < 64 ->
  a2b quad left pads false out (b64_char n :: l) =
    match quad with
    | O => a2b 1 n 0 false out l
    | 1%nat => a2b 2 (n mod 16) 0 false (left * 4 + n / 16 :: out) l
    | 2%nat => a2b 3 (n mod 4) 0 false (left * 16 + n / 4 :: out) l
    | _ => a2b 0 0 0 false (left * 64 + n :: out) l
    end.
Proof.
  intros Hn. destruct (b64_value_char n Hn) as (Hv & He & _). cbn [a2b]. by rewrite He, Hv.
Qed.

(** Three bytes at a time. *)
Lemma three_ind {A} (P : list A -> Prop) :
  P [] -> (forall a, P [a]) -> (forall a b, P [a; b]) ->
  (forall a b c l, P l -> P (a :: b :: c :: l)) -> forall l, P l.
Proof.
  intros H0 H1 H2 H3. assert (Hn : forall n l, (length l <= n)%nat -> P l).
  { induction n as [|n IH]; intros l Hl; [destruct l; [done|simpl in Hl; lia]|].
    destruct l as [|a [|b [|c l]]]; [done..|]. apply H3, IH. simpl in Hl. lia. }
  intros l. by apply (Hn (length l)).
Qed.

Definition is_byte (x : N) : Prop := x < 256.

Ltac sextets :=
  repeat first [apply N.Div0.div_lt_upper_bound | apply N.mod_lt]; try lia.

Ltac divide := zify; Z.to_euclidean_division_equations; lia.

Lemma sextet a b : a < 256 -> b < 256 -> a mod 4 * 16 + b / 16 < 64
  /\ (a / 4) * 4 + (a mod 4 * 16 + b / 16) / 16 = a /\ (a mod 4 * 16 + b / 16) mod 16 = b / 16.
Proof. intros Ha Hb. split_and!; divide. Qed.
Lemma sextet' b c : b < 256 -> c < 256 -> b mod 16 * 4 + c / 64 < 64
  /\ (b / 16) * 16 + (b mod 16 * 4 + c / 64) / 4 = b /\ (b mod 16 * 4 + c / 64) mod 4 = c / 64.
Proof. intros Hb Hc. split_and!; divide. Qed.

Lemma a2b_encode l : Forall is_byte l -> forall out,
  a2b 0 0 0 false out (b64_encode l ++ repeat "="%char ((4 - length (b64_encode l) mod 4) mod 4))
  = Some (rev out ++ l).
Proof.
  induction l as [|a|a b|a b c l IH] using three_ind; intros Hl out.
  - simpl. by rewrite app_nil_r.
  - apply Forall_cons in Hl as [Ha _]. unfold is_byte in Ha. cbn [b64_encode app].
    destruct (sextet a 0) as (Hs & H1 & _); [lia..|]. rewrite N.Div0.div_0_l, N.add_0_r in Hs, H1.
    rewrite a2b_step by sextets. rewrite a2b_step by done. rewrite H1. simpl. by rewrite rev_alt.
  - apply Forall_cons in Hl as [Ha Hl]. apply Forall_cons in Hl as [Hb _]. unfold is_byte in *.
    cbn [b64_encode app]. destruct (sextet a b) as (Hs & H1 & H2); [lia..|].
    destruct (sextet' b 0) as (Hs' & H1' & _); [lia..|]. rewrite N.Div0.div_0_l, N.add_0_r in Hs', H1'.
    rewrite a2b_step by sextets. rewrite a2b_step by done. rewrite a2b_step by done.
    rewrite H1, H2, H1'. simpl. by rewrite <-app_assoc.
  - apply Forall_cons in Hl as [Ha Hl]. apply Forall_cons in Hl as [Hb Hl].
    apply Forall_cons in Hl as [Hc Hl]. unfold is_byte in *. cbn [b64_encode].
    destruct (sextet a b) as (Hs & H1 & H2); [lia..|].
    destruct (sextet' b c) as (Hs' & H1' & H2'); [lia..|].
    assert (Hk : forall k, (length (b64_char (a / 4) :: b64_char (a mod 4 * 16 + b / 16)
      :: b64_char (b mod 16 * 4 + c / 64) :: b64_char (c mod 64) :: k) mod 4 = length k mod 4)%nat).
    { intros k. cbn [length]. replace (S (S (S (S (length k))))) with (length k + 1 * 4)%nat by lia.
      apply Nat.Div0.mod_add. }
    rewrite Hk. cbn [app].
    rewrite a2b_step by sextets. rewrite a2b_step by done. rewrite a2b_step by done.
    rewrite a2b_step by sextets. rewrite H1, H2, H1', H2', (IH Hl). f_equal. simpl.
    pose proof (N.div_mod c 64). replace (c / 64 * 64 + c mod 64) with c by lia.
    by rewrite <-!app_assoc.
Qed.

Lemma b64_encode_chars l a : Forall is_byte l -> a ∈ b64_encode l ->
  exists n, n < 64 /\ a = b64_char n.
Proof.
  induction l as [|x|x y|x y z l IH] using three_ind; intros Hl Ha; cbn [b64_encode] in Ha.
  - by apply elem_of_nil in Ha.
  - apply Forall_cons in Hl as [Hx _]. unfold is_byte in Hx.
    destruct (sextet x 0) as (Hs & _); [lia..|]. rewrite N.Div0.div_0_l, N.add_0_r in Hs.
    rewrite !elem_of_cons, elem_of_nil in Ha.
    destruct Ha as [->|[->|[]]]; eexists; (split; [|done]); [sextets|done].
  - apply Forall_cons in Hl as [Hx Hl]. apply Forall_cons in Hl as [Hy _]. unfold is_byte in *.
    destruct (sextet x y) as (Hs & _); [lia..|].
    destruct (sextet' y 0) as (Hs' & _); [lia..|]. rewrite N.Div0.div_0_l, N.add_0_r in Hs'.
    rewrite !elem_of_cons, elem_of_nil in Ha.
    destruct Ha as [->|[->|[->|[]]]]; eexists; (split; [|done]); [sextets|done..].
  - apply Forall_cons in Hl as [Hx Hl]. apply Forall_cons in Hl as [Hy Hl].
    apply Forall_cons in Hl as [Hz Hl]. unfold is_byte in *.
    destruct (sextet x y) as (Hs & _); [lia..|].
    destruct (sextet' y z) as (Hs' & _); [lia..|].
    rewrite !elem_of_cons in Ha.
    destruct Ha as [->|[->|[->|[->|Ha]]]]; [..|by apply IH]; eexists; (split; [|done]);
      [sextets|done|done|sextets].
Qed.

Lemma bytes_are_bytes s : Forall is_byte (map N_of_ascii (bytes s)).
Proof.
  apply Forall_forall. intros x (a & -> & _)%list_elem_of_fmap. apply N_ascii_bounded.
Qed.

Lemma encode_cursor_nonempty v : v <> "" -> encode_cursor v <> "".
Proof. unfold encode_cursor, text_of_bytes. by destruct v as [|a [|a' [|a'' v]]]. Qed.

(** A cursor is read back as the value it was made of. *)
Lemma decode_encode_cursor v : v <> "" -> well_encoded v = true ->
  decode_cursor (Some (encode_cursor v)) = Ok (Some v).
Proof.
  intros Hv Hw. unfold decode_cursor.
  pose proof (bytes_are_bytes v) as Hb. set (l := map N_of_ascii (bytes v)) in *.
  assert (Hbytes : bytes (encode_cursor v) = b64_encode l)
    by exact (String.list_ascii_of_string_of_list_ascii _).
  destruct (encode_cursor v) as [|c s] eqn:Ec; [by destruct (encode_cursor_nonempty v Hv)|].
  rewrite <-Ec in *. rewrite Hbytes. clear Ec c s.
  assert (Hal : forallb (fun a => N_of_ascii a <? 128) (b64_encode l) = true).
  { apply forallb_forall. intros a Ha%list_elem_of_In.
    destruct (b64_encode_chars l a Hb Ha) as (n & Hn & ->). by apply b64_value_char. }
  rewrite Hal.
  assert (Ha : a2b_base64 (b64_encode l ++ repeat "="%char
    ((4 - length (b64_encode l) mod 4) mod 4)) = Some l).
  { destruct (b64_encode l) as [|a k] eqn:Ek.
    - unfold l in *. by destruct v as [|a [|a' [|a'' v]]].
    - cbn [a2b_base64 app]. destruct (b64_encode_chars l a Hb) as (n & Hn & ->).
      { rewrite Ek. left. }
      destruct (b64_value_char n Hn) as (_ & -> & _).
      pose proof (a2b_encode l Hb []) as He. by rewrite Ek in He. }
  rewrite Ha. unfold l. rewrite map_map.
  rewrite (map_ext _ id) by apply ascii_N_embedding. rewrite map_id.
  unfold well_encoded in Hw. rewrite Hw.
  destruct (bytes v) as [|a k] eqn:Ek; [by destruct v|]. cbn [list_true andb]. rewrite <-Ek.
  unfold text_of_bytes, bytes. by rewrite String.string_of_list_ascii_of_string.
Qed.

(** ** Keys of two parts *)

(** [value.split("|", 1)], when there is a bar. *)
Fixpoint split_bar (l : list ascii) : option (list ascii * list ascii) :=
  match l with
  | [] => None
  | a :: l' =>
      if Ascii.eqb a "|"%char then Some ([], l')
      else (fun p => (a :: fst p, snd p)) <$> split_bar l'
  end.

(** Text without bars and outside Unicode. *)
Definition simple (a : ascii) : Prop := N_of_ascii a < 124.

Lemma split_bar_app l k : Forall simple l -> split_bar (l ++ "|"%char :: k) = Some (l, k).
Proof.
  induction 1 as [|a l Ha _ IH]; simpl; [done|].
  destruct (Ascii.eqb_spec a "|"%char) as [->|]; [done|]. by rewrite IH.
Qed.

Lemma utf8_valid_simple a l : N_of_ascii a < 128 -> utf8_valid (a :: l) = utf8_valid l.
Proof.
  intros Ha%N.ltb_lt. unfold utf8_valid. cbn [utf8]. rewrite Ha. cbn [forallb map concat].
  assert (scalar (N_of_ascii a) = true) as ->.
  { unfold scalar. apply N.ltb_lt in Ha. rewrite orb_true_iff, N.ltb_lt. left. lia. }
  assert (He : encode (N_of_ascii a) = [a]).
  { unfold encode. rewrite Ha. simpl. by rewrite ascii_N_embedding. }
  rewrite andb_true_l. f_equal. apply bool_decide_ext. rewrite He. simpl.
  split; [by intros [= ?]|by intros ->].
Qed.

Lemma utf8_valid_app l k : Forall simple l -> utf8_valid (l ++ k) = utf8_valid k.
Proof.
  induction 1 as [|a l Ha _ IH]; simpl; [done|]. rewrite utf8_valid_simple; [done|].
  unfold simple in Ha. lia.
Qed.

Lemma digit_simple n : (0 <= n < 10)%Z -> simple (digit n).
Proof.
  intros Hn. assert (n ∈ seqZ 0 10) as Hin by (apply elem_of_seqZ; lia).
  assert (forallb (fun n => N_of_ascii (digit n) <? 124) (seqZ 0 10) = true) as Hall
    by (vm_compute; reflexivity).
  rewrite forallb_forall in Hall. apply list_elem_of_In in Hin. by apply N.ltb_lt, Hall.
Qed.

Lemma digits_simple w n : Forall simple (digits w n).
Proof.
  revert n. induction w as [|w IH]; intros n; simpl; [constructor|].
  apply Forall_app. split; [apply IH|]. constructor; [|constructor].
  apply digit_simple, Z.mod_pos_bound. lia.
Qed.

Lemma iso_bytes_simple t : Forall simple (iso_bytes t).
Proof.
  unfold iso_bytes. destruct (civil _) as [[y m] d]. unfold two.
  repeat match goal with
  | |- Forall _ (_ ++ _) => apply Forall_app; split
  | |- Forall _ (digits _ _) => apply digits_simple
  | |- Forall _ (if ?b then _ else _) => destruct b
  | |- Forall _ [] => constructor
  end; repeat constructor.
Qed.

(** A key of an instant and an identifier is taken apart again. *)
Definition time_key (t : Z) (i : string) : string := (isoformat t ++ "|" ++ i)%string.

Lemma bytes_app s s' : bytes (s ++ s') = bytes s ++ bytes s'.
Proof. unfold bytes. induction s as [|a s IH]; [done|]. simpl. by rewrite <-IH. Qed.

Lemma bytes_isoformat t : bytes (isoformat t) = iso_bytes t.
Proof. apply String.list_ascii_of_string_of_list_ascii. Qed.

Lemma split_time_key t i : split_bar (bytes (time_key t i)) = Some (bytes (isoformat t), bytes i).
Proof.
  unfold time_key. rewrite !bytes_app, bytes_isoformat. apply split_bar_app, iso_bytes_simple.
Qed.

Lemma time_key_nonempty t i : time_key t i <> "".
Proof.
  unfold time_key. intros E. apply (f_equal bytes) in E.
  rewrite !bytes_app, bytes_isoformat in E. by destruct (iso_bytes t).
Qed.

Lemma decode_time_key t i : well_encoded i = true ->
  decode_cursor (Some (encode_cursor (time_key t i))) = Ok (Some (time_key t i)).
Proof.
  intros Hi. apply decode_encode_cursor; [apply time_key_nonempty|].
  unfold well_encoded, time_key. rewrite !bytes_app, bytes_isoformat.
  rewrite utf8_valid_app by apply iso_bytes_simple. change (bytes "|") with ["|"%char].
  cbn [app]. by rewrite utf8_valid_simple.
Qed.

Example cursor_example :
  encode_cursor "d1" = "ZDE" /\ decode_cursor (Some "ZDE") = Ok (Some "d1")
  /\ decode_cursor (Some "Z") = Raise (Domain InvalidRequestError [])
  /\ decode_cursor (Some "ZD!") = Raise (Domain InvalidRequestError [])
  /\ decode_cursor (Some "_w") = Raise (Domain InvalidRequestError []).
Proof. vm_compute. done. Qed.
