(* ===== verification/Ingestion.v ===== *)
(** * Taking manuals and tickets into the library

    [retrieval/ingestion/parsers.py], [manifests.py], [service.py] and
    [index_tickets.py], and [persistence/repositories/manual_document.py]. The PDF
    and Word readers are parameters. *)

From stdpp Require Import pretty.
From Stdlib Require Import Ascii.
From S2P Require Import Prelude Errors Text Regex Store IndexRepo IndexHandlers.
From S2P Require Import Scoring Rewrite Iso Cursors Chunking.
Open Scope Z_scope.

(** ** Parsing *)

(** What the readers find in a file: the text of each page, with [None] for
    [extract_text()] without a result; the paragraphs of a Word document with the
    name of their style, and its tables as rows of cells. *)
Class Readers := mkReaders {
  PdfReader : string -> outcome exn (list (option text));
  Document : string -> outcome exn (list (option string * text) * list (list (list text)));
}.

Section Parsers.
Context `{Unicode} `{Readers}.

(** [Path(filename).name]: the last component that is not empty or a dot. *)
Fixpoint components (cur t : text) : list text :=
  match t with
  | [] => [rev cur]
  | x :: t' => if (x =? 47)%N then rev cur :: components [] t' else components (x :: cur) t'
  end.
Definition path_name (filename : text) : text :=
  default [] (last (filter (fun c => c <> [] /\ c <> chars ".") (components [] filename))).

(** The index of the last dot. *)
Fixpoint last_dot (i : nat) (found : option nat) (t : text) : option nat :=
  match t with
  | [] => found
  | x :: t' => last_dot (S i) (if (x =? 46)%N then Some i else found) t'
  end.
(** [Path(filename).suffix]. *)
Definition suffix (filename : text) : text :=
  let name := path_name filename in
  match last_dot 0 None name with
  | Some i => if ((0 <? i) && (i <? length name - 1))%nat then drop i name else []
  | None => []
  end.

(** [content.decode("utf-8-sig")]: [None] when it raises UnicodeDecodeError. *)
Definition decode_sig (content : string) : option text :=
  let l := bytes content in
  let l := match drop_prefix (map byte [239; 187; 191]%nat) l with Some l' => l' | None => l end in
  if utf8_valid l then Some (utf8 l) else None.

Definition parse_error {A} : outcome exn A := Raise (Domain DocumentParseError []).

(** [except (UnicodeDecodeError, ValueError, KeyError)]; pydantic's ValidationError
    is a ValueError, and a KeyError stays one. *)
Definition wrap_reader {A B} (o : outcome exn A) (k : A -> outcome exn B) : outcome exn B :=
  match o with
  | Ok a => k a
  | Raise ValueError | Raise KeyError | Raise ValidationError => parse_error
  | Raise e => Raise e
  end.

(** The pages with text, numbered from 1. *)
Fixpoint pdf_blocks (index : Z) (pages : list (option text)) : list ParsedBlock :=
  match pages with
  | [] => []
  | page :: pages' =>
      let t := strip_text (default [] page) in
      (if list_true t then [mkBlock t (Some index) "正文"] else []) ++ pdf_blocks (index + 1) pages'
  end.

(** [retrieval/ingestion/parsers.py:24-58 parse_document] *)
Definition docx_paragraph (p : option string * text) : list text :=
  if list_true (strip_text (snd p)) then
    [(if String.prefix "Heading" (or_empty (fst p)) then chars "# " else []) ++ snd p]
  else [].
(** [retrieval/ingestion/parsers.py:24-58 parse_document] *)
Definition docx_row (cells : list text) : text :=
  concat (match map strip_text cells with
          | [] => []
          | c :: cs => c :: map (app (chars " | ")) cs
          end).
Definition docx_table (rows : list (list text)) : ParsedBlock :=
  mkBlock (join_text 10 (map docx_row rows)) None "表格".
(** [retrieval/ingestion/parsers.py:24-58 parse_document] *)
Definition docx_blocks (paragraphs : list (option string * text)) (tables : list (list (list text)))
  : list ParsedBlock :=
  let ps := flat_map docx_paragraph paragraphs in
  (if list_true ps then [mkBlock (join_text 10 ps) None "正文"] else []) ++ map docx_table tables.

(** [retrieval/ingestion/parsers.py:24-58 parse_document] *)
Definition parse_document (filename content : string) : outcome exn (list ParsedBlock) :=
  let suffix := lower (suffix (chars filename)) in
  if bool_decide (suffix ∈ map chars [".txt"; ".md"; ".markdown"]) then
    match decode_sig content with
    | Some t => Ok (if list_true (strip_text t) then [mkBlock t None "正文"] else [])
    | None => parse_error
    end
  else if bool_decide (suffix = chars ".pdf") then
    wrap_reader (PdfReader content) (fun pages =>
      let blocks := pdf_blocks 1 pages in
      if list_true blocks then Ok blocks else Raise (Domain OcrRequiredError []))
  else if bool_decide (suffix = chars ".docx") then
    wrap_reader (Document content) (fun d => Ok (docx_blocks (fst d) (snd d)))
  else Raise (Domain DocumentTypeUnsupportedError []).
End Parsers.

(** ** Manifests *)

(** [retrieval/ingestion/manifests.py:6-10 ReviewStatus] *)
Inductive ManualReviewStatus : Type := MR_DRAFT | MR_APPROVED | MR_REJECTED | MR_DISABLED.
Definition manual_review_value (s : ManualReviewStatus) : string :=
  match s with
  | MR_DRAFT => "DRAFT" | MR_APPROVED => "APPROVED" | MR_REJECTED => "REJECTED"
  | MR_DISABLED => "DISABLED"
  end.

(** [retrieval/ingestion/manifests.py:23-33 DocumentManifest] *)
Record DocumentManifest := mkManifest {
  mf_doc_id : string;
  mf_document_name : string;
  mf_version : string;
  mf_content_type : string;
  mf_device_type : string;
  mf_device_model : option string;
  mf_manufacturer : option string;
  mf_alarm_name : option string;
  mf_review_status : ManualReviewStatus;
  mf_effective : bool;
}.

(** [retrieval/ingestion/manifests.py:36-44 IngestionResult] *)
Record IngestionResult := mkIngestion {
  ig_doc_id : string;
  ig_version : string;
  ig_object_key : string;
  ig_file_sha256 : string;
  ig_chunk_count : nat;
  ig_index_status : IndexStatus;
  ig_existing : bool;
  ig_job_id : option string;
}.

(** ** The tables of manuals *)

Section Repository.
Context `{Env} (index_repository : bool).

Definition is_version (d v : string) (x : ManualDocument) : bool :=
  bool_decide (doc_id x = d) && bool_decide (version x = v).

(** [persistence/repositories/manual_document.py:22-41
    ManualDocumentRepository.find] *)
Definition find_document (d v : string) : M World exn (option ManualDocument) :=
  rows <- gets (fun w => filter (fun x => is_version d v x = true) (documents w)) ;;
  match rows with
  | [] => ret None
  | [x] => ret (Some x)
  | _ => raise MultipleResultsFound
  end.

(** The other versions of the document stop being effective.
    [persistence/repositories/manual_document.py:43-133 create_pending] *)
Definition retire_document (d : string) (now : Z) (x : ManualDocument) : ManualDocument :=
  if bool_decide (doc_id x = d) && effective x
  then x <| effective := false |> <| d_updated_at := now |> else x.
Definition retire_chunk (d : string) (x : ManualChunk) : ManualChunk :=
  if bool_decide (c_doc_id x = d) && c_effective x then x <| c_effective := false |> else x.
Definition retire_versions (d : string) (now : Z) (w : World) : World :=
  w <| documents ::= map (retire_document d now) |> <| chunks ::= map (retire_chunk d) |>.

Definition verified_review (s : ManualReviewStatus) : bool :=
  bool_decide (manual_review_value s = "APPROVED").

(** [persistence/repositories/manual_document.py:43-133 create_pending] *)
Definition document_row (mf : DocumentManifest) (object_key checksum generation : string)
    (count : nat) (queued : bool) (now : Z) : ManualDocument :=
  mkDocument (mf_doc_id mf) (mf_version mf) (mf_device_type mf) (mf_device_model mf)
    (mf_manufacturer mf) (mf_effective mf) (manual_review_value (mf_review_status mf))
    (Some generation) (if queued then IDX_QUEUED else IDX_PENDING) None object_key checksum count now.

(** The text a chunk is embedded with. *)
Definition embedding_text_of (c : DocumentChunk) : string :=
  unchars (dc_chapter_title c ++ 10%N :: dc_content c).

(** [persistence/repositories/manual_document.py:43-133 create_pending] *)
Definition chunk_row (mf : DocumentManifest) (generation : string) (c : DocumentChunk) : ManualChunk :=
  mkChunk (dc_chunk_id c) (mf_doc_id mf) (mf_version mf) (mf_device_type mf) (mf_device_model mf)
    (mf_manufacturer mf) (mf_alarm_name mf) (unchars (dc_chapter_title c)) (dc_page_no c)
    (dc_section_type c) (unchars (dc_content c)) (verified_review (mf_review_status mf))
    (mf_effective mf) (dc_content_hash c) (dc_chunk_order c) (dc_keywords c)
    (Some (embedding_text_of c)) (Some generation) None.

(** The INSERTs, with the unique key (doc_id, version) of manual_document and the
    primary key of manual_chunk. *)
Definition insert_rows (d : ManualDocument) (cs : list ManualChunk) : M World exn unit :=
  taken <- gets (fun w => existsb (is_version (doc_id d) (version d)) (documents w)) ;;
  guard (negb taken) IntegrityError ;;;
  ids <- gets (fun w => map chunk_id (chunks w)) ;;
  guard (bool_decide (NoDup (ids ++ map chunk_id cs))) IntegrityError ;;;
  modify (fun w => w <| documents ::= fun l => l ++ [d] |> <| chunks ::= fun l => l ++ cs |>).

(** [persistence/repositories/manual_document.py:43-133
    ManualDocumentRepository.create_pending] *)
Definition create_pending (mf : DocumentManifest) (object_key checksum : string)
    (cs : list DocumentChunk) (generation : string) (index_request : option IndexJobCreate)
  : M World exn (option string) :=
  now <- utc_now ;;
  atomically (
    when (mf_effective mf) (modify (retire_versions (mf_doc_id mf) now)) ;;;
    let rows := insert_rows
      (document_row mf object_key checksum generation (length cs)
         (match index_request with Some _ => true | None => false end) now)
      (map (chunk_row mf generation) cs) in
    match index_request with
    | Some r =>
        guard index_repository RuntimeError ;;;
        rows ;;;
        job <- add_job r ;;
        ret (Some (job_id job))
    | None => rows ;;; ret None
    end).

(** [persistence/repositories/manual_document.py:135-161
    ManualDocumentRepository.set_index_status] *)
Definition set_index_status (d v : string) (st : IndexStatus) (error_code : option string)
  : M World exn unit :=
  now <- utc_now ;;
  atomically (
    modify (fun w => w <| documents ::= map (fun x =>
      if is_version d v x
      then x <| d_index_status := st |> <| d_index_error_code := error_code |>
             <| d_updated_at := now |>
      else x) |>) ;;;
    when (bool_decide (st = IDX_INDEXED))
      (modify (fun w => w <| chunks ::= map (fun c =>
        if bool_decide (c_doc_id c = d) && bool_decide (c_version c = v)
        then c <| c_indexed_at := Some now |> else c) |>))).
End Repository.

(** ** The service *)

(** [retrieval/ingestion/service.py:27-195 DocumentIngestionService] *)
Record IngestionConfig := mkIngestionConfig {
  ic_max_bytes : Z;
  ic_milvus : bool;
  ic_embedding : bool;
  ic_execution_mode : string;
  ic_max_attempts : Z;
  ic_index_repository : bool;
}.

Section Service.
Context `{Env} `{Unicode} `{Platform} `{Readers} (cfg : IngestionConfig).

Definition from_outcome {S A} (o : outcome exn A) : M S exn A :=
  match o with Ok a => ret a | Raise e => raise e end.

(** [retrieval/ingestion/service.py:49-195 DocumentIngestionService.ingest] *)
Definition ingest_request (mf : DocumentManifest) (generation : string)
  : M World exn (option IndexJobCreate) :=
  if bool_decide (ic_execution_mode cfg = "rabbitmq") then
    guard ((1 <=? ic_max_attempts cfg) && (ic_max_attempts cfg <=? 20)) ValidationError ;;;
    ret (Some (mkJobCreate MANUAL_DOCUMENT (mf_doc_id mf) generation UPSERT
      ("ingest-" +:+ generation) (mf_doc_id mf) generation (ic_max_attempts cfg)))
  else ret None.

(** [retrieval/ingestion/service.py:49-195 DocumentIngestionService.ingest] *)
Definition vector_row (mf : DocumentManifest) (generation : string) (c : DocumentChunk) (v : Z)
  : VectorRow :=
  mkVectorRow (dc_chunk_id c) (mf_doc_id mf) (mf_device_type mf) (or_empty (mf_device_model mf))
    (or_empty (mf_manufacturer mf)) (or_empty (mf_alarm_name mf)) generation None
    (verified_review (mf_review_status mf)) (mf_effective mf) None v.

(** [getattr(exc, "code", type(exc).__name__)]. *)
Definition code_or_name (e : exn) : string :=
  match e with Domain c _ => code c | _ => exn_name e end.

(** [retrieval/ingestion/service.py:49-195 DocumentIngestionService.ingest] *)
Definition index_chunks (mf : DocumentManifest) (generation : string) (cs : list DocumentChunk)
  : M World exn (IndexStatus * option string) :=
  if ic_embedding cfg && ic_milvus cfg then
    catch (
      vectors <- embed (map embedding_text_of cs) ;;
      pairs <- zip_strict cs vectors ;;
      external (MilvusUpsert "manual"
        (map (fun cv => vector_row mf generation (fst cv) (snd cv)) pairs)) ;;;
      ret (IDX_INDEXED, None))
    (fun e => ret (IDX_FAILED, Some (code_or_name e)))
  else ret (IDX_DEGRADED, Some "EMBEDDING_UNAVAILABLE").

(** [retrieval/ingestion/service.py:49-195 DocumentIngestionService.ingest] *)
Definition ingest_new (mf : DocumentManifest) (content checksum : string)
  : M World exn IngestionResult :=
  let object_key := mf_doc_id mf +:+ "/" +:+ mf_version mf +:+ "/" +:+ checksum +:+ "/"
                    +:+ mf_document_name mf in
  generation <- new_id ;;
  external (PutObject object_key content (mf_content_type mf)) ;;;
  blocks <- from_outcome (parse_document (mf_document_name mf) content) ;;
  guard (list_true blocks) (Domain DocumentParseError []) ;;;
  let cs := chunk_blocks (mf_doc_id mf) (mf_version mf) blocks in
  index_request <- ingest_request mf generation ;;
  jid <- create_pending (ic_index_repository cfg) mf object_key checksum cs generation index_request ;;
  match index_request with
  | Some _ =>
      ret (mkIngestion (mf_doc_id mf) (mf_version mf) object_key checksum (length cs) IDX_QUEUED
             false jid)
  | None =>
      st <- index_chunks mf generation cs ;;
      set_index_status (mf_doc_id mf) (mf_version mf) (fst st) (snd st) ;;;
      ret (mkIngestion (mf_doc_id mf) (mf_version mf) object_key checksum (length cs) (fst st)
             false None)
  end.

(** [retrieval/ingestion/service.py:49-195 DocumentIngestionService.ingest] *)
Definition ingest (mf : DocumentManifest) (content : string) : M World exn IngestionResult :=
  guard (Z.of_nat (String.length content) <=? ic_max_bytes cfg) (Domain DocumentTooLargeError []) ;;;
  let checksum := sha256 content in
  existing <- find_document (mf_doc_id mf) (mf_version mf) ;;
  match existing with
  | Some d =>
      guard (bool_decide (d_file_sha256 d = checksum)) (Domain DocumentHashConflictError []) ;;;
      ret (mkIngestion (mf_doc_id mf) (mf_version mf) (d_object_key d) checksum (d_chunk_count d)
             (d_index_status d) true None)
  | None => ingest_new mf content checksum
  end.

(** ** Tickets *)

(** The tickets an indexing run reads, in the order the database returns them. *)
Definition verified_tickets (w : World) : list MaintenanceTicket :=
  filter (fun t => is_verified t = true) (map snd (map_to_list (tickets w))).

(** [retrieval/ingestion/index_tickets.py:30-168 run]: one ticket of the queued
    mode; the result counts it. *)
Definition queue_ticket (t : MaintenanceTicket) : M World exn nat :=
  generation <- new_id ;;
  atomically (
    row <- gets (fun w => tickets w !! ticket_id t) ;;
    match row with
    | None => ret 0%nat
    | Some current =>
        if negb (is_verified current) then ret 0%nat
        else
          now <- utc_now ;;
          modify (fun w => w <| tickets ::= <[ticket_id t :=
            current <| t_index_generation := Some generation |> <| t_index_status := IDX_QUEUED |>
                    <| t_index_error_code := None |> <| t_updated_at := now |>]> |>) ;;;
          guard ((1 <=? ic_max_attempts cfg) && (ic_max_attempts cfg <=? 20)) ValidationError ;;;
          add_job (mkJobCreate MAINTENANCE_TICKET (ticket_id current) generation UPSERT
            ("ticket-index-" +:+ generation) (ticket_id current) generation (ic_max_attempts cfg)) ;;;
          ret 1%nat
    end).

(** [retrieval/ingestion/index_tickets.py:30-168 run] *)
Definition queue_tickets : M World exn nat :=
  new_id ;;;
  ts <- gets verified_tickets ;;
  counts <- map_m queue_ticket ts ;;
  ret (foldr Nat.add 0%nat counts).

(** [retrieval/ingestion/index_tickets.py:129-144 rows] *)
Definition ticket_vector (generation : string) (t : MaintenanceTicket) (v : Z) : VectorRow :=
  mkVectorRow (ticket_id t) (ticket_id t) "" (t_device_model t) (or_empty (t_manufacturer t))
    (t_alarm_name t) generation None true true
    (Some (default 0 (epoch_seconds <$> close_time t))) v.

(** [retrieval/ingestion/index_tickets.py:30-168 run]: the synchronous mode. *)
Definition index_tickets : M World exn nat :=
  generation <- new_id ;;
  ts <- gets verified_tickets ;;
  let texts := map ticket_text ts in
  vectors <- (if list_true texts then embed texts else ret []) ;;
  pairs <- zip_strict ts vectors ;;
  external (MilvusUpsert "ticket" (map (fun tv => ticket_vector generation (fst tv) (snd tv)) pairs)) ;;;
  now <- utc_now ;;
  atomically (for_each (fun t => modify (fun w => w <| tickets ::= alter (fun x =>
    x <| t_embedding_text := Some (ticket_text t) |> <| t_index_status := IDX_INDEXED |>
      <| t_index_error_code := None |> <| t_indexed_at := Some now |> <| t_updated_at := now |>)
    (ticket_id t) |>)) ts) ;;;
  ret (length ts).
End Service.
