(* ===== verification/System.v ===== *)
(** * The system

    All writers of the case tables and of the job tables together: the case
    service, the index worker, the outbox publisher, the job API and the ingestion
    of manuals and tickets.  Every
    sequence of their operations keeps the case invariant and the job
    invariant, and adds to the history. *)

From S2P Require Import Prelude Errors Json Float Contracts Store Timeline IndexRepo.
From S2P Require Import Sessions.
From S2P Require Import CaseRepo CaseHistory CaseApp CaseInv CaseSafety IndexHandlers Consumer.
From S2P Require Import Chunking Ingestion.
Open Scope Z_scope.

(** ** The worker and the case tables *)

Section Worker.
Context `{Env} (hc : HandlerConfig).

Lemma respects_zip_strict R `{!PreOrder R} {A B} (l : list A) (l' : list B) :
  respects (S := World) R (zip_strict l l').
Proof. revert l'. induction l as [|x l IH]; intros [|y l']; simpl; respect. Qed.
Hint Resolve respects_zip_strict : pres.

Lemma modify_tables R `{!CaseFramed R} f :
  (forall w, cases (f w) = cases w /\ case_events (f w) = case_events w) ->
  respects R (modify (E := exn) f).
Proof. intros Hf. apply respects_same_tables; [done|]. by apply respects_modify. Qed.

Lemma update_ticket_tables R `{!CaseFramed R} tid f :
  respects R (modify (E := exn) (update_ticket tid f)).
Proof.
  apply modify_tables; [done|]. intros w. unfold update_ticket.
  destruct (tickets w !! tid) as [t|]; [|done]. by destruct (is_verified t).
Qed.
Hint Resolve update_ticket_tables : pres.

Hint Extern 3 (respects _ (modify _)) =>
  apply modify_tables; [typeclasses eauto|intros ?; split; reflexivity] : pres.

Lemma respects_projection R `{!CaseFramed R} e st code : respects R (projection e st code).
Proof. unfold projection. respect. Qed.
Hint Resolve respects_projection : pres.

Lemma respects_project_graph R `{!CaseFramed R} e c : respects R (project_graph hc e c).
Proof. unfold project_graph, project_case_graph. respect. Qed.
Hint Resolve respects_project_graph : pres.

Lemma respects_worker_text R `{!Clocked R} c : respects R (worker_text c).
Proof. unfold worker_text. respect. Qed.
Hint Resolve respects_worker_text : pres.

Lemma manual_tables R `{!CaseFramed R} e : respects R (manual e).
Proof. unfold manual, permanent, stale. respect. Qed.

Lemma ticket_tables R `{!CaseFramed R} e : respects R (ticket e).
Proof. unfold ticket, permanent, stale, first_vector. respect. Qed.

(** The history of the worker's writes. *)
Lemma set_case_index_history cid st b text :
  respects case_history_of (set_case_index cid st b text).
Proof.
  unfold set_case_index. respect. apply respects_modify. intros w.
  unfold update_case. destruct (cases w !! cid) as [c|] eqn:Hc; [|reflexivity].
  eapply history_put; [done|]. destruct text; (split; [done|apply rtc_refl|done]).
Qed.
Hint Resolve set_case_index_history : pres.

Lemma queue_superseded_history e old :
  respects case_history_of (queue_superseded_case hc e old).
Proof.
  unfold queue_superseded_case. respect_step; [respect|]. follow.
  apply from_weaken with (Q := fun w => cases w !! old = Some d); [|by intros w []].
  apply put_history; [|respect]. apply negb_false_iff, bool_decide_eq_true in Heqb.
  split; [done| |done]. simpl. rewrite Heqb. by apply moves_edge.
Qed.
Hint Resolve queue_superseded_history : pres.

Lemma handle_history e : respects case_history_of (handle hc e).
Proof.
  unfold handle, handle_case, case_tombstone, case_upsert, permanent, stale, first_vector.
  respect; [apply manual_tables|apply ticket_tables]; apply _.
Qed.

Lemma handle_batch_history es : respects case_history_of (handle_batch hc es).
Proof.
  unfold handle_batch, ticket_batch, case_batch, handle_each, permanent, stale. respect.
  all: apply handle_history.
Qed.

(** The invariant: the worker activates only what is approved. *)
Lemma index_row_inv w cid st b text now :
  (b = true -> st ∈ [IDX_INDEXED; IDX_DEGRADED] /\ approved cid w) ->
  case_inv w -> case_inv (update_case cid (index_row st b text now) w).
Proof.
  intros Hb Hi. unfold update_case. destruct (cases w !! cid) as [c|] eqn:Hc; [|done].
  eapply case_inv_put with (l := []); [done|by rewrite app_nil_r| |done].
  rewrite app_nil_r. apply (case_ok_same _ _ c); [by apply Hi|by destruct text..|].
  intros Ht. assert (b = true) as [Hst (c0 & Hc0 & Hap)]%Hb by by destruct text.
  split; [congruence|by destruct text].
Qed.

Lemma set_case_index_off cid st text :
  respects (keeps case_inv) (set_case_index cid st false text).
Proof.
  unfold set_case_index. respect. apply respects_modify. intros w Hi.
  eapply index_row_inv; [discriminate|exact Hi].
Qed.
Hint Resolve set_case_index_off : pres.

Lemma set_case_index_on cid st text :
  st ∈ [IDX_INDEXED; IDX_DEGRADED] ->
  from (approved cid) (keeps case_inv) (set_case_index cid st true text).
Proof.
  intros Hst. unfold set_case_index. follow. intros w Hap Hi.
  eapply (index_row_inv w); [by split|exact Hi].
Qed.

Lemma queue_superseded_inv e old :
  respects (keeps case_inv) (queue_superseded_case hc e old).
Proof.
  unfold queue_superseded_case. respect_step; [respect|]. follow.
  apply from_weaken with (Q := fun w => cases w !! old = Some d); [|by intros w []].
  apply put_inv; [|respect]. apply negb_false_iff, bool_decide_eq_true in Heqb.
  intros w Hi Hc. destruct (Hi _ _ Hc) as [K A C P]. rewrite Heqb in C, P.
  split; simpl; [done|done| |].
  - intros _. apply (complete_content d); [done|done|]. by apply C.
  - intros _. by apply P.
Qed.
Hint Resolve queue_superseded_inv : pres.

#[local] Instance approved_framed cid : CaseFramed (keeps (approved cid)).
Proof. split; [apply _|]. intros w w' [E _] (c & Hc & Hs). exists c. by rewrite E. Qed.

Lemma case_upsert_inv e c :
  from (fun w => cases w !! m_entity_id e = Some c) (keeps case_inv) (case_upsert hc e c).
Proof.
  unfold case_upsert, first_vector. apply from_guard; [apply _|].
  intros Hst%bool_decide_eq_true.
  apply from_weaken with (Q := approved (m_entity_id e)); [|by intros w Hc; exists c].
  follow. apply from_bind_last; [apply _| |intros ?; respect].
  apply set_case_index_on. destruct a3; set_solver.
Qed.

Lemma handle_inv e : respects (keeps case_inv) (handle hc e).
Proof.
  unfold handle. destruct (m_entity_type e);
    [apply manual_tables, _|apply ticket_tables, _| |respect].
  unfold handle_case, permanent, case_tombstone, stale.
  apply respects_from, from_gets; [apply _|]. intros [c|]; [|apply from_respects; respect].
  apply from_guard; [apply _|]. intros _.
  destruct (bool_decide (m_operation e = TOMBSTONE)); [apply from_respects; respect|].
  eapply from_weaken; [apply case_upsert_inv|]. by intros w [].
Qed.
End Worker.

(** The consumer and the job API. *)
Section Consumer.
Context `{Env} (cc : ConsumerConfig).

(** Failing the job of a case changes the row of the case in place; other
    entities leave the case tables alone. *)
Lemma fail_entity_tables R `{!CaseFramed R} r code :
  (forall c now,
    from (fun w => cases w !! jc_entity_id r = Some c) R (modify (E := exn) (put_case (jc_entity_id r)
      (c <| index_status := IDX_FAILED |> <| index_error_code := Some code |>
         <| is_active := false |> <| updated_at := now |>)))) ->
  respects R (fail_entity r code).
Proof.
  intros Hc. unfold fail_entity.
  destruct (jc_entity_type r); [| | |respect].
  - respect. apply modify_tables; [done|by intros].
  - respect. apply modify_tables; [done|by intros].
  - apply respects_from, from_gets; [apply _|]. intros [c|]; [|apply from_respects; respect].
    apply from_weaken with (Q := fun w => cases w !! jc_entity_id r = Some c); [|by intros w []].
    follow. apply Hc.
Qed.

Lemma fail_entity_history r code : respects case_history_of (fail_entity r code).
Proof.
  apply fail_entity_tables; [apply _|]. intros c now w Hc.
  eapply history_put; [exact Hc|]. split; [done|apply rtc_refl|done].
Qed.

Lemma fail_entity_inv r code : respects (keeps case_inv) (fail_entity r code).
Proof.
  apply fail_entity_tables; [apply _|]. intros c now w Hc Hi.
  eapply (case_inv_put w) with (l := []); [done|by rewrite app_nil_r| |exact Hi].
  rewrite app_nil_r. by apply (case_ok_same _ _ c); [apply Hi|..].
Qed.

Lemma job_tables R `{!CaseFramed R} :
  (forall r code, respects R (fail_entity r code)) ->
  (forall e, respects R (handle (handlers cc) e)) ->
  (forall d, respects R (consume cc d)) /\ (forall n, respects R (publish_once cc n))
  /\ (forall jid t, respects R (retry jid t)).
Proof.
  intros Hf Hh.
  assert (Hm : forall f, (forall w, cases (f w) = cases w /\ case_events (f w) = case_events w) ->
    respects R (modify (E := exn) f)) by (intros; by apply modify_tables).
  split_and!.
  - intros d. unfold consume, process, complete_job, on_stale, on_error, start, finish, fail,
      throw. respect; apply Hm; by intros.
  - intros n. unfold publish_once, publish_row, pending_outbox, mark_published,
      mark_publish_failed. respect; apply Hm; by intros.
  - intros jid t. unfold retry. respect; apply Hm; by intros.
Qed.
End Consumer.

(** ** Ingestion and the case tables *)

Section IngestionTables.
Context `{Env} R `{!CaseFramed R}.

#[local] Hint Extern 3 (respects _ (modify _)) =>
  apply modify_tables; [typeclasses eauto|intros ?; split; reflexivity] : pres.

Lemma add_job_framed r : respects R (add_job r).
Proof. unfold add_job, validate_attempts. respect. Qed.
Hint Resolve add_job_framed : pres.

Lemma create_pending_tables ir mf key sum cs gen rq :
  respects R (create_pending ir mf key sum cs gen rq).
Proof. unfold create_pending, insert_rows. destruct rq; respect. Qed.

Lemma queue_ticket_tables ic t : respects R (queue_ticket ic t).
Proof. unfold queue_ticket. respect. Qed.
End IngestionTables.

(** ** The job tables *)

Lemma modify_jobs f :
  (forall w, jobs (f w) = jobs w /\ outbox (f w) = outbox w) ->
  respects (keeps jobs_wf) (modify (E := exn) f).
Proof.
  intros Hf. apply respects_modify. intros w W. destruct (Hf w).
  by eapply jobs_wf_ext; [..|exact W].
Qed.

#[local] Hint Resolve add_job_wf finish_wf fail_wf start_wf retry_wf mark_publish_failed_wf : pres.
#[local] Hint Extern 3 (respects (keeps jobs_wf) (modify _)) =>
  apply modify_jobs; intros ?; split; reflexivity : pres.
#[local] Hint Resolve respects_zip_strict : pres.

Section Jobs.
Context `{Env} (cfg : CaseConfig).

(** The case service queues valid requests only. *)
Definition valid_if (o : option IndexJobCreate) : Prop :=
  match o with Some rq => valid_request rq | None => True end.

Lemma index_request_valid c op : yields valid_request (index_request cfg c op).
Proof.
  unfold index_request. apply yields_bind. intros trace.
  unfold guard. destruct ((1 <=? index_max_attempts cfg) && _) eqn:Hm.
  - apply yields_bind. intros _. apply yields_ret. unfold valid_request. simpl.
    apply andb_true_iff in Hm as [H1%Z.leb_le H2%Z.leb_le]. lia.
  - intros s s' a Hr. discriminate Hr.
Qed.

Lemma request_if_valid b c op : yields valid_if (request_if cfg b c op).
Proof.
  unfold request_if. destruct b; [|by apply yields_ret].
  intros s s' o Hr. apply bind_ok_inv in Hr as (r & s1 & Hr1 & Hr2).
  injection Hr2 as _ <-. by eapply index_request_valid.
Qed.

Lemma transition_jobs ir a : valid_if (a_index_request a) ->
  respects (keeps jobs_wf) (transition ir a).
Proof.
  intros Hv. unfold transition, transition_tx, throw, insert_event.
  destruct (a_index_request a) as [rq|]; respect; by apply modify_jobs.
Qed.

Lemma create_jobs values : respects (keeps jobs_wf) (create values).
Proof. unfold create. respect. Qed.

Lemma set_index_jobs cid st code text b :
  respects (keeps jobs_wf) (set_index cid st code text b).
Proof. unfold set_index, throw. respect; by apply modify_jobs. Qed.

Lemma append_event_jobs x1 x2 x3 x4 x5 x6 x7 x8 x9 x10 :
  respects (keeps jobs_wf) (append_event x1 x2 x3 x4 x5 x6 x7 x8 x9 x10).
Proof. unfold append_event, insert_event. respect. Qed.
Hint Resolve create_jobs set_index_jobs append_event_jobs : pres.

Lemma index_case_jobs c actor p : respects (keeps jobs_wf) (index_case cfg c actor p).
Proof. unfold index_case. respect. Qed.
Lemma tombstone_case_jobs c actor p : respects (keeps jobs_wf) (tombstone_case cfg c actor p).
Proof. unfold tombstone_case. respect. Qed.
Hint Resolve index_case_jobs tombstone_case_jobs : pres.

(** A transition with the request built just before. *)
Lemma request_then_jobs {A} b c op (k : option IndexJobCreate -> M World exn A) :
  (forall o, valid_if o -> respects (keeps jobs_wf) (k o)) ->
  respects (keeps jobs_wf) (bind (request_if cfg b c op) k).
Proof.
  intros Hk. apply (respects_bind_yields _ valid_if); [apply request_if_valid|respect|done].
Qed.

Lemma supersede_jobs cid actor : respects (keeps jobs_wf) (supersede cfg cid actor).
Proof.
  unfold supersede. respect_step; [respect|]. respect_step; [respect|].
  apply request_then_jobs. intros o Ho. respect. by apply transition_jobs.
Qed.
Hint Resolve supersede_jobs : pres.

Lemma review_case_jobs cid q actor key :
  respects (keeps jobs_wf) (review_case cfg cid q actor key).
Proof.
  unfold review_case. respect_step; [respect|]. respect_step; [respect|].
  respect_step; [respect|]. cbv zeta. apply request_then_jobs. intros o Ho.
  respect. by apply transition_jobs.
Qed.

Lemma disable_jobs cid reason actor key :
  respects (keeps jobs_wf) (disable cfg cid reason actor key).
Proof.
  unfold disable. respect_step; [respect|]. respect_step; [respect|].
  apply request_then_jobs. intros o Ho. respect. by apply transition_jobs.
Qed.

Lemma submit_jobs cid actor key : respects (keeps jobs_wf) (submit cfg cid actor key).
Proof. unfold submit. respect. by apply transition_jobs. Qed.
Hint Resolve submit_jobs : pres.

Lemma patch_jobs cid us actor : respects (keeps jobs_wf) (patch cid us actor).
Proof. unfold patch, update_draft, throw. respect; by apply modify_jobs. Qed.

Lemma revision_jobs cid us b actor key :
  respects (keeps jobs_wf) (revision cfg cid us b actor key).
Proof. unfold revision, revise. respect. Qed.

Lemma queue_index_jobs ir cid rq x1 x2 x3 x4 x5 x6 : valid_request rq ->
  respects (keeps jobs_wf) (queue_index ir cid rq x1 x2 x3 x4 x5 x6).
Proof. intros Hv. unfold queue_index, insert_event, throw. respect; by apply modify_jobs. Qed.

Lemma reindex_jobs cid actor key : respects (keeps jobs_wf) (reindex cfg cid actor key).
Proof.
  unfold reindex. respect_step; [respect|]. cbv zeta. respect_step; [respect|].
  match goal with |- respects _ (match ?ev with _ => _ end) => destruct ev as [[h x]|] end;
    [respect|]. respect_step; [respect|].
  destruct (bool_decide (index_execution_mode cfg = "rabbitmq")); [|respect].
  apply (respects_bind_yields _ valid_request); [apply index_request_valid|respect|].
  intros rq Hrq. respect. by apply queue_index_jobs.
Qed.

Lemma review_diagnosis_jobs sid q actor key :
  respects (keeps jobs_wf) (review_diagnosis cfg sid q actor key).
Proof.
  unfold review_diagnosis, recorder_append, review_append, create_draft, session_update_row,
    review_timeline, timeline_append, timeline_insert, throw.
  respect.
Qed.

(** The worker. *)
Lemma handle_jobs hc e : respects (keeps jobs_wf) (handle hc e).
Proof.
  assert (Ht : forall tid f, respects (keeps jobs_wf) (modify (E := exn) (update_ticket tid f))).
  { intros tid f. apply modify_jobs. intros w. unfold update_ticket.
    destruct (tickets w !! tid) as [t|]; [|done]. by destruct (is_verified t). }
  assert (Hc : forall cid f, respects (keeps jobs_wf) (modify (E := exn) (update_case cid f))).
  { intros cid f. apply modify_jobs. intros w. unfold update_case. by destruct (cases w !! cid). }
  assert (Ha : forall x y z t c a, respects (keeps jobs_wf)
    (add_job (mkJobCreate x y z TOMBSTONE t c a 3))).
  { intros. apply add_job_wf. unfold valid_request. simpl. lia. }
  unfold handle, manual, ticket, handle_case, case_tombstone, case_upsert, worker_text,
    project_graph, project_case_graph, queue_superseded_case, projection, set_case_index,
    first_vector, permanent, stale.
  respect; auto.
Qed.
Hint Resolve handle_jobs : pres.

Lemma process_jobs cc e : respects (keeps jobs_wf) (process cc e).
Proof.
  unfold process. apply (respects_bind_yields _ (fun r => job_done (hr_status r) = true));
    [apply handle_done|respect|].
  intros r Hd. unfold complete_job. respect. apply finish_wf. by intros E; rewrite E in Hd.
Qed.
Hint Resolve process_jobs : pres.

Lemma consume_jobs cc d : respects (keeps jobs_wf) (consume cc d).
Proof.
  unfold consume, on_stale, on_error. respect. by apply finish_wf.
Qed.

(** Ingestion. *)
Lemma create_pending_jobs ir mf key sum cs gen rq : valid_if rq ->
  respects (keeps jobs_wf) (create_pending ir mf key sum cs gen rq).
Proof.
  intros Hv. unfold create_pending, insert_rows. destruct rq as [r|]; respect.
Qed.

Lemma queue_ticket_jobs ic t : respects (keeps jobs_wf) (queue_ticket ic t).
Proof.
  unfold queue_ticket. respect_step; [respect|]. apply respects_atomically; [apply _|].
  respect_step; [respect|].
  destruct a0 as [current|]; [|respect]. destruct (negb _); [respect|].
  respect_step; [respect|]. respect_step; [respect|].
  apply respects_from, from_guard; [apply _|]. intros Hm. apply from_respects. respect.
  apply add_job_wf. unfold valid_request. simpl.
  apply andb_true_iff in Hm as [H1%Z.leb_le H2%Z.leb_le]. lia.
Qed.

(** The rows the publisher read are still those of the table: rows keep their
    id and their job. *)
Definition knows (rows : list OutboxRow) (w : World) : Prop :=
  jobs_wf w /\ forall o, o ∈ rows ->
    exists o', o' ∈ outbox w /\ ob_id o' = ob_id o /\ ob_job_id o' = ob_job_id o.

Lemma knows_update rows oid f w w' :
  jobs_wf w' -> (forall o, ob_id (f o) = ob_id o /\ ob_job_id (f o) = ob_job_id o) ->
  outbox w' = outbox w \/ outbox w' = outbox (update_outbox oid f w) ->
  knows rows w -> knows rows w'.
Proof.
  intros W' Hf Hout [_ Hk]. split; [done|]. intros o Ho.
  destruct (Hk o Ho) as (o' & Hin & Hid & Hjid).
  destruct Hout as [-> | ->]; [by exists o'|]. simpl.
  eexists. split; [by apply list_elem_of_fmap_2|]. destruct (Hf o'). by case_bool_decide; split; congruence.
Qed.

#[local] Instance knows_framed rows : Framed (keeps (knows rows)).
Proof.
  apply framed_keeps; intros w; intros;
    match goal with HK : knows _ _ |- _ => destruct HK as [W Hk] end;
    (split; [by eapply jobs_wf_ext; [..|exact W]|exact Hk]).
Qed.

Lemma knows_pairing rows o w o1 : o ∈ rows -> knows rows w ->
  find_outbox (ob_id o) w = Some o1 -> ob_job_id o1 = ob_job_id o.
Proof.
  intros Ho [W Hk] [Hin1 Hid1]%find_first_Some. apply bool_decide_eq_true in Hid1.
  destruct (Hk o Ho) as (o' & Hin & Hid & <-).
  apply list_elem_of_lookup in Hin as [k Hl], Hin1 as [k1 Hl1].
  pose proof (wf_outbox _ W _ _ Hl). pose proof (wf_outbox _ W _ _ Hl1).
  assert (k = k1) as -> by lia. congruence.
Qed.

Lemma mark_published_knows rows o : o ∈ rows ->
  respects (keeps (knows rows)) (mark_published (ob_id o) (ob_job_id o)).
Proof.
  intros Ho w Hk. assert (W' : jobs_wf (fst (mark_published (ob_id o) (ob_job_id o) w))).
  { apply mark_published_wf; [|by destruct Hk]. intros o1. by eapply knows_pairing. }
  revert W'. rewrite mark_published_run. intros W'.
  refine (knows_update _ _ _ w _ W' _ _ Hk).
  2: { unfold published_row. destruct (find_outbox _ _); [case_bool_decide|].
       - right. unfold update_outbox. simpl. by rewrite queued_job_outbox.
       - left. by rewrite queued_job_outbox.
       - left. by rewrite queued_job_outbox. }
  by intros.
Qed.

Lemma mark_publish_failed_knows rows oid code :
  respects (keeps (knows rows)) (mark_publish_failed oid code).
Proof.
  intros w Hk. pose proof (mark_publish_failed_wf oid code w (proj1 Hk)) as W'.
  revert W'. unfold mark_publish_failed, atomically, bind, gets, utc_now, modify.
  destruct (find_outbox oid w); simpl; intros W'; [|done].
  refine (knows_update _ _ _ w _ W' _ (or_intror eq_refl) Hk). by intros.
Qed.
Hint Resolve mark_publish_failed_knows : pres.

Lemma publish_once_jobs cc n : respects (keeps jobs_wf) (publish_once cc n).
Proof.
  intros w W. unfold publish_once, bind at 1, pending_outbox, gets.
  set (rows := take n _).
  assert (Hk : knows rows w).
  { split; [done|]. intros o Ho. exists o. split; [|done].
    apply elem_of_take in Ho as (i & Hi & _). apply list_elem_of_lookup_2 in Hi.
    by apply list_elem_of_filter in Hi as [_ ?]. }
  assert (Hm : forall l, (forall o, o ∈ l -> o ∈ rows) ->
    respects (keeps (knows rows)) (map_m (publish_row cc) l)).
  { induction l as [|o l IH]; intros Hl; simpl; [respect|].
    respect_step; [|respect_step; [apply IH; intros; apply Hl; by right|respect]].
    unfold publish_row. respect. apply mark_published_knows, Hl. by left. }
  assert (Hr : respects (keeps (knows rows))
    (counts <- map_m (publish_row cc) rows ;; ret (foldr Nat.add 0%nat counts))).
  { respect_step; [by apply Hm|respect]. }
  apply (Hr w Hk).
Qed.
End Jobs.

(** ** Sequences of operations *)

(** One operation of one of the writers; [sys_other] is anything the other
    components do, which leaves the four tables alone. *)
Inductive sys_op `{Env} (cfg : CaseConfig) (cc : ConsumerConfig) : World -> World -> Prop :=
| sys_review_diagnosis w sid q actor key :
    sys_op cfg cc w (fst (review_diagnosis cfg sid q actor key w))
| sys_patch w cid us actor : Forall (fun u => patchable u = true) us ->
    sys_op cfg cc w (fst (patch cid us actor w))
| sys_submit w cid actor key : sys_op cfg cc w (fst (submit cfg cid actor key w))
| sys_review_case w cid q actor key : sys_op cfg cc w (fst (review_case cfg cid q actor key w))
| sys_disable w cid reason actor key : sys_op cfg cc w (fst (disable cfg cid reason actor key w))
| sys_revision w cid us b actor key : Forall (fun u => patchable u = true) us ->
    sys_op cfg cc w (fst (revision cfg cid us b actor key w))
| sys_reindex w cid actor key : sys_op cfg cc w (fst (reindex cfg cid actor key w))
| sys_consume w d : sys_op cfg cc w (fst (consume cc d w))
| sys_publish w n : sys_op cfg cc w (fst (publish_once cc n w))
| sys_retry w jid trace : sys_op cfg cc w (fst (retry jid trace w))
| sys_create_pending w ir mf key sum cs gen rq : valid_if rq ->
    sys_op cfg cc w (fst (create_pending ir mf key sum cs gen rq w))
| sys_queue_ticket w ic t : sys_op cfg cc w (fst (queue_ticket ic t w))
| sys_other w w' : same_tables w w' -> jobs w' = jobs w -> outbox w' = outbox w ->
    sys_op cfg cc w w'.

Section Sequences.
Context `{Env} (cfg : CaseConfig) (cc : ConsumerConfig).

Lemma sys_op_history w w' : sys_op cfg cc w w' -> case_history_of w w'.
Proof.
  destruct (job_tables cc case_history_of fail_entity_history (handle_history (handlers cc)))
    as (Hc & Hp & Hr).
  intros []; [apply review_diagnosis_history|apply patch_history|apply submit_history
    |apply review_case_history|apply disable_history|apply revision_history
    |apply reindex_history|apply Hc|apply Hp|apply Hr
    |apply create_pending_tables, _|apply queue_ticket_tables, _|by apply framed_tables].
Qed.

Lemma sys_ops_history w w' : rtc (sys_op cfg cc) w w' -> case_history_of w w'.
Proof. induction 1; [reflexivity|]. etransitivity; [by apply sys_op_history|done]. Qed.

Lemma sys_op_inv w w' : sys_op cfg cc w w' -> case_inv w -> case_inv w'.
Proof.
  destruct (job_tables cc (keeps case_inv) fail_entity_inv (handle_inv (handlers cc)))
    as (Hc & Hp & Hr).
  intros []; [apply review_diagnosis_inv|by apply patch_inv|apply submit_inv
    |apply review_case_inv|apply disable_inv|by apply revision_inv
    |apply reindex_inv|apply Hc|apply Hp|apply Hr
    |apply (create_pending_tables (keeps case_inv))|apply (queue_ticket_tables (keeps case_inv))|by apply (framed_tables (R := keeps case_inv))].
Qed.

Lemma sys_op_jobs w w' : sys_op cfg cc w w' -> jobs_wf w -> jobs_wf w'.
Proof.
  intros []; [apply review_diagnosis_jobs|apply patch_jobs|apply submit_jobs
    |apply review_case_jobs|apply disable_jobs|apply revision_jobs
    |apply reindex_jobs|apply consume_jobs|apply publish_once_jobs|apply retry_wf
    |by apply create_pending_jobs|apply queue_ticket_jobs
    |by apply jobs_wf_ext].
Qed.

Lemma sys_ops_keep w : rtc (sys_op cfg cc) empty_world w -> case_inv w /\ jobs_wf w.
Proof.
  assert (H0 : case_inv empty_world /\ jobs_wf empty_world).
  { split; [|apply jobs_wf_empty]. intros cid c Hc.
    change ((∅ : gmap string DiagnosisCase) !! cid = Some c) in Hc. by rewrite lookup_empty in Hc. }
  generalize dependent empty_world. intros w0 H0 Hr. revert H0.
  induction Hr as [|w1 w2 w3 Hs _ IH]; [done|]. intros [Hi W].
  apply IH. split; [by eapply sys_op_inv|by eapply sys_op_jobs].
Qed.
End Sequences.

(** ** A run of the system to evaluate with *)

Definition alice : ActorContext := mkActor "alice" OPERATOR.
Definition bob : ActorContext := mkActor "bob" REVIEWER.
Definition demo_config (mode : string) : CaseConfig := mkConfig true true true mode 3 true.

(** A completed session with a result. *)
Definition demo_session : DiagnosisSession :=
  mkSession "s1" ALARM None (Some "d1") None (Some "over temperature") COMPLETED None HIGH
    "t" "r1" (Some "alice") None 0 0.
Definition demo_result : DiagnosisResult :=
  mkResult "r1" "cabinet hot" ["fan failure"]
    [mkEvidence "e1" "device" "d1" "PCS" "" true (literal 1 1) (literal 1 1)
       None None None None None None None None false
       [("device_type", JStr "pcs"); ("device_model", JStr "PCS-1")]] ["power off"].
Definition demo_start : World :=
  empty_world <| sessions := {["s1" := demo_session]} |>
    <| results := {["s1" := demo_result]} |>.
Definition demo_review : DiagnosisReviewRequest :=
  mkReviewRequest CONFIRMED (Some "fan failure") ["replace fan"] None ["e1"] None None [].

Section Demo.
Context `{Env} (mode : string).
Definition demo_drafted : World :=
  fst (review_diagnosis (demo_config mode) "s1" demo_review alice (Some "k1") demo_start).
Definition demo_cid : string :=
  match map_to_list (cases demo_drafted) with (cid, _) :: _ => cid | [] => "" end.
Definition demo_submitted : World :=
  fst (submit (demo_config mode) demo_cid alice None demo_drafted).
Definition demo_approved : World :=
  fst (review_case (demo_config mode) demo_cid (mkCaseReview "approve" None) bob None
         demo_submitted).
Definition demo_disabled : World :=
  fst (disable (demo_config mode) demo_cid "obsolete" bob None demo_approved).

Lemma demo_reach :
  rtc (sys_op (demo_config mode) demo_consumer) empty_world demo_approved
  /\ rtc (sys_op (demo_config mode) demo_consumer) demo_approved demo_disabled.
Proof.
  split; [|eapply rtc_l; [apply sys_disable|apply rtc_refl]].
  eapply rtc_l; [by apply (sys_other _ _ _ demo_start)|].
  eapply rtc_l; [apply sys_review_diagnosis|]. eapply rtc_l; [apply sys_submit|].
  eapply rtc_l; [apply sys_review_case|apply rtc_refl].
Qed.
End Demo.

Example demo_synced :
  (fun c => (review_status c, index_status c, is_active c))
    <$> cases (@demo_approved (demo_env all_fine) "sync") !! @demo_cid (demo_env all_fine) "sync"
  = Some (APPROVED, IDX_INDEXED, true).
Proof. vm_compute. reflexivity. Qed.

(** ** The theorems *)

(** C6: whatever the case service, the worker and the publisher do, in any
    order: a case never disappears, keeps its id, version, origin and author,
    its status only moves along the graph draft, pending review, approved or
    rejected, disabled or superseded, what a reviewer judges is frozen once the
    draft is submitted, and the log of review events only grows. *)
Theorem case_lifecycle `{Env} cfg cc w w' cid c :
  rtc (sys_op cfg cc) w w' -> cases w !! cid = Some c ->
  exists c', cases w' !! cid = Some c' /\ identity c' = identity c
    /\ moves (review_status c) (review_status c')
    /\ (review_status c <> DRAFT -> content c' = content c)
    /\ exists l, case_events w' = case_events w ++ l.
Proof.
  intros [Hcs Hev]%sys_ops_history Hc. destruct (Hcs _ _ Hc) as (c' & Hc' & [? ? ?]).
  by exists c'.
Qed.

Lemma case_lifecycle_witness :
  let w := @demo_approved (demo_env all_fine) "sync" in
  let w' := @demo_disabled (demo_env all_fine) "sync" in
  exists c', cases w' !! @demo_cid (demo_env all_fine) "sync" = Some c'
    /\ moves APPROVED (review_status c') /\ exists l, case_events w' = case_events w ++ l.
Proof.
  destruct (cases (@demo_approved (demo_env all_fine) "sync")
    !! @demo_cid (demo_env all_fine) "sync") as [c|] eqn:Hc; [|vm_compute in Hc; discriminate Hc].
  destruct (@case_lifecycle (demo_env all_fine) (demo_config "sync") demo_consumer _ _ _ c
    (proj2 (@demo_reach (demo_env all_fine) "sync")) Hc) as (c' & Hc' & _ & Hm & _ & Hl).
  exists c'. split; [exact Hc'|]. split; [|exact Hl].
  replace APPROVED with (review_status c); [exact Hm|].
  vm_compute in Hc. injection Hc as <-. reflexivity.
Defined.

(** C3: four eyes.  In every state the system reaches, a case that is or was
    approved has a reviewer who is not its author, and the log holds that
    reviewer's approval, from pending review to approved. *)
Theorem approved_by_another `{Env} cfg cc w cid c :
  rtc (sys_op cfg cc) empty_world w -> cases w !! cid = Some c ->
  was_approved (review_status c) = true ->
  exists actor e, reviewer c = Some actor /\ actor <> created_by c
    /\ e ∈ case_events w /\ approval_event cid actor e.
Proof. intros [Hi _]%sys_ops_keep Hc. by apply (Hi _ _ Hc). Qed.


Lemma approved_by_another_witness :
  exists c actor, cases (@demo_approved (demo_env all_fine) "rabbitmq")
      !! @demo_cid (demo_env all_fine) "rabbitmq" = Some c
    /\ reviewer c = Some actor /\ actor <> created_by c.
Proof.
  destruct (cases (@demo_approved (demo_env all_fine) "rabbitmq")
    !! @demo_cid (demo_env all_fine) "rabbitmq") as [c|] eqn:Hc;
    [|vm_compute in Hc; discriminate Hc].
  destruct (@approved_by_another (demo_env all_fine) (demo_config "rabbitmq") demo_consumer _ _ c
    (proj1 (@demo_reach (demo_env all_fine) "rabbitmq")) Hc) as (actor & e & Hr & Hne & _).
  - vm_compute in Hc. injection Hc as <-. reflexivity.
  - exists c, actor. split; [reflexivity|]. split; [exact Hr|exact Hne].
Defined.


(** C5: the transactional outbox loses no job, and jobs are unique and
    bounded.  In every state the system reaches, each job that still waits to
    be sent has an unsent row in the outbox; an entity version has at most one
    job per operation; and no job is attempted more often than its limit. *)
Theorem no_job_lost `{Env} cfg cc w i j :
  rtc (sys_op cfg cc) empty_world w -> jobs w !! i = Some j ->
  (status j = JOB_PENDING ->
     exists o, o ∈ outbox w /\ ob_job_id o = i /\ publish_status o = OB_PENDING)
  /\ (forall i' j', jobs w !! i' = Some j' ->
     idempotency_key (request j') = idempotency_key (request j) -> i' = i)
  /\ attempt_count j <= jc_max_attempts (request j) <= 20.
Proof.
  intros [_ W]%sys_ops_keep Hj. split_and!.
  - by apply (wf_pending _ W).
  - intros i' j' Hj'. by eapply (wf_key _ W).
  - by eapply (wf_attempts _ W).
  - by apply (wf_max _ W _ _ Hj).
Qed.

Lemma no_job_lost_witness :
  exists i j o, jobs (@demo_approved (demo_env all_fine) "rabbitmq") !! i = Some j
    /\ o ∈ outbox (@demo_approved (demo_env all_fine) "rabbitmq") /\ ob_job_id o = i.
Proof.
  destruct (map_to_list (jobs (@demo_approved (demo_env all_fine) "rabbitmq"))) as [|[i j] l] eqn:Hl;
    [vm_compute in Hl; discriminate Hl|].
  assert (Hj : jobs (@demo_approved (demo_env all_fine) "rabbitmq") !! i = Some j).
  { apply elem_of_map_to_list. rewrite Hl. left. }
  destruct (@no_job_lost (demo_env all_fine) (demo_config "rabbitmq") demo_consumer _ i j
    (proj1 (@demo_reach (demo_env all_fine) "rabbitmq")) Hj) as (Hp & _ & _).
  destruct Hp as (o & Ho & Hid & _).
  - vm_compute in Hl. injection Hl as _ <- _. reflexivity.
  - exists i, j, o. split; [exact Hj|]. split; [exact Ho|exact Hid].
Defined.
