(* ===== verification/CaseProps.v ===== *)
(** * What the case operations do

    The behaviour of single operations of the case service and of the worker:
    replays, refusals, atomicity, and the corners where the code does not do
    what it means to. *)

From S2P Require Import Prelude Errors Json Contracts Store Timeline IndexRepo Sessions.
From S2P Require Import CaseRepo CaseHistory CaseApp CaseInv CaseSafety IndexHandlers Consumer.
From S2P Require Import System.
Open Scope Z_scope.

(** Nothing but the clock and the identifier supply moved. *)
Definition only_clock (w w' : World) : Prop :=
  exists t i, w' = w <| ticks := t |> <| ids := i |>.

#[export] Instance only_clock_preorder : PreOrder only_clock.
Proof.
  split; [intros w; exists (ticks w), (ids w); by destruct w|].
  intros w1 w2 w3 (t & i & ->) (t' & i' & ->). by exists t', i'.
Qed.

Lemma find_event_app cid key w e l :
  find_event cid key w = None -> case_events l = case_events w ++ [e] ->
  ev_case_id e = cid -> ev_idempotency_key e = Some key -> find_event cid key l = Some e.
Proof.
  unfold find_event. intros Hn -> He Hk. induction (case_events w) as [|d evs IH]; simpl in *.
  - by rewrite !bool_decide_true.
  - destruct (_ && _); [done|auto].
Qed.

Section Transition.
Context `{Env} (ir : bool).

(** A transition whose key is on record. *)
Lemma transition_replay a w c e key :
  a_idempotency_key a = Some key -> str_true key = true ->
  cases w !! a_case_id a = Some c -> find_event (a_case_id a) key w = Some e ->
  ev_request_hash e = a_request_hash a -> case_record c w = (w, Ok c) ->
  transition ir a w = (w, Ok (mkTransition c None true)).
Proof.
  intros Hk Ht Hc He Hh Hr. unfold transition, transition_tx, bind at 1, atomically.
  rewrite bind_gets. cbv beta. rewrite Hc, bind_gets. cbv beta. rewrite Hk. simpl.
  rewrite Ht, He, bind_guard, bool_decide_true by done.
  rewrite (bind_ok _ _ _ _ _ Hr). done.
Qed.

Lemma case_record_same c w : fst (case_record c w) = w.
Proof. unfold case_record. by destruct (_ && _). Qed.

Lemma case_record_any c w w' : snd (case_record c w) = snd (case_record c w').
Proof. unfold case_record. by destruct (_ && _). Qed.

(** What a transaction found and did about the key. *)
Lemma transition_tx_key a w w' r key :
  a_idempotency_key a = Some key -> str_true key = true ->
  transition_tx ir a w = (w', Ok r) ->
  if replayed r
  then exists e, find_event (a_case_id a) key w = Some e
         /\ ev_request_hash e = a_request_hash a
         /\ case_record (tr_case r) w = (w, Ok (tr_case r))
  else find_event (a_case_id a) key w = None.
Proof.
  intros Hk Ht. unfold transition_tx. intros Hrun%atomically_ok.
  run_step Hrun. run_step Hrun; [|done]. rewrite bind_gets in Hrun. cbv beta in Hrun.
  rewrite Hk in Hrun. simpl in Hrun. rewrite Ht in Hrun.
  destruct (find_event (a_case_id a) key w) as [e|] eqn:He.
  - run_step Hrun. run_step Hrun. pose proof (case_record_ok _ _ _ _ Hrun0) as [-> ->].
    run_inv Hrun. subst r w'. simpl. exists e. split; [done|]. split; [|done].
    by apply bool_decide_eq_true in Heqb.
  - run_step Hrun. rewrite bind_utc_now in Hrun. cbv beta in Hrun.
    rewrite bind_utc_now in Hrun. cbv beta in Hrun. run_step Hrun; [|done].
    run_step Hrun. run_step Hrun. apply bind_ok_inv in Hrun as (jid & s3 & _ & Hrun).
    run_inv Hrun. by subst r.
Qed.
End Transition.

(** C38: a transition with an idempotency key happens exactly once.  Whenever
    it succeeds, the same request sent again succeeds as a replay with the same
    case and changes nothing at all: no row, no event, no job, no reading of
    the clock. *)
Theorem transition_exactly_once `{Env} ir a w w1 r key :
  a_idempotency_key a = Some key -> str_true key = true ->
  transition ir a w = (w1, Ok r) ->
  transition ir a w1 = (w1, Ok (mkTransition (tr_case r) None true)).
Proof.
  intros Hk Ht Hr. destruct (transition_ok _ _ _ _ _ Hr) as (r' & Htx & Hcr & Hrp & _).
  pose proof (transition_tx_key _ _ _ _ _ _ Hk Ht Htx) as Hkey.
  rewrite Hcr. destruct (transition_tx_ok _ _ _ _ _ Htx) as
    [(Hf & _ & Hc & ->)|(Hf & c & c' & now & _ & Hr' & t & Hc & _ & Hcs & Hev)]; rewrite Hf in Hkey.
  - destruct Hkey as (e & He & Hh & Hrec). by eapply transition_replay.
  - eapply transition_replay; [done..| | | |].
    + by rewrite Hcs, lookup_insert_eq.
    + by eapply find_event_app.
    + done.
    + unfold transition in Hr. rewrite (bind_ok _ _ _ _ _ Htx), Hf in Hr. run_step Hr.
      pose proof (case_record_ok _ _ _ _ Hrun) as [-> ->]. run_inv Hr. by subst.
Qed.

Lemma transition_exactly_once_witness :
  let w := @demo_drafted (demo_env all_fine) "sync" in
  let a := mkArgs (@demo_cid (demo_env all_fine) "sync") DRAFT PENDING_REVIEW "alice" "operator"
             "case.submitted" "t" "h" (Some "k") None [] None in
  let w1 := fst (@transition (demo_env all_fine) true a w) in
  exists r, @transition (demo_env all_fine) true a w1 = (w1, Ok r) /\ replayed r = true.
Proof.
  cbv zeta. set (a := mkArgs _ _ _ _ _ _ _ _ _ _ _ _).
  destruct (@transition (demo_env all_fine) true a (@demo_drafted (demo_env all_fine) "sync"))
    as [w1 [r|ex]] eqn:Hr; [|vm_compute in Hr; discriminate Hr].
  pose proof (@transition_exactly_once (demo_env all_fine) true a _ _ _ "k" eq_refl eq_refl Hr) as Ht.
  eexists. split; [exact Ht|]. reflexivity.
Defined.

(** ** All or nothing *)

Section Atomic.
Context `{Env} (ir : bool).

Lemma add_job_stored rq w w' j : jobs_wf w -> add_job rq w = (w', Ok j) ->
  jobs w' !! job_id j = Some j /\ idempotency_key (request j) = idempotency_key rq.
Proof.
  intros W. unfold add_job. rewrite bind_gets. cbv beta.
  destruct (job_of_key (idempotency_key rq) w) as [j0|] eqn:Hk.
  - unfold validate_attempts. destruct (_ <? _); intros Hr; [discriminate Hr|].
    injection Hr as <- <-. apply job_of_key_Some in Hk as (Hk & i & Hi).
    split; [|done]. by rewrite (wf_id _ W _ _ Hi).
  - intros Hr. rewrite bind_utc_now in Hr. cbv beta in Hr. run_step Hr. run_step Hr.
    run_step Hr; [discriminate Hr|]. run_step Hr. run_inv Hr. subst w' j. simpl.
    by rewrite lookup_insert_eq.
Qed.

Lemma transition_tx_job a rq w w' r : jobs_wf w -> a_index_request a = Some rq ->
  transition_tx ir a w = (w', Ok r) -> replayed r = false ->
  exists j, tr_job_id r = Some (job_id j) /\ jobs w' !! job_id j = Some j
    /\ idempotency_key (request j) = idempotency_key rq.
Proof.
  intros W Hrq. unfold transition_tx. intros Hrun%atomically_ok Hf.
  run_step Hrun. run_step Hrun; [|done]. run_step Hrun. run_step Hrun.
  { run_step Hrun. run_step Hrun. run_inv Hrun. by subst r. }
  run_step Hrun. rewrite bind_utc_now in Hrun. cbv beta in Hrun.
  rewrite bind_utc_now in Hrun. cbv beta in Hrun. run_step Hrun; [|done].
  run_step Hrun. run_step Hrun. rewrite Hrq in Hrun.
  apply bind_ok_inv in Hrun as (jid & s3 & Hj & Hrun). run_inv Hrun. subst r s3.
  run_step Hj. run_step Hj. run_inv Hj. subst.
  match goal with H1 : insert_event _ ?s = (?s1, _), H2 : add_job _ ?s1 = _ |- _ =>
    assert (W1 : jobs_wf s1); [|destruct (add_job_stored _ _ _ _ W1 H2)] end.
  { unfold insert_event in Hrun0. run_inv Hrun0. unfold modify in Hrun0. injection Hrun0 as <-.
    eapply jobs_wf_ext; [| |exact W]; done. }
  eexists. split; [done|]. done.
Qed.
End Atomic.

(** a transition is all or nothing.  Whatever its outcome, it either
    changes nothing but the clock, or the row in its new state, the event and -
    when it asks for one - the index job are all there, the job under the id it
    reports: no approval without its job, no job without its approval, and no
    step without its event. *)
Theorem transition_all_or_nothing `{Env} ir a w w' o :
  jobs_wf w -> transition ir a w = (w', o) ->
  only_clock w w'
  \/ exists c c', transition_written a w w' c c' /\ review_status c' = target a
     /\ (forall rq, a_index_request a = Some rq -> exists j, jobs w' !! job_id j = Some j
           /\ idempotency_key (request j) = idempotency_key rq
           /\ forall r, o = Ok r -> tr_job_id r = Some (job_id j)).
Proof.
  intros W Hr. unfold transition in Hr.
  destruct (transition_tx ir a w) as [w1 [r|e]] eqn:Htx.
  - rewrite (bind_ok _ _ _ _ _ Htx) in Hr.
    destruct (transition_tx_ok _ _ _ _ _ Htx) as
      [(Hf & _ & _ & ->)|(Hf & c & c' & now & Hu & Hc' & Ht)]; rewrite Hf in Hr.
    + injection Hr as <- _. left. reflexivity.
    + right. assert (Hw : w' = w1 /\ forall r', o = Ok r' -> tr_job_id r' = tr_job_id r).
      { unfold bind, case_record in Hr. destruct (_ && _); injection Hr as <- <-; [|done].
        split; [done|]. by intros r' [= <-]. }
      destruct Hw as [-> Ho]. exists c, (tr_case r). split; [done|].
      split; [by rewrite Hc'; simpl; apply setattrs_identity in Hu as (_ & -> & _)|].
      intros rq Hrq. destruct (transition_tx_job _ _ _ _ _ _ W Hrq Htx Hf) as (j & Hj & Hjs & Hk).
      exists j. split_and!; [done..|]. intros r' Hr'. by rewrite (Ho _ Hr').
  - rewrite (bind_raise _ _ _ _ _ Htx) in Hr. injection Hr as <- _. left.
    by apply atomically_raise in Htx.
Qed.

Lemma transition_all_or_nothing_witness :
  let w := @demo_drafted (demo_env all_fine) "sync" in
  let a := mkArgs (@demo_cid (demo_env all_fine) "sync") DRAFT PENDING_REVIEW "alice" "operator"
             "case.submitted" "t" "h" (Some "k") None [] (Some demo_request) in
  exists c c', transition_written a w (fst (@transition (demo_env all_fine) true a w)) c c'.
Proof.
  cbv zeta.
  assert (W : jobs_wf (@demo_drafted (demo_env all_fine) "sync")).
  { apply review_diagnosis_jobs. eapply jobs_wf_ext; [| |apply jobs_wf_empty]; reflexivity. }
  set (a := mkArgs _ _ _ _ _ _ _ _ _ _ _ _).
  destruct (@transition (demo_env all_fine) true a (@demo_drafted (demo_env all_fine) "sync"))
    as [w1 o] eqn:Hr.
  destruct (@transition_all_or_nothing (demo_env all_fine) true a _ w1 o W Hr)
    as [(t & i & Hw)|(c & c' & Ht & _)].
  - exfalso. assert (Hn : length (case_events w1) = 1%nat)
      by (change w1 with (fst (w1, o)); rewrite <- Hr; vm_compute; reflexivity).
    rewrite Hw in Hn. vm_compute in Hn. discriminate Hn.
  - exists c, c'. exact Ht.
Defined.
