(* ===== verification/ChunkingProps.v ===== *)
(** * What cutting a manual keeps

    The sections of a block carry its lines ([sections_keep_lines]); the chunks of
    a document cover its sections ([chunks_cover_sections]); how long a chunk gets
    ([piece_length]); chunks the code does not intend. *)

From S2P Require Import Prelude Errors Text Regex Store Scoring Rewrite Chunking.
Open Scope nat_scope.

(** ** White space *)

Lemma drop_while_nil p t : drop_while p t = [] <-> forallb p t = true.
Proof.
  induction t as [|x t IH]; simpl; [done|]. destruct (p x); simpl; [done|]. by split.
Qed.
Lemma drop_while_suffix p t : exists a, t = a ++ drop_while p t.
Proof.
  induction t as [|x t [a IH]]; simpl; [by exists []|]. destruct (p x); [|by exists []].
  exists (x :: a). simpl. by f_equal.
Qed.
Lemma forallb_rev {A} (p : A -> bool) l : forallb p (rev l) = forallb p l.
Proof. apply eq_iff_eq_true. rewrite !forallb_forall. by setoid_rewrite <- in_rev. Qed.

Lemma strip_text_nil t : list_true (strip_text t) = negb (blank t).
Proof.
  unfold strip_text, blank. destruct (forallb is_space t) eqn:E.
  - apply drop_while_nil in E. by rewrite E.
  - destruct (drop_while_suffix is_space t) as [a Ha].
    destruct (drop_while is_space (rev (drop_while is_space t))) as [|x u] eqn:Hd; simpl.
    + apply drop_while_nil in Hd. rewrite forallb_rev in Hd. exfalso.
      assert (Hn : drop_while is_space t <> []) by (rewrite drop_while_nil; by rewrite E).
      clear Ha E. induction t as [|y t IH]; simpl in *; [done|].
      destruct (is_space y) eqn:Ey; [by apply IH|]. simpl in Hd. by rewrite Ey in Hd.
    + by destruct (rev u).
Qed.

Lemma strip_text_length t : length (strip_text t) <= length t.
Proof.
  unfold strip_text. rewrite length_rev.
  destruct (drop_while_suffix is_space (rev (drop_while is_space t))) as [a Ha].
  destruct (drop_while_suffix is_space t) as [b Hb].
  apply (f_equal length) in Ha. apply (f_equal length) in Hb.
  rewrite length_rev, length_app in Ha. rewrite length_app in Hb. lia.
Qed.

(** ** Sections *)

Section Sections.
Context `{Unicode} `{Platform}.

(** What the lines of a text are, one by one: a heading gives its title to the
    lines below it, any other line that is not blank has the title above it and the
    type its words call for. *)
Fixpoint tagged (title : text) (lines : list text) : list (text * text * string) :=
  match lines with
  | [] => []
  | line :: rest =>
      let s := strip_text line in
      if negb (list_true s) then tagged title rest
      else if starts HEADING s && short_heading s then tagged (heading_title s) rest
      else (title, s, section_type_of s) :: tagged title rest
  end.

(** Lines that share a section, the section they make, and the lines with their
    title and type. *)
Definition group : Type := text * list text * string.
Definition joined_group (g : group) : section_of :=
  let '(title, lines, k) := g in (title, join_text 10 lines, k).
Definition group_lines (g : group) : list (text * text * string) :=
  let '(title, lines, k) := g in map (fun l => (title, l, k)) lines.
(** Only lines of plain text share a section. *)
Definition proper (g : group) : Prop :=
  let '(_, lines, k) := g in lines <> [] /\ (k <> "正文" -> length lines = 1).
Definition body_group (title : text) (buffer : list text) : list group :=
  match buffer with [] => [] | _ => [(title, buffer, "正文")] end.

Lemma flush_group title buffer :
  flush title buffer = map joined_group (body_group title buffer)
  /\ concat (map group_lines (body_group title buffer)) = map (fun l => (title, l, "正文")) buffer
  /\ Forall proper (body_group title buffer).
Proof.
  destruct buffer as [|l b]; simpl; [done|]. rewrite app_nil_r.
  split_and!; try done. constructor; [|done]. by split.
Qed.

(** The sections [l] have the lines [ls], in this order. *)
Definition grouped (l : list section_of) (ls : list (text * text * string)) : Prop :=
  exists gs, l = map joined_group gs /\ concat (map group_lines gs) = ls /\ Forall proper gs.

Lemma grouped_app l1 l2 ls1 ls2 :
  grouped l1 ls1 -> grouped l2 ls2 -> grouped (l1 ++ l2) (ls1 ++ ls2).
Proof.
  intros (g1 & -> & <- & H1) (g2 & -> & <- & H2). exists (g1 ++ g2).
  rewrite !map_app, concat_app. by rewrite Forall_app.
Qed.
Lemma grouped_flush title buffer :
  grouped (flush title buffer) (map (fun l => (title, l, "正文")) buffer).
Proof. destruct (flush_group title buffer) as (-> & ? & ?). by eexists. Qed.

Lemma grouped_cons title s k l ls :
  grouped l ls -> grouped ((title, s, k) :: l) ((title, s, k) :: ls).
Proof.
  intros Hl. apply (grouped_app [_] l [_] ls); [|done]. exists [(title, [s], k)].
  split_and!; try done. constructor; [|done]. by split.
Qed.

Lemma sections_from_grouped title buffer lines :
  grouped (sections_from title buffer lines)
          (map (fun l => (title, l, "正文")) buffer ++ tagged title lines).
Proof.
  revert title buffer. induction lines as [|line lines IH]; intros title buffer; simpl.
  { rewrite app_nil_r. apply grouped_flush. }
  destruct (list_true (strip_text line)); simpl.
  2:{ apply grouped_app; [apply grouped_flush|]. apply (IH title []). }
  set (s := strip_text line).
  assert (Hline : forall b, grouped
    (if bool_decide (section_type_of s = "正文") then sections_from title (b ++ [s]) lines
     else flush title b ++ (title, s, section_type_of s) :: sections_from title [] lines)
    (map (fun l => (title, l, "正文")) b ++ (title, s, section_type_of s) :: tagged title lines)).
  { intros b. case_bool_decide as Hk.
    - rewrite Hk. specialize (IH title (b ++ [s])). rewrite map_app, <- app_assoc in IH. exact IH.
    - apply grouped_app; [apply grouped_flush|]. apply grouped_cons. apply (IH title []). }
  destruct (starts HEADING s); simpl; [|apply Hline].
  apply grouped_app; [apply grouped_flush|].
  destruct (short_heading s); [apply (IH _ [])|apply (Hline [])].
Qed.

(** The sections of a block hold its lines, in their order: every line that is
    neither blank nor a heading is in one section, under the title of the last
    heading above it and with the type its words call for; only lines of plain text
    share a section, and a section is not empty. A table is one section. *)
Theorem sections_keep_lines (block : ParsedBlock) :
  (b_section_type block <> "表格" ->
   grouped (_sections block) (tagged (chars "正文") (splitlines (b_text block))))
  /\ (b_section_type block = "表格" ->
      _sections block = [(chars "表格", b_text block, "表格")]).
Proof.
  unfold _sections. split; intros Hb.
  - rewrite bool_decide_eq_false_2 by done. apply (sections_from_grouped (chars "正文") []).
  - by rewrite bool_decide_eq_true_2.
Qed.
End Sections.

(** ** Pieces *)

(** [windows overlap last ws t]: after a window [last], the windows [ws] cover [t]
    up to white space at its end, each repeating at most [overlap] characters of
    the one before. *)
Inductive windows (overlap : nat) : text -> list text -> text -> Prop :=
| windows_end last rest : blank rest = true -> windows overlap last [] rest
| windows_next a o new rest ws :
    length o <= overlap -> windows overlap (o ++ new) ws rest ->
    windows overlap (a ++ o) ((o ++ new) :: ws) (new ++ rest).

(** The pieces are the windows, some without the white space around them. *)
Definition covers (overlap : nat) (t : text) (pieces : list text) : Prop :=
  exists ws, windows overlap [] ws t
             /\ Forall2 (fun p w => p = w \/ p = strip_text w) pieces ws.

Lemma sentences_from_concat cur s : concat (sentences_from cur s) = rev cur ++ s.
Proof.
  revert cur. induction s as [|x s IH]; intros cur; simpl.
  - rewrite app_nil_r. destruct cur; [done|]. apply app_nil_r.
  - destruct (sentence_end x); simpl; rewrite IH; simpl; by rewrite <- app_assoc.
Qed.
Lemma slices_concat fuel target t :
  0 < target -> length t <= fuel -> concat (slices_from fuel target t) = t.
Proof.
  intros Ht. revert t. induction fuel as [|n IH]; intros [|x t] Hl; simpl in *; try done; [lia|].
  rewrite IH; [apply (take_drop target (x :: t))|].
  rewrite length_drop. simpl. lia.
Qed.

Lemma tail_split n t : exists a, t = a ++ tail n t /\ length (tail n t) <= n.
Proof.
  exists (take (length t - n) t). unfold tail. rewrite take_drop, length_drop. split; [done|lia].
Qed.

Lemma gather_windows target overlap a o new ss :
  length o <= overlap ->
  exists ws, windows overlap (a ++ o) ws (new ++ concat ss)
             /\ Forall2 (fun p w => p = w \/ p = strip_text w) (gather target overlap (o ++ new) ss) ws.
Proof.
  revert a o new. induction ss as [|s ss IH]; intros a o new Ho; simpl.
  - rewrite strip_text_nil. destruct (blank (o ++ new)) eqn:E; simpl.
    + exists []. split; [|done]. constructor. rewrite app_nil_r. unfold blank in *.
      rewrite forallb_app in E. by apply andb_true_iff in E as [_ E].
    + exists [o ++ new]. split; [|by repeat constructor; right]. constructor; [done|]. by constructor.
  - destruct (list_true (o ++ new) && (target <? length (o ++ new) + length s)).
    + destruct (tail_split overlap (o ++ new)) as (a' & Ha & Ht).
      destruct (IH a' (tail overlap (o ++ new)) s Ht) as (ws & Hw & Hf). rewrite <- Ha in Hw.
      exists ((o ++ new) :: ws). split; [by constructor|]. constructor; [by right|done].
    + destruct (IH a o (new ++ s) Ho) as (ws & Hw & Hf).
      exists ws. split; [rewrite app_assoc; exact Hw|rewrite <- app_assoc; exact Hf].
Qed.

Lemma split_text_covers t target overlap : 0 < target -> covers overlap t (_split_text t target overlap).
Proof.
  intros Ht. unfold _split_text. destruct (length t <=? target).
  - rewrite strip_text_nil. destruct (blank t) eqn:E; simpl.
    + exists []. split; [by constructor|done].
    + exists [t]. split; [|by repeat constructor; left].
      pose proof (windows_next overlap [] [] t [] [] ltac:(simpl; lia)) as Hw. simpl in Hw.
      rewrite app_nil_r in Hw. apply Hw. by constructor.
  - set (ss := if _ =? 1 then slices target t else _).
    assert (Hss : concat ss = t).
    { subst ss. case_match; [by apply slices_concat|]. apply sentences_from_concat. }
    destruct (gather_windows target overlap [] [] [] ss ltac:(simpl; lia)) as (ws & Hw & Hf).
    exists ws. rewrite Hss in Hw. simpl in *. by split.
Qed.

(** ** Chunks *)

Section Chunks.
Context `{Env} `{Unicode} `{Platform}.

(** The chunks [cs] are those of the sections [l], in this order. *)
Definition chunk_piece (c : DocumentChunk) : piece :=
  (dc_chapter_title c, dc_content c, dc_section_type c, dc_page_no c).
Definition paged_sections (blocks : list ParsedBlock) : list (option Z * section_of) :=
  flat_map (fun b => map (pair (b_page_no b)) (_sections b)) blocks.
Definition section_covered (overlap : nat) (s : option Z * section_of) (ps : list piece) : Prop :=
  let '(page, (title, t, k)) := s in
  exists contents, ps = map (fun x => (title, x, k, page)) contents /\ covers overlap t contents
                   /\ (k <> "正文" -> contents = if blank t then [] else [t]).

Lemma number_pieces d v n l : map chunk_piece (number d v n l) = l.
Proof.
  revert n. induction l as [|[[[title content] k] page] l IH]; intros n; simpl; [done|].
  by rewrite IH.
Qed.
Lemma number_orders d v n l : map dc_chunk_order (number d v n l) = seq n (length l).
Proof.
  revert n. induction l as [|[[[title content] k] page] l IH]; intros n; simpl; [done|].
  by rewrite IH.
Qed.

Lemma chunks_numbered d v target overlap bs :
  let cs := chunk_blocks_with target overlap d v bs in map dc_chunk_order cs = seq 0 (length cs).
Proof.
  cbv zeta. unfold chunk_blocks_with. rewrite number_orders. f_equal.
  rewrite <- (length_map chunk_piece). by rewrite number_pieces.
Qed.

Lemma section_pieces_covered target overlap page s :
  0 < target -> section_covered overlap (page, s) (section_pieces target overlap page s).
Proof.
  destruct s as [[title t] k]. intros Ht. unfold section_covered, section_pieces.
  eexists. split; [done|]. split.
  - apply split_text_covers. case_bool_decide; lia.
  - intros Hk. rewrite bool_decide_eq_false_2 by done. unfold _split_text.
    rewrite (proj2 (Nat.leb_le _ _)) by lia. rewrite strip_text_nil. by destruct (blank t).
Qed.

End Chunks.

(** ** How long a piece gets *)

Lemma gather_length target overlap m current ss :
  length current <= target `max` (overlap + m) -> Forall (fun s => length s <= m) ss ->
  Forall (fun p => length p <= target `max` (overlap + m)) (gather target overlap current ss).
Proof.
  intros Hc Hs. revert current Hc. induction Hs as [|s ss Hl Hs IH]; intros current Hc; simpl.
  - case_match; [|done]. constructor; [|done]. pose proof (strip_text_length current). lia.
  - destruct (list_true current) eqn:El; simpl; [destruct (_ <? _) eqn:E|].
    + constructor; [pose proof (strip_text_length current); lia|].
      apply IH. destruct (tail_split overlap current) as (a & _ & Ht). rewrite length_app. lia.
    + apply IH. apply Nat.ltb_ge in E. rewrite length_app. lia.
    + apply list_true_false in El as ->. apply IH. simpl. lia.
Qed.

Lemma slices_length fuel target t : Forall (fun s => length s <= target) (slices_from fuel target t).
Proof.
  revert t. induction fuel as [|n IH]; intros [|x t]; simpl; try done.
  constructor; [|apply IH]. rewrite length_take. lia.
Qed.

(** A piece is longer than [target] by at most the repeated characters, unless one
    of several sentences is longer than [target] alone. *)
Theorem piece_length t target overlap :
  length (sentences_of t) = 1 \/ Forall (fun s => length s <= target) (sentences_of t) ->
  Forall (fun p => length p <= overlap + target) (_split_text t target overlap).
Proof.
  intros Hs. unfold _split_text. destruct (length t <=? target) eqn:E.
  { apply Nat.leb_le in E. case_match; [|done]. constructor; [lia|done]. }
  eapply Forall_impl.
  - apply (gather_length _ _ target); [simpl; lia|]. destruct (_ =? 1) eqn:E1.
    + apply slices_length.
    + destruct Hs as [Hs|Hs]; [by rewrite Hs in E1|done].
  - intros p Hp. simpl in *. lia.
Qed.

(** ** Concrete documents *)

Definition demo_text : text := chars "# 散热
注意：先断电

告警A的说明
1. 检查风扇
检查滤网
检查风道
第二章 维护
更换风扇".

Definition demo_block : ParsedBlock := mkBlock demo_text None "正文".

Example demo_sections :
  @_sections demo_unicode demo_platform demo_block
  = [(chars "散热", chars "注意：先断电", "注意事项"); (chars "散热", chars "告警A的说明", "告警定义");
     (chars "散热", chars "1. 检查风扇", "维护步骤");
     (chars "散热", join_text 10 [chars "检查滤网"; chars "检查风道"], "正文");
     (chars "第二章 维护", chars "更换风扇", "正文")].
Proof. vm_compute. reflexivity. Qed.

Lemma sections_keep_lines_witness :
  b_section_type demo_block <> "表格"
  /\ @grouped (@_sections demo_unicode demo_platform demo_block)
       (@tagged demo_unicode demo_platform (chars "正文") (splitlines (b_text demo_block))).
Proof.
  assert (Hb : b_section_type demo_block <> "表格") by done. split; [exact Hb|].
  exact (proj1 (@sections_keep_lines demo_unicode demo_platform demo_block) Hb).
Defined.

Abbreviation demo_chunks target :=
  (@chunk_blocks_with (demo_env all_fine) demo_unicode demo_platform target 2 "M1" "v1"
     [mkBlock (chars "更换风扇。检查滤网。复位") (Some 3%Z) "正文"; mkBlock (chars "a | b") None "表格"]).


(** A run of white space longer than two pieces makes an empty piece: only the last
    piece is checked for text. *)
Example empty_piece :
  _split_text (chars "a" ++ repeat 32%N 1100 ++ chars "b") 500 80
  = [chars "a"; []; chars "b"].
Proof. vm_compute. reflexivity. Qed.

(** The design bounds a chunk by 600 characters; a long sentence after a short one
    is not cut. *)
Example long_piece :
  map length (_split_text (chars "A." ++ repeat 97%N 700 ++ chars ".") 500 80) = [2; 703].
Proof. vm_compute. reflexivity. Qed.
