(* ===== verification/IngestionProps.v ===== *)
(** * What the ingestion of manuals guarantees

    The invariant [manuals_ok] of the two tables of manuals, which ingestions and
    the index worker keep; ingesting as steps of the system; what one ingestion
    does on every branch. *)

From stdpp Require Import pretty.
From S2P Require Import Prelude Errors Json Float Contracts Store Timeline IndexRepo.
From S2P Require Import Text Regex CaseHistory CaseApp CaseInv IndexHandlers Consumer CaseProps.
From S2P Require Import Scoring Rewrite Cursors Chunking Ingestion System ChunkingProps.
Open Scope Z_scope.

(** ** The invariant *)

Definition doc_key (d : ManualDocument) : string * string := (doc_id d, version d).
Definition chunk_key (c : ManualChunk) : string * string := (c_doc_id c, c_version c).
Definition chunks_of (d : ManualDocument) (cs : list ManualChunk) : list ManualChunk :=
  filter (fun c => chunk_key c = doc_key d) cs.

(** A chunk is of the version [d]: it is effective and verified as its document is,
    and of the same generation. *)
Record owned (d : ManualDocument) (c : ManualChunk) : Prop := {
  ow_key : chunk_key c = doc_key d;
  ow_effective : c_effective c = effective d;
  ow_verified : c_verified c = bool_decide (d_review_status d = "APPROVED");
  ow_generation : c_index_generation c = d_index_generation d;
}.

(** A version is ingested once, at most one version of a document is effective,
    chunk ids are unique, every chunk belongs to a version, and the chunks of a
    version are those that were counted, numbered from 0. *)
Record manuals_ok (ds : list ManualDocument) (cs : list ManualChunk) : Prop := {
  mo_versions : NoDup (map doc_key ds);
  mo_effective : forall d d', d ∈ ds -> d' ∈ ds -> effective d = true -> effective d' = true ->
    doc_id d = doc_id d' -> version d = version d';
  mo_chunk_ids : NoDup (map chunk_id cs);
  mo_owner : forall c, c ∈ cs -> exists d, d ∈ ds /\ owned d c;
  mo_orders : forall d, d ∈ ds -> map c_chunk_order (chunks_of d cs) = seq 0 (d_chunk_count d);
}.
Definition manuals_wf (w : World) : Prop := manuals_ok (documents w) (chunks w).

(** What the invariant looks at: a row without the columns indexing changes. *)
Definition doc_core (d : ManualDocument) : ManualDocument :=
  d <| d_index_status := IDX_PENDING |> <| d_index_error_code := None |> <| d_updated_at := 0 |>.
Definition chunk_core (c : ManualChunk) : ManualChunk := c <| c_indexed_at := None |>.

Lemma chunks_of_core d cs : map chunk_core (chunks_of d cs) = chunks_of d (map chunk_core cs).
Proof.
  unfold chunks_of. induction cs as [|c cs IH]; [done|]. rewrite fmap_cons, !filter_cons.
  change (chunk_key (chunk_core c)) with (chunk_key c).
  destruct (decide (chunk_key c = doc_key d)); simpl; by rewrite IH.
Qed.

Lemma orders_core d cs :
  map c_chunk_order (chunks_of (doc_core d) (map chunk_core cs)) = map c_chunk_order (chunks_of d cs).
Proof.
  change (chunks_of (doc_core d)) with (chunks_of d). by rewrite <- chunks_of_core, map_map.
Qed.

Lemma manuals_ok_core ds cs : manuals_ok (map doc_core ds) (map chunk_core cs) <-> manuals_ok ds cs.
Proof.
  assert (Hd : map doc_key (map doc_core ds) = map doc_key ds) by by rewrite map_map.
  assert (Hc : map chunk_id (map chunk_core cs) = map chunk_id cs) by by rewrite map_map.
  split; intros [V E C O N]; split; rewrite ?Hd, ?Hc in *; try done.
  - intros d d' H1 H2. apply (E (doc_core d) (doc_core d')); by apply list_elem_of_fmap_2.
  - intros c H1. destruct (O (chunk_core c)) as (d & Hin & [K1 K2 K3 K4]); [by apply list_elem_of_fmap_2|].
    apply list_elem_of_fmap in Hin as (d0 & -> & Hin). by exists d0.
  - intros d H1. rewrite <- orders_core. apply (N (doc_core d)). by apply list_elem_of_fmap_2.
  - intros d d' (d0 & -> & H1)%list_elem_of_fmap (d1 & -> & H2)%list_elem_of_fmap. by apply (E d0 d1).
  - intros c (c0 & -> & H1)%list_elem_of_fmap. destruct (O c0 H1) as (d & Hin & [K1 K2 K3 K4]).
    exists (doc_core d). split; [by apply list_elem_of_fmap_2|done].
  - intros d (d0 & -> & H1)%list_elem_of_fmap. rewrite orders_core. by apply (N d0).
Qed.

(** ** Indexing keeps it *)

Definition same_manuals (w w' : World) : Prop :=
  map doc_core (documents w') = map doc_core (documents w)
  /\ map chunk_core (chunks w') = map chunk_core (chunks w).

#[local] Instance same_manuals_framed : Framed same_manuals.
Proof.
  split; [split|]; [split|..]; try done. intros w1 w2 w3 [Ha Hb] [Hc Hd]. split; congruence.
Qed.

Lemma same_manuals_wf w w' : same_manuals w w' -> manuals_wf w -> manuals_wf w'.
Proof.
  intros [Hd Hc] W. apply manuals_ok_core. rewrite Hd, Hc. by apply manuals_ok_core.
Qed.

Lemma modify_manuals f : (forall w, same_manuals w (f w)) -> respects same_manuals (modify (E := exn) f).
Proof. intros Hf. by apply respects_modify. Qed.

Lemma map_core {A B} (core : A -> B) (f : A -> A) l :
  (forall x, core (f x) = core x) -> map core (map f l) = map core l.
Proof. intros Hf. rewrite map_map. apply map_ext. done. Qed.

#[local] Hint Resolve respects_zip_strict : pres.
#[local] Hint Extern 3 (respects same_manuals (modify _)) =>
  apply modify_manuals; intros ?; split; first [reflexivity|apply map_core; intros ?; by case_match] : pres.

Section Worker.
Context `{Env}.

Lemma update_ticket_manuals tid f : respects same_manuals (modify (E := exn) (update_ticket tid f)).
Proof.
  apply modify_manuals. intros w. unfold update_ticket.
  destruct (tickets w !! tid) as [t|]; [|done]. by destruct (is_verified t).
Qed.
Lemma update_case_manuals cid f : respects same_manuals (modify (E := exn) (update_case cid f)).
Proof. apply modify_manuals. intros w. unfold update_case. by destruct (cases w !! cid). Qed.
#[local] Hint Resolve update_ticket_manuals update_case_manuals : pres.

Lemma add_job_manuals r : respects same_manuals (add_job r).
Proof. unfold add_job, validate_attempts. respect. Qed.
#[local] Hint Resolve add_job_manuals : pres.

Lemma handle_manuals hc e : respects same_manuals (handle hc e).
Proof.
  unfold handle, manual, ticket, handle_case, case_tombstone, case_upsert, worker_text,
    project_graph, project_case_graph, queue_superseded_case, projection, set_case_index,
    first_vector, permanent, stale.
  respect.
Qed.
#[local] Hint Resolve handle_manuals : pres.

Lemma consume_manuals cc d : respects same_manuals (consume cc d).
Proof.
  unfold consume, process, complete_job, on_stale, on_error, start, finish, fail, fail_entity,
    throw, validate_attempts.
  respect.
Qed.
End Worker.

(** ** Ingesting keeps it *)

Lemma retire_owned d now x c :
  owned x c -> owned (retire_document d now x) (retire_chunk d c).
Proof.
  intros [K E V G]. unfold retire_document, retire_chunk. injection K as Kd Kv.
  rewrite Kd, E. destruct (bool_decide (doc_id x = d) && effective x);
    split; simpl; try done; unfold chunk_key, doc_key; simpl; congruence.
Qed.

Lemma retire_ok d now ds cs :
  manuals_ok ds cs -> manuals_ok (map (retire_document d now) ds) (map (retire_chunk d) cs).
Proof.
  intros [V E C O N].
  assert (Hd : forall x, doc_key (retire_document d now x) = doc_key x /\
    d_chunk_count (retire_document d now x) = d_chunk_count x
    /\ (effective (retire_document d now x) = true -> effective x = true)).
  { intros x. unfold retire_document. by case_match. }
  assert (Hc : forall c, chunk_key (retire_chunk d c) = chunk_key c
    /\ chunk_id (retire_chunk d c) = chunk_id c
    /\ c_chunk_order (retire_chunk d c) = c_chunk_order c).
  { intros c. unfold retire_chunk. by case_match. }
  split.
  - rewrite map_map, (map_ext _ doc_key); [done|]. intros x. apply Hd.
  - intros a b (x & -> & Hx)%list_elem_of_fmap (y & -> & Hy)%list_elem_of_fmap Ea Eb.
    destruct (Hd x) as ([= -> ->] & _ & Hx'), (Hd y) as ([= -> ->] & _ & Hy').
    by apply E; auto.
  - rewrite map_map, (map_ext _ chunk_id); [done|]. intros x. apply Hc.
  - intros c (c0 & -> & Hin)%list_elem_of_fmap. destruct (O c0 Hin) as (x & Hx & Ho).
    exists (retire_document d now x). split; [by apply list_elem_of_fmap_2|by apply retire_owned].
  - intros a (x & -> & Hx)%list_elem_of_fmap. destruct (Hd x) as (Hk & -> & _).
    rewrite <- (N x Hx). unfold chunks_of. rewrite Hk. clear -Hc.
    induction cs as [|c cs IH]; [done|]. rewrite fmap_cons, !filter_cons.
    destruct (Hc c) as (-> & _ & Ho). destruct (decide (chunk_key c = doc_key x)); [|done].
    rewrite !fmap_cons, Ho. by f_equal.
Qed.

Lemma chunks_of_new d cs : Forall (fun c => chunk_key c <> doc_key d) cs -> chunks_of d cs = [].
Proof.
  intros Hf. unfold chunks_of. induction Hf as [|c cs Hc _ IH]; [done|].
  by rewrite filter_cons_False.
Qed.

Lemma insert_ok ds cs d news :
  manuals_ok ds cs -> doc_key d ∉ map doc_key ds -> NoDup (map chunk_id cs ++ map chunk_id news) ->
  (effective d = true -> forall x, x ∈ ds -> doc_id x = doc_id d -> effective x = false) ->
  Forall (owned d) news -> map c_chunk_order news = seq 0 (d_chunk_count d) ->
  manuals_ok (ds ++ [d]) (cs ++ news).
Proof.
  intros [V E C O N] Hnew Hids Heff Hown Hord. split.
  - rewrite map_app. apply NoDup_app. split; [done|]. split; [|apply NoDup_singleton].
    intros k Hk ->%list_elem_of_singleton. done.
  - intros a b Ha Hb Ea Eb Hid. apply elem_of_app in Ha as [Ha| ->%list_elem_of_singleton],
      Hb as [Hb| ->%list_elem_of_singleton]; [by apply E| | |done].
    + by rewrite (Heff Eb a Ha Hid) in Ea.
    + symmetry in Hid. by rewrite (Heff Ea b Hb Hid) in Eb.
  - by rewrite map_app.
  - intros c [Hc|Hc]%elem_of_app.
    + destruct (O c Hc) as (x & Hx & Ho). exists x. split; [|done]. apply elem_of_app. by left.
    + exists d. split; [apply elem_of_app; right; by apply list_elem_of_singleton|].
      rewrite Forall_forall in Hown. by apply Hown.
  - intros x Hx.
    assert (Happ : chunks_of x (cs ++ news) = chunks_of x cs ++ chunks_of x news) by apply filter_app.
    rewrite Happ, map_app.
    assert (Hne : forall y, y ∈ ds -> doc_key y <> doc_key d).
    { intros y Hy Hk. apply Hnew. rewrite <- Hk. by apply list_elem_of_fmap_2. }
    apply elem_of_app in Hx as [Hx| ->%list_elem_of_singleton].
    + rewrite (chunks_of_new x news), (N x Hx); [apply app_nil_r|].
      eapply Forall_impl; [exact Hown|]. intros c [K _ _ _]. rewrite K. intros Hk.
      by apply (Hne x).
    + rewrite (chunks_of_new d cs); [simpl|].
      * rewrite <- Hord. f_equal. apply filter_full. eapply Forall_impl; [exact Hown|].
        by intros c [K _ _ _].
      * apply Forall_forall. intros c Hc. destruct (O c Hc) as (y & Hy & [K _ _ _]).
        rewrite K. by apply Hne.
Qed.

(** No version of the document of [d] is effective when [d] will be. *)
Definition gives_way (d : ManualDocument) (w : World) : Prop :=
  effective d = true -> forall x, x ∈ documents w -> doc_id x = doc_id d -> effective x = false.

Lemma retired_gives_way d now w : gives_way d (retire_versions (doc_id d) now w).
Proof.
  intros _ x Hx Hid. simpl in Hx. apply list_elem_of_fmap in Hx as (y & -> & Hy).
  unfold retire_document in *. destruct (bool_decide (doc_id y = doc_id d)) eqn:E; simpl in *.
  - by destruct (effective y) eqn:Ey.
  - apply bool_decide_eq_false in E. by destruct E.
Qed.

Section Ingest.
Context `{Env}.

Lemma insert_rows_ok d cs :
  Forall (owned d) cs -> map c_chunk_order cs = seq 0 (d_chunk_count d) ->
  from (gives_way d) (keeps manuals_wf) (insert_rows d cs).
Proof.
  intros Hown Hord w Hw W. unfold insert_rows, bind, gets, guard, modify.
  destruct (existsb _ (documents w)) eqn:Hk; simpl; [done|].
  case_bool_decide as Hids; simpl; [|done]. apply insert_ok; try done.
  intros Hin. apply not_true_iff_false in Hk. apply Hk, existsb_exists.
  apply list_elem_of_fmap in Hin as (x & Hx & Hin). exists x. split; [by apply list_elem_of_In|].
  injection Hx as -> ->. unfold is_version. by rewrite !bool_decide_eq_true_2.
Qed.

(** The rows [create_pending] inserts. *)
Lemma pending_rows_owned mf key sum gen n q now cs :
  Forall (owned (document_row mf key sum gen n q now)) (map (chunk_row mf gen) cs).
Proof. apply Forall_forall. intros c (c0 & -> & _)%list_elem_of_fmap. by split. Qed.

#[local] Hint Resolve add_job_manuals : pres.

Lemma create_pending_ok ir mf key sum cs gen rq :
  map dc_chunk_order cs = seq 0 (length cs) ->
  respects (keeps manuals_wf) (create_pending ir mf key sum cs gen rq).
Proof.
  intros Hord. assert (F : Framed (keeps manuals_wf)) by (by apply framed_keeps).
  assert (J : forall r, respects (keeps manuals_wf) (add_job r)).
  { intros r w W. eapply same_manuals_wf; [apply add_job_manuals|exact W]. }
  unfold create_pending. respect_step; [respect|]. apply respects_atomically; [apply _|].
  set (body := match rq with Some _ => _ | None => _ end).
  assert (Hb : from (gives_way (document_row mf key sum gen (length cs)
                       (match rq with Some _ => true | None => false end) a))
                 (keeps manuals_wf) body).
  { assert (Ho : map c_chunk_order (map (chunk_row mf gen) cs) = seq 0 (length cs))
      by by rewrite map_map, <- Hord.
    subst body. destruct rq as [r|].
    - apply from_guard; [apply _|]. intros _.
      apply from_bind_last; [apply _|by apply insert_rows_ok; [apply pending_rows_owned|]|].
      intros ?. respect.
    - apply from_bind_last; [apply _|by apply insert_rows_ok; [apply pending_rows_owned|]|].
      intros ?. respect. }
  intros w W. unfold when. destruct (mf_effective mf) eqn:He; unfold bind at 1, modify, ret.
  - apply Hb; [apply (retired_gives_way (document_row mf key sum gen 0 true a))|].
    by apply retire_ok.
  - apply Hb; [|done]. intros He'. simpl in He'. congruence.
Qed.
End Ingest.

(** ** Histories *)

Section Library.
Context `{Env} `{Unicode} `{Platform} `{Readers} (cfg : CaseConfig) (cc : ConsumerConfig).

Lemma index_chunks_manuals ic mf gen cs : respects same_manuals (index_chunks ic mf gen cs).
Proof. unfold index_chunks. respect. Qed.
Lemma set_index_status_manuals d v st code : respects same_manuals (set_index_status d v st code).
Proof. unfold set_index_status. respect. Qed.

Lemma keeps_wf {A} (m : M World exn A) : respects same_manuals m -> respects (keeps manuals_wf) m.
Proof. intros Hm w W. eapply same_manuals_wf; [apply Hm|exact W]. Qed.

Lemma ingest_ok ic mf content : respects (keeps manuals_wf) (ingest ic mf content).
Proof.
  assert (F : Framed (keeps manuals_wf)) by (by apply framed_keeps).
  unfold ingest, ingest_new, find_document, from_outcome. respect.
  all: try (apply keeps_wf; first [apply index_chunks_manuals|apply set_index_status_manuals]).
  all: try (unfold ingest_request; respect).
  all: apply create_pending_ok, chunks_numbered.
Qed.

(** One operation on the tables of manuals; [mo_other] is anything the other
    components do. *)
Inductive manual_op : World -> World -> Prop :=
| mo_ingest w ic mf content : manual_op w (fst (ingest ic mf content w))
| mo_consume w d : manual_op w (fst (consume cc d w))
| mo_other w w' : documents w' = documents w -> chunks w' = chunks w -> manual_op w w'.

Lemma manual_ops_ok w w' : rtc manual_op w w' -> manuals_wf w -> manuals_wf w'.
Proof.
  induction 1 as [|w1 w2 w3 Ho _ IH]; [done|]. intros W. apply IH. destruct Ho as [w ic mf c|w d|w w' Hd Hc].
  - by apply ingest_ok.
  - eapply same_manuals_wf; [apply consume_manuals|exact W].
  - unfold manuals_wf in *. by rewrite Hd, Hc.
Qed.

Lemma empty_manuals : manuals_wf empty_world.
Proof. split; try (intros ? ?%elem_of_nil; done); try constructor. intros ? ? ?%elem_of_nil; done. Qed.
End Library.

(** ** One ingestion *)

(** The rows of manuals and the jobs are as before. *)
Definition untouched (w w' : World) : Prop :=
  documents w' = documents w /\ chunks w' = chunks w /\ jobs w' = jobs w /\ outbox w' = outbox w.
Definition same_rows (w w' : World) : Prop := documents w' = documents w /\ chunks w' = chunks w.

#[local] Instance untouched_framed : Framed untouched.
Proof.
  split; [split|]; [split|..]; try done.
  intros w1 w2 w3 (A1 & A2 & A3 & A4) (B1 & B2 & B3 & B4). split_and!; congruence.
Qed.
#[local] Instance same_rows_framed : Framed same_rows.
Proof.
  split; [split|]; [split|..]; try done. intros w1 w2 w3 [A1 A2] [B1 B2]. split; congruence.
Qed.

Section Outcome.
Context `{Env} `{Unicode} `{Platform} `{Readers}.

Lemma add_job_rows r : respects same_rows (add_job r).
Proof. unfold add_job, validate_attempts. respect. by apply respects_modify. Qed.
Lemma index_chunks_rows ic mf gen cs : respects same_rows (index_chunks ic mf gen cs).
Proof. unfold index_chunks. respect. Qed.
Lemma index_chunks_jobs ic mf gen cs :
  respects (fun w w' => jobs w' = jobs w /\ outbox w' = outbox w) (index_chunks ic mf gen cs).
Proof.
  assert (F : Framed (fun w w' : World => jobs w' = jobs w /\ outbox w' = outbox w)).
  { split; [split|]; [split|..]; try done. intros w1 w2 w3 [A1 A2] [B1 B2]. split; congruence. }
  unfold index_chunks. respect.
Qed.

(** The rows before a new version is added. *)
Definition old_documents (mf : DocumentManifest) (now : Z) (ds : list ManualDocument) :=
  if mf_effective mf then map (retire_document (mf_doc_id mf) now) ds else ds.
Definition old_chunks (mf : DocumentManifest) (cs : list ManualChunk) :=
  if mf_effective mf then map (retire_chunk (mf_doc_id mf)) cs else cs.

Lemma insert_rows_run d cs w w' u : insert_rows d cs w = (w', Ok u) ->
  w' = w <| documents ::= fun l => l ++ [d] |> <| chunks ::= fun l => l ++ cs |>.
Proof.
  unfold insert_rows. intros Hr. do 4 run_step Hr. unfold modify in Hr. by injection Hr as <- _.
Qed.

(** What [create_pending] leaves: the version, its chunks, and the job asked for. *)
Definition created (w0 : World) (rq : option IndexJobCreate) (mf : DocumentManifest)
    (key sum gen : string) (cs : list DocumentChunk) (jid : option string) (w : World) : Prop :=
  (exists now, documents w = old_documents mf now (documents w0)
      ++ [document_row mf key sum gen (length cs) (match rq with Some _ => true | None => false end) now])
  /\ chunks w = old_chunks mf (chunks w0) ++ map (chunk_row mf gen) cs
  /\ match rq with
     | Some r => exists j, jid = Some (job_id j) /\ jobs w !! job_id j = Some j
                           /\ idempotency_key (request j) = idempotency_key r
     | None => jid = None /\ jobs w = jobs w0 /\ outbox w = outbox w0
     end.

Lemma bind_when_modify {B} b (f : World -> World) (k : unit -> M World exn B) w :
  bind (when b (modify f)) k w = k tt (if b then f w else w).
Proof. by destruct b. Qed.

Lemma create_pending_run w0 ir mf key sum cs gen rq : jobs_wf w0 ->
  triple (untouched w0) (create_pending ir mf key sum cs gen rq)
    (created w0 rq mf key sum gen cs) (fun _ => untouched w0).
Proof.
  intros W0 w U. destruct (create_pending ir mf key sum cs gen rq w) as [w' [jid|e]] eqn:E;
    unfold create_pending in E; rewrite bind_utc_now in E.
  2:{ apply atomically_raise in E as (t & i & ->). exact U. }
  apply atomically_ok in E.
  rewrite bind_when_modify in E. set (w1 := if mf_effective mf then _ else _) in E.
  assert (HT : documents w1 = old_documents mf (utc (ticks w)) (documents w0)
    /\ chunks w1 = old_chunks mf (chunks w0) /\ jobs w1 = jobs w0 /\ outbox w1 = outbox w0).
  { destruct U as (U1 & U2 & U3 & U4). subst w1. unfold old_documents, old_chunks.
    destruct (mf_effective mf); simpl; rewrite ?U1, ?U2; done. }
  destruct HT as (D1 & C1 & J1 & O1). unfold created. destruct rq as [r|]; cbv zeta in E.
  - run_step E. apply bind_ok_inv in E as (u & w2 & Hi & E). apply insert_rows_run in Hi. cbv beta in E.
    apply bind_ok_inv in E as (j & w3 & Hj & E). injection E as <- <-.
    destruct (respects_fst _ _ _ _ _ (add_job_rows r) Hj) as [D3 C3].
    apply add_job_stored in Hj as [Hj Hk]; [|by subst w2; eapply jobs_wf_ext; [..|exact W0]].
    subst w2. simpl in D3, C3. rewrite D3, C3, D1, C1. split_and!; [by eexists|done|by exists j].
  - apply bind_ok_inv in E as (u & w2 & Hi & E). apply insert_rows_run in Hi. injection E as <- <-.
    subst w2. simpl. rewrite D1, C1. split_and!; [by eexists|done|done|done|done].
Qed.

Lemma ingest_request_job ic mf gen :
  yields (fun rq => match rq with
                    | Some r => jc_entity_type r = MANUAL_DOCUMENT /\ jc_entity_id r = mf_doc_id mf
                                /\ jc_entity_version r = gen /\ jc_operation r = UPSERT /\ valid_request r
                    | None => True
                    end) (ingest_request ic mf gen).
Proof.
  unfold ingest_request. case_bool_decide; [|by apply yields_ret].
  intros s s' rq Hr. run_step Hr. injection Hr as _ <-. split_and!; try done.
  unfold valid_request. simpl. apply andb_true_iff in Heqb as [H1'%Z.leb_le H2'%Z.leb_le]. lia.
Qed.

Lemma triple_untouched {A} w0 (m : M World exn A) : respects untouched m ->
  triple (untouched w0) m (fun _ => untouched w0) (fun _ => untouched w0).
Proof.
  intros Hm w U. specialize (Hm w). destruct (m w) as [w' [a|e]]; by etransitivity.
Qed.

(** What a new version leaves behind: the row, with the status the answer reports,
    and the chunks of its text; the other versions are not effective if it is. *)
Record ingested (w0 : World) (mf : DocumentManifest) (content : string) (r : IngestionResult)
    (w : World) (blocks : list ParsedBlock) (gen : string) (now : Z) (d : ManualDocument) : Prop := {
  in_parsed : parse_document (mf_document_name mf) content = Ok blocks;
  in_text : blocks <> [];
  in_documents : documents w = old_documents mf now (documents w0) ++ [d];
  in_row : let cs := chunk_blocks (mf_doc_id mf) (mf_version mf) blocks in
    doc_core d = doc_core (document_row mf (ig_object_key r) (sha256 content) gen (length cs) false now);
  in_status : d_index_status d = ig_index_status r;
  in_chunks : let cs := chunk_blocks (mf_doc_id mf) (mf_version mf) blocks in
    map chunk_core (chunks w)
    = map chunk_core (old_chunks mf (chunks w0)) ++ map (chunk_row mf gen) cs;
  in_count : ig_chunk_count r = length (chunk_blocks (mf_doc_id mf) (mf_version mf) blocks);
  in_new : ig_existing r = false;
  in_job : ig_index_status r = IDX_QUEUED -> exists j, ig_job_id r = Some (job_id j)
    /\ jobs w !! job_id j = Some j
    /\ idempotency_key (request j) = (MANUAL_DOCUMENT, mf_doc_id mf, gen, UPSERT);
  in_no_job : ig_index_status r <> IDX_QUEUED -> jobs w = jobs w0 /\ outbox w = outbox w0;
}.

Definition fresh_version (mf : DocumentManifest) (w : World) : Prop :=
  Forall (fun x => is_version (mf_doc_id mf) (mf_version mf) x = false) (documents w).

Lemma old_documents_fresh mf now f w : fresh_version mf w ->
  map (fun x => if is_version (mf_doc_id mf) (mf_version mf) x then f x else x)
    (old_documents mf now (documents w)) = old_documents mf now (documents w).
Proof.
  intros Hf. rewrite <- (list_fmap_id (old_documents _ _ _)) at 2. apply list_fmap_ext.
  intros i x Hx%list_elem_of_lookup_2.
  assert (Hv : is_version (mf_doc_id mf) (mf_version mf) x = false); [|by rewrite Hv].
  unfold fresh_version in Hf. rewrite Forall_forall in Hf. unfold old_documents in Hx.
  destruct (mf_effective mf); [|by apply Hf].
  apply list_elem_of_fmap in Hx as (y & -> & Hy). rewrite <- (Hf y Hy). unfold retire_document.
  by case_match.
Qed.

Lemma index_chunks_status ic mf gen cs w :
  exists w1 st, index_chunks ic mf gen cs w = (w1, Ok st) /\ fst st <> IDX_QUEUED.
Proof.
  unfold index_chunks. destruct (_ && _); [|by eexists _, _].
  unfold catch. destruct (bind _ _ w) as [s1 [a|e]] eqn:E; [|by eexists _, _].
  eexists _, _. split; [done|]. run_step E. run_step E. run_step E. injection E as _ <-. done.
Qed.

Lemma set_index_status_run d v st code w :
  exists w' now, set_index_status d v st code w = (w', Ok tt)
    /\ documents w' = map (fun x => if is_version d v x
          then x <| d_index_status := st |> <| d_index_error_code := code |> <| d_updated_at := now |>
          else x) (documents w)
    /\ map chunk_core (chunks w') = map chunk_core (chunks w)
    /\ jobs w' = jobs w /\ outbox w' = outbox w.
Proof.
  unfold set_index_status. rewrite bind_utc_now. unfold atomically. rewrite bind_modify.
  unfold when. case_bool_decide; eexists _, _; split_and!; try reflexivity.
  simpl. apply map_core. intros c. by case_match.
Qed.

(** The end of an ingestion that indexes at once. *)
Lemma finish_sync ic mf content key gen blocks w0 w :
  let cs := chunk_blocks (mf_doc_id mf) (mf_version mf) blocks in
  fresh_version mf w0 -> parse_document (mf_document_name mf) content = Ok blocks -> blocks <> [] ->
  created w0 None mf key (sha256 content) gen cs None w ->
  exists w' a now d,
    (st <- index_chunks ic mf gen cs ;;
     set_index_status (mf_doc_id mf) (mf_version mf) (fst st) (snd st) ;;;
     ret (mkIngestion (mf_doc_id mf) (mf_version mf) key (sha256 content) (length cs) (fst st)
            false None)) w = (w', Ok a)
    /\ ingested w0 mf content a w' blocks gen now d.
Proof.
  intros cs Hf Hp Hb ((now & Hd) & Hc & _ & Hj & Ho).
  destruct (index_chunks_status ic mf gen cs w) as (w1 & st & E1 & Hst).
  destruct (respects_fst _ _ _ _ _ (index_chunks_rows ic mf gen cs) E1) as [D1 C1].
  destruct (respects_fst _ _ _ _ _ (index_chunks_jobs ic mf gen cs) E1) as [J1 O1].
  destruct (set_index_status_run (mf_doc_id mf) (mf_version mf) (fst st) (snd st) w1)
    as (w2 & t & E2 & D2 & C2 & J2 & O2).
  eexists w2, _, now, ((document_row mf key (sha256 content) gen (length cs) false now)
    <| d_index_status := fst st |> <| d_index_error_code := snd st |> <| d_updated_at := t |>). split.
  { rewrite (bind_ok _ _ _ _ _ E1). cbv beta. rewrite (bind_ok _ _ _ _ _ E2). reflexivity. }
  split; try done.
  - rewrite D2, D1, Hd, map_app, (old_documents_fresh mf now _ w0 Hf). simpl.
    unfold is_version at 1. simpl. rewrite !bool_decide_eq_true_2 by done. reflexivity.
  - cbv zeta. rewrite C2, C1, Hc, map_app. f_equal. rewrite map_map. by apply map_ext.
  - intros _. split; congruence.
Qed.

Lemma finish_queued rq mf content key gen blocks w0 jid w :
  let cs := chunk_blocks (mf_doc_id mf) (mf_version mf) blocks in
  parse_document (mf_document_name mf) content = Ok blocks -> blocks <> [] ->
  idempotency_key rq = (MANUAL_DOCUMENT, mf_doc_id mf, gen, UPSERT) ->
  created w0 (Some rq) mf key (sha256 content) gen cs jid w ->
  exists now d, ingested w0 mf content
    (mkIngestion (mf_doc_id mf) (mf_version mf) key (sha256 content) (length cs) IDX_QUEUED false jid)
    w blocks gen now d.
Proof.
  intros cs Hp Hb Hk ((now & Hd) & Hc & j & Hjid & Hj & Hjk).
  exists now, (document_row mf key (sha256 content) gen (length cs) true now).
  split; try done.
  - cbv zeta. rewrite Hc, map_app. f_equal. rewrite map_map. by apply map_ext.
  - intros _. exists j. split_and!; [done|done|congruence].
Qed.

Lemma find_fresh mf w : fresh_version mf w ->
  find_document (mf_doc_id mf) (mf_version mf) w = (w, Ok None).
Proof.
  intros Hf. unfold find_document. rewrite bind_gets.
  assert (Hn : filter (fun x => is_version (mf_doc_id mf) (mf_version mf) x = true) (documents w) = []).
  { unfold fresh_version in Hf. induction Hf as [|x l Hx _ IH]; [done|].
    rewrite filter_cons_False; [done|by rewrite Hx]. }
  by rewrite Hn.
Qed.

Lemma ingest_new_run ic mf content w :
  jobs_wf w -> fresh_version mf w ->
  triple (untouched w) (ingest_new ic mf content (sha256 content))
    (fun r w' => exists blocks gen now d, ingested w mf content r w' blocks gen now d)
    (fun _ => untouched w).
Proof.
  intros W Hf. unfold ingest_new. cbv zeta. set (key := (mf_doc_id mf +:+ _)%string).
  eapply triple_bind; [apply triple_untouched; respect|]. intros gen.
  eapply triple_bind; [apply triple_untouched; respect|]. intros u.
  destruct (parse_document (mf_document_name mf) content) as [blocks|e] eqn:Hp; [|by intros w1 U].
  intros w1 U. unfold from_outcome. rewrite bind_ret. destruct blocks as [|b bs]; [exact U|].
  set (blocks := b :: bs) in *. assert (Hb : blocks <> []) by done. unfold guard, list_true. simpl.
  rewrite bind_ret. revert w1 U.
  eapply triple_bind.
  { apply triple_yields; [apply ingest_request_job|]. apply triple_untouched.
    unfold ingest_request. respect. }
  intros rq w1 [Hrq U].
  pose proof (create_pending_run w (ic_index_repository ic) mf key (sha256 content)
    (chunk_blocks (mf_doc_id mf) (mf_version mf) blocks) gen rq W w1 U) as Hc.
  unfold bind at 1. destruct (create_pending _ _ _ _ _ _ _ w1) as [w2 [jid|e]]; [|exact Hc].
  destruct rq as [rq|].
  - destruct Hrq as (Ht & Hi & Hv & Hop & _). exists blocks, gen.
    apply (finish_queued rq); try done. unfold idempotency_key. congruence.
  - assert (jid = None) as -> by (by destruct Hc as (_ & _ & ? & _)).
    destruct (finish_sync ic mf content key gen blocks w w2 Hf Hp Hb Hc) as (w' & a & now & d & E & Hin).
    cbv zeta in E. rewrite E. by exists blocks, gen, now, d.
Qed.

(** an ingestion is all or nothing. An ingestion of a version the library does not
    have either raises and leaves manuals, chunks and jobs as they were, or adds the
    version with the numbered chunks of its text and with the status it reports,
    withdraws the other versions exactly if the new one is effective, and queues
    exactly the job it reports. *)
Theorem ingest_all_or_nothing ic mf content w :
  jobs_wf w -> fresh_version mf w ->
  match ingest ic mf content w with
  | (w', Ok r) => exists blocks gen now d, ingested w mf content r w' blocks gen now d
  | (w', Raise _) => untouched w w'
  end.
Proof.
  intros W Hf. unfold ingest, guard. destruct (_ <=? _); [|done].
  rewrite bind_ret. cbv zeta. rewrite (bind_ok _ _ _ _ _ (find_fresh mf w Hf)).
  pose proof (ingest_new_run ic mf content w W Hf w (ltac:(done))) as Hr.
  by destruct (ingest_new _ _ _ _ w) as [w' [r|e]].
Qed.
End Outcome.

(** ** A version is ingested once *)

(** Versions stay, with what identifies their file. *)
Definition same_file (d d' : ManualDocument) : Prop :=
  doc_key d' = doc_key d /\ d_file_sha256 d' = d_file_sha256 d
  /\ d_object_key d' = d_object_key d /\ d_chunk_count d' = d_chunk_count d.
Definition keeps_versions (w w' : World) : Prop :=
  forall d, d ∈ documents w -> exists d', d' ∈ documents w' /\ same_file d d'.

#[local] Instance keeps_versions_framed : Framed keeps_versions.
Proof.
  split; [split|]; [split|..]; try (intros w **; intros d Hd; by exists d).
  intros w1 w2 w3 H12 H23 d Hd. destruct (H12 d Hd) as (d' & Hd' & ? & ? & ? & ?).
  destruct (H23 d' Hd') as (d'' & Hd'' & ? & ? & ? & ?). exists d''. split; [done|].
  split_and!; congruence.
Qed.

Lemma same_manuals_versions w w' : same_manuals w w' -> keeps_versions w w'.
Proof.
  intros [Hd _] d Hin. assert (Hc : doc_core d ∈ map doc_core (documents w'))
    by (rewrite Hd; by apply list_elem_of_fmap_2).
  apply list_elem_of_fmap in Hc as (d' & Hc & Hin'). exists d'. split; [done|].
  split_and!;
    [change (doc_key (doc_core d') = doc_key (doc_core d))
    |change (d_file_sha256 (doc_core d') = d_file_sha256 (doc_core d))
    |change (d_object_key (doc_core d') = d_object_key (doc_core d))
    |change (d_chunk_count (doc_core d') = d_chunk_count (doc_core d))]; by rewrite Hc.
Qed.

Section Once.
Context `{Env} `{Unicode} `{Platform} `{Readers} (cc : ConsumerConfig).

Lemma create_pending_versions ir mf key sum cs gen rq :
  respects keeps_versions (create_pending ir mf key sum cs gen rq).
Proof.
  assert (J : forall r, respects keeps_versions (add_job r)).
  { intros r w. apply same_manuals_versions, add_job_manuals. }
  unfold create_pending, insert_rows. respect.
  - apply respects_modify. intros w d Hd. exists (retire_document (mf_doc_id mf) a d).
    split; [by apply list_elem_of_fmap_2|]. unfold retire_document. by case_match.
  - apply respects_modify. intros w d Hd. exists d. split; [|done]. simpl. apply elem_of_app. by left.
  - apply respects_modify. intros w d Hd. exists d. split; [|done]. simpl. apply elem_of_app. by left.
Qed.
#[local] Hint Resolve create_pending_versions : pres.

Lemma manual_op_versions w w' : manual_op cc w w' -> keeps_versions w w'.
Proof.
  intros [w1 ic mf content|w1 d|w1 w2 Hd _].
  - revert w1. change (respects keeps_versions (ingest ic mf content)).
    unfold ingest, ingest_new, find_document, from_outcome, ingest_request. respect.
    all: intros w1; apply same_manuals_versions;
      first [apply index_chunks_manuals|apply set_index_status_manuals].
  - apply same_manuals_versions, consume_manuals.
  - intros d Hin. exists d. by rewrite Hd.
Qed.

Lemma is_version_key d v x : is_version d v x = true <-> doc_key x = (d, v).
Proof.
  unfold is_version, doc_key. rewrite andb_true_iff, !bool_decide_eq_true.
  split; [by intros [-> ->]|by intros [= -> ->]].
Qed.

Lemma filter_key d l : NoDup (map doc_key l) -> d ∈ l ->
  filter (fun x => is_version (doc_id d) (version d) x = true) l = [d].
Proof.
  induction l as [|x l IH]; intros V Hin; [by apply elem_of_nil in Hin|].
  apply NoDup_cons in V as [Hx V]. apply elem_of_cons in Hin as [<-|Hin].
  - rewrite filter_cons_True by by apply is_version_key. f_equal.
    clear IH V. induction l as [|y l IH]; [done|]. rewrite filter_cons_False.
    + apply IH. intros Hk. apply Hx. by right.
    + intros Hk%is_version_key. apply Hx. simpl. rewrite Hk. by left.
  - rewrite filter_cons_False; [by apply IH|]. intros Hk%is_version_key. apply Hx.
    rewrite Hk. by apply (list_elem_of_fmap_2 doc_key l d).
Qed.

Lemma find_document_in d w : manuals_wf w -> d ∈ documents w ->
  find_document (doc_id d) (version d) w = (w, Ok (Some d)).
Proof.
  intros [V _ _ _ _] Hin. unfold find_document. by rewrite bind_gets, (filter_key d).
Qed.

(** The row an answer speaks of. *)
Definition answers (mf : DocumentManifest) (content : string) (r : IngestionResult)
    (d : ManualDocument) : Prop :=
  doc_key d = (mf_doc_id mf, mf_version mf) /\ d_file_sha256 d = sha256 content
  /\ d_object_key d = ig_object_key r /\ d_chunk_count d = ig_chunk_count r.

Lemma ingest_answers ic mf content w w' r : jobs_wf w ->
  ingest ic mf content w = (w', Ok r) -> exists d, d ∈ documents w' /\ answers mf content r d.
Proof.
  intros W E. destruct (decide (fresh_version mf w)) as [Hf|Hn].
  - pose proof (ingest_new_run ic mf content w W Hf w (ltac:(done))) as Hr.
    unfold ingest in E. run_step E. cbv zeta in E.
    rewrite (bind_ok _ _ _ _ _ (find_fresh mf w Hf)) in E. rewrite E in Hr.
    destruct Hr as (blocks & gen & now & d & [? ? Hd Hrow ? ? Hc ? ? ?]). exists d.
    split; [rewrite Hd; apply elem_of_app; right; by apply list_elem_of_singleton|].
    split_and!.
    + change (doc_key (doc_core d) = (mf_doc_id mf, mf_version mf)). by rewrite Hrow.
    + change (d_file_sha256 (doc_core d) = sha256 content). by rewrite Hrow.
    + change (d_object_key (doc_core d) = ig_object_key r). by rewrite Hrow.
    + change (d_chunk_count (doc_core d) = ig_chunk_count r). by rewrite Hrow, Hc.
  - unfold ingest, find_document in E. do 3 run_step E; run_step Hrun.
    + destruct (filter _ (documents w)) as [|d [|]] eqn:Hfl; try discriminate Hrun.
      injection Hrun as <- <-. run_step E. injection E as <- <-.
      assert (Hin : d ∈ filter (fun x => is_version (mf_doc_id mf) (mf_version mf) x = true) (documents w))
        by (rewrite Hfl; by left).
      apply list_elem_of_filter in Hin as [Hv Hin]. exists d. split; [done|].
      apply bool_decide_eq_true in Heqb0. apply is_version_key in Hv. by split_and!.
    + destruct (filter _ (documents w)) as [|d [|]] eqn:Hfl; try discriminate Hrun. exfalso.
      apply Hn, Forall_forall. intros x Hx. apply not_true_iff_false. intros Hv.
      assert (Hin : x ∈ filter (fun x => is_version (mf_doc_id mf) (mf_version mf) x = true) (documents w))
        by (by apply list_elem_of_filter). rewrite Hfl in Hin. by apply elem_of_nil in Hin.
Qed.

(** a version is ingested once. When a file was ingested, then whatever is ingested
    and indexed afterwards, ingesting the version again changes nothing: the same file
    is answered with the object, the checksum and the number of chunks of the first
    time, marked as existing; another file is refused. *)
Theorem ingest_once ic mf content w w1 r w2 again :
  manuals_wf w -> jobs_wf w -> ingest ic mf content w = (w1, Ok r) ->
  rtc (manual_op cc) w1 w2 ->
  Z.of_nat (String.length again) <= ic_max_bytes ic ->
  if bool_decide (sha256 again = sha256 content)
  then exists st, ingest ic mf again w2
         = (w2, Ok (mkIngestion (mf_doc_id mf) (mf_version mf) (ig_object_key r)
                      (sha256 content) (ig_chunk_count r) st true None))
  else ingest ic mf again w2 = (w2, Raise (Domain DocumentHashConflictError [])).
Proof.
  intros Hw W E Hops Hlen. destruct (ingest_answers ic mf content w w1 r W E) as (d & Hd & A).
  assert (M2 : manuals_wf w2).
  { eapply manual_ops_ok; [exact Hops|]. pose proof (ingest_ok ic mf content w Hw) as M1. by rewrite E in M1. }
  assert (Hk : keeps_versions w1 w2).
  { clear -Hops. induction Hops as [|u v t Ho _ IH]; [reflexivity|].
    etransitivity; [by eapply manual_op_versions|done]. }
  destruct (Hk d Hd) as (d' & Hd' & K1 & K2 & K3 & K4). destruct A as (A1 & A2 & A3 & A4).
  assert (Hkey : doc_key d' = (mf_doc_id mf, mf_version mf)) by congruence. injection Hkey as Hi Hv.
  pose proof (find_document_in d' w2 M2 Hd') as Hf. rewrite Hi, Hv in Hf.
  assert (Hrun : forall k : unit -> M World exn IngestionResult,
    bind (guard (Z.of_nat (String.length again) <=? ic_max_bytes ic) (Domain DocumentTooLargeError [])) k w2
    = k tt w2) by (intros k; by rewrite (proj2 (Z.leb_le _ _))).
  unfold ingest. rewrite Hrun. cbv zeta. rewrite (bind_ok _ _ _ _ _ Hf), K2, A2.
  case_bool_decide as Hs.
  - rewrite bool_decide_eq_true_2 by done. exists (d_index_status d').
    unfold guard. rewrite bind_ret, K3, A3, K4, A4, Hs. done.
  - by rewrite bool_decide_eq_false_2.
Qed.
End Once.

(** ** Ingestion as steps of the system *)

Section InSystem.
Context `{Env} `{Unicode} `{Platform} `{Readers} (cfg : CaseConfig) (cc : ConsumerConfig).

Lemma system_other w w' : cases w' = cases w -> case_events w' = case_events w ->
  jobs w' = jobs w -> outbox w' = outbox w -> rtc (sys_op cfg cc) w w'.
Proof. intros. apply rtc_once. by apply sys_other. Qed.

#[local] Instance system_framed : Framed (rtc (sys_op cfg cc)).
Proof. split; [split; [apply _|..]|]; intros; by apply system_other. Qed.

Lemma index_chunks_system ic mf gen cs : respects (rtc (sys_op cfg cc)) (index_chunks ic mf gen cs).
Proof. unfold index_chunks. respect. Qed.
Lemma set_index_status_system d v st code : respects (rtc (sys_op cfg cc)) (set_index_status d v st code).
Proof. unfold set_index_status. respect; apply respects_modify; intros w; by apply system_other. Qed.
#[local] Hint Resolve index_chunks_system set_index_status_system : pres.

(** An ingestion, and the queueing of tickets, are steps of the system: the theorems
    of [System] hold in the states they lead to. *)
Theorem ingest_in_system ic mf content w : rtc (sys_op cfg cc) w (fst (ingest ic mf content w)).
Proof.
  revert w. change (respects (rtc (sys_op cfg cc)) (ingest ic mf content)).
  unfold ingest. respect_step; [respect|]. cbv zeta. respect_step; [unfold find_document; respect|].
  match goal with |- respects _ (match ?o with _ => _ end) => destruct o as [x|] end; [respect|].
  unfold ingest_new. cbv zeta. do 2 (respect_step; [respect|]).
  respect_step; [unfold from_outcome; respect|]. respect_step; [respect|].
  apply (respects_bind_yields _ valid_if); [|unfold ingest_request; respect|].
  - intros s s' rq Hr. apply ingest_request_job in Hr. destruct rq as [rq|]; [|done].
    by destruct Hr as (_ & _ & _ & _ & ?).
  - intros rq Hrq. respect_step; [|respect]. intros w1. by apply rtc_once, sys_create_pending.
Qed.
Theorem queue_tickets_in_system ic w : rtc (sys_op cfg cc) w (fst (queue_tickets ic w)).
Proof.
  revert w. change (respects (rtc (sys_op cfg cc)) (queue_tickets ic)).
  unfold queue_tickets. respect. intros w. apply rtc_once, sys_queue_ticket.
Qed.
End InSystem.
