(* ===== verification/Library.v ===== *)
(** * The rows a search reads and the candidates it makes of them

    The queries of [providers/mysql.py] over the tables manual_chunk,
    manual_document, maintenance_ticket and diagnosis_case, and the candidates
    [retrieval/service.py] builds from the rows. Comparisons of columns are those of
    strings; a table is the list of its rows in the order the database returns them. *)

From stdpp Require Import pretty.
From S2P Require Import Prelude Errors Json Contracts Store CaseApp Float Text Regex Scoring.
Open Scope Z_scope.

(** ** Rows *)

(** [persistence/models.py:174-199 ManualChunkModel], the columns a search reads. *)
Record ChunkRow := mkChunkRow {
  ck_chunk_id : string;
  ck_doc_id : string;
  ck_device_type : string;
  ck_device_model : option string;
  ck_manufacturer : option string;
  ck_alarm_name : option string;
  ck_chapter_title : string;
  ck_page_no : option Z;
  ck_section_type : string;
  ck_content : string;
  ck_version : string;
  ck_verified : bool;
  ck_effective : bool;
  ck_index_generation : option string;
}.
(** [persistence/models.py:202-223 MaintenanceTicketModel], the columns a search
    reads. *)
Record TicketRow := mkTicketRow {
  tk_ticket_id : string;
  tk_site_id : string;
  tk_device_model : string;
  tk_alarm_name : string;
  tk_fault_symptom : string;
  tk_root_cause : string;
  tk_action_taken : string;
  tk_is_verified : bool;
  tk_close_time : option Z;
  tk_manufacturer : option string;
  tk_index_generation : option string;
}.

Record Library := mkLibrary {
  lb_chunks : list ChunkRow;
  lb_documents : list ManualDocument;
  lb_tickets : list TicketRow;
  lb_cases : list DiagnosisCase;
}.

(** A row of one of the three tables, as the dict of its columns. *)
Inductive Row := ManualRow (c : ChunkRow) | TicketRowOf (t : TicketRow) | CaseRow (c : DiagnosisCase).

Definition index_status_value (s : IndexStatus) : string :=
  match s with
  | IDX_PENDING => "PENDING" | IDX_QUEUED => "QUEUED" | IDX_RUNNING => "RUNNING"
  | IDX_INDEXED => "INDEXED" | IDX_DEGRADED => "DEGRADED" | IDX_FAILED => "FAILED"
  | IDX_TOMBSTONED => "TOMBSTONED"
  end.

Definition text_or_none (o : option string) : value :=
  match o with Some s => VStr s | None => VNone end.

(** The columns the scoring and the keyword channel ask for. *)
Definition columns (r : Row) : list (string * value) :=
  match r with
  | ManualRow c =>
      [("chunk_id", VStr (ck_chunk_id c)); ("doc_id", VStr (ck_doc_id c));
       ("device_type", VStr (ck_device_type c)); ("device_model", text_or_none (ck_device_model c));
       ("manufacturer", text_or_none (ck_manufacturer c));
       ("alarm_name", text_or_none (ck_alarm_name c));
       ("chapter_title", VStr (ck_chapter_title c)); ("section_type", VStr (ck_section_type c));
       ("summary_or_content", VStr (ck_content c)); ("version", VStr (ck_version c));
       ("verified", VBool (ck_verified c)); ("effective", VBool (ck_effective c));
       ("index_generation", text_or_none (ck_index_generation c))]
  | TicketRowOf t =>
      [("ticket_id", VStr (tk_ticket_id t)); ("site_id", VStr (tk_site_id t));
       ("device_model", VStr (tk_device_model t)); ("alarm_name", VStr (tk_alarm_name t));
       ("fault_symptom", VStr (tk_fault_symptom t)); ("root_cause", VStr (tk_root_cause t));
       ("action_taken", VStr (tk_action_taken t)); ("is_verified", VBool (tk_is_verified t));
       ("close_time", match tk_close_time t with Some z => VTime z | None => VNone end);
       ("manufacturer", text_or_none (tk_manufacturer t));
       ("index_generation", text_or_none (tk_index_generation t))]
  | CaseRow c =>
      [("case_id", VStr (Store.case_id c)); ("device_type", text_or_none (device_type c));
       ("device_model", text_or_none (device_model c));
       ("manufacturer", text_or_none (manufacturer c)); ("alarm_name", text_or_none (alarm_name c));
       ("symptom_summary", text_or_none (symptom_summary c));
       ("timeseries_features", text_or_none (timeseries_features c));
       ("root_cause", VStr (Store.root_cause c)); ("case_version", VInt (case_version c));
       ("review_status", VStr (case_status_value (review_status c)));
       ("embedding_text", text_or_none (Store.embedding_text c));
       ("index_status", VStr (index_status_value (Store.index_status c)));
       ("is_active", VBool (is_active c))]
  end.

(** [row.get(key)] and [str(row.get(key) or "")]; no number is among the fields of
    the keyword channel. *)
Definition row_get (key : string) (r : Row) : value := default VNone (lookup_key key (columns r)).
Definition row_text (key : string) (r : Row) : string :=
  match row_get key r with VStr s => s | _ => "" end.

(** The primary key of a row. *)
Definition row_id (r : Row) : string :=
  match r with
  | ManualRow c => ck_chunk_id c
  | TicketRowOf t => tk_ticket_id t
  | CaseRow c => Store.case_id c
  end.
Definition row_source (r : Row) : SourceType :=
  match r with ManualRow _ => SRC_MANUAL | TicketRowOf _ => SRC_TICKET | CaseRow _ => SRC_CASE end.
Definition row_generation (r : Row) : option string :=
  match r with
  | ManualRow c => ck_index_generation c
  | TicketRowOf t => tk_index_generation t
  | CaseRow _ => None
  end.

(** ** Queries *)

(** [if value: query.where(column == value)]; [NULL] equals nothing. *)
Definition filter_ok (name : string) (column : option string) (f : filters) : bool :=
  match ftext name f with Some v => bool_decide (column = Some v) | None => true end.

Definition approved_document (c : ChunkRow) (d : ManualDocument) : bool :=
  bool_decide (doc_id d = ck_doc_id c) && bool_decide (Store.version d = ck_version c)
  && bool_decide (d_review_status d = "APPROVED") && Store.effective d
  && bool_decide (d_index_status d = IDX_INDEXED).

Definition chunk_ok (f : filters) (effective_only : bool) (c : ChunkRow) : bool :=
  filter_ok "device_type" (Some (ck_device_type c)) f
  && filter_ok "device_model" (ck_device_model c) f
  && filter_ok "manufacturer" (ck_manufacturer c) f
  && filter_ok "alarm_name" (ck_alarm_name c) f
  && (negb effective_only || ck_effective c)
  && filter_ok "doc_version" (Some (ck_version c)) f
  && (negb (list_true (flist "section_type" f))
      || bool_decide (ck_section_type c ∈ flist "section_type" f)).

(** The join gives a chunk once per document it belongs to.
    [providers/mysql.py:62-99 MySQLDiagnosisProvider.manual_candidates] *)
Definition manual_candidates (lib : Library) (f : filters) (effective_only strong_only : bool)
  : list Row :=
  let chunks := filter (fun c => chunk_ok f effective_only c = true) (lb_chunks lib) in
  map ManualRow
    (if strong_only
     then concat (map (fun c => map (fun _ => c)
            (filter (fun d => approved_document c d = true) (lb_documents lib))) chunks)
     else chunks).

Definition ticket_ok (f : filters) (verified_only : bool) (t : TicketRow) : bool :=
  filter_ok "device_model" (Some (tk_device_model t)) f
  && filter_ok "alarm_name" (Some (tk_alarm_name t)) f
  && filter_ok "site_id" (Some (tk_site_id t)) f
  && (negb verified_only || tk_is_verified t)
  && negb (bool_decide (tk_ticket_id t ∈ flist "exclude_ticket_ids" f)).

(** [providers/mysql.py:101-122 MySQLDiagnosisProvider.ticket_candidates] *)
Definition ticket_candidates (lib : Library) (f : filters) (verified_only : bool) : list Row :=
  map TicketRowOf (filter (fun t => ticket_ok f verified_only t = true) (lb_tickets lib)).

Definition case_ok (f : filters) (exclude_session_id : option string) (c : DiagnosisCase) : bool :=
  bool_decide (review_status c = APPROVED)
  && bool_decide (Store.index_status c ∈ [IDX_INDEXED; IDX_DEGRADED]) && is_active c
  && filter_ok "device_type" (device_type c) f && filter_ok "device_model" (device_model c) f
  && filter_ok "manufacturer" (manufacturer c) f && filter_ok "alarm_name" (alarm_name c) f
  && match exclude_session_id with
     | Some s => negb (str_true s) || negb (bool_decide (source_session_id c = s))
     | None => true
     end.

(** [providers/mysql.py:124-146 MySQLDiagnosisProvider.case_candidates] *)
Definition case_candidates (lib : Library) (f : filters) (exclude_session_id : option string)
  : list Row :=
  map CaseRow (filter (fun c => case_ok f exclude_session_id c = true) (lb_cases lib)).

(** ** Candidates *)

(** [str(value)] of a nullable column in an f-string. *)
Definition text_of (o : option string) : string := default "None" o.

Definition pick (keys : list string) (r : Row) : list (string * value) :=
  map (fun k => (k, row_get k r)) keys.

Definition MANUAL_KEYS : list string :=
  ["device_type"; "device_model"; "manufacturer"; "alarm_name"; "version"; "chapter_title";
   "section_type"; "verified"; "effective"; "index_generation"].
Definition TICKET_KEYS : list string :=
  ["device_type"; "device_model"; "manufacturer"; "alarm_name"; "site_id"; "is_verified";
   "close_time"; "index_generation"].
Definition CASE_KEYS : list string :=
  ["device_type"; "device_model"; "manufacturer"; "alarm_name"; "case_version"; "review_status";
   "index_status"; "is_active"].

Definition row_source_id (r : Row) : string :=
  match r with
  | ManualRow c => ck_doc_id c
  | TicketRowOf t => tk_ticket_id t
  | CaseRow c => Store.case_id c
  end.
Definition row_content (r : Row) : string :=
  str_take 1200
    (match r with
     | ManualRow c => ck_content c
     | TicketRowOf t =>
         tk_fault_symptom t ++ "；根因: " ++ tk_root_cause t ++ "；处理: " ++ tk_action_taken t
     | CaseRow c =>
         text_of (symptom_summary c) ++ "；时序: " ++ text_of (timeseries_features c)
         ++ "；根因: " ++ Store.root_cause c ++ "；处理: "
         ++ str_join "；" (default [] (resolution_steps c))
     end)%string.
Definition row_citation (r : Row) : string :=
  (match r with
   | ManualRow c =>
       "[手册: " ++ ck_doc_id c ++ " " ++ ck_chapter_title c ++ "/page="
       ++ match ck_page_no c with Some n => pretty n | None => "None" end ++ "]"
   | TicketRowOf t => "[工单: " ++ tk_ticket_id t ++ "]"
   | CaseRow c => "[案例: " ++ Store.case_id c ++ " v" ++ pretty (case_version c) ++ "]"
   end)%string.
Definition row_metadata (r : Row) : list (string * value) :=
  match r with
  | ManualRow _ => pick MANUAL_KEYS r
  | TicketRowOf t =>
      pick TICKET_KEYS r ++ [("verified", VBool (tk_is_verified t));
                             ("closed", VBool (bool_decide (is_Some (tk_close_time t))))]
  | CaseRow _ => pick CASE_KEYS r ++ [("verified", VBool true); ("closed", VBool true)]
  end.

(** [Field(ge=0, le=1)] *)
Definition in_unit (x : float) : bool := fle zero x && fle x one.
Definition oin_unit (o : option float) : bool :=
  match o with Some x => in_unit x | None => true end.

(** [retrieval/service.py:387-471 _candidate] *)
Definition candidate (s : SourceType) (r : Row) (keyword vector : option float) : outcome exn RetrievalCandidate :=
  if oin_unit keyword && oin_unit vector then
    Ok (mkCandidate s (row_source_id r)
          (match r with ManualRow c => Some (ck_chunk_id c) | _ => None end)
          (row_content r) (row_citation r) (row_metadata r) keyword vector None
          zero zero (literal 6 10) zero zero zero false None)
  else Raise ValidationError.

(** ** What the queries return *)

Lemma ftext_true key f s : ftext key f = Some s -> str_true s = true.
Proof.
  unfold ftext. destruct (lookup_key key f) as [[]|]; try done.
  destruct (str_true _) eqn:E; [|done]. by intros [= <-].
Qed.

(** A row the filters of a search admit. *)
Definition admitted (lib : Library) (f : filters) (strong verified_only : bool)
  (exclude_session_id : option string) (r : Row) : Prop :=
  match r with
  | ManualRow c =>
      c ∈ lb_chunks lib /\ chunk_ok f true c = true
      /\ (strong = true -> exists d, d ∈ lb_documents lib /\ approved_document c d = true)
  | TicketRowOf t => t ∈ lb_tickets lib /\ ticket_ok f verified_only t = true
  | CaseRow c => c ∈ lb_cases lib /\ case_ok f exclude_session_id c = true
  end.

Lemma manual_candidates_admitted lib f strong v x r :
  r ∈ manual_candidates lib f true strong -> row_source r = SRC_MANUAL /\ admitted lib f strong v x r.
Proof.
  unfold manual_candidates. intros (c & -> & Hc)%list_elem_of_fmap. split; [done|]. simpl.
  destruct strong; [|apply list_elem_of_filter in Hc as [? ?]; by split_and!].
  apply list_elem_of_In, in_concat in Hc as (l & Hl%list_elem_of_In & Hc%list_elem_of_In).
  apply list_elem_of_fmap in Hl as (c' & -> & [? ?]%list_elem_of_filter).
  apply list_elem_of_fmap in Hc as (d & -> & [? ?]%list_elem_of_filter).
  split_and!; [done..|]. intros _. by exists d.
Qed.

Lemma ticket_candidates_admitted lib f strong v x r :
  r ∈ ticket_candidates lib f v -> row_source r = SRC_TICKET /\ admitted lib f strong v x r.
Proof.
  unfold ticket_candidates. intros (t & -> & [? ?]%list_elem_of_filter)%list_elem_of_fmap.
  by split.
Qed.

Lemma case_candidates_admitted lib f strong v x r :
  r ∈ case_candidates lib f x -> row_source r = SRC_CASE /\ admitted lib f strong v x r.
Proof.
  unfold case_candidates. intros (c & -> & [? ?]%list_elem_of_filter)%list_elem_of_fmap.
  by split.
Qed.

(** A candidate names its row. *)
Lemma candidate_row s r k v c : candidate s r k v = Ok c ->
  source_type c = s /\ source_id c = row_source_id r /\ citation c = row_citation r
  /\ content_summary c = row_content r /\ metadata c = row_metadata r
  /\ cd_chunk_id c = match r with ManualRow m => Some (ck_chunk_id m) | _ => None end.
Proof. unfold candidate. destruct (_ && _); [|done]. by intros [= <-]. Qed.
