(* ===== verification/Retrieval.v ===== *)
(** * The retrieval service

    [retrieval/service.py] and [retrieval/evidence.py]: one search, from the query to
    the ranked evidence. The embedding service, the vector store, the reranker and the
    model answer by the number of the call; the database is a [Library]. *)

From stdpp Require Import pretty.
From S2P Require Import Prelude Errors Json Store Float Text Regex Tools ToolData Scoring Rewrite Library.
Open Scope Z_scope.

(** [retrieval/contracts.py:10-13 RetrievalMode] *)
Inductive RetrievalMode := HYBRID | KEYWORD_ONLY | VECTOR_ONLY.
#[export] Instance RetrievalMode_eq_dec : EqDecision RetrievalMode.
Proof. solve_decision. Defined.

(** A hit of the vector store. *)
Record Hit := mkHit {
  hit_id : string;
  hit_score : float;
  hit_embedding : option (list float);
}.

(** What the service was built with, and what the services it calls answer. [repr] is
    Python's [repr] of a string, [sha256] the hexadecimal digest.
    [retrieval/service.py:46-84 RetrievalService.__init__] *)
Class RetrievalPorts := mkPorts {
  embedding_port : option (nat -> list string -> outcome abort (list (list float)));
  milvus_port : option (nat -> SourceType -> list float -> list string -> nat -> outcome abort (list Hit));
  reranker_port : option (nat -> string -> list (string * string) -> outcome abort (gmap string float));
  model_rewrite : option (nat -> QueryRewrite -> outcome abort (option QueryRewrite));
  database : nat -> outcome abort unit;
  wall_clock : nat -> Z;
  repr : string -> string;
  digest : string -> string;
  query_rewrite_mode : string;
  default_mode : RetrievalMode;
  keyword_top_n : nat;
  vector_top_n : nat;
  rerank_input_size : nat;
  semantic_dedup_threshold : float;
  max_chunks : nat;
  max_per_ticket : nat;
  weights : ScoreWeights;
}.

(** The two caches, in the order of their keys, and how often the world was asked. *)
Record Retrieval := mkRetrieval {
  rewrites : list (string * QueryRewrite);
  vectors : gmap string (list float);
  asked : nat;
}.
#[export] Instance Retrieval_eta : Eta Retrieval := fun s =>
  mkRetrieval (rewrites s) (vectors s) (asked s).

Definition rewrite_cache_limit : nat := 1024.
Definition vector_cache_limit : nat := 2048.
Definition new_retrieval : Retrieval := mkRetrieval [] ∅ 0.

(** [retrieval/contracts.py:62-63 RankedEvidence] *)
Record Ranked := mkRankedItem {
  ranked : RetrievalCandidate;
  ranked_package : option string;
}.

(** [retrieval/contracts.py:66-75 RetrievalMetadata] *)
Record RetrievalMetadata := mkRetrievalMeta {
  md_mode : RetrievalMode;
  keyword_candidate_count : nat;
  vector_candidate_count : nat;
  rerank_candidate_count : nat;
  final_count : nat;
  rerank_applied : bool;
  md_partial_result : bool;
  md_degraded : list string;
  md_index_generation : option string;
}.
(** [retrieval/contracts.py:78-81 RetrievalResult] *)
Record RetrievalResult := mkRetrievalResult {
  query_rewrite : QueryRewrite;
  ranked_evidence : list Ranked;
  retrieval_metadata : RetrievalMetadata;
}.
(** [retrieval/contracts.py:84-97 EvidencePackage] *)
Record EvidencePackage := mkPackage {
  pk_id : string;
  pk_rewrite : QueryRewrite;
  device_filters : filters;
  manual_evidence : list Ranked;
  ticket_evidence : list Ranked;
  case_evidence : list Ranked;
  graph_relations : list Ranked;
  candidate_counts : list (string * nat);
  pk_degraded : list string;
  pk_warnings : list string;
  pk_created_at : Z;
}.

(** The arguments of a search. *)
Record Query := mkQuery {
  q_source : SourceType;
  q_text : string;
  q_filters : filters;
  q_trace_id : string;
  q_mode : option RetrievalMode;
  q_top_k : nat;
  q_threshold : float;
  q_verified_only : bool;
}.

(** ** Helpers *)

(** [json.dumps(value, ensure_ascii=False)], with spaces after the separators. *)
Fixpoint render_spaced (j : json) : string :=
  match j with
  | JNull => "null"
  | JBool b => if b then "true" else "false"
  | JInt z => pretty z
  | JFloat r => r
  | JStr s => quoted s
  | JList l => ("[" ++ str_join ", " (map render_spaced l) ++ "]")%string
  | JObj kvs =>
      ("{" ++ str_join ", " (map (fun kv => (quoted (fst kv) ++ ": " ++ render_spaced (snd kv))%string) kvs)
       ++ "}")%string
  end.

(** [rewrite.model_dump(mode="json")] *)
Definition dump_rewrite (q : QueryRewrite) : json :=
  JObj [("normalized_alarm_name", JStr (normalized_alarm_name q));
        ("device_type", jopt (qr_device_type q)); ("device_model", jopt (qr_device_model q));
        ("manufacturer", jopt (qr_manufacturer q)); ("component", jopt (qr_component q));
        ("symptom_terms", jstrs (symptom_terms q)); ("manual_query", JStr (manual_query q));
        ("ticket_query", JStr (ticket_query q)); ("keyword_terms", jstrs (keyword_terms q));
        ("rewrite_mode", JStr (rewrite_mode q)); ("rewrite_version", JStr (rewrite_version q));
        ("warnings", jstrs (warnings q))].

(** [retrieval/service.py:376-377 _identity] *)
Definition identity_text (c : RetrievalCandidate) : string :=
  let '(s, i, k) := identity c in (s ++ ":" ++ i ++ ":" ++ k)%string.

(** [retrieval/service.py:380-384 _index_generation] *)
Definition index_generation (rows : list Row) : option string :=
  last (sorted_set (omap (fun r => match row_generation r with
                                   | Some g => if str_true g then Some g else None
                                   | None => None
                                   end) rows)).

(** What the pydantic model of the evidence demands of a candidate: its scores. *)
Definition scores_valid (c : RetrievalCandidate) : bool :=
  oin_unit (keyword_score c) && oin_unit (vector_score c) && oin_unit (rerank_score c)
  && in_unit (source_reliability c) && in_unit (verification_score c)
  && in_unit (freshness_score c) && in_unit (relevance_to_alarm c)
  && in_unit (cd_retrieval_score c) && in_unit (final_score c).

Definition of_source (s : SourceType) (l : list Ranked) : list Ranked :=
  filter (fun r => source_type (ranked r) = s) l.

Section Service.
Context `{Unicode} `{Platform} `{RetrievalPorts} (lib : Library).
Abbreviation R := (M Retrieval abort).

(** A call to the outside world, numbered. *)
Definition ask {A} (f : nat -> outcome abort A) : R A :=
  n <- gets asked ;;
  modify (fun s => s <| asked := S n |>) ;;;
  match f n with Ok a => ret a | Raise e => raise e end.
Definition pure {A} (o : outcome exn A) : R A :=
  match o with Ok a => ret a | Raise e => raise (Exc e) end.

(** [retrieval/service.py:368-373 _rewrite_cache_key] *)
Definition rewrite_cache_key (trace_id query : string) (f : filters) : string :=
  let item name :=
    ("(" ++ repr name ++ ", " ++ match ftext name f with Some s => repr s | None => "None" end
     ++ ")")%string in
  (trace_id ++ ":" ++ query ++ ":" ++ "("
   ++ str_join ", " (map item ["alarm_name"; "device_type"; "device_model"; "manufacturer"])
   ++ ")")%string.

(** The rewrite of a query, once per key.
    [retrieval/service.py:100-123 rewrite_query] *)
Definition rewrite_of (q : Query) : R QueryRewrite :=
  let key := rewrite_cache_key (q_trace_id q) (q_text q) (q_filters q) in
  cached <- gets (fun s => lookup_key key (rewrites s)) ;;
  match cached with
  | Some r => ret r
  | None =>
      let text name := ftext name (q_filters q) in
      n <- gets asked ;;
      modify (fun s => s <| asked := S n |>) ;;;
      r <- (match rewrite_query (q_text q) (text "alarm_name") (text "device_type")
                    (text "device_model") (text "manufacturer") query_rewrite_mode
                    ((fun p => p n) <$> model_rewrite) with
            | Ok r => ret r
            | Raise e => raise e
            end) ;;
      modify (fun s => s <| rewrites ::= fun l =>
        dict_set key r (if (rewrite_cache_limit <=? length l)%nat then tail l else l) |>) ;;;
      ret r
  end.

(** [retrieval/service.py:124-139 rows] *)
Definition rows_of (q : Query) (mode : RetrievalMode) : R (list Row) :=
  ask database ;;;
  let f := q_filters q in
  ret (match q_source q with
       | SRC_MANUAL => manual_candidates lib f true (negb (bool_decide (mode = KEYWORD_ONLY)))
       | SRC_TICKET => ticket_candidates lib f (q_verified_only q)
       | _ => case_candidates lib f (ftext "exclude_session_id" f)
       end).

(** [retrieval/service.py:159-171 fields] *)
Definition keyword_fields (s : SourceType) : list string :=
  match s with
  | SRC_MANUAL => ["alarm_name"; "chapter_title"; "summary_or_content"]
  | SRC_TICKET => ["alarm_name"; "fault_symptom"; "root_cause"; "action_taken"]
  | _ => ["alarm_name"; "symptom_summary"; "timeseries_features"; "root_cause"; "embedding_text"]
  end.

(** [retrieval/service.py:172-187 rank] *)
Definition keyword_search (q : Query) (rw : QueryRewrite) (query : string) (rows : list Row)
  : R (list RetrievalCandidate) :=
  map_m (fun r => pure (candidate (q_source q) (fst r) (Some (snd (snd r))) None))
    (rank row_text query rows (keyword_fields (q_source q)) keyword_top_n
       ["alarm_name"; "chapter_title"] (keyword_terms rw)).

(** [zip(queries, vectors, strict=True)] *)
Definition zip_strict {A B} (l : list A) (l' : list B) : R (list (A * B)) :=
  if (length l =? length l')%nat then ret (zip l l') else raise (Exc ValueError).

Definition vector_key (q : Query) (query : string) : string := (q_trace_id q ++ ":" ++ query)%string.

(** The vector of the query, embedded together with that of the other source.
    [retrieval/service.py:200-222 vector_key] *)
Definition vector_of (embed : nat -> list string -> outcome abort (list (list float)))
  (q : Query) (rw : QueryRewrite) (query : string) : R (list float) :=
  cached <- gets (fun s => vectors s !! vector_key q query) ;;
  match cached with
  | Some v => ret v
  | None =>
      let queries := unique [manual_query rw; ticket_query rw] in
      vs <- ask (fun n => embed n queries) ;;
      modify (fun s => if (vector_cache_limit <? size (vectors s) + length queries)%nat
                       then s <| vectors := ∅ |> else s) ;;;
      pairs <- zip_strict queries vs ;;
      modify (fun s => s <| vectors ::= fun m =>
        fold_left (fun m p => <[vector_key q (fst p) := snd p]> m) pairs m |>) ;;;
      found <- gets (fun s => vectors s !! vector_key q query) ;;
      match found with Some v => ret v | None => raise (Exc KeyError) end
  end.

(** [by_id[str(hit["id"])]]: the last row of equal ids. *)
Definition row_by_id (rows : list Row) (i : string) : option Row :=
  find_first (fun r => bool_decide (row_id r = i)) (rev rows).

(** [retrieval/service.py:223-249 hits] *)
Definition vector_search (embed : nat -> list string -> outcome abort (list (list float)))
  (milvus : nat -> SourceType -> list float -> list string -> nat -> outcome abort (list Hit))
  (q : Query) (rw : QueryRewrite) (query : string) (rows : list Row)
  : R (list RetrievalCandidate) :=
  v <- vector_of embed q rw query ;;
  hits <- ask (fun n => milvus n (q_source q) v (map row_id rows) vector_top_n) ;;
  map_m (fun hr =>
      c <- pure (candidate (q_source q) (snd hr) None (Some (hit_score (fst hr)))) ;;
      ret (c <| embedding := hit_embedding (fst hr) |>))
    (omap (fun h => pair h <$> row_by_id rows (hit_id h)) hits).

Definition unavailable (cs : list error_class) (a : abort) : bool :=
  match a with
  | Exc (Domain c _) => existsb (isinstance c) cs
  | _ => false
  end.

(** The vector channel with its degradations: candidates, degraded components and
    warnings.
    [retrieval/service.py:189-253 embedding] *)
Definition vector_channel (q : Query) (rw : QueryRewrite) (query : string) (rows : list Row)
  : R (list RetrievalCandidate * (list string * list string)) :=
  match embedding_port, milvus_port with
  | Some embed, Some milvus =>
      catch
        (cs <- vector_search embed milvus q rw query rows ;; ret (cs, ([], [])))
        (fun a => if unavailable [EmbeddingUnavailableError; MilvusUnavailableError] a
                  then ret ([], (["embedding"; "milvus"], ["VECTOR_SEARCH_FAILED"]))
                  else raise a)
  | _, _ => ret ([], (["embedding"; "milvus"], ["EMBEDDING_UNAVAILABLE"]))
  end.

Definition no_reranker (l : list RetrievalCandidate)
  : list RetrievalCandidate * (bool * (list string * list string)) :=
  (l, (false, (["reranker"], ["RERANKER_UNAVAILABLE"]))).

(** [retrieval/service.py:267-292 reranker] *)
Definition rerank_channel (query : string) (merged : list RetrievalCandidate)
  : R (list RetrievalCandidate * (bool * (list string * list string))) :=
  match reranker_port with
  | Some rerank =>
      catch
        (scores <- ask (fun n => rerank n query
            (map (fun c => (identity_text c, content_summary c)) merged)) ;;
         l <- map_m (fun c => match scores !! identity_text c with
                              | Some x => ret (c <| rerank_score := Some x |>)
                              | None => raise (Exc KeyError)
                              end) merged ;;
         ret (l, (true, ([], []))))
        (fun a => if unavailable [RerankerUnavailableError] a
                  then ret (no_reranker merged) else raise a)
  | None => ret (no_reranker merged)
  end.

(** [retrieval/evidence.py:14-52 build_evidence_package] *)
Definition build_evidence_package (rw : QueryRewrite) (f : filters) (cs : list RetrievalCandidate)
  (counts : list (string * nat)) (degraded warned : list string) : R EvidencePackage :=
  let identity_json :=
    JObj [("rewrite", dump_rewrite rw); ("filters", JObj f);
          ("evidence", JList (map (fun c =>
             let '(s, i, k) := identity c in jstrs [s; i; k]) cs))] in
  let package := ("evpkg_" ++ str_take 24 (digest (render_spaced (sort_keys identity_json))))%string in
  ranked <- map_m (fun c => if scores_valid c
                            then ret (mkRankedItem (c <| embedding := None |>) (Some package))
                            else raise (Exc ValidationError)) cs ;;
  now <- ask (fun n => Ok (wall_clock n)) ;;
  ret (mkPackage package rw f (take 3 (of_source SRC_MANUAL ranked))
         (take 2 (of_source SRC_TICKET ranked)) (take 3 (of_source SRC_CASE ranked))
         (take 2 (of_source SRC_GRAPH ranked)) counts (sorted_set degraded) (sorted_set warned) now).

(** [score_candidate] reads the clock for every item. *)
Definition score_all (f : filters) (l : list RetrievalCandidate) : R (list RetrievalCandidate) :=
  map_m (fun c => now <- ask (fun n => Ok (wall_clock n)) ;; ret (score_candidate c f weights now)) l.

Definition limits_of (q : Query) : Limits :=
  mkLimits (q_top_k q) semantic_dedup_threshold max_chunks max_per_ticket (q_threshold q).

Definition evidence_of (s : SourceType) (p : EvidencePackage) : list Ranked :=
  match s with
  | SRC_MANUAL => manual_evidence p
  | SRC_TICKET => ticket_evidence p
  | _ => case_evidence p
  end.

(** The mode the result reports: the channels that gave candidates.
    [retrieval/service.py:333-339 actual_mode] *)
Definition actual_mode (keyword vector : list RetrievalCandidate) : RetrievalMode :=
  if list_true keyword && list_true vector then HYBRID
  else if list_true vector then VECTOR_ONLY else KEYWORD_ONLY.

(** From the candidates of the channels to the result.
    [retrieval/service.py:263-361 merged] *)
Definition conclude (q : Query) (mode : RetrievalMode) (rw : QueryRewrite) (query : string)
  (rows : list Row) (keyword vector : list RetrievalCandidate) (degraded warned : list string)
  : R RetrievalResult :=
  let merged := merge_candidates keyword vector rerank_input_size in
  reranking <- (if list_true merged && bool_decide (mode = HYBRID)
                then rerank_channel query merged
                else ret (merged, (false, ([], [])))) ;;
  let '(merged, (applied, (more, warned'))) := reranking in
  let degraded := degraded ++ more in
  scored <- score_all (q_filters q) merged ;;
  let final := deduplicate_and_diversify scored (limits_of q) in
  let reranked := if applied then length merged else 0%nat in
  package <- build_evidence_package rw (q_filters q) final
    [("keyword", length keyword); ("vector", length vector); ("rerank", reranked);
     ("final", length final)] degraded (warned ++ warned') ;;
  let evidence := evidence_of (q_source q) package in
  ret (mkRetrievalResult rw evidence
         (mkRetrievalMeta (actual_mode keyword vector) (length keyword) (length vector) reranked
            (length evidence) applied (list_true degraded) (sorted_set degraded)
            (index_generation rows))).

(** [retrieval/service.py:86-361 RetrievalService.search] *)
Definition search (q : Query) : R RetrievalResult :=
  let mode := default default_mode (q_mode q) in
  rw <- rewrite_of q ;;
  rows <- rows_of q mode ;;
  let query := if bool_decide (q_source q = SRC_MANUAL) then manual_query rw else ticket_query rw in
  keyword <- (if bool_decide (mode = VECTOR_ONLY) then ret []
              else keyword_search q rw query rows) ;;
  channel <- (if bool_decide (mode = KEYWORD_ONLY) then ret ([], ([], []))
              else vector_channel q rw query rows) ;;
  let '(vector, (degraded, warned)) := channel in
  guard (negb (negb (list_true keyword) && negb (list_true vector)
               && bool_decide (mode = VECTOR_ONLY) && list_true rows))
    (Exc (Domain RetrievalChannelsFailedError [])) ;;;
  conclude q mode rw query rows keyword vector (warnings rw ++ degraded) (warnings rw ++ warned).
End Service.
