(* ===== verification/RetrievalProps.v ===== *)
(** * What a search guarantees

    Every piece of evidence cites a row the database query returned, once, within the
    limits; the result is well formed; the outage of a service degrades the search but
    does not fail it. *)

From stdpp Require Import pretty.
From S2P Require Import Prelude Errors Json Contracts Store Float Text Regex Tools Scoring Selection.
From S2P Require Import Rewrite Library Retrieval.
Open Scope Z_scope.

(** The candidate carries the text, the citation and the metadata of the row. *)
Record of_row (s : SourceType) (r : Row) (c : RetrievalCandidate) : Prop := {
  or_source : source_type c = s;
  or_id : source_id c = row_source_id r;
  or_chunk : cd_chunk_id c = match r with ManualRow m => Some (ck_chunk_id m) | _ => None end;
  or_content : content_summary c = row_content r;
  or_citation : citation c = row_citation r;
  or_metadata : metadata c = row_metadata r;
}.
Definition cites (s : SourceType) (rows : list Row) (c : RetrievalCandidate) : Prop :=
  exists r, r ∈ rows /\ of_row s r c.

(** Scores and embeddings do not matter to it. *)
Definition same_citation (c c' : RetrievalCandidate) : Prop :=
  source_type c = source_type c' /\ source_id c = source_id c' /\ cd_chunk_id c = cd_chunk_id c'
  /\ content_summary c = content_summary c' /\ citation c = citation c' /\ metadata c = metadata c'.

Lemma cites_same s rows c c' : same_citation c c' -> cites s rows c -> cites s rows c'.
Proof.
  intros (E1 & E2 & E3 & E4 & E5 & E6) (r & Hr & []). exists r. split; [done|].
  split; congruence.
Qed.

(** ** Fusion *)

Section Merge.
Context (P : RetrievalCandidate -> Prop).
Hypothesis P_same : forall c c', same_citation c c' -> P c -> P c'.

Lemma put_identity_Forall key v d :
  P v -> Forall (fun kv => P (snd kv)) d -> Forall (fun kv => P (snd kv)) (put_identity key v d).
Proof.
  intros Hv. induction 1 as [|[k x] d Hx Hd IH]; simpl; [by repeat constructor|].
  case_bool_decide; constructor; done.
Qed.

Lemma get_identity_P key d c :
  Forall (fun kv => P (snd kv)) d -> get_identity key d = Some c -> P c.
Proof.
  unfold get_identity. intros Hd (kv & [Hk _]%find_first_Some & ->)%fmap_Some.
  by eapply Forall_forall in Hd.
Qed.

Lemma fold_identity_Forall {A} (f : list ((string * string * string) * RetrievalCandidate) -> A -> _) l d :
  (forall d a, a ∈ l -> Forall (fun kv => P (snd kv)) d -> Forall (fun kv => P (snd kv)) (f d a)) ->
  Forall (fun kv => P (snd kv)) d -> Forall (fun kv => P (snd kv)) (fold_left f l d).
Proof.
  revert d. induction l as [|a l IH]; intros d Hf Hd; simpl; [done|].
  apply IH; [|apply Hf; [left|done]]. intros d' a' Ha. apply Hf. by right.
Qed.

Lemma merge_Forall keyword vector n :
  Forall P keyword -> Forall P vector -> Forall P (merge_candidates keyword vector n).
Proof.
  intros Hk Hv. unfold merge_candidates. apply Forall_take, Forall_map.
  rewrite Forall_forall in Hk, Hv. apply fold_identity_Forall.
  - intros d [c x] Hc%elem_of_zip_l Hd. simpl in *. apply put_identity_Forall; [|done].
    destruct (get_identity _ d) as [e|] eqn:He; [|by apply (P_same c), Hv].
    apply (P_same e); [done|]. by eapply get_identity_P.
  - apply fold_identity_Forall; [|constructor].
    intros d [c x] Hc%elem_of_zip_l Hd. simpl in *. apply put_identity_Forall; [|done].
    by apply (P_same c), Hk.
Qed.
End Merge.

(** ** The steps of a search *)

Section Steps.
Context `{Unicode} `{Platform} `{RetrievalPorts} (lib : Library).

Lemma yields_pure {A} (o : outcome exn A) : yields (fun a => o = Ok a) (pure o).
Proof. unfold pure. destruct o; [by apply yields_ret|apply yields_raise]. Qed.

Lemma keyword_search_cites q rw query rows :
  yields (Forall (cites (q_source q) rows)) (keyword_search q rw query rows).
Proof.
  apply yields_map_m. intros r Hr%rank_rows. intros s s' c Hc%yields_pure.
  apply candidate_row in Hc as (? & ? & ? & ? & ? & ?). exists (fst r). by split.
Qed.

Lemma row_by_id_in rows i r : row_by_id rows i = Some r -> r ∈ rows.
Proof.
  intros [Hr _]%find_first_Some. rewrite list_elem_of_In in Hr |- *. by apply in_rev.
Qed.

Lemma vector_search_cites e m q rw query rows :
  yields (Forall (cites (q_source q) rows)) (vector_search e m q rw query rows).
Proof.
  unfold vector_search. do 2 (apply yields_bind; intros ?). apply yields_map_m.
  intros [h r] (h' & _ & Hr)%list_elem_of_omap.
  apply fmap_Some in Hr as (r' & Hr%row_by_id_in & [= -> ->]).
  eapply yields_bind_post; [apply yields_pure|]. intros c Hc.
  apply yields_ret, (cites_same _ _ c); [done|].
  apply candidate_row in Hc as (? & ? & ? & ? & ? & ?). exists r'. by split.
Qed.

Lemma vector_channel_cites q rw query rows :
  yields (fun x => Forall (cites (q_source q) rows) (fst x)) (vector_channel q rw query rows).
Proof.
  unfold vector_channel. destruct embedding_port as [e|]; [|by apply yields_ret; constructor].
  destruct milvus_port as [m|]; [|by apply yields_ret; constructor]. apply yields_catch.
  - eapply yields_bind_post; [apply vector_search_cites|]. intros cs Hcs. by apply yields_ret.
  - intros a. destruct (unavailable _ a); [by apply yields_ret; constructor|apply yields_raise].
Qed.

Lemma rerank_Forall (P : RetrievalCandidate -> Prop) query l :
  (forall c c', same_citation c c' -> P c -> P c') -> Forall P l ->
  yields (fun x => Forall P (fst x)) (rerank_channel query l).
Proof.
  intros HP Hl. unfold rerank_channel, no_reranker.
  destruct reranker_port as [r|]; [|by apply yields_ret]. apply yields_catch.
  - apply yields_bind. intros scores. eapply yields_bind_post with (P := Forall P).
    + apply yields_map_m. intros c Hc. destruct (scores !! _); [|apply yields_raise].
      apply yields_ret, (HP c); [done|]. rewrite Forall_forall in Hl. by apply Hl.
    + intros l' Hl'. by apply yields_ret.
  - intros a. destruct (unavailable _ a); [by apply yields_ret|apply yields_raise].
Qed.

Lemma score_all_Forall (P : RetrievalCandidate -> Prop) f l :
  (forall c c', same_citation c c' -> P c -> P c') -> Forall P l ->
  yields (Forall P) (score_all f l).
Proof.
  intros HP Hl. apply yields_map_m. intros c Hc. apply yields_bind. intros now.
  apply yields_ret, (HP c); [done|]. rewrite Forall_forall in Hl. by apply Hl.
Qed.

(** The items of a package are the candidates without their embeddings, all with valid
    scores. *)
Definition packaged (p : string) (c : RetrievalCandidate) (x : Ranked) : Prop :=
  x = mkRankedItem (c <| embedding := None |>) (Some p) /\ scores_valid c = true.

Definition source_limit (s : SourceType) : nat :=
  match s with SRC_MANUAL | SRC_CASE => 3 | _ => 2 end.

Lemma package_evidence rw f cs counts d w s :
  s <> SRC_GRAPH ->
  yields (fun p => exists l, Forall2 (packaged (pk_id p)) cs l
                     /\ evidence_of s p = take (source_limit s) (of_source s l))
    (build_evidence_package rw f cs counts d w).
Proof.
  intros Hs. unfold build_evidence_package. cbv zeta.
  eapply yields_bind_post; [apply yields_map_m2; intros c|].
  - instantiate (1 := packaged _). destruct (scores_valid c) eqn:E; [|apply yields_raise].
    by apply yields_ret.
  - intros l Hl. apply yields_bind. intros now. apply yields_ret. exists l. split; [done|].
    by destruct s.
Qed.

(** ** The result *)

(** What is right about a result, given the rows. *)
Record sound_result (q : Query) (rows : list Row) (r : RetrievalResult) : Prop := {
  sr_cites : Forall (cites (q_source q) rows) (map ranked (ranked_evidence r));
  sr_chosen : well_chosen (limits_of q) (map ranked (ranked_evidence r));
  sr_length : (length (ranked_evidence r) <= source_limit (q_source q))%nat;
  sr_valid : Forall (fun c => scores_valid c = true /\ embedding c = None)
               (map ranked (ranked_evidence r));
  sr_package : exists p, Forall (fun x => ranked_package x = Some p) (ranked_evidence r);
  sr_count : final_count (retrieval_metadata r) = length (ranked_evidence r);
  sr_partial : md_partial_result (retrieval_metadata r) = list_true (md_degraded (retrieval_metadata r));
  sr_sorted : Sorted String.le (md_degraded (retrieval_metadata r))
              /\ NoDup (md_degraded (retrieval_metadata r));
}.

Lemma list_true_sorted_set l : list_true (sorted_set l) = list_true l.
Proof.
  destruct (sorted_set l) as [|x k] eqn:E.
  - by apply sorted_set_nil in E as ->.
  - destruct l; [|done]. by rewrite (proj2 (sorted_set_nil [])) in E.
Qed.

Lemma of_source_all s l : (forall x, x ∈ l -> source_type (ranked x) = s) -> of_source s l = l.
Proof.
  intros Hs. unfold of_source. induction l as [|x l IH]; [done|].
  rewrite filter_cons_True by (apply Hs; left). f_equal. apply IH. intros y Hy. apply Hs. by right.
Qed.

Lemma packaged_map p cs l : Forall2 (packaged p) cs l ->
  map ranked l = map (fun c => c <| embedding := None |>) cs
  /\ Forall (fun c => scores_valid c = true) cs /\ Forall (fun x => ranked_package x = Some p) l.
Proof.
  induction 1 as [|c x cs l [-> Hv] _ (IH1 & IH2 & IH3)]; [done|]. simpl. rewrite IH1.
  split_and!; [done|by constructor|by constructor].
Qed.

Lemma fmap_take_sublist {A} n (l : list A) : take n l `sublist_of` l.
Proof. apply sublist_take. Qed.

Lemma conclude_sound q mode rw query rows keyword vector d w :
  q_source q <> SRC_GRAPH ->
  Forall (cites (q_source q) rows) keyword -> Forall (cites (q_source q) rows) vector ->
  yields (sound_result q rows) (conclude q mode rw query rows keyword vector d w).
Proof.
  intros Hs Hk Hv. unfold conclude. cbv zeta.
  pose proof (cites_same (q_source q) rows) as Hsame.
  eapply yields_bind_post with (P := fun x => Forall (cites (q_source q) rows) (fst x)).
  { destruct (_ && _); [|apply yields_ret; by apply merge_Forall].
    apply rerank_Forall; [done|]. by apply merge_Forall. }
  intros (merged & applied & more & w') Hm. simpl in Hm.
  eapply yields_bind_post; [by apply score_all_Forall|]. intros scored Hsc. simpl in Hsc.
  assert (Hone : all_of (q_source q) scored).
  { intros c Hc. rewrite Forall_forall in Hsc. by destruct (Hsc c Hc) as (r & _ & []). }
  destruct (deduplicate_one_source _ _ (limits_of q) Hone) as [Hin Hch].
  set (final := deduplicate_and_diversify scored (limits_of q)) in *.
  eapply yields_bind_post; [by apply (package_evidence _ _ _ _ _ _ (q_source q))|].
  intros p (l & Hl & He). apply yields_ret.
  destruct (packaged_map _ _ _ Hl) as (Em & Hval & Hp).
  rewrite of_source_all in He.
  2: { intros x Hx. assert (Hx' : ranked x ∈ map ranked l) by by apply list_elem_of_fmap_2.
       rewrite Em in Hx'. apply list_elem_of_fmap in Hx' as (c & -> & Hc). simpl.
       by apply Hone, Hin. }
  assert (Hmap : map ranked (evidence_of (q_source q) p)
    = map (fun c => c <| embedding := None |>) (take (source_limit (q_source q)) final)).
  { by rewrite He, <-!firstn_map, Em. }
  split; cbn [ranked_evidence retrieval_metadata final_count md_partial_result md_degraded].
  - rewrite Hmap. apply Forall_map, Forall_take, Forall_forall. intros c Hc.
    apply (Hsame c); [done|]. rewrite Forall_forall in Hsc. by apply Hsc, Hin.
  - rewrite Hmap. apply well_chosen_map; [done|].
    eapply well_chosen_sublist; [apply fmap_take_sublist|done].
  - rewrite He, length_take. lia.
  - rewrite Hmap. apply Forall_map, Forall_take, (Forall_impl _ _ _ Hval). by intros c Hc.
  - exists (pk_id p). rewrite He. by apply Forall_take.
  - done.
  - by rewrite list_true_sorted_set.
  - split; [apply sorted_set_Sorted|apply sorted_set_NoDup].
Qed.

Lemma search_sound q :
  q_source q <> SRC_GRAPH ->
  let strong := negb (bool_decide (default default_mode (q_mode q) = KEYWORD_ONLY)) in
  yields (fun r => exists rows,
      (forall x, x ∈ rows -> row_source x = q_source q
         /\ admitted lib (q_filters q) strong (q_verified_only q)
              (ftext "exclude_session_id" (q_filters q)) x)
      /\ sound_result q rows r) (search lib q).
Proof.
  intros Hs strong. unfold search. cbv zeta. apply yields_bind. intros rw.
  eapply yields_bind_post with (P := fun rows => forall x, x ∈ rows -> row_source x = q_source q
    /\ admitted lib (q_filters q) strong (q_verified_only q)
         (ftext "exclude_session_id" (q_filters q)) x).
  { unfold rows_of. apply yields_bind. intros _. apply yields_ret. intros x.
    destruct (q_source q); [by apply manual_candidates_admitted|by apply ticket_candidates_admitted
      |by apply case_candidates_admitted|done]. }
  intros rows Hrows.
  eapply yields_bind_post with (P := Forall (cites (q_source q) rows)).
  { destruct (bool_decide (_ = VECTOR_ONLY)); [by apply yields_ret|apply keyword_search_cites]. }
  intros keyword Hk.
  eapply yields_bind_post with (P := fun x => Forall (cites (q_source q) rows) (fst x)).
  { destruct (bool_decide (_ = KEYWORD_ONLY)); [|apply vector_channel_cites].
    apply yields_ret. constructor. }
  intros (vector & d & w) Hv. simpl in Hv. apply yields_bind. intros _.
  intros s s' r Hr. exists rows. split; [done|].
  exact (conclude_sound _ _ _ _ _ _ _ _ _ Hs Hk Hv s s' r Hr).
Qed.
End Steps.

(** ** Outages *)

(** [raises X m]: what [m] raises satisfies [X]. *)
Definition raises {S E A} (X : E -> Prop) (m : M S E A) : Prop :=
  forall s s' e, m s = (s', Raise e) -> X e.

Section Raises.
Context {S E : Type} (X : E -> Prop).

Lemma raises_ret {A} (a : A) : raises (S := S) X (ret a).
Proof. by intros s s' e. Qed.
Lemma raises_raise {A} e : X e -> raises (S := S) X (raise (A := A) e).
Proof. intros He s s' e' H. by injection H as _ <-. Qed.
Lemma raises_gets {A} (f : S -> A) : raises X (gets f).
Proof. by intros s s' e. Qed.
Lemma raises_modify f : raises (S := S) X (modify f).
Proof. by intros s s' e. Qed.
Lemma raises_guard (b : bool) e : (b = false -> X e) -> raises (S := S) X (guard b e).
Proof. destruct b; intros He; [apply raises_ret|by apply raises_raise, He]. Qed.

Lemma raises_bind {A B} (m : M S E A) (k : A -> M S E B) :
  raises X m -> (forall a, raises X (k a)) -> raises X (bind m k).
Proof.
  intros Hm Hk s s' e. unfold bind. destruct (m s) as [s1 [a|e1]] eqn:Em.
  - apply Hk.
  - intros [= _ <-]. by eapply Hm.
Qed.

Lemma raises_bind_yields {A B} (Q : A -> Prop) (m : M S E A) (k : A -> M S E B) :
  raises X m -> yields Q m -> (forall a, Q a -> raises X (k a)) -> raises X (bind m k).
Proof.
  intros Hm HQ Hk s s' e. unfold bind. destruct (m s) as [s1 [a|e1]] eqn:Em.
  - apply Hk. by eapply HQ.
  - intros [= _ <-]. by eapply Hm.
Qed.

Lemma raises_map_m {A B} (f : A -> M S E B) l :
  (forall a, a ∈ l -> raises X (f a)) -> raises X (map_m f l).
Proof.
  induction l as [|a l IH]; intros Hf; simpl; [apply raises_ret|].
  apply raises_bind; [apply Hf; left|]. intros b.
  apply raises_bind; [apply IH; intros x Hx; apply Hf; by right|]. intros bs. apply raises_ret.
Qed.

(** What the handler lets through. *)
Lemma raises_catch {A} (Y : E -> Prop) (m : M S E A) (h : E -> M S E A) :
  raises Y m -> (forall e, Y e -> raises X (h e)) -> raises X (catch m h).
Proof.
  intros Hm Hh s s' e. unfold catch. destruct (m s) as [s1 [a|e1]] eqn:Em; [done|].
  apply Hh. by eapply Hm.
Qed.
End Raises.

Section Outages.
Context `{Unicode} `{Platform} `{RetrievalPorts} (lib : Library).

(** The services answer what their contracts promise, or that they are unavailable:
    one vector per text, scores between 0 and 1, a score for every candidate. *)
Definition embedding_sane : Prop :=
  forall f n l, embedding_port = Some f ->
    match f n l with
    | Ok vs => length vs = length l
    | Raise a => unavailable [EmbeddingUnavailableError; MilvusUnavailableError] a = true
    end.
Definition milvus_sane : Prop :=
  forall f n s v ids k, milvus_port = Some f ->
    match f n s v ids k with
    | Ok hits => Forall (fun h => in_unit (hit_score h) = true) hits
    | Raise a => unavailable [EmbeddingUnavailableError; MilvusUnavailableError] a = true
    end.
Definition reranker_sane : Prop :=
  forall f n q cs, reranker_port = Some f ->
    match f n q cs with
    | Ok m => Forall (fun c => is_Some (m !! fst c)) cs
    | Raise a => unavailable [RerankerUnavailableError] a = true
    end.

Definition model_cancels (a : abort) : Prop :=
  exists f n r, model_rewrite = Some f /\ f n r = Raise a /\ a = Cancelled.
Definition database_fails (a : abort) : Prop := exists n, database n = Raise a.

Lemma raises_ask {A} (X : abort -> Prop) (f : nat -> outcome abort A) :
  (forall n a, f n = Raise a -> X a) -> raises X (ask f).
Proof.
  intros Hf. unfold ask. apply raises_bind; [apply raises_gets|]. intros n.
  apply raises_bind; [apply raises_modify|]. intros _.
  destruct (f n) as [a|e] eqn:E; [apply raises_ret|]. by eapply raises_raise, Hf.
Qed.

Lemma yields_ask {A} (Q : A -> Prop) (f : nat -> outcome abort A) :
  (forall n a, f n = Ok a -> Q a) -> yields Q (ask f).
Proof.
  intros Hf. unfold ask. apply yields_bind. intros n. apply yields_bind. intros _.
  destruct (f n) as [a|e] eqn:E; [|apply yields_raise]. by eapply yields_ret, Hf.
Qed.

Lemma rewrite_of_raises q : raises model_cancels (rewrite_of q).
Proof.
  unfold rewrite_of. cbv zeta. apply raises_bind; [apply raises_gets|].
  intros [r|]; [apply raises_ret|]. apply raises_bind; [apply raises_gets|]. intros n.
  apply raises_bind; [apply raises_modify|]. intros _. apply raises_bind.
  - lazymatch goal with |- raises _ (match ?x with _ => _ end) => destruct x as [r|e] eqn:E end;
      [apply raises_ret|]. apply raises_raise.
    apply rewrite_query_raises in E as (p & r & Hp & Hr & ->).
    apply fmap_Some in Hp as (g & Hg & ->). by exists g, n, r.
  - intros r. apply raises_bind; [apply raises_modify|]. intros _. apply raises_ret.
Qed.

Lemma rows_of_raises q mode : raises database_fails (rows_of lib q mode).
Proof.
  unfold rows_of. apply raises_bind; [|by intros _; apply raises_ret].
  apply raises_ask. intros n a Ha. by exists n.
Qed.

Definition invalid (a : abort) : Prop := a = Exc ValidationError.

Lemma keyword_raises q rw query rows : raises invalid (keyword_search q rw query rows).
Proof.
  apply raises_map_m. intros r _. unfold pure, candidate. destruct (_ && _);
    [apply raises_ret|by apply raises_raise].
Qed.
Abbreviation vector_down := [EmbeddingUnavailableError; MilvusUnavailableError].

Lemma fold_insert_is_Some {A B} (key : A -> string) (l : list (A * B)) (m : gmap string B) a :
  a ∈ map fst l \/ is_Some (m !! key a) ->
  is_Some (fold_left (fun m p => <[key (fst p) := snd p]> m) l m !! key a).
Proof.
  revert m. induction l as [|[a' b] l IH]; intros m; simpl.
  - by intros [?%elem_of_nil|?].
  - intros Ha. apply IH. rewrite elem_of_cons in Ha.
    destruct (decide (key a' = key a)) as [E|E].
    + right. rewrite E, lookup_insert_eq. by eexists.
    + rewrite lookup_insert_ne by done. destruct Ha as [[->|?]|?]; [done|by left|by right].
Qed.

Lemma vector_of_raises f q rw query :
  embedding_sane -> embedding_port = Some f -> query ∈ [manual_query rw; ticket_query rw] ->
  raises (fun a => unavailable vector_down a = true) (vector_of f q rw query).
Proof.
  intros He Hf Hq. unfold vector_of. apply raises_bind; [apply raises_gets|].
  intros [v|]; [apply raises_ret|]. cbv zeta.
  apply (raises_bind_yields _ (fun vs => length vs = length (unique [manual_query rw; ticket_query rw]))).
  - apply raises_ask. intros n a Ha. specialize (He f n (unique [manual_query rw; ticket_query rw]) Hf).
    by rewrite Ha in He.
  - apply yields_ask. intros n a Ha. specialize (He f n (unique [manual_query rw; ticket_query rw]) Hf).
    by rewrite Ha in He.
  - intros vs Hvs. apply raises_bind; [apply raises_modify|]. intros _.
    unfold zip_strict. rewrite Hvs, Nat.eqb_refl.
    intros s s' e. rewrite bind_ret, bind_modify, bind_gets. cbn [vectors set].
    match goal with |- context [fold_left ?g ?l ?m !! ?k] =>
      destruct (fold_insert_is_Some (vector_key q) l m query) as [v Hv] end.
    + left. change (query ∈ (zip (unique [manual_query rw; ticket_query rw]) vs).*1).
      rewrite fst_zip by lia. by apply elem_of_unique.
    + cbn beta in Hv |- *. rewrite Hv. done.
Qed.

Lemma vector_channel_raises q rw query rows :
  embedding_sane -> milvus_sane -> query ∈ [manual_query rw; ticket_query rw] ->
  raises (fun _ => False) (vector_channel q rw query rows).
Proof.
  intros He Hm Hq. unfold vector_channel.
  destruct embedding_port as [f|] eqn:Ef; [|apply raises_ret].
  destruct milvus_port as [g|] eqn:Eg; [|apply raises_ret].
  apply (raises_catch _ (fun a => unavailable vector_down a = true)).
  2: { intros a Ha. rewrite Ha. apply raises_ret. }
  apply raises_bind; [|intros cs; apply raises_ret]. unfold vector_search.
  apply raises_bind; [by apply vector_of_raises|]. intros v.
  apply (raises_bind_yields _ (Forall (fun h => in_unit (hit_score h) = true))).
  - apply raises_ask. intros n a Ha.
    specialize (Hm g n (q_source q) v (map row_id rows) vector_top_n Eg). by rewrite Ha in Hm.
  - apply yields_ask. intros n a Ha.
    specialize (Hm g n (q_source q) v (map row_id rows) vector_top_n Eg). by rewrite Ha in Hm.
  - intros hits Hh. apply raises_map_m. intros [h r] Hin.
    apply list_elem_of_omap in Hin as (h' & Hin & E).
    apply fmap_Some in E as (r' & _ & [= -> ->]). rewrite Forall_forall in Hh.
    apply raises_bind; [|intros c; apply raises_ret]. simpl. unfold candidate. simpl.
    rewrite (Hh h' Hin). apply raises_ret.
Qed.

Lemma rerank_raises query l :
  reranker_sane -> raises (fun _ => False) (rerank_channel query l).
Proof.
  intros Hr. unfold rerank_channel. destruct reranker_port as [f|] eqn:Ef; [|apply raises_ret].
  set (cs := map (fun c => (identity_text c, content_summary c)) l).
  apply (raises_catch _ (fun a => unavailable [RerankerUnavailableError] a = true)).
  2: { intros a Ha. rewrite Ha. apply raises_ret. }
  apply (raises_bind_yields _ (fun m => Forall (fun c => is_Some (m !! fst c)) cs)).
  - apply raises_ask. intros n a Ha. specialize (Hr f n query cs Ef). by rewrite Ha in Hr.
  - apply yields_ask. intros n a Ha. specialize (Hr f n query cs Ef). by rewrite Ha in Hr.
  - intros m Hm. apply raises_bind; [|intros l'; apply raises_ret]. apply raises_map_m.
    intros c Hc. unfold cs in Hm. rewrite Forall_map, Forall_forall in Hm.
    destruct (Hm c Hc) as [x Hx]. simpl in Hx. rewrite Hx. apply raises_ret.
Qed.

Lemma conclude_raises q mode rw query rows keyword vector d w :
  reranker_sane -> raises invalid (conclude q mode rw query rows keyword vector d w).
Proof.
  intros Hr. unfold conclude. cbv zeta. apply raises_bind.
  { destruct (_ && _); [|apply raises_ret]. intros s s' e H'.
    by destruct (rerank_raises _ _ Hr _ _ _ H'). }
  intros (merged & applied & more & w'). apply raises_bind.
  { apply raises_map_m. intros c _. apply raises_bind; [by apply raises_ask|].
    intros now. apply raises_ret. }
  intros scored. apply raises_bind; [|intros p; apply raises_ret].
  unfold build_evidence_package. cbv zeta. apply raises_bind.
  - apply raises_map_m. intros c _. destruct (scores_valid c); [apply raises_ret|by apply raises_raise].
  - intros l. apply raises_bind; [by apply raises_ask|]. intros now. apply raises_ret.
Qed.

Definition channels_failed (a : abort) : Prop := a = Exc (Domain RetrievalChannelsFailedError []).

Lemma raises_weaken {S E A} (X Y : E -> Prop) (m : M S E A) :
  (forall e, X e -> Y e) -> raises X m -> raises Y m.
Proof. intros HXY Hm s s' e He. by eapply HXY, Hm. Qed.

Lemma search_raises q :
  embedding_sane -> milvus_sane -> reranker_sane ->
  raises (fun a => model_cancels a \/ database_fails a \/ invalid a
                   \/ (channels_failed a /\ default default_mode (q_mode q) = VECTOR_ONLY))
    (search lib q).
Proof.
  intros He Hm Hr. unfold search. cbv zeta.
  apply raises_bind; [eapply raises_weaken; [|apply rewrite_of_raises]; auto|]. intros rw.
  apply raises_bind; [eapply raises_weaken; [|apply rows_of_raises]; auto|]. intros rows.
  apply raises_bind.
  { destruct (bool_decide (_ = VECTOR_ONLY)); [apply raises_ret|].
    eapply raises_weaken; [|apply keyword_raises]; auto. }
  intros keyword. apply raises_bind.
  { destruct (bool_decide (_ = KEYWORD_ONLY)); [apply raises_ret|].
    eapply raises_weaken; [|apply vector_channel_raises]; [done..|].
    destruct (bool_decide _); [left|right; left]. }
  intros (vector & d & w). apply raises_bind.
  - apply raises_guard. intros [[[_ _]%andb_true_iff Hv]%andb_true_iff _]%negb_false_iff%andb_true_iff.
    apply bool_decide_eq_true in Hv. by do 3 right.
  - intros _. eapply raises_weaken; [|by apply conclude_raises]; auto.
Qed.
End Outages.
