(* ===== verification/Providers.v ===== *)
(** * The clients of the model services and of the vector store

    [providers/embedding.py], [providers/reranker.py] and [providers/milvus.py]: what
    they make of the answers of the services, with their retries and circuit
    breakers. The HTTP client and pymilvus are parameters: an answer is a status
    with its JSON body, or an exception. *)

From Stdlib Require Import SpecFloat.
From S2P Require Import Prelude Errors Json Breaker Tools Float Text Regex Scoring Retrieval.
Open Scope Z_scope.

(** ** JSON values in Python *)

Inductive jvalue : Type :=
| JvNone
| JvBool (b : bool)
| JvInt (z : Z)
| JvNum (x : float)
| JvStr (s : string)
| JvList (l : list jvalue)
| JvDict (kvs : list (string * jvalue)).

(** [float(s)] and [int(s)] of a text, [None] for ValueError. *)
Class Numerals := mkNumerals {
  float_text : string -> option float;
  int_text : string -> option Z;
}.

(** The requests of the providers. *)
Inductive request : Type :=
| PostEmbeddings (texts : list string)
| PostRerank (query : string) (documents : list string)
| MilvusSearch (source : SourceType) (vector : list float) (allowed_ids : list string) (limit : nat)
| MilvusWrite (source : SourceType) (ids : list string)
| PostModel (endpoint : string) (payload : json).

(** A hit of pymilvus, with [distance] as a number. *)
Record RawHit := mkRawHit {
  rh_id : string;
  rh_distance : float;
  rh_source_id : string;
  rh_embedding : option (list float);
}.

(** The world of the providers: the answer to the n-th request, which may be an
    exception (TimeoutError and ConnectionError stand for the timeouts and network
    errors of httpx) or the cancellation of the task. *)
Class Remote := mkRemote {
  http : nat -> request -> outcome abort (Z * option jvalue);
  milvus_client : nat -> request -> outcome abort (list (list RawHit));
  monotonic : nat -> Z;
}.

Section Python.
Context `{Numerals}.

(** [float(v)] *)
Definition py_float (v : jvalue) : outcome exn float :=
  match v with
  | JvBool b => Ok (if b then one else zero)
  | JvInt z => if is_finite (float_of_Z z) then Ok (float_of_Z z) else Raise OverflowError
  | JvNum x => Ok x
  | JvStr s => match float_text s with Some x => Ok x | None => Raise ValueError end
  | _ => Raise TypeError
  end.

(** [int(v)] *)
Definition py_int (v : jvalue) : outcome exn Z :=
  match v with
  | JvBool b => Ok (Z.b2z b)
  | JvInt z => Ok z
  | JvNum S754_nan => Raise ValueError
  | JvNum (S754_infinity _) => Raise OverflowError
  | JvNum x => Ok (truncated x)
  | JvStr s => match int_text s with Some z => Ok z | None => Raise ValueError end
  | _ => Raise TypeError
  end.

(** [v.get(key)]: a value that is not a dict has no such method. *)
Definition py_get (key : string) (v : jvalue) : outcome exn (option jvalue) :=
  match v with
  | JvDict kvs => Ok (snd <$> find_first (fun kv => bool_decide (fst kv = key)) kvs)
  | _ => Raise AttributeError
  end.

Definition lift {S A} (o : outcome exn A) : M S abort A :=
  match o with Ok a => ret a | Raise e => raise (Exc e) end.

(** [sorted(l, key=...)] of items with their keys: stable. *)
Definition key_le {A} (x y : Z * A) : Prop := fst x <= fst y.
#[export] Instance key_le_dec {A} : RelDecision (key_le (A := A)).
Proof. intros x y. apply Z_le_dec. Defined.
Definition sorted_by {A} : list (Z * A) -> list (Z * A) := stable_sort key_le.

(** [max(0.0, min(1.0, x))] *)
Definition clipped (x : float) : float := fmax zero (fmin one x).
End Python.

(** ** What the providers share *)

(** The attributes of a provider that change: the state of its breaker, the requests
    made, most recent first, and how often the clock was read. *)
Record Provider := mkProvider {
  pv_breaker : option CircuitBreaker;
  pv_requests : list request;
  pv_readings : nat;
}.
#[export] Instance Provider_eta : Eta Provider := fun p =>
  mkProvider (pv_breaker p) (pv_requests p) (pv_readings p).

Section Calls.
Context `{Remote}.

(** [self.circuit_breaker.allow()], with CircuitOpenError turned into [error].
    [providers/milvus.py:160-165 MilvusVectorProvider._allow] *)
Definition _allow (error : error_class) : M Provider abort unit := fun p =>
  match pv_breaker p with
  | None => (p, Ok tt)
  | Some b =>
      let '(b', ok) := allow (monotonic (pv_readings p)) (monotonic (S (pv_readings p))) b in
      (p <| pv_breaker := Some b' |> <| pv_readings := S (S (pv_readings p)) |>,
       if ok then Ok tt else Raise (Exc (Domain error [])))
  end.
(** [providers/milvus.py:167-169 MilvusVectorProvider._success] *)
Definition _success : M Provider abort unit :=
  modify (fun p => p <| pv_breaker := record_success <$> pv_breaker p |>).
(** [providers/milvus.py:171-173 MilvusVectorProvider._failure] *)
Definition _failure (countable : bool) : M Provider abort unit :=
  modify (fun p => p <| pv_breaker := record_failure (monotonic (pv_readings p)) countable <$> pv_breaker p |>
                     <| pv_readings ::= S |>).

(** A request is made, and answered. *)
Definition ask_remote {A} (f : nat -> request -> outcome abort A) (r : request) : M Provider abort A :=
  n <- gets (fun p => length (pv_requests p)) ;;
  modify (fun p => p <| pv_requests ::= cons r |>) ;;;
  match f n r with Ok a => ret a | Raise a => raise a end.

(** A response that is not a success raises: [unavailable] for 429 and for the
    statuses from 500, HTTPStatusError otherwise; a body that is not JSON raises
    JSONDecodeError, a ValueError. *)
Definition post (r : request) (unavailable : error_class) : M Provider abort jvalue :=
  answer <- ask_remote http r ;;
  guard (negb ((fst answer =? 429) || (500 <=? fst answer))) (Exc (Domain unavailable [])) ;;;
  guard ((200 <=? fst answer) && (fst answer <? 300)) (Exc ProviderError) ;;;
  match snd answer with Some v => ret v | None => raise (Exc ValueError) end.

(** What the loop tries again after, and what it records without counting it. *)
Definition transient (down : error_class) (a : abort) : bool :=
  match a with
  | Exc TimeoutError | Exc ConnectionError => true
  | _ => unavailable [down] a
  end.

(** The loop over the attempts; [left] of them may follow this one. *)
Fixpoint attempts {A} (left : nat) (down : error_class) (rejected : list error_class)
    (once : M Provider abort A) : M Provider abort A :=
  catch (a <- once ;; _success ;;; ret a)
    (fun e =>
       if transient down e then
         match left with
         | O => _failure true ;;; raise (Exc (Domain down []))
         | S n => attempts n down rejected once
         end
       else if unavailable rejected e then _failure false ;;; raise e
       else raise e).
End Calls.

(** ** Embeddings *)

(** [providers/embedding.py:19-40 OpenAICompatibleEmbeddingProvider.__init__] *)
Record EmbeddingConfig := mkEmbeddingConfig {
  em_dimension : nat;
  em_batch_size : nat;
  em_max_retries : nat;
}.

Section Embedding.
Context `{Remote} `{Numerals} (cfg : EmbeddingConfig).

Definition bad_embedding (c : error_class) : abort := Exc (Domain c []).

(** [providers/embedding.py:62-64 vectors] *)
Definition vector_items (vectors : list (option jvalue)) : option (list (list jvalue)) :=
  mapM (fun v => match v with Some (JvList l) => Some l | _ => None end) vectors.

(** What a body says, for this many texts.
    [providers/embedding.py:42-93 OpenAICompatibleEmbeddingProvider._batch] *)
Definition read_vectors (n : nat) (body : jvalue) : M Provider abort (list (list float)) :=
  data <- lift (py_get "data" body) ;;
  match data with
  | Some (JvList data) =>
      guard (length data =? n)%nat (bad_embedding EmbeddingResponseError) ;;;
      keyed <- map_m (fun item =>
        index <- lift (py_get "index" item) ;;
        k <- lift (py_int (default (JvInt 0) index)) ;;
        ret (k, item)) data ;;
      vectors <- map_m (fun item => lift (py_get "embedding" (snd item))) (sorted_by keyed) ;;
      match vector_items vectors with
      | None => raise (bad_embedding EmbeddingResponseError)
      | Some vectors =>
          typed <- map_m (map_m (fun x => lift (py_float x))) vectors ;;
          guard (forallb (fun v => (length v =? em_dimension cfg)%nat) typed)
            (bad_embedding EmbeddingDimensionError) ;;;
          guard (forallb (forallb is_finite) typed) (bad_embedding EmbeddingResponseError) ;;;
          ret typed
      end
  | _ => raise (bad_embedding EmbeddingResponseError)
  end.

(** [providers/embedding.py:42-93 OpenAICompatibleEmbeddingProvider._batch] *)
Definition _batch (texts : list string) : M Provider abort (list (list float)) :=
  _allow EmbeddingUnavailableError ;;;
  attempts (em_max_retries cfg) EmbeddingUnavailableError [EmbeddingResponseError; EmbeddingDimensionError]
    (body <- post (PostEmbeddings (map (str_take 16000) texts)) EmbeddingUnavailableError ;;
     read_vectors (length texts) body).

(** [range(0, len(texts), batch_size)] with the batch of each start; the number of
    texts is enough fuel ([batches_concat]). *)
Fixpoint batches (fuel size : nat) (texts : list string) : list (list string) :=
  match fuel, texts with
  | S n, _ :: _ => take size texts :: batches n size (drop size texts)
  | _, _ => []
  end.

(** [providers/embedding.py:95-99 OpenAICompatibleEmbeddingProvider.embed]; a step of
    0 is a ValueError of [range]. *)
Definition embed (texts : list string) : M Provider abort (list (list float)) :=
  guard (0 <? em_batch_size cfg)%nat (Exc ValueError) ;;;
  vectors <- map_m _batch (batches (length texts) (em_batch_size cfg) texts) ;;
  ret (concat vectors).

(** [providers/embedding.py:101-102 OpenAICompatibleEmbeddingProvider.health] *)
Definition embedding_health : M Provider abort bool :=
  vectors <- embed ["health"] ;;
  match vectors with
  | v :: _ => ret (length v =? em_dimension cfg)%nat
  | [] => raise (Exc IndexError)
  end.
End Embedding.

(** ** Reranking *)

Section Reranker.
Context `{Remote} `{Numerals} (max_retries : nat).

(** [ids[index]]: a negative index counts from the end. *)
Definition py_index (ids : list string) (index : Z) : outcome exn string :=
  let i := if index <? 0 then index + Z.of_nat (length ids) else index in
  if i <? 0 then Raise IndexError
  else match ids !! Z.to_nat i with Some x => Ok x | None => Raise IndexError end.

Definition integer_of (v : option jvalue) : option Z :=
  match v with Some (JvInt z) => Some z | Some (JvBool b) => Some (Z.b2z b) | _ => None end.
Definition numeric (v : option jvalue) : option jvalue :=
  match v with Some (JvInt _) | Some (JvBool _) | Some (JvNum _) => v | _ => None end.

Definition bad_rerank : abort := Exc (Domain RerankerResponseError []).

(** [providers/reranker.py:31-80 HttpRerankerProvider.rerank] *)
Definition read_result (ids : list string) (output : gmap string float) (result : jvalue)
  : M Provider abort (gmap string float) :=
  index <- lift (py_get "index" result) ;;
  relevance <- lift (py_get "relevance_score" result) ;;
  plain <- lift (py_get "score" result) ;;
  let score := match relevance with Some v => Some v | None => plain end in
  match integer_of index, numeric score with
  | Some index, Some score =>
      guard (index <? Z.of_nat (length ids)) bad_rerank ;;;
      identifier <- lift (py_index ids index) ;;
      x <- lift (py_float score) ;;
      ret (<[identifier := clipped x]> output)
  | _, _ => raise bad_rerank
  end.
Fixpoint read_results (ids : list string) (output : gmap string float) (results : list jvalue)
  : M Provider abort (gmap string float) :=
  match results with
  | [] => ret output
  | r :: results' => output' <- read_result ids output r ;; read_results ids output' results'
  end.

(** [providers/reranker.py:31-80 HttpRerankerProvider.rerank] *)
Definition read_scores (ids : list string) (body : jvalue) : M Provider abort (gmap string float) :=
  results <- lift (py_get "results" body) ;;
  match results with
  | Some (JvList results) =>
      guard (length results =? length ids)%nat bad_rerank ;;;
      output <- read_results ids ∅ results ;;
      guard (bool_decide (dom output = list_to_set (C := gset string) ids)) bad_rerank ;;;
      ret output
  | _ => raise bad_rerank
  end.

(** [providers/reranker.py:31-80 HttpRerankerProvider.rerank] *)
Definition rerank (query : string) (candidates : list (string * string))
  : M Provider abort (gmap string float) :=
  let ids := map fst candidates in
  _allow RerankerUnavailableError ;;;
  attempts max_retries RerankerUnavailableError [RerankerResponseError]
    (body <- post (PostRerank (str_take 8000 query) (map (fun c => str_take 8000 (snd c)) candidates))
               RerankerUnavailableError ;;
     read_scores ids body).

(** [providers/reranker.py:85-87 HttpRerankerProvider.health] *)
Definition reranker_health : M Provider abort bool :=
  scores <- rerank "temperature alarm" [("health", "temperature alarm")] ;;
  ret (bool_decide (is_Some (scores !! "health"))).
End Reranker.

(** ** The vector store *)

Section Milvus.
Context `{Remote} (dimension : nat).

(** [except Exception]: a failure is counted, whatever it was. *)
Definition guarded {A} (m : M Provider abort A) : M Provider abort A :=
  except (a <- m ;; _success ;;; ret a)
    (fun _ => _failure true ;;; raise (Exc (Domain MilvusUnavailableError []))).

Definition hit_of (h : RawHit) : Hit := mkHit (rh_id h) (clipped (rh_distance h)) (rh_embedding h).

(** [providers/milvus.py:111-148 MilvusVectorProvider.search] *)
Definition milvus_search (source : SourceType) (vector : list float) (allowed_ids : list string)
    (limit : nat) : M Provider abort (list Hit) :=
  guard (length vector =? dimension)%nat (Exc (Domain MilvusSchemaMismatchError [])) ;;;
  if negb (list_true allowed_ids) then ret []
  else
    _allow MilvusUnavailableError ;;;
    guarded (
      result <- ask_remote milvus_client (MilvusSearch source vector allowed_ids limit) ;;
      match result with
      | hits :: _ => ret (map hit_of hits)
      | [] => raise (Exc IndexError)
      end).

(** [providers/milvus.py:100-109 MilvusVectorProvider.upsert]; the flush is a second
    call of the client. *)
Definition milvus_upsert (source : SourceType) (ids : list string) : M Provider abort unit :=
  _allow MilvusUnavailableError ;;;
  guarded (
    ask_remote milvus_client (MilvusWrite source ids) ;;;
    ask_remote milvus_client (MilvusWrite source []) ;;;
    ret tt).
End Milvus.

(** ** The document store *)

Section DocumentStore.
(** The hash, and what the n-th call of the client answers: whether the bucket is there,
    and what a written or read object gives. *)
Context (sha256 : string -> string) (bucket_exists : nat -> outcome abort bool)
  (make_bucket : nat -> outcome abort unit) (put_object : nat -> string -> string -> outcome abort unit)
  (get_object : nat -> string -> outcome abort string).
Abbreviation S3 := (M nat abort).

Definition ask_minio {A} (f : nat -> outcome abort A) : S3 A := fun n => (S n, f n).
Definition minio_guarded {A} (m : S3 A) : S3 A :=
  except m (fun _ => raise (Exc (Domain MinioUnavailableError []))).

(** [providers/minio.py:33-39 ensure_bucket] *)
Definition ensure_bucket : S3 unit :=
  minio_guarded (there <- ask_minio bucket_exists ;; when (negb there) (ask_minio make_bucket)).
(** [providers/minio.py:68-77 get] *)
Definition get_document (object_key : string) : S3 string :=
  minio_guarded (ask_minio (fun n => get_object n object_key)).
(** An object is written, read back and compared.
    [providers/minio.py:41-66 put_verified] *)
Definition put_verified (object_key content : string) : S3 string :=
  let checksum := sha256 content in
  loaded <- minio_guarded (ask_minio (fun n => put_object n object_key content) ;;; get_document object_key) ;;
  guard (bool_decide (sha256 loaded = checksum)) (Exc (Domain MinioChecksumMismatchError [])) ;;;
  ret checksum.

(** A document is accepted only when the store gave it back: what was read has the hash of
    what was written, which is the hash that is returned. Otherwise the store is reported
    as unavailable or the document as damaged, or the task was cancelled. *)
Theorem put_verified_reads_back object_key content n n' o :
  put_verified object_key content n = (n', o) ->
  match o with
  | Ok checksum => checksum = sha256 content
      /\ put_object n object_key content = Ok tt
      /\ exists loaded, get_object (S n) object_key = Ok loaded /\ sha256 loaded = sha256 content
  | Raise (Exc e) => e = Domain MinioUnavailableError [] \/ e = Domain MinioChecksumMismatchError []
  | Raise Cancelled => put_object n object_key content = Raise Cancelled
                       \/ get_object (S n) object_key = Raise Cancelled
  end.
Proof.
  unfold put_verified, get_document, minio_guarded, ask_minio, except, catch, bind, guard, raise, ret.
  destruct (put_object n object_key content) as [[]|[e|]] eqn:Ep; cbn.
  - destruct (get_object (S n) object_key) as [loaded|[e|]] eqn:Eg; cbn.
    + case_bool_decide as Eh; intros [= <- <-]; [|by right]. split_and!; eauto.
    + intros [= <- <-]. by left.
    + intros [= <- <-]. by right.
  - intros [= <- <-]. by left.
  - intros [= <- <-]. by left.
Qed.
End DocumentStore.
