(* ===== verification/RetrievalRuns.v ===== *)
(** * Searches: theorems, composition with the case lifecycle, concrete runs *)

From stdpp Require Import pretty.
From S2P Require Import Prelude Errors Json Contracts Store CaseInv Consumer System.
From S2P Require Import Float Text Regex Tools Scoring Selection Rewrite Library Retrieval RetrievalProps.
Open Scope Z_scope.

(** ** Theorems *)

(** C16: the evidence of a search is real. Whatever the vector store, the reranker and
    the model answer, every piece of evidence carries the identifier, the text, the
    citation and the metadata of a row of the library the filters of the query admit;
    no identity occurs twice, none has a final score below the threshold, no document
    or ticket exceeds its limit, and there are at most three pieces (two for
    tickets). *)
Theorem search_cites_the_library `{Unicode} `{Platform} `{RetrievalPorts} lib q s s' r :
  q_source q <> SRC_GRAPH -> search lib q s = (s', Ok r) ->
  let evidence := map ranked (ranked_evidence r) in
  let strong := negb (bool_decide (default default_mode (q_mode q) = KEYWORD_ONLY)) in
  (forall c, c ∈ evidence -> exists row,
      row_source row = q_source q /\ of_row (q_source q) row c
      /\ admitted lib (q_filters q) strong (q_verified_only q)
           (ftext "exclude_session_id" (q_filters q)) row)
  /\ NoDup (map identity evidence)
  /\ (forall c, c ∈ evidence -> flt (final_score c) (q_threshold q) = false
        /\ (length (filter (fun x => document x = document c) evidence)
            <= if bool_decide (source_type c = SRC_MANUAL) then max_chunks else max_per_ticket)%nat)
  /\ (length evidence <= if bool_decide (q_source q = SRC_TICKET) then 2 else 3)%nat.
Proof.
  intros Hs Hr evidence strong.
  destruct (search_sound lib q Hs s s' r Hr) as (rows & Hrows & [Hc [W1 W2 W3 _] Hl _ _ _ _ _]).
  fold evidence in Hc, W1, W2, W3. rewrite Forall_forall in Hc, W3. split_and!.
  - intros c Hin. destruct (Hc c Hin) as (row & Hrow & Ho).
    destruct (Hrows row Hrow) as [? ?]. by exists row.
  - done.
  - intros c Hin. split; [by apply W3|by apply W2].
  - unfold evidence. rewrite length_map. by destruct (q_source q).
Qed.

(** C19: the result of a search is well formed: all scores lie between 0 and 1, every
    piece of evidence carries the identifier of the same package and no embedding, the
    count is right, the degraded components are sorted and distinct, and the result is
    called partial exactly when there are some. *)
Theorem search_result_well_formed `{Unicode} `{Platform} `{RetrievalPorts} lib q s s' r :
  q_source q <> SRC_GRAPH -> search lib q s = (s', Ok r) ->
  let m := retrieval_metadata r in
  Forall (fun c => Forall (fun x => in_unit x = true)
      (omap id [keyword_score c; vector_score c; rerank_score c]
       ++ [source_reliability c; verification_score c; freshness_score c; relevance_to_alarm c;
           cd_retrieval_score c; final_score c]) /\ embedding c = None)
    (map ranked (ranked_evidence r))
  /\ (exists p, Forall (fun x => ranked_package x = Some p) (ranked_evidence r))
  /\ final_count m = length (ranked_evidence r)
  /\ Sorted String.le (md_degraded m) /\ NoDup (md_degraded m)
  /\ (md_partial_result m = true <-> md_degraded m <> []).
Proof.
  intros Hs Hr m.
  destruct (search_sound lib q Hs s s' r Hr) as (rows & _ & [_ _ _ Hv Hp Hn Hd [Hso Hnd]]).
  split_and!; try done.
  - apply (Forall_impl _ _ _ Hv). intros c [Hc ?]. split; [|done].
    unfold scores_valid in Hc. rewrite !andb_true_iff in Hc.
    destruct Hc as ((((((((? & ?) & ?) & ?) & ?) & ?) & ?) & ?) & ?).
    apply Forall_app. split; [|by repeat constructor].
    destruct (keyword_score c), (vector_score c), (rerank_score c); by repeat constructor.
  - subst m. rewrite Hd. by destruct (md_degraded _).
Qed.

(** C18: outages degrade a search and do not fail it. When embedding service, vector
    store and reranker each answer as they promise or report that they are
    unavailable, a search raises only what the database raises, the cancellation of
    the model's answer, a score that is not between 0 and 1, or, in vector-only mode,
    that the channel gave nothing. *)
Theorem outages_only_degrade `{Unicode} `{Platform} `{RetrievalPorts} lib q s s' a :
  embedding_sane -> milvus_sane -> reranker_sane -> search lib q s = (s', Raise a) ->
  (exists n, database n = Raise a) \/ (a = Cancelled /\ model_rewrite <> None)
  \/ a = Exc ValidationError
  \/ (a = Exc (Domain RetrievalChannelsFailedError [])
      /\ default default_mode (q_mode q) = VECTOR_ONLY).
Proof.
  intros He Hm Hr Hs. destruct (search_raises lib q He Hm Hr s s' a Hs) as [H'|[H'|[H'|H']]].
  - destruct H' as (f & n & rw & Hf & _ & ->). right. left. by rewrite Hf.
  - by left.
  - by do 2 right; left.
  - by do 3 right.
Qed.

(** C17: what a search for cases cites is published. In every state the case service
    and the worker reach together, a cited case is approved, by a reviewer who is not
    its author, indexed, complete, and not of the session that searches. *)
Theorem cited_cases_are_published `{Env} `{Unicode} `{Platform} `{RetrievalPorts}
  cfg cc w lib q s s' r :
  rtc (sys_op cfg cc) empty_world w ->
  (forall c, c ∈ lb_cases lib -> exists cid, cases w !! cid = Some c) ->
  q_source q = SRC_CASE -> search lib q s = (s', Ok r) ->
  Forall (fun e => exists cid c actor, cases w !! cid = Some c /\ source_id e = cid
      /\ review_status c = APPROVED /\ Store.index_status c ∈ [IDX_INDEXED; IDX_DEGRADED]
      /\ complete c /\ reviewer c = Some actor /\ actor <> created_by c
      /\ (forall sid, ftext "exclude_session_id" (q_filters q) = Some sid ->
            source_session_id c <> sid))
    (map ranked (ranked_evidence r)).
Proof.
  intros [Hi _]%sys_ops_keep Hlib Hq Hr.
  destruct (search_sound lib q (ltac:(by rewrite Hq)) s s' r Hr) as (rows & Hrows & [Hc _ _ _ _ _ _ _]).
  apply (Forall_impl _ _ _ Hc). intros e (row & Hrow & []).
  destruct (Hrows row Hrow) as [Hsrc Ha]. rewrite Hq in Hsrc.
  destruct row as [| |c]; try done. destruct Ha as [Hin Hok].
  destruct (Hlib c Hin) as [cid Hcid]. destruct (Hi _ _ Hcid) as [K A C P].
  unfold case_ok in Hok. rewrite !andb_true_iff, !bool_decide_eq_true in Hok.
  destruct Hok as (((((((Hst & Hix) & Hact) & _) & _) & _) & _) & Hex).
  destruct (P (ltac:(by rewrite Hst))) as (actor & ev & Hrev & Hne & _).
  exists cid, c, actor. split_and!; try done.
  - simpl in *. congruence.
  - apply C. by rewrite Hst.
  - intros sid Hsid. rewrite Hsid in Hex. apply ftext_true in Hsid. rewrite Hsid in Hex. simpl in Hex.
    by apply negb_true_iff, bool_decide_eq_false in Hex.
Qed.

(** ** A small library *)

Definition demo_chunk (i doc content : string) : ChunkRow :=
  mkChunkRow i doc "PCS" (Some "PCS-100") None (Some "温度告警") "散热" (Some 12) "维护步骤"
    content "v1" true true (Some "g1").
Definition demo_document : ManualDocument :=
  mkDocument "M1" "v1" "PCS" None None true "APPROVED" (Some "g1") IDX_INDEXED None "" "" 2 0.
Definition demo_ticket : TicketRow :=
  mkTicketRow "T1" "S1" "PCS-100" "温度告警" "温度高" "风扇停转" "更换风扇" true (Some 0) None None.
Definition demo_library (cs : list DiagnosisCase) : Library :=
  mkLibrary [demo_chunk "C1" "M1" "检查散热风扇"; demo_chunk "C2" "M1" "清洁滤网";
             demo_chunk "C3" "M2" "检查风道"]
    [demo_document] [demo_ticket] cs.

(** The vector store finds one chunk; the reranker is down. *)
Definition demo_ports (hits : list Hit) : RetrievalPorts := {|
  embedding_port := Some (fun _ l => Ok (map (fun _ => [one]) l));
  milvus_port := Some (fun _ _ _ _ _ => Ok hits);
  reranker_port := Some (fun _ _ _ => Raise (Exc (Domain RerankerUnavailableError [])));
  model_rewrite := None;
  database := fun _ => Ok tt;
  wall_clock := fun n => Z.of_nat n;
  repr := fun s => s;
  digest := fun s => s;
  query_rewrite_mode := "rules";
  default_mode := HYBRID;
  keyword_top_n := 20;
  vector_top_n := 20;
  rerank_input_size := 30;
  semantic_dedup_threshold := literal 92 100;
  max_chunks := 2;
  max_per_ticket := 1;
  weights := DEFAULT_SCORE_WEIGHTS |}.

Definition demo_query (s : SourceType) (mode : RetrievalMode) (text : string) (f : filters) : Query :=
  mkQuery s text f "t1" (Some mode) 5 (literal 45 100) true.

Abbreviation demo_search hits cs q :=
  (@search demo_unicode demo_platform (demo_ports hits) (demo_library cs) q new_retrieval).

Abbreviation demo_hits := [mkHit "C1" (literal 9 10) None; mkHit "C9" one None].
Abbreviation manual_query_1 := (demo_query SRC_MANUAL HYBRID "温度高" []).

(** Only the chunks of the approved document count; an unknown hit is dropped. *)
Example demo_manual_search :
  match snd (demo_search demo_hits [] manual_query_1) with
  | Ok r => (map (fun e => (identity (ranked e), citation (ranked e))) (ranked_evidence r),
             md_mode (retrieval_metadata r), md_degraded (retrieval_metadata r))
            = ([(("manual", "M1", "C1"), "[手册: M1 散热/page=12]");
                (("manual", "M1", "C2"), "[手册: M1 散热/page=12]")], HYBRID, ["reranker"])
  | Raise _ => False
  end.
Proof. vm_compute. reflexivity. Qed.

Lemma search_cites_the_library_witness :
  exists s' r, demo_search demo_hits [] manual_query_1 = (s', Ok r)
    /\ length (ranked_evidence r) = 2%nat /\ NoDup (map identity (map ranked (ranked_evidence r))).
Proof.
  destruct (demo_search demo_hits [] manual_query_1) as [s' [r|a]] eqn:E.
  - destruct (@search_cites_the_library demo_unicode demo_platform (demo_ports demo_hits)
      (demo_library []) manual_query_1 new_retrieval s' r ltac:(discriminate) E) as (_ & Hn & _).
    exists s', r. split; [reflexivity|]. split; [|exact Hn].
    change r with (match snd (s', Ok (E := abort) r) with Ok r => r | Raise _ => r end).
    rewrite <-E. vm_compute. reflexivity.
  - apply (f_equal (fun x => match snd x with Ok _ => true | Raise _ => false end)) in E.
    vm_compute in E. discriminate E.
Defined.

Lemma search_result_well_formed_witness :
  exists s' r, demo_search demo_hits [] manual_query_1 = (s', Ok r)
    /\ md_partial_result (retrieval_metadata r) = true
    /\ final_count (retrieval_metadata r) = length (ranked_evidence r).
Proof.
  destruct (demo_search demo_hits [] manual_query_1) as [s' [r|a]] eqn:E.
  - destruct (@search_result_well_formed demo_unicode demo_platform (demo_ports demo_hits)
      (demo_library []) manual_query_1 new_retrieval s' r ltac:(discriminate) E)
      as (_ & _ & Hn & _).
    exists s', r. split; [reflexivity|]. split; [|exact Hn].
    change r with (match snd (s', Ok (E := abort) r) with Ok r => r | Raise _ => r end).
    rewrite <-E. vm_compute. reflexivity.
  - apply (f_equal (fun x => match snd x with Ok _ => true | Raise _ => false end)) in E.
    vm_compute in E. discriminate E.
Defined.

Abbreviation vector_query := (demo_query SRC_MANUAL VECTOR_ONLY "温度高" []).

(** Both services of the vector channel answer, the vector store has no hit for the
    query, and the search fails as if its channels had failed. *)
Lemma no_hits_reported_as_failure :
  snd (demo_search [] [] vector_query) = Raise (Exc (Domain RetrievalChannelsFailedError []))
  /\ match snd (demo_search [] [] (demo_query SRC_MANUAL KEYWORD_ONLY "q" [])) with
     | Ok r => ranked_evidence r = []
     | Raise _ => False
     end.
Proof. vm_compute. done. Qed.

Lemma demo_sane hits : Forall (fun h => in_unit (hit_score h) = true) hits ->
  @embedding_sane (demo_ports hits) /\ @milvus_sane (demo_ports hits) /\ @reranker_sane (demo_ports hits).
Proof.
  intros Hh. split_and!.
  - intros f n l [= <-]. by rewrite length_map.
  - by intros f n s v ids k [= <-].
  - by intros f n q cs [= <-].
Qed.

Lemma outages_only_degrade_witness :
  exists s', demo_search [] [] vector_query
    = (s', Raise (Exc (Domain RetrievalChannelsFailedError [])))
  /\ q_mode vector_query = Some VECTOR_ONLY.
Proof.
  destruct (demo_search [] [] vector_query) as [s' [r|a]] eqn:E.
  - apply (f_equal (fun x => match snd x with Ok _ => true | Raise _ => false end)) in E.
    vm_compute in E. discriminate E.
  - destruct (demo_sane [] (Forall_nil_2 _)) as (He & Hm & Hr).
    destruct (@outages_only_degrade demo_unicode demo_platform (demo_ports [])
      (demo_library []) vector_query new_retrieval s' a He Hm Hr E) as [H1|[H1|[H1|[H1 _]]]].
    + destruct H1 as [n H1]. discriminate H1.
    + destruct H1 as [_ H1]. by destruct H1.
    + subst a. apply (f_equal (fun x => match snd x with
        | Raise (Exc ValidationError) => true | _ => false end)) in E.
      vm_compute in E. discriminate E.
    + exists s'. split; [by rewrite H1|reflexivity].
Defined.

(** ** Cases *)

Abbreviation approved_world := (@demo_approved (demo_env all_fine) "sync").
Abbreviation world_cases := (map snd (map_to_list (cases approved_world))).
Abbreviation case_query := (demo_query SRC_CASE KEYWORD_ONLY "over temperature" []).

Lemma world_cases_in (w : World) c :
  c ∈ map snd (map_to_list (cases w)) -> exists cid, cases w !! cid = Some c.
Proof.
  intros ([cid c'] & -> & Hc)%list_elem_of_fmap. exists cid. by apply elem_of_map_to_list.
Qed.

Lemma cited_cases_are_published_witness :
  exists s' r, demo_search [] world_cases case_query = (s', Ok r)
    /\ length (ranked_evidence r) = 1%nat
    /\ Forall (fun e => exists c actor, cases approved_world !! source_id e = Some c
         /\ review_status c = APPROVED /\ reviewer c = Some actor /\ actor <> created_by c)
         (map ranked (ranked_evidence r)).
Proof.
  destruct (demo_search [] world_cases case_query) as [s' [r|a]] eqn:E.
  - pose proof (@cited_cases_are_published (demo_env all_fine) demo_unicode demo_platform (demo_ports [])
      (demo_config "sync") demo_consumer approved_world (demo_library world_cases) case_query
      new_retrieval s' r (proj1 (@demo_reach (demo_env all_fine) "sync"))
      (world_cases_in approved_world) eq_refl E) as Hc.
    exists s', r. split; [reflexivity|]. split.
    + change r with (match snd (s', Ok (E := abort) r) with Ok r => r | Raise _ => r end).
      rewrite <-E. vm_compute. reflexivity.
    + apply (Forall_impl _ _ _ Hc). intros e (cid & c & actor & Hw & Hi & Hst & _ & _ & Hr & Hne & _).
      exists c, actor. rewrite Hi. by split_and!.
  - apply (f_equal (fun x => match snd x with Ok _ => true | Raise _ => false end)) in E.
    vm_compute in E. discriminate E.
Defined.

(** ** Where the code falls short *)

Definition bare_case : DiagnosisCase :=
  mkCase "c1" "s1" "r1" "v1" None None None None None None None "风扇停转" (Some ["更换风扇"])
    (Some []) (Some []) APPROVED None None 1 None IDX_INDEXED None true None "u1" 0 0.

(** A column that is null is printed as the text None, in the evidence shown to the
    model and to the user. *)
Lemma null_columns_print_none :
  row_content (CaseRow bare_case) = "None；时序: None；根因: 风扇停转；处理: 更换风扇".
Proof. vm_compute. done. Qed.

(** An identifier next to Chinese text is not found: Chinese characters are word
    characters, so that there is no boundary between the two. *)
Lemma identifier_next_to_chinese_missed :
  let terms t := keyword_terms (@rule_rewrite demo_unicode demo_platform t None None None None) in
  "PCS-001" ∈ terms "变流器 PCS-001 过温" /\ ("PCS-001" ∉ terms "变流器PCS-001过温").
Proof.
  split; apply (bool_decide_unpack _); vm_compute; exact I.
Qed.
