(* ===== verification/ProvidersProps.v ===== *)
(** * The clients of the model services and of the vector store: theorems

    What a caller gets, whatever the services answer; how many requests a call makes
    and what it reports to its breaker; and how the clients discharge the contracts
    that the theorems on searches assume ([RetrievalProps]). *)

From Stdlib Require Import SpecFloat.
From S2P Require Import Prelude Errors Breaker Tools Float Text Regex Scoring Rewrite Library Retrieval RetrievalProps RetrievalRuns Providers.
Open Scope Z_scope.

(** ** Scores *)

Lemma flt_fle x y : flt x y = true -> fle x y = true.
Proof. unfold flt, fle, SFltb, SFleb. by destruct (SFcompare x y) as [[]|]. Qed.

Lemma clipped_in_unit x : in_unit (clipped x) = true.
Proof.
  unfold clipped, fmin. destruct (flt x one) eqn:E; [|done].
  unfold fmax. destruct (flt zero x) eqn:E'; [|done].
  unfold in_unit. by rewrite (flt_fle _ _ E), (flt_fle _ _ E').
Qed.

(** ** Requests and breakers *)

(** What happens between two requests does not touch the provider. *)
Abbreviation pure_step := (respects (S := Provider) (E := abort) eq).

Lemma pure_lift {A} (o : outcome exn A) : pure_step (lift o).
Proof. by destruct o. Qed.
#[local] Hint Resolve respects_ret respects_raise respects_guard pure_lift : pres.

Lemma pure_vectors `{Numerals} cfg n body : pure_step (read_vectors cfg n body).
Proof. unfold read_vectors, bad_embedding. respect. Qed.

Lemma pure_result `{Numerals} ids output r : pure_step (read_result ids output r).
Proof. unfold read_result, bad_rerank. respect. Qed.

Lemma pure_results `{Numerals} ids output l : pure_step (read_results ids output l).
Proof.
  revert output. induction l as [|r l IH]; intros output; simpl; [apply respects_ret; typeclasses eauto|].
  apply respects_bind; [typeclasses eauto|apply pure_result|intros ?; apply IH].
Qed.

Lemma pure_scores `{Numerals} ids body : pure_step (read_scores ids body).
Proof.
  pose proof (pure_results ids ∅). unfold read_scores, bad_rerank. respect.
Qed.

Lemma isinstance_refl c : isinstance c c = true.
Proof. apply bool_decide_eq_true. by destruct c; left. Qed.

Section Traffic.
Context `{Remote}.

(** What one call records, after [allow] has left the breaker [b]: a success, one
    countable failure when the service is unavailable, a failure that is not
    countable for an answer it rejects, and nothing for any other exception. *)
Definition recorded {A} (down : error_class) (rejected : list error_class) (t : Z)
    (o : outcome abort A) (b : CircuitBreaker) : CircuitBreaker :=
  match o with
  | Ok _ => record_success b
  | Raise e =>
      if unavailable [down] e then record_failure t true b
      else if unavailable rejected e then record_failure t false b
      else b
  end.

(** A request [r] and what is made of its answer. *)
Definition asks {A} (r : request) (m : M Provider abort A) : Prop :=
  forall p, fst (m p) = p <| pv_requests ::= cons r |>.

Lemma asks_bind {A B} r (m : M Provider abort A) (k : A -> M Provider abort B) :
  asks r m -> (forall a, pure_step (k a)) -> asks r (bind m k).
Proof.
  intros Hm Hk p. specialize (Hm p). unfold bind. destruct (m p) as [p1 [a|e]]; simpl in *; [|done].
  by rewrite <- (Hk a p1).
Qed.

Lemma asks_remote {A} (f : nat -> request -> outcome abort A) r : asks r (ask_remote f r).
Proof. intros p. unfold ask_remote. rewrite bind_gets, bind_modify. by destruct (f _ r). Qed.

Lemma asks_post r c : asks r (post r c).
Proof. unfold post. apply asks_bind; [apply asks_remote|]. intros a. respect. Qed.

Lemma transient_cases down e : transient down e = false -> unavailable [down] e = false.
Proof. destruct e as [[]|]; by try done. Qed.

Section Loop.
Context {A : Type} (down : error_class) (rejected : list error_class) (r : request).
Context (once : M Provider abort A) (Honce : asks r once).
Hypothesis rejected_other : existsb (isinstance down) rejected = false.

Lemma attempts_spec left p p' o :
  attempts left down rejected once p = (p', o) ->
  (exists k, (1 <= k <= S left)%nat /\ pv_requests p' = replicate k r ++ pv_requests p)
  /\ pv_breaker p' = recorded down rejected (monotonic (pv_readings p)) o <$> pv_breaker p.
Proof using Honce rejected_other.
  revert p. induction left as [|left IH]; intros p Hp; pose proof (Honce p) as Ho; simpl in Hp;
    unfold catch, bind in Hp; destruct (once p) as [p1 [a|e]]; cbn [fst] in Ho; subst p1;
    cbn in Hp.
  1,3: injection Hp as <- <-; split; [by exists 1%nat; split; [lia|]|done].
  all: destruct (transient down e) eqn:Et.
  2,4: split; [exists 1%nat; split; [lia|]|];
    apply transient_cases in Et; revert Hp; destruct (unavailable rejected e) eqn:Er;
    intros [= <- <-]; unfold recorded; rewrite ?Et, ?Er; by destruct p as [[]].
  - injection Hp as <- <-. split; [by exists 1%nat; split; [lia|]|].
    unfold recorded. unfold unavailable at 1, existsb. by rewrite isinstance_refl.
  - apply IH in Hp as [(k & Hk & E) Hb]. split; [|by rewrite Hb].
    exists (S k). split; [lia|]. rewrite E. cbn.
    change (r :: pv_requests p) with ([r] ++ pv_requests p).
    by rewrite app_assoc, <- replicate_cons_app.
Qed.
End Loop.

(** The breaker after [allow], and whether it lets the call pass. *)
Definition asked_breaker (p : Provider) : option (CircuitBreaker * bool) :=
  allow (monotonic (pv_readings p)) (monotonic (S (pv_readings p))) <$> pv_breaker p.

(** The traffic of a call of [size] attempts at most that sends [r]. *)
Definition call_traffic {A} (size : nat) (down : error_class) (rejected : list error_class)
    (r : request) (m : M Provider abort A) : Prop :=
  forall p p' o, m p = (p', o) ->
  match asked_breaker p with
  | Some (b, false) =>
      o = Raise (Exc (Domain down [])) /\ pv_breaker p' = Some b /\ pv_requests p' = pv_requests p
  | answer =>
      (exists k, (1 <= k <= size)%nat /\ pv_requests p' = replicate k r ++ pv_requests p)
      /\ exists t, pv_breaker p' = recorded down rejected t o ∘ fst <$> answer
  end.

Lemma call_spec {A} left down rejected r (once : M Provider abort A) :
  asks r once -> existsb (isinstance down) rejected = false ->
  call_traffic (S left) down rejected r (_allow down ;;; attempts left down rejected once).
Proof.
  intros Ho Hd p p' o Hp. unfold asked_breaker. unfold bind, _allow in Hp.
  destruct (pv_breaker p) as [b|] eqn:Eb; simpl.
  - destruct (allow _ _ b) as [b' []] eqn:Ea; simpl in Hp.
    + apply (attempts_spec _ _ r) in Hp as [Hk Hb]; [|done..]. split; [done|].
      eexists. by rewrite Hb.
    + by injection Hp as <- <-.
  - apply (attempts_spec _ _ r) in Hp as [Hk Hb]; [|done..]. split; [done|].
    exists 0. by rewrite Hb, Eb.
Qed.
End Traffic.

(** ** Embeddings *)

Section EmbeddingProps.
Context `{Remote} `{Numerals} (cfg : EmbeddingConfig).

(** A vector of the configured dimension without infinities or NaN. *)
Definition sound_vector (v : list float) : Prop :=
  length v = em_dimension cfg /\ Forall (fun x => is_finite x = true) v.

Lemma vectors_sound n body :
  yields (fun vs => length vs = n /\ Forall sound_vector vs) (read_vectors cfg n body).
Proof.
  unfold read_vectors. apply yields_bind. intros [[| | | | |data|]|]; try apply yields_raise.
  eapply yields_bind_post; [apply yields_guard|]. intros _ Hn%Nat.eqb_eq.
  eapply yields_bind_post; [apply (yields_map_m2 (fun _ _ => True)); intros; apply yields_any|].
  intros keyed Hk%Forall2_length.
  eapply yields_bind_post; [apply (yields_map_m2 (fun _ _ => True)); intros; apply yields_any|].
  intros vectors Hv%Forall2_length. unfold sorted_by in Hv. rewrite stable_sort_permutation in Hv.
  destruct (vector_items vectors) as [items|] eqn:Ei; [|apply yields_raise].
  apply length_mapM in Ei.
  eapply yields_bind_post; [apply (yields_map_m2 (fun _ _ => True)); intros; apply yields_any|].
  intros typed Ht%Forall2_length.
  eapply yields_bind_post; [apply yields_guard|]. intros ? Hd.
  eapply yields_bind_post; [apply yields_guard|]. intros ? Hf.
  apply yields_ret. split; [lia|]. cbv beta in Hd, Hf. rewrite forallb_forall in Hd. rewrite forallb_forall in Hf.
  apply Forall_forall. intros v Hin. apply list_elem_of_In in Hin.
  split; [by apply Nat.eqb_eq, Hd|]. apply Forall_forall. specialize (Hf v Hin). rewrite forallb_forall in Hf.
  intros x Hx. apply Hf. by apply list_elem_of_In.
Qed.

Lemma attempts_yields {A} (Q : A -> Prop) left down rejected (once : M Provider abort A) :
  yields Q once -> yields Q (attempts left down rejected once).
Proof.
  intros Ho. induction left as [|left IH]; simpl; apply yields_catch.
  1,3: eapply yields_bind_post; [exact Ho|]; intros a Ha; apply yields_bind; intros _; by apply yields_ret.
  all: intros e; destruct (transient down e); [|destruct (unavailable rejected e)];
    try done; try apply yields_raise; apply yields_bind; intros _; apply yields_raise.
Qed.

Lemma batch_sound texts :
  yields (fun vs => length vs = length texts /\ Forall sound_vector vs) (_batch cfg texts).
Proof.
  unfold _batch. apply yields_bind. intros _. apply attempts_yields. apply yields_bind.
  intros body. apply vectors_sound.
Qed.

Lemma batches_concat fuel size texts :
  (0 < size)%nat -> (length texts <= fuel)%nat -> concat (batches fuel size texts) = texts.
Proof.
  intros Hs. revert texts. induction fuel as [|fuel IH]; intros [|t texts] Hl; simpl in *; try done; [lia|].
  rewrite IH.
  - apply (take_drop size (t :: texts)).
  - rewrite length_drop. simpl. lia.
Qed.

Lemma embed_sound texts :
  yields (fun vs => length vs = length texts /\ Forall sound_vector vs) (embed cfg texts).
Proof.
  unfold embed. eapply yields_bind_post; [apply yields_guard|]. intros _ Hs%Nat.ltb_lt.
  eapply yields_bind_post; [apply yields_map_m2; intros; apply batch_sound|].
  intros vss Hv. apply yields_ret.
  pose proof (batches_concat (length texts) (em_batch_size cfg) texts Hs (le_n _)) as Hc.
  rewrite <- Hc at 1. clear Hc.
  induction Hv as [|ts vs bs vss [Hl Hs'] _ [IH1 IH2]]; [done|]. simpl. rewrite !length_app, Hl, IH1.
  split; [done|]. by apply Forall_app.
Qed.

Lemma batch_traffic texts :
  call_traffic (S (em_max_retries cfg)) EmbeddingUnavailableError
    [EmbeddingResponseError; EmbeddingDimensionError]
    (PostEmbeddings (map (str_take 16000) texts)) (_batch cfg texts).
Proof.
  apply call_spec; [|done]. apply asks_bind; [apply asks_post|]. intros body. apply pure_vectors.
Qed.
End EmbeddingProps.

(** ** Reranking *)

Section RerankerProps.
Context `{Remote} `{Numerals} (max_retries : nat).

Definition unit_scores (m : gmap string float) : Prop := map_Forall (fun _ x => in_unit x = true) m.

Lemma result_sound ids output r : unit_scores output -> yields unit_scores (read_result ids output r).
Proof.
  intros Ho. unfold read_result. do 3 (apply yields_bind; intros ?).
  destruct (integer_of _); [|apply yields_raise]. destruct (numeric _); [|apply yields_raise].
  do 3 (apply yields_bind; intros ?). apply yields_ret. apply map_Forall_insert_2; [|done].
  apply clipped_in_unit.
Qed.

Lemma results_sound ids output l : unit_scores output -> yields unit_scores (read_results ids output l).
Proof.
  revert output. induction l as [|r l IH]; intros output Ho; simpl; [by apply yields_ret|].
  eapply yields_bind_post; [by apply result_sound|]. intros output'. apply IH.
Qed.

Lemma scores_sound ids body :
  yields (fun m => dom m = list_to_set (C := gset string) ids /\ unit_scores m) (read_scores ids body).
Proof.
  unfold read_scores. apply yields_bind. intros [[| | | | |results|]|]; try apply yields_raise.
  apply yields_bind. intros _.
  eapply yields_bind_post; [by apply results_sound|]. intros m Hm.
  eapply yields_bind_post; [apply yields_guard|]. intros ? Hd%bool_decide_eq_true.
  by apply yields_ret.
Qed.

Lemma rerank_sound query candidates :
  yields (fun m => dom m = list_to_set (C := gset string) (map fst candidates) /\ unit_scores m)
    (rerank max_retries query candidates).
Proof.
  unfold rerank. apply yields_bind. intros _. apply attempts_yields. apply yields_bind.
  intros body. apply scores_sound.
Qed.

Lemma rerank_traffic query candidates :
  call_traffic (S max_retries) RerankerUnavailableError [RerankerResponseError]
    (PostRerank (str_take 8000 query) (map (fun c => str_take 8000 (snd c)) candidates))
    (rerank max_retries query candidates).
Proof.
  apply call_spec; [|done]. apply asks_bind; [apply asks_post|]. intros body. apply pure_scores.
Qed.
End RerankerProps.

(** ** The vector store *)

Section MilvusProps.
Context `{Remote} (dimension : nat).

Lemma guarded_yields {A} (Q : A -> Prop) (m : M Provider abort A) :
  yields Q m -> yields Q (guarded m).
Proof.
  intros Hm. apply yields_catch.
  - eapply yields_bind_post; [exact Hm|]. intros a Ha. apply yields_bind. intros _. by apply yields_ret.
  - intros [e|]; [apply yields_bind; intros _|]; apply yields_raise.
Qed.

Lemma milvus_sound source vector ids limit :
  yields (Forall (fun h => in_unit (hit_score h) = true))
    (milvus_search dimension source vector ids limit).
Proof.
  unfold milvus_search. apply yields_bind. intros _. destruct (negb _); [by apply yields_ret|].
  apply yields_bind. intros _. apply guarded_yields. apply yields_bind. intros [|hits r]; [apply yields_raise|].
  apply yields_ret. apply Forall_map, Forall_true. intros h. apply clipped_in_unit.
Qed.

(** Only these errors of the store reach a caller. *)
Definition milvus_errors (a : abort) : Prop :=
  a = Cancelled \/ a = Exc (Domain MilvusUnavailableError [])
  \/ a = Exc (Domain MilvusSchemaMismatchError []).

Lemma raises_allow (X : abort -> Prop) error :
  X (Exc (Domain error [])) -> raises X (_allow error).
Proof.
  intros HX p p' e. unfold _allow. destruct (pv_breaker p) as [b|]; [|done].
  destruct (allow _ _ b) as [b' []]; [done|]. by intros [= _ <-].
Qed.

Lemma raises_guarded {A} (m : M Provider abort A) : raises milvus_errors (guarded m).
Proof.
  apply (raises_catch _ (fun _ => True)); [done|].
  intros [e|] _; [|apply raises_raise; by left].
  apply raises_bind; [apply raises_modify|]. intros _. apply raises_raise. by right; left.
Qed.

Lemma milvus_raises source vector ids limit :
  raises milvus_errors (milvus_search dimension source vector ids limit).
Proof.
  unfold milvus_search. apply raises_bind.
  { apply raises_guard. intros _. by do 2 right. }
  intros _. destruct (negb _); [apply raises_ret|].
  apply raises_bind; [apply raises_allow; by right; left|]. intros _. apply raises_guarded.
Qed.
End MilvusProps.

(** ** Polite services *)

Section Polite.
Context `{Remote} `{Numerals} (cfg : EmbeddingConfig) (max_retries : nat).

(** The n-th answer to [r]: the network fails, the service is overloaded, or it
    succeeds with a body the client can read. *)
Definition polite_answer {A} (n : nat) (r : request) (reading : jvalue -> M Provider abort A) : Prop :=
  match http n r with
  | Raise a => a = Exc TimeoutError \/ a = Exc ConnectionError
  | Ok (status, body) =>
      status = 429 \/ 500 <= status
      \/ 200 <= status < 300 /\ exists v, body = Some v /\ forall p e, snd (reading v p) <> Raise e
  end.
Definition polite_embedding : Prop :=
  forall n texts, polite_answer n (PostEmbeddings (map (str_take 16000) texts)) (read_vectors cfg (length texts)).
Definition polite_reranker : Prop :=
  forall n q cs, polite_answer n
    (PostRerank (str_take 8000 q) (map (fun c => str_take 8000 (snd c)) cs)) (read_scores (map fst cs)).

Lemma raises_post {A} down r (reading : jvalue -> M Provider abort A) :
  (forall n, polite_answer n r reading) ->
  raises (fun a => transient down a = true) (body <- post r down ;; reading body).
Proof.
  intros Hp p p' e. specialize (Hp (length (pv_requests p))). unfold polite_answer in Hp.
  assert (Hd : transient down (Exc (Domain down [])) = true).
  { unfold transient, unavailable, existsb. by rewrite isinstance_refl. }
  unfold post, ask_remote, guard, bind, gets, modify.
  destruct (http _ r) as [[status body]|a]; cbn [fst snd ret].
  2: { intros [= _ <-]. by destruct Hp as [-> | ->]. }
  unfold ret, raise. cbn [fst snd].
  destruct (status =? 429) eqn:E1; cbn [orb negb]; [by intros [= _ <-]|].
  destruct (500 <=? status) eqn:E2; cbn [orb negb]; [by intros [= _ <-]|].
  destruct Hp as [?|[?|([? ?] & v & -> & Hv)]]; [lia..|].
  rewrite (proj2 (Z.leb_le _ _)), (proj2 (Z.ltb_lt _ _)) by lia. cbn [andb].
  intros Hr. exfalso. apply (Hv (p <| pv_requests ::= cons r |>) e). by rewrite Hr.
Qed.

Lemma raises_attempts {A} down rejected left (once : M Provider abort A) :
  raises (fun a => transient down a = true) once ->
  raises (fun a => a = Exc (Domain down [])) (attempts left down rejected once).
Proof.
  intros Ho. induction left as [|left IH]; simpl;
    (apply (raises_catch _ (fun a => transient down a = true));
     [apply raises_bind; [exact Ho|]; intros a; apply raises_bind; [apply raises_modify|];
      intros _; apply raises_ret|]); intros e ->; [|exact IH].
  apply raises_bind; [apply raises_modify|]. intros _. by apply raises_raise.
Qed.

Lemma embed_raises texts :
  polite_embedding -> (0 < em_batch_size cfg)%nat ->
  raises (fun a => a = Exc (Domain EmbeddingUnavailableError [])) (embed cfg texts).
Proof.
  intros Hp Hs. unfold embed. apply raises_bind; [apply raises_guard; by intros ?%Nat.ltb_ge; lia|].
  intros _. apply raises_bind; [|intros vs; apply raises_ret]. apply raises_map_m. intros batch _.
  unfold _batch. apply raises_bind; [by apply raises_allow|]. intros _.
  apply raises_attempts, raises_post. intros n. apply Hp.
Qed.

Lemma rerank_client_raises query cs :
  polite_reranker ->
  raises (fun a => a = Exc (Domain RerankerUnavailableError [])) (rerank max_retries query cs).
Proof.
  intros Hp. unfold rerank. apply raises_bind; [by apply raises_allow|]. intros _.
  apply raises_attempts, raises_post. intros n. apply Hp.
Qed.
End Polite.

(** ** Theorems *)

(** what the clients hand on keeps the contract, whatever the services answer. An
    embedding call returns one vector for every text, in batches of any size, each of
    the configured dimension and without infinities or NaN; a reranking call returns
    scores for exactly the candidates it was asked about, all between 0 and 1; a search
    of the vector store returns hits with scores between 0 and 1, and raises nothing
    but its two own errors and the cancellation. *)
Theorem answers_keep_contract `{Remote} `{Numerals} cfg max_retries dimension texts query cs source v ids k :
  yields (fun vs => length vs = length texts
            /\ Forall (fun v => length v = em_dimension cfg /\ Forall (fun x => is_finite x = true) v) vs)
    (embed cfg texts)
  /\ yields (fun m => dom m = list_to_set (C := gset string) (map fst cs)
               /\ map_Forall (fun _ x => in_unit x = true) m)
       (rerank max_retries query cs)
  /\ yields (Forall (fun h => in_unit (hit_score h) = true)) (milvus_search dimension source v ids k)
  /\ raises (fun a => a = Cancelled \/ a = Exc (Domain MilvusUnavailableError [])
                      \/ a = Exc (Domain MilvusSchemaMismatchError []))
       (milvus_search dimension source v ids k).
Proof.
  split_and!; [apply embed_sound|apply rerank_sound|apply milvus_sound|apply milvus_raises].
Qed.

(** C21: a call is one event for its breaker, however often it tries. While the breaker
    refuses, a call raises at once and no request leaves. Otherwise the same request
    leaves between once and [max_retries + 1] times, and the breaker records one
    success, one countable failure (the service was unavailable to the last attempt),
    one failure that is not countable (the answer was rejected), or nothing. *)
Theorem calls_are_one_event `{Remote} `{Numerals} cfg max_retries texts query cs :
  call_traffic (S (em_max_retries cfg)) EmbeddingUnavailableError
    [EmbeddingResponseError; EmbeddingDimensionError]
    (PostEmbeddings (map (str_take 16000) texts)) (_batch cfg texts)
  /\ call_traffic (S max_retries) RerankerUnavailableError [RerankerResponseError]
       (PostRerank (str_take 8000 query) (map (fun c => str_take 8000 (snd c)) cs))
       (rerank max_retries query cs).
Proof. split; [apply batch_traffic|apply rerank_traffic]. Qed.


(** A breaker whose trial call is out refuses every call, makes no request and stays
    as it is: only the outcome of the trial call can change it. *)
Theorem lost_probe `{Remote} `{Numerals} cfg texts p p' o b :
  pv_breaker p = Some b -> state b = HALF_OPEN -> half_open_probe_active b = true ->
  _batch cfg texts p = (p', o) ->
  o = Raise (Exc (Domain EmbeddingUnavailableError [])) /\ pv_breaker p' = Some b
  /\ pv_requests p' = pv_requests p.
Proof.
  intros Hb Hs Ha Hp. apply batch_traffic in Hp. unfold asked_breaker in Hp.
  rewrite Hb in Hp. simpl in Hp. unfold allow in Hp. by rewrite Hs, Ha in Hp.
Qed.

(** ** Concrete runs *)

#[local] Instance demo_numerals : Numerals := {| float_text := fun _ => None; int_text := fun _ => None |}.

(** The n-th request of each kind gets the answer [answers n]; the clock stands at one
    hour. *)
Definition demo_remote (answers : nat -> request -> outcome abort (Z * option jvalue)) : Remote := {|
  http := answers;
  milvus_client := fun _ _ => Raise (Exc ConnectionError);
  monotonic := fun n => 3600 * 10 ^ 9 + Z.of_nat n |}.
Definition demo_config : EmbeddingConfig := mkEmbeddingConfig 2 2 1.
Definition demo_provider (b : option CircuitBreaker) : Provider := mkProvider b [] 0.

Definition item (i : Z) (v : list float) : jvalue :=
  JvDict [("index", JvInt i); ("embedding", JvList (map JvNum v))].
(** The vectors in the reverse order of the texts. *)
Definition reversed_items (n : nat) : jvalue :=
  JvDict [("data", JvList (rev (map (fun i => item (Z.of_nat i) [float_of_Z (Z.of_nat i); one]) (seq 0 n))))].
Definition batch_size_of (r : request) : nat :=
  match r with PostEmbeddings l => length l | PostRerank _ l => length l | _ => 0 end.
(** Two batches for three texts; the first needs a second attempt; the vectors come in
    the order of their indices. *)
Example embed_run :
  let '(p, o) := @embed (demo_remote (fun n r => if (n =? 0)%nat then Ok (503, None)
                                     else Ok (200, Some (reversed_items (batch_size_of r)))))
                   _ demo_config ["a"; "b"; "c"] (demo_provider (Some (new_breaker default_policy))) in
  o = Ok [[float_of_Z 0; one]; [one; one]; [float_of_Z 0; one]]
  /\ pv_requests p = [PostEmbeddings ["c"]; PostEmbeddings ["a"; "b"]; PostEmbeddings ["a"; "b"]].
Proof. by vm_compute. Qed.

(** The breaker was opened by three failures; its recovery time has passed; the trial
    call gets HTTP 401, which is neither a success nor a failure for the breaker: it
    stays half open with its trial call out ([lost_probe]). *)
Example unauthorized_probe_is_lost :
  let opened := run (new_breaker default_policy) [Failure 0 true; Failure 0 true; Failure 0 true] in
  let '(p, o) := @_batch (demo_remote (fun _ _ => Ok (401, None))) _ demo_config ["a"]
                   (demo_provider (Some opened)) in
  o = Raise (Exc ProviderError)
  /\ (state <$> pv_breaker p) = Some HALF_OPEN
  /\ (half_open_probe_active <$> pv_breaker p) = Some true.
Proof. by vm_compute. Qed.

(** A score that is not a number counts as the best one. *)
Example nan_score_is_best :
  clipped S754_nan = one
  /\ snd (@rerank (demo_remote (fun _ _ => Ok (200, Some (JvDict [("results", JvList [JvDict
       [("index", JvInt (-1)); ("score", JvNum S754_nan)]])])))) _ 0 "q" [("c", "t")] (demo_provider None))
     = Ok {["c" := one]}.
Proof. by vm_compute. Qed.

(** A service that answers requests with one text and is overloaded by more. *)
Definition small_service : Remote :=
  demo_remote (fun _ r =>
    match r with
    | PostEmbeddings [_] => Ok (200, Some (JvDict [("data", JvList [item 0 [one; one]])]))
    | PostRerank _ [_] =>
        Ok (200, Some (JvDict [("results", JvList [JvDict [("index", JvInt 0); ("score", JvNum one)]])]))
    | _ => Ok (503, None)
    end).

Lemma small_service_polite : @polite_embedding small_service _ demo_config /\ @polite_reranker small_service _.
Proof.
  split.
  - intros n [|t [|t' ts]]; [by right; left|right; right|by right; left].
    split; [done|]. eexists. split; [done|]. by intros p e.
  - intros n q [|c [|c' cs]]; [by right; left|right; right|by right; left].
    split; [done|]. eexists. split; [done|]. intros p e. destruct c as [i t].
    unfold read_scores. simpl. unfold bind, guard, lift, ret. simpl.
    by rewrite bool_decide_eq_true_2 by set_solver.
Qed.

(** Ports like [demo_ports], with the clients behind them; their breakers were opened
    every third time they are asked. *)
Definition client_state (n : nat) : Provider :=
  demo_provider (Some (run (new_breaker default_policy)
    (if (n mod 3 =? 0)%nat then [Failure (3600 * 10 ^ 9) true; Failure (3600 * 10 ^ 9) true;
                                 Failure (3600 * 10 ^ 9) true] else []))).
Definition ports_with (world : Remote) : RetrievalPorts := {|
  embedding_port := Some (fun n l => snd (@embed world _ demo_config l (client_state n)));
  milvus_port := @milvus_port (demo_ports []);
  reranker_port := Some (fun n q cs => snd (@rerank world _ 1 q cs (client_state n)));
  model_rewrite := None;
  database := fun _ => Ok tt;
  wall_clock := fun n => Z.of_nat n;
  repr := fun s => s;
  digest := fun s => s;
  query_rewrite_mode := "rules";
  default_mode := HYBRID;
  keyword_top_n := 20;
  vector_top_n := 20;
  rerank_input_size := 30;
  semantic_dedup_threshold := literal 92 100;
  max_chunks := 2;
  max_per_ticket := 1;
  weights := DEFAULT_SCORE_WEIGHTS |}.


(** An answer with too few vectors fails the whole search, although the keyword channel
    has candidates; that the service is down only degrades it. *)
Example malformed_answer_fails_the_search :
  let found world := snd (@search demo_unicode demo_platform (ports_with world) (demo_library [])
                       (demo_query SRC_MANUAL HYBRID "温度高" []) new_retrieval) in
  found (demo_remote (fun _ _ => Ok (200, Some (JvDict [("data", JvList [])]))))
    = Raise (Exc (Domain EmbeddingResponseError []))
  /\ (match found (demo_remote (fun _ _ => Raise (Exc TimeoutError))) with
     | Ok r => Some (md_degraded (retrieval_metadata r), final_count (retrieval_metadata r))
     | Raise _ => None
     end) = Some (["embedding"; "milvus"; "reranker"], 2%nat).
Proof. by vm_compute. Qed.
