(* ===== verification/Gateway.v ===== *)
(** * The gateway to the language model

    [model/gateway.py]: the strict form of a schema, the request, its retries, what is
    read from the answer and what the breaker learns. The model's service, pydantic's
    validation and the schemas are parameters. *)

From Stdlib Require Import SpecFloat.
From S2P Require Import Prelude Errors Json Breaker Tools Float Text Regex Scoring Rewrite Library Retrieval.
From S2P Require Import RetrievalProps RetrievalRuns Providers ProvidersProps.
Open Scope Z_scope.

(** ** Strict schemas *)

(** [d[key] = v]: in place, or at the end. *)
Fixpoint set_key (key : string) (v : json) (kvs : list (string * json)) : list (string * json) :=
  match kvs with
  | [] => [(key, v)]
  | kv :: kvs' => if bool_decide (fst kv = key) then (key, v) :: kvs' else kv :: set_key key v kvs'
  end.
(** [d.get(key)] *)
Definition key_of (key : string) (kvs : list (string * json)) : option json :=
  snd <$> find_first (fun kv => bool_decide (fst kv = key)) kvs.

Definition without_default : list (string * json) -> list (string * json) :=
  filter (fun kv => fst kv <> "default").

(** The keys are set before the values are visited.
    [model/gateway.py:200-211 visit] *)
Fixpoint strict_schema (v : json) : json :=
  match v with
  | JList l => JList (map strict_schema l)
  | JObj kvs =>
      let visited := map (fun kv => (fst kv, strict_schema (snd kv))) kvs in
      JObj (without_default
        match key_of "properties" kvs with
        | Some (JObj p) =>
            set_key "additionalProperties" (JBool false)
              (set_key "required" (jstrs (map fst p)) visited)
        | _ => visited
        end)
  | v => v
  end.
(** [model/gateway.py:196-214 _openai_strict_schema] *)
Definition _openai_strict_schema (schema : json) : json := strict_schema schema.

(** [model/gateway.py:217-219 _supports_reasoning_effort] *)
Definition _supports_reasoning_effort `{Unicode} (model : string) : bool :=
  let normalized := unchars (lower (chars model)) in
  existsb (fun p => String.prefix p normalized) ["gpt-5"; "o1"; "o3"; "o4"].

(** ** A call *)

(** [model/gateway.py:19-40 ModelGateway.__init__] *)
Record GatewayConfig := mkGatewayConfig {
  gw_model : string;
  gw_temperature : json;
  gw_responses : bool;
  gw_max_retries : nat;
}.

(** What one generation is asked for. [validate] is [output_schema.model_validate_json],
    [None] for a ValidationError. *)
Record Generation (A : Type) := mkGeneration {
  g_system_prompt : string;
  g_evidence_package : json;
  g_schema_name : string;
  g_schema : json;
  validate : jvalue -> option A;
}.
Arguments mkGeneration {A}.
Arguments g_system_prompt {A}.
Arguments g_evidence_package {A}.
Arguments g_schema_name {A}.
Arguments g_schema {A}.
Arguments validate {A}.

Section Gateway.
Context `{Remote} `{Numerals} `{Unicode} (cfg : GatewayConfig).

(** [model/gateway.py:96-131 payload] *)
Definition generation_request {A} (g : Generation A) : request :=
  let package := JStr (render_spaced (g_evidence_package g)) in
  if gw_responses cfg then
    PostModel "/v1/responses" (JObj
      ([("model", JStr (gw_model cfg)); ("instructions", JStr (g_system_prompt g)); ("input", package);
        ("text", JObj [("format", JObj
           [("type", JStr "json_schema"); ("name", JStr (g_schema_name g)); ("strict", JBool true);
            ("schema", _openai_strict_schema (g_schema g))])]);
        ("max_output_tokens", JInt 2048)]
       ++ if _supports_reasoning_effort (gw_model cfg) then [("reasoning", JObj [("effort", JStr "low")])] else []))
  else
    PostModel "/v1/chat/completions" (JObj
      [("model", JStr (gw_model cfg));
       ("messages", JList [JObj [("role", JStr "system"); ("content", JStr (g_system_prompt g))];
                           JObj [("role", JStr "user"); ("content", package)]]);
       ("temperature", gw_temperature cfg);
       ("response_format", JObj [("type", JStr "json_object")])]).

(** [left] attempts may follow; the last response is returned as it is.
    [model/gateway.py:42-68 ModelGateway._post_with_retry] *)
Fixpoint _post_with_retry (left : nat) (r : request) : M Provider abort (Z * option jvalue) :=
  try_else (ask_remote http r)
    (fun response =>
       match left with
       | S n => if (fst response =? 429) || (500 <=? fst response) then _post_with_retry n r else ret response
       | O => ret response
       end)
    (fun e =>
       match e, left with
       | (Exc TimeoutError | Exc ConnectionError), S n => _post_with_retry n r
       | _, _ => raise e
       end).

(** [v[key]] for a text, [v[0]]. *)
Definition key_at (key : string) (v : jvalue) : M Provider abort jvalue :=
  match v with
  | JvDict kvs =>
      match find_first (fun kv => bool_decide (fst kv = key)) kvs with
      | Some (_, x) => ret x
      | None => raise (Exc KeyError)
      end
  | _ => raise (Exc TypeError)
  end.
Definition first_of (v : jvalue) : M Provider abort jvalue :=
  match v with
  | JvList (x :: _) => ret x
  | JvList [] => raise (Exc IndexError)
  | JvStr s =>
      match chars s with c :: _ => ret (JvStr (unchars [c])) | [] => raise (Exc IndexError) end
  | JvDict _ => raise (Exc KeyError)
  | _ => raise (Exc TypeError)
  end.
(** [for x in v] *)
Definition each (v : jvalue) : M Provider abort (list jvalue) :=
  match v with
  | JvList l => ret l
  | JvDict kvs => ret (map (fun kv => JvStr (fst kv)) kvs)
  | JvStr s => ret (map (fun c => JvStr (unchars [c])) (chars s))
  | _ => raise (Exc TypeError)
  end.
(** [bool(v)] *)
Definition jv_true (v : jvalue) : bool :=
  match v with
  | JvNone => false
  | JvBool b => b
  | JvInt z => negb (z =? 0)
  | JvNum x => ftrue x
  | JvStr s => str_true s
  | JvList l => list_true l
  | JvDict kvs => list_true kvs
  end.

(** [model/gateway.py:146-151 output_texts] *)
Definition output_texts (body : jvalue) : M Provider abort (list jvalue) :=
  outputs <- key_at "output" body ;;
  outputs <- each outputs ;;
  texts <- map_m (fun output =>
      content <- lift (py_get "content" output) ;;
      items <- each (default (JvList []) content) ;;
      found <- map_m (fun item =>
        t <- lift (py_get "type" item) ;;
        match t with
        | Some (JvStr s) =>
            if bool_decide (s = "output_text") then x <- key_at "text" item ;; ret [x] else ret []
        | _ => ret []
        end) items ;;
      ret (concat found)) outputs ;;
  ret (concat texts).

(** The text of the answer; the reason it finished with is only recorded.
    [model/gateway.py:144-158 body] *)
Definition read_content (body : jvalue) : M Provider abort jvalue :=
  if gw_responses cfg then
    texts <- output_texts body ;;
    match texts with
    | [] => raise (Exc ValueError)
    | content :: _ => _ <- lift (py_get "status" body) ;; ret content
    end
  else
    choices <- key_at "choices" body ;;
    choice <- first_of choices ;;
    message <- key_at "message" choice ;;
    content <- key_at "content" message ;;
    _ <- lift (py_get "finish_reason" choice) ;;
    ret content.

(** [int(usage.get(key, usage.get(other, 0)) or 0)] *)
Definition token_count (usage : list (string * jvalue)) (key other : string) : M Provider abort Z :=
  a <- lift (py_get key (JvDict usage)) ;;
  b <- lift (py_get other (JvDict usage)) ;;
  let v := default (default (JvInt 0) b) a in
  lift (py_int (if jv_true v then v else JvInt 0)).
(** The tokens that are counted, input before output.
    [model/gateway.py:173-180 usage] *)
Definition count_tokens (body : jvalue) : M Provider abort unit :=
  usage <- lift (py_get "usage" body) ;;
  match usage with
  | Some (JvDict usage) =>
      token_count usage "input_tokens" "prompt_tokens" ;;;
      token_count usage "output_tokens" "completion_tokens" ;;; ret tt
  | _ => ret tt
  end.

(** An exception the gateway answers with [None]; an httpx error counts.
    [model/gateway.py:182-184 except] *)
Definition gateway_failure (a : abort) : option bool :=
  match a with
  | Exc (ProviderError | TimeoutError | ConnectionError) => Some true
  | Exc (KeyError | TypeError | ValidationError | ValueError) => Some false
  | _ => None
  end.

(** [model/gateway.py:95-181 response] *)
Definition generated {A} (g : Generation A) : M Provider abort (option A) :=
  response <- _post_with_retry (gw_max_retries cfg) (generation_request g) ;;
  guard ((200 <=? fst response) && (fst response <? 300)) (Exc ProviderError) ;;;
  match snd response with
  | None => raise (Exc ValueError)
  | Some body =>
      content <- read_content body ;;
      match validate g content with
      | None => raise (Exc ValidationError)
      | Some a =>
          _ <- lift (py_get "usage" body) ;;
          _success ;;;
          count_tokens body ;;;
          ret (Some a)
      end
  end.

(** [model/gateway.py:70-193 ModelGateway.generate] *)
Definition generate {A} (g : Generation A) : M Provider abort (option A) := fun p =>
  match _allow DomainError p with
  | (p', Raise _) => (p', Ok None)
  | (p', Ok _) =>
      catch (generated g)
        (fun e => match gateway_failure e with
                  | Some countable => _failure countable ;;; ret None
                  | None => raise e
                  end) p'
  end.
End Gateway.

(** ** Theorems

    What a call costs and leaves behind, whatever the service answers, and what the
    strict form of a schema is. *)

(** ** Calls *)

Section Calls.
Context `{Remote} `{Numerals} `{Unicode} (cfg : GatewayConfig).

#[local] Hint Resolve respects_ret respects_raise respects_guard pure_lift : pres.

(** Reading changes nothing. *)
Lemma pure_key_at key v : pure_step (key_at key v).
Proof. unfold key_at. respect. Qed.
Lemma pure_each v : pure_step (each v).
Proof. unfold each. respect. Qed.
Lemma pure_first_of v : pure_step (first_of v).
Proof. unfold first_of. respect. Qed.
#[local] Hint Resolve pure_key_at pure_each pure_first_of : pres.
Lemma pure_content body : pure_step (read_content cfg body).
Proof. unfold read_content, output_texts. respect. Qed.
Lemma pure_tokens body : pure_step (count_tokens body).
Proof. unfold count_tokens, token_count. respect. Qed.

(** What reading an answer may raise. *)
Definition reading_error (a : abort) : Prop :=
  a ∈ [Exc KeyError; Exc TypeError; Exc IndexError; Exc AttributeError; Exc ValueError; Exc OverflowError].

Lemma raises_lift {A} (X : abort -> Prop) (o : outcome exn A) :
  (forall e, o = Raise e -> X (Exc e)) -> raises X (lift (S := Provider) o).
Proof. intros Ho. destruct o as [a|e]; [apply raises_ret|]. by apply raises_raise, Ho. Qed.

Lemma raises_get key v : raises reading_error (lift (S := Provider) (py_get key v)).
Proof. apply raises_lift. unfold py_get, reading_error. intros e. destruct v; intros [= <-]; set_solver. Qed.

Lemma raises_key_at key v : raises reading_error (key_at key v).
Proof.
  unfold key_at, reading_error. destruct v; try (apply raises_raise; set_solver).
  destruct (find_first _ _) as [[k x]|]; [apply raises_ret|apply raises_raise; set_solver].
Qed.

Lemma raises_first_of v : raises reading_error (first_of v).
Proof.
  unfold first_of, reading_error. destruct v as [| | | |s|[|x l]|]; try (apply raises_raise; set_solver);
    [|apply raises_ret]. destruct (chars s); [apply raises_raise; set_solver|apply raises_ret].
Qed.

Lemma raises_each v : raises reading_error (each v).
Proof. unfold each, reading_error. destruct v; try apply raises_ret; apply raises_raise; set_solver. Qed.

Lemma raises_int v : raises reading_error (lift (S := Provider) (py_int v)).
Proof.
  apply raises_lift. unfold py_int, reading_error. intros e.
  destruct v as [| | |[]|s| |]; try (intros [= <-]; set_solver); try done.
  destruct (int_text s); [done|]. intros [= <-]. set_solver.
Qed.

Lemma content_raises body : raises reading_error (read_content cfg body).
Proof.
  unfold read_content, output_texts. destruct (gw_responses cfg).
  - apply raises_bind.
    + apply raises_bind; [apply raises_key_at|]. intros outputs.
      apply raises_bind; [apply raises_each|]. intros l.
      apply raises_bind; [|intros texts; apply raises_ret]. apply raises_map_m. intros output _.
      apply raises_bind; [apply raises_get|]. intros c. apply raises_bind; [apply raises_each|]. intros items.
      apply raises_bind; [|intros found; apply raises_ret]. apply raises_map_m. intros item _.
      apply raises_bind; [apply raises_get|]. intros [[| | | |s| |]|]; try apply raises_ret.
      destruct (bool_decide _); [|apply raises_ret].
      apply raises_bind; [apply raises_key_at|]. intros x. apply raises_ret.
    + intros [|t texts]; [apply raises_raise; unfold reading_error; set_solver|].
      apply raises_bind; [apply raises_get|]. intros s. apply raises_ret.
  - apply raises_bind; [apply raises_key_at|]. intros choices.
    apply raises_bind; [apply raises_first_of|]. intros choice.
    do 2 (apply raises_bind; [apply raises_key_at|]; intros ?).
    apply raises_bind; [apply raises_get|]. intros s. apply raises_ret.
Qed.

Lemma tokens_raise body : raises reading_error (count_tokens body).
Proof.
  unfold count_tokens, token_count. apply raises_bind; [apply raises_get|].
  intros [[| | | | | |usage]|]; try apply raises_ret.
  do 2 (apply raises_bind;
    [do 2 (apply raises_bind; [apply raises_get|]; intros ?); apply raises_int|]; intros ?). apply raises_ret.
Qed.

(** The requests of a call, and what its client raised in the end. *)
Lemma retry_spec left r p p' o :
  _post_with_retry left r p = (p', o) ->
  (exists k, (1 <= k <= S left)%nat /\ p' = p <| pv_requests := replicate k r ++ pv_requests p |>)
  /\ (forall e, o = Raise e -> exists n, http n r = Raise e).
Proof.
  revert p. induction left as [|left IH]; intros p; cbn [_post_with_retry];
    unfold try_else, ask_remote; rewrite bind_gets, bind_modify;
    destruct (http _ r) as [a|e] eqn:Eh; simpl.
  - intros [= <- <-]. by split; [exists 1%nat|].
  - assert (Hraise : raise e (p <| pv_requests ::= cons r |>) = (p', o) ->
      (exists k, (1 <= k <= 1)%nat /\ p' = p <| pv_requests := replicate k r ++ pv_requests p |>)
      /\ (forall e0, o = Raise e0 -> exists n, http n r = Raise e0)).
    { intros [= <- <-]. split; [by exists 1%nat|]. intros e' [= <-]. by eexists. }
    by destruct e as [[]|].
  - destruct (_ || _).
    + intros Hr. apply IH in Hr as [(k & Hk & ->) Hx]. split; [|done].
      exists (S k). split; [lia|]. by rewrite replicate_S_end, <- app_assoc.
    + intros [= <- <-]. split; [|done]. exists 1%nat. split; [lia|done].
  - assert (Hraise : raise e (p <| pv_requests ::= cons r |>) = (p', o) ->
      (exists k, (1 <= k <= S (S left))%nat /\ p' = p <| pv_requests := replicate k r ++ pv_requests p |>)
      /\ (forall e0, o = Raise e0 -> exists n, http n r = Raise e0)).
    { intros [= <- <-]. split; [by exists 1%nat; split; [lia|]|]. intros e' [= <-]. by eexists. }
    assert (Hagain : _post_with_retry left r (p <| pv_requests ::= cons r |>) = (p', o) ->
      (exists k, (1 <= k <= S (S left))%nat /\ p' = p <| pv_requests := replicate k r ++ pv_requests p |>)
      /\ (forall e0, o = Raise e0 -> exists n, http n r = Raise e0)).
    { intros Hr. apply IH in Hr as [(k & Hk & ->) Hx]. split; [|done].
      exists (S k). split; [lia|]. by rewrite replicate_S_end, <- app_assoc. }
    destruct e as [[]|]; auto.
Qed.

(** What is known after the requests of a call. *)
Record call_spec {A} (g : Generation A) (p p' : Provider) (o : outcome abort (option A)) : Prop := {
  cs_requests : exists k, (1 <= k <= S (gw_max_retries cfg))%nat
    /\ pv_requests p' = replicate k (generation_request cfg g) ++ pv_requests p;
  cs_result : match o with
    | Ok (Some a) => (exists c, validate g c = Some a) /\ pv_breaker p' = record_success <$> pv_breaker p
    | Ok None => False
    | Raise e =>
        (pv_breaker p' = pv_breaker p \/ pv_breaker p' = record_success <$> pv_breaker p)
        /\ (reading_error e \/ e = Exc ValidationError \/ e = Exc ProviderError
            \/ exists n, http n (generation_request cfg g) = Raise e)
    end;
}.

(** A step that changes nothing, as a case of its outcome. *)
Lemma pure_run {A} (m : M Provider abort A) p p' o : pure_step m -> m p = (p', o) -> p' = p.
Proof. intros Hm Hp. specialize (Hm p). by rewrite Hp in Hm. Qed.

Lemma generated_spec {A} (g : Generation A) p p' o :
  generated cfg g p = (p', o) -> call_spec g p p' o.
Proof.
  unfold generated, bind at 1. destruct (_post_with_retry _ _ p) as [p1 res] eqn:Er.
  apply retry_spec in Er as [(k & Hk & ->) Hx].
  destruct res as [[status body]|e]; [|intros [= <- <-]; split; [by eauto|]; split; [by left|by eauto]].
  rewrite bind_guard. cbn [fst snd].
  destruct (_ && _); [|intros [= <- <-]; split; [by eauto|]; split; [by left|by eauto]].
  destruct body as [body|]; [|intros [= <- <-]; split; [by eauto|]; split; [by left|]; left; unfold reading_error; set_solver].
  unfold bind at 1. set (q := p <| pv_requests := _ |>).
  destruct (read_content cfg body q) as [q' [c|e]] eqn:Ec;
    apply (pure_run _ _ _ _ (pure_content body)) in Ec as Eq; subst q'.
  2: { apply content_raises in Ec. intros [= <- <-]; split; [by eauto|]; split; [by left|by left]. }
  destruct (validate g c) as [a|] eqn:Ev;
    [|intros [= <- <-]; split; [by eauto|]; split; [by left|by right; left]].
  unfold bind at 1. destruct (lift (py_get "usage" body) q) as [q' [u|e]] eqn:Eu;
    apply (pure_run _ _ _ _ (pure_lift _)) in Eu as Eq; subst q'.
  2: { apply raises_get in Eu. intros [= <- <-]; split; [by eauto|]; split; [by left|by left]. }
  unfold _success. rewrite bind_modify. unfold bind.
  destruct (count_tokens body _) as [q' [[]|e]] eqn:Et;
    apply (pure_run _ _ _ _ (pure_tokens body)) in Et as Eq; subst q'; intros [= <- <-].
  - split; [by eauto|]. by split; [exists c|].
  - apply tokens_raise in Et. split; [by eauto|]. split; [by right|by left].
Qed.
End Calls.

(** The handler of a call. *)
Lemma caught `{Remote} `{Numerals} `{Unicode} {A} cfg (g : Generation A) p (answer : option (CircuitBreaker * bool)) p' o :
  pv_breaker p = fst <$> answer ->
  catch (generated cfg g)
    (fun e => match gateway_failure e with
              | Some countable => _failure countable ;;; ret None
              | None => raise e
              end) p = (p', o) ->
  (exists k, (1 <= k <= S (gw_max_retries cfg))%nat
     /\ pv_requests p' = replicate k (generation_request cfg g) ++ pv_requests p)
  /\ match o with
     | Ok (Some a) => (exists c, validate g c = Some a) /\ pv_breaker p' = record_success ∘ fst <$> answer
     | Ok None => exists t countable,
         pv_breaker p' = record_failure t countable ∘ fst <$> answer
         \/ pv_breaker p' = record_failure t countable ∘ record_success ∘ fst <$> answer
     | Raise e =>
         e = Exc IndexError \/ e = Exc AttributeError \/ e = Exc OverflowError
         \/ (exists n, http n (generation_request cfg g) = Raise e) /\ gateway_failure e = None
     end.
Proof.
  intros Hb. unfold catch. destruct (generated cfg g p) as [p1 [[a|]|e]] eqn:Eg;
    apply generated_spec in Eg as [Hq Hr]; cbn in Hr.
  - intros [= <- <-]. split; [done|]. destruct Hr as [Hv ->]. split; [done|]. rewrite Hb. by destruct answer.
  - done.
  - destruct Hr as [Hbr He]. destruct (gateway_failure e) as [countable|] eqn:Ef.
    + unfold _failure. rewrite bind_modify. intros [= <- <-]. split; [done|].
      exists (monotonic (pv_readings p1)), countable. simpl.
      destruct Hbr as [->| ->]; [left|right]; rewrite Hb; by destruct answer.
    + intros [= <- <-]. split; [done|]. destruct He as [He|[->|[->|He]]]; try done; [|by do 3 right].
      unfold reading_error in He. repeat (apply elem_of_cons in He as [->|He]; [try done; by auto|]).
      by apply elem_of_nil in He.
Qed.

(** ** Strict schemas *)

Section JsonInduction.
Context (P : json -> Prop)
  (Hatom : forall v, (forall l, v <> JList l) -> (forall kvs, v <> JObj kvs) -> P v)
  (Hlist : forall l, Forall P l -> P (JList l))
  (Hobj : forall kvs, Forall (fun kv => P (snd kv)) kvs -> P (JObj kvs)).

Fixpoint json_induction (v : json) : P v.
Proof using Hatom Hlist Hobj.
  destruct v as [|b|z|r|s|l|kvs]; try (by apply Hatom).
  - apply Hlist. induction l as [|v l IH]; constructor; [apply json_induction|exact IH].
  - apply Hobj. induction kvs as [|[k v] kvs IH]; constructor; [apply json_induction|exact IH].
Qed.
End JsonInduction.

(** Every object that lists properties requires them all and admits no others, and
    nothing has a default. *)
Inductive strict : json -> Prop :=
| strict_atom v : (forall l, v <> JList l) -> (forall kvs, v <> JObj kvs) -> strict v
| strict_list l : Forall strict l -> strict (JList l)
| strict_object kvs :
    Forall (fun kv => strict (snd kv)) kvs -> Forall (fun kv => fst kv <> "default") kvs ->
    (forall p, key_of "properties" kvs = Some (JObj p) ->
       key_of "required" kvs = Some (jstrs (map fst p))
       /\ key_of "additionalProperties" kvs = Some (JBool false)) ->
    strict (JObj kvs).

(** No field of the schema is called "default" or "properties". *)
Inductive plain : json -> Prop :=
| plain_atom v : (forall l, v <> JList l) -> (forall kvs, v <> JObj kvs) -> plain v
| plain_list l : Forall plain l -> plain (JList l)
| plain_object kvs :
    Forall (fun kv => plain (snd kv)) kvs ->
    (forall p, key_of "properties" kvs = Some (JObj p) ->
       Forall (fun kv => fst kv <> "default" /\ fst kv <> "properties") p) ->
    plain (JObj kvs).

Lemma key_of_map f k kvs : key_of k (map (fun kv => (fst kv, f (snd kv))) kvs) = f <$> key_of k kvs.
Proof.
  unfold key_of. induction kvs as [|kv kvs IH]; [done|]. simpl. by case_bool_decide.
Qed.
Lemma key_of_set k k' v kvs :
  key_of k (set_key k' v kvs) = if bool_decide (k = k') then Some v else key_of k kvs.
Proof.
  unfold key_of. induction kvs as [|kv kvs IH]; simpl.
  - rewrite (bool_decide_ext (k' = k) (k = k')) by done. by case_bool_decide.
  - destruct (decide (fst kv = k')) as [E|E].
    + rewrite (bool_decide_true (fst kv = k')) by done. simpl.
      rewrite (bool_decide_ext (k' = k) (k = k')) by done. case_bool_decide as Ek; [done|].
      rewrite bool_decide_false; [done|]. congruence.
    + rewrite (bool_decide_false (fst kv = k')) by done. simpl.
      destruct (decide (fst kv = k)) as [E'|E'].
      * rewrite !(bool_decide_true (fst kv = k)) by done. rewrite bool_decide_false; [done|congruence].
      * rewrite !(bool_decide_false (fst kv = k)) by done. exact IH.
Qed.
Lemma key_of_without k kvs : k <> "default" -> key_of k (without_default kvs) = key_of k kvs.
Proof.
  intros Hk. unfold key_of, without_default. induction kvs as [|kv kvs IH]; [done|].
  rewrite filter_cons. case_decide as E; simpl.
  - by case_bool_decide.
  - rewrite (bool_decide_false (fst kv = k)); [exact IH|]. intros Ek. apply Hk. congruence.
Qed.
Lemma set_key_same k v kvs : key_of k kvs = Some v -> set_key k v kvs = kvs.
Proof.
  unfold key_of. induction kvs as [|[k' v'] kvs IH]; simpl; [done|].
  case_bool_decide as E; simpl; [intros [= ->]; by subst|]. intros Hk. by rewrite IH.
Qed.
Lemma set_key_Forall (P : string * json -> Prop) k v kvs :
  P (k, v) -> Forall P kvs -> Forall P (set_key k v kvs).
Proof. intros Hv. induction 1 as [|kv kvs Hkv H IH]; simpl; [by repeat constructor|]. case_bool_decide; by constructor. Qed.

Lemma strict_jstrs l : strict (jstrs l).
Proof. apply strict_list, Forall_map, Forall_true. intros x. by apply strict_atom. Qed.

Lemma strict_stays v : strict v -> strict_schema v = v.
Proof.
  revert v. apply (json_induction (fun v => strict v -> strict_schema v = v)).
  - intros v Hl Ho _. destruct v; try done; [by destruct (Hl l)|by destruct (Ho kvs)].
  - intros l IH Hs. inversion Hs as [v' Hl ?|l' Hf|]; subst; [by destruct (Hl l)|]. cbn. f_equal.
    clear Hs. induction IH as [|v l Hv _ IHl]; [done|]. inversion Hf; subst. simpl. by rewrite Hv, IHl.
  - intros kvs IH Hs. inversion Hs as [v' ? Ho| |kvs' Hf Hd Hp]; subst; [by destruct (Ho kvs)|]. cbn. f_equal.
    assert (E : map (fun kv => (fst kv, strict_schema (snd kv))) kvs = kvs).
    { clear Hs Hd Hp. induction IH as [|[k v] kvs Hv _ IHl]; [done|]. inversion Hf; subst. simpl in *.
      by rewrite Hv, IHl. }
    rewrite E. clear E. unfold without_default. rewrite filter_full; [|].
    + destruct (key_of "properties" kvs) as [[]|]; try done.
      destruct (Hp _ eq_refl) as [Hr Ha]. by rewrite (set_key_same "required"), set_key_same.
    + destruct (key_of "properties" kvs) as [[]|]; try done. by do 2 (apply set_key_Forall; [done|]).
Qed.

(** The visited properties keep their names. *)
Lemma strict_fields p :
  Forall (fun kv => fst kv <> "default" /\ fst kv <> "properties") p ->
  exists p', strict_schema (JObj p) = JObj p' /\ map fst p' = map fst p.
Proof.
  intros Hp. cbn.
  assert (Hk : key_of "properties" p = None).
  { unfold key_of. induction Hp as [|kv p [_ Hkv] _ IH]; [done|]. simpl. by rewrite bool_decide_false. }
  rewrite Hk. eexists. split; [done|]. unfold without_default. rewrite filter_full.
  - by rewrite map_map.
  - apply Forall_map. apply (Forall_impl _ _ _ Hp). by intros kv [? _].
Qed.

Lemma strict_schema_strict v : plain v -> strict (strict_schema v).
Proof.
  revert v. apply (json_induction (fun v => plain v -> strict (strict_schema v))).
  - intros v Hl Ho _. destruct v; try (by apply strict_atom); [by destruct (Hl l)|by destruct (Ho kvs)].
  - intros l IH Hs. inversion Hs as [v' Hl ?|l' Hf|]; subst; [by destruct (Hl l)|]. cbn. apply strict_list.
    apply Forall_map. apply Forall_forall. rewrite Forall_forall in IH, Hf. intros v Hv. by apply IH, Hf.
  - intros kvs IH Hs. inversion Hs as [v' ? Ho| |kvs' Hf Hp]; subst; [by destruct (Ho kvs)|]. cbn.
    assert (Hv : Forall (fun kv => strict (snd kv)) (map (fun kv => (fst kv, strict_schema (snd kv))) kvs)).
    { apply Forall_map, Forall_forall. rewrite Forall_forall in IH, Hf. intros kv Hkv. by apply IH, Hf. }
    set (visited := map (fun kv => (fst kv, strict_schema (snd kv))) kvs) in *.
    assert (Hk : key_of "properties" visited = strict_schema <$> key_of "properties" kvs) by apply key_of_map.
    apply strict_object.
    + assert (Hall : Forall (fun kv => strict (snd kv))
        match key_of "properties" kvs with
        | Some (JObj p) => set_key "additionalProperties" (JBool false) (set_key "required" (jstrs (map fst p)) visited)
        | _ => visited
        end).
      2: { apply Forall_forall. rewrite Forall_forall in Hall. intros kv [_ Hin]%list_elem_of_filter. by apply Hall. }
      destruct (key_of "properties" kvs) as [[]|]; try done.
      apply set_key_Forall; [by apply strict_atom|]. apply set_key_Forall; [apply strict_jstrs|done].
    + apply Forall_forall. by intros kv [? _]%list_elem_of_filter.
    + intros p. rewrite !key_of_without by done.
      destruct (key_of "properties" kvs) as [[| | | | | |fields]|] eqn:E.
      7: { destruct (strict_fields fields (Hp _ eq_refl)) as (p' & E' & Hn).
           rewrite !key_of_set, Hk. simpl bool_decide. cbv iota.
           change (Some (strict_schema (JObj fields)) = Some (JObj p) ->
             Some (jstrs (map fst fields)) = Some (jstrs (map fst p))
             /\ Some (JBool false) = Some (JBool false)).
           rewrite E'. intros [= <-]. by rewrite Hn. }
      all: rewrite Hk; done.
Qed.

(** ** Theorems *)

(** C23: the gateway's contract, whatever the model's service answers. While the breaker
    refuses, a call returns nothing and no request leaves. Otherwise the same request
    leaves between once and [max_retries + 1] times. A value that is returned was
    validated, and the breaker records a success. When nothing is returned the breaker
    records one failure. An exception that gets out is an IndexError, an AttributeError
    or an OverflowError of reading the answer, or one of the HTTP client that is neither
    a timeout nor a network error. *)
Theorem generate_contract `{Remote} `{Numerals} `{Unicode} {A} cfg (g : Generation A) p p' o :
  generate cfg g p = (p', o) ->
  match asked_breaker p with
  | Some (b, false) => o = Ok None /\ pv_breaker p' = Some b /\ pv_requests p' = pv_requests p
  | answer =>
      (exists k, (1 <= k <= S (gw_max_retries cfg))%nat
         /\ pv_requests p' = replicate k (generation_request cfg g) ++ pv_requests p)
      /\ match o with
         | Ok (Some a) => (exists c, validate g c = Some a)
                          /\ pv_breaker p' = record_success ∘ fst <$> answer
         | Ok None => exists t countable,
             pv_breaker p' = record_failure t countable ∘ fst <$> answer
             \/ pv_breaker p' = record_failure t countable ∘ record_success ∘ fst <$> answer
         | Raise e =>
             e = Exc IndexError \/ e = Exc AttributeError \/ e = Exc OverflowError
             \/ (exists n, http n (generation_request cfg g) = Raise e) /\ gateway_failure e = None
         end
  end.
Proof.
  unfold generate, asked_breaker, _allow. destruct (pv_breaker p) as [b|] eqn:Eb; simpl.
  - destruct (allow _ _ b) as [b' []]; [|by intros [= <- <-]]. cbn [fst].
    intros Hg. by apply (caught cfg g _ (Some (b', true))) in Hg.
  - intros Hg. by apply (caught cfg g p None) in Hg; [|rewrite Eb].
Qed.

(** the strict form of a schema. When no field is called "default" or "properties",
    the schema that is sent requires every listed property, admits no others and has no
    defaults, at every depth; making it strict again changes nothing. *)
Theorem strict_schema_normal schema :
  plain schema ->
  strict (_openai_strict_schema schema)
  /\ _openai_strict_schema (_openai_strict_schema schema) = _openai_strict_schema schema.
Proof.
  intros Hp. unfold _openai_strict_schema. pose proof (strict_schema_strict schema Hp) as Hs.
  split; [done|]. by apply strict_stays.
Qed.

(** ** Concrete calls *)

#[local] Instance no_numerals : Numerals := {| float_text := fun _ => None; int_text := fun _ => None |}.
#[local] Existing Instance demo_unicode.

Definition chat : GatewayConfig := mkGatewayConfig "gpt" (JInt 0) false 2.
(** The answer has to be the text "ok". *)
Definition demo_generation : Generation string :=
  mkGeneration "system" (JObj []) "Envelope" (JObj [])
    (fun v => match v with JvStr s => if bool_decide (s = "ok") then Some s else None | _ => None end).
Definition chat_body (choices : list jvalue) (usage : list (string * jvalue)) : jvalue :=
  JvDict [("choices", JvList choices); ("usage", JvDict usage)].
Definition choice_of (text : string) : jvalue :=
  JvDict [("message", JvDict [("content", JvStr text)])].
Definition answering (body : jvalue) : Remote :=
  demo_remote (fun n _ => if (n =? 0)%nat then Ok (503, None) else Ok (200, Some body)).
Definition called (body : jvalue) : Provider * outcome abort (option string) :=
  @generate (answering body) no_numerals demo_unicode chat string demo_generation (demo_provider (Some (new_breaker default_policy))).

Abbreviation good_body := (chat_body [choice_of "ok"] [("prompt_tokens", JvInt 3)]).

Lemma generate_contract_witness :
  exists p', called good_body = (p', Ok (Some "ok")) /\ (exists c, validate demo_generation c = Some "ok")
    /\ exists k, (1 <= k <= 3)%nat
         /\ pv_requests p' = replicate k (generation_request chat demo_generation).
Proof.
  destruct (called good_body) as [p' o] eqn:E.
  pose proof (@generate_contract (answering good_body) no_numerals demo_unicode string chat demo_generation
    (demo_provider (Some (new_breaker default_policy))) p' o E) as H.
  assert (Ho : o = Ok (Some "ok")) by (apply (f_equal snd) in E; vm_compute in E; by rewrite <- E).
  subst o. exists p'. split; [done|]. destruct H as [(k & Hk & Hr) [Hv _]]. split; [done|].
  exists k. split; [done|]. by rewrite app_nil_r in Hr.
Defined.

Definition demo_schema : json :=
  JObj [("title", JStr "Envelope"); ("default", JNull);
        ("properties", JObj [("causes", JObj [("items", JObj [("properties", JObj [("cause", JObj [("default", JStr "")])])])])])].

Lemma strict_schema_normal_witness :
  strict (_openai_strict_schema demo_schema)
  /\ _openai_strict_schema demo_schema
     = JObj [("title", JStr "Envelope");
             ("properties", JObj [("causes", JObj [("items", JObj
                [("properties", JObj [("cause", JObj [])]); ("required", jstrs ["cause"]);
                 ("additionalProperties", JBool false)])])]);
             ("required", jstrs ["causes"]); ("additionalProperties", JBool false)].
Proof.
  split; [|reflexivity]. apply (strict_schema_normal demo_schema). unfold demo_schema.
  repeat (first [apply plain_object; [|intros p; first [discriminate|intros [= <-]; by repeat constructor]]
                |apply Forall_cons; split|apply Forall_nil; exact I|progress cbn [snd]|apply plain_atom; intros ? [=]]).
Defined.

(** An answer without choices gets out as an IndexError, although the agent would go on
    with its rules if nothing were returned; a trial call of the breaker is lost. *)
Example empty_choices_escape :
  let opened := run (new_breaker default_policy) [Failure 0 true; Failure 0 true; Failure 0 true] in
  let '(p, o) := @generate (answering (chat_body [] [])) no_numerals demo_unicode chat string demo_generation (demo_provider (Some opened)) in
  o = Raise (Exc IndexError)
  /\ (state <$> pv_breaker p) = Some HALF_OPEN /\ (half_open_probe_active <$> pv_breaker p) = Some true.
Proof. vm_compute. by split_and!. Qed.

(** A valid answer is thrown away when the number of its tokens cannot be read, after
    the breaker has recorded the success. *)
Example unreadable_usage_discards :
  snd (called (chat_body [choice_of "ok"] [("prompt_tokens", JvStr "many")])) = Ok None
  /\ snd (called good_body) = Ok (Some "ok").
Proof. vm_compute. by split_and!. Qed.
