(* ===== verification/IngestionRuns.v ===== *)
(** * The manual library: theorems and runs

    What holds in every state ingestions and the index worker reach, the composition
    with a search, concrete ingestions, and runs the code does not intend. *)

From stdpp Require Import pretty.
From S2P Require Import Prelude Errors Json Float Tools Contracts Store IndexRepo.
From S2P Require Import Text Regex CaseApp IndexHandlers Consumer.
From S2P Require Import Scoring Selection Rewrite Cursors Chunking ChunkingProps Ingestion System IngestionProps.
From S2P Require Import Library Retrieval RetrievalProps RetrievalRuns.
Open Scope Z_scope.

(** C29: whatever is ingested and indexed, the tables of manuals stay consistent: a
    version of a document is there once, at most one version of a document is
    effective, chunk ids are unique, every chunk belongs to a version and is effective,
    verified and generated as that version is, and the chunks of a version are those
    counted, numbered from 0. *)
Theorem manuals_consistent `{Env} `{Unicode} `{Platform} `{Readers} cc w :
  rtc (manual_op cc) empty_world w -> manuals_ok (documents w) (chunks w).
Proof. intros Hr. apply (manual_ops_ok cc _ _ Hr), empty_manuals. Qed.

(** The columns a search reads of a chunk. *)
Definition library_row (c : ManualChunk) : ChunkRow :=
  mkChunkRow (chunk_id c) (c_doc_id c) (c_device_type c) (c_device_model c) (c_manufacturer c)
    (c_alarm_name c) (c_chapter_title c) (c_page_no c) (c_section_type c) (summary_or_content c)
    (c_version c) (c_verified c) (c_effective c) (c_index_generation c).

Lemma document_of_key w d d' : manuals_wf w -> d ∈ documents w -> d' ∈ documents w ->
  doc_key d = doc_key d' -> d = d'.
Proof.
  intros [V _ _ _ _] (i & Hi)%list_elem_of_lookup (j & Hj)%list_elem_of_lookup Hk.
  assert (i = j) as ->; [|congruence].
  apply (NoDup_lookup _ _ _ (doc_key d) V).
  - etransitivity; [apply list_lookup_fmap|by rewrite Hi].
  - etransitivity; [apply list_lookup_fmap|by rewrite Hj, Hk].
Qed.

(** C30: what a search for manuals cites is current. In every state ingestions and the
    worker reach, cited evidence is a chunk of the one effective version of its
    document, with the text of the chunk; unless the search is by keywords only, that
    version is approved and indexed. *)
Theorem cited_manuals_are_current `{Env} `{Unicode} `{Platform} `{Readers} `{RetrievalPorts}
  cc w lib q s s' r :
  rtc (manual_op cc) empty_world w ->
  lb_chunks lib = map library_row (chunks w) -> lb_documents lib = documents w ->
  q_source q = SRC_MANUAL -> search lib q s = (s', Ok r) ->
  Forall (fun e => exists d c, d ∈ documents w /\ c ∈ chunks w /\ owned d c
      /\ source_id e = doc_id d /\ cd_chunk_id e = Some (chunk_id c)
      /\ content_summary e = str_take 1200 (summary_or_content c)
      /\ Store.effective d = true
      /\ (forall d', d' ∈ documents w -> doc_id d' = doc_id d -> Store.effective d' = true -> d' = d)
      /\ (default default_mode (q_mode q) <> KEYWORD_ONLY ->
            d_review_status d = "APPROVED" /\ d_index_status d = IDX_INDEXED))
    (map ranked (ranked_evidence r)).
Proof.
  intros Hreach Hcs Hds Hq Hr. assert (W : manuals_wf w) by by eapply manuals_consistent.
  destruct (search_sound lib q (ltac:(by rewrite Hq)) s s' r Hr) as (rows & Hrows & [Hc _ _ _ _ _ _ _]).
  apply (Forall_impl _ _ _ Hc). intros e (row & Hrow & Hof).
  destruct (Hrows row Hrow) as [Hsrc Ha]. rewrite Hq in Hsrc.
  destruct row as [ck| |]; try done. destruct Ha as (Hin & Hok & Happ).
  rewrite Hcs in Hin. apply list_elem_of_fmap in Hin as (c & -> & Hin).
  destruct (mo_owner _ _ W c Hin) as (d & Hd & Ho).
  assert (He : Store.effective d = true).
  { destruct Ho as [_ <- _ _]. unfold chunk_ok in Hok. rewrite !andb_true_iff in Hok.
    destruct Hok as (((_ & He) & _) & _). exact He. }
  assert (Hkey : c_doc_id c = doc_id d /\ c_version c = version d) by (by destruct Ho as [[= -> ->]]).
  destruct Hkey as [Hid Hv]. destruct Hof. exists d, c. simpl in *.
  split_and!; try done; try congruence.
  - intros d' Hd' Hi He'. apply (document_of_key w); try done. unfold doc_key.
    by rewrite Hi, (mo_effective _ _ W d' d Hd' Hd He' He Hi).
  - intros Hmode. destruct Happ as (d0 & Hd0 & Happ); [by rewrite bool_decide_eq_false_2|].
    rewrite Hds in Hd0. unfold approved_document in Happ.
    rewrite !andb_true_iff, !bool_decide_eq_true in Happ. simpl in Happ.
    destruct Happ as ((((E1 & E2) & E3) & _) & E5).
    assert (d0 = d) as <- by (apply (document_of_key w); [done..|]; unfold doc_key; congruence). done.
Qed.

(** ** Concrete ingestions *)

Definition demo_readers : Readers := mkReaders (fun _ => Raise ValueError) (fun _ => Ok ([], [])).
Definition demo_ingestion : IngestionConfig := mkIngestionConfig 1000 true true "sync" 3 true.
Definition demo_manifest (doc v : string) (review : ManualReviewStatus) : DocumentManifest :=
  mkManifest doc "manual.md" v "text/markdown" "PCS" (Some "PCS-100") None (Some "温度告警") review true.
Definition demo_content : string := "# 散热

注意：先断电

检查散热风扇。清洁滤网。".

Abbreviation demo_ingest ic mf content w :=
  (@ingest (demo_env all_fine) demo_unicode demo_platform demo_readers ic mf content w).
Abbreviation first_version := (fst (demo_ingest demo_ingestion (demo_manifest "M1" "v1" MR_APPROVED) demo_content empty_world)).
Abbreviation second_version := (fst (demo_ingest demo_ingestion (demo_manifest "M1" "v2" MR_APPROVED) "检查风扇" first_version)).

Example demo_first :
  (map (fun d => (version d, Store.effective d, d_index_status d, d_chunk_count d)) (documents first_version),
   map (fun c => (c_chunk_order c, c_chapter_title c, c_section_type c, summary_or_content c)) (chunks first_version))
  = ([("v1", true, IDX_INDEXED, 2%nat)],
     [(0%nat, "散热", "注意事项", "注意：先断电"); (1%nat, "散热", "正文", "检查散热风扇。清洁滤网。")]).
Proof. vm_compute. reflexivity. Qed.
Example demo_second :
  map (fun d => (version d, Store.effective d)) (documents second_version) = [("v1", false); ("v2", true)].
Proof. vm_compute. reflexivity. Qed.

Lemma demo_reached : @rtc World (@manual_op (demo_env all_fine) demo_unicode demo_platform demo_readers demo_consumer)
  empty_world second_version.
Proof.
  eapply rtc_l; [|apply rtc_once]; apply mo_ingest.
Qed.

Lemma manuals_consistent_witness :
  manuals_ok (documents second_version) (chunks second_version)
  /\ map (fun c => (c_version c, c_effective c)) (chunks second_version)
     = [("v1", false); ("v1", false); ("v2", true)].
Proof.
  split; [exact (@manuals_consistent (demo_env all_fine) demo_unicode demo_platform demo_readers
                   demo_consumer second_version demo_reached)|].
  vm_compute. reflexivity.
Defined.

Abbreviation manual_library :=
  (mkLibrary (map library_row (chunks second_version)) (documents second_version) [] []).
Abbreviation current_search :=
  (@search demo_unicode demo_platform (demo_ports []) manual_library
     (demo_query SRC_MANUAL HYBRID "检查风扇" []) new_retrieval).

Lemma cited_manuals_are_current_witness :
  exists s' r, current_search = (s', Ok r)
    /\ map (fun e => content_summary (ranked e)) (ranked_evidence r) = ["检查风扇"]
    /\ Forall (fun e => exists d, d ∈ documents second_version /\ source_id e = doc_id d
         /\ Store.effective d = true /\ d_review_status d = "APPROVED") (map ranked (ranked_evidence r)).
Proof.
  destruct current_search as [s' [r|a]] eqn:E.
  - pose proof (@cited_manuals_are_current (demo_env all_fine) demo_unicode demo_platform demo_readers
      (demo_ports []) demo_consumer second_version manual_library
      (demo_query SRC_MANUAL HYBRID "检查风扇" []) new_retrieval s' r demo_reached
      eq_refl eq_refl eq_refl E) as Hc.
    exists s', r. split; [reflexivity|]. split.
    + change r with (match snd (s', Ok (E := Tools.abort) r) with Ok r => r | Raise _ => r end).
      rewrite <-E. vm_compute. reflexivity.
    + apply (Forall_impl _ _ _ Hc). intros e (d & c & Hd & _ & _ & Hi & _ & _ & He & _ & Hst).
      exists d. split_and!; [exact Hd|exact Hi|exact He|]. apply Hst. discriminate.
  - apply (f_equal (fun x => match snd x with Ok _ => true | Raise _ => false end)) in E.
    vm_compute in E. discriminate E.
Defined.

Lemma ingest_all_or_nothing_witness :
  exists w' r, demo_ingest demo_ingestion (demo_manifest "M1" "v1" MR_APPROVED) demo_content empty_world = (w', Ok r)
    /\ ig_index_status r = IDX_INDEXED /\ ig_chunk_count r = 2%nat
    /\ jobs w' = jobs empty_world.
Proof.
  pose proof (@ingest_all_or_nothing (demo_env all_fine) demo_unicode demo_platform demo_readers
    demo_ingestion (demo_manifest "M1" "v1" MR_APPROVED) demo_content empty_world jobs_wf_empty
    (Forall_nil_2 _)) as Hr.
  destruct (demo_ingest demo_ingestion (demo_manifest "M1" "v1" MR_APPROVED) demo_content empty_world)
    as [w' [r|e]] eqn:E.
  - exists w', r.
    assert (Hs : (match snd (w', Ok (E := exn) r) with Ok r => (ig_index_status r, ig_chunk_count r) | Raise _ => (IDX_QUEUED, 0%nat) end)
      = (IDX_INDEXED, 2%nat)) by (rewrite <-E; vm_compute; reflexivity).
    simpl in Hs. injection Hs as Hs Hc. split_and!; [reflexivity|exact Hs|exact Hc|].
    destruct Hr as (blocks & gen & now & d & [_ _ _ _ _ _ _ _ _ Hj]). apply Hj. rewrite Hs. discriminate.
  - apply (f_equal (fun x => match snd x with Ok _ => true | Raise _ => false end)) in E.
    vm_compute in E. discriminate E.
Defined.

Lemma ingest_once_witness :
  exists st w1 r, demo_ingest demo_ingestion (demo_manifest "M1" "v1" MR_APPROVED) demo_content empty_world = (w1, Ok r)
    /\ demo_ingest demo_ingestion (demo_manifest "M1" "v1" MR_APPROVED) demo_content w1
       = (w1, Ok (mkIngestion "M1" "v1" (ig_object_key r) (@sha256 (demo_env all_fine) demo_content)
                    (ig_chunk_count r) st true None)).
Proof.
  destruct (demo_ingest demo_ingestion (demo_manifest "M1" "v1" MR_APPROVED) demo_content empty_world)
    as [w1 [r|e]] eqn:E.
  - pose proof (@ingest_once (demo_env all_fine) demo_unicode demo_platform demo_readers demo_consumer
      demo_ingestion (demo_manifest "M1" "v1" MR_APPROVED) demo_content empty_world w1 r w1 demo_content
      empty_manuals jobs_wf_empty E (@rtc_refl _ _ w1) (ltac:(vm_compute; discriminate))) as Ho.
    rewrite bool_decide_eq_true_2 in Ho by reflexivity. destruct Ho as [st Ho].
    exists st, w1, r. split; [reflexivity|exact Ho].
  - apply (f_equal (fun x => match snd x with Ok _ => true | Raise _ => false end)) in E.
    vm_compute in E. discriminate E.
Defined.

(** ** Where the code falls short *)

(** A new version that is not approved withdraws the approved one: afterwards no
    version of the document is both effective and approved, and searches by vector
    find nothing of it. *)
Abbreviation after_draft :=
  (fst (demo_ingest demo_ingestion (demo_manifest "M1" "v2" MR_DRAFT) "检查风扇" first_version)).
Example draft_withdraws_approved :
  map (fun d => (version d, d_review_status d, Store.effective d)) (documents after_draft)
  = [("v1", "APPROVED", false); ("v2", "DRAFT", true)].
Proof. vm_compute. reflexivity. Qed.

(** Numbered steps look like headings: nothing of such a text is kept, and the
    document is accepted without a chunk, as the effective version. *)
Definition steps : string := "1.1 断开电源
1.2 检查风扇
1.3 恢复供电".
Example steps_are_lost :
  let '(w', o) := demo_ingest demo_ingestion (demo_manifest "M1" "v2" MR_APPROVED) steps first_version in
  (match o with Ok r => Some (ig_chunk_count r, ig_index_status r) | Raise _ => None end,
   map (fun d => (version d, Store.effective d)) (documents w'))
  = (Some (0%nat, IDX_INDEXED), [("v1", false); ("v2", true)]).
Proof. vm_compute. reflexivity. Qed.

(** The parts of a chunk id are not separated: version 2 of the document x|1 and
    version 1|2 of the document x have the same ids, and the second is refused by the
    primary key. *)
Lemma chunk_ids_collide `{Env} `{Unicode} `{Platform} order title content k page :
  dc_chunk_id (chunk_of "x|1" "2" order title content k page)
  = dc_chunk_id (chunk_of "x" "1|2" order title content k page).
Proof. reflexivity. Qed.
Example colliding_version_refused :
  let w := fst (demo_ingest demo_ingestion (demo_manifest "x|1" "2" MR_APPROVED) demo_content empty_world) in
  snd (demo_ingest demo_ingestion (demo_manifest "x" "1|2" MR_APPROVED) demo_content w) = Raise IntegrityError.
Proof. vm_compute. reflexivity. Qed.
