(* ===== verification/Findings.v ===== *)
(** * Where the code does not do what it means to do

    Each theorem runs the operations of the model from a state the system
    reaches and states what comes out. *)

From S2P Require Import Prelude Errors Json Contracts Store Timeline IndexRepo Sessions.
From S2P Require Import CaseRepo CaseHistory CaseApp CaseInv CaseSafety IndexHandlers Consumer.
From S2P Require Import System.
Open Scope Z_scope.

(** The part of a case a reader of the table sees. *)
Definition shown (c : DiagnosisCase) : CaseStatus * IndexStatus * bool :=
  (review_status c, index_status c, is_active c).
Definition outcome_of {S A} (r : S * outcome exn A) : outcome exn unit :=
  match snd r with Ok _ => Ok tt | Raise e => Raise e end.

(** The embedding service is down for the first calls. *)
Definition embed_down (n : nat) : list call -> call -> option exn := fun past c =>
  match c with
  | Embed _ => if (length past <? n)%nat then Some (Domain EmbeddingUnavailableError []) else None
  | _ => None
  end.

(** It is down for one call. *)
Definition embed_down_at (n : nat) : list call -> call -> option exn := fun past c =>
  match c with
  | Embed _ => if (length past =? n)%nat then Some (Domain EmbeddingUnavailableError []) else None
  | _ => None
  end.

(** The case a creation left last: the one with the highest version. *)
Definition case_of_version (v : Z) (w : World) : option (string * DiagnosisCase) :=
  find_first (fun kc => bool_decide (case_version (snd kc) = v)) (map_to_list (cases w)).
Definition id_of_version (v : Z) (w : World) : string :=
  match case_of_version v w with Some (cid, _) => cid | None => "" end.
Definition shown_of_version (v : Z) (w : World) :=
  (fun kc => shown (snd kc)) <$> case_of_version v w.

(** The only message of the outbox with this job, delivered until it is dead. *)
Definition deliver_all `{Env} (n : nat) (w : World) : World :=
  let w1 := fst (publish_once demo_consumer 50 w) in
  let messages := map ob_payload (filter (fun o => publish_status o = OB_PENDING) (outbox w)) in
  fst (for_each (fun m => for_each (fun _ => catch (consume demo_consumer (Delivered m))
    (fun _ => ret tt)) (seq 0 n)) messages w1).

Section Reindex.
Context `{Env}.
Definition failed_index : World := deliver_all 3 (demo_approved "rabbitmq").
Definition first_reindex : World :=
  fst (reindex (demo_config "rabbitmq") (demo_cid "rabbitmq") bob None failed_index).
Definition failed_reindex : World := deliver_all 3 first_reindex.
Definition second_reindex : World :=
  fst (reindex (demo_config "rabbitmq") (demo_cid "rabbitmq") bob None failed_reindex).
End Reindex.

(** in queue mode a case can be re-indexed once only.  When the first
    re-index has failed, the second one answers that the case is queued, but it
    finds the finished job of the first and queues nothing: no job waits and no
    outbox row is unsent, and from then on every re-index is refused, because a
    queued case is not eligible. *)
Theorem second_reindex_is_lost :
  let env := demo_env (embed_down 1000) in
  let cid := @demo_cid env "rabbitmq" in
  shown <$> cases (@failed_reindex env) !! cid = Some (APPROVED, IDX_FAILED, false)
  /\ outcome_of (@reindex env (demo_config "rabbitmq") cid bob None (@failed_reindex env)) = Ok tt
  /\ shown <$> cases (@second_reindex env) !! cid = Some (APPROVED, IDX_QUEUED, false)
  /\ filter (fun o => publish_status o = OB_PENDING) (outbox (@second_reindex env)) = []
  /\ map (fun ij => status (snd ij)) (map_to_list (jobs (@second_reindex env)))
     = [JOB_FAILED; JOB_FAILED]
  /\ outcome_of (@reindex env (demo_config "rabbitmq") cid bob None (@second_reindex env))
     = Raise (Domain CaseNotIndexedError []).
Proof. vm_compute. repeat split. Qed.

Section Revisions.
Context `{Env} (mode : string).

(** The author revises the case, and the revision is decided on. *)
Definition revised (w : World) : World :=
  fst (revision (demo_config mode) (id_of_version 1 w) [SetSymptomSummary (Some "hotter")] true
         alice None w).
Definition decided (v : Z) (d : string) (w : World) : World * outcome exn CaseView :=
  review_case (demo_config mode) (id_of_version v w) (mkCaseReview d (Some "no")) bob None w.
End Revisions.

(** a rejected case can be revised, but approving the revision reports a
    conflict although it happened: the revision is approved, indexed and
    active, the approval is not audited, and the answer to the reviewer is the
    error CASE_STATE_CONFLICT, raised by the attempt to supersede a case that
    was never approved. *)
Theorem approving_revision_of_rejected :
  let env := demo_env all_fine in
  let rejected := fst (@decided env "sync" 1 "reject" (@demo_submitted env "sync")) in
  let w := @revised env "sync" rejected in
  let r := @decided env "sync" 2 "approve" w in
  shown_of_version 1 w = Some (REJECTED, IDX_PENDING, false)
  /\ outcome_of r = Raise (Domain CaseStateConflictError [])
  /\ shown_of_version 2 (fst r) = Some (APPROVED, IDX_INDEXED, true)
  /\ filter (fun a => au_action a = "case.approved") (audits (fst r)) = [].
Proof. vm_compute. repeat split. Qed.

(** in synchronous mode a revision whose index failed at approval and
    succeeded on retry leaves the case it revises active: both versions are
    approved, indexed and active. *)
Theorem reindexed_revision_leaves_old_active :
  let env := demo_env (embed_down_at 2) in
  let w := @revised env "sync" (@demo_approved env "sync") in
  let failed := fst (@decided env "sync" 2 "approve" w) in
  let r := @reindex env (demo_config "sync") (id_of_version 2 failed) bob None failed in
  shown_of_version 2 failed = Some (APPROVED, IDX_FAILED, false)
  /\ outcome_of r = Ok tt
  /\ shown_of_version 2 (fst r) = Some (APPROVED, IDX_INDEXED, true)
  /\ shown_of_version 1 (fst r) = Some (APPROVED, IDX_INDEXED, true).
Proof. vm_compute. repeat split. Qed.

(** The same with the service up: the old version is superseded. *)
Example indexed_revision_supersedes :
  let env := demo_env all_fine in
  let r := @decided env "sync" 2 "approve" (@revised env "sync" (@demo_approved env "sync")) in
  shown_of_version 2 (fst r) = Some (APPROVED, IDX_INDEXED, true)
  /\ shown_of_version 1 (fst r) = Some (SUPERSEDED, IDX_TOMBSTONED, false).
Proof. vm_compute. repeat split. Qed.

(** sending the confirmation of a diagnosis again (same key, same body)
    answers with the draft it created - unless that case was revised
    meanwhile: the revision carries the same source review, and the lookup of
    the draft by its review then fails on two rows. *)
Theorem replayed_review_fails_after_revision :
  let env := demo_env all_fine in
  let again w := outcome_of (@review_diagnosis env (demo_config "sync") "s1" demo_review alice
                               (Some "k1") w) in
  again (@demo_approved env "sync") = Ok tt
  /\ again (@revised env "sync" (@demo_approved env "sync")) = Raise MultipleResultsFound.
Proof. vm_compute. repeat split. Qed.

(** The message of the revision's upsert. *)
Definition revision_message (w : World) : IndexJobMessage :=
  mkMessage "j2" DIAGNOSIS_CASE (id_of_version 2 w) "2" UPSERT "t" "s1" "rv1" 0.

(** a batch of one message and the message alone differ: alone, the upsert
    of a revision supersedes the case it revises and queues its removal; as a
    batch it indexes the revision and leaves the old case approved and active. *)
Theorem batch_does_not_supersede :
  let env := demo_env all_fine in
  let cfg := demo_config "rabbitmq" in
  let old := deliver_all 1 (@demo_approved env "rabbitmq") in
  let w := fst (@decided env "rabbitmq" 2 "approve" (@revised env "rabbitmq" old)) in
  let e := revision_message w in
  let alone := @handle env (mkHandlerConfig true true) e w in
  let batch := @handle_batch env (mkHandlerConfig true true) [e] w in
  outcome_of alone = Ok tt /\ outcome_of batch = Ok tt
  /\ shown_of_version 2 (fst alone) = shown_of_version 2 (fst batch)
  /\ shown_of_version 1 (fst alone) = Some (SUPERSEDED, IDX_QUEUED, false)
  /\ shown_of_version 1 (fst batch) = Some (APPROVED, IDX_INDEXED, true).
Proof. vm_compute. repeat split. Qed.

(** a patch that sets a list field to null is stored although the answer
    is an error: the row then fails validation on every later read. *)
Theorem null_patch_poisons `{Env} cid actor c w :
  cases w !! cid = Some c -> review_status c = DRAFT -> created_by c = actor_id actor ->
  exists w', patch cid [SetResolutionSteps None] actor w = (w', Raise ValidationError)
    /\ resolution_steps <$> cases w' !! cid = Some None
    /\ forall w1, cases w1 = cases w' -> snd (get cid w1) = Raise ValidationError.
Proof.
  intros Hc Hst Hby. unfold patch.
  assert (Ht : exists t i, trace_id w = (w <| ids := i |>, Ok t)).
  { unfold trace_id, ret, new_id. destruct context_trace_id as [t|].
    - exists t, (ids w). by destruct w.
    - by exists (uuid (ids w)), (S (ids w)). }
  destruct Ht as (t & i & Ht). rewrite (bind_ok _ _ _ _ _ Ht).
  unfold update_draft, bind, atomically, gets, guard, case_record. simpl.
  rewrite Hc, Hst, Hby, !bool_decide_true by done. simpl.
  eexists. split; [done|]. simpl. rewrite lookup_insert_eq. split; [done|].
  intros w1 Hw1. unfold get, repo_get, bind, gets, case_record. by rewrite Hw1, lookup_insert_eq.
Qed.

Lemma null_patch_poisons_witness :
  let w := @demo_drafted (demo_env all_fine) "sync" in
  exists w', @patch (demo_env all_fine) (@demo_cid (demo_env all_fine) "sync")
    [SetResolutionSteps None] alice w = (w', Raise ValidationError).
Proof.
  cbv zeta.
  destruct (cases (@demo_drafted (demo_env all_fine) "sync")
    !! @demo_cid (demo_env all_fine) "sync") as [c|] eqn:Hc; [|vm_compute in Hc; discriminate Hc].
  destruct (@null_patch_poisons (demo_env all_fine) _ alice c _ Hc) as (w' & Hw' & _);
    [vm_compute in Hc; injection Hc as <-; reflexivity..|].
  exists w'. exact Hw'.
Defined.

(** the worker's last write has no guard.  If the case is disabled after
    the worker read it as approved and before the worker writes its outcome,
    the disabled case becomes active again, and the tombstone queued by the
    disabling is then dropped as stale because the case is active. *)
Theorem late_index_write_reactivates :
  let env := demo_env all_fine in
  let cid := @demo_cid env "rabbitmq" in
  let late := fst (@set_case_index env cid IDX_INDEXED true (Some "text")
                     (@demo_disabled env "rabbitmq")) in
  let tombstone := mkMessage "j2" DIAGNOSIS_CASE cid "1" TOMBSTONE "t" "s1" "rv1" 0 in
  shown <$> cases (@demo_disabled env "rabbitmq") !! cid = Some (DISABLED, IDX_QUEUED, false)
  /\ shown <$> cases late !! cid = Some (DISABLED, IDX_INDEXED, true)
  /\ @handle env (mkHandlerConfig true true) tombstone late = (late, Raise StaleIndexEventError).
Proof. vm_compute. repeat split. Qed.
