(* ===== verification/TimelineView.v ===== *)
(** * The merged timeline of a session

    [timeline/service.py] [get]: the stored events with the steps of the agent, the
    last result, and the reviews and cases that have no event of their own, in one
    numbered list; with the queries of [persistence/repositories/cases.py] and
    [diagnosis_review.py] it reads. *)

From stdpp Require Import pretty.
From S2P Require Import Prelude Errors Json Contracts Store Timeline Sessions CaseRepo CaseApp CaseInv CaseSafety Consumer System Execution.
Open Scope Z_scope.

(** A row of the step log, and the newest answer of a session.
    [contracts/diagnosis.py:175-176 StepLogRecord] *)
Record StepRow := mkStepRow {
  st_id : Z;
  st_name : string;
  st_status : string;
  st_run_id : string;
  st_started_at : Z;
  st_output : option json;
  st_error_code : option string;
}.
(** [contracts/diagnosis.py:87-89 DiagnosisResultRecord] *)
Record ResultRow := mkResultRow {
  rr_run_id : string;
  rr_summary : string;
  rr_risk_level : RiskLevel;
  rr_evidence : list Evidence;
  rr_created_at : Z;
}.

(** Two of the ports of the service: the steps of a session in the order of their ids,
    and its latest result; each may raise what the database raises. [py_str] is
    [str(v)] of a value that is not a string.
    [timeline/ports.py:29-30 TimelineStepPort] *)
Class TimelinePorts := mkTimelinePorts {
  list_steps : string -> outcome exn (list StepRow);
  latest_answer : string -> outcome exn (option ResultRow);
  py_str : json -> string;
}.

(** [timeline/contracts.py:39-47 TimelineItem] *)
Record TimelineItem := mkItem {
  timeline_id : string;
  ti_sequence : Z;
  kind : string;
  ti_run_id : option string;
  timestamp : Z;
  ti_status : option string;
  title : option string;
  ti_payload : json;
}.
#[export] Instance TimelineItem_eta : Eta TimelineItem := fun i =>
  mkItem (timeline_id i) (ti_sequence i) (kind i) (ti_run_id i) (timestamp i) (ti_status i)
    (title i) (ti_payload i).

(** [timeline/contracts.py:50-53 TimelineResponse] *)
Record TimelineResponse := mkTimelineResponse {
  tr_session_id : string;
  history_complete : bool;
  items : list TimelineItem;
}.

(** ** The queries *)

Definition review_le (a b : DiagnosisReview) : Prop :=
  rv_created_at a < rv_created_at b
  \/ (rv_created_at a = rv_created_at b /\ String.le (review_id a) (review_id b)).
#[export] Instance review_le_dec : RelDecision review_le.
Proof. intros a b. unfold review_le. apply _. Defined.
(** [persistence/repositories/diagnosis_review.py:38-51 DiagnosisReviewRepository.list_by_session] *)
Definition reviews_by_session (sid : string) (w : World) : list DiagnosisReview :=
  stable_sort review_le (filter (fun r => rv_session_id r = sid) (reviews w)).

Definition case_le (a b : DiagnosisCase) : Prop :=
  created_at a < created_at b \/ (created_at a = created_at b /\ String.le (case_id a) (case_id b)).
#[export] Instance case_le_dec : RelDecision case_le.
Proof. intros a b. unfold case_le. apply _. Defined.
(** [persistence/repositories/cases.py:66-79 CaseRepository.list_by_session] *)
Definition cases_by_session (sid : string) (w : World) : list DiagnosisCase :=
  stable_sort case_le (filter (fun c => source_session_id c = sid) (snd <$> map_to_list (cases w))).

(** ** The items *)

(** [timeline/service.py:88-91 event_kind] *)
Definition event_kind (t : TimelineEventType) : string :=
  match t with
  | REVIEW_SUBMITTED => "review"
  | CASE_CREATED => "case_event"
  | _ => event_type_value t
  end.
(** [timeline/service.py:92-102 event] *)
Definition event_item (e : TimelineEvent) : TimelineItem :=
  mkItem (event_id e) (sequence e * 100) (event_kind (event_type e)) (tl_run_id e)
    (tl_created_at e) None None (payload e).
(** [bool(v)] of a JSON value. *)
Definition json_true (v : json) : bool :=
  match v with
  | JNull => false
  | JBool b => b
  | JInt z => negb (z =? 0)
  | JFloat r => negb (bool_decide (r ∈ ["0.0"; "-0.0"]))
  | JStr s => str_true s
  | JList l => list_true l
  | JObj kvs => list_true kvs
  end.
(** [timeline/service.py:103-121 step] *)
Definition step_item (index : Z) (s : StepRow) : TimelineItem :=
  let k := if String.prefix "tool." (st_name s) then "tool_result" else "agent_progress" in
  mkItem ("step:" +:+ pretty (st_id s)) (index * 100 + 50)
    (if bool_decide (st_status s = "FAILED") then "error" else k) (Some (st_run_id s))
    (st_started_at s) (Some (st_status s)) (Some (st_name s))
    (JObj [("output", if json_true (default JNull (st_output s)) then default JNull (st_output s) else JObj []);
           ("error_code", JStr (or_empty (st_error_code s)))]).
(** [enumerate(steps, start=1)] *)
Fixpoint step_items (index : Z) (steps : list StepRow) : list TimelineItem :=
  match steps with
  | [] => []
  | s :: steps' => step_item index s :: step_items (index + 1) steps'
  end.
(** [timeline/service.py:127-143 latest_result] *)
Definition result_item (r : ResultRow) : TimelineItem :=
  mkItem ("result:" +:+ rr_run_id r) 0 "diagnosis_result" (Some (rr_run_id r)) (rr_created_at r)
    None None
    (JObj [("summary", JStr (rr_summary r)); ("risk_level", JStr (risk_value (rr_risk_level r)));
           ("evidence_refs", jstrs (map evidence_id (rr_evidence r)))]).
(** [timeline/service.py:149-166 review] *)
Definition review_item (r : DiagnosisReview) : TimelineItem :=
  mkItem ("review:" +:+ review_id r) 0 "review" (Some (rv_run_id r)) (rv_created_at r) None None
    (JObj [("review_id", JStr (review_id r));
           ("review_result", JStr (review_result_value (rv_result r)));
           ("comments", JStr (or_empty (rv_comments r)));
           ("evidence_refs", jstrs (rv_evidence_refs r))]).
(** [timeline/service.py:172-188 case] *)
Definition case_item (c : DiagnosisCase) : TimelineItem :=
  mkItem ("case:" +:+ case_id c) 0 "case_event" (Some (source_run_id c)) (created_at c) None None
    (JObj [("case_id", JStr (case_id c)); ("case_status", JStr (case_status_value (review_status c)));
           ("case_version", JInt (case_version c))]).

(** [sort(key=lambda item: (item.timestamp, item.sequence, item.timeline_id))] *)
Definition item_le (a b : TimelineItem) : Prop :=
  timestamp a < timestamp b
  \/ (timestamp a = timestamp b
      /\ (ti_sequence a < ti_sequence b
          \/ (ti_sequence a = ti_sequence b /\ String.le (timeline_id a) (timeline_id b)))).
#[export] Instance item_le_dec : RelDecision item_le.
Proof. intros a b. unfold item_le. apply _. Defined.

(** [timeline/service.py:190-192 normalized] *)
Fixpoint numbered (index : Z) (l : list TimelineItem) : list TimelineItem :=
  match l with
  | [] => []
  | i :: l' => i <| ti_sequence := index |> :: numbered (index + 1) l'
  end.

Section View.
Context `{Env} `{TimelinePorts}.

(** [str(payload.get(key))] *)
Definition payload_text (key : string) (v : json) : string :=
  match v with
  | JObj kvs =>
      match find_first (fun kv => bool_decide (fst kv = key)) kvs with
      | Some (_, JStr s) => s
      | Some (_, v) => py_str v
      | None => "None"
      end
  | _ => "None"
  end.

(** The texts under [key] in the events of one type.
    [timeline/service.py:144-171 persisted_review_ids] *)
Definition persisted (t : TimelineEventType) (key : string) (events : list TimelineEvent) : list string :=
  map (fun e => payload_text key (payload e)) (filter (fun e => event_type e = t) events).

(** [timeline/service.py:122-143 persisted_result_runs] *)
Definition result_items (events : list TimelineEvent) (latest : option ResultRow) : list TimelineItem :=
  match latest with
  | Some r =>
      if bool_decide (Some (rr_run_id r)
           ∈ map tl_run_id (filter (fun e => event_type e = DIAGNOSIS_RESULT) events))
      then [] else [result_item r]
  | None => []
  end.

(** The items before they are sorted.
    [timeline/service.py:82-188 items] *)
Definition collected (events : list TimelineEvent) (steps : list StepRow) (latest : option ResultRow)
    (rs : list DiagnosisReview) (cs : list DiagnosisCase) : list TimelineItem :=
  map event_item events ++ step_items 1 steps ++ result_items events latest
  ++ map review_item (filter (fun r => review_id r ∉ persisted REVIEW_SUBMITTED "review_id" events) rs)
  ++ map case_item (filter (fun c => case_id c ∉ persisted CASE_CREATED "case_id" events) cs).

Definition port {A} (o : outcome exn A) : M World exn A :=
  match o with Ok a => ret a | Raise e => raise e end.

(** [timeline/service.py:78-199 TimelineService.get] *)
Definition timeline_get (sid : string) : M World exn TimelineResponse :=
  session <- session_get sid ;;
  match session with
  | None => raise (Domain ResourceNotFoundError [])
  | Some _ =>
      events <- timeline_list sid ;;
      steps <- port (list_steps sid) ;;
      latest <- port (latest_answer sid) ;;
      rs <- gets (reviews_by_session sid) ;;
      cs <- gets (cases_by_session sid) ;;
      ret (mkTimelineResponse sid
             (existsb (fun e => bool_decide (event_type e = USER_MESSAGE)) events)
             (numbered 1 (stable_sort item_le (collected events steps latest rs cs))))
  end.
End View.

(** ** Order and numbers *)

#[export] Instance item_le_total : Total item_le.
Proof.
  intros a b. unfold item_le. destruct (Z.lt_trichotomy (timestamp a) (timestamp b)) as [?|[E|?]]; [tauto| |tauto].
  destruct (Z.lt_trichotomy (ti_sequence a) (ti_sequence b)) as [?|[E'|?]]; [tauto| |].
  - destruct (total String.le (timeline_id a) (timeline_id b)); [left|right]; naive_solver.
  - right. right. split; [done|]. by left.
Qed.

Lemma items_in_order l : Sorted (fun a b => timestamp a <= timestamp b) (stable_sort item_le l).
Proof.
  induction (stable_sort_Sorted item_le l) as [|i l' _ IH Hi]; constructor; [done|].
  destruct Hi as [|j l' [?|[? _]]]; constructor; lia.
Qed.

(** Everything of an item but its number. *)
Definition shown (i : TimelineItem) : string * string * option string * Z * (option string * option string * json) :=
  (timeline_id i, kind i, ti_run_id i, timestamp i, (ti_status i, title i, ti_payload i)).

Lemma numbered_shown n l : map shown (numbered n l) = map shown l.
Proof. revert n. induction l as [|i l IH]; intros n; simpl; [done|]. by rewrite IH. Qed.

Lemma numbered_sequence n l : map ti_sequence (numbered n l) = seqZ n (Z.of_nat (length l)).
Proof.
  revert n. induction l as [|i l IH]; intros n; [done|].
  change (length (i :: l)) with (S (length l)). rewrite Nat2Z.inj_succ, seqZ_cons by lia.
  simpl. rewrite IH, Z.pred_succ. done.
Qed.

Lemma numbered_length n l : length (numbered n l) = length l.
Proof. revert n. induction l as [|i l IH]; intros n; simpl; [done|]. by rewrite IH. Qed.

Lemma numbered_Sorted n l :
  Sorted (fun a b => timestamp a <= timestamp b) l ->
  Sorted (fun a b => timestamp a <= timestamp b) (numbered n l).
Proof.
  intros Hl. revert n. induction Hl as [|i l _ IH Hi]; intros n; simpl; constructor; [by apply IH|].
  destruct Hi as [|j l Hi]; simpl; by constructor.
Qed.

(** ** How often something is shown *)

Section Counting.
Context {A : Type}.

Lemma count_one {K} `{EqDecision K} (key : A -> K) l x :
  NoDup (map key l) -> x ∈ l -> length (filter (fun y => key y = key x) l) = 1%nat.
Proof.
  induction l as [|y l IH]; simpl; [by intros _ ?%elem_of_nil|].
  intros [Hy Hl]%NoDup_cons [->|Hx]%elem_of_cons; rewrite filter_cons.
  - rewrite decide_True by done. simpl. f_equal. apply length_zero_iff_nil.
    destruct (filter _ l) as [|z l'] eqn:E; [done|]. exfalso.
    assert (Hz : z ∈ filter (fun z => key z = key y) l) by (rewrite E; left).
    apply list_elem_of_filter in Hz as [Hk Hz]. apply Hy. rewrite <- Hk.
    apply list_elem_of_fmap. by exists z.
  - rewrite decide_False; [by apply IH|]. intros E. apply Hy. rewrite E.
    apply list_elem_of_fmap. by exists x.
Qed.

Lemma count_none (P : A -> Prop) `{!forall x, Decision (P x)} l :
  (forall x, x ∈ l -> ~ P x) -> length (filter P l) = 0%nat.
Proof.
  intros Hl. induction l as [|x l IH]; [done|]. rewrite filter_cons_False; [|apply Hl; left].
  apply IH. intros y Hy. apply Hl. by right.
Qed.

Lemma count_map {B} (f : B -> A) (P : A -> Prop) `{!forall x, Decision (P x)} l :
  length (filter P (map f l)) = length (filter (fun x => P (f x)) l).
Proof. induction l as [|x l IH]; [done|]. simpl. rewrite !filter_cons. case_decide; simpl; by rewrite IH. Qed.

Lemma count_ext (P Q : A -> Prop) `{!forall x, Decision (P x)} `{!forall x, Decision (Q x)} l :
  (forall x, x ∈ l -> P x <-> Q x) -> length (filter P l) = length (filter Q l).
Proof.
  intros Hl. induction l as [|x l IH]; [done|]. rewrite !filter_cons.
  specialize (IH (fun y Hy => Hl y (list_elem_of_further _ _ _ Hy))).
  destruct (Hl x (list_elem_of_here _ _)) as [HPQ HQP].
  do 2 case_decide; simpl; rewrite ?IH; tauto.
Qed.
End Counting.

Section Shown.
Context `{Env} `{TimelinePorts}.

(** An item of kind [k] whose payload has [v] under [key]. *)
Definition shows (k key v : string) (i : TimelineItem) : Prop :=
  kind i = k /\ payload_text key (ti_payload i) = v.
#[local] Instance shows_dec k key v i : Decision (shows k key v i).
Proof. unfold shows. apply _. Defined.

Definition times (k key v : string) (l : list TimelineItem) : nat := length (filter (shows k key v) l).

Lemma times_numbered k key v n l : times k key v (numbered n l) = times k key v l.
Proof.
  revert n. induction l as [|i l IH]; intros n; [done|]. unfold times in *. simpl.
  destruct (decide (shows k key v i)); [rewrite !filter_cons_True|rewrite !filter_cons_False];
    simpl; by rewrite ?IH.
Qed.

Lemma times_app k key v l l' : times k key v (l ++ l') = (times k key v l + times k key v l')%nat.
Proof. unfold times. by rewrite filter_app, length_app. Qed.

Lemma times_other k key v l : Forall (fun i => kind i <> k) l -> times k key v l = 0%nat.
Proof. intros Hl. apply count_none. rewrite Forall_forall in Hl. intros i Hi [Hk _]. by apply (Hl i). Qed.

(** Something that has an event is shown by its event, anything else by its own item. *)
Lemma shown_once {A} t k key (id_of : A -> string) (item : A -> TimelineItem) events l x :
  (forall e, event_kind (event_type e) = k <-> event_type e = t) ->
  (forall y v, shows k key v (item y) <-> id_of y = v) ->
  NoDup (persisted t key events) -> NoDup (map id_of l) -> x ∈ l ->
  (times k key (id_of x) (map event_item events)
   + times k key (id_of x) (map item (filter (fun y => id_of y ∉ persisted t key events) l)))%nat = 1%nat.
Proof.
  intros Hk Hi Hp Hl Hx.
  assert (He : times k key (id_of x) (map event_item events)
               = length (filter (fun e => payload_text key (payload e) = id_of x)
                           (filter (fun e => event_type e = t) events))).
  { unfold times. rewrite count_map, list_filter_filter. apply count_ext. intros e _.
    unfold shows. simpl. rewrite Hk. naive_solver. }
  rewrite He. unfold times. rewrite count_map.
  rewrite (count_ext _ (fun y => id_of y = id_of x)) by (intros; apply Hi).
  destruct (decide (id_of x ∈ persisted t key events)) as [Hin|Hin].
  - rewrite (count_none _ (filter _ l)).
    + apply list_elem_of_fmap in Hin as (e & E & Hin). rewrite E.
      rewrite (count_one (fun e => payload_text key (payload e)) _ e); [done|exact Hp|done].
    + intros y Hy. apply list_elem_of_filter in Hy as [Hy _]. intros E. by rewrite E in Hy.
  - rewrite (count_none _ (filter _ events)).
    + apply (count_one id_of); [|by apply list_elem_of_filter].
      eapply sublist_NoDup; [exact Hl|]. apply fmap_sublist, sublist_filter.
    + intros e He' E. apply Hin. rewrite <- E. apply list_elem_of_fmap. by exists e.
Qed.
End Shown.

(** ** The state the view reads *)

Section Keyed.
Context `{Env} `{TimelinePorts}.

(** The event of a review or a case has the id made of its key, and carries the key. *)
Definition keyed (e : TimelineEvent) : Prop :=
  match event_type e with
  | REVIEW_SUBMITTED => event_id e
      = timeline_event_id (tl_session_id e) REVIEW_SUBMITTED (payload_text "review_id" (payload e))
  | CASE_CREATED => event_id e
      = timeline_event_id (tl_session_id e) CASE_CREATED (payload_text "case_id" (payload e))
  | _ => True
  end.

Record timeline_sound (w : World) : Prop := {
  ts_wf : timeline_wf w;
  ts_keyed : Forall keyed (timeline w);
}.

Lemma insert_keyed eid sid rid t actor pl :
  (forall seq now, keyed (mkTimeline eid sid rid t (actor_id <$> actor)
     ((fun a => role_value (actor_role a)) <$> actor) pl seq now)) ->
  respects (keeps timeline_sound) (timeline_insert eid sid rid t actor pl).
Proof.
  intros Hk w [W K]. split.
  - by apply (timeline_insert_wf eid sid rid t actor pl w).
  - unfold timeline_insert, atomically, bind, gets. destruct (find_first _ _); [done|].
    simpl. apply Forall_app. by split; [|constructor].
Qed.

(** What the service writes of a review and its draft keeps the state sound, and so
    does every other event. *)
Lemma review_timeline_sound sid run rid q actor c :
  respects (keeps timeline_sound) (review_timeline sid run rid q actor c).
Proof.
  unfold review_timeline, timeline_append. apply respects_bind; [typeclasses eauto| |intros _].
  - apply respects_bind; [typeclasses eauto|by apply insert_keyed|intros _]. apply respects_ret, _.
  - destruct c as [c|]; [|apply respects_ret, _].
    apply respects_bind; [typeclasses eauto|by apply insert_keyed|intros _]. apply respects_ret, _.
Qed.

Lemma append_sound sid t key rid actor pl :
  t <> REVIEW_SUBMITTED -> t <> CASE_CREATED ->
  respects (keeps timeline_sound) (timeline_append sid t key rid actor pl).
Proof.
  intros. unfold timeline_append. apply respects_bind; [typeclasses eauto| |intros _; apply respects_ret, _].
  apply insert_keyed. intros. unfold keyed. by destruct t.
Qed.

(** So does the review of a diagnosis, which is what writes them. *)
Lemma sound_ext w w' : timeline w' = timeline w -> timeline_sound w -> timeline_sound w'.
Proof. intros E [W K]. split; [by eapply timeline_wf_ext|by rewrite E]. Qed.

#[local] Instance sound_framed : Framed (keeps timeline_sound).
Proof. apply framed_keeps; intros; (eapply sound_ext; [|eassumption]; done). Qed.

Lemma sound_modify f :
  (forall w, timeline (f w) = timeline w) -> respects (E := exn) (keeps timeline_sound) (modify f).
Proof. intros Hf. apply respects_modify. intros w Hw. exact (sound_ext w (f w) (Hf w) Hw). Qed.
#[local] Hint Extern 1 (respects _ (modify _)) => apply sound_modify; intros; reflexivity : pres.
#[local] Hint Resolve review_timeline_sound : pres.

Lemma review_diagnosis_sound cfg sid q actor key :
  respects (keeps timeline_sound) (review_diagnosis cfg sid q actor key).
Proof.
  unfold review_diagnosis, recorder_append, review_append, create_draft, create, next_version,
    session_update_row, throw. respect.
Qed.

Lemma persisted_NoDup t key sid w :
  timeline_sound w ->
  (forall e, keyed e -> event_type e = t ->
     event_id e = timeline_event_id (tl_session_id e) t (payload_text key (payload e))) ->
  NoDup (persisted t key (session_events sid w)).
Proof.
  intros [[_ Hids] Hk] Ht. unfold persisted, session_events.
  induction (timeline w) as [|e l IH]; [apply NoDup_nil_2|].
  apply NoDup_cons in Hids as [Hnot Hids]. inversion Hk as [|? ? Hke Hkl]; subst.
  specialize (IH Hids Hkl). rewrite list.filter_cons. case_decide as Hsid; [|done].
  rewrite list.filter_cons. case_decide as Htype; [|done]. simpl. apply NoDup_cons. split; [|done].
  intros Hin. apply list_elem_of_fmap in Hin as (e' & E & Hin).
  apply list_elem_of_filter in Hin as [Ht' Hin]. apply list_elem_of_filter in Hin as [Hs' Hin].
  apply Hnot. apply list_elem_of_fmap. exists e'. split; [|done].
  rewrite Forall_forall in Hkl. rewrite (Ht e Hke Htype), (Ht e' (Hkl e' Hin) Ht').
  by rewrite E, Hsid, Hs'.
Qed.

Lemma review_events_NoDup sid w :
  timeline_sound w -> NoDup (persisted REVIEW_SUBMITTED "review_id" (session_events sid w)).
Proof. intros Hs. apply persisted_NoDup; [done|]. intros e Hk Ht. unfold keyed in Hk. by rewrite Ht in Hk. Qed.
Lemma case_events_NoDup sid w :
  timeline_sound w -> NoDup (persisted CASE_CREATED "case_id" (session_events sid w)).
Proof. intros Hs. apply persisted_NoDup; [done|]. intros e Hk Ht. unfold keyed in Hk. by rewrite Ht in Hk. Qed.

(** The rows of the tables have distinct keys. *)
Record distinct_rows (w : World) : Prop := {
  dr_reviews : NoDup (map review_id (reviews w));
  dr_cases : forall cid c, cases w !! cid = Some c -> case_id c = cid;
}.

Lemma reviews_distinct sid w : distinct_rows w -> NoDup (map review_id (reviews_by_session sid w)).
Proof.
  intros [Hr _]. unfold reviews_by_session. rewrite stable_sort_permutation.
  eapply sublist_NoDup; [exact Hr|]. apply fmap_sublist, sublist_filter.
Qed.

Lemma cases_distinct sid w : distinct_rows w -> NoDup (map case_id (cases_by_session sid w)).
Proof.
  intros [_ Hc]. unfold cases_by_session. rewrite stable_sort_permutation.
  eapply sublist_NoDup; [|apply fmap_sublist, sublist_filter].
  assert (E : map case_id (map snd (map_to_list (cases w))) = map fst (map_to_list (cases w))).
  { rewrite map_map. apply map_ext_in. intros [cid c] Hin. apply list_elem_of_In, elem_of_map_to_list in Hin.
    by apply Hc. }
  change (NoDup (map case_id (map snd (map_to_list (cases w))))). rewrite E. apply NoDup_fst_map_to_list.
Qed.

Lemma elem_of_reviews sid w r :
  r ∈ reviews w -> rv_session_id r = sid -> r ∈ reviews_by_session sid w.
Proof.
  intros Hr Hs. unfold reviews_by_session. rewrite stable_sort_permutation.
  by apply list_elem_of_filter.
Qed.

Lemma elem_of_cases sid w cid c :
  cases w !! cid = Some c -> source_session_id c = sid -> c ∈ cases_by_session sid w.
Proof.
  intros Hc Hs. unfold cases_by_session. rewrite stable_sort_permutation.
  apply list_elem_of_filter. split; [done|]. apply list_elem_of_fmap. exists (cid, c).
  split; [done|]. by apply elem_of_map_to_list.
Qed.
End Keyed.

(** ** Theorems *)

Section ViewTheorem.
Context `{Env} `{TimelinePorts}.

Lemma get_items sid w w' r :
  timeline_get sid w = (w', Ok r) ->
  w' = w /\ exists steps latest,
    list_steps sid = Ok steps
    /\ items r = numbered 1 (stable_sort item_le
         (collected (session_events sid w) steps latest (reviews_by_session sid w) (cases_by_session sid w)))
    /\ history_complete r = existsb (fun e => bool_decide (event_type e = USER_MESSAGE)) (session_events sid w).
Proof.
  unfold timeline_get, session_get, timeline_list, port. intros Hr. run_inv Hr; simplify_eq/=.
  all: repeat match goal with H : ret _ _ = _ |- _ => unfold ret in H; injection H as <- <- end.
  split; [done|]. eauto.
Qed.

Lemma result_kinds events latest k :
  k <> "diagnosis_result" -> Forall (fun i => kind i <> k) (result_items events latest).
Proof. intros Hk. unfold result_items. destruct latest; [case_bool_decide|]; repeat constructor. by intros E. Qed.

Lemma step_kinds n steps k :
  k ∉ ["error"; "tool_result"; "agent_progress"] -> Forall (fun i => kind i <> k) (step_items n steps).
Proof.
  intros Hk. revert n. induction steps as [|s steps IH]; intros n; simpl; constructor; [|done].
  simpl. intros <-. apply Hk. case_bool_decide; [left|]. destruct (String.prefix _ _); [right; left|do 2 right; left].
Qed.

(** The number of items of the view that show something. *)
Lemma times_view k key v sid steps latest w :
  k ∉ ["error"; "tool_result"; "agent_progress"; "diagnosis_result"] ->
  times k key v (stable_sort item_le
    (collected (session_events sid w) steps latest (reviews_by_session sid w) (cases_by_session sid w)))
  = (times k key v (map event_item (session_events sid w))
     + times k key v (map review_item (filter (fun r => review_id r ∉ persisted REVIEW_SUBMITTED "review_id"
                        (session_events sid w)) (reviews_by_session sid w)))
     + times k key v (map case_item (filter (fun c => case_id c ∉ persisted CASE_CREATED "case_id"
                        (session_events sid w)) (cases_by_session sid w))))%nat.
Proof.
  intros Hk. unfold times at 1.
  rewrite (Permutation_length (filter_Permutation _ _ _ (stable_sort_permutation item_le _))).
  fold (times k key v). unfold collected.
  change (length (filter (shows k key v) ?l)) with (times k key v l). rewrite !times_app.
  rewrite (times_other _ _ _ (step_items 1 steps)), (times_other _ _ _ (result_items _ _)); [lia| |].
  - apply result_kinds. set_solver.
  - apply step_kinds. set_solver.
Qed.

(** C24: a session's timeline tells everything once. Reading it changes nothing; its
    items are numbered 1, 2, 3, ... in the order of their times; and every review of the
    session and every case made from it is shown by exactly one item, by its event when
    there is one and by an item of its own otherwise. *)
Theorem timeline_tells_once sid w w' r :
  timeline_sound w -> distinct_rows w -> timeline_get sid w = (w', Ok r) ->
  w' = w
  /\ map ti_sequence (items r) = seqZ 1 (Z.of_nat (length (items r)))
  /\ Sorted (fun a b => timestamp a <= timestamp b) (items r)
  /\ (forall v, v ∈ reviews w -> rv_session_id v = sid ->
        times "review" "review_id" (review_id v) (items r) = 1%nat)
  /\ (forall cid c, cases w !! cid = Some c -> source_session_id c = sid ->
        times "case_event" "case_id" cid (items r) = 1%nat).
Proof.
  intros Hs Hd Hr. apply get_items in Hr as [-> (steps & latest & _ & -> & _)].
  split_and!; [done|by rewrite numbered_sequence, numbered_length|apply numbered_Sorted, items_in_order| |].
  - intros v Hv Hsid. rewrite times_numbered, times_view by set_solver.
    rewrite (times_other _ _ _ (map case_item _)), Nat.add_0_r by (apply Forall_map, Forall_true; intros; discriminate).
    apply (shown_once REVIEW_SUBMITTED); [by intros [? ? ? []]| |by apply review_events_NoDup
      |by apply reviews_distinct|by apply elem_of_reviews].
    intros y x. unfold shows. simpl. naive_solver.
  - intros cid c Hc Hsid. rewrite <- (dr_cases _ Hd _ _ Hc).
    rewrite times_numbered, times_view by set_solver.
    rewrite (times_other _ _ _ (map review_item _)), Nat.add_0_r by (apply Forall_map, Forall_true; intros; discriminate).
    apply (shown_once CASE_CREATED); [by intros [? ? ? []]| |by apply case_events_NoDup
      |by apply cases_distinct|by eapply elem_of_cases].
    intros y x. unfold shows. simpl. naive_solver.
Qed.
End ViewTheorem.

(** ** A concrete view *)

(** A session with a review from before the timeline, the confirmed review of
    [demo_drafted] with its draft, and two steps, one of them failed. *)
#[local] Instance demo_timeline_ports : TimelinePorts := {|
  list_steps := fun _ => Ok [mkStepRow 1 "context_loader" "SUCCESS" "r1" 0 None None;
                             mkStepRow 2 "tool.timeseries" "FAILED" "r1" 0 None (Some "TIMEOUT")];
  latest_answer := fun _ => Ok (Some (mkResultRow "r1" "cabinet hot" HIGH [] 0));
  py_str := fun _ => "" |}.
Definition old_review : DiagnosisReview :=
  mkReview "rv0" "s1" "r0" "bob" "reviewer" NEEDS_MORE_INFO None [] None [] None None [] None "" "t" 0.
Definition viewed_world : World :=
  (@demo_drafted (demo_env all_fine) "sync") <| reviews ::= cons old_review |>.

Lemma add_review w v : timeline (w <| reviews ::= cons v |>) = timeline w
  /\ cases (w <| reviews ::= cons v |>) = cases w.
Proof. done. Qed.

Lemma viewed_world_sound : @timeline_sound (demo_env all_fine) _ viewed_world /\ distinct_rows viewed_world.
Proof.
  unfold viewed_world.
  destruct (add_review (@demo_drafted (demo_env all_fine) "sync") old_review) as [Et Ec]. split.
  - eapply sound_ext; [exact Et|]. apply review_diagnosis_sound. split; [|constructor].
    split; [|apply NoDup_nil_2]. intros sid k e. unfold session_events, demo_start, empty_world. by destruct k.
  - split.
    + apply (bool_decide_unpack _). vm_compute. exact I.
    + intros cid c. rewrite Ec. intros Hc.
      assert (Hi : case_inv (@demo_drafted (demo_env all_fine) "sync")).
      { apply (sys_ops_keep (H := demo_env all_fine) (demo_config "sync") demo_consumer).
        eapply rtc_l; [by apply (sys_other _ _ _ demo_start)|].
        eapply rtc_l; [apply sys_review_diagnosis|apply rtc_refl]. }
      by destruct (Hi _ _ Hc).
Qed.

(** The items in the order of the view. *)
Definition brief (r : outcome exn TimelineResponse) : list (Z * string * option string) :=
  match r with
  | Ok r => map (fun i => (ti_sequence i, kind i, ti_status i)) (items r)
  | Raise _ => []
  end.

Lemma brief_length r : length (brief (Ok r)) = length (items r).
Proof. apply length_map. Qed.

Example viewed_items :
  brief (snd (@timeline_get demo_timeline_ports "s1" viewed_world))
  = [(1, "diagnosis_result", None); (2, "review", None); (3, "agent_progress", Some "SUCCESS");
     (4, "error", Some "FAILED"); (5, "review", None); (6, "case_event", None)].
Proof. vm_compute. reflexivity. Qed.

Lemma timeline_tells_once_witness :
  exists w' r, @timeline_get demo_timeline_ports "s1" viewed_world = (w', Ok r)
    /\ map ti_sequence (items r) = [1; 2; 3; 4; 5; 6]
    /\ @times _ "review" "review_id" "rv0" (items r) = 1%nat.
Proof.
  destruct (@timeline_get demo_timeline_ports "s1" viewed_world) as [w' [r|e]] eqn:E.
  - exists w', r. split; [reflexivity|].
    destruct (@timeline_tells_once (demo_env all_fine) _ "s1" viewed_world w' r
      (proj1 viewed_world_sound) (proj2 viewed_world_sound) E) as (_ & Hn & _ & Hv & _).
    split.
    + rewrite Hn. replace (length (items r)) with 6%nat; [reflexivity|].
      rewrite <- brief_length. change (Ok r) with (snd (w', Ok (E := exn) r)). rewrite <- E.
      vm_compute. reflexivity.
    + apply (Hv old_review); [left|reflexivity].
  - apply (f_equal (fun x => length (brief (snd x)))) in E. vm_compute in E. discriminate E.
Defined.
