(* ===== verification/Boundaries.v ===== *)
(** * The module boundary check

    [scripts/check_module_boundaries.py]: the rules each Python file is held against,
    the cycles of the graph of logical modules, and the verdict. What [ast.walk] yields
    of a file is a list of nodes; the files come in the order of their paths. *)

From Stdlib Require Import Ascii.
From S2P Require Import Prelude Errors Text Regex Scoring Rewrite Chunking.
Open Scope Z_scope.

(** ** Files *)

(** An expression, as far as the rules look into it. *)
Inductive expr : Type :=
| EAttribute (value : expr) (attr : string)
| EOther.
(** The nodes the check looks at. *)
Inductive node : Type :=
| Import (line : Z) (names : list string)
| ImportFrom (line : Z) (module : option string)
| Attribute (line : Z) (value : expr) (attr : string).

(** A Python file below src/energy_agent, and a TypeScript file below frontend. *)
Record PyFile := mkPyFile { relative : string; tree : list node }.
Record TsFile := mkTsFile { ts_path : string; ts_parts : list string; ts_text : option text }.

(** [scripts/check_module_boundaries.py:12-17 Violation] *)
Record Violation := mkViolation {
  v_path : string;
  v_line : Z;
  rule : string;
  detail : string;
}.

(** ** Names *)

Definition startswith (prefixes : list string) (s : string) : bool :=
  existsb (fun p => String.prefix p s) prefixes.
Definition endswith (suffix s : string) : bool :=
  (String.length suffix <=? String.length s)%nat
  && String.eqb (String.substring (String.length s - String.length suffix) (String.length suffix) s) suffix.
(** [s.split(sep)] for a separator of one character. *)
Fixpoint split_on (sep : ascii) (s : string) : list string :=
  match s with
  | EmptyString => [""]
  | String c s' =>
      if Ascii.eqb c sep then "" :: split_on sep s'
      else match split_on sep s' with
           | [] => [String c EmptyString]
           | part :: parts => String c part :: parts
           end
  end.

(** [scripts/check_module_boundaries.py:22-28 CONCRETE_PROVIDER_EXCEPTIONS] *)
Definition CONCRETE_PROVIDER_EXCEPTIONS : list string :=
  ["graph/bootstrap.py"; "indexing/worker.py"; "retrieval/ingestion/cli.py";
   "retrieval/ingestion/index_tickets.py"; "retrieval/smoke.py"].
(** [scripts/check_module_boundaries.py:33-41 ADDITIONAL_APPLICATION_FILES] *)
Definition ADDITIONAL_APPLICATION_FILES : list string :=
  ["agent/persistence_coordinator.py"; "cases/diagnosis_review.py"; "cases/lifecycle.py";
   "cases/indexing.py"; "cases/application.py"; "cases/review_recorder.py"; "indexing/publisher.py"].
(** In order.
    [scripts/check_module_boundaries.py:43-57 LOGICAL_MODULES] *)
Definition LOGICAL_MODULES : list string :=
  ["agent"; "cases"; "catalog"; "evidence"; "graph"; "guardrails"; "indexing"; "memory"; "model";
   "retrieval"; "timeline"; "tools"; "users"].
(** [scripts/check_module_boundaries.py:59-65 APPLICATION_GRAPH_EXCLUSIONS] *)
Definition APPLICATION_GRAPH_EXCLUSIONS : list string :=
  ["graph/bootstrap.py"; "indexing/worker.py"; "retrieval/ingestion/cli.py";
   "retrieval/ingestion/index_tickets.py"; "retrieval/smoke.py"].

Definition among (l : list string) (s : string) : bool := bool_decide (s ∈ l).

(** [scripts/check_module_boundaries.py:68-73 is_application_service] *)
Definition is_application_service (relative : string) : bool :=
  endswith "/service.py" relative || endswith "_service.py" relative
  || among ADDITIONAL_APPLICATION_FILES relative.

(** [scripts/check_module_boundaries.py:76-93 is_application_graph_file] *)
Definition is_application_graph_file (relative : string) : bool :=
  if among APPLICATION_GRAPH_EXCLUSIONS relative then false
  else
    let parts := split_on "/" relative in
    if negb (among LOGICAL_MODULES (hd "" parts)) then false
    else if existsb (among ["implementations"; "ingestion"]) (removelast (tl parts)) then false
    else negb (among ["bootstrap.py"; "cli.py"; "gateway.py"; "repository.py"; "session_store.py";
                      "smoke.py"; "worker.py"] (List.last parts "")).

(** [scripts/check_module_boundaries.py:96-103 imported_modules] *)
Definition imported_modules (tree : list node) : list (Z * string) :=
  concat (map (fun n =>
    match n with
    | Import line names => map (pair line) names
    | ImportFrom line (Some module) => if str_true module then [(line, module)] else []
    | _ => []
    end) tree).

(** ** The rules *)

(** The part of a path before its first separator. *)
Definition owner_of (relative : string) : string := hd "" (split_on "/" relative).

(** What the rules say of one import.
    [scripts/check_module_boundaries.py:123-181 module] *)
Definition import_rules (relative : string) (line : Z) (module : string) : list Violation :=
  let add (holds : bool) (rule : string) :=
    if holds then [mkViolation relative line rule module] else [] in
  let within p := String.prefix p relative in
  let imports := fun l => startswith l module in
  add (within "core/" && imports ["energy_agent.api"; "energy_agent.providers"; "energy_agent.persistence"])
      "core-inward-only"
  ++ add (within "contracts/"
          && imports ["energy_agent.agent"; "energy_agent.api"; "energy_agent.providers";
                      "energy_agent.persistence"])
       "contracts-inward-only"
  ++ add (is_application_service relative && imports ["fastapi"; "starlette"]) "services-framework-free"
  ++ add (is_application_service relative
          && imports ["energy_agent.persistence"; "energy_agent.providers"; "sqlalchemy"])
       "application-no-persistence-adapters"
  ++ add (is_application_service relative
          && imports [("energy_agent." ++ owner_of relative ++ ".repository")%string])
       "application-depends-on-port"
  ++ add (within "agent/"
          && imports ["energy_agent.memory.session_store"; "energy_agent.model.gateway";
                      "energy_agent.tools.executor"; "energy_agent.tools.registry"])
       "agent-capability-contract-only"
  ++ add (within "guardrails/" && imports ["energy_agent.agent"]) "guardrails-no-agent"
  ++ add (bool_decide (relative = "evidence/service.py")
          && imports ["sqlalchemy"; "energy_agent.persistence.models"]) "evidence-no-orm"
  ++ add (within "api/" && imports ["energy_agent.persistence.models"; "energy_agent.providers"])
       "api-no-infrastructure"
  ++ add (startswith ["providers/"; "persistence/"] relative && imports ["energy_agent.api"])
       "infrastructure-no-api"
  ++ add (negb (within "evaluation/") && imports ["energy_agent.evaluation"]) "runtime-no-evaluation"
  ++ add (negb (within "agent/") && imports ["energy_agent.agent.templates"]) "template-ownership"
  ++ add (imports ["energy_agent.providers"]
          && negb (within "bootstrap/" || within "evaluation/"
                   || among CONCRETE_PROVIDER_EXCEPTIONS relative))
       "provider-composition-roots-only".

(** What they say of one attribute.
    [scripts/check_module_boundaries.py:183-193 node] *)
Definition attribute_rules (relative : string) (n : node) : list Violation :=
  match n with
  | Attribute line value attr =>
      (if bool_decide (attr = "provider") && negb (bool_decide (relative = "graph/service.py"))
       then [mkViolation relative line "graph-provider-encapsulation" ".provider access"] else [])
      ++ match value with
         | EAttribute _ inner =>
             if bool_decide (inner = "state") && negb (bool_decide (attr = "container"))
             then [mkViolation relative line "app-state-container-only" ("app.state." ++ attr)%string]
             else []
         | EOther => []
         end
  | _ => []
  end.

(** [scripts/check_module_boundaries.py:114-192 check_python] *)
Definition check_python (f : PyFile) : list Violation :=
  concat (map (fun im => import_rules (relative f) (fst im) (snd im)) (imported_modules (tree f)))
  ++ concat (map (attribute_rules (relative f)) (tree f)).

(** ** Cycles of logical modules *)

(** [imported.split(".", 2)[1]]; a name that starts with "energy_agent." has it. *)
Definition target_of (imported : string) : string := nth 1 (split_on "." imported) "".

(** The modules a file adds edges to.
    [scripts/check_module_boundaries.py:200-208 imported] *)
Definition file_targets (f : PyFile) : list string :=
  filter (fun t => t ∈ LOGICAL_MODULES /\ t <> owner_of (relative f))
    (map target_of (filter (fun m => String.prefix "energy_agent." m = true)
       (map snd (imported_modules (tree f))))).

(** [edges[source]]; a file of the graph lies in a logical module.
    [scripts/check_module_boundaries.py:197-208 edges] *)
Definition edges (files : list PyFile) (source : string) : list string :=
  remove_dups (concat (map file_targets
    (filter (fun f => is_application_graph_file (relative f) = true /\ owner_of (relative f) = source) files))).

(** Tuples of strings are compared item by item. *)
Fixpoint tuple_le (a b : list string) : bool :=
  match a, b with
  | [], _ => true
  | _ :: _, [] => false
  | x :: a', y :: b' => if bool_decide (x = y) then tuple_le a' b' else bool_decide (String.le x y)
  end.
Definition tuple_min (a b : list string) : list string := if tuple_le a b then a else b.

(** [scripts/check_module_boundaries.py:216-216 rotations] *)
Definition rotations (ring : list string) : list (list string) :=
  map (fun index => drop index ring ++ take index ring) (seq 0 (length ring)).
(** [min(rotations)] *)
Definition canonical (ring : list string) : list string :=
  match rotations ring with [] => [] | r :: rs => fold_left tuple_min rs r end.

(** The search from [start]: [path] leads from [start] to [current] without repetition,
    so the number of modules bounds its depth ([visit_fuel]).
    [scripts/check_module_boundaries.py:212-219 visit] *)
Fixpoint visit (fuel : nat) (graph : string -> list string) (start current : string)
    (path : list string) : list (list string) :=
  match fuel with
  | O => []
  | S n =>
      concat (map (fun target =>
        if bool_decide (target = start) then [canonical path]
        else if bool_decide (target ∈ path) then []
        else visit n graph start target (path ++ [target])) (graph current))
  end.

Definition tuple_order (a b : list string) : Prop := tuple_le a b = true.
#[export] Instance tuple_order_dec : RelDecision tuple_order.
Proof. intros a b. unfold tuple_order. apply _. Defined.

(** [scripts/check_module_boundaries.py:195-223 logical_module_cycles] *)
Definition logical_module_cycles (files : list PyFile) : list (list string) :=
  stable_sort tuple_order (remove_dups (concat (map
    (fun module => visit (length LOGICAL_MODULES) (edges files) module module [module]) LOGICAL_MODULES))).

(** ** The verdict *)

(** [text.index(needle)], [None] where [needle not in text]. *)
Fixpoint index_of (needle t : text) : option nat :=
  if bool_decide (take (length needle) t = needle) then Some O
  else match t with [] => None | _ :: t' => S <$> index_of needle t' end.

Section Verdict.
Context `{Unicode}.

(** The text of a file, [None] where it is no UTF-8.
    [scripts/check_module_boundaries.py:106-111 is_client_component] *)
Definition is_client_component (content : option text) : bool :=
  match content with
  | None => false
  | Some t =>
      match splitlines (drop_while is_space t) with
      | [] => false
      | first :: _ =>
          let line := rev (drop_while (N.eqb 59) (rev (strip_text first))) in
          bool_decide (line ∈ [chars "'use client'"; (34%N :: chars "use client") ++ [34%N]])
      end
  end.

Definition internal_key : text := chars "BACKEND_INTERNAL_API_KEY".

(** A file whose text is no UTF-8 raises UnicodeDecodeError, a ValueError.
    [scripts/check_module_boundaries.py:240-254 text] *)
Definition check_client (f : TsFile) : outcome exn (list Violation) :=
  if existsb (among ["node_modules"; ".next"]) (ts_parts f) then Ok []
  else match ts_text f with
       | None => Raise ValueError
       | Some t =>
           Ok (match index_of internal_key t with
               | Some i =>
                   if is_client_component (Some t) then
                     [mkViolation (ts_path f) (Z.of_nat (length (filter (N.eq 10) (take i t))) + 1)
                        "client-no-internal-key" "BACKEND_INTERNAL_API_KEY"]
                   else []
               | None => []
               end)
       end.

Fixpoint check_clients (fs : list TsFile) : outcome exn (list Violation) :=
  match fs with
  | [] => Ok []
  | f :: fs' =>
      match check_client f, check_clients fs' with
      | Raise e, _ | _, Raise e => Raise e
      | Ok vs, Ok vs' => Ok (vs ++ vs')
      end
  end.

(** [scripts/check_module_boundaries.py:230-238 cycle] *)
Definition cycle_violation (cycle : list string) : Violation :=
  mkViolation "src/energy_agent" 1 "logical-module-cycle"
    (str_join " -> " (cycle ++ [hd "" cycle])).

(** The violations that are printed, and the exit status.
    [scripts/check_module_boundaries.py:226-261 main] *)
Definition main (files : list PyFile) (frontend : list TsFile) : outcome exn (list Violation * Z) :=
  match check_clients frontend with
  | Raise e => Raise e
  | Ok clients =>
      let violations := concat (map check_python files)
                        ++ map cycle_violation (logical_module_cycles files) ++ clients in
      Ok (violations, if list_true violations then 1 else 0)
  end.
End Verdict.

Example index_of_example : index_of (chars "bc") (chars "abcd") = Some 1%nat.
Proof. reflexivity. Qed.
Example split_example : split_on "/" "a/b.py" = ["a"; "b.py"] /\ split_on "." "" = [""].
Proof. done. Qed.

(** ** Theorems

    The search for cycles finds exactly the elementary cycles of the module graph, each
    once, and a check without findings means that the graph is acyclic. *)

Open Scope nat_scope.

(** ** Tuples *)

#[export] Instance tuple_order_total : Total tuple_order.
Proof.
  intros a. unfold tuple_order. induction a as [|x a IH]; intros [|y b]; simpl; try tauto.
  destruct (decide (x = y)) as [->|E].
  - rewrite bool_decide_true by done. apply IH.
  - rewrite (bool_decide_false (x = y)), (bool_decide_false (y = x)) by done. rewrite !bool_decide_eq_true. apply total, _.
Qed.

Lemma tuple_antisym a b : tuple_order a b -> tuple_order b a -> a = b.
Proof.
  unfold tuple_order. revert b. induction a as [|x a IH]; intros [|y b]; simpl; try done.
  destruct (decide (x = y)) as [->|E].
  - rewrite bool_decide_true by done. intros ? ?. by rewrite (IH b).
  - rewrite (bool_decide_false (x = y)), (bool_decide_false (y = x)) by done. rewrite !bool_decide_eq_true. intros H1 H2.
    destruct E. by apply (anti_symm String.le).
Qed.

Lemma tuple_trans a b c : tuple_order a b -> tuple_order b c -> tuple_order a c.
Proof.
  unfold tuple_order. revert b c. induction a as [|x a IH]; intros [|y b] [|z c]; simpl; try done.
  destruct (decide (x = y)) as [->|E]; [rewrite (bool_decide_true (y = y)) by done|].
  - destruct (bool_decide (y = z)); [apply IH|done].
  - rewrite (bool_decide_false (x = y)) by done. intros H1%bool_decide_eq_true.
    destruct (decide (y = z)) as [->|E'].
    + rewrite (bool_decide_false (x = z)) by done. intros _. by apply bool_decide_eq_true.
    + rewrite (bool_decide_false (y = z)) by done. intros H2%bool_decide_eq_true.
      rewrite bool_decide_false; [|intros ->; apply E; by apply (anti_symm String.le)].
      apply bool_decide_eq_true. by transitivity y.
Qed.

(** ** Rotations *)

Definition rotated (a b : list string) : Prop := exists u v, a = u ++ v /\ b = v ++ u.

Lemma rotated_refl a : rotated a a.
Proof. exists [], a. by rewrite app_nil_r. Qed.

Lemma rotated_sym a b : rotated a b -> rotated b a.
Proof. intros (u & v & -> & ->). by exists v, u. Qed.

Lemma rotated_trans a b c : rotated a b -> rotated b c -> rotated a c.
Proof.
  intros (u & v & -> & ->) (s & t & E & ->).
  apply app_eq_inv in E as [(k & -> & ->)|(k & -> & ->)].
  - exists (u ++ s), k. by rewrite <- !app_assoc.
  - exists k, (t ++ v). by rewrite <- !app_assoc.
Qed.

Lemma elem_of_rotations a b : a <> [] -> b ∈ rotations a <-> rotated a b.
Proof.
  intros Ha. unfold rotations. rewrite list_elem_of_fmap. split.
  - intros (i & -> & _). exists (take i a), (drop i a). by rewrite take_drop.
  - intros (u & v & -> & ->). destruct v as [|y v].
    + exists 0. rewrite app_nil_r in *. simpl. rewrite app_nil_r. split; [done|].
      apply elem_of_seq. destruct u; simpl in *; [done|lia].
    + exists (length u). rewrite drop_app_length, take_app_length. split; [done|].
      apply elem_of_seq. rewrite length_app. simpl. lia.
Qed.

Lemma fold_min_spec l a :
  let m := fold_left tuple_min l a in
  (m = a \/ m ∈ l) /\ tuple_order m a /\ Forall (tuple_order m) l.
Proof.
  revert a. induction l as [|b l IH]; intros a; simpl.
  { split_and!; [by left| |constructor]. by destruct (total tuple_order a a). }
  assert (Hm : (tuple_min a b = a \/ tuple_min a b = b) /\ tuple_order (tuple_min a b) a
               /\ tuple_order (tuple_min a b) b).
  { unfold tuple_min. destruct (tuple_le a b) eqn:E.
    - split_and!; [by left| |done]. by destruct (total tuple_order a a).
    - split_and!; [by right| |by destruct (total tuple_order b b)].
      destruct (total tuple_order a b) as [H|H]; [|done]. unfold tuple_order in H. by rewrite E in H. }
  destruct Hm as (Hm & Ha & Hb). destruct (IH (tuple_min a b)) as (H1 & H2 & H3). split_and!.
  - destruct H1 as [->|H1]; [|by right; right]. destruct Hm as [->| ->]; [by left|right; left].
  - by eapply tuple_trans.
  - constructor; [by eapply tuple_trans|done].
Qed.

(** The least rotation. *)
Lemma canonical_spec a :
  a <> [] -> rotated a (canonical a) /\ forall b, rotated a b -> tuple_order (canonical a) b.
Proof.
  intros Ha. unfold canonical. destruct (rotations a) as [|r rs] eqn:E.
  { destruct (elem_of_rotations a a Ha) as [_ H]. specialize (H (rotated_refl a)).
    rewrite E in H. by apply elem_of_nil in H. }
  destruct (fold_min_spec rs r) as (H1 & H2 & H3). rewrite Forall_forall in H3. split.
  - apply elem_of_rotations; [done|]. rewrite E. destruct H1 as [->|H1]; [left|by right].
  - intros b Hb%elem_of_rotations; [|done]. rewrite E in Hb.
    apply elem_of_cons in Hb as [->|Hb]; [done|by apply H3].
Qed.

Lemma canonical_least a :
  a <> [] -> (forall b, rotated a b -> tuple_order a b) -> canonical a = a.
Proof.
  intros Ha Hl. destruct (canonical_spec a Ha) as [Hr Hc].
  apply tuple_antisym; [apply Hc, rotated_refl|by apply Hl].
Qed.

(** ** Walks *)

Section Walks.
Context (g : string -> list string).

(** [l] lists the nodes after [x], in order. *)
Fixpoint walk (x : string) (l : list string) : Prop :=
  match l with [] => True | y :: l' => y ∈ g x /\ walk y l' end.
(** A walk through [c] that comes back to its first node. *)
Definition closed (c : list string) : Prop :=
  match c with [] => False | x :: l => walk x (l ++ [x]) end.
(** An elementary cycle, in its least rotation. *)
Definition elementary_cycle (c : list string) : Prop :=
  closed c /\ NoDup c /\ forall b, rotated c b -> tuple_order c b.

Lemma walk_app x l y l' : walk x (l ++ y :: l') <-> walk x (l ++ [y]) /\ walk y l'.
Proof.
  revert x. induction l as [|z l IH]; intros x; simpl; [|rewrite IH];
    (split; [intros (H1 & H2)|intros ([H1 H2] & H3)]); repeat split; by destruct_and?.
Qed.

Lemma closed_rotated a b : rotated a b -> closed a -> closed b.
Proof.
  intros ([|x u] & [|y v] & -> & ->); simpl; rewrite ?app_nil_r; [done..|].
  rewrite <- !app_assoc. simpl. rewrite (walk_app x u y (v ++ [x])), (walk_app y v x (u ++ [y])). by intros [? ?].
Qed.

Lemma rotated_NoDup a b : rotated a b -> NoDup a -> NoDup b.
Proof. intros (u & v & -> & ->). by rewrite Permutation_app_comm. Qed.

Lemma canonical_elementary c : closed c -> NoDup c -> elementary_cycle (canonical c).
Proof.
  intros Hc Hn. assert (Hne : c <> []) by by destruct c.
  destruct (canonical_spec c Hne) as [Hr Hl]. split_and!.
  - by eapply closed_rotated.
  - by eapply rotated_NoDup.
  - intros b Hb. apply Hl. by eapply rotated_trans.
Qed.

(** A node that is met twice leaves a shorter closed walk. *)
Lemma repeated (l : list string) : ~ NoDup l -> exists l1 x l2 l3, l = l1 ++ x :: l2 ++ x :: l3.
Proof.
  induction l as [|x l IH]; intros Hn; [by destruct Hn; constructor|].
  destruct (decide (x ∈ l)) as [Hx|Hx].
  - apply list_elem_of_split in Hx as (l2 & l3 & ->). by exists [], x, l2, l3.
  - destruct IH as (l1 & y & l2 & l3 & ->).
    + intros Hl. apply Hn. by constructor.
    + by exists (x :: l1), y, l2, l3.
Qed.

Lemma closed_shrinks c : closed c -> exists c', closed c' /\ NoDup c'.
Proof.
  remember (length c) as n eqn:E. revert c E.
  induction n as [n IH] using (well_founded_induction lt_wf). intros c -> Hc.
  destruct (decide (NoDup c)) as [Hn|Hn]; [by exists c|].
  destruct (repeated c Hn) as (l1 & x & l2 & l3 & ->).
  apply (IH (length (x :: l2))) with (c := x :: l2); [|done|].
  - rewrite !length_app. simpl. rewrite length_app. simpl. lia.
  - assert (Hw : closed (x :: l2 ++ x :: l3 ++ l1)).
    { eapply closed_rotated; [|exact Hc]. exists l1, (x :: l2 ++ x :: l3). split; [done|].
      simpl. by rewrite <- app_assoc. }
    simpl in *. rewrite <- !app_assoc in Hw. simpl in Hw. by apply walk_app in Hw as [? _].
Qed.

Lemma tc_walk x y : tc (fun a b => b ∈ g a) x y -> exists l, walk x (l ++ [y]).
Proof.
  induction 1 as [x y Hxy|x y z Hxy _ [l Hl]]; [by exists []|].
  by exists (y :: l).
Qed.

Lemma walk_tc x l y : walk x (l ++ [y]) -> tc (fun a b => b ∈ g a) x y.
Proof.
  revert x. induction l as [|z l IH]; intros x; simpl; [by intros [? _]; constructor|].
  intros [Hz Hl]. eapply tc_l; [exact Hz|]. by apply IH.
Qed.
End Walks.

(** ** The search *)

Section Search.
Context (g : string -> list string) (V : list string).
Hypothesis edges_inside : forall x y, y ∈ g x -> y ∈ V.

(** The search finds the cycles that extend [path]; as a path has no repetition, the
    fuel is enough when it covers the nodes that are left. *)
Lemma visit_spec fuel start current path c :
  NoDup path -> path ⊆ V -> start ∈ path -> length V < fuel + length path ->
  c ∈ visit fuel g start current path <->
  exists q, walk g current (q ++ [start]) /\ NoDup (path ++ q) /\ c = canonical (path ++ q).
Proof using edges_inside.
  revert current path. induction fuel as [|fuel IH]; intros current path Hn Hi Hs Hf.
  { exfalso. apply NoDup_submseteq in Hi; [|done]. apply submseteq_length in Hi. lia. }
  cbn [visit]. rewrite list_elem_of_In, in_concat. split.
  - intros (l & Hl & Hc). apply list_elem_of_In, list_elem_of_fmap in Hl as (t & -> & Ht).
    case_bool_decide as Ets; [|case_bool_decide as Etp].
    + subst t. apply list_elem_of_In, list_elem_of_singleton in Hc as ->.
      exists []. rewrite app_nil_r. by split_and!.
    + by destruct Hc.
    + apply list_elem_of_In, IH in Hc as (q & Hw & Hq & ->).
      * exists (t :: q). rewrite <- app_assoc in *. by split_and!.
      * apply NoDup_app. split_and!; [done| |apply NoDup_singleton].
        by intros x Hx ->%list_elem_of_singleton.
      * intros x [Hx| ->%list_elem_of_singleton]%elem_of_app; [by apply Hi|by eapply edges_inside].
      * apply elem_of_app. by left.
      * rewrite length_app. simpl. lia.
  - intros ([|t q] & Hw & Hq & ->); simpl in Hw; destruct Hw as [Ht Hw].
    + exists [canonical (path ++ [])]. split; [|by left]. apply list_elem_of_In, list_elem_of_fmap.
      exists start. by rewrite bool_decide_true, app_nil_r.
    + assert (Htp : t ∉ path).
      { apply NoDup_app in Hq as (_ & Hd & _). intros Hp. apply (Hd t Hp). left. }
      exists (visit fuel g start t (path ++ [t])). split.
      * apply list_elem_of_In, list_elem_of_fmap. exists t.
        rewrite !bool_decide_false; [done|done|]. by intros ->.
      * apply list_elem_of_In, IH; [| | | |exists q; by rewrite <- app_assoc].
        -- change (t :: q) with ([t] ++ q) in Hq. rewrite app_assoc in Hq. by apply NoDup_app in Hq as (? & _).
        -- intros x [Hx| ->%list_elem_of_singleton]%elem_of_app; [by apply Hi|by eapply edges_inside].
        -- apply elem_of_app. by left.
        -- rewrite length_app. simpl. lia.
Qed.

Lemma visits_spec c :
  c ∈ concat (map (fun m => visit (length V) g m m [m]) V) <-> elementary_cycle g c.
Proof using edges_inside.
  rewrite list_elem_of_In, in_concat. split.
  - intros (l & Hl & Hc). apply list_elem_of_In, list_elem_of_fmap in Hl as (m & -> & Hm).
    apply list_elem_of_In, visit_spec in Hc as (q & Hw & Hq & ->).
    + by apply canonical_elementary.
    + apply NoDup_singleton.
    + by intros x ->%list_elem_of_singleton.
    + left.
    + simpl. lia.
  - intros (Hc & Hn & Hl). destruct c as [|m q]; [done|].
    assert (Hm : m ∈ V).
    { destruct (exists_last (l := m :: q)) as (l & z & E); [done|].
      assert (Hr : closed g (z :: l)).
      { eapply closed_rotated; [|exact Hc]. rewrite E. by exists l, [z]. }
      destruct l as [|y l]; [simpl in E, Hr; injection E as -> ->|simpl in E; injection E as -> E].
      - destruct Hr as [Hr _]. by eapply edges_inside.
      - destruct Hr as [Hr _]. by apply (edges_inside z). }
    exists (visit (length V) g m m [m]). split.
    + apply list_elem_of_In, list_elem_of_fmap. by exists m.
    + apply list_elem_of_In, visit_spec; [apply NoDup_singleton|by intros x ->%list_elem_of_singleton
        |left|simpl; lia|]. exists q. split_and!; [done..|]. by rewrite canonical_least.
Qed.
End Search.

Lemma edges_logical files x y : y ∈ edges files x -> y ∈ LOGICAL_MODULES.
Proof.
  unfold edges. rewrite elem_of_remove_dups, list_elem_of_In, in_concat.
  intros (l & Hl & Hy). apply list_elem_of_In, list_elem_of_fmap in Hl as (f & -> & _).
  apply list_elem_of_In in Hy. unfold file_targets in Hy.
  by apply list_elem_of_filter in Hy as [[? _] _].
Qed.

Lemma cycles_spec files c :
  c ∈ logical_module_cycles files <-> elementary_cycle (edges files) c.
Proof.
  unfold logical_module_cycles. rewrite stable_sort_permutation, elem_of_remove_dups.
  apply visits_spec, edges_logical.
Qed.

Lemma acyclic_spec files :
  logical_module_cycles files = [] <-> forall m, ~ tc (fun a b => b ∈ edges files a) m m.
Proof.
  split.
  - intros E m [l Hl]%tc_walk.
    destruct (closed_shrinks (edges files) (m :: l) Hl) as (c & Hc & Hn).
    pose proof (canonical_elementary _ c Hc Hn) as He. apply cycles_spec in He.
    rewrite E in He. by apply elem_of_nil in He.
  - intros Ha. destruct (logical_module_cycles files) as [|c cs] eqn:E; [done|].
    assert (Hc : elementary_cycle (edges files) c) by (apply cycles_spec; rewrite E; left).
    destruct Hc as (Hc & _ & _). destruct c as [|m l]; [done|].
    destruct (Ha m). by apply (walk_tc _ _ l).
Qed.

(** ** Theorems *)

(** C25: the boundary check is exact about cycles. What it reports are exactly the
    elementary cycles of the graph of logical modules, each in its least rotation, once
    and in order; the search always ends; and the check passes exactly when no rule is
    violated in a file, no client component names the internal key, and no module
    depends on itself through others, over any number of steps. *)
Theorem boundary_check_exact `{Unicode} files frontend :
  (forall c, c ∈ logical_module_cycles files <-> elementary_cycle (edges files) c)
  /\ NoDup (logical_module_cycles files) /\ Sorted tuple_order (logical_module_cycles files)
  /\ (main files frontend = Ok ([], 0%Z)
      <-> Forall (fun f => check_python f = []) files
          /\ (forall m, ~ tc (fun a b => b ∈ edges files a) m m)
          /\ check_clients frontend = Ok []).
Proof.
  split_and!; [intros c; apply cycles_spec| | |].
  - unfold logical_module_cycles. rewrite stable_sort_permutation. apply NoDup_remove_dups.
  - apply stable_sort_Sorted, _.
  - rewrite <- acyclic_spec. unfold main. destruct (check_clients frontend) as [vs|e];
      [|by split; [|intros (_ & _ & ?)]].
    split.
    + intros [= E _]. apply app_nil in E as [Ef E]. apply app_nil in E as [Ec ->]. split_and!; [|by destruct (logical_module_cycles files)|done].
      clear Ec. induction files as [|f fs IH]; constructor; apply app_nil in Ef as [? ?]; auto.
    + intros (Hf & -> & [= ->]). replace (concat (map check_python files)) with (@nil Violation); [done|].
      induction Hf as [|f fs Hf _ IH]; [done|]. simpl. by rewrite Hf, <- IH.
Qed.

(** ** Concrete trees *)

Open Scope Z_scope.
Definition imports_of (m : string) : node := ImportFrom 3 (Some m).

(** Three modules in a ring, with a shortcut: two cycles. *)
Example two_cycles :
  logical_module_cycles
    [mkPyFile "tools/service.py" [imports_of "energy_agent.cases.ports"];
     mkPyFile "cases/service.py" [imports_of "energy_agent.memory.ports"; imports_of "energy_agent.tools"];
     mkPyFile "memory/service.py" [imports_of "energy_agent.tools.contracts"]]
  = [["cases"; "memory"; "tools"]; ["cases"; "tools"]].
Proof. vm_compute. reflexivity. Qed.

(** A ticket service that imports the provider package is found when it names the
    package in full, and passes when it writes [from energy_agent import providers] or
    [from ..providers import milvus]: the rules only see the module of the statement,
    without its level and its names. *)
Example imports_that_pass :
  let service := fun m => check_python (mkPyFile "retrieval/service.py" [imports_of m]) in
  map rule (service "energy_agent.providers.milvus")
    = ["application-no-persistence-adapters"; "provider-composition-roots-only"]
  /\ service "energy_agent" = [] /\ service "providers" = []
  /\ logical_module_cycles
       [mkPyFile "tools/service.py" [imports_of "cases"]; mkPyFile "cases/service.py" [imports_of "tools"]] = [].
Proof. vm_compute. by split_and!. Qed.

(** The core may import a business service. *)
Example core_imports_service :
  check_python (mkPyFile "core/errors.py" [imports_of "energy_agent.cases.service"]) = [].
Proof. vm_compute. reflexivity. Qed.
