(* ===== verification/EvaluationProps.v ===== *)
(** * Evaluations: theorems

    An evaluation decides: once its split is loaded, every step returns, whatever the
    API answers; and the metrics by label partition the results. *)

From stdpp Require Import pretty.
From Stdlib Require Import SpecFloat.
From S2P Require Import Prelude Errors Json Text Regex Float Scoring Rewrite Evaluation Gate.
Open Scope Z_scope.

(** ** Computations that return *)

Definition succeeds {A} (m : E A) : Prop := exists a, value m = Ok a.

Lemma succeeds_ret {A} (a : A) : succeeds (ret a).
Proof. by exists a. Qed.

Lemma value_bind {A B} (m : E A) (k : A -> E B) a : value m = Ok a -> value (bind m k) = value (k a).
Proof. unfold value, bind. destruct (m tt) as [[] o]. simpl. by intros ->. Qed.

Lemma value_raise {A B} (m : E A) (k : A -> E B) e : value m = Raise e -> value (bind m k) = Raise e.
Proof. unfold value, bind. destruct (m tt) as [[] o]. simpl. by intros ->. Qed.

Lemma succeeds_bind {A B} (Q : A -> Prop) (m : E A) (k : A -> E B) :
  succeeds m -> yields Q m -> (forall a, Q a -> succeeds (k a)) -> succeeds (bind m k).
Proof.
  intros [a Ha] Hq Hk. unfold succeeds. rewrite (value_bind _ _ _ Ha). apply Hk.
  unfold value in Ha. apply (Hq tt (fst (m tt))). rewrite <- Ha. by destruct (m tt).
Qed.

Lemma succeeds_then {A B} (m : E A) (k : A -> E B) :
  succeeds m -> (forall a, succeeds (k a)) -> succeeds (bind m k).
Proof. intros Hm Hk. apply (succeeds_bind (fun _ => True)); [done|apply yields_any|auto]. Qed.

Lemma succeeds_map_m {A B} (f : A -> E B) l :
  (forall a, a ∈ l -> succeeds (f a)) -> succeeds (map_m f l).
Proof.
  induction l as [|a l IH]; intros Hf; simpl; [apply succeeds_ret|].
  apply succeeds_then; [apply Hf; left|]. intros b.
  apply succeeds_then; [apply IH; intros x Hx; apply Hf; by right|]. intros bs. apply succeeds_ret.
Qed.

Lemma succeeds_guard (b : bool) e : b = true -> succeeds (guard b e).
Proof. intros ->. by exists tt. Qed.

Lemma value_yields {A} (Q : A -> Prop) (m : E A) a : yields Q m -> value m = Ok a -> Q a.
Proof. intros Hq Ha. apply (Hq tt (fst (m tt))). unfold value in Ha. destruct (m tt). simpl in *. by subst. Qed.

Lemma yields_value {A} (Q : A -> Prop) (m : E A) : (forall a, value m = Ok a -> Q a) -> yields Q m.
Proof. intros Hq [] s' a Ha. apply Hq. unfold value. by rewrite Ha. Qed.

(** A loop of checks returns when every check holds. *)
Lemma yields_for_each {A} (p : A -> bool) e (l : list A) :
  yields (fun _ : unit => Forall (fun x => p x = true) l) (for_each (fun x => guard (p x) e) l : E unit).
Proof.
  induction l as [|x l IH]; simpl; [by apply yields_ret|].
  eapply yields_bind_post; [apply yields_guard|]. intros u Hx.
  intros s s' b Hb. constructor; [exact Hx|]. by eapply IH.
Qed.

(** ** Lookups *)

Section Lookups.
Context `{Folding} `{Unicode}.

(** The halves of each sample belong together. *)
Definition paired (samples : list EvaluationSample) : Prop :=
  Forall (fun s => rs_sample_id (runtime s) = gs_sample_id (gold s)) samples.
Definition known (samples : list EvaluationSample) (results : list PerSampleResult) : Prop :=
  Forall (fun r => exists s, s ∈ samples /\ rs_sample_id (runtime s) = pr_sample_id r) results.

Lemma found {A B} (key : A -> B) `{EqDecision B} (l : list A) k :
  (exists x, x ∈ l /\ key x = k) ->
  exists x, find_first (fun x => bool_decide (key x = k)) (rev l) = Some x /\ x ∈ l /\ key x = k.
Proof.
  intros (x & Hx & Hk). destruct (find_first _ (rev l)) as [y|] eqn:E'.
  - exists y. destruct (find_first_Some _ _ _ E') as [Hy Hp]. split; [done|].
    apply bool_decide_eq_true in Hp. split; [|done].
    apply list_elem_of_In. apply list_elem_of_In in Hy. by apply in_rev.
  - assert (Hf : bool_decide (key x = k) = false).
    { apply (find_first_None _ _ _ E'). apply list_elem_of_In, in_rev. rewrite rev_involutive.
      by apply list_elem_of_In. }
    by apply bool_decide_eq_false in Hf.
Qed.

Lemma gold_of_found samples sid :
  paired samples -> (exists s, s ∈ samples /\ rs_sample_id (runtime s) = sid) ->
  succeeds (gold_of samples sid).
Proof.
  intros Hp (s & Hs & Hid). unfold gold_of.
  destruct (found (fun s => gs_sample_id (gold s)) samples sid) as (x & -> & _); [|apply succeeds_ret].
  exists s. split; [done|]. unfold paired in Hp. rewrite Forall_forall in Hp. by rewrite <- (Hp s Hs).
Qed.

Lemma sample_of_spec samples sid :
  yields (fun s => s ∈ samples /\ rs_sample_id (runtime s) = sid) (sample_of samples sid).
Proof.
  unfold sample_of. destruct (find_first _ _) as [s|] eqn:E'; [|apply yields_raise].
  apply yields_ret. destruct (find_first_Some _ _ _ E') as [Hs Hp].
  apply bool_decide_eq_true in Hp. split; [|done].
  apply list_elem_of_In. apply list_elem_of_In in Hs. by apply in_rev.
Qed.

Lemma sample_of_found samples sid :
  (exists s, s ∈ samples /\ rs_sample_id (runtime s) = sid) -> succeeds (sample_of samples sid).
Proof.
  intros Hs. unfold sample_of.
  destruct (found (fun s => rs_sample_id (runtime s)) samples sid Hs) as (x & -> & _). apply succeeds_ret.
Qed.

(** ** Strata *)

Lemma tally_succeeds samples results : paired samples -> known samples results -> succeeds (tally samples results).
Proof.
  intros Hp Hk. unfold tally. apply succeeds_then; [|intros; apply succeeds_ret].
  unfold known in Hk. rewrite Forall_forall in Hk.
  apply succeeds_map_m. intros r Hr. apply succeeds_then; [by apply gold_of_found, Hk|].
  intros. apply succeeds_ret.
Qed.

Lemma stratum_succeeds samples results :
  paired samples -> known samples results -> succeeds (_stratum_metrics samples results).
Proof. intros. apply succeeds_then; [by apply tally_succeeds|]. intros. apply succeeds_ret. Qed.

Lemma paired_filter (P : EvaluationSample -> Prop) `{!forall s, Decision (P s)} samples :
  paired samples -> paired (filter P samples).
Proof.
  unfold paired. rewrite !Forall_forall. intros Hp s Hs. apply Hp. by apply list_elem_of_filter in Hs as [_ ?].
Qed.

(** The label of a result, by the sample it belongs to. *)
Definition label_of (samples : list EvaluationSample) (attribute : RuntimeSample -> string)
    (r : PerSampleResult) : option string :=
  (fun s => attribute (runtime s)) <$>
    find_first (fun s => bool_decide (rs_sample_id (runtime s) = pr_sample_id r)) (rev samples).

Lemma results_with_spec samples attribute label results :
  known samples results ->
  value (results_with samples attribute label results)
  = Ok (filter (fun r => label_of samples attribute r = Some label) results).
Proof.
  induction 1 as [|r results Hr _ IH]; [done|]. simpl. unfold value, bind, sample_of, label_of in *.
  destruct (found (fun s => rs_sample_id (runtime s)) samples _ Hr) as (s & E' & Hs & Hid).
  rewrite filter_cons. rewrite E'. simpl.
  destruct (results_with samples attribute label results tt) as [[] o]. simpl in IH. subst o. simpl.
  destruct (decide (attribute (runtime s) = label)) as [<-|Hne].
  - by rewrite bool_decide_true, decide_True by done.
  - rewrite bool_decide_false by done. rewrite decide_False; [done|]. congruence.
Qed.

Lemma label_known samples attribute label results :
  known samples (filter (fun r => label_of samples attribute r = Some label) results)
  /\ known (samples_with attribute label samples)
       (filter (fun r => label_of samples attribute r = Some label) results).
Proof.
  unfold known. rewrite !Forall_forall. split; intros r [Hl _]%list_elem_of_filter; unfold label_of in Hl;
    apply fmap_Some in Hl as (s & E' & ->); destruct (find_first_Some _ _ _ E') as [Hs Hp];
    apply bool_decide_eq_true in Hp; apply list_elem_of_In, in_rev, list_elem_of_In in Hs; exists s.
  - done.
  - split; [|done]. by apply list_elem_of_filter.
Qed.
End Lookups.

Lemma filter_labels {A} (label : A -> option string) (ls : list string) (l : list A) :
  NoDup ls -> Forall (fun x => exists k, k ∈ ls /\ label x = Some k) l ->
  concat (map (fun k => filter (fun x => label x = Some k) l) ls) ≡ₚ l.
Proof.
  intros Hn. revert l. induction Hn as [|k ls Hk Hn IH]; intros l Hl; simpl.
  { destruct Hl as [|x l (k & Hk & _)]; [done|]. by apply elem_of_nil in Hk. }
  transitivity (filter (fun x => label x = Some k) l ++ filter (fun x => label x <> Some k) l);
    [|apply filter_app_complement]. apply Permutation_app_head.
  transitivity (concat (map (fun k' => filter (fun x => label x = Some k')
                  (filter (fun x => label x <> Some k) l)) ls)); [|apply IH].
  - apply reflexive_eq. f_equal. apply map_ext_in. intros k' Hk'.
    symmetry. apply list_filter_filter_l. intros x Hx. rewrite Hx. intros [= ->].
    apply Hk. by apply list_elem_of_In.
  - rewrite Forall_forall in *. intros x [Hx Hin]%list_elem_of_filter.
    destruct (Hl x Hin) as (k' & [->|Hk']%elem_of_cons & Hx'); [done|]. by exists k'.
Qed.

Section Totals.
Context `{Folding} `{Unicode}.

Lemma label_listed samples attribute results :
  known samples results ->
  Forall (fun r => exists k, k ∈ sorted_set (map (fun s => attribute (runtime s)) samples)
                   /\ label_of samples attribute r = Some k) results.
Proof.
  unfold known. rewrite !Forall_forall. intros Hk r Hr.
  destruct (found (fun s => rs_sample_id (runtime s)) samples _ (Hk r Hr)) as (s & E' & Hs & _).
  exists (attribute (runtime s)). unfold label_of. rewrite E'. split; [|done].
  apply elem_of_sorted_set, list_elem_of_fmap. by exists s.
Qed.

(** What [_grouped_metrics] computes, group by group. *)
Lemma grouped_spec samples attribute results :
  known samples results ->
  let groups := map (fun k => filter (fun r => label_of samples attribute r = Some k) results)
                  (sorted_set (map (fun s => attribute (runtime s)) samples)) in
  concat groups ≡ₚ results
  /\ yields (fun strata => map fst strata = sorted_set (map (fun s => attribute (runtime s)) samples)
       /\ Forall2 (fun p g => value (_stratum_metrics (samples_with attribute (fst p) samples) g) = Ok (snd p))
            strata groups)
       (_grouped_metrics samples results attribute).
Proof.
  intros Hk. cbv zeta. split; [apply filter_labels; [apply sorted_set_NoDup|by apply label_listed]|].
  unfold _grouped_metrics. induction (sorted_set _) as [|k ks IH]; simpl; [apply yields_ret; by split; [|constructor]|].
  eapply yields_bind_post with (P := fun p => fst p = k /\
    value (_stratum_metrics (samples_with attribute k samples)
             (filter (fun r => label_of samples attribute r = Some k) results)) = Ok (snd p)).
  - apply yields_value. intros p. pose proof (results_with_spec samples attribute k results Hk) as Hg.
    unfold value, bind in *. destruct (results_with _ _ _ _ tt) as [[] o]. simpl in Hg. subst o.
    destruct (_stratum_metrics _ _ tt) as [[] [m|e]]; [|done]. by intros [= <-].
  - intros p [Hp Hm]. eapply yields_bind_post; [exact IH|]. intros strata [Hs Hf].
    apply yields_ret. simpl. rewrite Hp, Hs. split; [done|]. constructor; [by rewrite Hp|done].
Qed.

Lemma grouped_succeeds samples attribute results :
  paired samples -> known samples results -> succeeds (_grouped_metrics samples results attribute).
Proof.
  intros Hp Hk. apply succeeds_map_m. intros k _.
  eapply (succeeds_bind (fun g => g = filter (fun r => label_of samples attribute r = Some k) results)).
  - eexists. by apply results_with_spec.
  - apply yields_value. intros g. rewrite results_with_spec by done. by intros [= <-].
  - intros g ->. apply succeeds_then; [|intros; apply succeeds_ret].
    apply stratum_succeeds; [by apply paired_filter|]. by destruct (label_known samples attribute k results).
Qed.

Lemma subset_succeeds samples results sids :
  paired samples -> known samples results -> succeeds (subset samples results sids).
Proof.
  intros Hp Hk. apply stratum_succeeds; [by apply paired_filter|].
  unfold known in *. rewrite Forall_forall in *. intros r [Hin Hr]%list_elem_of_filter.
  destruct (Hk r Hr) as (s & Hs & Hid). exists s. split; [|done].
  apply list_elem_of_filter. by rewrite Hid.
Qed.

(** A result as the runner makes them. *)
Record complete_result (r : PerSampleResult) : Prop := {
  cr_types : length (evidence_ids r) = length (evidence_types r);
  cr_refs : length (candidate_evidence_refs r) = length (pr_candidate_causes r);
}.

Lemma metrics_succeed samples results :
  paired samples -> known samples results -> Forall complete_result results ->
  succeeds (compute_metrics samples results).
Proof.
  intros Hp Hk Hc. rewrite Forall_forall in Hc. pose proof Hk as Hk'. unfold known in Hk'. rewrite Forall_forall in Hk'.
  unfold compute_metrics, manual_strata.
  apply succeeds_then; [by apply tally_succeeds|]. intros t.
  apply succeeds_then.
  { apply succeeds_map_m. intros r Hr. unfold unsupported_claims, source_by_id.
    apply succeeds_then; [|intros; apply succeeds_ret].
    apply succeeds_then; [|intros; apply succeeds_ret].
    apply succeeds_guard, Nat.eqb_eq. by destruct (Hc r Hr). }
  intros unsupported. apply succeeds_then.
  { apply succeeds_map_m. intros r [Hr Hin]%list_elem_of_filter. destruct (Hc r Hin) as [_ Hl].
    destruct (candidate_evidence_refs r); [|apply succeeds_ret].
    by destruct (pr_candidate_causes r). }
  intros conclusions. apply succeeds_then.
  { apply succeeds_map_m. intros r Hr. apply succeeds_then; [by apply gold_of_found, Hk'|].
    intros. apply succeeds_ret. }
  intros relevant. apply succeeds_then.
  { apply succeeds_then; [|intros; apply succeeds_ret]. apply succeeds_map_m. intros r Hr.
    apply succeeds_then; [by apply gold_of_found, Hk'|]. intros. apply succeeds_ret. }
  intros escalation. do 3 (apply succeeds_then; [by apply grouped_succeeds|]; intros ?).
  apply succeeds_then; [|intros; apply succeeds_ret].
  apply succeeds_map_m. intros p _. apply succeeds_then; [by apply subset_succeeds|].
  intros. apply succeeds_ret.
Qed.
End Totals.

(** ** Runs *)

Section Runs.
Context `{PublicApi} `{Unicode}.

Lemma length_map_m {A B} (f : A -> E B) l : yields (fun bs => length bs = length l) (map_m f l).
Proof.
  intros s s' bs Hb.
  by rewrite <- (Forall2_length _ _ _ (yields_map_m2 (fun _ _ => True) f l (fun _ => yields_any _) s s' bs Hb)).
Qed.

(** A result belongs to its sample, is complete, and says that the session failed
    exactly when it names the exception. *)
Definition result_of (s : EvaluationSample) (r : PerSampleResult) : Prop :=
  pr_sample_id r = rs_sample_id (runtime s) /\ complete_result r.

Lemma payload_result s first payload : yields (result_of s) (read_payload s first payload).
Proof.
  unfold read_payload. cbv zeta. do 8 (apply yields_bind; intros ?).
  apply yields_bind. intros candidates. do 4 (apply yields_bind; intros ?).
  eapply yields_bind_post; [apply length_map_m|]. intros names Hn.
  eapply yields_bind_post; [apply length_map_m|]. intros refs Hr.
  apply yields_bind. intros evidence.
  eapply yields_bind_post; [apply length_map_m|]. intros ids Hi.
  apply yields_bind. intros sources.
  eapply yields_bind_post; [apply length_map_m|]. intros types Ht.
  do 10 (apply yields_bind; intros ?).
  apply yields_ret. split; [done|]. split; simpl; congruence.
Qed.

Lemma bounded_result s : yields (result_of s) (bounded_run s).
Proof.
  unfold bounded_run, run_sample. apply yields_catch.
  - do 4 (apply yields_bind; intros ?). apply payload_result.
  - intros e. apply yields_ret. by repeat split.
Qed.

Lemma bounded_succeeds s : succeeds (bounded_run s).
Proof.
  unfold bounded_run, succeeds, value, catch. destruct (run_sample s tt) as [[] [r|e]]; by eexists.
Qed.

Lemma runs_results concurrency samples :
  yields (Forall2 result_of samples) (run_samples concurrency samples).
Proof. unfold run_samples. apply yields_bind. intros _. apply yields_map_m2. intros s. apply bounded_result. Qed.

Lemma runs_known samples results :
  Forall2 result_of samples results -> known samples results /\ Forall complete_result results
    /\ map pr_sample_id results = map (fun s => rs_sample_id (runtime s)) samples.
Proof.
  intros Hf. split_and!.
  - apply Forall_forall. intros r Hr. apply list_elem_of_lookup in Hr as [i Hr].
    destruct (Forall2_lookup_r _ _ _ _ _ Hf Hr) as (s & Hs & Hid & _).
    exists s. split; [by eapply list_elem_of_lookup_2|done].
  - apply (Forall2_Forall_r _ _ _ _ Hf). apply Forall_true. by intros s r [_ ?].
  - induction Hf as [|s r samples results [Hid _] _ IH]; [done|]. simpl. by rewrite Hid, IH.
Qed.
End Runs.

Lemma load_split_spec rows golds :
  yields (fun samples => paired samples /\ map runtime samples = rows
            /\ NoDup (map (fun s => rs_sample_id (runtime s)) samples)) (load_split rows golds).
Proof.
  unfold load_split. eapply yields_bind_post; [apply yields_any|]. intros ? _.
  eapply yields_bind_post; [apply (yields_map_m2 (fun r s => runtime s = r))|].
  { intros r. apply yields_bind. intros g. by apply yields_ret. }
  intros samples Hr. eapply yields_bind_post; [apply yields_guard|].
  intros u1 Hn. eapply yields_bind_post; [apply yields_for_each|]. intros u2 Hp.
  apply yields_ret. split_and!.
  - apply (Forall_impl _ _ _ Hp). intros s Hs. cbv beta in Hs. rewrite !andb_true_iff, !bool_decide_eq_true in Hs. tauto.
  - clear -Hr. induction Hr as [|r s rows samples <- _ IH]; [done|]. simpl. by rewrite IH.
  - by apply bool_decide_eq_true in Hn.
Qed.

Lemma load_pilot_spec split rows golds :
  yields (fun samples => paired samples /\ map runtime samples = rows /\ samples <> []
            /\ NoDup (map (fun s => rs_sample_id (runtime s)) samples)) (load_pilot_dataset split rows golds).
Proof.
  unfold load_pilot_dataset. eapply yields_bind_post; [apply load_split_spec|]. intros samples (Hp & Hr & Hn).
  destruct (expected_count split) as [n|] eqn:E'; [|apply yields_raise].
  eapply yields_bind_post; [apply yields_guard|]. intros u Hlen%Nat.eqb_eq.
  apply yields_ret. split_and!; [done..| |done]. intros ->. simpl in Hlen. subst n.
  unfold expected_count in E'. simpl in E'. repeat (destruct (bool_decide _); [done|]). done.
Qed.

(** ** Theorems *)

Lemma hit_mono `{Folding} `{Unicode} g r : hit g r 1 = true -> hit g r 3 = true.
Proof.
  unfold hit, rank_hit. rewrite !existsb_exists. intros (x & Hx & Hm). exists x. split; [|done].
  destruct (pr_candidate_causes r) as [|c cs]; [done|]. simpl in Hx. destruct Hx as [->|[]]. by left.
Qed.

Lemma count_le {A} (p q : A -> bool) l :
  (forall x, p x = true -> q x = true) -> (count p l <= count q l <= length l)%nat.
Proof.
  intros Hpq. unfold count. induction l as [|x l IH]; [done|]. rewrite !filter_cons. simpl.
  do 2 case_decide; simpl; try lia. naive_solver.
Qed.

Lemma tally_bounds `{Folding} `{Unicode} samples results :
  Forall complete_result results ->
  yields (fun t => t_results t = length results /\ (t_top1 t <= t_top3 t <= t_results t)%nat
    /\ (t_cited t <= t_candidates t)%nat
    /\ (t_completed t <= t_results t)%nat /\ (t_escalated t <= t_results t)%nat) (tally samples results).
Proof.
  intros Hc. unfold tally. eapply yields_bind_post.
  { apply (yields_map_m2 (fun _ p => fst p = true -> snd p = true)). intros r. apply yields_bind. intros g.
    apply yields_ret. apply hit_mono. }
  intros hits Hh. apply yields_ret. simpl. pose proof (Forall2_length _ _ _ Hh) as Hl. split_and!; [done| | | | |].
  - clear Hc Hl. induction Hh as [|r p results hits Hp _ IH]; [done|]. unfold count in *.
    rewrite !filter_cons. do 2 case_decide; simpl; try lia. naive_solver.
  - clear Hc. rewrite Hl. apply (count_le (fun p => snd p) (fun p => snd p)). done.
  - clear Hh Hl. unfold total. induction Hc as [|r results [_ Hr] _ IH]; [done|]. simpl.
    destruct (count_le list_true list_true (candidate_evidence_refs r)) as [_ Hle]; [done|]. lia.
  - by apply (count_le (fun r => bool_decide (pr_phase r = "COMPLETED")) (fun r => bool_decide (pr_phase r = "COMPLETED"))).
  - by apply (count_le escalated escalated).
Qed.

Lemma answerable_value samples results :
  length samples = length results -> results <> [] ->
  value (answerable_failure_rate samples results)
  = Ok (ratio (count (fun p => answerable_failure (fst p) (snd p)) (zip samples results)) (length results)).
Proof.
  intros Hl Hr. unfold answerable_failure_rate, value, bind, guard. rewrite Hl, Nat.eqb_refl. simpl.
  by destruct results.
Qed.

Lemma forallb_Forall {A} (p : A -> bool) l : forallb p l = true <-> Forall (fun x => p x = true) l.
Proof.
  rewrite forallb_forall, Forall_forall. split; intros Hl x Hx; apply Hl; by apply list_elem_of_In.
Qed.

Section Theorems.
Context `{PublicApi} `{Unicode} `{Folding}.

(** C26: an evaluation decides. Once a split is loaded, the run ends with its metrics,
    the checks of the gate and an exit code, whatever the API answers: a session whose
    answer cannot be read counts as failed, and nothing the runner records makes the
    metrics raise. There is one result for each sample, in their order; the exit code is
    0 exactly when each check of the gate holds. *)
Theorem evaluation_decides split rows golds concurrency samples :
  value (load_pilot_dataset split rows golds) = Ok samples -> 1 <= concurrency ->
  exists m gate code results,
    value (_evaluate split rows golds concurrency) = Ok (m, gate, code)
    /\ value (run_samples concurrency samples) = Ok results
    /\ map pr_sample_id results = map rs_sample_id rows
    /\ value (compute_metrics samples results) = Ok m
    /\ (code = 0 <-> Forall (fun p => snd p = true) gate).
Proof.
  intros Hl Hc. destruct (value_yields _ _ _ (load_pilot_spec split rows golds) Hl) as (Hp & Hr & Hne & _).
  assert (Hrun : succeeds (run_samples concurrency samples)).
  { unfold run_samples. apply succeeds_then; [by apply succeeds_guard, Z.leb_le|]. intros _.
    apply succeeds_map_m. intros s _. apply bounded_succeeds. }
  destruct Hrun as [results Hres].
  pose proof (value_yields _ _ _ (runs_results concurrency samples) Hres) as Hf.
  destruct (runs_known _ _ Hf) as (Hk & Hcr & Hids).
  destruct (metrics_succeed samples results Hp Hk Hcr) as [m Hm].
  pose proof (Forall2_length _ _ _ Hf) as Hlen.
  assert (Hrne : results <> []) by (intros ->; by destruct samples).
  unfold _evaluate. eexists m, _, _, results.
  rewrite (value_bind _ _ _ Hl), (value_bind _ _ _ Hres), (value_bind _ _ _ Hm),
    (value_bind _ _ _ (answerable_value samples results Hlen Hrne)).
  split_and!; [reflexivity|done|by rewrite Hids, <- Hr, map_map|done|].
  unfold _evaluation_exit_code. rewrite <- forallb_Forall. by destruct (forallb _ _).
Qed.

(** the metrics by template, evidence profile or split partition the results. For a
    loaded split and the results of its run, the groups are those of the labels that
    occur, in order and once each; together they hold every result once, and the
    metrics of a label are computed from its group. In each group, and in all, the hits
    at rank 1 are among those at rank 3, and no count exceeds what it is a share of. *)
Theorem strata_partition split rows golds concurrency samples results attribute strata :
  value (load_pilot_dataset split rows golds) = Ok samples ->
  value (run_samples concurrency samples) = Ok results ->
  value (_grouped_metrics samples results attribute) = Ok strata ->
  map fst strata = sorted_set (map attribute rows)
  /\ exists groups, concat groups ≡ₚ results
      /\ Forall2 (fun p g => exists t, value (tally (samples_with attribute (fst p) samples) g) = Ok t
            /\ st_sample_count (snd p) = length g
            /\ st_top1 (snd p) = rate (t_top1 t) (length g) /\ st_top3 (snd p) = rate (t_top3 t) (length g)
            /\ candidate_evidence_coverage (snd p) = rate (t_cited t) (t_candidates t)
            /\ (t_top1 t <= t_top3 t <= length g)%nat /\ (t_cited t <= t_candidates t)%nat) strata groups.
Proof.
  intros Hl Hres Hs. destruct (value_yields _ _ _ (load_pilot_spec split rows golds) Hl) as (_ & Hr & _ & _).
  pose proof (value_yields _ _ _ (runs_results concurrency samples) Hres) as Hf.
  destruct (runs_known _ _ Hf) as (Hk & Hcr & _).
  destruct (grouped_spec samples attribute results Hk) as [Hperm Hg].
  destruct (value_yields _ _ _ Hg Hs) as [Hfst Hall]. rewrite Hfst. split.
  { by rewrite <- Hr, map_map. }
  eexists. split; [exact Hperm|].
  assert (Hc : Forall (Forall complete_result)
    (map (fun k => filter (fun r => label_of samples attribute r = Some k) results)
       (sorted_set (map (fun s => attribute (runtime s)) samples)))).
  { apply Forall_map, Forall_true. intros k. rewrite Forall_forall in *. intros r Hin.
    apply list_elem_of_filter in Hin as [_ Hin]. by apply Hcr. }
  clear -Hall Hc H0. induction Hall as [|p g strata groups Hm _ IH]; constructor.
  - inversion Hc as [|? ? Hg _]; subst. clear -Hm Hg H0.
    pose proof (tally_bounds (samples_with attribute (fst p) samples) g Hg) as Hb.
    unfold _stratum_metrics in Hm.
    destruct (value (tally (samples_with attribute (fst p) samples) g)) as [t|e] eqn:Et.
    + rewrite (value_bind _ _ _ Et) in Hm. injection Hm as Hm. exists t. rewrite <- Hm. simpl.
      destruct (value_yields _ _ _ Hb Et) as (Hn & H13 & Hcc & _). by rewrite <- Hn.
    + by rewrite (value_raise _ _ _ Et) in Hm.
  - apply IH. by inversion Hc.
Qed.
End Theorems.

(** ** A concrete evaluation *)

#[local] Instance demo_folding : Folding := lower (H := demo_unicode).

(** Fifty samples of two templates. *)
Definition demo_row (i : nat) : RuntimeSample :=
  mkRuntimeSample ("S" +:+ pretty i) "pilot" "1.3.0" "holdout"
    (if Nat.even i then "pcs" else "bms") "TS_MANUAL" "site" "dev" "alarm" "hot" "text" "plain" "none"
    [] None None.
Definition demo_gold (i : nat) : GoldSample :=
  mkGoldSample ("S" +:+ pretty i) "1.3.0" "holdout" (if Nat.even i then "pcs" else "bms") "dev" "alarm"
    "fan_failure" ["风扇 停转"] false [] (if (i <? 2)%nat then "COMPLETED" else "NEED_USER_INPUT") false [] [] [] [].
Definition demo_rows : list RuntimeSample := map demo_row (seq 0 50).
Definition demo_golds : list GoldSample := map demo_gold (seq 0 50).

(** The first two sessions time out, the third answers with a body without a phase, the
    others complete with a candidate. *)
Definition demo_answer : json :=
  JObj [("phase", JStr "COMPLETED"); ("run_id", JStr "r");
        ("result", JObj [("summary", JStr "ok");
           ("candidate_causes", JList [JObj [("cause", JStr "风扇停转"); ("supporting_evidence", JList [JStr "e1"])]]);
           ("evidence", JList [JObj [("evidence_id", JStr "e1"); ("source_id", JStr "M1"); ("source_type", JStr "manual")]])]);
        ("tool_summaries", JList [JObj [("tool_name", JStr "timeseries"); ("status", JStr "OK")]])].
#[local] Instance demo_api : PublicApi := {|
  post_session := fun _ => Ok (JObj [("session_id", JStr "s")]);
  stream_message := fun _ _ => Ok (Some (literal 1 2));
  get_session := fun _ r =>
    if bool_decide (rs_sample_id r ∈ ["S0"; "S1"]) then Raise TimeoutError
    else if bool_decide (rs_sample_id r = "S2") then Ok (JObj []) else Ok demo_answer;
  seconds := fun _ => float_of_Z 10;
  py_repr := fun _ => "" |}.
#[local] Existing Instance demo_unicode.

Definition demo_samples : list EvaluationSample :=
  match value (load_pilot_dataset "holdout" demo_rows demo_golds) with Ok l => l | Raise _ => [] end.
Definition demo_results : list PerSampleResult :=
  match value (run_samples 4 demo_samples) with Ok l => l | Raise _ => [] end.
Definition demo_strata : list (string * Stratum) :=
  match value (_grouped_metrics demo_samples demo_results rs_template_id) with Ok l => l | Raise _ => [] end.

Lemma demo_loaded : value (load_pilot_dataset "holdout" demo_rows demo_golds) = Ok demo_samples.
Proof. vm_compute. reflexivity. Qed.
Lemma demo_ran : value (run_samples 4 demo_samples) = Ok demo_results.
Proof. vm_compute. reflexivity. Qed.
Lemma demo_grouped : value (_grouped_metrics demo_samples demo_results rs_template_id) = Ok demo_strata.
Proof. vm_compute. reflexivity. Qed.

Example demo_failures : map failure_category (take 4 demo_results)
  = [Some "TimeoutError"; Some "TimeoutError"; Some "KeyError"; None].
Proof. vm_compute. reflexivity. Qed.

Lemma evaluation_decides_witness :
  exists m gate code results, value (_evaluate "holdout" demo_rows demo_golds 4) = Ok (m, gate, code)
    /\ map pr_sample_id results = map rs_sample_id demo_rows
    /\ (code = 0 <-> Forall (fun p => snd p = true) gate).
Proof.
  destruct (evaluation_decides "holdout" demo_rows demo_golds 4 demo_samples demo_loaded ltac:(lia))
    as (m & gate & code & results & Hv & _ & Hids & _ & Hcode).
  exists m, gate, code, results. split; [exact Hv|]. split; [exact Hids|exact Hcode].
Defined.

Lemma strata_partition_witness :
  map fst demo_strata = ["bms"; "pcs"]
  /\ exists groups, concat groups ≡ₚ demo_results /\ length groups = 2%nat.
Proof.
  destruct (strata_partition "holdout" demo_rows demo_golds 4 demo_samples demo_results rs_template_id
    demo_strata demo_loaded demo_ran demo_grouped) as (Hf & groups & Hp & Hall).
  split; [rewrite Hf; vm_compute; reflexivity|].
  exists groups. split; [exact Hp|].
  rewrite <- (Forall2_length _ _ _ Hall). vm_compute. reflexivity.
Defined.

(** Both sessions that should have completed failed, and the gate's check of failed
    answerable sessions holds: the share is taken of all fifty sessions. *)
Example failed_answerables_pass :
  count (fun s => bool_decide (expected_phase (gold s) = "COMPLETED")) demo_samples = 2%nat
  /\ count (fun p => answerable_failure (fst p) (snd p)) (zip demo_samples demo_results) = 2%nat
  /\ (match value (_evaluate "holdout" demo_rows demo_golds 4) with
      | Ok (_, gate, _) => snd <$> find_first (fun p => bool_decide (fst p = "answerable_session_failure_rate")) gate
      | Raise _ => None
      end) = Some true.
Proof. vm_compute. by split_and!. Qed.

(** A space or an underscore does not matter, a hyphen does; a caret is dropped. *)
Example hyphen_matters :
  root_cause_matches "fan failure" "fan_failure" [] = true
  /\ root_cause_matches "fan-failure" "fan_failure" [] = false
  /\ root_cause_matches "fan^failure" "fan_failure" [] = true.
Proof. vm_compute. by split_and!. Qed.
