(* ===== verification/Paging.v ===== *)
(** * Keyset pagination

    A sorted list read page by page: each page ends with the key of its last row, and
    the next one holds the rows after it.  Reading until there is no key left gives
    the list. *)

From S2P Require Import Prelude.

(** ** Sorted lists *)

Section After.
Context {A : Type} (R : A -> A -> Prop) `{!forall x y, Decision (R x y)}.

(** In a strictly sorted list the rows after a row are those behind it. *)
Lemma after_drop l i x :
  (forall y z, R y z -> ~ R z y) -> StronglySorted R l -> l !! i = Some x ->
  filter (R x) l = drop (S i) l.
Proof.
  intros Hasym Hs. revert i. induction Hs as [|y l Hs IH Hy]; intros i; [done|].
  destruct i as [|i]; simpl; intros Hx.
  - injection Hx as ->. rewrite filter_cons_False by (intros Hxx; by eapply Hasym).
    rewrite drop_0. by apply filter_full.
  - rewrite filter_cons_False; [by apply IH|]. rewrite Forall_forall in Hy.
    apply Hasym, Hy. by eapply list_elem_of_lookup_2.
Qed.

Lemma StronglySorted_filter (P : A -> Prop) `{!forall x, Decision (P x)} l :
  StronglySorted R l -> StronglySorted R (filter P l).
Proof.
  induction 1 as [|x l Hs IH Hx]; [constructor|]. rewrite filter_cons.
  destruct (decide (P x)); [|done]. constructor; [done|].
  rewrite Forall_forall in Hx |- *. intros y [_ Hy]%list_elem_of_filter. by apply Hx.
Qed.

(** From a total order to the strict one, when the keys are distinct. *)
Lemma StronglySorted_strict (le : A -> A -> Prop) {K} (key : A -> K) l :
  (forall x y, le x y -> key x <> key y -> R x y) ->
  StronglySorted le l -> NoDup (map key l) -> StronglySorted R l.
Proof.
  intros Hle. induction 1 as [|x l Hs IH Hx]; simpl; intros Hn; [constructor|].
  apply NoDup_cons in Hn as [Hk Hn]. constructor; [by apply IH|].
  rewrite Forall_forall in Hx |- *. intros y Hy. apply Hle; [by apply Hx|].
  intros E. apply Hk. rewrite E. by apply list_elem_of_fmap_2.
Qed.

Lemma filter_filter_comm (P Q : A -> Prop) `{!forall x, Decision (P x), !forall x, Decision (Q x)} (l : list A) :
  filter P (filter Q l) = filter Q (filter P l).
Proof. rewrite !list_filter_filter. apply list_filter_iff. intros x. tauto. Qed.
End After.

(** ** A table listed in an order *)

Section Listing.
Context {A K : Type} (le R : A -> A -> Prop) (key : A -> K).
Context `{!forall x y, Decision (le x y), !forall x y, Decision (R x y), !Transitive le, !Total le}.
Hypothesis le_key : forall x y, le x y -> le y x -> key x = key y.
Hypothesis le_R : forall x y, le x y -> key x <> key y -> R x y.
Hypothesis R_asym : forall x y, R x y -> ~ R y x.

(** [SELECT ... WHERE ok ORDER BY le] *)
Definition listing (ok : A -> bool) (table : list A) : list A :=
  merge_sort le (filter (fun x => ok x = true) table).

Lemma keys_inj (l : list A) x y :
  NoDup (map key l) -> x ∈ l -> y ∈ l -> key x = key y -> x = y.
Proof.
  induction l as [|z l IH]; simpl; intros Hn Hx Hy E; [by apply elem_of_nil in Hx|].
  apply NoDup_cons in Hn as [Hz Hn]. rewrite elem_of_cons in Hx, Hy.
  destruct Hx as [->|Hx], Hy as [->|Hy]; [done| | |by apply IH]; destruct Hz;
    [rewrite E|rewrite <-E]; by apply list_elem_of_fmap_2.
Qed.

Lemma filter_keys (P : A -> Prop) `{!forall x, Decision (P x)} l :
  NoDup (map key l) -> NoDup (map key (filter P l)).
Proof.
  intros Hn. eapply sublist_NoDup; [exact Hn|]. apply (fmap_sublist key), sublist_filter.
Qed.

Lemma sort_filter (P : A -> Prop) `{!forall x, Decision (P x)} l :
  NoDup (map key l) -> merge_sort le (filter P l) = filter P (merge_sort le l).
Proof.
  intros Hn. apply (StronglySorted_unique_strong le).
  - intros x y Hx Hy Hxy Hyx. apply (keys_inj l); [done| | |by apply le_key].
    + rewrite merge_sort_Permutation in Hx. by apply list_elem_of_filter in Hx as [_ ?].
    + apply list_elem_of_filter in Hy as [_ Hy]. by rewrite merge_sort_Permutation in Hy.
  - apply StronglySorted_merge_sort; apply _.
  - apply StronglySorted_filter, StronglySorted_merge_sort; apply _.
  - by rewrite !merge_sort_Permutation.
Qed.

Lemma listing_sorted ok table : NoDup (map key table) -> StronglySorted R (listing ok table).
Proof.
  intros Hn. unfold listing. apply (StronglySorted_strict R le key); [done|apply StronglySorted_merge_sort; apply _|].
  rewrite (Permutation_map key (merge_sort_Permutation le (filter _ table))). by apply filter_keys.
Qed.

Lemma elem_of_listing ok table x : x ∈ listing ok table <-> ok x = true /\ x ∈ table.
Proof. unfold listing. by rewrite merge_sort_Permutation, list_elem_of_filter. Qed.

(** The rows after a row, asked for with one more condition. *)
Lemma listing_after ok table x :
  NoDup (map key table) ->
  listing (fun y => ok y && bool_decide (R x y)) table = filter (R x) (listing ok table).
Proof.
  intros Hn. unfold listing. rewrite <-sort_filter by by apply filter_keys.
  f_equal. rewrite list_filter_filter. apply list_filter_iff. intros y.
  rewrite andb_true_iff, bool_decide_eq_true. tauto.
Qed.

Lemma listing_next ok table i x :
  NoDup (map key table) -> listing ok table !! i = Some x ->
  listing (fun y => ok y && bool_decide (R x y)) table = drop (S i) (listing ok table).
Proof.
  intros Hn Hx. rewrite listing_after by done. apply after_drop; [done|by apply listing_sorted|done].
Qed.
End Listing.

(** ** Reading all pages *)

Section Collect.
Context {A E : Type}.

(** The first [limit] rows, and the key of the last one when there are more. *)
Definition page_of (cursor : A -> string) (limit : nat) (l : list A) : list A * option string :=
  (take limit l,
   if (limit <? length l)%nat then cursor <$> last (take limit l) else None).

(** A client that asks for page after page. *)
Fixpoint collect (fetch : option string -> outcome E (list A * option string)) (fuel : nat)
  (cursor : option string) : outcome E (list A) :=
  match fuel with
  | O => Ok []
  | S n =>
      match fetch cursor with
      | Raise e => Raise e
      | Ok (items, None) => Ok items
      | Ok (items, Some c) =>
          match collect fetch n (Some c) with
          | Ok rest => Ok (items ++ rest)
          | Raise e => Raise e
          end
      end
  end.

Context (fetch : option string -> outcome E (list A * option string)) (cursor : A -> string)
  (limit : nat) (L : list A).
Hypothesis limit_pos : (0 < limit)%nat.
Hypothesis fetch_first : fetch None = Ok (page_of cursor limit L).
Hypothesis fetch_next : forall i x, L !! i = Some x ->
  fetch (Some (cursor x)) = Ok (page_of cursor limit (drop (S i) L)).

Lemma collect_from n k c :
  fetch c = Ok (page_of cursor limit (drop k L)) -> (length (drop k L) < n)%nat ->
  collect fetch n c = Ok (drop k L).
Proof.
  revert k c. induction n as [|n IH]; intros k c Hf Hn; [lia|]. simpl. rewrite Hf. unfold page_of.
  destruct (Nat.ltb_spec limit (length (drop k L))) as [Hl|Hl]; [|by rewrite take_ge].
  destruct (last (take limit (drop k L))) as [x|] eqn:Hx; simpl.
  2: { apply last_None in Hx. apply (f_equal length) in Hx. rewrite length_take in Hx. simpl in Hx. lia. }
  rewrite last_lookup, length_take, lookup_take_lt, lookup_drop in Hx by lia.
  pose proof (fetch_next _ _ Hx) as Hnext.
  replace (S (k + Nat.pred (limit `min` length (drop k L)))) with (k + limit)%nat in Hnext by lia.
  rewrite (IH (k + limit)%nat); [|done|rewrite length_drop in *; lia].
  by rewrite <-drop_drop, take_drop.
Qed.

(** Every row comes exactly once, in order. *)
Lemma collect_all n : (length L < n)%nat -> collect fetch n None = Ok L.
Proof. intros Hn. rewrite (collect_from n 0 None); rewrite ?drop_0; done. Qed.
End Collect.
