(* ===== verification/Catalog.v ===== *)
(** * The catalog

    [catalog/repository.py] and the listings of [catalog/service.py]: sites, devices,
    alarms and sessions, read page by page.  Text is compared and ordered by its bytes;
    [LIKE] is an argument, since the collation of the database decides it. *)

From S2P Require Import Prelude Errors Regex Text Templates Iso Cursors Paging.
Open Scope Z_scope.

(** ** Rows *)

(** [persistence/models.py:147-158 DeviceProfileModel] *)
Record DeviceProfile := mkProfile {
  dp_device_id : string;
  dp_site_id : string;
  dp_device_type : string;
  dp_device_model : string;
  dp_manufacturer : string;
  dp_commission_time : option Z;
  dp_location : option string;
  dp_status : string;
}.
(** [persistence/models.py:161-171 AlarmEventModel] *)
Record AlarmEvent := mkAlarmEvent {
  al_alarm_id : string;
  al_device_id : string;
  al_site_id : string;
  al_alarm_name : string;
  al_alarm_level : string;
  al_trigger_time : Z;
  al_status : string;
  al_source_system : string;
}.
(** The rows of diagnosis_session and diagnosis_run, the columns the list shows. *)
Record SessionRow := mkSessionRow {
  se_id : string;
  se_run_id : string;
  se_source : string;
  se_site_id : option string;
  se_device_id : option string;
  se_alarm_id : option string;
  se_alarm_name : option string;
  se_phase : string;
  se_risk_level : string;
  se_created_by : option string;
  se_latest_review_status : option string;
  se_final_summary : option string;
  se_created_at : Z;
  se_updated_at : Z;
}.
Record RunInfo := mkRunInfo {
  ru_id : string;
  ru_template_id : option string;
  ru_alarm_category : option string;
  ru_guardrail_status : option string;
  ru_failure_category : option string;
}.
Record Tables := mkTables {
  tb_devices : list DeviceProfile;
  tb_alarms : list AlarmEvent;
  tb_sessions : list SessionRow;
  tb_runs : list RunInfo;
}.

(** [catalog/contracts.py:52-62 DeviceItem] *)
Record DeviceItem := mkDeviceItem {
  di_device : DeviceProfile;
  latest_alarm_count : nat;
}.
(** [catalog/contracts.py:86-95 AlarmRecord] *)
Record AlarmRecord := mkAlarmRecord {
  ar_alarm : AlarmEvent;
  ar_device_type : string;
}.
(** [catalog/contracts.py:71-83 AlarmItem] *)
Record AlarmItem := mkAlarmItem {
  ai_alarm : AlarmEvent;
  ai_alarm_category : option string;
  supported : bool;
  ai_template_id : option string;
  ai_template_version : option string;
}.
(** [catalog/contracts.py:104-124 DiagnosisSessionItem] *)
Record SessionItem := mkSessionItem {
  si_session : SessionRow;
  si_run : option RunInfo;
}.
(** [catalog/contracts.py:39-45 SiteItem] *)
Record SiteItem := mkSiteItem {
  st_site_id : string;
  st_device_count : nat;
  st_active_alarm_count : nat;
  st_device_type_counts : list (string * nat);
  st_status_counts : list (string * nat);
}.

(** The query parameters of the three lists ([api/catalog.py], [api/session_queries.py]);
    [None] is a parameter that was not given. *)
Record DeviceFilters := mkDeviceFilters {
  df_site_id : option string;
  df_device_type : option string;
  df_device_model : option string;
  df_manufacturer : option string;
  df_status : option string;
  df_q : option string;
}.
Record AlarmFilters := mkAlarmFilters {
  af_site_id : option string;
  af_device_id : option string;
  af_alarm_level : option string;
  af_status : option string;
  af_source_system : option string;
  af_supported : option bool;
  af_template_id : option string;
  af_from_time : option Z;
  af_to_time : option Z;
  af_q : option string;
}.
Record SessionFilters := mkSessionFilters {
  sf_phase : option string;
  sf_source : option string;
  sf_site_id : option string;
  sf_device_id : option string;
  sf_alarm_id : option string;
  sf_created_by : option string;
  sf_latest_review_status : option string;
  sf_risk_level : option string;
  sf_from_time : option Z;
  sf_to_time : option Z;
  sf_q : option string;
}.

(** [if filters.get(name): query.where(column == filters[name])] *)
Definition wanted (value column : option string) : bool :=
  match value with
  | Some v => negb (str_true v) || bool_decide (column = Some v)
  | None => true
  end.
Definition not_before (from : option Z) (t : Z) : bool :=
  match from with Some x => x <=? t | None => true end.
Definition not_after (to : option Z) (t : Z) : bool :=
  match to with Some x => t <=? x | None => true end.

(** The rows of a page and the cursor of the next one, from one row more than the page
    has. *)
Definition cut {A} (limit : nat) (key : A -> string) (rows : list A) : list A * option string :=
  let has_more := (limit <? length rows)%nat in
  let items := take limit rows in
  (items, if has_more then (fun x => encode_cursor (key x)) <$> last items else None).

(** ** The orders of the lists *)

Definition text_lt (x y : string) : Prop := String.le x y /\ x <> y.
#[export] Instance text_lt_dec x y : Decision (text_lt x y).
Proof. unfold text_lt. apply _. Defined.

Definition device_le (x y : DeviceProfile) : Prop := String.le (dp_device_id x) (dp_device_id y).
#[export] Instance device_le_dec x y : Decision (device_le x y).
Proof. unfold device_le. apply _. Defined.
Definition device_after (x y : DeviceProfile) : Prop := text_lt (dp_device_id x) (dp_device_id y).

#[export] Instance device_after_dec x y : Decision (device_after x y) := text_lt_dec _ _.

(** Newest first, then by identifier. *)
Definition newer_le (t t' : Z) (i i' : string) : Prop := t' < t \/ (t' = t /\ String.le i i').
Definition newer_lt (t t' : Z) (i i' : string) : Prop := t' < t \/ (t' = t /\ text_lt i i').
#[export] Instance newer_le_dec t t' i i' : Decision (newer_le t t' i i').
Proof. unfold newer_le. apply _. Defined.
#[export] Instance newer_lt_dec t t' i i' : Decision (newer_lt t t' i i').
Proof. unfold newer_lt. apply _. Defined.

Definition alarm_le (x y : AlarmRecord) : Prop :=
  newer_le (al_trigger_time (ar_alarm x)) (al_trigger_time (ar_alarm y))
    (al_alarm_id (ar_alarm x)) (al_alarm_id (ar_alarm y)).
#[export] Instance alarm_le_dec x y : Decision (alarm_le x y).
Proof. unfold alarm_le. apply _. Defined.
Definition session_le (x y : SessionRow) : Prop :=
  newer_le (se_updated_at x) (se_updated_at y) (se_id x) (se_id y).
#[export] Instance session_le_dec x y : Decision (session_le x y).
Proof. unfold session_le. apply _. Defined.

Section Repository.
(** [text LIKE pattern], and what [fromisoformat] makes of text it did not write. *)
Context (like : string -> string -> bool) (other_iso : string -> option Z) (db : Tables).

(** [column.like(f"%{q}%")] of one of the columns, when there is a [q]. *)
Definition matches_q (q : option string) (columns : list (option string)) : bool :=
  let q := strip (or_empty q) in
  if str_true q
  then existsb (fun c => match c with Some s => like s ("%" ++ q ++ "%") | None => false end) columns
  else true.

(** ** Sites *)

(** [GROUP BY]: the distinct keys with the number of their rows. *)
Definition group_count {A K} `{EqDecision K} (key : A -> K) (l : list A) : list (K * nat) :=
  map (fun k => (k, length (filter (fun x => key x = k) l))) (remove_dups (map key l)).

(** [d[key] = d.get(key, 0) + n] *)
Fixpoint add_count (key : string) (n : nat) (d : list (string * nat)) : list (string * nat) :=
  match d with
  | [] => [(key, n)]
  | (k, m) :: d' => if bool_decide (k = key) then (k, (m + n)%nat) :: d' else (k, m) :: add_count key n d'
  end.
Definition get_count (key : string) (d : list (string * nat)) : nat :=
  match find_first (fun kv => bool_decide (fst kv = key)) d with Some kv => snd kv | None => 0%nat end.

Definition closed_status (s : string) : bool :=
  bool_decide (s ∈ ["CLOSED"; "CLEARED"; "RESOLVED"]).

(** [catalog/repository.py:29-72 CatalogRepository.sites]; the dicts of dicts are kept
    per site. *)
Definition sites : list SiteItem :=
  let devices := group_count (fun d => (dp_site_id d, (dp_device_type d, dp_status d))) (tb_devices db) in
  let alarms := group_count al_site_id
    (filter (fun a => closed_status (al_status a) = false) (tb_alarms db)) in
  let totals := fold_left (fun d g => add_count (fst (fst g)) (snd g) d) devices [] in
  let of_site site := filter (fun g => fst (fst g) = site) devices in
  map (fun site =>
      mkSiteItem site (get_count site totals) (get_count site alarms)
        (fold_left (fun d g => add_count (fst (snd (fst g))) (snd g) d) (of_site site) [])
        (fold_left (fun d g => add_count (snd (snd (fst g))) (snd g) d) (of_site site) []))
    (merge_sort String.le (map fst totals)).

(** ** Devices *)

Definition device_ok (f : DeviceFilters) (d : DeviceProfile) : bool :=
  wanted (df_site_id f) (Some (dp_site_id d)) && wanted (df_device_type f) (Some (dp_device_type d))
  && wanted (df_device_model f) (Some (dp_device_model d))
  && wanted (df_manufacturer f) (Some (dp_manufacturer d)) && wanted (df_status f) (Some (dp_status d))
  && matches_q (df_q f) [Some (dp_device_id d); Some (dp_device_model d); Some (dp_manufacturer d);
                         dp_location d].
Definition device_item (d : DeviceProfile) : DeviceItem :=
  mkDeviceItem d (length (filter (fun a => al_device_id a = dp_device_id d) (tb_alarms db))).

(** [catalog/repository.py:74-127 CatalogRepository.devices] *)
Definition devices (f : DeviceFilters) (limit : nat) (cursor : option string)
  : outcome exn (list DeviceItem * option string) :=
  match decode_cursor cursor with
  | Raise e => Raise e
  | Ok after =>
      let ok d := device_ok f d && match after with
                                   | Some i => bool_decide (text_lt i (dp_device_id d))
                                   | None => true
                                   end in
      let rows := take (S limit) (listing device_le ok (tb_devices db)) in
      Ok (cut limit (fun i => dp_device_id (di_device i)) (map device_item rows))
  end.

(** [catalog/repository.py:129-158 CatalogRepository.device] *)
Definition device (device_id : string) : outcome exn DeviceItem :=
  match find_first (fun d => bool_decide (dp_device_id d = device_id)) (tb_devices db) with
  | Some d => Ok (device_item d)
  | None => Raise (Domain ResourceNotFoundError [])
  end.

(** ** Alarms *)

(** The join with the device of the alarm: an alarm of no known device is not listed. *)
Definition alarm_records : list AlarmRecord :=
  omap (fun a => (fun d => mkAlarmRecord a (dp_device_type d))
          <$> find_first (fun d => bool_decide (dp_device_id d = al_device_id a)) (tb_devices db))
    (tb_alarms db).

Definition alarm_ok (f : AlarmFilters) (r : AlarmRecord) : bool :=
  let a := ar_alarm r in
  wanted (af_site_id f) (Some (al_site_id a)) && wanted (af_device_id f) (Some (al_device_id a))
  && wanted (af_alarm_level f) (Some (al_alarm_level a)) && wanted (af_status f) (Some (al_status a))
  && wanted (af_source_system f) (Some (al_source_system a))
  && not_before (af_from_time f) (al_trigger_time a) && not_after (af_to_time f) (al_trigger_time a)
  && matches_q (af_q f) [Some (al_alarm_id a); Some (al_alarm_name a)].

(** The cursor of a list ordered by time and identifier. *)
Definition time_cursor (cursor : option string) : outcome exn (option (Z * string)) :=
  match decode_cursor cursor with
  | Raise e => Raise e
  | Ok None => Ok None
  | Ok (Some after) =>
      match split_bar (bytes after) with
      | Some (t, i) =>
          match query_datetime other_iso (text_of_bytes t) with
          | Some t => Ok (Some (t, text_of_bytes i))
          | None => Raise (Domain InvalidRequestError [])
          end
      | None => Raise (Domain InvalidRequestError [])
      end
  end.
Definition behind (cursor : option (Z * string)) (t : Z) (i : string) : bool :=
  match cursor with Some (ct, ci) => bool_decide (newer_lt ct t ci i) | None => true end.

Definition alarm_key (a : AlarmEvent) : string := time_key (al_trigger_time a) (al_alarm_id a).

(** [catalog/repository.py:160-228 CatalogRepository.alarms] *)
Definition alarms (f : AlarmFilters) (limit : nat) (cursor : option string)
  : outcome exn (list AlarmRecord * option string) :=
  match time_cursor cursor with
  | Raise e => Raise e
  | Ok after =>
      let ok r := alarm_ok f r && behind after (al_trigger_time (ar_alarm r)) (al_alarm_id (ar_alarm r)) in
      let rows := take (S limit) (listing alarm_le ok alarm_records) in
      Ok (cut limit (fun r => alarm_key (ar_alarm r)) rows)
  end.

(** [catalog/repository.py:230-253 CatalogRepository.alarm] *)
Definition alarm (alarm_id : string) : outcome exn AlarmRecord :=
  match find_first (fun r => bool_decide (al_alarm_id (ar_alarm r) = alarm_id)) alarm_records with
  | Some r => Ok r
  | None => Raise (Domain ResourceNotFoundError [])
  end.

(** ** Sessions *)

Definition session_ok (f : SessionFilters) (s : SessionRow) : bool :=
  wanted (sf_phase f) (Some (se_phase s)) && wanted (sf_source f) (Some (se_source s))
  && wanted (sf_site_id f) (se_site_id s) && wanted (sf_device_id f) (se_device_id s)
  && wanted (sf_alarm_id f) (se_alarm_id s) && wanted (sf_created_by f) (se_created_by s)
  && wanted (sf_latest_review_status f) (se_latest_review_status s)
  && wanted (sf_risk_level f) (Some (se_risk_level s))
  && not_before (sf_from_time f) (se_created_at s) && not_after (sf_to_time f) (se_created_at s)
  && matches_q (sf_q f) [Some (se_id s); se_device_id s; se_alarm_name s; se_final_summary s].
Definition session_item (s : SessionRow) : SessionItem :=
  mkSessionItem s (find_first (fun r => bool_decide (ru_id r = se_run_id s)) (tb_runs db)).

(** [catalog/repository.py:255-346 CatalogRepository.sessions] *)
Definition sessions (f : SessionFilters) (limit : nat) (cursor : option string)
  : outcome exn (list SessionItem * option string) :=
  match time_cursor cursor with
  | Raise e => Raise e
  | Ok after =>
      let ok s := session_ok f s && behind after (se_updated_at s) (se_id s) in
      let rows := take (S limit) (listing session_le ok (tb_sessions db)) in
      Ok (cut limit (fun i => time_key (se_updated_at (si_session i)) (se_id (si_session i)))
            (map session_item rows))
  end.

(** ** The service *)

Context `{Unicode}.

(** [catalog/service.py:21-28 alarm_support] *)
Definition alarm_support (device_type : option string) (alarm_name : string)
  : option DiagnosisTemplate :=
  match route TEMPLATES device_type (Some alarm_name) None None with
  | Ok (t, _) => Some t
  | Raise _ => None
  end.

(** [catalog/service.py:31-39 map_alarm] *)
Definition map_alarm (r : AlarmRecord) : AlarmItem :=
  let t := alarm_support (Some (ar_device_type r)) (al_alarm_name (ar_alarm r)) in
  mkAlarmItem (ar_alarm r) (tpl_alarm_category <$> t) (bool_decide (is_Some t))
    (template_id <$> t) (template_version <$> t).

Definition item_ok (f : AlarmFilters) (i : AlarmItem) : bool :=
  match af_supported f with Some b => Bool.eqb (supported i) b | None => true end
  && match af_template_id f with
     | Some t => negb (str_true t) || bool_decide (ai_template_id i = Some t)
     | None => true
     end.

(** [for record in records: ...], which stops at one item more than the page has. *)
Fixpoint add_items (f : AlarmFilters) (limit : nat) (items : list AlarmItem) (records : list AlarmRecord)
  : list AlarmItem :=
  match records with
  | [] => items
  | r :: records' =>
      let item := map_alarm r in
      if item_ok f item then
        let items' := items ++ [item] in
        if (limit <? length items')%nat then items' else add_items f limit items' records'
      else add_items f limit items records'
  end.

(** [while len(items) <= limit: ...]; every turn but the last one reads further. *)
Fixpoint read_alarms (f : AlarmFilters) (limit : nat) (fuel : nat) (items : list AlarmItem)
  (cursor : option string) : outcome exn (list AlarmItem) :=
  match fuel with
  | O => Ok items
  | S n =>
      match alarms f (100 `max` (limit * 2)) cursor with
      | Raise e => Raise e
      | Ok (records, page_cursor) =>
          let items' := add_items f limit items records in
          if (limit <? length items')%nat || negb (ostr_true page_cursor) then Ok items'
          else read_alarms f limit n items' page_cursor
      end
  end.

(** [catalog/service.py:96-128 CatalogService.alarms]; a turn reads at least one alarm,
    so their number is fuel enough ([read_alarms_spec]). *)
Definition service_alarms (f : AlarmFilters) (limit : nat) (cursor : option string)
  : outcome exn (list AlarmItem * option string) :=
  match read_alarms f limit (S (length (tb_alarms db))) [] cursor with
  | Raise e => Raise e
  | Ok items => Ok (cut limit (fun i => alarm_key (ai_alarm i)) items)
  end.
End Repository.

(** ** Capabilities *)

(** The settings the capabilities show. *)
Record CapabilitySettings := mkCapabilitySettings {
  cs_auth_mode : string;
  cs_pilot_mode : bool;
  cs_graph_mode : string;
  cs_model_mode : string;
  cs_rerank_mode : string;
  cs_request_body_max_bytes : Z;
}.

(** [catalog/contracts.py:18-25 TemplateCapability] *)
Record TemplateCapability := mkTemplateCapability {
  tc_template_id : string;
  tc_template_version : string;
  tc_device_type : string;
  tc_alarm_category : string;
  tc_alarm_patterns : list string;
  tc_measurements : list string;
  tc_metrics : list string;
}.
(** [catalog/contracts.py:28-36 CapabilitiesResponse] *)
Record CapabilitiesResponse := mkCapabilities {
  cr_app_version : string;
  cr_active_dataset : string * string;
  cr_auth : string * bool;
  cr_templates : list TemplateCapability;
  cr_device_types : list string;
  cr_features : list (string * bool);
  cr_limits : list (string * Z);
}.

(** [catalog/service.py:47-80 CatalogService.capabilities] *)
Definition template_capability (t : DiagnosisTemplate) : TemplateCapability :=
  mkTemplateCapability (template_id t) (template_version t) (device_type t) (tpl_alarm_category t)
    (alarm_patterns t) (measurements t) (metrics t).

(** [catalog/service.py:47-80 CatalogService.capabilities] *)
Definition capabilities (cs : CapabilitySettings) : CapabilitiesResponse :=
  let templates := map template_capability TEMPLATES in
  mkCapabilities "0.1.0" ("pilot_medium_v1", "1.3.0") (cs_auth_mode cs, cs_pilot_mode cs) templates
    (sorted_set (map tc_device_type templates))
    [("graph", bool_decide (cs_graph_mode cs = "neo4j"));
     ("model", negb (bool_decide (cs_model_mode cs = "disabled")));
     ("reranker", negb (bool_decide (cs_rerank_mode cs = "disabled")));
     ("case_review", true); ("ticket_write", false); ("oidc", false)]
    [("max_message_length", cs_request_body_max_bytes cs); ("max_clarification_questions", 3);
     ("max_tool_calls", 8)].
