(* ===== verification/CatalogProps.v ===== *)
(** * Reading the catalog page by page

    Following the cursors of a list visits every row that matches, once and in order,
    whatever the size of the pages. *)

From S2P Require Import Prelude Errors Regex Text Templates Iso Cursors Paging Catalog.
Open Scope Z_scope.

(** ** The orders *)

Lemma text_le_lt x y : String.le x y -> x <> y -> text_lt x y.
Proof. by split. Qed.
Lemma text_lt_asym x y : text_lt x y -> ~ text_lt y x.
Proof. intros [H1 H2] [H3 _]. apply H2. by apply (anti_symm String.le). Qed.

#[export] Instance device_le_trans : Transitive device_le.
Proof. intros x y z. unfold device_le. apply transitivity. Qed.
#[export] Instance device_le_total : Total device_le.
Proof. intros x y. unfold device_le. apply total, _. Qed.
Lemma device_le_key x y : device_le x y -> device_le y x -> dp_device_id x = dp_device_id y.
Proof. unfold device_le. intros. by apply (anti_symm String.le). Qed.

Lemma newer_le_trans t1 t2 t3 i1 i2 i3 :
  newer_le t1 t2 i1 i2 -> newer_le t2 t3 i2 i3 -> newer_le t1 t3 i1 i3.
Proof.
  intros [H1|[-> H1]] [H2|[-> H2]]; [left; lia|by left|by left|right]. split; [done|].
  by etransitivity.
Qed.
Lemma newer_le_total t t' i i' : newer_le t t' i i' \/ newer_le t' t i' i.
Proof.
  destruct (Z.lt_trichotomy t t') as [H|[->|H]]; [by right; left| |by left; left].
  destruct (total String.le i i'); [left|right]; by right.
Qed.
Lemma newer_le_antisym t t' i i' : newer_le t t' i i' -> newer_le t' t i' i -> t = t' /\ i = i'.
Proof.
  intros [H1|[-> H1]] [H2|[H2 H3]]; try lia. split; [done|]. by apply (anti_symm String.le).
Qed.
Lemma newer_le_lt t t' i i' : newer_le t t' i i' -> i <> i' -> newer_lt t t' i i'.
Proof. intros [H1|[-> H1]] Hi; [by left|]. right. split; [done|by apply text_le_lt]. Qed.
Lemma newer_lt_asym t t' i i' : newer_lt t t' i i' -> ~ newer_lt t' t i' i.
Proof. intros [H1|[-> H1]] [H2|[H3 H2]]; try lia. by apply (text_lt_asym _ _ H1). Qed.

#[export] Instance alarm_le_trans : Transitive alarm_le.
Proof. intros x y z. apply newer_le_trans. Qed.
#[export] Instance alarm_le_total : Total alarm_le.
Proof. intros x y. apply newer_le_total. Qed.
#[export] Instance session_le_trans : Transitive session_le.
Proof. intros x y z. apply newer_le_trans. Qed.
#[export] Instance session_le_total : Total session_le.
Proof. intros x y. apply newer_le_total. Qed.

(** ** Cursors *)

Lemma cut_page {A} limit (key : A -> string) l :
  cut limit key (take (S limit) l) = page_of (fun x => encode_cursor (key x)) limit l.
Proof.
  unfold cut, page_of. rewrite take_take, length_take. replace (limit `min` S limit)%nat with limit by lia.
  f_equal. destruct (Nat.ltb_spec limit (S limit `min` length l)), (Nat.ltb_spec limit (length l));
    (done || lia).
Qed.

Lemma page_of_map {A B} (f : A -> B) (key : B -> string) limit l :
  page_of key limit (map f l) = (fun p => (map f (fst p), snd p)) (page_of (fun x => key (f x)) limit l).
Proof.
  unfold page_of. cbn [fst snd]. rewrite length_map, firstn_map. f_equal.
  destruct (limit <? length l)%nat; [|done].
  assert (last (map f (take limit l)) = f <$> last (take limit l)) as -> by apply fmap_last.
  by destruct (last (take limit l)).
Qed.

Lemma text_of_bytes_bytes s : text_of_bytes (bytes s) = s.
Proof. apply String.string_of_list_ascii_of_string. Qed.

Lemma time_cursor_key other t i :
  is_datetime t = true -> well_encoded i = true ->
  time_cursor other (Some (encode_cursor (time_key t i))) = Ok (Some (t, i)).
Proof.
  intros Ht Hi. unfold time_cursor. rewrite decode_time_key, split_time_key by done.
  unfold query_datetime. by rewrite !text_of_bytes_bytes, fromisoformat_isoformat.
Qed.

Section Pages.
Context (like : string -> string -> bool) (other_iso : string -> option Z) (db : Tables).

Lemma length_omap_le {A B} (g : A -> option B) l : (length (omap g l) <= length l)%nat.
Proof. induction l as [|x l IH]; [done|]. cbn [omap list_omap]. destruct (g x); simpl; unfold omap in *; lia. Qed.

Lemma listing_ext {A} (le : A -> A -> Prop) `{!forall x y, Decision (le x y)} (p q : A -> bool) l :
  (forall x, p x = q x) -> listing le p l = listing le q l.
Proof.
  intros Hpq. unfold listing. f_equal. apply list_filter_iff. intros x. by rewrite Hpq.
Qed.

(** ** Devices *)

Hypothesis devices_keyed : NoDup (map dp_device_id (tb_devices db)).

Lemma devices_page f limit cursor after :
  decode_cursor cursor = Ok after ->
  devices like db f limit cursor
  = Ok (page_of (fun i => encode_cursor (dp_device_id (di_device i))) limit
      (map (device_item db) (listing device_le (fun d => device_ok like f d
         && match after with Some i => bool_decide (text_lt i (dp_device_id d)) | None => true end)
         (tb_devices db)))).
Proof. intros Hc. unfold devices. by rewrite Hc, <-firstn_map, cut_page. Qed.

Lemma device_pages f limit :
  (0 < limit)%nat ->
  Forall (fun d => dp_device_id d <> "" /\ well_encoded (dp_device_id d) = true) (tb_devices db) ->
  collect (devices like db f limit) (S (length (tb_devices db))) None
  = Ok (map (device_item db) (listing device_le (device_ok like f) (tb_devices db))).
Proof.
  intros Hl Hw.
  apply (collect_all _ (fun i => encode_cursor (dp_device_id (di_device i))) limit); [done|..].
  - rewrite (devices_page f limit None None) by done. do 3 f_equal. apply listing_ext.
    intros d. by rewrite andb_true_r.
  - intros i x Hx. apply list_lookup_fmap_Some in Hx as (d & -> & Hd). simpl.
    assert (Hin : d ∈ tb_devices db).
    { apply (list_elem_of_lookup_2 _ _ _) in Hd. by apply elem_of_listing in Hd as [_ ?]. }
    rewrite Forall_forall in Hw. destruct (Hw d Hin) as [Hne Hwe].
    rewrite (devices_page f limit _ (Some (dp_device_id d))) by by apply decode_encode_cursor.
    do 2 f_equal. rewrite skipn_map. f_equal.
    exact (listing_next device_le device_after dp_device_id device_le_key
      (fun x y => text_le_lt _ _) (fun x y => text_lt_asym _ _) (device_ok like f) _ i d
      devices_keyed Hd).
  - rewrite length_map. unfold listing. rewrite merge_sort_Permutation.
    pose proof (length_filter (fun d => device_ok like f d = true) (tb_devices db)). lia.
Qed.
End Pages.

(** ** Lists ordered by time *)

Definition alarm_after (x y : AlarmRecord) : Prop :=
  newer_lt (al_trigger_time (ar_alarm x)) (al_trigger_time (ar_alarm y))
    (al_alarm_id (ar_alarm x)) (al_alarm_id (ar_alarm y)).
#[export] Instance alarm_after_dec x y : Decision (alarm_after x y) := newer_lt_dec _ _ _ _.
Definition session_after (x y : SessionRow) : Prop :=
  newer_lt (se_updated_at x) (se_updated_at y) (se_id x) (se_id y).
#[export] Instance session_after_dec x y : Decision (session_after x y) := newer_lt_dec _ _ _ _.

Section TimePages.
Context (like : string -> string -> bool) (other_iso : string -> option Z) (db : Tables).

Definition stored_key (t : Z) (i : string) : Prop := is_datetime t = true /\ well_encoded i = true.

Lemma session_pages f limit :
  (0 < limit)%nat -> NoDup (map se_id (tb_sessions db)) ->
  Forall (fun s => stored_key (se_updated_at s) (se_id s)) (tb_sessions db) ->
  collect (sessions like other_iso db f limit) (S (length (tb_sessions db))) None
  = Ok (map (session_item db) (listing session_le (session_ok like f) (tb_sessions db))).
Proof.
  intros Hl Hn Hw.
  assert (Hpage : forall c after, time_cursor other_iso c = Ok after ->
    sessions like other_iso db f limit c
    = Ok (page_of (fun i => encode_cursor (time_key (se_updated_at (si_session i)) (se_id (si_session i))))
        limit (map (session_item db) (listing session_le (fun s => session_ok like f s
          && behind after (se_updated_at s) (se_id s)) (tb_sessions db))))).
  { intros c after Hc. unfold sessions. by rewrite Hc, <-firstn_map, cut_page. }
  apply (collect_all _ (fun i => encode_cursor (time_key (se_updated_at (si_session i))
    (se_id (si_session i)))) limit); [done|..].
  - rewrite (Hpage None None) by done. do 3 f_equal. apply listing_ext. intros s. by rewrite andb_true_r.
  - intros i x Hx. apply list_lookup_fmap_Some in Hx as (s & -> & Hs). simpl.
    assert (Hin : s ∈ tb_sessions db).
    { apply (list_elem_of_lookup_2 _ _ _) in Hs. by apply elem_of_listing in Hs as [_ ?]. }
    rewrite Forall_forall in Hw. destruct (Hw s Hin) as [Ht Hi].
    rewrite (Hpage _ (Some (se_updated_at s, se_id s))) by by apply time_cursor_key.
    do 2 f_equal. rewrite skipn_map. f_equal.
    exact (listing_next session_le session_after se_id
      (fun x y H1 H2 => proj2 (newer_le_antisym _ _ _ _ H1 H2)) (fun x y => newer_le_lt _ _ _ _)
      (fun x y => newer_lt_asym _ _ _ _) (session_ok like f) _ i s Hn Hs).
  - rewrite length_map. unfold listing. rewrite merge_sort_Permutation.
    pose proof (length_filter (fun s => session_ok like f s = true) (tb_sessions db)). lia.
Qed.

(** ** Alarms: the repository *)

Hypothesis alarms_keyed : NoDup (map al_alarm_id (tb_alarms db)).
Hypothesis alarms_stored :
  Forall (fun a => stored_key (al_trigger_time a) (al_alarm_id a)) (tb_alarms db).

Lemma alarm_record_in r : r ∈ alarm_records db -> ar_alarm r ∈ tb_alarms db.
Proof.
  unfold alarm_records. intros (a & Ha & Hr)%list_elem_of_omap.
  by apply fmap_Some in Hr as (d & _ & ->).
Qed.

Lemma alarm_records_keyed : NoDup (map (fun r => al_alarm_id (ar_alarm r)) (alarm_records db)).
Proof.
  clear alarms_stored. unfold alarm_records. induction (tb_alarms db) as [|a l IH]; [constructor|].
  simpl in alarms_keyed. apply NoDup_cons in alarms_keyed as [Ha Hl]. cbn [omap list_omap].
  destruct (find_first _ _) as [d|]; simpl; [|by apply IH]. constructor; [|by apply IH].
  intros (r & Hr & Hin)%list_elem_of_fmap. apply Ha. rewrite Hr.
  apply list_elem_of_omap in Hin as (a' & Ha' & E). apply fmap_Some in E as (d' & _ & ->).
  simpl. by apply list_elem_of_fmap_2.
Qed.

Definition found (f : AlarmFilters) : list AlarmRecord :=
  listing alarm_le (alarm_ok like f) (alarm_records db).

(** The cursor [c] asks for the alarms behind the first [k]. *)
Definition reads (f : AlarmFilters) (c : option string) (k : nat) : Prop :=
  forall limit, alarms like other_iso db f limit c
    = Ok (page_of (fun r => encode_cursor (alarm_key (ar_alarm r))) limit (drop k (found f))).

Lemma alarms_page f c after : time_cursor other_iso c = Ok after -> forall limit,
  alarms like other_iso db f limit c
  = Ok (page_of (fun r => encode_cursor (alarm_key (ar_alarm r))) limit
      (listing alarm_le (fun r => alarm_ok like f r
         && behind after (al_trigger_time (ar_alarm r)) (al_alarm_id (ar_alarm r))) (alarm_records db))).
Proof. intros Hc limit. unfold alarms. by rewrite Hc, cut_page. Qed.

Lemma reads_first f : reads f None 0.
Proof.
  intros limit. rewrite (alarms_page f None None) by done. rewrite drop_0. do 2 f_equal.
  apply listing_ext. intros r. by rewrite andb_true_r.
Qed.

Lemma reads_next f i r : found f !! i = Some r ->
  reads f (Some (encode_cursor (alarm_key (ar_alarm r)))) (S i).
Proof.
  intros Hr limit.
  assert (Hin : ar_alarm r ∈ tb_alarms db).
  { apply (list_elem_of_lookup_2 _ _ _) in Hr. apply elem_of_listing in Hr as [_ Hr].
    by apply alarm_record_in. }
  pose proof alarms_stored as Hw. rewrite Forall_forall in Hw. destruct (Hw _ Hin) as [Ht Hi].
  pose proof (time_cursor_key other_iso _ _ Ht Hi) as Hc. fold (alarm_key (ar_alarm r)) in Hc.
  rewrite (alarms_page f _ _ Hc). do 2 f_equal.
  exact (listing_next alarm_le alarm_after (fun r => al_alarm_id (ar_alarm r))
    (fun x y H1 H2 => proj2 (newer_le_antisym _ _ _ _ H1 H2)) (fun x y => newer_le_lt _ _ _ _)
    (fun x y => newer_lt_asym _ _ _ _) (alarm_ok like f) _ i r alarm_records_keyed Hr).
Qed.

(** ** Alarms: the service *)

Context `{Unicode}.

(** The items of the list, in order. *)
Definition shown (f : AlarmFilters) (l : list AlarmRecord) : list AlarmItem :=
  filter (fun i => item_ok f i = true) (map map_alarm l).

Lemma add_items_spec f limit items l : (length items <= limit)%nat ->
  add_items f limit items l = take (S limit) (items ++ shown f l).
Proof.
  unfold shown. revert items. induction l as [|r l IH]; intros items Hlen; cbn [add_items map].
  - by rewrite app_nil_r, take_ge by lia.
  - rewrite filter_cons. destruct (item_ok f (map_alarm r)) eqn:E.
    + rewrite decide_True by done. cbn zeta. rewrite length_app. cbn [length].
      destruct (Nat.ltb_spec limit (length items + 1)) as [Hl|Hl].
      * rewrite take_app_ge by lia. replace (S limit - length items)%nat with 1%nat by lia.
        simpl. by rewrite take_0.
      * rewrite IH by (rewrite length_app; simpl; lia). by rewrite <-app_assoc.
    + rewrite decide_False by done. by apply IH.
Qed.

Lemma read_alarms_spec f limit n items c k :
  reads f c k -> (length items <= limit)%nat -> (length (drop k (found f)) < n)%nat ->
  read_alarms like other_iso db f limit n items c
  = Ok (take (S limit) (items ++ shown f (drop k (found f)))).
Proof.
  revert items c k. induction n as [|n IH]; intros items c k Hc Hlen Hn; [lia|].
  cbn [read_alarms]. rewrite Hc. unfold page_of. set (rest := drop k (found f)) in *.
  set (batch := (100 `max` (limit * 2))%nat). rewrite add_items_spec by done.
  destruct (Nat.ltb_spec batch (length rest)) as [Hb|Hb].
  2: { rewrite (take_ge rest batch) by lia. by rewrite orb_true_r. }
  destruct (last (take batch rest)) as [x|] eqn:Hx.
  2: { apply last_None, (f_equal length) in Hx. rewrite length_take in Hx. simpl in Hx. lia. }
  cbn [fmap option_fmap option_map].
  assert (Hsplit : shown f rest = shown f (take batch rest) ++ shown f (drop batch rest)).
  { unfold shown. rewrite <-list.filter_app, <-map_app. by rewrite take_drop. }
  rewrite Hsplit, app_assoc.
  destruct (Nat.ltb_spec limit (length (take (S limit) (items ++ shown f (take batch rest))))) as [Hl|Hl];
    rewrite length_take in Hl.
  - cbn [orb]. f_equal. symmetry. apply take_app_le. lia.
  - rewrite (take_ge (items ++ shown f (take batch rest))) by lia.
    assert (ostr_true (Some (encode_cursor (alarm_key (ar_alarm x)))) = true) as ->.
    { unfold ostr_true, str_true. rewrite bool_decide_eq_false_2; [done|].
      exact (encode_cursor_nonempty (alarm_key (ar_alarm x)) (time_key_nonempty _ _)). }
    cbn [negb orb].
    rewrite last_lookup, length_take, lookup_take_lt in Hx by lia. unfold rest in Hx.
    rewrite lookup_drop in Hx. apply reads_next in Hx.
    replace (S (k + Nat.pred (batch `min` length (drop k (found f))))) with (k + batch)%nat in Hx
      by (unfold rest in *; lia).
    rewrite (IH _ _ (k + batch)%nat Hx).
    + by rewrite <-drop_drop.
    + lia.
    + rewrite <-drop_drop. fold rest. rewrite length_drop. lia.
Qed.

Lemma shown_lookup f l i x : shown f l !! i = Some x ->
  exists j r, l !! j = Some r /\ x = map_alarm r /\ shown f (drop (S j) l) = drop (S i) (shown f l).
Proof.
  unfold shown. revert i. induction l as [|r l IH]; intros i; [done|]. cbn [map]. rewrite filter_cons.
  destruct (decide _) as [E|E].
  - destruct i as [|i]; simpl.
    + intros [= <-]. exists 0%nat, r. by rewrite !drop_0.
    + intros (j & r' & Hj & -> & Hs)%IH. exists (S j), r'. by split_and!.
  - intros (j & r' & Hj & -> & Hs)%IH. exists (S j), r'. by split_and!.
Qed.

Lemma service_page f limit c k : reads f c k ->
  service_alarms like other_iso db f limit c
  = Ok (page_of (fun i => encode_cursor (alarm_key (ai_alarm i))) limit (shown f (drop k (found f)))).
Proof.
  intros Hc. unfold service_alarms. rewrite (read_alarms_spec f limit _ [] c k Hc).
  - by rewrite cut_page.
  - simpl. lia.
  - rewrite length_drop. unfold found, listing. rewrite merge_sort_Permutation.
    pose proof (length_filter (fun r => alarm_ok like f r = true) (alarm_records db)).
    assert (length (alarm_records db) <= length (tb_alarms db))%nat by apply length_omap_le. lia.
Qed.

Lemma alarm_pages_collected f limit :
  (0 < limit)%nat ->
  collect (service_alarms like other_iso db f limit) (S (length (tb_alarms db))) None
  = Ok (shown f (found f)).
Proof.
  intros Hl. apply (collect_all _ (fun i => encode_cursor (alarm_key (ai_alarm i))) limit); [done|..].
  - rewrite (service_page f limit None 0) by apply reads_first. by rewrite drop_0.
  - intros i x (j & r & Hr & -> & Hs)%shown_lookup. rewrite <-Hs.
    apply service_page. cbn [map_alarm ai_alarm]. by apply reads_next.
  - unfold shown. pose proof (length_filter (fun i => item_ok f i = true) (map map_alarm (found f))) as H1.
    rewrite length_map in H1. unfold found, listing in *. rewrite merge_sort_Permutation in *.
    pose proof (length_filter (fun r => alarm_ok like f r = true) (alarm_records db)).
    assert (length (alarm_records db) <= length (tb_alarms db))%nat by apply length_omap_le. lia.
Qed.
End TimePages.

(** ** The theorems *)

Definition item_after (x y : AlarmItem) : Prop :=
  newer_lt (al_trigger_time (ai_alarm x)) (al_trigger_time (ai_alarm y))
    (al_alarm_id (ai_alarm x)) (al_alarm_id (ai_alarm y)).

Lemma shown_sorted `{Unicode} f l : StronglySorted alarm_after l -> StronglySorted item_after (shown f l).
Proof.
  intros Hs. unfold shown. apply StronglySorted_filter. induction Hs as [|r l _ IH Hr]; simpl; [constructor|].
  constructor; [done|]. apply Forall_map. done.
Qed.

(** C27: reading the alarms page by page.  A client that follows the cursors from the
    first page, with any page size, comes to the last page and has read exactly the
    alarms of known devices that match the filters, each once, the newest first; the
    filters on templates, which the database does not know, neither lose nor repeat an
    alarm between the pages. *)
Theorem alarm_pages `{Unicode} like other_iso db f limit :
  (0 < limit)%nat -> NoDup (map al_alarm_id (tb_alarms db)) ->
  Forall (fun a => stored_key (al_trigger_time a) (al_alarm_id a)) (tb_alarms db) ->
  exists items,
    collect (service_alarms like other_iso db f limit) (S (length (tb_alarms db))) None = Ok items
    /\ StronglySorted item_after items
    /\ NoDup (map (fun i => al_alarm_id (ai_alarm i)) items)
    /\ (forall i, i ∈ items <-> exists r, r ∈ alarm_records db /\ alarm_ok like f r = true
          /\ i = map_alarm r /\ item_ok f i = true).
Proof.
  intros Hl Hn Hw. exists (shown f (found like db f)).
  split; [by apply alarm_pages_collected|]. split; [|split].
  - apply shown_sorted.
    exact (listing_sorted alarm_le alarm_after (fun r => al_alarm_id (ar_alarm r))
      (fun x y => newer_le_lt _ _ _ _) (alarm_ok like f) _ (alarm_records_keyed db Hn)).
  - unfold shown.
    assert (Hk : NoDup (map (fun i => al_alarm_id (ai_alarm i)) (map map_alarm (found like db f)))).
    { rewrite map_map. cbn [map_alarm ai_alarm]. unfold found, listing.
      rewrite (Permutation_map _ (merge_sort_Permutation alarm_le _)).
      apply filter_keys, (alarm_records_keyed db Hn). }
    by apply filter_keys.
  - intros i. unfold shown. rewrite list_elem_of_filter. split.
    + intros [Hok (r & -> & Hr)%list_elem_of_fmap]. apply elem_of_listing in Hr as [? ?].
      by exists r.
    + intros (r & Hr & Ha & -> & Hok). split; [done|]. apply list_elem_of_fmap_2.
      by apply elem_of_listing.
Qed.

(** Three alarms of one device and one of an unknown device, read in pages of one. *)
Definition demo_alarm (i device name : string) (t : Z) : AlarmEvent :=
  mkAlarmEvent i device "S1" name "HIGH" t "OPEN" "scada".
Definition demo_tables : Tables :=
  mkTables [mkProfile "d1" "S1" "PCS" "PCS-100" "acme" None None "ONLINE"]
    [demo_alarm "a1" "d1" "温度高" 100; demo_alarm "a2" "d1" "unknown" 200;
     demo_alarm "a3" "d1" "温度高" 200; demo_alarm "a4" "d9" "温度高" 300] [] [].
Definition no_like (s p : string) : bool := false.
Definition supported_only : AlarmFilters :=
  mkAlarmFilters None None None None None (Some true) None None None None.

Example demo_sites :
  sites demo_tables = [mkSiteItem "S1" 1 4 [("PCS", 1%nat)] [("ONLINE", 1%nat)]].
Proof. vm_compute. done. Qed.

Example demo_first_page :
  (fun p => (map (fun i => al_alarm_id (ai_alarm i)) (fst p), snd p))
    <$> (match @service_alarms no_like (fun _ => None) demo_tables demo_unicode supported_only 1 None with
         | Ok p => Some p | Raise _ => None end)
  = Some (["a3"], Some (encode_cursor "1970-01-01T00:00:00.000200+00:00|a3")).
Proof. vm_compute. done. Qed.

Lemma alarm_pages_witness :
  exists items,
    collect (@service_alarms no_like (fun _ => None) demo_tables demo_unicode supported_only 1)
      (S (length (tb_alarms demo_tables))) None = Ok items
    /\ map (fun i => al_alarm_id (ai_alarm i)) items = ["a3"; "a1"]
    /\ NoDup (map (fun i => al_alarm_id (ai_alarm i)) items).
Proof.
  destruct (@alarm_pages demo_unicode no_like (fun _ => None) demo_tables supported_only 1)
    as (items & Hc & _ & Hn & _).
  - lia.
  - apply (bool_decide_unpack _). vm_compute. exact I.
  - unfold stored_key. repeat (constructor; [split; vm_compute; reflexivity|]). constructor.
  - exists items. split; [exact Hc|]. split; [|exact Hn].
    vm_compute in Hc. injection Hc as <-. vm_compute. reflexivity.
Defined.

(** Reading the devices page by page visits each device that matches once, by its
    identifier. *)
Theorem device_pages_complete like db f limit :
  (0 < limit)%nat -> NoDup (map dp_device_id (tb_devices db)) ->
  Forall (fun d => dp_device_id d <> "" /\ well_encoded (dp_device_id d) = true) (tb_devices db) ->
  exists items, collect (devices like db f limit) (S (length (tb_devices db))) None = Ok items
    /\ map (fun i => dp_device_id (di_device i)) items ≡ₚ
         map dp_device_id (filter (fun d => device_ok like f d = true) (tb_devices db))
    /\ StronglySorted (fun x y => text_lt (dp_device_id (di_device x)) (dp_device_id (di_device y))) items.
Proof.
  intros Hl Hn Hw. eexists. split; [by apply device_pages|]. rewrite map_map. cbn [device_item di_device].
  split; [by unfold listing; rewrite (Permutation_map _ (merge_sort_Permutation device_le _))|].
  assert (Hs : StronglySorted device_after (listing device_le (device_ok like f) (tb_devices db))).
  { exact (listing_sorted device_le device_after dp_device_id (fun x y => text_le_lt _ _)
      (device_ok like f) _ Hn). }
  induction Hs as [|d l _ IH Hd]; simpl; constructor; [done|]. by apply Forall_map.
Qed.
