(* ===== verification/ReadTools.v ===== *)
(** * The handlers of the read tools

    [tools/implementations/read_tools.py], [tools/implementations/graph_tools.py] and the
    query of [graph/service.py]: what the tools answer, over the tables, the library and
    the retrieval service. The time series and the graph answer by the number of the
    call. *)

From S2P Require Import Prelude Errors Json Float Text Regex Tools ToolData.
From S2P Require Import Scoring Rewrite Library Retrieval Catalog.
Open Scope Z_scope.

(** The clients the handlers call; [json_time] is how pydantic writes an instant.
    [tools/ports.py:16-25 TimeseriesPort] *)
Class ReadPorts := mkReadPorts {
  timeseries_port : nat -> string -> list string -> Z -> Z -> list string ->
    outcome abort (list (string * list (string * json)));
  graph_provider : option (nat -> string -> option string -> Z -> Z -> outcome abort (list GraphRelation));
  json_time : Z -> string;
}.

(** ** Results *)

Definition new_meta (trace_id source : string) (partial : bool) (mode : option string) : ToolMeta :=
  mkMeta trace_id source "real" partial 0 1 false mode.

(** [data is None or data == [] or data == {}]; the other data are dicts with keys. *)
Definition empty_data (d : option ToolData) : bool :=
  match d with None | Some (SeriesData []) => true | _ => false end.

(** [tools/implementations/read_tools.py:22-51 _result] *)
Definition _result (trace_id : string) (d : option ToolData) (source : string) (partial : bool)
  (warned : list string) (mode : option string) : ToolResult ToolData :=
  let empty := empty_data d in
  mkToolResult (negb empty)
    (if empty then NOT_FOUND else if partial then PARTIAL_SUCCESS else TOOL_OK)
    d (new_meta trace_id source partial mode)
    (if empty then "NOT_FOUND" else "") (if empty then "No matching data" else "") warned.

Definition mode_value (m : RetrievalMode) : string :=
  match m with HYBRID => "hybrid" | KEYWORD_ONLY => "keyword_only" | VECTOR_ONLY => "vector_only" end.

(** ** Evidence as JSON *)

Definition dump_value `{ReadPorts} (v : value) : json :=
  match v with
  | VNone => JNull
  | VBool b => JBool b
  | VInt z => JInt z
  | VStr s => JStr s
  | VTime t => JStr (json_time t)
  end.
(** [result.model_dump(mode="json")["ranked_evidence"]], the fields the workflow reads. *)
Definition dump_ranked `{ReadPorts} (r : Ranked) : RankedEvidence :=
  let c := ranked r in
  mkRanked (source_type_value (source_type c)) (source_id c) (cd_chunk_id c) (content_summary c)
    (citation c) (map (fun kv => (fst kv, dump_value (snd kv))) (metadata c))
    (source_reliability c) (verification_score c) (freshness_score c) (relevance_to_alarm c)
    (cd_retrieval_score c) (final_score c) (ranked_package r).

(** ** Tickets and cases together *)

Definition source_count (source : string) (d : list (string * nat)) : nat :=
  default 0%nat (lookup_key source d).

Section Merge.
Context `{Unicode}.

(** [" ".join(summary.lower().split())] *)
Definition content_key (r : RankedEvidence) : string :=
  normalize_spaces (unchars (lower (chars (rk_content_summary r)))).

(** The loop over the rows: what is left of them, the counts by source and the rows taken.
    [tools/implementations/read_tools.py:158-170 ranked] *)
Fixpoint take_rows (top_k : nat) (rows : list RankedEvidence) (per_source : list (string * nat))
  (seen : gset string) (taken : list RankedEvidence)
  : list RankedEvidence * list (string * nat) :=
  match rows with
  | [] => (taken, per_source)
  | row :: rows =>
      let source := rk_source_type row in
      if bool_decide (content_key row ∈ seen) || (top_k <=? source_count source per_source)%nat
      then take_rows top_k rows per_source seen taken
      else
        let per_source := dict_set source (S (source_count source per_source)) per_source in
        let taken := taken ++ [row] in
        if (top_k <=? length taken)%nat then (taken, per_source)
        else take_rows top_k rows per_source ({[content_key row]} ∪ seen) taken
  end.

(** [tools/implementations/read_tools.py:152-170 merged] *)
Definition merge_rows (top_k : nat) (tickets cases : list RankedEvidence)
  : list RankedEvidence * list (string * nat) :=
  take_rows top_k (sorted_desc rk_final_score (tickets ++ cases)) [] ∅ [].
End Merge.

(** ** Handlers *)

(** The fields of [ManualSearchInput] and [TicketSearchInput] a search depends on, the
    filters as [model_dump(exclude_none=True)] gives them.
    [tools/contracts.py:110-146 ManualSearchInput] *)
Record SearchRequest := mkSearchRequest {
  sq_context : ToolContext;
  sq_query : string;
  sq_filters : filters;
  sq_mode : RetrievalMode;
  sq_threshold : float;
  sq_top_k : nat;
  sq_verified_only : bool;
}.

Section Handlers.
Context `{Unicode} `{Platform} `{RetrievalPorts} `{ReadPorts} (db : Tables) (lib : Library).
Abbreviation R := (M Retrieval abort).

(** [providers/mysql.py:37-45 get_device] *)
Definition get_device (device_id : string) : R (option DeviceRow) :=
  ask database ;;;
  ret ((fun d => mkDeviceRow (dp_device_id d) (dp_site_id d) (dp_device_type d) (dp_device_model d)
                   (dp_manufacturer d) (dp_status d))
       <$> find_first (fun d => bool_decide (dp_device_id d = device_id)) (tb_devices db)).

(** [providers/mysql.py:47-60 get_alarm] *)
Definition get_alarm (alarm_id : string) (device_id : option string) : R (option AlarmRow) :=
  ask database ;;;
  match filter (fun a => bool_decide (al_alarm_id a = alarm_id)
                         && (negb (ostr_true device_id) || bool_decide (Some (al_device_id a) = device_id))
                         = true) (tb_alarms db) with
  | [] => ret None
  | [a] => ret (Some (mkAlarmRow (al_alarm_id a) (al_alarm_name a) (al_alarm_level a) (al_trigger_time a)))
  | _ => raise (Exc MultipleResultsFound)
  end.

(** [tools/implementations/read_tools.py:63-69 device] *)
Definition device_tool (c : ToolContext) (device_id : string) : R (ToolResult ToolData) :=
  d <- get_device device_id ;;
  ret (_result (cx_trace_id c) (DeviceData <$> d) "mysql" false [] None).

(** [tools/implementations/read_tools.py:71-77 alarm] *)
Definition alarm_tool (c : ToolContext) (alarm_id : string) (device_id : option string)
  : R (ToolResult ToolData) :=
  a <- get_alarm alarm_id device_id ;;
  ret (_result (cx_trace_id c) (AlarmData <$> a) "mysql" false [] None).

(** [summary.get("missing", True)] *)
Definition missing (summary : list (string * json)) : bool :=
  match lookup_key "missing" summary with Some j => json_true j | None => true end.

(** [tools/implementations/read_tools.py:79-94 timeseries] *)
Definition timeseries_tool (c : ToolContext) (device_id : string) (measurements metrics : list string)
  (start_time end_time : Z) : R (ToolResult ToolData) :=
  data <- ask (fun n => timeseries_port n device_id metrics start_time end_time measurements) ;;
  ret (_result (cx_trace_id c)
         (if negb (existsb (fun kv => negb (missing (snd kv))) data) then None else Some (SeriesData data))
         "influxdb" false [] None).

(** A service that only knows keywords is asked for keywords.
    [tools/implementations/read_tools.py:98-102 mode] *)
Definition effective_mode (m : RetrievalMode) : RetrievalMode :=
  if bool_decide (default_mode = KEYWORD_ONLY) then KEYWORD_ONLY else m.

Definition search_query (s : SourceType) (f : filters) (q : SearchRequest) : Query :=
  mkQuery s (sq_query q) f (cx_trace_id (sq_context q)) (Some (effective_mode (sq_mode q))) (sq_top_k q)
    (sq_threshold q) (sq_verified_only q).

(** [tools/implementations/read_tools.py:96-120 manual] *)
Definition manual_tool (q : SearchRequest) : R (ToolResult ToolData) :=
  result <- search lib (search_query SRC_MANUAL (sq_filters q) q) ;;
  let md := retrieval_metadata result in
  ret (_result (cx_trace_id (sq_context q))
         (Some (PackageData (map dump_ranked (ranked_evidence result)) (md_degraded md)))
         "retrieval" (md_partial_result md) (md_degraded md) (Some (mode_value (md_mode md)))).

(** [case_filters]: a session does not find the case made of it.
    [tools/implementations/read_tools.py:139-141 case_filters] *)
Definition case_filters (q : SearchRequest) : filters :=
  if str_true (cx_trace_id (sq_context q))
  then dict_set "exclude_session_id" (jopt (cx_session_id (sq_context q))) (sq_filters q)
  else sq_filters q.

(** The metadata that is handed on is that of the tickets.
    [tools/implementations/read_tools.py:122-184 tickets] *)
Definition ticket_tool (q : SearchRequest) : R (ToolResult ToolData) :=
  tickets <- search lib (search_query SRC_TICKET (sq_filters q) q) ;;
  cases <- search lib (search_query SRC_CASE (case_filters q) q) ;;
  let md := retrieval_metadata tickets in
  let md' := retrieval_metadata cases in
  let '(rows, _) := merge_rows (sq_top_k q) (map dump_ranked (ranked_evidence tickets))
                      (map dump_ranked (ranked_evidence cases)) in
  ret (_result (cx_trace_id (sq_context q)) (Some (PackageData rows (md_degraded md))) "retrieval"
         (md_partial_result md || md_partial_result md')
         (sorted_set (md_degraded md ++ md_degraded md')) (Some (mode_value (md_mode md)))).

(** [graph/service.py:56-73 query] *)
Definition graph_query (alarm_name : string) (device_type : option string) (depth top_k : Z)
  : R (list GraphRelation) :=
  match graph_provider with
  | Some f => ask (fun n => f n alarm_name device_type depth top_k)
  | None => raise (Exc RuntimeError)
  end.

(** Texts of exceptions are not modelled: a provider's own "GRAPH_DISABLED" would be
    reported as such.
    [tools/implementations/graph_tools.py:21-84 query] *)
Definition graph_tool (c : ToolContext) (alarm_name : string) (device_type : option string)
  (depth top_k : Z) : R (ToolResult ToolData) :=
  let meta partial := new_meta (cx_trace_id c) "neo4j" partial None in
  except
    (relations <- graph_query alarm_name device_type depth top_k ;;
     ret (if list_true relations
          then mkToolResult true TOOL_OK (Some (RelationsData relations)) (meta false) "" "" []
          else mkToolResult false NOT_FOUND (Some (RelationsData [])) (meta false)
                 "GRAPH_RELATIONS_NOT_FOUND" "No graph relations found" []))
    (fun _ =>
       let code := match graph_provider with Some _ => "GRAPH_UNAVAILABLE" | None => "GRAPH_DISABLED" end in
       ret (mkToolResult false DEGRADED (Some (RelationsData [])) (meta true) code
              "Graph relation evidence is unavailable" [code])).
End Handlers.

(** ** The tools of the workflow *)

Definition dump_filters (f : SearchFilters) (more : filters) : filters :=
  omap (fun kv => (fun s => (fst kv, JStr s)) <$> snd kv)
    [("device_type", f_device_type f); ("device_model", f_device_model f);
     ("manufacturer", f_manufacturer f); ("alarm_name", f_alarm_name f)] ++ more.

(** The defaults of the fields the workflow does not set.
    [tools/contracts.py:122-127 filters] *)
Definition manual_request (c : ToolContext) (query : string) (f : SearchFilters) : SearchRequest :=
  mkSearchRequest c query
    (dump_filters f [("section_type", JList []); ("effective_only", JBool true)])
    HYBRID (literal 45 100) 5 true.
(** [tools/contracts.py:139-146 filters] *)
Definition ticket_request (c : ToolContext) (query : string) (f : SearchFilters) (verified_only : bool)
  : SearchRequest :=
  mkSearchRequest c query (dump_filters f [("exclude_ticket_ids", JList [])])
    HYBRID (literal 50 100) 5 verified_only.

Section Registry.
Context `{Unicode} `{Platform} `{RetrievalPorts} `{ReadPorts} (db : Tables) (lib : Library).

(** The handler each input is registered for.
    [tools/implementations/read_tools.py:186-193 registry] *)
Definition read_handler (i : ToolInput) : M Retrieval abort (ToolResult ToolData) :=
  match i with
  | DeviceProfileInput c d => device_tool db c d
  | AlarmDetailInput c a d => alarm_tool db c a d
  | TimeseriesWindowInput c d ms mt t t' => timeseries_tool c d ms mt t t'
  | ManualSearchInput c q f => manual_tool lib (manual_request c q f)
  | TicketSearchInput c q f v => ticket_tool lib (ticket_request c q f v)
  | GraphRelationsInput c a d n k => graph_tool c a d n k
  end.

(** The world of an executor over these handlers: the retrieval service is in some state
    when a handler is called, and the call may be interrupted. *)
Definition read_world (states : nat -> Retrieval) (interrupted : nat -> option abort)
  (log_answer : nat -> outcome abort unit) (clock : nat -> Z) : ToolWorld ToolInput ToolData := {|
  handle n _ i := match interrupted n with
                  | Some e => Raise e
                  | None => snd (read_handler i (states n))
                  end;
  log_answer := log_answer;
  clock := clock;
|}.
End Registry.
