(* ===== verification/ReadToolsProps.v ===== *)
(** * What the read tools answer

    Tickets and cases are merged as the reference definition [best_of] says; the evidence
    a diagnosis stores cites rows of the library, whatever the services answer. *)

From S2P Require Import Prelude Errors Json Contracts Store Float Text Regex Tools ToolData.
From S2P Require Import Scoring Selection Rewrite Library Retrieval RetrievalProps Catalog ReadTools.
Open Scope Z_scope.

(** ** Merging *)

(** The first row of each content. *)
Fixpoint firsts {A K} `{EqDecision K} (key : A -> K) (l : list A) : list A :=
  match l with
  | [] => []
  | x :: l => x :: filter (fun y => key y <> key x) (firsts key l)
  end.

Lemma firsts_NoDup {A K} `{EqDecision K} (key : A -> K) l : NoDup (map key (firsts key l)).
Proof.
  induction l as [|x l IH]; simpl; constructor.
  - rewrite list_elem_of_fmap. intros (y & E & Hy%list_elem_of_filter). by destruct Hy as [[] _].
  - eapply sublist_NoDup; [exact IH|]. apply fmap_sublist, sublist_filter.
Qed.

Lemma firsts_sublist {A K} `{EqDecision K} (key : A -> K) l : firsts key l `sublist_of` l.
Proof.
  induction l as [|x l IH]; simpl; constructor. etransitivity; [apply sublist_filter|exact IH].
Qed.

Lemma filter_firsts {A K} `{Countable K} (key : A -> K) (seen : gset K) x l :
  filter (fun y => key y ∉ seen) (firsts key (x :: l))
  = if decide (key x ∈ seen) then filter (fun y => key y ∉ seen) (firsts key l)
    else x :: filter (fun y => key y ∉ {[key x]} ∪ seen) (firsts key l).
Proof.
  simpl. rewrite filter_cons. destruct (decide (key x ∈ seen)) as [Hx|Hx].
  - rewrite decide_False by (by intros []). rewrite list_filter_filter. apply list_filter_iff.
    intros y. split; [tauto|]. intros Hy. split; [done|]. by intros E; rewrite E in Hy.
  - rewrite decide_True by done. f_equal. rewrite list_filter_filter. apply list_filter_iff.
    intros y. set_solver.
Qed.

Lemma lookup_key_dict_set {A} k k' (v : A) d :
  lookup_key k (dict_set k' v d) = if bool_decide (k' = k) then Some v else lookup_key k d.
Proof.
  unfold lookup_key. induction d as [|[k1 w] d IH]; simpl; [by case_bool_decide|].
  destruct (decide (k1 = k')) as [->|E].
  - rewrite (bool_decide_true (k' = k')) by done. simpl. by case_bool_decide.
  - rewrite (bool_decide_false (k1 = k')) by done. simpl.
    destruct (decide (k1 = k)) as [->|E'].
    + rewrite (bool_decide_true (k = k)) by done.
      rewrite (bool_decide_false (k' = k)); [done|congruence].
    + rewrite (bool_decide_false (k1 = k)) by done. exact IH.
Qed.

Section Merging.
Context `{Unicode}.

(** What the merged rows are to be: the best [k], a content once. *)
Definition best_of (k : nat) (rows : list RankedEvidence) : list RankedEvidence :=
  take k (firsts content_key (sorted_desc rk_final_score rows)).

Definition of_type (s : string) (l : list RankedEvidence) : nat :=
  length (filter (fun r => rk_source_type r = s) l).

Definition counted (d : list (string * nat)) (l : list RankedEvidence) : Prop :=
  forall s, source_count s d = of_type s l.

Lemma of_type_snoc s l r :
  of_type s (l ++ [r]) = (of_type s l + if bool_decide (rk_source_type r = s) then 1 else 0)%nat.
Proof.
  unfold of_type. rewrite filter_app, length_app, filter_cons, filter_nil.
  case_decide as E; [rewrite bool_decide_true by done|rewrite bool_decide_false by done]; done.
Qed.

Lemma of_type_length s l : (of_type s l <= length l)%nat.
Proof. apply length_filter. Qed.

Lemma counted_snoc d l r :
  counted d l ->
  counted (dict_set (rk_source_type r) (S (source_count (rk_source_type r) d)) d) (l ++ [r]).
Proof.
  intros Hd s. unfold source_count at 1. rewrite lookup_key_dict_set, of_type_snoc.
  case_bool_decide as E; simpl; [subst; rewrite (Hd (rk_source_type r)); lia|].
  rewrite <-(Hd s). unfold source_count. lia.
Qed.

Lemma take_rows_spec k rows : forall per_source seen taken,
  (length taken < k)%nat -> counted per_source taken ->
  let '(found, counts) := take_rows k rows per_source seen taken in
  found = taken ++ take (k - length taken) (filter (fun y => content_key y ∉ seen) (firsts content_key rows))
  /\ counted counts found.
Proof.
  induction rows as [|row rows IH]; intros d seen taken Hk Hd; cbn [take_rows].
  - cbn [firsts]. rewrite filter_nil, firstn_nil, app_nil_r. done.
  - cbv zeta. rewrite (filter_firsts content_key seen row rows), (Hd (rk_source_type row)).
    pose proof (of_type_length (rk_source_type row) taken) as Hle.
    rewrite (proj2 (Nat.leb_gt k _)) by lia. rewrite orb_false_r.
    destruct (decide (content_key row ∈ seen)) as [Hs|Hs].
    + rewrite bool_decide_true by done. by apply IH.
    + rewrite bool_decide_false by done. rewrite <-(Hd (rk_source_type row)).
      pose proof (counted_snoc d taken row Hd) as Hd'.
      assert (Hsub : (k - length taken = S (k - S (length taken)))%nat) by lia.
      rewrite Hsub. cbn [take]. rewrite length_app. cbn [length]. rewrite Nat.add_1_r.
      destruct (Nat.leb_spec k (S (length taken))) as [Hge|Hlt].
      * assert (E : (k - S (length taken) = 0)%nat) by lia. by rewrite E.
      * specialize (IH (dict_set (rk_source_type row) (S (source_count (rk_source_type row) d)) d)
          ({[content_key row]} ∪ seen) (taken ++ [row])).
        rewrite length_app in IH. cbn [length] in IH. rewrite Nat.add_1_r in IH.
        specialize (IH Hlt Hd'). destruct (take_rows _ _ _ _ _) as [found counts].
        destruct IH as [-> Hc]. rewrite <-app_assoc. by rewrite <-app_assoc in Hc.
Qed.

Lemma firsts_complete {A K} `{EqDecision K} (key : A -> K) l x :
  x ∈ l -> exists y, y ∈ firsts key l /\ key y = key x.
Proof.
  induction l as [|z l IH]; intros Hx; [by apply not_elem_of_nil in Hx|].
  destruct (decide (key z = key x)) as [E|E]; [exists z; split; [left|done]|].
  apply elem_of_cons in Hx as [->|Hx]; [done|]. destruct (IH Hx) as (y & Hy & Ey).
  exists y. split; [|done]. right. apply list_elem_of_filter. split; [congruence|done].
Qed.

Lemma best_of_sound k rows :
  let shown := best_of k rows in
  (length shown <= k)%nat /\ NoDup (map content_key shown)
  /\ shown `sublist_of` sorted_desc rk_final_score rows
  /\ forall r, r ∈ rows -> (exists r', r' ∈ shown /\ content_key r' = content_key r) \/ length shown = k.
Proof.
  unfold best_of. cbv zeta. set (all := firsts _ _). split_and!.
  - rewrite length_take. lia.
  - eapply sublist_NoDup; [apply (firsts_NoDup content_key)|]. apply fmap_sublist, sublist_take.
  - etransitivity; [apply sublist_take|apply firsts_sublist].
  - intros r Hr. rewrite <-(sorted_desc_permutation rk_final_score rows) in Hr.
    apply (firsts_complete content_key) in Hr as (y & Hy & Ey). fold all in Hy.
    destruct (Nat.le_gt_cases (length all) k) as [Hle|Hgt].
    + left. exists y. by rewrite take_ge.
    + right. rewrite length_take. lia.
Qed.

Lemma merge_rows_spec k tickets cases : (0 < k)%nat ->
  let '(rows, counts) := merge_rows k tickets cases in
  rows = best_of k (tickets ++ cases) /\ counted counts rows.
Proof.
  intros Hk. unfold merge_rows, best_of.
  set (ordered := sorted_desc _ _).
  assert (Hn : counted [] []) by done.
  pose proof (take_rows_spec k ordered [] ∅ [] Hk Hn) as Hs.
  destruct (take_rows _ _ _ _ _) as [rows counts]. destruct Hs as [-> Hc]. split; [|done].
  cbn [length app]. rewrite Nat.sub_0_r. f_equal.
  apply filter_full, Forall_forall. intros y _. apply not_elem_of_empty.
Qed.
End Merging.

(** C20: tickets and cases are merged as promised. What the tool for similar tickets
    answers is the best [top_k] rows of both searches by final score, each content once
    (compared without case and spaces): no row is left out unless its content is shown or
    the answer is full; the counts by source are those of the rows shown. *)
Theorem merge_is_best `{Unicode} (k : nat) (tickets cases : list RankedEvidence) :
  (0 < k)%nat ->
  let '(rows, counts) := merge_rows k tickets cases in
  rows = best_of k (tickets ++ cases)
  /\ (length rows <= k)%nat /\ NoDup (map content_key rows)
  /\ rows `sublist_of` sorted_desc rk_final_score (tickets ++ cases)
  /\ (forall r, r ∈ tickets ++ cases ->
        (exists r', r' ∈ rows /\ content_key r' = content_key r) \/ length rows = k)
  /\ (forall s, source_count s counts = of_type s rows).
Proof.
  intros Hk. pose proof (merge_rows_spec k tickets cases Hk) as Hs.
  destruct (merge_rows k tickets cases) as [rows counts]. destruct Hs as [-> Hc].
  destruct (best_of_sound k (tickets ++ cases)) as (? & ? & ? & ?). by split_and!.
Qed.

Definition demo_row (s i content : string) (score : float) : RankedEvidence :=
  mkRanked s i None content "" [] zero zero zero zero zero score None.

(** The case repeats the ticket in other words of spacing and case. *)
Lemma merge_is_best_witness :
  (0 < 2)%nat
  /\ let tickets := [demo_row "ticket" "T1" "Fan  broken" (literal 8 10); demo_row "ticket" "T2" "dust" (literal 6 10)] in
     let cases := [demo_row "case" "C1" "fan broken" (literal 9 10); demo_row "case" "C2" "heat" (literal 5 10)] in
     let '(rows, counts) := merge_rows (H := demo_unicode) 2 tickets cases in
     map rk_source_id rows = ["C1"; "T2"] /\ counts = [("case", 1%nat); ("ticket", 1%nat)]
     /\ NoDup (map (content_key (H := demo_unicode)) rows).
Proof.
  assert (Hk : (0 < 2)%nat) by lia. split; [done|]. cbv zeta.
  set (tickets := [_; _]). set (cases := [demo_row "case" _ _ _; _]).
  pose proof (@merge_is_best demo_unicode 2 tickets cases Hk) as Hm.
  destruct (merge_rows 2 tickets cases) as [rows counts] eqn:E. destruct Hm as (_ & _ & Hn & _).
  split_and!; [| |exact Hn]; vm_compute in E; by injection E as <- <-.
Defined.

(** ** What the tools cite *)

(** A row a tool may show: an effective manual chunk, a verified ticket, or a case that is
    approved, active, indexed and not of the session that asks. *)
Definition citable (lib : Library) (sid : string) (row : Row) : Prop :=
  match row with
  | ManualRow c => c ∈ lb_chunks lib /\ ck_effective c = true
  | TicketRowOf t => t ∈ lb_tickets lib /\ tk_is_verified t = true
  | CaseRow c =>
      c ∈ lb_cases lib /\ review_status c = APPROVED /\ is_active c = true
      /\ Store.index_status c ∈ [IDX_INDEXED; IDX_DEGRADED] /\ source_session_id c <> sid
  end.

Record shows_row (row : Row) (r : RankedEvidence) : Prop := {
  sh_type : rk_source_type r = source_type_value (row_source row);
  sh_id : rk_source_id r = row_source_id row;
  sh_chunk : rk_chunk_id r = match row with ManualRow c => Some (ck_chunk_id c) | _ => None end;
  sh_content : rk_content_summary r = row_content row;
  sh_citation : rk_citation r = row_citation row;
}.
Definition shown_from (lib : Library) (sid : string) (r : RankedEvidence) : Prop :=
  exists row, citable lib sid row /\ shows_row row r.

(** All ranked evidence of the data. *)
Definition data_from (lib : Library) (sid : string) (d : option ToolData) : Prop :=
  match d with Some (PackageData rows _) => Forall (shown_from lib sid) rows | _ => True end.

(** The inputs of a session: its identifier is in the context, tickets have to be verified. *)
Definition context_of (i : ToolInput) : ToolContext :=
  match i with
  | DeviceProfileInput c _ | AlarmDetailInput c _ _ | TimeseriesWindowInput c _ _ _ _ _
  | ManualSearchInput c _ _ | TicketSearchInput c _ _ _ | GraphRelationsInput c _ _ _ _ => c
  end.
Definition asked_by (sid : string) (i : ToolInput) : Prop :=
  cx_session_id (context_of i) = Some sid /\ cx_trace_id (context_of i) <> ""
  /\ match i with TicketSearchInput _ _ _ v => v = true | _ => True end.

Lemma str_true_ne s : s <> "" -> str_true s = true.
Proof. by destruct s. Qed.

Section Tools.
Context `{Unicode} `{Platform} `{RetrievalPorts} `{ReadPorts} (db : Tables) (lib : Library).

(** What a search of a request shows. *)
Lemma searched (s : SourceType) (q : Query) :
  q_source q = s -> s <> SRC_GRAPH ->
  yields (fun r => Forall (fun x => exists row, row_source row = s
      /\ admitted lib (q_filters q) (negb (bool_decide (default default_mode (q_mode q) = KEYWORD_ONLY)))
           (q_verified_only q) (ftext "exclude_session_id" (q_filters q)) row
      /\ shows_row row (dump_ranked x)) (ranked_evidence r)) (search lib q).
Proof.
  intros <- Hg t t' r Hr. destruct (search_sound lib q Hg t t' r Hr) as (rows & Hrows & [Hc _ _ _ _ _ _ _]).
  apply Forall_forall. intros x Hx. rewrite Forall_forall in Hc.
  destruct (Hc (ranked x)) as (row & Hrow & []); [by apply list_elem_of_fmap_2|].
  destruct (Hrows row Hrow) as [Hs Ha]. exists row. split_and!; [done..|].
  by split; simpl; congruence.
Qed.

Lemma shown_citable sid s q (l : list Ranked) strong v e :
  (s = SRC_TICKET -> v = true) -> (s = SRC_CASE -> e = Some sid /\ str_true sid = true) ->
  Forall (fun x => exists row, row_source row = s
      /\ admitted lib q strong v e row /\ shows_row row (dump_ranked x)) l ->
  Forall (shown_from lib sid) (map dump_ranked l).
Proof.
  intros Hv He Hl. apply Forall_map. apply (Forall_impl _ _ _ Hl).
  intros x (row & Hs & Ha & Hr). exists row. split; [|done]. destruct row as [c|t|c]; simpl in *.
  - destruct Ha as (Hin & Hok & _). split; [done|]. unfold chunk_ok in Hok.
    rewrite !andb_true_iff in Hok. by destruct Hok as (((_ & ?) & _) & _).
  - destruct Ha as [Hin Hok]. split; [done|]. unfold ticket_ok in Hok.
    rewrite !andb_true_iff in Hok. rewrite Hv in Hok by done. by destruct Hok as [[_ ?] _].
  - destruct Ha as [Hin Hok]. split; [done|]. destruct (He (eq_sym Hs)) as [-> Hsid].
    unfold case_ok in Hok. rewrite !andb_true_iff, !bool_decide_eq_true, Hsid in Hok.
    destruct Hok as (((((((? & ?) & ?) & _) & _) & _) & _) & Hex). split_and!; [done..|].
    by apply negb_true_iff, bool_decide_eq_false in Hex.
Qed.

Lemma merged_from (P : RankedEvidence -> Prop) k tickets cases :
  Forall P tickets -> Forall P cases -> Forall P (fst (merge_rows (S k) tickets cases)).
Proof.
  intros Ht Hc. pose proof (merge_rows_spec (S k) tickets cases ltac:(lia)) as Hs.
  destruct (merge_rows _ _ _) as [rows counts]. destruct Hs as [-> _]. cbn [fst].
  destruct (best_of_sound (S k) (tickets ++ cases)) as (_ & _ & Hsub & _).
  apply Forall_forall. intros r Hr.
  apply (elem_of_sublist _ _ _ Hr) in Hsub. rewrite sorted_desc_permutation in Hsub.
  apply elem_of_app in Hsub as [Hin|Hin]; [by eapply Forall_forall in Ht|by eapply Forall_forall in Hc].
Qed.

(** Every handler shows only what may be cited. *)
Lemma handler_cites sid i :
  sid <> "" -> asked_by sid i ->
  yields (fun r => data_from lib sid (data r)) (read_handler db lib i).
Proof.
  intros Hsid (Hc & Ht & Hi). destruct i as [c d|c a d|c d ms mt t t'|c q f|c q f v|c a d n k];
    cbn [read_handler].
  - unfold device_tool. apply yields_bind. intros o. apply yields_ret. destruct o; exact I.
  - unfold alarm_tool. apply yields_bind. intros o. apply yields_ret. destruct o; exact I.
  - unfold timeseries_tool. apply yields_bind. intros l. apply yields_ret. cbn [data _result]. case_match; exact I.
  - unfold manual_tool. eapply yields_bind_post; [by apply (searched SRC_MANUAL)|].
    intros r Hr. apply yields_ret. cbn [data _result data_from].
    eapply shown_citable; [| |exact Hr]; done.
  - cbn in Hc, Ht, Hi. subst v. unfold ticket_tool.
    eapply yields_bind_post; [by apply (searched SRC_TICKET)|]. intros r Hr.
    eapply yields_bind_post; [by apply (searched SRC_CASE)|]. intros r' Hr'.
    cbv zeta. pose proof (merged_from (shown_from lib sid) 4 (map dump_ranked (ranked_evidence r))
      (map dump_ranked (ranked_evidence r'))) as Hm.
    cbn [sq_top_k ticket_request]. destruct (merge_rows _ _ _) as [rows counts]. apply yields_ret.
    cbn [data _result data_from]. apply Hm.
    + eapply shown_citable; [| |exact Hr]; done.
    + eapply shown_citable; [| |exact Hr']; [done|]. intros _.
      split; [|by apply str_true_ne]. unfold search_query, case_filters. cbn.
      rewrite str_true_ne by done. rewrite Hc. unfold ftext. rewrite lookup_key_dict_set.
      rewrite bool_decide_true by done. cbn. by rewrite str_true_ne.
  - unfold graph_tool. apply yields_catch.
    + apply yields_bind. intros l. apply yields_ret. case_match; exact I.
    + intros [e|]; [apply yields_ret; exact I|apply yields_raise].
Qed.
End Tools.
