(* ===== verification/DiagnosisEvidence.v ===== *)
(** * Where the evidence of a diagnosis comes from

    Along every run of the workflow the retrieved evidence of the state cites rows of the
    library: the results of the tools do, no node but the aggregator makes evidence, and
    the aggregator copies what the tools answered. *)

From S2P Require Import Prelude Errors Breaker Json Float Text Regex Tools ToolData.
From S2P Require Import Store Scoring Rewrite Library Retrieval RetrievalRuns Catalog ReadTools ReadToolsProps.
From S2P Require Import Contracts AgentState Guardrails Templates Nodes Workflow WorkflowFrame DiagnosisRuns.
Open Scope Z_scope.

(** ** The executor *)

(** What the executor answers is a failure without data, or what a handler answered. *)
Section Executed.
Context {Args Data : Type} `{W : ToolWorld Args Data}.

Definition from_handler (name : string) (payload : Args) (r : ToolResult Data) : Prop :=
  data r = None \/ exists n r0, handle n name payload = Ok r0 /\ data r = data r0.

Lemma attempt_from_handler name payload t dep s n :
  yields (fun o => forall r, o = Some r -> from_handler name payload r) (attempt name payload t dep s n).
Proof.
  unfold attempt. apply yields_catch.
  - eapply (yields_bind_post (fun r => exists n, handle n name payload = Ok r)).
    { unfold invoke. apply yields_bind. intros k. apply yields_bind. intros _.
      destruct (handle k name payload) as [r|e] eqn:Hh; [|apply yields_raise].
      apply yields_ret. by exists k. }
    intros r [k Hk]. do 3 (apply yields_bind; intros ?). apply yields_ret.
    intros r' [= <-]. right. by exists k, r.
  - assert (Ha : forall code st m, yields (fun o => forall r, o = Some r -> from_handler name payload r)
        (answer_failure name dep s (failure t code st m))).
    { intros code st m. unfold answer_failure. do 3 (apply yields_bind; intros ?).
      apply yields_ret. intros r [= <-]. by left. }
    intros [e|]; [|apply yields_raise].
    destruct e; try apply Ha; (destruct (_ =? _); [apply Ha|by apply yields_ret]).
Qed.

Lemma execute_from_handler name payload t :
  yields (from_handler name payload) (execute name payload t).
Proof.
  assert (Hf : forall code st m, from_handler name payload (failure t code st m)) by (by left).
  unfold execute. apply yields_bind. intros _. apply yields_bind. intros n.
  destruct (_ <? _); [by apply yields_ret|]. apply yields_bind. intros reg.
  destruct (reg !! name) as [g|]; [|by apply yields_ret].
  destruct (negb _); [by apply yields_ret|]. apply yields_bind. intros dep.
  apply yields_bind. intros ok. destruct (negb ok); [by apply yields_ret|].
  apply yields_bind. intros s. generalize 1.
  induction (Z.to_nat _) as [|left IH]; intros m; cbn [attempts_from]; [by apply yields_ret|].
  eapply yields_bind_post; [apply attempt_from_handler|]. intros [r|] Hr; [|apply IH].
  apply yields_ret. by apply Hr.
Qed.
End Executed.

(** ** A run *)

(** Evidence that claims to be retrieved shows a citable row. *)
Definition cites_row (lib : Library) (sid : string) (e : Evidence) : Prop :=
  exists row, citable lib sid row
    /\ Contracts.source_type e = source_type_value (row_source row)
    /\ Contracts.source_id e = row_source_id row
    /\ Contracts.citation e = row_citation row
    /\ Contracts.summary e = str_take 500 (row_content row).
Definition grounded (lib : Library) (sid : string) (e : Evidence) : Prop :=
  Contracts.source_type e ∈ ["manual"; "ticket"; "case"] -> cites_row lib sid e.

Section Grounded.
Context {W : Type} `{Unicode} `{RT : Runtime W} (lib : Library) (sid : string).
Hypothesis tools_cite : forall name i t, asked_by sid i ->
  yields (fun r => data_from lib sid (data r)) (run_tool name i t).

(** The results the nodes share. *)
Definition stored (r : Run W) : Prop :=
  forall name t, tool_data r !! name = Some t -> data_from lib sid (data t).

Lemma stored_port {A} (m : M W abort A) : respects (keeps stored) (port m).
Proof. intros r Hr. unfold port. by destruct (m (env r)). Qed.
Lemma stored_fail {A} e : respects (keeps stored) (fail (A := A) e).
Proof. by intros r. Qed.
Lemma stored_lift {A} (o : outcome exn A) : respects (keeps stored) (lift_exn o).
Proof. destruct o; by intros r. Qed.
Lemma stored_some {A} (o : option A) : respects (keeps stored) (assert_some o).
Proof. destruct o; by intros r. Qed.
Lemma stored_str o : respects (keeps stored) (assert_str o).
Proof. unfold assert_str. repeat case_match; by intros r. Qed.
Lemma stored_evidence e : respects (keeps stored) (new_evidence e).
Proof. unfold new_evidence. case_match; by intros r. Qed.

Lemma stored_insert name t :
  data_from lib sid (data t) ->
  respects (keeps stored) (modify (E := abort) (fun run => mkRun (<[name := t]> (tool_data run)) (env run))).
Proof.
  intros Ht r Hr n t'. cbn. destruct (decide (n = name)) as [->|Hn].
  - rewrite lookup_insert_eq. by intros [= <-].
  - rewrite lookup_insert_ne by done. apply Hr.
Qed.

Lemma port_yields {A} (Q : A -> Prop) (m : M W abort A) : yields Q m -> yields Q (port m).
Proof.
  intros Hm r r' a. unfold port. destruct (m (env r)) as [e o] eqn:E. intros [= _ ->].
  by eapply Hm.
Qed.

Lemma stored_fetch s name i : asked_by sid i -> respects (keeps stored) (fetch s name i).
Proof.
  intros Hi. unfold fetch. eapply respects_bind_yields; [apply _| |apply stored_port|].
  - by apply port_yields, tools_cite.
  - intros r Hr. apply respects_bind; [apply _|by apply stored_insert|].
    intros _. apply respects_ret, _.
Qed.

Section Node.
Context (s : DiagnosisState) (Hsid : session_id s = sid) (Htrace : trace_id s <> "").

Lemma asked_context : cx_session_id (context s) = Some sid /\ cx_trace_id (context s) <> "".
Proof. unfold context. cbn. by rewrite Hsid. Qed.

Ltac store :=
  cbv zeta;
  repeat lazymatch goal with
    | |- respects _ (bind _ _) => apply respects_bind; [apply _| |intros ?; cbv zeta]
    | |- respects _ (ret _) => apply respects_ret, _
    | |- respects _ (fail _) => apply stored_fail
    | |- respects _ (gets _) => apply respects_gets, _
    | |- respects _ (lift_exn _) => apply stored_lift
    | |- respects _ (assert_some _) => apply stored_some
    | |- respects _ (assert_str _) => apply stored_str
    | |- respects _ (new_evidence _) => apply stored_evidence
    | |- respects _ (fetch _ _ _) => apply stored_fetch; destruct asked_context; by split_and!
    | |- respects _ (map_m _ _) => apply respects_map_m; [apply _|intros]
    | |- respects _ (port _) => apply stored_port
    | |- respects _ (match ?x with _ => _ end) => destruct x eqn:?
    end.

Lemma dispatcher_stored : respects (keeps stored) (tool_dispatcher s).
Proof.
  destruct asked_context as [Hc Ht]. unfold tool_dispatcher, device_data, alarm_data.
  do 3 (apply respects_bind; [apply _|store|intros ?]).
  eapply respects_bind_yields; [apply _|apply port_yields, tools_cite|apply stored_port|].
  { by split_and!. }
  intros device Hd.
  eapply respects_bind_yields; [apply _|apply port_yields, tools_cite|apply stored_port|].
  { by split_and!. }
  intros alarm Ha. apply respects_bind; [apply _| |intros ?; store].
  intros r Hr n t. cbn.
  destruct (decide (n = "get_alarm_detail")) as [->|Hn];
    [rewrite lookup_insert_eq; by intros [= <-]|rewrite lookup_insert_ne by done].
  destruct (decide (n = "get_device_profile")) as [->|Hn'];
    [rewrite lookup_insert_eq; by intros [= <-]|rewrite lookup_insert_ne by done; apply Hr].
Qed.

Lemma node_stored n : respects (keeps stored) (node_body n s).
Proof.
  destruct n; cbn [node_body]; [..|].
  all: try (unfold intent_router, entity_parser, clarification_applier, plan_builder, timeseries_fetcher,
    ticket_fetcher, doc_retriever, graph_fetcher, gap_detector, clarification_generator,
    reason_generator, response_generator, rule_checker, memory_writer_node; by store).
  - apply dispatcher_stored.
  - unfold evidence_aggregator, device_data, alarm_data, series_data. store.
Qed.
End Node.

(** ** Evidence *)

Ltac yield_evidence :=
  repeat lazymatch goal with
    | |- yields _ (let _ := _ in _) => cbv zeta
    | |- yields _ (bind _ _) => apply yields_bind; intros
    | |- yields _ (fail _) => apply yields_raise
    | |- yields _ (ret _) => apply yields_ret; done
    | |- yields _ (match ?x with _ => _ end) => destruct x eqn:?
    end.

Lemma node_evidence n s :
  n <> EVIDENCE_AGGREGATOR -> yields (fun s' => evidence s' = evidence s) (node_body n s).
Proof.
  intros Hn. destruct n; cbn [node_body]; try done.
  5: { unfold tool_dispatcher. do 6 (apply yields_bind; intros). cbv zeta.
       apply (yields_bind_post (fun s' => evidence s' = evidence s)); [|intros s' Hs'];
         yield_evidence. }
  all: unfold intent_router, entity_parser, clarification_applier, plan_builder, timeseries_fetcher,
    ticket_fetcher, doc_retriever, graph_fetcher, gap_detector, clarification_generator,
    reason_generator, response_generator, rule_checker, memory_writer_node; yield_evidence.
Qed.

Lemma dict_set_values {A} key (v : A) d : Forall (fun x => x = v \/ x ∈ map snd d) (map snd (dict_set key v d)).
Proof.
  induction d as [|[k w] d IH]; simpl; [by repeat constructor; left|].
  case_bool_decide; simpl; constructor.
  - by left.
  - apply Forall_forall. intros x Hx. right. by right.
  - right. left.
  - apply (Forall_impl _ _ _ IH). intros x [->|Hx]; [by left|]. right. by right.
Qed.

Lemma dedup_Forall (P : Evidence -> Prop) l : Forall P l -> Forall P (dedup l).
Proof.
  unfold dedup. intros Hl. assert (Hn : Forall P (map snd (@nil (string * Evidence)))) by constructor.
  revert Hn. generalize (@nil (string * Evidence)) as d. induction Hl as [|e l He Hl IH]; intros d Hd; [done|].
  cbn [fold_left]. apply IH. pose proof (dict_set_values (evidence_id e) e d) as Hv.
  apply (Forall_impl _ _ _ Hv). intros x [->|Hx]; [done|]. by eapply Forall_forall in Hd.
Qed.

Lemma new_evidence_same e : yields (fun e' => e' = e) (new_evidence (W := W) e).
Proof. unfold new_evidence. case_match; [by apply yields_ret|apply yields_raise]. Qed.

Lemma all_new (P : Evidence -> Prop) l : Forall P l -> yields (Forall P) (map_m (new_evidence (W := W)) l).
Proof.
  intros Hl. apply yields_map_m. intros e He r r' e' He'%new_evidence_same. subst e'.
  by eapply Forall_forall in Hl.
Qed.

(** Evidence of another kind. *)
Lemma grounded_other e :
  Contracts.source_type e ∈ ["device"; "alarm"; "timeseries"; "graph"] -> grounded lib sid e.
Proof.
  intros Ho Hr. exfalso. revert Hr.
  repeat (apply elem_of_cons in Ho as [->|Ho]; [vm_compute; set_solver|]).
  by apply not_elem_of_nil in Ho.
Qed.

Lemma ranked_grounded t r :
  shown_from lib sid r -> grounded lib sid (ranked_evidence_of t r).
Proof.
  intros (row & Hrow & []) _. exists row. cbn. by rewrite sh_content.
Qed.

Lemma ranked_of_grounded run name :
  stored run -> Forall (grounded lib sid) (ranked_of (succeeded run name)).
Proof.
  intros Hst. unfold succeeded. destruct (tool_data run !! name) as [t|] eqn:Ht; [|constructor].
  destruct (success t); [|constructor]. apply Hst in Ht. unfold ranked_of.
  destruct (data t) as [[]|] eqn:Ed; try constructor. cbn in Ht.
  apply Forall_map. apply (Forall_impl _ _ _ Ht). intros r Hr. by apply ranked_grounded.
Qed.

Lemma aggregated s (r r' : Run W) s' :
  stored r -> evidence_aggregator s r = (r', Ok s') -> Forall (grounded lib sid) (evidence s').
Proof.
  intros Hst. unfold evidence_aggregator. rewrite bind_gets. revert r' s'. cbn [id].
  set (P := Forall (grounded lib sid)).
  assert (Hone : forall e, Contracts.source_type e ∈ ["device"; "alarm"; "timeseries"; "graph"] ->
      yields P (e' <- new_evidence (W := W) e ;; ret [e'])).
  { intros e He. eapply yields_bind_post; [apply new_evidence_same|]. intros e' ->.
    apply yields_ret. constructor; [by apply grounded_other|constructor]. }
  match goal with |- forall r' s', ?m r = _ -> _ =>
    enough (Hy : yields (fun s' => P (evidence s')) m) by (intros r' s'; apply Hy) end.
  eapply (yields_bind_post P).
  { case_match; [|by apply yields_ret; constructor]. apply yields_bind. intros d. apply Hone. set_solver. }
  intros dev Hdev. eapply (yields_bind_post P).
  { case_match; [|by apply yields_ret; constructor]. apply yields_bind. intros a. apply Hone. set_solver. }
  intros al Hal. eapply (yields_bind_post P).
  { case_match; [|by apply yields_ret; constructor]. case_match; [|by apply yields_ret; constructor].
    apply yields_bind. intros l. apply Hone. set_solver. }
  intros se Hse. eapply yields_bind_post.
  { apply (all_new (grounded lib sid)). apply Forall_app. split; by apply ranked_of_grounded. }
  intros ra Hra. cbv zeta. apply yields_bind. intros _. eapply yields_bind_post.
  { apply (all_new (grounded lib sid)). apply Forall_map, Forall_forall. intros g _.
    apply grounded_other. set_solver. }
  intros gr Hgr. apply yields_bind. intros _. apply yields_ret. cbn [evidence].
  apply dedup_Forall. unfold P in *. by rewrite !Forall_app.
Qed.

Lemma node_grounded n s (r r' : Run W) s' :
  stored r -> Forall (grounded lib sid) (evidence s) -> node_body n s r = (r', Ok s') ->
  Forall (grounded lib sid) (evidence s').
Proof.
  intros Hst He Hb. destruct (decide (n = EVIDENCE_AGGREGATOR)) as [->|Hn]; [by eapply aggregated|].
  by rewrite (node_evidence n s Hn _ _ _ Hb).
Qed.

Lemma traced_stored n s (r r' : Run W) s' :
  session_id s = sid -> trace_id s <> "" -> stored r -> traced_node n s r = (r', Ok s') -> stored r'.
Proof.
  intros Hs Ht Hst. unfold traced_node.
  intros (s1 & r1 & Hx & Hrest)%bind_ok_inv. apply bind_ok_inv in Hrest as ([] & r2 & Hl & [= <- _]).
  assert (H1 : stored r1).
  { unfold except, catch in Hx. pose proof (node_stored s Hs Ht n r Hst) as Hn.
    destruct (node_body n s r) as [q [a|[e|]]]; [by injection Hx as -> ->| |done].
    apply bind_ok_inv in Hx as (? & ? & _ & Hx). done. }
  pose proof (stored_port (step_logger s (node_name n) (Ok s1)) r1 H1) as H2. by rewrite Hl in H2.
Qed.

Lemma run_from_grounded fuel n s (r r' : Run W) s' :
  session_id s = sid -> trace_id s <> "" -> stored r -> Forall (grounded lib sid) (evidence s) ->
  run_from fuel n s r = (r', Ok (Some s')) -> Forall (grounded lib sid) (evidence s').
Proof.
  revert n s r. induction fuel as [|fuel IH]; intros n s r Hs Ht Hst He Hrun; [done|].
  cbn [run_from] in Hrun. apply bind_ok_inv in Hrun as (s0 & r0 & [-> ->]%validated_same & Hrun).
  apply bind_ok_inv in Hrun as (s1 & r1 & Htr & Hrun).
  pose proof (traced_stored _ _ _ _ _ Hs Ht Hst Htr) as Hst1.
  pose proof (traced_keeps n s r r1 s1 Htr) as [(Hs1 & _ & Ht1 & _) _].
  apply traced_body in Htr as [r2 Hb]. pose proof (node_grounded _ _ _ _ _ Hst He Hb) as He1.
  destruct (next n s1) as [n'|]; [|by injection Hrun as _ <-].
  eapply IH; [..|exact Hrun]; congruence || done.
Qed.
End Grounded.

(** ** The application *)

(** The executor over the read tools keeps what the handlers promise. *)
Lemma app_tools_cite `{Unicode} `{Platform} `{RetrievalPorts} `{ReadPorts} db lib states interrupted
    logs clocks model sid name i t :
  sid <> "" -> asked_by sid i ->
  yields (fun r => data_from lib sid (data r))
    (run_tool (Runtime := app_runtime (TW := read_world db lib states interrupted logs clocks) model) name i t).
Proof.
  intros Hsid Hi e e' r. cbn [run_tool app_runtime]. unfold on_executor.
  set (TW := read_world _ _ _ _ _ _).
  destruct (execute name i t (executor e)) as [x o] eqn:Hx. intros [= _ ->].
  destruct (execute_from_handler (W := TW) name i t _ _ _ Hx) as [->|(n & r0 & Hh & ->)]; [exact I|].
  cbn [handle TW read_world] in Hh. destruct (interrupted n); [done|].
  destruct (read_handler db lib i (states n)) as [s1 o1] eqn:Er. cbn in Hh. subst o1.
  exact (handler_cites db lib sid i Hsid Hi _ _ _ Er).
Qed.

(** C2: the evidence of a diagnosis is real. Whatever vector store, reranker, graph, time
    series and model answer, and whatever calls are interrupted, evidence of a diagnosis
    that is marked as manual, ticket or case has the identifier, the citation and (cut to
    500 characters) the text of a row of the library: an effective chunk, a verified
    ticket, or an approved, active and indexed case that was not made of this session.
    This holds for a run that starts without evidence, and for one that goes on from
    evidence of that kind. *)
Theorem diagnosis_cites_library `{Unicode} `{Platform} `{RetrievalPorts} `{ReadPorts} db lib states
    interrupted logs clocks model bs s r' s' :
  session_id s <> "" -> trace_id s <> "" ->
  Forall (grounded lib (session_id s)) (evidence s) ->
  diagnose_with (TW := read_world db lib states interrupted logs clocks) model bs s = (r', Ok (Some s')) ->
  Forall (grounded lib (session_id s)) (evidence s').
Proof.
  intros Hsid Ht He Hrun. unfold diagnose_with, ainvoke in Hrun.
  eapply run_from_grounded; [|done|done| |exact He|exact Hrun].
  - intros name i t Hi. by apply app_tools_cite.
  - intros name t Hl. cbn in Hl. by rewrite lookup_empty in Hl.
Qed.

(** ** A plant with a manual and a ticket *)

#[local] Existing Instances demo_unicode demo_platform.
Definition demo_read_ports : ReadPorts := {|
  timeseries_port _ _ metrics _ _ _ :=
    Ok (map (fun m => (m, [("trend", JStr "rising"); ("missing", JBool false)])) metrics);
  graph_provider := None;
  json_time _ := "" |}.
Definition demo_tables : Tables := mkTables
  [mkProfile "PCS-001" "S1" "PCS" "PCS-500" "ACME" None None "running"]
  [mkAlarmEvent "ALARM-001" "PCS-001" "S1" "风扇故障" "high" 3600000000 "open" "scada"] [] [].
Definition demo_manuals : Library := mkLibrary
  [mkChunkRow "C1" "M1" "PCS" (Some "PCS-500") (Some "ACME") (Some "风扇故障") "散热风扇" (Some 12)
     "维护步骤" "检查风扇供电与转速" "v1" true true (Some "g1")]
  [mkDocument "M1" "v1" "PCS" None None true "APPROVED" (Some "g1") IDX_INDEXED None "" "" 1 0]
  [mkTicketRow "T1" "S1" "PCS-500" "风扇故障" "风扇不转" "风扇供电异常" "更换风扇" true (Some 0)
     (Some "ACME") None] [].
Abbreviation demo_world :=
  (@read_world demo_unicode demo_platform (demo_ports []) demo_read_ports demo_tables demo_manuals
    (fun _ => new_retrieval) (fun _ => None) (fun _ => Ok tt) Z.of_nat).
Definition demo_start : DiagnosisState := Demo.start Demo.message.
Abbreviation demo_run := (@diagnose_with demo_world None demo_unicode None demo_start).

Definition summary_of (o : outcome abort (option DiagnosisState)) : option (DiagnosisPhase * list string * list string) :=
  match o with
  | Ok (Some s) => Some (AgentState.phase s, map evidence_id (evidence s), degraded_components s)
  | _ => None
  end.
Lemma demo_run_summary :
  summary_of (snd demo_run)
  = Some (COMPLETED,
      ["device:PCS-001"; "alarm:ALARM-001"; "timeseries:PCS-001:r1"; "manual:M1:C1"; "ticket:T1"],
      ["neo4j"; "reranker"]).
Proof. vm_compute. reflexivity. Qed.

Lemma diagnosis_cites_library_witness :
  exists r' s', demo_run = (r', Ok (Some s')) /\ AgentState.phase s' = COMPLETED
    /\ map evidence_id (evidence s')
       = ["device:PCS-001"; "alarm:ALARM-001"; "timeseries:PCS-001:r1"; "manual:M1:C1"; "ticket:T1"]
    /\ degraded_components s' = ["neo4j"; "reranker"]
    /\ Forall (grounded demo_manuals "s1") (evidence s').
Proof.
  pose proof demo_run_summary as Hs. destruct demo_run as [r' o] eqn:E. cbn [snd] in Hs.
  destruct o as [[s'|]|e]; try discriminate Hs. injection Hs as Hp He Hd.
  exists r', s'. split; [done|]. split_and!; [done..|].
  exact (@diagnosis_cites_library demo_unicode demo_platform (demo_ports []) demo_read_ports demo_tables demo_manuals
      (fun _ => new_retrieval) (fun _ => None) (fun _ => Ok tt) Z.of_nat None None demo_start r' s'
      ltac:(done) ltac:(done) ltac:(constructor) E).
Defined.

(** The vector store fails while cases are searched: the call is partial, but the
    components the workflow reads of the data are those of the tickets. *)
Definition case_index_down : RetrievalPorts :=
  let ports := demo_ports [] in {|
    embedding_port := @embedding_port ports;
    milvus_port := Some (fun _ s _ _ _ =>
      if bool_decide (s = SRC_CASE) then Raise (Exc (Domain MilvusUnavailableError [])) else Ok []);
    reranker_port := Some (fun _ _ l => Ok (list_to_map (map (fun c => (fst c, one)) l)));
    model_rewrite := None; database _ := Ok tt; wall_clock n := Z.of_nat n; repr s := s; digest s := s;
    query_rewrite_mode := "rules"; default_mode := HYBRID; keyword_top_n := 20; vector_top_n := 20;
    rerank_input_size := 30; semantic_dedup_threshold := literal 92 100; max_chunks := 2;
    max_per_ticket := 1; weights := DEFAULT_SCORE_WEIGHTS |}.

Example degraded_cases_unseen :
  let i := TicketSearchInput (mkContext "t1" "energy-agent" None (Some "s1")) "风扇不转"
             (mkFilters None None None None) true in
  match snd (@read_handler _ _ case_index_down demo_read_ports demo_tables demo_manuals i new_retrieval) with
  | Ok r => tr_status r = PARTIAL_SUCCESS /\ tr_warnings r = ["embedding"; "milvus"] /\ degraded_of r = []
  | Raise _ => False
  end.
Proof. vm_compute. by split_and!. Qed.
