(* ===== verification/Redaction.v ===== *)
(** * Redaction

    [observability/redaction.py]: what of a value goes into logs, traces and audit
    snapshots. *)

From stdpp Require Import pretty.
From S2P Require Import Prelude Text Regex.
Open Scope Z_scope.

(** Python values as far as [redact] tells them apart; the keys of dicts are strings.  A
    pydantic model is given by its class and the dict of [model_dump(mode="json")], a
    date by its class and its [isoformat], a float by its [repr]. *)
Inductive pyval : Type :=
| PNone
| PBool (b : bool)
| PInt (z : Z)
| PFloat (repr : string)
| PStr (s : string)
| PDate (cls iso : string)
| PEnum (cls value : string)
| PModel (cls : string) (kvs : list (string * pyval))
| PDict (kvs : list (string * pyval))
| PList (l : list pyval)
| PTuple (l : list pyval).

Section Induction.
Context (P : pyval -> Prop).
Hypothesis HNone : P PNone.
Hypothesis HBool : forall b, P (PBool b).
Hypothesis HInt : forall z, P (PInt z).
Hypothesis HFloat : forall r, P (PFloat r).
Hypothesis HStr : forall s, P (PStr s).
Hypothesis HDate : forall c i, P (PDate c i).
Hypothesis HEnum : forall c v, P (PEnum c v).
Hypothesis HModel : forall c kvs, Forall (fun kv => P (snd kv)) kvs -> P (PModel c kvs).
Hypothesis HDict : forall kvs, Forall (fun kv => P (snd kv)) kvs -> P (PDict kvs).
Hypothesis HList : forall l, Forall P l -> P (PList l).
Hypothesis HTuple : forall l, Forall P l -> P (PTuple l).

Fixpoint pyval_ind' (v : pyval) : P v :=
  let items := fix items l : Forall P l :=
    match l with [] => Forall_nil_2 _ | x :: l' => Forall_cons_2 _ _ _ (pyval_ind' x) (items l') end in
  let pairs := fix pairs l : Forall (fun kv : string * pyval => P (snd kv)) l :=
    match l with
    | [] => Forall_nil_2 _
    | (k, x) :: l' => Forall_cons_2 _ (k, x) _ (pyval_ind' x) (pairs l')
    end in
  match v with
  | PNone => HNone | PBool b => HBool b | PInt z => HInt z | PFloat r => HFloat r
  | PStr s => HStr s | PDate c i => HDate c i | PEnum c x => HEnum c x
  | PModel c kvs => HModel c kvs (pairs kvs) | PDict kvs => HDict kvs (pairs kvs)
  | PList l => HList l (items l) | PTuple l => HTuple l (items l)
  end.
End Induction.

(** [observability/redaction.py:9-12 ContentMode] *)
Inductive ContentMode := MODE_NONE | METADATA_ONLY | TRUNCATED.
#[export] Instance ContentMode_eq_dec : EqDecision ContentMode.
Proof. solve_decision. Defined.

(** With [-] replaced by [_], as the comparison does.
    [observability/redaction.py:15-32 SENSITIVE_KEYS] *)
Definition SENSITIVE_KEYS : list string :=
  ["authorization"; "api_key"; "access_token"; "refresh_token"; "password"; "secret"; "cookie";
   "set_cookie"; "mysql_dsn"; "redis_url"; "langfuse_secret_key"; "openai_api_key";
   "dashscope_api_key"; "siliconflow_api_key"].
(** [observability/redaction.py:33-43 CONTENT_KEYS] *)
Definition CONTENT_KEYS : list string :=
  ["work_order"; "work_order_body"; "user_input"; "user_message"; "document_chunk";
   "raw_timeseries"; "timeseries"].

Record RedactLimits := mkRedactLimits {
  max_string_length : nat;
  max_list_items : nat;
  max_depth : nat;
}.
Definition default_limits : RedactLimits := mkRedactLimits 512 20 5.

Definition type_name (v : pyval) : string :=
  match v with
  | PNone => "NoneType" | PBool _ => "bool" | PInt _ => "int" | PFloat _ => "float"
  | PStr _ => "str" | PDate c _ => c | PEnum c _ => c | PModel c _ => c | PDict _ => "dict"
  | PList _ => "list" | PTuple _ => "tuple"
  end.
(** [len(value) if hasattr(value, "__len__") else None]; a member of a [StrEnum] is a
    string. *)
Definition size_of (v : pyval) : pyval :=
  match v with
  | PStr s => PInt (py_len s)
  | PEnum _ s => PInt (py_len s)
  | PDict kvs => PInt (Z.of_nat (length kvs))
  | PList l | PTuple l => PInt (Z.of_nat (length l))
  | _ => PNone
  end.

Section Redact.
Context `{Unicode} (repr : pyval -> string) (sha256 : string -> string).

(** [key.lower().replace("-", "_")] *)
Definition normalized_key (key : string) : string :=
  unchars (map (fun x => if (x =? 45)%N then 95%N else x) (lower (chars key))).
Definition sensitive (key : string) : bool := bool_decide (normalized_key key ∈ SENSITIVE_KEYS).
Definition content (key : string) : bool := bool_decide (normalized_key key ∈ CONTENT_KEYS).

(** [observability/redaction.py:46-54 _metadata] *)
Definition metadata_of (v : pyval) : pyval :=
  PDict [("redacted", PBool true); ("type", PStr (type_name v)); ("count", size_of v);
         ("sha256", PStr (str_take 16 (sha256 (repr v))))].

Definition too_deep : pyval := PDict [("truncated", PBool true); ("reason", PStr "max_depth")].

(** The items of a list are cut after they are redacted: nothing else depends on them.
    [observability/redaction.py:57-130 redact] *)
Fixpoint redact (mode : ContentMode) (lim : RedactLimits) (depth : nat) (v : pyval) : pyval :=
  if (max_depth lim <=? depth)%nat then too_deep
  else
    let dict kvs := PDict (map (fun kv =>
      (fst kv,
       if sensitive (fst kv) then PStr "[REDACTED]"
       else if content (fst kv) then
         match mode with
         | MODE_NONE => PNone
         | METADATA_ONLY => metadata_of (snd kv)
         | TRUNCATED => redact mode lim (S depth) (snd kv)
         end
       else redact mode lim (S depth) (snd kv))) kvs) in
    let items l :=
      let cut := take (max_list_items lim) (map (redact mode lim (S depth)) l) in
      PList (if (max_list_items lim <? length l)%nat
             then cut ++ [PDict [("truncated", PBool true);
                    ("omitted_items", PInt (Z.of_nat (length l - max_list_items lim)))]]
             else cut) in
    match v with
    | PModel _ kvs => dict kvs
    | PDate _ iso => PStr iso
    | PEnum _ x => PStr x
    | PDict kvs => dict kvs
    | PList l => items l
    | PTuple l => items l
    | PStr s =>
        let n := Z.of_nat (max_string_length lim) in
        if n <? py_len s
        then PStr (str_take (max_string_length lim) s ++ "…[truncated:" ++ pretty (py_len s - n) ++ "]")
        else PStr s
    | _ => v
    end.

(** [observability/redaction.py:133-144 safe_snapshot] *)
Definition safe_snapshot (v : pyval) (max_bytes : nat) : pyval :=
  let original := String.length (repr v) in
  let cleaned := redact METADATA_ONLY default_limits 0 v in
  if (original <=? max_bytes)%nat && (String.length (repr cleaned) <=? max_bytes)%nat
  then PDict [("data", cleaned); ("truncated", PBool false)]
  else PDict [("data", metadata_of cleaned); ("truncated", PBool true);
              ("original_bytes", PInt (Z.of_nat original)); ("limit_bytes", PInt (Z.of_nat max_bytes))].

(** ** Secrets stay out *)

(** The value without what sensitive keys hold; under a content key the mode decides:
    nothing of the content stays, all of it (its digest is taken), or what the recursion
    keeps. *)
Fixpoint public (mode : ContentMode) (v : pyval) : pyval :=
  let items kvs := map (fun kv =>
    (fst kv,
     if sensitive (fst kv) then PNone
     else if content (fst kv) then
       match mode with
       | MODE_NONE => PNone
       | METADATA_ONLY => snd kv
       | TRUNCATED => public mode (snd kv)
       end
     else public mode (snd kv))) kvs in
  match v with
  | PModel c kvs => PModel c (items kvs)
  | PDict kvs => PDict (items kvs)
  | PList l => PList (map (public mode) l)
  | PTuple l => PTuple (map (public mode) l)
  | _ => v
  end.

Lemma redact_public mode lim v : forall depth, redact mode lim depth (public mode v) = redact mode lim depth v.
Proof.
  assert (Hd : forall kvs, Forall (fun kv => forall depth,
      redact mode lim depth (public mode (snd kv)) = redact mode lim depth (snd kv)) kvs -> forall depth,
    redact mode lim depth (public mode (PDict kvs)) = redact mode lim depth (PDict kvs)).
  { intros kvs IH depth. cbn [public redact]. destruct (_ <=? _)%nat; [done|]. f_equal.
    rewrite map_map. apply map_ext_Forall, (Forall_impl _ _ _ IH). intros kv Hkv. cbn [fst snd].
    destruct (sensitive (fst kv)); [done|]. destruct (content (fst kv)); [|by rewrite Hkv].
    destruct mode; [done|done|by rewrite Hkv]. }
  assert (Hl : forall l, Forall (fun x => forall depth,
      redact mode lim depth (public mode x) = redact mode lim depth x) l -> forall depth,
    redact mode lim depth (PList (map (public mode) l)) = redact mode lim depth (PList l)).
  { intros l IH depth. cbn [redact]. destruct (_ <=? _)%nat; [done|]. rewrite length_map, map_map.
    assert (map (fun x => redact mode lim (S depth) (public mode x)) l
            = map (redact mode lim (S depth)) l) as -> by
      (apply map_ext_Forall, (Forall_impl _ _ _ IH); intros x Hx; apply Hx).
    done. }
  induction v using pyval_ind'; intros depth; try done.
  - by apply (Hd kvs).
  - by apply (Hd kvs).
  - by apply (Hl l).
  - by apply (Hl l).
Qed.
End Redact.


Definition demo_record (secret : string) : pyval :=
  PDict [("site", PStr "S1");
         ("headers", PList [PDict [("Set-Cookie", PStr secret); ("accept", PStr "json")]]);
         ("config", PModel "Settings" [("API-KEY", PStr secret); ("mode", PEnum "Mode" "fast")])].


Example redact_example :
  @redact demo_unicode (fun _ => "r") (fun s => s) METADATA_ONLY default_limits 0 (demo_record "x")
  = PDict [("site", PStr "S1");
           ("headers", PList [PDict [("Set-Cookie", PStr "[REDACTED]"); ("accept", PStr "json")]]);
           ("config", PDict [("API-KEY", PStr "[REDACTED]"); ("mode", PStr "fast")])].
Proof. vm_compute. reflexivity. Qed.

(** ** What is logged is bounded *)

(** At most [d] levels, and lists of at most [n] items. *)
Fixpoint bounded (n d : nat) (v : pyval) {struct v} : Prop :=
  match v with
  | PModel _ kvs | PDict kvs =>
      match d with O => False | S d' => Forall (fun P => P) (map (fun kv => bounded n d' (snd kv)) kvs) end
  | PList l | PTuple l =>
      match d with
      | O => False
      | S d' => (length l <= n)%nat /\ Forall (fun P => P) (map (bounded n d') l)
      end
  | _ => True
  end.

Lemma metadata_bounded repr sha256 n v d : bounded n (S d) (metadata_of repr sha256 v).
Proof. destruct d, v; simpl; repeat constructor. Qed.

Lemma too_deep_bounded n d : bounded n (S d) too_deep.
Proof. destruct d; simpl; repeat constructor. Qed.

Lemma redact_bounded `{Unicode} repr sha256 mode lim v : forall depth,
  bounded (S (max_list_items lim)) (S (max_depth lim - depth)) (redact repr sha256 mode lim depth v).
Proof.
  assert (Hd : forall kvs, Forall (fun kv => forall depth, bounded (S (max_list_items lim))
      (S (max_depth lim - depth)) (redact repr sha256 mode lim depth (snd kv))) kvs -> forall depth,
    bounded (S (max_list_items lim)) (S (max_depth lim - depth))
      (redact repr sha256 mode lim depth (PDict kvs))).
  { intros kvs IH depth. cbn [redact]. destruct (Nat.leb_spec (max_depth lim) depth) as [Hm|Hm];
      [apply too_deep_bounded|].
    cbn [bounded]. rewrite map_map. apply Forall_map, (Forall_impl _ _ _ IH). intros kv Hkv. cbn [fst snd].
    specialize (Hkv (S depth)). replace (S (max_depth lim - S depth)) with (max_depth lim - depth)%nat in Hkv by lia.
    destruct (sensitive (fst kv)); [exact I|]. destruct (content (fst kv)); [|done].
    destruct mode; [exact I| |done].
    replace (max_depth lim - depth)%nat with (S (max_depth lim - S depth)) by lia. apply metadata_bounded. }
  assert (Hl : forall l, Forall (fun x => forall depth, bounded (S (max_list_items lim))
      (S (max_depth lim - depth)) (redact repr sha256 mode lim depth x)) l -> forall depth,
    bounded (S (max_list_items lim)) (S (max_depth lim - depth))
      (redact repr sha256 mode lim depth (PList l))).
  { intros l IH depth. cbn [redact]. destruct (Nat.leb_spec (max_depth lim) depth) as [Hm|Hm];
      [apply too_deep_bounded|].
    cbn [bounded]. assert (Hitems : Forall (bounded (S (max_list_items lim)) (max_depth lim - depth))
      (take (max_list_items lim) (map (redact repr sha256 mode lim (S depth)) l))).
    { apply Forall_take, Forall_map, (Forall_impl _ _ _ IH). intros x Hx. specialize (Hx (S depth)).
      by replace (S (max_depth lim - S depth)) with (max_depth lim - depth)%nat in Hx by lia. }
    destruct (_ <? _)%nat.
    - split; [rewrite length_app, length_take, length_map; simpl; lia|]. apply Forall_map, Forall_app.
      split; [done|]. constructor; [|constructor].
      destruct (max_depth lim - depth)%nat eqn:E; [lia|simpl; repeat constructor].
    - split; [rewrite length_take, length_map; lia|]. by apply Forall_map. }
  induction v using pyval_ind'; intros depth.
  8: by apply (Hd kvs).
  8: by apply (Hd kvs).
  8: by apply (Hl l).
  8: by apply (Hl l).
  all: cbn [redact]; destruct (_ <=? _)%nat; try apply too_deep_bounded; try exact I.
  destruct (_ <? _); exact I.
Qed.

(** Whatever the value, at most six levels are logged, and at most twenty-one items of
    a list. *)
Theorem redaction_bounded `{Unicode} repr sha256 mode v :
  bounded 21 6 (redact repr sha256 mode default_limits 0 v).
Proof. apply (redact_bounded repr sha256 mode default_limits v 0). Qed.
