(* ===== verification/RateLimit.v ===== *)
(** * The Redis rate limiter

    [reliability/rate_limit.py]: the fixed-window counter and the counter of
    concurrent streams.  The three Lua scripts run atomically on the server;
    each is a function of the server's clock (in seconds) and the keyspace. *)

From S2P Require Import Prelude.
Open Scope Z_scope.

(** An integer key with the time at which it expires, if any. *)
Record counter := mkCounter { count : Z; expires : option Z }.

(** A key past its expiry time does not exist. *)
Definition live (now : Z) (c : counter) : bool :=
  match expires c with Some t => now <? t | None => true end.
Definition lookup_live (now : Z) (k : string) (r : gmap string counter) : option counter :=
  match r !! k with Some c => if live now c then Some c else None | None => None end.

(** INCR and DECR create a missing key at 0 and keep the expiry of an existing
    one. *)
Definition add_to (now d : Z) (k : string) (r : gmap string counter) : gmap string counter * Z :=
  match lookup_live now k r with
  | Some c => (<[k := mkCounter (count c + d) (expires c)]> r, count c + d)
  | None => (<[k := mkCounter d None]> r, d)
  end.
(** EXPIRE sets the expiry of an existing key. *)
Definition expire (now : Z) (k : string) (seconds : Z) (r : gmap string counter) : gmap string counter :=
  match lookup_live now k r with
  | Some c => <[k := mkCounter (count c) (Some (now + seconds))]> r
  | None => r
  end.
(** TTL: the remaining seconds, -1 without an expiry, -2 without a key. *)
Definition ttl (now : Z) (k : string) (r : gmap string counter) : Z :=
  match lookup_live now k r with
  | Some c => match expires c with Some t => t - now | None => -1 end
  | None => -2
  end.

(** [reliability/rate_limit.py:6-12 _SCRIPT] *)
Definition rate_script (now : Z) (k : string) (window limit : Z) (r : gmap string counter) : gmap string counter * (bool * Z) :=
  let '(r1, current) := add_to now 1 k r in
  let r2 := if current =? 1 then expire now k window r1 else r1 in
  (r2, (negb (limit <? current), ttl now k r2)).

(** [reliability/rate_limit.py:13-21 _ACQUIRE_CONCURRENT_SCRIPT] *)
Definition acquire_script (now : Z) (k : string) (limit window : Z) (r : gmap string counter) : gmap string counter * bool :=
  let '(r1, current) := add_to now 1 k r in
  let r2 := expire now k window r1 in
  if limit <? current then (fst (add_to now (-1) k r2), false) else (r2, true).

(** [reliability/rate_limit.py:22-26 _RELEASE_CONCURRENT_SCRIPT] *)
Definition release_script (now : Z) (k : string) (r : gmap string counter) : gmap string counter * Z :=
  let '(r1, current) := add_to now (-1) k r in
  (if current <=? 0 then delete k r1 else r1, current).

Section RedisRateLimiter.
Context (sha256 : string -> string).

(** [reliability/rate_limit.py:43-45 RedisRateLimiter.actor_hash] *)
Definition actor_hash (actor : string) : string := String.substring 0 24 (sha256 actor).
Definition rate_key (group actor : string) : string :=
  ("rate:v1:" ++ group ++ ":" ++ actor_hash actor)%string.

(** [reliability/rate_limit.py:47-52 RedisRateLimiter.allow] *)
Definition allow (now : Z) (actor group : string) (limit window : Z) (r : gmap string counter)
  : gmap string counter * (bool * Z) :=
  let '(r', (ok, t)) := rate_script now (rate_key group actor) window limit r in
  (r', (ok, Z.max 1 t)).

(** [reliability/rate_limit.py:54-57 RedisRateLimiter.acquire_stream] *)
Definition acquire_stream (now : Z) (actor : string) (limit : Z) (r : gmap string counter) : gmap string counter * bool :=
  acquire_script now ("rate:v1:stream:" ++ actor_hash actor)%string limit 300 r.

(** [reliability/rate_limit.py:59-61 RedisRateLimiter.release_stream] *)
Definition release_stream (now : Z) (actor : string) (r : gmap string counter) : gmap string counter :=
  fst (release_script now ("rate:v1:stream:" ++ actor_hash actor)%string r).
End RedisRateLimiter.

(** ** A window lets through at most its limit *)

(** The requests of one key at the given times. *)
Fixpoint run_window (k : string) (window limit : Z) (times : list Z) (r : gmap string counter)
  : gmap string counter * list bool :=
  match times with
  | [] => (r, [])
  | now :: ts =>
      let '(r1, (ok, _)) := rate_script now k window limit r in
      let '(r2, oks) := run_window k window limit ts r1 in
      (r2, ok :: oks)
  end.

Lemma rate_script_counting now k window limit r n t0 :
  r !! k = Some (mkCounter n (Some t0)) -> now < t0 -> 1 <= n ->
  rate_script now k window limit r
  = (<[k := mkCounter (n + 1) (Some t0)]> r, (negb (limit <? n + 1), t0 - now)).
Proof.
  intros Hk Ht Hn. unfold rate_script, add_to, lookup_live, live. rewrite Hk. simpl.
  rewrite (proj2 (Z.ltb_lt _ _) Ht). simpl. rewrite (proj2 (Z.eqb_neq (n + 1) 1)) by lia.
  unfold ttl, lookup_live, live. rewrite lookup_insert_eq. simpl.
  by rewrite (proj2 (Z.ltb_lt _ _) Ht).
Qed.

Lemma run_window_counting k window limit t0 times :
  forall r n, r !! k = Some (mkCounter n (Some t0)) -> 1 <= n ->
  Forall (fun now => now < t0) times ->
  snd (run_window k window limit times r)
  = imap (fun i _ => Z.of_nat i + n + 1 <=? limit) times.
Proof.
  induction times as [|now ts IH]; intros r n Hk Hn Hts; [done|].
  apply Forall_cons in Hts as [Hnow Hts]. simpl.
  rewrite (rate_script_counting _ _ _ _ _ _ _ Hk Hnow Hn).
  destruct (run_window _ _ _ ts _) as [r2 oks] eqn:Hr. simpl. f_equal.
  - rewrite <- Z.leb_antisym. apply f_equal2; lia.
  - apply (f_equal snd) in Hr. simpl in Hr. rewrite <- Hr, (IH _ (n + 1)).
    + apply imap_ext. intros i x _. simpl. apply f_equal2; lia.
    + apply lookup_insert_eq.
    + lia.
    + done.
Qed.

(** in the window that a first request opens, exactly the first [limit]
    requests are let through and every later one is refused, however the
    requests are spread over the window. *)
Theorem window_admits_limit k window limit t times r :
  0 < window -> lookup_live t k r = None ->
  Forall (fun now => now < t + window) times ->
  snd (run_window k window limit (t :: times) r)
  = imap (fun i _ => Z.of_nat i + 1 <=? limit) (t :: times).
Proof.
  intros Hw Hk Hts. simpl. unfold rate_script at 1, add_to. rewrite Hk. simpl.
  unfold expire, lookup_live, live. rewrite lookup_insert_eq. simpl.
  rewrite insert_insert_eq.
  match goal with |- context [run_window k window limit times ?r1] => set (r' := r1) end.
  pose proof (run_window_counting k window limit (t + window) times r' 1) as Hrun.
  destruct (run_window k window limit times r') as [r2 oks]. simpl in *. f_equal.
  - rewrite <- Z.leb_antisym. apply f_equal2; lia.
  - rewrite Hrun; [|apply lookup_insert_eq|lia|done]. apply imap_ext. intros i x _. simpl. apply f_equal2; lia.
Qed.

Lemma window_admits_limit_witness :
  snd (run_window "k" 60 2 [100; 101; 159] ∅) = [true; true; false].
Proof.
  rewrite (window_admits_limit "k" 60 2 100 [101; 159] ∅);
    [reflexivity|lia|reflexivity|repeat constructor].
Defined.

(** ** Concurrent streams *)

(** The counter of the key has not expired. *)
Definition fresh (now : Z) (k : string) (r : gmap string counter) : Prop :=
  forall c, r !! k = Some c -> live now c = true.

(** The open streams of an actor with the server's counter.  A step opens a
    stream, if it is let in, or closes an open one, before the counter of the
    last opening expires. *)
Inductive stream_step (k : string) (limit : Z) :
  Z * gmap string counter -> Z * gmap string counter -> Prop :=
| step_open now n r r' ok :
    fresh now k r -> acquire_script now k limit 300 r = (r', ok) ->
    stream_step k limit (n, r) (if ok : bool then n + 1 else n, r')
| step_close now n r :
    0 < n -> fresh now k r ->
    stream_step k limit (n, r) (n - 1, fst (release_script now k r)).

(** The counter counts the open streams. *)
Definition counted (k : string) (limit : Z) (nr : Z * gmap string counter) : Prop :=
  0 <= fst nr <= limit /\ from_option count 0 (snd nr !! k) = fst nr.

Lemma add_to_fresh now d k r :
  fresh now k r ->
  let n := from_option count 0 (r !! k) in
  snd (add_to now d k r) = n + d
  /\ exists e, fst (add_to now d k r) = <[k := mkCounter (n + d) e]> r
       /\ live now (mkCounter (n + d) e) = true.
Proof.
  intros Hf. unfold add_to, lookup_live. destruct (r !! k) as [c|] eqn:Hk; simpl.
  - rewrite (Hf _ Hk). simpl. split; [done|]. eexists. split; [done|]. apply (Hf _ Hk).
  - split; [done|]. by eexists.
Qed.

Lemma stream_step_counted k limit s s' :
  stream_step k limit s s' -> counted k limit s -> counted k limit s'.
Proof.
  intros [now n r r' ok Hf Ha|now n r Hn Hf] [Hb Hc]; simpl in *.
  - unfold acquire_script in Ha. destruct (add_to_fresh now 1 k r Hf) as [Hs (e & Hr & Hl)].
    destruct (add_to now 1 k r) as [r1 m]. simpl in *. subst r1 m. rewrite Hc in *.
    unfold expire, lookup_live in Ha. rewrite lookup_insert_eq, Hl, insert_insert_eq in Ha.
    destruct (Z.ltb_spec limit (n + 1)).
    + injection Ha as <- <-. split; [done|]. simpl.
      match goal with |- context [add_to now (-1) k ?r1] =>
        destruct (add_to_fresh now (-1) k r1) as [_ (e' & -> & _)] end.
      * intros c. rewrite lookup_insert_eq. intros [= <-]. apply Z.ltb_lt. lia.
      * rewrite !lookup_insert_eq. simpl. lia.
    + injection Ha as <- <-. split; [simpl; lia|]. simpl. by rewrite lookup_insert_eq.
  - split; [simpl; lia|]. simpl. unfold release_script.
    destruct (add_to_fresh now (-1) k r Hf) as [Hs (e & Hr & _)].
    destruct (add_to now (-1) k r) as [r1 m]. simpl in *. subst r1 m. rewrite Hc in *.
    destruct (Z.leb_spec (n + -1) 0); simpl; [rewrite lookup_delete_eq; simpl; lia|].
    rewrite lookup_insert_eq. simpl. lia.
Qed.

(** however streams are opened and closed within the expiry time, an actor
    never holds more than [limit] of them, and the counter on the server is the
    number held, so that a refusal happens at the limit only. *)
Theorem streams_bounded k limit r0 n r :
  0 <= limit -> r0 !! k = None -> rtc (stream_step k limit) (0, r0) (n, r) ->
  0 <= n <= limit /\ from_option count 0 (r !! k) = n
  /\ forall now, fresh now k r -> snd (acquire_script now k limit 300 r) = (n <? limit).
Proof.
  intros Hl Hk Hr.
  assert (Hc : counted k limit (n, r)).
  { assert (H0 : counted k limit (0, r0)) by (split; simpl; [lia|by rewrite Hk]).
    revert H0. induction Hr; eauto using stream_step_counted. }
  destruct Hc as [Hb Hn]. simpl in *. split; [done|]. split; [done|]. intros now Hf.
  unfold acquire_script. destruct (add_to_fresh now 1 k r Hf) as [Hs _].
  destruct (add_to now 1 k r) as [r1 m]. simpl in *. rewrite Hs, Hn.
  destruct (Z.ltb_spec limit (n + 1)), (Z.ltb_spec n limit); simpl; lia || done.
Qed.

Lemma streams_bounded_witness :
  rtc (stream_step "k" 1) (0, ∅) (1, {["k" := mkCounter 1 (Some 310)]}) /\ 0 <= 1 <= 1.
Proof.
  assert (Hr : rtc (stream_step "k" 1) (0, ∅) (1, {["k" := mkCounter 1 (Some 310)]})).
  { eapply rtc_l; [|apply rtc_refl].
    refine (step_open "k" 1 10 0 ∅ _ true _ _); [by intros c|reflexivity]. }
  split; [exact Hr|].
  destruct (streams_bounded "k" 1 ∅ 1 _ ltac:(lia) (lookup_empty "k") Hr) as [Hb _]. exact Hb.
Defined.
