(* ===== verification/Users.v ===== *)
(** * Users and refresh sessions

    [users/repository.py]: the tables app_user and auth_refresh_session. *)

From S2P Require Import Prelude Errors Json Contracts Text RateLimit.
Open Scope Z_scope.

(** [users/contracts.py:10-12 UserStatus] *)
Inductive UserStatus : Type := ACTIVE | USER_DISABLED.
#[export] Instance UserStatus_eq_dec : EqDecision UserStatus.
Proof. solve_decision. Defined.

(** The row of app_user. *)
Record AppUser := mkUser {
  user_id : string;
  username : string;
  username_normalized : string;
  display_name : string;
  email : option string;
  role : ActorRole;
  user_status : UserStatus;
  password_hash : string;
  must_change_password : bool;
  token_version : Z;
  failed_login_count : Z;
  locked_until : option Z;
  last_login_at : option Z;
  last_password_changed_at : option Z;
  user_created_by : option string;
  user_created_at : Z;
  user_updated_at : Z;
}.
#[export] Instance AppUser_eta : Eta AppUser := fun u =>
  mkUser (user_id u) (username u) (username_normalized u) (display_name u) (email u) (role u)
    (user_status u) (password_hash u) (must_change_password u) (token_version u)
    (failed_login_count u) (locked_until u) (last_login_at u) (last_password_changed_at u)
    (user_created_by u) (user_created_at u) (user_updated_at u).

(** The row of auth_refresh_session. *)
Record RefreshSession := mkRefresh {
  rs_id : string;
  rs_user_id : string;
  token_hash : string;
  token_family_id : string;
  rs_jti : string;
  rotated_from : option string;
  rs_created_at : Z;
  last_used_at : option Z;
  expires_at : Z;
  revoked_at : option Z;
  revoke_reason : option string;
}.
#[export] Instance RefreshSession_eta : Eta RefreshSession := fun s =>
  mkRefresh (rs_id s) (rs_user_id s) (token_hash s) (token_family_id s) (rs_jti s)
    (rotated_from s) (rs_created_at s) (last_used_at s) (expires_at s) (revoked_at s)
    (revoke_reason s).

(** An audit record: actor, action, resource and outcome. *)
Record UserAudit := mkUserAudit {
  ua_actor : string;
  ua_action : string;
  ua_resource : string;
  ua_outcome : string;
}.

Record UWorld := mkUWorld {
  users : gmap string AppUser;
  refreshes : gmap string RefreshSession;
  limits : gmap string counter;
  user_audits : list UserAudit;
  u_ticks : nat;
  u_ids : nat;
}.
#[export] Instance UWorld_eta : Eta UWorld := fun w =>
  mkUWorld (users w) (refreshes w) (limits w) (user_audits w) (u_ticks w) (u_ids w).

(** Clock (microseconds), identifiers and hash. *)
Class UEnv := mkUEnv {
  u_utc : nat -> Z;
  u_uuid : nat -> string;
  u_sha256 : string -> string;
}.

Section UserPrimitives.
Context `{UEnv}.
Definition u_now : M UWorld exn Z :=
  fun w => (w <| u_ticks ::= S |>, Ok (u_utc (u_ticks w))).
Definition u_new_id : M UWorld exn string :=
  fun w => (w <| u_ids ::= S |>, Ok (u_uuid (u_ids w))).
(** [session_factory.begin()]. *)
Definition u_atomically {A} (m : M UWorld exn A) : M UWorld exn A :=
  fun w => match m w with
           | (w', Ok a) => (w', Ok a)
           | (w', Raise e) => (w <| u_ticks := u_ticks w' |> <| u_ids := u_ids w' |>, Raise e)
           end.
Definition u_audit (actor action resource outc : string) : M UWorld exn unit :=
  modify (fun w => w <| user_audits ::= fun l => l ++ [mkUserAudit actor action resource outc] |>).
End UserPrimitives.

Definition is_active_admin (u : AppUser) : bool :=
  bool_decide (role u = ADMIN) && bool_decide (user_status u = ACTIVE).
Definition active_admins (w : UWorld) : list AppUser :=
  filter (fun u => is_active_admin u = true) (snd <$> map_to_list (users w)).

(** Microseconds. *)
Definition minutes (n : Z) : Z := n * 60 * 1000000.

Section UserRepository.
Context `{UEnv}.

Definition put_user (uid : string) (u : AppUser) : M UWorld exn unit :=
  modify (fun w => w <| users ::= insert uid u |>).
Definition user_of (uid : string) : M UWorld exn (option AppUser) := gets (fun w => users w !! uid).

Definition other_user (uid : string) (p : AppUser -> bool) (w : UWorld) : bool :=
  existsb (fun ku => negb (bool_decide (fst ku = uid)) && p (snd ku)) (map_to_list (users w)).
(** Another row has this e-mail address ([NULL]s do not clash). *)
Definition email_taken (uid : string) (e : option string) (w : UWorld) : bool :=
  match e with
  | Some _ => other_user uid (fun u => bool_decide (email u = e)) w
  | None => false
  end.

(** [users/repository.py:56-63 UserRepository.by_normalized_username] *)
Definition by_normalized_username (name : string) : M UWorld exn (option AppUser) :=
  gets (fun w => find_first (fun u => bool_decide (username_normalized u = name))
                   (snd <$> map_to_list (users w))).

(** A clash of the id or of the normalised name is reported as the user name,
    one of the e-mail address alone as the address.
    [users/repository.py:73-82 UserRepository.create] *)
Definition user_create (u : AppUser) : M UWorld exn AppUser :=
  clash <- gets (fun w => bool_decide (is_Some (users w !! user_id u))
    || other_user (user_id u) (fun v =>
         bool_decide (username_normalized v = username_normalized u)) w) ;;
  guard (negb clash) (Domain UserUsernameExistsError []) ;;;
  taken <- gets (email_taken (user_id u) (email u)) ;;
  guard (negb taken) (Domain UserEmailExistsError []) ;;;
  put_user (user_id u) u ;;;
  ret u.

(** The assignments of [update_profile]: [users/repository.py:153-161 model]. *)
Definition profile_row (name : option string) (email_set : option (option string))
    (new_role : option ActorRole) (now : Z) (u : AppUser) : AppUser :=
  let u1 := match name with Some n => u <| display_name := n |> | None => u end in
  let u2 := match email_set with
            | Some e => u1 <| email := if ostr_true e then e else None |>
            | None => u1
            end in
  let u3 := match new_role with
            | Some r =>
                if bool_decide (r = role u) then u2 <| role := r |>
                else u2 <| role := r |> <| token_version ::= Z.succ |>
            | None => u2
            end in
  u3 <| user_updated_at := now |>.

(** [email_set] is [Some e] when the request sets the address to [e].
    [users/repository.py:117-164 UserRepository.update_profile] *)
Definition update_profile (uid : string) (name : option string)
    (email_set : option (option string)) (new_role : option ActorRole)
  : M UWorld exn (option AppUser * option ActorRole) :=
  u_atomically (
    admins <- gets active_admins ;;
    let active_admin_ids := match new_role with
      | Some r => if bool_decide (r = ADMIN) then None else Some admins
      | None => None
      end in
    model <- user_of uid ;;
    match model with
    | None => ret (None, None)
    | Some u =>
        let old_role := role u in
        guard (negb (match active_admin_ids with
                     | Some l => bool_decide (old_role = ADMIN)
                                 && bool_decide (user_status u = ACTIVE)
                                 && (length l <=? 1)%nat
                     | None => false
                     end)) (Domain UserLastAdminProtectedError []) ;;;
        now <- u_now ;;
        let u4 := profile_row name email_set new_role now u in
        taken <- gets (email_taken uid (email u4)) ;;
        guard (negb taken) (Domain UserEmailExistsError []) ;;;
        put_user uid u4 ;;;
        ret (Some u4, Some old_role)
    end).

(** [users/repository.py:166-200 UserRepository.set_status] *)
Definition set_status (uid : string) (st : UserStatus) : M UWorld exn (option AppUser) :=
  u_atomically (
    admins <- gets active_admins ;;
    model <- user_of uid ;;
    match model with
    | None => ret None
    | Some u =>
        guard (negb (bool_decide (st = USER_DISABLED) && is_active_admin u
                     && (length admins <=? 1)%nat))
          (Domain UserLastAdminProtectedError []) ;;;
        if bool_decide (user_status u = st) then ret (Some u)
        else
          now <- u_now ;;
          let u1 := u <| user_status := st |> in
          let u2 := if bool_decide (st = USER_DISABLED)
                    then u1 <| token_version ::= Z.succ |>
                    else u1 <| failed_login_count := 0 |> <| locked_until := None |> in
          let u3 := u2 <| user_updated_at := now |> in
          put_user uid u3 ;;;
          ret (Some u3)
    end).

(** [users/repository.py:216-227 UserRepository.record_login_failure] *)
Definition record_login_failure (uid : string) : M UWorld exn bool :=
  now <- u_now ;;
  u_atomically (
    model <- user_of uid ;;
    match model with
    | None => ret false
    | Some u =>
        let u1 := u <| failed_login_count ::= Z.succ |> in
        let locked := 5 <=? failed_login_count u1 in
        let u2 := if locked then u1 <| locked_until := Some (now + minutes 15) |> else u1 in
        put_user uid (u2 <| user_updated_at := now |>) ;;;
        ret locked
    end).

(** [users/repository.py:229-238 UserRepository.record_login_success] *)
Definition record_login_success (uid : string) : M UWorld exn AppUser :=
  now <- u_now ;;
  u_atomically (
    model <- user_of uid ;;
    match model with
    | None => raise AssertionError
    | Some u =>
        let u1 := u <| failed_login_count := 0 |> <| locked_until := None |>
                    <| last_login_at := Some now |> <| user_updated_at := now |> in
        put_user uid u1 ;;; ret u1
    end).

(** [users/repository.py:240-253 UserRepository.replace_password] *)
Definition replace_password (uid hash : string) (must_change : bool)
  : M UWorld exn (option AppUser) :=
  u_atomically (
    model <- user_of uid ;;
    match model with
    | None => ret None
    | Some u =>
        now <- u_now ;;
        let u1 := u <| password_hash := hash |> <| must_change_password := must_change |>
                    <| last_password_changed_at := Some now |> <| token_version ::= Z.succ |>
                    <| user_updated_at := now |> in
        put_user uid u1 ;;; ret (Some u1)
    end).

(** [users/repository.py:255-264 UserRepository.increment_token_version] *)
Definition increment_token_version (uid : string) : M UWorld exn unit :=
  u_atomically (
    model <- user_of uid ;;
    now <- u_now ;;
    match model with
    | None => ret tt
    | Some u => put_user uid (u <| token_version ::= Z.succ |> <| user_updated_at := now |>)
    end).
End UserRepository.

Section RefreshSessionRepository.
Context `{UEnv}.

(** The table refuses a second row of a session id, token hash or jti.
    [users/repository.py:271-273 RefreshSessionRepository.create] *)
Definition refresh_create (s : RefreshSession) : M UWorld exn unit :=
  clash <- gets (fun w => bool_decide (is_Some (refreshes w !! rs_id s))
    || existsb (fun t => bool_decide (token_hash t = token_hash s)
                         || bool_decide (rs_jti t = rs_jti s))
         (snd <$> map_to_list (refreshes w))) ;;
  guard (negb clash) IntegrityError ;;;
  modify (fun w => w <| refreshes ::= insert (rs_id s) s |>).

(** The three answers of [rotate]: [None], the pair of the user and the family
    of a revoked session, and ["", ""]. *)
Inductive rotation : Type := NotFound | Reused (user family : string) | Rotated.

(** [users/repository.py:275-291 RefreshSessionRepository.rotate] *)
Definition rotate (sid hash jti : string) (new : RefreshSession) : M UWorld exn rotation :=
  u_atomically (
    current <- gets (fun w => refreshes w !! sid) ;;
    match current with
    | None => ret NotFound
    | Some c =>
        if negb (bool_decide (token_hash c = hash)) || negb (bool_decide (rs_jti c = jti))
        then ret NotFound
        else match revoked_at c with
        | Some _ => ret (Reused (rs_user_id c) (token_family_id c))
        | None =>
            now <- u_now ;;
            if expires_at c <=? now then ret NotFound
            else
              modify (fun w => w <| refreshes ::= insert sid
                (c <| revoked_at := Some now |> <| last_used_at := Some now |>
                   <| revoke_reason := Some "rotated" |>) |>) ;;;
              refresh_create new ;;;
              ret Rotated
        end
    end).

(** The [UPDATE ... WHERE revoked_at IS NULL] of the three revocations. *)
Definition revoke_where (p : RefreshSession -> bool) (reason : string) : M UWorld exn unit :=
  now <- u_now ;;
  modify (fun w => w <| refreshes ::= fmap (fun s =>
    match revoked_at s with
    | None => if p s then s <| revoked_at := Some now |> <| revoke_reason := Some reason |> else s
    | Some _ => s
    end) |>).

(** [users/repository.py:297-306 RefreshSessionRepository.revoke] *)
Definition revoke (sid reason : string) : M UWorld exn unit :=
  revoke_where (fun s => bool_decide (rs_id s = sid)) reason.
(** [users/repository.py:308-321 RefreshSessionRepository.revoke_user] *)
Definition revoke_user (uid reason : string) : M UWorld exn unit :=
  revoke_where (fun s => bool_decide (rs_user_id s = uid)) reason.
(** [users/repository.py:323-336 RefreshSessionRepository.revoke_family] *)
Definition revoke_family (fid reason : string) : M UWorld exn unit :=
  revoke_where (fun s => bool_decide (token_family_id s = fid)) reason.
End RefreshSessionRepository.
