(* ===== verification/Auth.v ===== *)
(** * Authentication and user administration

    [users/service.py], [users/password.py] and [users/jwt.py].  The JWT
    library, the password hasher and Unicode normalisation are parameters
    ([Libraries]). *)

From stdpp Require Import countable pretty.
From S2P Require Import Prelude Errors Json Contracts Text RateLimit Users.
Open Scope Z_scope.

(** The payload of a token; a refresh token has no user name and role, an
    access token no session and family. *)
Record claims := mkClaims {
  sub : string;
  c_type : string;
  c_username : option string;
  c_role : option string;
  c_session_id : option string;
  c_family_id : option string;
  c_token_version : Z;
  c_jti : string;
  c_iss : string;
  c_aud : string;
  c_iat : Z;
  c_exp : Z;
}.

Inductive jwt_error : Type := ExpiredSignature | OtherJWTError.

(** What the code takes from PyJWT, pwdlib and unicodedata.  [jwt_decode now
    token secret issuer audience access] is [jwt.decode] at the time [now] with
    the list of required claims of the token type. *)
Class Libraries := mkLibraries {
  jwt_encode : string -> claims -> string;
  jwt_decode : Z -> string -> string -> string -> string -> bool -> claims + jwt_error;
  pw_hash : string -> string;
  pw_verify : string -> string -> bool;
  nfkc_casefold : string -> string;
}.

(** The settings the services read. *)
Record AuthSettings := mkAuthSettings {
  rate_limit_enabled : bool;
  limit_login_username : Z;
  limit_login_source : Z;
  limit_refresh : Z;
  access_ttl_minutes : Z;
  refresh_ttl_days : Z;
  access_secret : string;
  refresh_secret : string;
  jwt_issuer : string;
  access_audience : string;
  refresh_audience : string;
}.

(** [users/contracts.py:46-52 TokenResponse] *)
Record TokenResponse := mkTokens {
  access_token : string;
  refresh_token : string;
  access_expires_in : Z;
  refresh_expires_in : Z;
  t_user : AppUser;
}.

Record IssuedToken := mkIssued { issued : string; issued_jti : string; expires_in : Z }.

Definition seconds (n : Z) : Z := n * 1000000.

Section Password.
Context `{Libraries}.

(** [users/password.py:11-12 normalize_username] *)
Definition normalize_username (s : string) : string := nfkc_casefold (strip s).

(** [users/password.py:15-19 validate_password] *)
Definition validate_password {S} (password name : string) : M S exn unit :=
  guard (str_true (strip password) && (10 <=? py_len password) && (py_len password <=? 128))
    (Domain AuthNewPasswordInvalidError []) ;;;
  guard (negb (bool_decide (normalize_username password = normalize_username name)))
    (Domain AuthNewPasswordInvalidError []).

(** [users/password.py:22-24 hash_password] *)
Definition hash_password {S} (password name : string) : M S exn string :=
  validate_password password name ;;; ret (pw_hash password).
End Password.

Section JWTCodec.
Context `{UEnv, Libraries} (st : AuthSettings).

(** [users/jwt.py:32-56 JWTCodec.issue_access] *)
Definition issue_access (u : AppUser) : M UWorld exn IssuedToken :=
  now <- u_now ;;
  jti <- u_new_id ;;
  let ttl := access_ttl_minutes st * 60 in
  ret (mkIssued (jwt_encode (access_secret st)
    (mkClaims (user_id u) "access" (Some (username u)) (Some (role_value (role u))) None None
       (token_version u) jti (jwt_issuer st) (access_audience st) now (now + seconds ttl)))
    jti ttl).

(** [users/jwt.py:57-85 JWTCodec.issue_refresh] *)
Definition issue_refresh (uid sid fid jti : string) (version : Z) : M UWorld exn IssuedToken :=
  now <- u_now ;;
  let ttl := refresh_ttl_days st * 86400 in
  ret (mkIssued (jwt_encode (refresh_secret st)
    (mkClaims uid "refresh" None None (Some sid) (Some fid) version jti
       (jwt_issuer st) (refresh_audience st) now (now + seconds ttl)))
    jti ttl).

(** [users/jwt.py:87-118 JWTCodec._decode] behind [decode_access] and
    [decode_refresh] *)
Definition decode (access : bool) (token : string) : M UWorld exn (claims + jwt_error) :=
  now <- u_now ;;
  let secret := if access then access_secret st else refresh_secret st in
  let audience := if access then access_audience st else refresh_audience st in
  ret (match jwt_decode now token secret (jwt_issuer st) audience access with
       | inl c => if bool_decide (c_type c = if access then "access" else "refresh")
                  then inl c else inr OtherJWTError
       | inr e => inr e
       end).
End JWTCodec.

Section AuthService.
Context `{UEnv, Libraries} (st : AuthSettings).

(** [users/tokens.py:4-5 token_digest] *)
Definition token_digest (t : string) : string := u_sha256 t.

(** [users/service.py:365-376 AuthService._audit_service] *)
Definition audit_service (action resource outc : string) : M UWorld exn unit :=
  u_audit "service:auth" action (String.substring 0 64 resource) outc.

(** One question to the rate limiter; its server has the clock of the
    application, in seconds. *)
Definition limiter (key group : string) (limit window : Z) : M UWorld exn bool :=
  now <- u_now ;;
  fun w => let '(r, (ok, _)) := allow u_sha256 (now / 1000000) key group limit window (limits w) in
           (w <| limits := r |>, Ok ok).

(** [users/service.py:324-363 AuthService._issue_pair] *)
Definition issue_pair (u : AppUser) : M UWorld exn TokenResponse :=
  access <- issue_access st u ;;
  sid <- u_new_id ;;
  fid <- u_new_id ;;
  jti <- u_new_id ;;
  refresh <- issue_refresh st (user_id u) sid fid jti (token_version u) ;;
  now <- u_now ;;
  u_atomically (refresh_create (mkRefresh sid (user_id u) (token_digest (issued refresh)) fid jti
    None now None (now + seconds (expires_in refresh)) None None)) ;;;
  profile <- user_of (user_id u) ;;
  match profile with
  | None => throw UserNotFoundError
  | Some p => ret (mkTokens (issued access) (issued refresh) (expires_in access)
                     (expires_in refresh) p)
  end.

(** [users/service.py:82-98 rate_limiter], the rate limits. *)
Definition login_limits (normalized : string) (ip : option string) : M UWorld exn unit :=
  if rate_limit_enabled st then
    a <- limiter (u_sha256 normalized) "auth_login_username" (limit_login_username st) 300 ;;
    b <- limiter (u_sha256 (if ostr_true ip then or_empty ip else "unknown"))
           "auth_login_source" (limit_login_source st) 300 ;;
    guard (a && b) (Domain RateLimitExceededError [])
  else ret tt.

(** [users/service.py:78-143 AuthService.login] *)
Definition login (name password : string) (ip : option string) : M UWorld exn TokenResponse :=
  let normalized := normalize_username name in
  login_limits normalized ip ;;;
  user <- by_normalized_username normalized ;;
  match user with
  | None =>
      audit_service "auth.login.failed" (u_sha256 normalized) "failed" ;;;
      throw AuthInvalidCredentialsError
  | Some u =>
      now <- u_now ;;
      if match locked_until u with Some t => now <? t | None => false end then
        audit_service "auth.login.locked" (u_sha256 normalized) "failed" ;;;
        throw AuthAccountLockedError
      else
        let valid := pw_verify password (password_hash u) in
        if negb valid || negb (bool_decide (user_status u = ACTIVE)) then
          locked <- (if negb valid then record_login_failure (user_id u) else ret false) ;;
          audit_service "auth.login.failed" (u_sha256 normalized) "failed" ;;;
          if locked : bool then throw AuthAccountLockedError
          else throw AuthInvalidCredentialsError
        else
          u1 <- record_login_success (user_id u) ;;
          response <- issue_pair u1 ;;
          u_audit (user_id u1) "auth.login.succeeded" (user_id u1) "succeeded" ;;;
          ret response
  end.

(** [users/service.py:164-168 AuthService.current_user] *)
Definition current_user (uid : string) : M UWorld exn AppUser :=
  p <- user_of uid ;;
  match p with Some u => ret u | None => throw UserNotFoundError end.

(** [users/service.py:145-162 AuthService.authenticate_access] *)
Definition authenticate_access (token : string) : M UWorld exn (ActorContext * AppUser) :=
  c <- decode st true token ;;
  match c with
  | inr ExpiredSignature => throw AuthTokenExpiredError
  | inr OtherJWTError => throw AuthTokenInvalidError
  | inl c =>
      user <- user_of (sub c) ;;
      match user with
      | None => throw AuthTokenInvalidError
      | Some u =>
          guard (bool_decide (user_status u = ACTIVE)
                 && (token_version u =? c_token_version c)
                 && bool_decide (c_role c = Some (role_value (role u))))
            (Domain AuthTokenInvalidError []) ;;;
          p <- current_user (user_id u) ;;
          ret (mkActor (user_id u) (role u), p)
      end
  end.

(** [users/service.py:201-261 rotate], once the claims and the
    user are known to be valid. *)
Definition refresh_rotate (token : string) (c : claims) (u : AppUser)
  : M UWorld exn TokenResponse :=
  nsid <- u_new_id ;;
  njti <- u_new_id ;;
  let fid := or_empty (c_family_id c) in
  let sid := or_empty (c_session_id c) in
  fresh <- issue_refresh st (user_id u) nsid fid njti (token_version u) ;;
  now <- u_now ;;
  result <- rotate sid (token_digest token) (c_jti c)
    (mkRefresh nsid (user_id u) (token_digest (issued fresh)) fid njti (Some sid) now None
       (now + seconds (expires_in fresh)) None None) ;;
  match result with
  | NotFound =>
      audit_service "auth.refresh.failed" (user_id u) "failed" ;;;
      throw AuthRefreshInvalidError
  | Reused ruser family =>
      u_atomically (revoke_family family "reuse_detected") ;;;
      increment_token_version ruser ;;;
      audit_service "auth.refresh.reuse_detected" ruser "failed" ;;;
      throw AuthRefreshReusedError
  | Rotated =>
      access <- issue_access st u ;;
      u_audit (user_id u) "auth.refresh.succeeded" nsid "succeeded" ;;;
      p <- current_user (user_id u) ;;
      ret (mkTokens (issued access) (issued fresh) (expires_in access) (expires_in fresh) p)
  end.

(** [users/service.py:170-261 AuthService.refresh] *)
Definition refresh (token : string) (ip : option string) : M UWorld exn TokenResponse :=
  (if rate_limit_enabled st then
     a <- limiter (u_sha256 (if ostr_true ip then or_empty ip else "unknown"))
            "auth_refresh" (limit_refresh st) 60 ;;
     guard a (Domain RateLimitExceededError [])
   else ret tt) ;;;
  c <- decode st false token ;;
  match c with
  | inr ExpiredSignature =>
      audit_service "auth.refresh.failed" "expired" "failed" ;;; throw AuthRefreshExpiredError
  | inr OtherJWTError =>
      audit_service "auth.refresh.failed" "invalid" "failed" ;;; throw AuthRefreshInvalidError
  | inl c =>
      user <- user_of (sub c) ;;
      match user with
      | None =>
          audit_service "auth.refresh.failed" "unknown" "failed" ;;;
          throw AuthRefreshInvalidError
      | Some u =>
          if negb (bool_decide (user_status u = ACTIVE)
                   && (token_version u =? c_token_version c))
          then
            audit_service "auth.refresh.failed" (user_id u) "failed" ;;;
            throw AuthRefreshInvalidError
          else refresh_rotate token c u
      end
  end.

(** [users/service.py:263-295 AuthService.change_password] *)
Definition change_password (actor : ActorContext) (current new : string)
  : M UWorld exn TokenResponse :=
  user <- user_of (actor_id actor) ;;
  match user with
  | None => throw AuthCurrentPasswordInvalidError
  | Some u =>
      guard (pw_verify current (password_hash u)) (Domain AuthCurrentPasswordInvalidError []) ;;;
      validate_password new (username u) ;;;
      guard (negb (pw_verify new (password_hash u))) (Domain AuthNewPasswordInvalidError []) ;;;
      hash <- hash_password new (username u) ;;
      updated <- replace_password (user_id u) hash false ;;
      match updated with
      | None => raise AssertionError
      | Some u1 =>
          u_atomically (revoke_user (user_id u) "password_changed") ;;;
          u_audit (actor_id actor) "auth.password.changed" (user_id u) "succeeded" ;;;
          issue_pair u1
      end
  end.

(** [users/service.py:297-310 AuthService.logout] *)
Definition logout (actor : ActorContext) (token : string) : M UWorld exn unit :=
  c <- decode st false token ;;
  match c with
  | inl c =>
      when (bool_decide (sub c = actor_id actor))
        (u_atomically (revoke (or_empty (c_session_id c)) "logout"))
  | inr _ => ret tt
  end ;;;
  u_audit (actor_id actor) "auth.logout" (actor_id actor) "succeeded".

(** [users/service.py:312-322 AuthService.logout_all] *)
Definition logout_all (actor : ActorContext) : M UWorld exn unit :=
  u_atomically (revoke_user (actor_id actor) "logout_all") ;;;
  increment_token_version (actor_id actor) ;;;
  u_audit (actor_id actor) "auth.logout_all" (actor_id actor) "succeeded".
End AuthService.

Section UserService.
Context `{UEnv, Libraries}.

(** [users/service.py:522-538 UserService._audit] *)
Definition admin_audit (actor : ActorContext) (action uid : string) : M UWorld exn unit :=
  u_audit (actor_id actor) action uid "succeeded".

(** [users/service.py:409-413 UserService.get] *)
Definition get_user (uid : string) : M UWorld exn AppUser :=
  p <- user_of uid ;;
  match p with Some u => ret u | None => throw UserNotFoundError end.

(** [users/service.py:415-442 UserService.create] *)
Definition create_user (name shown_name : string) (mail : option string) (r : ActorRole)
    (password : string) (actor : ActorContext) : M UWorld exn AppUser :=
  now <- u_now ;;
  let normalized := normalize_username name in
  let shown := strip shown_name in
  guard (str_true normalized && str_true shown) (Domain InvalidRequestError []) ;;;
  uid <- u_new_id ;;
  hash <- hash_password password name ;;
  let address := m ← mail; if str_true (strip m) then Some (strip m) else None in
  p <- u_atomically (user_create (mkUser uid (strip name) normalized shown address r ACTIVE hash
         true 1 0 None None None (Some (actor_id actor)) now now)) ;;
  admin_audit actor "user.created" (user_id p) ;;;
  ret p.

(** [mail] is [Some e] when the request sets the address to [e].
    [users/service.py:444-479 UserService.patch] *)
Definition patch_user (uid : string) (name : option string) (mail : option (option string))
    (r : option ActorRole) (actor : ActorContext) : M UWorld exn AppUser :=
  get_user uid ;;;
  guard (match name with Some n => str_true (strip n) | None => true end)
    (Domain InvalidRequestError []) ;;;
  guard (negb (bool_decide (actor_id actor = uid)
               && match r with Some r => negb (bool_decide (r = ADMIN)) | None => false end))
    (Domain UserSelfRoleChangeForbiddenError []) ;;;
  res <- update_profile uid (strip <$> name)
    ((fun e : option string => if ostr_true e then strip <$> e else e) <$> mail) r ;;
  match res with
  | (None, _) => throw UserNotFoundError
  | (Some p, old) =>
      let changed := match r, old with
                     | Some r, Some o => negb (bool_decide (r = o))
                     | Some _, None => true
                     | None, _ => false
                     end in
      when changed (u_atomically (revoke_user uid "role_changed")) ;;;
      admin_audit actor (if changed then "user.role_changed" else "user.profile_updated") uid ;;;
      ret p
  end.

(** [users/service.py:481-490 UserService.disable] *)
Definition disable_user (uid : string) (actor : ActorContext) : M UWorld exn AppUser :=
  guard (negb (bool_decide (actor_id actor = uid))) (Domain UserSelfDisableForbiddenError []) ;;;
  get_user uid ;;;
  p <- set_status uid USER_DISABLED ;;
  match p with
  | None => raise AssertionError
  | Some p =>
      u_atomically (revoke_user uid "disabled") ;;;
      admin_audit actor "user.disabled" uid ;;;
      ret p
  end.

(** [users/service.py:492-497 UserService.enable] *)
Definition enable_user (uid : string) (actor : ActorContext) : M UWorld exn AppUser :=
  p <- set_status uid ACTIVE ;;
  match p with
  | None => throw UserNotFoundError
  | Some p => admin_audit actor "user.enabled" uid ;;; ret p
  end.

(** [users/service.py:499-510 UserService.reset_password] *)
Definition reset_password (uid password : string) (actor : ActorContext) : M UWorld exn AppUser :=
  current <- get_user uid ;;
  hash <- hash_password password (username current) ;;
  m <- replace_password uid hash true ;;
  match m with
  | None => raise AssertionError
  | Some _ =>
      u_atomically (revoke_user uid "password_reset") ;;;
      admin_audit actor "user.password_reset" uid ;;;
      get_user uid
  end.

(** [users/service.py:512-520 UserService.revoke_sessions] *)
Definition revoke_sessions (uid : string) (actor : ActorContext) : M UWorld exn AppUser :=
  get_user uid ;;;
  u_atomically (revoke_user uid "admin_revoked") ;;;
  increment_token_version uid ;;;
  admin_audit actor "user.sessions_revoked" uid ;;;
  get_user uid.
End UserService.

(** ** Concrete libraries

    An instance of the parameters for concrete runs: a token is the
    serialisation of its secret and claims, the hash of a password is the
    password with a prefix. *)

Fixpoint pos_string (p : positive) : string :=
  match p with
  | xH => EmptyString
  | xO q => String (Ascii.ascii_of_nat 48) (pos_string q)
  | xI q => String (Ascii.ascii_of_nat 49) (pos_string q)
  end.
Fixpoint string_positive (s : string) : positive :=
  match s with
  | EmptyString => xH
  | String c t => if Ascii.eqb c (Ascii.ascii_of_nat 49) then xI (string_positive t) else xO (string_positive t)
  end.

Definition demo_encode (secret : string) (c : claims) : string :=
  pos_string (countable.encode
    [countable.encode secret; countable.encode (sub c); countable.encode (c_type c);
     countable.encode (c_username c); countable.encode (c_role c);
     countable.encode (c_session_id c); countable.encode (c_family_id c);
     countable.encode (c_token_version c); countable.encode (c_jti c); countable.encode (c_iss c);
     countable.encode (c_aud c); countable.encode (c_iat c); countable.encode (c_exp c)]).

Definition demo_parse (token : string) : option (string * claims) :=
  l ← countable.decode (A := list positive) (string_positive token);
  match l with
  | [a; b; c; d; e; f; g; h; i; j; k; m; n] =>
      secret ← countable.decode a; v1 ← countable.decode b; v2 ← countable.decode c;
      v3 ← countable.decode d; v4 ← countable.decode e; v5 ← countable.decode f;
      v6 ← countable.decode g; v7 ← countable.decode h; v8 ← countable.decode i;
      v9 ← countable.decode j; v10 ← countable.decode k; v11 ← countable.decode m;
      v12 ← countable.decode n;
      Some (secret, mkClaims v1 v2 v3 v4 v5 v6 v7 v8 v9 v10 v11 v12)
  | _ => None
  end.

Definition demo_decode (now : Z) (token secret issuer audience : string) (access : bool)
  : claims + jwt_error :=
  match demo_parse token with
  | Some (s, c) =>
      if bool_decide (s = secret) && bool_decide (c_iss c = issuer)
         && bool_decide (c_aud c = audience)
      then if c_exp c <=? now then inr ExpiredSignature else inl c
      else inr OtherJWTError
  | None => inr OtherJWTError
  end.

Definition demo_libraries : Libraries := {|
  jwt_encode := demo_encode;
  jwt_decode := demo_decode;
  pw_hash p := ("hash:" ++ p)%string;
  pw_verify p h := bool_decide (h = ("hash:" ++ p)%string);
  nfkc_casefold s := s;
|}.

Definition demo_uenv : UEnv := {|
  u_utc n := seconds (Z.of_nat n);
  u_uuid n := ("id-" ++ pretty n)%string;
  u_sha256 s := s;
|}.

Definition demo_settings (limited : bool) : AuthSettings :=
  mkAuthSettings limited 10 50 30 15 7 "a-secret" "r-secret" "issuer" "api" "refresh".

Definition demo_user (id name : string) (r : ActorRole) (failures : Z) : AppUser :=
  mkUser id name name name None r ACTIVE ("hash:correct horse " ++ name)%string false 1 failures
    None None None None 0 0.

(** An administrator, and a reviewer who mistyped the password [failures]
    times. *)
Definition demo_users (failures : Z) : UWorld :=
  mkUWorld (<["u1" := demo_user "u1" "ada" ADMIN 0]> (<["u2" := demo_user "u2" "rex" REVIEWER
    failures]> ∅)) ∅ ∅ [] 0 0.
