(* ===== verification/AuthProofs.v ===== *)
(** * What authentication and user administration guarantee *)

From S2P Require Import Prelude Errors Json Contracts Text RateLimit Users Auth.
Open Scope Z_scope.

(** ** Relations between states of the user store *)

(** The primitives respect a preorder that ignores the clock, the identifiers,
    the rate limits and the audit table. *)
Class UFramed (R : UWorld -> UWorld -> Prop) := {
  uframed_preorder :: PreOrder R;
  uframed_same : forall w w', users w' = users w -> refreshes w' = refreshes w -> R w w';
}.

Section Primitives.
Context `{UEnv} (R : UWorld -> UWorld -> Prop) `{!UFramed R}.

Lemma respects_u_now : respects R u_now.
Proof. intros w. by apply uframed_same. Qed.
Lemma respects_u_new_id : respects R u_new_id.
Proof. intros w. by apply uframed_same. Qed.
Lemma respects_u_audit a b c d : respects R (u_audit a b c d).
Proof. intros w. by apply uframed_same. Qed.
Lemma respects_u_atomically {A} (m : M UWorld exn A) : respects R m -> respects R (u_atomically m).
Proof.
  intros Hm w. unfold u_atomically. specialize (Hm w).
  destruct (m w) as [w' [a|e]]; [done|]. by apply uframed_same.
Qed.
Lemma from_u_atomically {A} P (m : M UWorld exn A) : from P R m -> from P R (u_atomically m).
Proof.
  intros Hm w Hw. unfold u_atomically. specialize (Hm w Hw).
  destruct (m w) as [w' [a|e]]; [done|]. by apply uframed_same.
Qed.
Lemma respects_limiter key group limit window : respects R (limiter key group limit window).
Proof.
  intros w. unfold limiter, bind, u_now. simpl. destruct (allow _ _ _ _ _ _ _) as [r [ok t]]. by apply uframed_same.
Qed.
Lemma respects_user_of uid : respects R (user_of uid).
Proof. apply respects_gets, _. Qed.
End Primitives.

#[export] Hint Extern 0 (UFramed _) => typeclasses eauto : pres.
#[export] Hint Resolve respects_u_now respects_u_new_id respects_u_audit respects_limiter
  respects_user_of : pres.

Ltac u_respect :=
  repeat (first
    [ lazymatch goal with
      | |- respects _ (u_atomically _) => apply respects_u_atomically; [typeclasses eauto|]
      end
    | respect_step ]).

Ltac u_follow :=
  repeat lazymatch goal with
  | |- respects ?R (u_atomically _) => apply respects_u_atomically; [typeclasses eauto|]
  | |- respects _ (bind (gets _) _) => apply respects_from
  | |- respects _ (bind (user_of _) _) => apply respects_from
  | |- from _ _ (u_atomically _) => apply from_u_atomically; [typeclasses eauto|]
  | |- from _ _ (bind (gets _) _) => apply from_gets; [typeclasses eauto|intros ?]
  | |- from _ _ (bind (user_of _) _) => apply from_gets; [typeclasses eauto|intros ?]
  | |- from _ _ (bind (guard _ _) _) => apply from_guard; [typeclasses eauto|intros ?]
  | |- from _ _ (bind (put_user _ _) _) => fail "write"
  | |- from _ _ (bind _ _) =>
      apply from_bind; [typeclasses eauto|solve [u_respect]|solve [u_respect]|intros ?]
  | |- from _ _ (match ?x with _ => _ end) => destruct x eqn:?
  | |- from _ _ (let _ := _ in _) => cbv zeta
  | |- from _ _ (put_user _ _) => fail "write"
  | |- from _ _ _ => apply from_respects; solve [u_respect]
  | |- respects _ _ => respect_step
  end.

(** Facts about the two tables are kept by the primitives. *)
Lemma uframed_keeps (I : UWorld -> Prop) :
  (forall w w', users w' = users w -> refreshes w' = refreshes w -> I w -> I w') ->
  UFramed (keeps I).
Proof. intros HI. split; [apply _|]. intros w w' Hu Hs Hi. by eapply HI. Qed.
#[export] Hint Extern 1 (UFramed (keeps _)) =>
  apply uframed_keeps; intros ? ? HEu HEs HI; unfold active_admins in *;
  rewrite ?HEu, ?HEs; exact HI : typeclass_instances.

(** A user never disappears, keeps the id, and the token version only grows; a
    refresh session keeps its token and stays revoked once it is. *)
Record user_evolves (u u' : AppUser) : Prop := {
  uv_id : user_id u' = user_id u;
  uv_version : token_version u <= token_version u';
}.
Record session_evolves (s s' : RefreshSession) : Prop := {
  sv_keys : (rs_id s', rs_user_id s', token_hash s', rs_jti s', token_family_id s')
            = (rs_id s, rs_user_id s, token_hash s, rs_jti s, token_family_id s);
  sv_revoked : forall t, revoked_at s = Some t -> revoked_at s' = Some t;
}.
Record user_history (w w' : UWorld) : Prop := {
  uh_users : forall k u, users w !! k = Some u ->
    exists u', users w' !! k = Some u' /\ user_evolves u u';
  uh_sessions : forall k s, refreshes w !! k = Some s ->
    exists s', refreshes w' !! k = Some s' /\ session_evolves s s';
}.

#[export] Instance user_history_preorder : PreOrder user_history.
Proof.
  split.
  - intros w. split; intros k x Hx; exists x; (split; [done|by split]).
  - intros w1 w2 w3 [U1 S1] [U2 S2]. split; intros k x Hx.
    + destruct (U1 _ _ Hx) as (y & Hy & [I1 V1]). destruct (U2 _ _ Hy) as (z & Hz & [I2 V2]).
      exists z. split; [done|]. split; [congruence|lia].
    + destruct (S1 _ _ Hx) as (y & Hy & [K1 R1]). destruct (S2 _ _ Hy) as (z & Hz & [K2 R2]).
      exists z. split; [done|]. split; [congruence|auto].
Qed.
#[export] Instance user_history_framed : UFramed user_history.
Proof.
  split; [apply _|]. intros w w' Hu Hs. split; rewrite ?Hu, ?Hs; intros k x Hx; exists x;
    (split; [done|by split]).
Qed.

Lemma history_put_user w k u u' :
  users w !! k = Some u -> user_evolves u u' -> user_history w (w <| users ::= insert k u' |>).
Proof.
  intros Hu Hv. split; simpl; [|intros i s Hs; exists s; by split; [|split]].
  intros i v Hi. destruct (decide (i = k)) as [->|Hne].
  - exists u'. rewrite lookup_insert_eq. split; [done|]. congruence.
  - exists v. rewrite lookup_insert_ne by done. split; [done|by split].
Qed.

Lemma history_put_session w k s' :
  (forall s, refreshes w !! k = Some s -> session_evolves s s') ->
  user_history w (w <| refreshes ::= insert k s' |>).
Proof.
  intros Hv. split; simpl; [intros i u Hu; exists u; by split; [|split]|].
  intros i t Hi. destruct (decide (i = k)) as [->|Hne].
  - exists s'. rewrite lookup_insert_eq. auto.
  - exists t. rewrite lookup_insert_ne by done. split; [done|by split].
Qed.

Section History.
Context `{UEnv}.

Lemma put_user_history k u u' :
  user_evolves u u' -> from (fun w => users w !! k = Some u) user_history (put_user k u').
Proof. intros Hv w Hw. by apply (history_put_user w k u u'). Qed.

Lemma revoke_where_history p reason : respects user_history (revoke_where p reason).
Proof.
  unfold revoke_where. u_respect. apply respects_modify. intros w.
  split; simpl; [intros i u Hu; exists u; by split; [|split]|].
  intros k s Hs. eexists. split; [by rewrite lookup_fmap, Hs|].
  destruct (revoked_at s) as [t|] eqn:Ht; [by split|].
  destruct (p s); split; simpl; congruence || done.
Qed.

Lemma refresh_create_history s : respects user_history (refresh_create s).
Proof.
  unfold refresh_create. apply respects_from, from_gets; [apply _|]. intros clash.
  apply from_guard; [apply _|]. intros Hc w [_ Hw]. apply history_put_session. intros s' Hs'.
  destruct clash; [done|]. apply orb_false_iff in Hw as [Hw _].
  apply bool_decide_eq_false in Hw. by destruct Hw.
Qed.

(** Writing back a user that was read, with whatever follows. *)
Lemma put_user_then {A} R `{!UFramed R} k (P : UWorld -> Prop) u' (m : M UWorld exn A) :
  (forall w, P w -> R w (w <| users ::= insert k u' |>)) -> respects R m ->
  from P R (put_user k u' ;;; m).
Proof.
  intros Hp Hm. apply (from_modify _ _ (fun _ => True)); [|by apply from_respects].
  intros w Hw. split; [by apply Hp|done].
Qed.

Ltac finish_put :=
  match goal with
  | |- from _ _ (put_user _ _ ;;; _) => apply put_user_then; [typeclasses eauto| |u_respect]
  | |- from _ _ (put_user _ _) => idtac
  end; intros w Hw; eapply history_put_user; [tauto || apply Hw|].

Lemma user_create_history u : respects user_history (user_create u).
Proof.
  unfold user_create. u_follow. apply put_user_then; [apply _| |u_respect].
  intros w [[_ Hc] _]. split; simpl; [|intros i s Hs; exists s; by split; [|split]].
  intros i v Hi. destruct a; [done|]. apply orb_false_iff in Hc as [Hc _].
  apply bool_decide_eq_false in Hc. exists v.
  rewrite lookup_insert_ne; [by split; [|split]|]. intros <-. by destruct Hc.
Qed.

Lemma profile_row_facts a b c now u :
  let u' := profile_row a b c now u in
  user_id u' = user_id u /\ user_status u' = user_status u /\ role u' = default (role u) c
  /\ token_version u' = if bool_decide (default (role u) c = role u)
                        then token_version u else token_version u + 1.
Proof.
  unfold profile_row. destruct a, b, c as [r|]; simpl; try case_bool_decide; simpl;
    rewrite ?bool_decide_true by done; done.
Qed.

Lemma update_profile_history k a b c : respects user_history (update_profile k a b c).
Proof.
  unfold update_profile. u_follow. apply put_user_then; [apply _| |u_respect].
  intros w [[_ Hw] _]. eapply history_put_user; [done|].
  destruct (profile_row_facts a b c a3 a2) as (Hid & _ & _ & Hv). split; [done|].
  rewrite Hv. case_bool_decide; lia.
Qed.

Lemma set_status_history k st : respects user_history (set_status k st).
Proof.
  unfold set_status. u_follow. apply put_user_then; [apply _| |u_respect].
  intros w [_ Hw]. eapply history_put_user; [done|].
  destruct st; split; simpl; lia || done.
Qed.

Lemma record_login_failure_history k : respects user_history (record_login_failure k).
Proof.
  unfold record_login_failure. respect_step; [u_respect|]. u_follow.
  apply put_user_then; [apply _| |u_respect].
  intros w [_ Hw]. eapply history_put_user; [done|]. by destruct (5 <=? _).
Qed.

Lemma record_login_success_history k : respects user_history (record_login_success k).
Proof.
  unfold record_login_success. respect_step; [u_respect|]. u_follow.
  apply put_user_then; [apply _| |u_respect].
  intros w [_ Hw]. by eapply history_put_user.
Qed.

Lemma replace_password_history k h b : respects user_history (replace_password k h b).
Proof.
  unfold replace_password. u_follow. apply put_user_then; [apply _| |u_respect].
  intros w [_ Hw]. eapply history_put_user; [done|]. split; simpl; lia || done.
Qed.

Lemma increment_history k : respects user_history (increment_token_version k).
Proof.
  unfold increment_token_version. u_follow. intros w [_ Hw].
  eapply history_put_user; [done|]. split; simpl; lia || done.
Qed.

Lemma rotate_history a b c s : respects user_history (rotate a b c s).
Proof.
  unfold rotate. u_follow.
  eapply from_modify; [apply _| |apply (from_respects _ (fun _ => True))].
  - intros w [_ Hw]. split; [|exact I]. apply history_put_session. intros s' Hs'.
    assert (s' = r) as -> by congruence. by split; [|intros t Ht; congruence].
  - respect_step; [apply refresh_create_history|u_respect].
Qed.
End History.

#[export] Hint Resolve user_create_history update_profile_history set_status_history
  record_login_failure_history record_login_success_history replace_password_history
  increment_history rotate_history revoke_where_history refresh_create_history : pres.

(** ** Sequences of operations *)

Section Operations.
Context `{UEnv, Libraries} (st : AuthSettings).

(** One operation of the two services, whatever its outcome. *)
Inductive user_op : UWorld -> UWorld -> Prop :=
| op_login w name pw ip : user_op w (fst (login st name pw ip w))
| op_refresh w token ip : user_op w (fst (refresh st token ip w))
| op_authenticate w token : user_op w (fst (authenticate_access st token w))
| op_change_password w a old new : user_op w (fst (change_password st a old new w))
| op_logout w a token : user_op w (fst (logout st a token w))
| op_logout_all w a : user_op w (fst (logout_all a w))
| op_create w n d m r p a : user_op w (fst (create_user n d m r p a w))
| op_patch w k n m r a : user_op w (fst (patch_user k n m r a w))
| op_disable w k a : user_op w (fst (disable_user k a w))
| op_enable w k a : user_op w (fst (enable_user k a w))
| op_reset w k p a : user_op w (fst (reset_password k p a w))
| op_revoke w k a : user_op w (fst (revoke_sessions k a w)).

(** A preorder all repository operations respect is respected by the
    services. *)
Lemma user_op_respects R `{!UFramed R} :
  (forall s, respects R (refresh_create s)) -> (forall a b c s, respects R (rotate a b c s)) ->
  (forall p r, respects R (revoke_where p r)) ->
  (forall u, respects R (user_create u)) ->
  (forall k a b c, respects R (update_profile k a b c)) ->
  (forall k s, respects R (set_status k s)) ->
  (forall k, respects R (record_login_failure k)) ->
  (forall k, respects R (record_login_success k)) ->
  (forall k h b, respects R (replace_password k h b)) ->
  (forall k, respects R (increment_token_version k)) ->
  forall w w', user_op w w' -> R w w'.
Proof.
  intros H1 H2 H3 H4 H5 H6 H7 H8 H9 H10 w w' [];
    match goal with |- R ?w (fst (?m ?w)) => revert w; change (respects R m) end;
    intros;
    unfold login, login_limits, refresh, refresh_rotate, authenticate_access, change_password,
      logout, logout_all, create_user, patch_user, disable_user, enable_user, reset_password,
      revoke_sessions, issue_pair, issue_access, issue_refresh, decode, audit_service,
      current_user, get_user, admin_audit, hash_password, validate_password,
      by_normalized_username, revoke, revoke_user, revoke_family, throw;
    u_respect.
Qed.

Lemma user_ops_history w w' : rtc user_op w w' -> user_history w w'.
Proof.
  induction 1 as [|w1 w2 w3 Hs _ IH]; [reflexivity|]. etransitivity; [|exact IH].
  by apply (user_op_respects user_history); eauto with pres.
Qed.
End Operations.

(** ** There is always an administrator *)

Definition has_admin (w : UWorld) : Prop :=
  exists k u, users w !! k = Some u /\ is_active_admin u = true.

#[export] Instance has_admin_framed : UFramed (keeps has_admin).
Proof. apply uframed_keeps. intros w w' Hu _ (k & u & Hk & Ha). exists k, u. by rewrite Hu. Qed.

(** When two rows are active administrators, one of them is not [k]. *)
Lemma another_admin w k :
  (1 < length (active_admins w))%nat ->
  exists i u, i <> k /\ users w !! i = Some u /\ is_active_admin u = true.
Proof.
  intros Hl. pose proof (NoDup_fst_map_to_list (users w)) as Hnd.
  assert (Hin : forall iu, iu ∈ map_to_list (users w) -> users w !! fst iu = Some (snd iu))
    by (intros [i u] Hi; by apply elem_of_map_to_list).
  unfold active_admins in Hl. revert Hl Hin Hnd. generalize (map_to_list (users w)) as l.
  assert (H1 : forall l : list (string * AppUser), NoDup (fst <$> l) -> k ∉ (fst <$> l) ->
    (forall iu, iu ∈ l -> users w !! fst iu = Some (snd iu)) ->
    (0 < length (filter (fun u => is_active_admin u = true) (snd <$> l)))%nat ->
    exists i u, i <> k /\ users w !! i = Some u /\ is_active_admin u = true).
  { induction l as [|[i u] l IH]; intros Hnd Hk Hin Hl; [simpl in Hl; lia|].
    rewrite !fmap_cons in *.
    apply NoDup_cons in Hnd as [_ Hnd]. apply not_elem_of_cons in Hk as [Hik Hk].
    rewrite list.filter_cons in Hl. case_decide as Ha; [|].
    - exists i, u. split_and!; [done|apply (Hin (i, u)); by left|done].
    - apply IH; [done|done| |done]. intros iu Hiu. apply Hin. by right. }
  induction l as [|[i u] l IH]; intros Hl Hin Hnd; [simpl in Hl; lia|].
  rewrite !fmap_cons in *.
  apply NoDup_cons in Hnd as [Hi Hnd]. rewrite list.filter_cons in Hl.
  assert (Hin' : forall iu, iu ∈ l -> users w !! fst iu = Some (snd iu))
    by (intros iu Hiu; apply Hin; by right).
  destruct (decide (i = k)) as [->|Hne].
  - apply (H1 l); [done..|]. case_decide; cbn [length] in Hl; lia.
  - case_decide as Ha; [|by apply IH].
    exists i, u. split_and!; [done|apply (Hin (i, u)); by left|done].
Qed.

Section Admins.
Context `{UEnv}.

Lemma keep_admin w k u u' :
  users w !! k = Some u ->
  (is_active_admin u = true -> is_active_admin u' = false -> (1 < length (active_admins w))%nat) ->
  has_admin w -> has_admin (w <| users ::= insert k u' |>).
Proof.
  intros Hu Hg (i & v & Hi & Hv). destruct (decide (i = k)) as [->|Hne].
  - assert (v = u) as -> by congruence. destruct (is_active_admin u') eqn:Hu'.
    + exists k, u'. simpl. by rewrite lookup_insert_eq.
    + destruct (another_admin w k (Hg Hv eq_refl)) as (j & x & Hj & Hx & Hax).
      exists j, x. simpl. by rewrite lookup_insert_ne.
  - exists i, v. simpl. by rewrite lookup_insert_ne.
Qed.

(** A write that leaves role and status alone. *)
Lemma put_same_admin w k u u' :
  users w !! k = Some u -> role u' = role u -> user_status u' = user_status u ->
  keeps has_admin w (w <| users ::= insert k u' |>).
Proof.
  intros Hu Hr Hs. unfold keeps. apply (keep_admin w k u); [done|].
  unfold is_active_admin. rewrite Hr, Hs. congruence.
Qed.

Lemma modify_refreshes_admin f :
  respects (keeps has_admin) (modify (E := exn) (fun w => w <| refreshes ::= f |>)).
Proof. intros w (k & u & ?). by exists k, u. Qed.
Hint Resolve modify_refreshes_admin : pres.

Lemma update_profile_admin k a b c : respects (keeps has_admin) (update_profile k a b c).
Proof.
  unfold update_profile. u_follow. apply put_user_then; [apply _| |u_respect].
  intros w [[[_ Hl] Hw] _]. unfold keeps. apply (keep_admin w k a2); [done|].
  destruct (profile_row_facts a b c a3 a2) as (_ & Hs & Hr & _).
  unfold is_active_admin. rewrite Hs, Hr. intros [Ha1 Ha2]%andb_true_iff Hf. rewrite Ha2 in *.
  rewrite andb_true_r in Hf. rewrite Ha1 in H0. simpl in H0.
  destruct c as [r|]; simpl in *; [|congruence]. rewrite Hf in H0. simpl in H0.
  rewrite Hl. apply negb_true_iff, Nat.leb_gt in H0. lia.
Qed.

Lemma set_status_admin k s : respects (keeps has_admin) (set_status k s).
Proof.
  unfold set_status. u_follow. apply put_user_then; [apply _| |u_respect].
  intros w [[_ Hl] Hw]. unfold keeps. apply (keep_admin w k a1); [done|].
  intros Ha Hf. rewrite Ha, andb_true_r in H0. rewrite Hl.
  destruct s; [|apply negb_true_iff, Nat.leb_gt in H0; simpl in *; lia].
  exfalso. unfold is_active_admin in *. simpl in Hf.
  apply andb_true_iff in Ha as [Ha _]. by rewrite Ha in Hf.
Qed.

Lemma record_login_failure_admin k : respects (keeps has_admin) (record_login_failure k).
Proof.
  unfold record_login_failure. respect_step; [u_respect|]. u_follow.
  apply put_user_then; [apply _| |u_respect].
  intros w [_ Hw]. eapply put_same_admin; [done|..]; by destruct (5 <=? _).
Qed.

Lemma record_login_success_admin k : respects (keeps has_admin) (record_login_success k).
Proof.
  unfold record_login_success. respect_step; [u_respect|]. u_follow.
  apply put_user_then; [apply _| |u_respect]. intros w [_ Hw]. by eapply put_same_admin.
Qed.

Lemma replace_password_admin k h b : respects (keeps has_admin) (replace_password k h b).
Proof.
  unfold replace_password. u_follow. apply put_user_then; [apply _| |u_respect].
  intros w [_ Hw]. by eapply put_same_admin.
Qed.

Lemma increment_admin k : respects (keeps has_admin) (increment_token_version k).
Proof. unfold increment_token_version. u_follow. intros w [_ Hw]. by eapply put_same_admin. Qed.

Lemma user_create_admin u : respects (keeps has_admin) (user_create u).
Proof.
  unfold user_create. u_follow. apply put_user_then; [apply _| |u_respect].
  intros w [[_ Hc] _] (i & v & Hi & Hv). exists i, v. split; [|done]. simpl.
  rewrite lookup_insert_ne; [done|]. intros <-. destruct a; [done|].
  apply orb_false_iff in Hc as [Hc _]. apply bool_decide_eq_false in Hc. by destruct Hc.
Qed.

Lemma revoke_where_admin p r : respects (keeps has_admin) (revoke_where p r).
Proof. unfold revoke_where. u_respect. Qed.
Lemma refresh_create_admin s : respects (keeps has_admin) (refresh_create s).
Proof. unfold refresh_create. u_respect. Qed.
Lemma rotate_admin a b c s : respects (keeps has_admin) (rotate a b c s).
Proof. unfold rotate. pose proof refresh_create_admin. u_respect. Qed.
End Admins.
#[export] Hint Resolve update_profile_admin set_status_admin record_login_failure_admin
  record_login_success_admin replace_password_admin increment_admin user_create_admin
  revoke_where_admin refresh_create_admin rotate_admin : pres.

(** C36: the last administrator is protected.  From a state with an active
    administrator, no sequence of operations - disabling, role changes,
    whatever else - leads to a state without one. *)
Theorem admins_survive `{UEnv, Libraries} st w w' :
  has_admin w -> rtc (user_op st) w w' -> has_admin w'.
Proof.
  intros Ha Hr. induction Hr as [|w1 w2 w3 Hs _ IH]; [done|]. apply IH. revert Ha.
  change (keeps has_admin w1 w2).
  by apply (user_op_respects st (keeps has_admin)); eauto with pres.
Qed.

(** ** Refresh tokens *)

(** The payload of a token does not depend on when it is decoded. *)
Definition decode_stable `{Libraries} : Prop :=
  forall t1 t2 token secret issuer audience access c1 c2,
    jwt_decode t1 token secret issuer audience access = inl c1 ->
    jwt_decode t2 token secret issuer audience access = inl c2 -> c1 = c2.

(** Rows are stored under their id. *)
Definition keyed (w : UWorld) : Prop := forall k u, users w !! k = Some u -> user_id u = k.

Section Tokens.
Context `{UEnv, Libraries} (st : AuthSettings).

Lemma u_atomically_ok {A} (m : M UWorld exn A) w w' a :
  u_atomically m w = (w', Ok a) -> m w = (w', Ok a).
Proof. unfold u_atomically. by destruct (m w) as [w1 [b|e]]. Qed.

Lemma bind_u_now {B} (k : Z -> M UWorld exn B) w :
  bind u_now k w = k (u_utc (u_ticks w)) (w <| u_ticks ::= S |>).
Proof. done. Qed.

Lemma decode_ok acc token w w' c :
  decode st acc token w = (w', Ok (inl c)) ->
  exists now, jwt_decode now token (if acc then access_secret st else refresh_secret st)
    (jwt_issuer st) (if acc then access_audience st else refresh_audience st) acc = inl c
    /\ users w' = users w /\ refreshes w' = refreshes w.
Proof.
  unfold decode. rewrite bind_u_now. unfold ret. intros [= <- Hc].
  destruct (jwt_decode _ _ _ _ _ _) as [c'|e] eqn:Hd; [|done].
  case_bool_decide; [|done]. injection Hc as ->. eexists. by split.
Qed.

Lemma rotate_ok sid hash jti new w w' :
  rotate sid hash jti new w = (w', Ok Rotated) ->
  exists cur, refreshes w !! sid = Some cur /\ token_hash cur = hash /\ revoked_at cur = None
    /\ exists s' t, refreshes w' !! sid = Some s' /\ revoked_at s' = Some t.
Proof.
  unfold rotate. intros Hr%u_atomically_ok. rewrite bind_gets in Hr. cbv beta in Hr.
  destruct (refreshes w !! sid) as [cur|] eqn:Hcur; [|discriminate Hr].
  destruct (negb (bool_decide (token_hash cur = hash))) eqn:Hh; [discriminate Hr|].
  simpl in Hr. destruct (negb _) eqn:Hj in Hr; [discriminate Hr|].
  destruct (revoked_at cur) as [t|] eqn:Hrev; [discriminate Hr|].
  rewrite bind_u_now in Hr. cbv beta in Hr.
  destruct (_ <=? _) in Hr; [discriminate Hr|]. rewrite bind_modify in Hr.
  apply bind_ok_inv in Hr as (u & s1 & Hc & Hr). injection Hr as <-.
  apply negb_false_iff, bool_decide_eq_true in Hh.
  exists cur. split_and!; [done..|].
  apply (respects_fst _ _ _ _ _ (refresh_create_history new)) in Hc as [_ Hs].
  destruct (Hs sid _ ltac:(simpl; apply lookup_insert_eq)) as (s' & Hs' & [_ Hrv]).
  eexists s', _. split; [done|]. by apply Hrv.
Qed.

(** A refresh that succeeds found its session unused and left it revoked. *)
Lemma refresh_ok token ip w w' r :
  refresh st token ip w = (w', Ok r) ->
  exists now c w1 w2 cur, jwt_decode now token (refresh_secret st) (jwt_issuer st)
      (refresh_audience st) false = inl c
    /\ user_history w w1 /\ user_history w2 w'
    /\ refreshes w1 !! or_empty (c_session_id c) = Some cur /\ revoked_at cur = None
    /\ exists s' t, refreshes w2 !! or_empty (c_session_id c) = Some s' /\ revoked_at s' = Some t.
Proof.
  unfold refresh. intros Hr. apply bind_ok_inv in Hr as (u0 & s0 & Hl & Hr).
  apply (respects_fst user_history) in Hl; [|u_respect].
  apply bind_ok_inv in Hr as ([c|[]] & s1 & Hd & Hr);
    [|by run_inv Hr|by run_inv Hr].
  apply decode_ok in Hd as (now & Hd & Hu1 & Hs1).
  assert (H01 : user_history s0 s1) by (by apply uframed_same).
  unfold user_of in Hr. rewrite bind_gets in Hr. cbv beta in Hr.
  destruct (users s1 !! sub c) as [u|]; [|by run_inv Hr].
  destruct (negb _) in Hr; [by run_inv Hr|].
  unfold refresh_rotate in Hr. cbv zeta in Hr.
  apply bind_ok_inv in Hr as (nsid & s2 & Ha & Hr).
  apply (respects_fst user_history) in Ha; [|u_respect].
  apply bind_ok_inv in Hr as (njti & s3 & Hb & Hr).
  apply (respects_fst user_history) in Hb; [|u_respect].
  apply bind_ok_inv in Hr as (fresh & s4 & Hc & Hr).
  apply (respects_fst user_history) in Hc; [|unfold issue_refresh; u_respect].
  apply bind_ok_inv in Hr as (n & s5 & He & Hr).
  apply (respects_fst user_history) in He; [|u_respect].
  apply bind_ok_inv in Hr as (res & s6 & Hrot & Hr).
  destruct res as [|x y|]; [by run_inv Hr|by run_inv Hr|].
  apply (respects_fst user_history) in Hr;
    [|unfold issue_access, current_user, throw; u_respect].
  apply rotate_ok in Hrot as (cur & Hcur & _ & Hrev & s' & t & Hs' & Ht).
  exists now, c, s5, s6, cur. split_and!; [done| |done..|by exists s', t].
  by repeat (etransitivity; [eassumption|]).
Qed.
End Tokens.

(** C34: a refresh token is accepted at most once.  After a successful refresh,
    whatever happens in between - further refreshes, log-outs, password
    changes - the same token is refused. *)
Theorem refresh_single_use `{UEnv, Libraries} st token ip ip' w w1 r w2 :
  decode_stable -> refresh st token ip w = (w1, Ok r) -> rtc (user_op st) w1 w2 ->
  exists w3 e, refresh st token ip' w2 = (w3, Raise e).
Proof.
  intros Hst Hr Hops. destruct (refresh st token ip' w2) as [w3 [r'|e]] eqn:Hr'; [|by exists w3, e].
  exfalso. apply refresh_ok in Hr as (n1 & c1 & wa & wb & cur & Hd1 & _ & Hh & _ & _ & s' & t & Hs' & Ht).
  apply refresh_ok in Hr' as (n2 & c2 & wc & wd & cur' & Hd2 & Hh' & _ & Hc' & Hrev & _).
  rewrite (Hst _ _ _ _ _ _ _ _ _ Hd2 Hd1) in Hc'.
  assert (Hall : user_history wb wc).
  { etransitivity; [exact Hh|]. etransitivity; [by eapply user_ops_history|exact Hh']. }
  destruct (uh_sessions _ _ Hall _ _ Hs') as (s2 & Hs2 & [_ Hr2]).
  specialize (Hr2 _ Ht). congruence.
Qed.

Lemma increment_run `{UEnv} uid u w :
  users w !! uid = Some u ->
  increment_token_version uid w
  = (w <| users := <[uid := u <| token_version ::= Z.succ |>
            <| user_updated_at := u_utc (u_ticks w) |>]> (users w) |> <| u_ticks ::= S |>, Ok tt).
Proof.
  intros Hu. unfold increment_token_version, user_of, u_atomically.
  rewrite bind_gets, bind_u_now. cbv beta. by rewrite Hu.
Qed.

(** presenting a used refresh token is detected and cuts off its family:
    the request fails as a reuse, every session of the token's family is
    revoked, and the owner's token version moves on, so that the access tokens
    issued so far are void as well. *)
Theorem reuse_revokes_family `{UEnv, Libraries} st token c u w cur t v :
  refreshes w !! or_empty (c_session_id c) = Some cur ->
  token_hash cur = token_digest token -> rs_jti cur = c_jti c -> revoked_at cur = Some t ->
  users w !! rs_user_id cur = Some v ->
  exists w' v', refresh_rotate st token c u w = (w', Raise (Domain AuthRefreshReusedError []))
    /\ (forall k s, refreshes w' !! k = Some s -> token_family_id s = token_family_id cur ->
          revoked_at s <> None)
    /\ users w' !! rs_user_id cur = Some v' /\ token_version v' = token_version v + 1.
Proof.
  intros Hs Hh Hj Ht Hv. eexists _, _. split.
  - unfold refresh_rotate, issue_refresh, u_new_id, u_now, rotate, u_atomically, bind, gets, ret.
    simpl. rewrite Hs, Hh, Hj, !bool_decide_true by done. simpl. rewrite Ht. simpl.
    erewrite increment_run by exact Hv. done.
  - simpl. split; [|rewrite lookup_insert_eq; split; [done|]; simpl; lia].
    intros k s. rewrite lookup_fmap. destruct (refreshes w !! k) as [s0|]; simpl; [|done].
    intros [= <-]. destruct (revoked_at s0) eqn:E; [by rewrite E|].
    case_bool_decide; simpl; [done|]. intros ?. congruence.
Qed.

(** ** Lock-out and disabling *)

(** Normalised user names are unique. *)
Definition unique_names (w : UWorld) : Prop :=
  forall k1 k2 u1 u2, users w !! k1 = Some u1 -> users w !! k2 = Some u2 ->
    username_normalized u1 = username_normalized u2 -> k1 = k2.

(** The row a login name belongs to. *)
Definition row_named (name : string) (w : UWorld) : option AppUser :=
  find_first (fun u => bool_decide (username_normalized u = name)) (snd <$> map_to_list (users w)).

Lemma row_named_Some name w u :
  keyed w -> row_named name w = Some u ->
  users w !! user_id u = Some u /\ username_normalized u = name.
Proof.
  intros Hk [Hin Hn%bool_decide_eq_true]%find_first_Some. split; [|done].
  apply list_elem_of_fmap in Hin as ([k v] & -> & Hin%elem_of_map_to_list). simpl in *.
  by rewrite (Hk _ _ Hin).
Qed.

Lemma row_named_put name w u u' :
  unique_names w -> users w !! user_id u = Some u -> username_normalized u = name ->
  username_normalized u' = name ->
  row_named name (w <| users := <[user_id u := u']> (users w) |>) = Some u'.
Proof.
  intros Hq Hu Hn Hn'. unfold row_named. simpl.
  destruct (find_first _ _) as [v|] eqn:Hf.
  - apply find_first_Some in Hf as [Hin Hv%bool_decide_eq_true].
    apply list_elem_of_fmap in Hin as ([k v'] & -> & Hin%elem_of_map_to_list). simpl in *.
    apply lookup_insert_Some in Hin as [[_ ->]|[Hne Hin]]; [done|].
    destruct Hne. apply (Hq _ _ u v'); congruence.
  - eapply find_first_None with (x := u') in Hf; [by rewrite bool_decide_true in Hf|].
    apply list_elem_of_fmap. exists (user_id u, u'). split; [done|].
    apply elem_of_map_to_list. by rewrite lookup_insert_eq.
Qed.


(** guessing a password is cut short.  The fifth wrong password in a row
    locks the account for fifteen minutes: that attempt already reports the
    lock, and until it expires every further log-in is refused, even with the
    right password, and changes neither users nor sessions. *)
Theorem fifth_failure_locks `{UEnv, Libraries} st name pw ip w u :
  rate_limit_enabled st = false -> keyed w -> unique_names w ->
  row_named (normalize_username name) w = Some u -> locked_until u = None ->
  failed_login_count u = 4 -> pw_verify pw (password_hash u) = false ->
  exists w1, login st name pw ip w = (w1, Raise (Domain AuthAccountLockedError []))
    /\ forall pw' ip', u_utc (u_ticks w1) < u_utc (S (u_ticks w)) + minutes 15 ->
         exists w2, login st name pw' ip' w1 = (w2, Raise (Domain AuthAccountLockedError []))
           /\ users w2 = users w1 /\ refreshes w2 = refreshes w.
Proof.
  intros Hr Hk Hq Hrow Hl Hf Hpw. destruct (row_named_Some _ _ _ Hk Hrow) as [Hu Hn].
  set (t := u_utc (S (u_ticks w))).
  set (u' := u <| failed_login_count ::= Z.succ |> <| locked_until := Some (t + minutes 15) |>
               <| user_updated_at := t |>).
  assert (Hrow' : row_named (normalize_username name)
      (w <| users := <[user_id u := u']> (users w) |>) = Some u') by by apply row_named_put.
  eexists. split.
  - unfold login, login_limits. rewrite Hr, bind_ret. unfold by_normalized_username.
    rewrite bind_gets. cbv beta. fold (row_named (normalize_username name) w). rewrite Hrow.
    rewrite bind_u_now. cbv beta. rewrite Hl, Hpw. cbv beta iota zeta delta [negb orb].
    rewrite (bind_ok _ _ _ (w <| users := <[user_id u := u']> (users w) |>
      <| u_ticks := S (S (u_ticks w)) |>) true); [reflexivity|].
    unfold record_login_failure, u_atomically, user_of, u', t.
    rewrite bind_u_now. cbv beta. rewrite bind_gets. cbv beta. simpl. rewrite Hu. simpl.
    by rewrite Hf.
  - intros pw' ip' Ht. eexists. split.
    + unfold login, login_limits. rewrite Hr, bind_ret. unfold by_normalized_username.
      rewrite bind_gets. cbv beta. unfold row_named in Hrow'. simpl in Hrow' |- *.
      rewrite Hrow'. rewrite bind_u_now. cbv beta. simpl.
      rewrite (proj2 (Z.ltb_lt _ _)); [reflexivity|]. exact Ht.
    + done.
Qed.

Section Disabling.
Context `{UEnv, Libraries} (st : AuthSettings).

Lemma authenticate_ok token w w' a p :
  authenticate_access st token w = (w', Ok (a, p)) ->
  exists now c u, jwt_decode now token (access_secret st) (jwt_issuer st) (access_audience st) true
      = inl c
    /\ users w !! sub c = Some u /\ user_status u = ACTIVE /\ token_version u = c_token_version c
    /\ actor_id a = user_id u /\ users w' = users w.
Proof.
  unfold authenticate_access. intros Hr. apply bind_ok_inv in Hr as ([c|[]] & s1 & Hd & Hr);
    [|discriminate Hr|discriminate Hr].
  apply decode_ok in Hd as (now & Hd & Hu & _). unfold user_of in Hr. rewrite bind_gets in Hr.
  cbv beta in Hr. rewrite Hu in Hr. destruct (users w !! sub c) as [u|] eqn:Hs; [|discriminate Hr].
  rewrite bind_guard in Hr. destruct (_ && _ && _) eqn:Hg; [|discriminate Hr].
  apply andb_true_iff in Hg as [[Ha%bool_decide_eq_true Hv%Z.eqb_eq]%andb_true_iff _].
  unfold current_user, user_of in Hr. rewrite bind_gets in Hr || idtac.
  apply bind_ok_inv in Hr as (q & s2 & Hq & Hr). rewrite bind_gets in Hq. cbv beta in Hq.
  destruct (users s1 !! user_id u) in Hq; [|discriminate Hq]. injection Hq as <- <-.
  injection Hr as <- <- <-. exists now, c, u. by split_and!.
Qed.

(** Disabling an active user moves the token version. *)
Lemma disable_bumps k a w w' p u :
  disable_user k a w = (w', Ok p) -> users w !! k = Some u -> user_status u = ACTIVE ->
  exists u', users w' !! k = Some u' /\ token_version u < token_version u'.
Proof.
  unfold disable_user. intros Hr Hu Ha. run_step Hr.
  apply bind_ok_inv in Hr as (v & s1 & Hg & Hr). unfold get_user, user_of in Hg.
  rewrite bind_gets in Hg. cbv beta in Hg. rewrite Hu in Hg. injection Hg as <- <-.
  apply bind_ok_inv in Hr as ([q|] & s2 & Hs & Hr); [|discriminate Hr].
  apply u_atomically_ok in Hs. rewrite bind_gets in Hs. cbv beta in Hs.
  unfold user_of in Hs. rewrite bind_gets in Hs. cbv beta in Hs. rewrite Hu in Hs.
  run_step Hs. rewrite bool_decide_false in Hs by (rewrite Ha; done).
  rewrite bind_u_now in Hs. cbv beta zeta in Hs. injection Hs as <- _.
  apply (respects_fst user_history) in Hr;
    [|unfold revoke_user, admin_audit; u_respect].
  edestruct (uh_users _ _ Hr k) as (u' & Hu' & [_ Hv]); [apply lookup_insert_eq|].
  exists u'. split; [done|]. simpl in Hv. lia.
Qed.
End Disabling.

(** C35: disabling a user takes effect at once and for good.  An access token
    that was accepted is refused after the user has been disabled, whatever
    operations follow - even enabling the user again. *)
Theorem disabled_user_locked_out `{UEnv, Libraries} st token w w1 a p admin w2 q w3 :
  decode_stable -> keyed w -> authenticate_access st token w = (w1, Ok (a, p)) ->
  disable_user (actor_id a) admin w1 = (w2, Ok q) -> rtc (user_op st) w2 w3 ->
  exists w4 e, authenticate_access st token w3 = (w4, Raise e).
Proof.
  intros Hst Hk Ha Hd Hops.
  destruct (authenticate_access st token w3) as [w4 [[a' p']|e]] eqn:Ha'; [|by exists w4, e].
  exfalso. apply authenticate_ok in Ha as (n1 & c & u & Hd1 & Hu & Hact & Hv & Hid & Hw).
  apply authenticate_ok in Ha' as (n2 & c' & u' & Hd2 & Hu' & _ & Hv' & _ & _).
  assert (c' = c) as -> by by eapply Hst.
  rewrite Hid, (Hk _ _ Hu) in Hd. rewrite <-Hw in Hu.
  destruct (disable_bumps _ _ _ _ _ _ Hd Hu Hact) as (v & Hv2 & Hlt).
  destruct (uh_users _ _ (user_ops_history _ _ _ Hops) _ _ Hv2) as (v' & Hv3 & [_ Hle]).
  assert (v' = u') as -> by congruence. lia.
Qed.

(** ** Concrete runs *)

Lemma demo_decode_stable : @decode_stable demo_libraries.
Proof.
  intros t1 t2 token secret issuer audience access c1 c2. simpl. unfold demo_decode.
  destruct (demo_parse token) as [[s c]|]; [|done]. destruct (_ && _ && _); [|done].
  destruct (_ <=? t1), (_ <=? t2); congruence.
Qed.

Lemma demo_users_rows n k u :
  users (demo_users n) !! k = Some u -> k = user_id u /\ user_id u = ("u" +:+
    if bool_decide (username_normalized u = "ada") then "1" else "2").
Proof.
  unfold demo_users. simpl. intros Hu. apply lookup_insert_Some in Hu as [[<- <-]|[_ Hu]]; [done|].
  apply lookup_insert_Some in Hu as [[<- <-]|[_ Hu]]; [done|]. by rewrite lookup_empty in Hu.
Qed.

Lemma demo_users_keyed n : keyed (demo_users n).
Proof. intros k u Hu. by apply demo_users_rows in Hu as [-> _]. Qed.

Lemma keyed_check w :
  forallb (fun ku => bool_decide (user_id (snd ku) = fst ku)) (map_to_list (users w)) = true ->
  keyed w.
Proof.
  intros H k u Hu%elem_of_map_to_list. rewrite forallb_forall in H.
  apply list_elem_of_In in Hu. by apply H, bool_decide_eq_true in Hu.
Qed.

Lemma demo_users_unique n : unique_names (demo_users n).
Proof.
  intros k1 k2 u1 u2 [-> H1]%demo_users_rows [-> H2]%demo_users_rows Hn. by rewrite H1, H2, Hn.
Qed.

Definition demo_outcome {A} (r : UWorld * outcome exn A) (d : A) : A :=
  match snd r with Ok a => a | Raise _ => d end.
Definition demo_no_tokens : TokenResponse := mkTokens "" "" 0 0 (demo_user "" "" ADMIN 0).

(** The reviewer logs in. *)
Definition demo_login : UWorld * outcome exn TokenResponse :=
  @login demo_uenv demo_libraries (demo_settings true) "rex" "correct horse rex" None
    (demo_users 0).
Definition demo_tokens : TokenResponse := demo_outcome demo_login demo_no_tokens.

Lemma demo_run {A} (r : UWorld * outcome exn A) d :
  match snd r with Ok _ => True | Raise _ => False end -> r = (fst r, Ok (demo_outcome r d)).
Proof. by destruct r as [w [a|e]]. Qed.

(** The token is used, and used again. *)
Definition demo_refresh (token : string) (w : UWorld) : UWorld * outcome exn TokenResponse :=
  @refresh demo_uenv demo_libraries (demo_settings true) token None w.
Definition demo_refreshed : UWorld * outcome exn TokenResponse :=
  demo_refresh (refresh_token demo_tokens) (fst demo_login).
Definition demo_authenticated : UWorld * outcome exn (ActorContext * AppUser) :=
  @authenticate_access demo_uenv demo_libraries (demo_settings true) (access_token demo_tokens)
    (fst demo_login).
Definition demo_disable : UWorld * outcome exn AppUser :=
  @disable_user demo_uenv "u2" (mkActor "u1" ADMIN) (fst demo_authenticated).
Definition demo_claims : claims :=
  match demo_parse (refresh_token demo_tokens) with
  | Some (_, c) => c
  | None => mkClaims "" "" None None None None 0 "" "" "" 0 0
  end.
Definition demo_session : RefreshSession :=
  default (mkRefresh "" "" "" "" "" None 0 None 0 None None)
    (refreshes (fst demo_refreshed) !! or_empty (c_session_id demo_claims)).
Definition demo_owner : AppUser :=
  default (demo_user "" "" ADMIN 0) (users (fst demo_refreshed) !! rs_user_id demo_session).

Lemma admins_survive_witness :
  has_admin (fst (@disable_user demo_uenv "u2" (mkActor "u1" ADMIN) (demo_users 0))).
Proof.
  apply (@admins_survive demo_uenv demo_libraries (demo_settings true) (demo_users 0)).
  - exists "u1", (demo_user "u1" "ada" ADMIN 0). split; reflexivity.
  - eapply rtc_l; [apply op_disable|apply rtc_refl].
Defined.

Lemma refresh_single_use_witness :
  exists w3 e, demo_refresh (refresh_token demo_tokens) (fst demo_refreshed) = (w3, Raise e).
Proof.
  apply (@refresh_single_use demo_uenv demo_libraries (demo_settings true)
    (refresh_token demo_tokens) None None (fst demo_login) (fst demo_refreshed)
    (demo_outcome demo_refreshed demo_no_tokens) (fst demo_refreshed)).
  - apply demo_decode_stable.
  - apply (demo_run demo_refreshed). vm_compute. exact I.
  - apply rtc_refl.
Defined.

Lemma reuse_revokes_family_witness :
  exists w' v', @refresh_rotate demo_uenv demo_libraries (demo_settings true)
      (refresh_token demo_tokens) demo_claims (demo_user "u2" "rex" REVIEWER 0) (fst demo_refreshed)
      = (w', Raise (Domain AuthRefreshReusedError []))
    /\ (forall k s, refreshes w' !! k = Some s -> token_family_id s = token_family_id demo_session ->
          revoked_at s <> None)
    /\ users w' !! rs_user_id demo_session = Some v' /\ token_version v' = token_version demo_owner + 1.
Proof.
  apply (@reuse_revokes_family demo_uenv demo_libraries (demo_settings true)
    (refresh_token demo_tokens) demo_claims (demo_user "u2" "rex" REVIEWER 0) (fst demo_refreshed)
    demo_session (default 0 (revoked_at demo_session))
    demo_owner); vm_compute; reflexivity.
Defined.

Lemma fifth_failure_locks_witness :
  exists w1, @login demo_uenv demo_libraries (demo_settings false) "rex" "wrong" None (demo_users 4)
      = (w1, Raise (Domain AuthAccountLockedError []))
    /\ forall pw' ip', @u_utc demo_uenv (u_ticks w1) < @u_utc demo_uenv (S (u_ticks (demo_users 4))) + minutes 15 ->
         exists w2, @login demo_uenv demo_libraries (demo_settings false) "rex" pw' ip' w1
             = (w2, Raise (Domain AuthAccountLockedError []))
           /\ users w2 = users w1 /\ refreshes w2 = refreshes (demo_users 4).
Proof.
  apply (@fifth_failure_locks demo_uenv demo_libraries (demo_settings false) "rex" "wrong" None
    (demo_users 4) (demo_user "u2" "rex" REVIEWER 4)).
  - reflexivity.
  - apply demo_users_keyed.
  - apply demo_users_unique.
  - vm_compute. reflexivity.
  - reflexivity.
  - reflexivity.
  - vm_compute. reflexivity.
Defined.

Lemma disabled_user_locked_out_witness :
  exists w4 e, @authenticate_access demo_uenv demo_libraries (demo_settings true)
    (access_token demo_tokens) (fst demo_disable) = (w4, Raise e).
Proof.
  apply (@disabled_user_locked_out demo_uenv demo_libraries (demo_settings true)
    (access_token demo_tokens) (fst demo_login) (fst demo_authenticated)
    (mkActor "u2" REVIEWER) (t_user demo_tokens) (mkActor "u1" ADMIN) (fst demo_disable)
    (demo_outcome demo_disable (demo_user "" "" ADMIN 0)) (fst demo_disable)).
  - apply demo_decode_stable.
  - apply keyed_check. vm_compute. reflexivity.
  - vm_compute. reflexivity.
  - vm_compute. reflexivity.
  - apply rtc_refl.
Defined.
