(* ===== verification/Listings.v ===== *)
(** * Lists of cases, users and failed jobs

    The list queries of [persistence/repositories/cases.py], [users/repository.py] and
    [indexing/repository.py] with the services that page through them. Cases and users are
    read page by page like the catalog: the theorems say that nothing is lost or repeated. *)

From stdpp Require Import fin_maps.
From S2P Require Import Prelude Errors Json Contracts Store IndexRepo CaseRepo CaseApp.
From S2P Require Import Regex Text Iso Cursors Paging Catalog CatalogProps Users Auth.
Open Scope Z_scope.

(** ** Cases *)

(** The query parameters of the list of cases. *)
Record CaseFilters := mkCaseFilters {
  cf_review_status : option string;
  cf_device_type : option string;
  cf_device_model : option string;
  cf_alarm_name : option string;
  cf_created_by : option string;
  cf_is_active : option bool;
}.

(** [if value is not None: query.where(column == value)] *)
Definition equals {A} `{EqDecision A} (value column : option A) : bool :=
  match value with Some _ => bool_decide (column = value) | None => true end.
(** [persistence/repositories/cases.py:107-119 conditions] *)
Definition case_ok (f : CaseFilters) (c : DiagnosisCase) : bool :=
  equals (cf_review_status f) (Some (case_status_value (review_status c)))
  && equals (cf_device_type f) (Store.device_type c) && equals (cf_device_model f) (Store.device_model c)
  && equals (cf_alarm_name f) (Store.alarm_name c) && equals (cf_created_by f) (Some (Store.created_by c))
  && equals (cf_is_active f) (Some (is_active c)).

(** The two orders of a page: by the last change, newest or oldest first, then by
    identifier; and what lies behind a cursor.
    [persistence/repositories/cases.py:141-146 ordering] *)
Definition page_le (descending : bool) (x y : DiagnosisCase) : Prop :=
  if descending then newer_le (updated_at x) (updated_at y) (case_id x) (case_id y)
  else newer_le (- updated_at x) (- updated_at y) (case_id x) (case_id y).
Definition page_after (descending : bool) (x y : DiagnosisCase) : Prop :=
  if descending then newer_lt (updated_at x) (updated_at y) (case_id x) (case_id y)
  else newer_lt (- updated_at x) (- updated_at y) (case_id x) (case_id y).
#[export] Instance page_le_dec b x y : Decision (page_le b x y).
Proof. unfold page_le. destruct b; apply _. Defined.
#[export] Instance page_after_dec b x y : Decision (page_after b x y).
Proof. unfold page_after. destruct b; apply _. Defined.
(** [persistence/repositories/cases.py:131-140 timestamp] *)
Definition behind_cursor (descending : bool) (after : option (Z * string)) (c : DiagnosisCase) : bool :=
  match after with
  | Some (t, i) =>
      (if descending then updated_at c <? t else t <? updated_at c)
      || (updated_at c =? t) && bool_decide (text_lt i (case_id c))
  | None => true
  end.

Definition rows_of (w : World) : list DiagnosisCase := snd <$> map_to_list (cases w).

Definition oldest_le (x y : DiagnosisCase) : Prop :=
  newer_le (- created_at x) (- created_at y) (case_id x) (case_id y).
#[export] Instance oldest_le_dec x y : Decision (oldest_le x y).
Proof. unfold oldest_le. apply _. Defined.
Definition newest_le (x y : DiagnosisCase) : Prop := created_at y <= created_at x.
#[export] Instance newest_le_dec x y : Decision (newest_le x y).
Proof. unfold newest_le. apply _. Defined.

Section Cases.
Context (other_iso : string -> option Z).
Abbreviation C := (M World exn).

Definition lift_outcome {A} (o : outcome exn A) : C A :=
  match o with Ok a => ret a | Raise e => raise e end.

(** [persistence/repositories/cases.py:66-79 list_by_session] *)
Definition list_by_session (sid : string) : C (list DiagnosisCase) :=
  rows <- gets (fun w => listing oldest_le (fun c => bool_decide (source_session_id c = sid)) (rows_of w)) ;;
  map_m case_record rows.

(** Cases created at the same instant come in any order.
    [persistence/repositories/cases.py:81-97 list_cases] *)
Definition list_cases (f : CaseFilters) : C (list DiagnosisCase) :=
  rows <- gets (fun w => listing newest_le (case_ok f) (rows_of w)) ;;
  map_m case_record rows.

(** A page, the number of all cases that match, and the cursor of the next page.
    [persistence/repositories/cases.py:99-162 list_page] *)
Definition list_page (f : CaseFilters) (limit : nat) (cursor : option string) (sort : string)
  : C (list DiagnosisCase * nat * option string) :=
  let descending := negb (bool_decide (sort = "updated_at_asc")) in
  after <- lift_outcome (time_cursor other_iso cursor) ;;
  rows <- gets (fun w => take (S limit)
            (listing (page_le descending) (fun c => case_ok f c && behind_cursor descending after c) (rows_of w))) ;;
  total <- gets (fun w => length (filter (fun c => case_ok f c = true) (rows_of w))) ;;
  items <- map_m case_record (take limit rows) ;;
  ret (items, total,
       if (limit <? length rows)%nat
       then (fun c => encode_cursor (time_key (updated_at c) (case_id c))) <$> last items else None).

(** The answer of the API; [has_more] is whether there is a cursor.
    [api/cases.py:53-74 list_case_page] *)
Definition list_case_page (f : CaseFilters) (limit : nat) (cursor : option string) (sort : string)
  : C (list DiagnosisCase * nat * option string * bool) :=
  page <- list_page f limit cursor sort ;;
  ret (page, bool_decide (is_Some (snd page))).
End Cases.

(** ** Users *)

Section Users.
Context (like : string -> string -> bool).

(** [users/repository.py:93-106 statement] *)
Definition user_ok (q : option string) (r : option ActorRole) (st : option UserStatus) (u : AppUser) : bool :=
  (negb (ostr_true q)
   || existsb (fun c => match c with Some s => like s ("%" ++ or_empty q ++ "%") | None => false end)
        [Some (username_normalized u); Some (display_name u); email u])
  && match r with Some r => bool_decide (role u = r) | None => true end
  && match st with Some st => bool_decide (user_status u = st) | None => true end.
Definition user_le (x y : AppUser) : Prop := String.le (user_id x) (user_id y).
#[export] Instance user_le_dec x y : Decision (user_le x y).
Proof. unfold user_le. apply _. Defined.

(** [users/repository.py:84-115 list] *)
Definition list_users_page (q : option string) (r : option ActorRole) (st : option UserStatus) (limit : nat)
  (cursor : option string) : M UWorld exn (list AppUser * bool) :=
  models <- gets (fun w => take (S limit) (listing user_le
    (fun u => user_ok q r st u
              && (negb (ostr_true cursor) || bool_decide (text_lt (or_empty cursor) (user_id u))))
    (snd <$> map_to_list (users w)))) ;;
  ret (take limit models, (limit <? length models)%nat).

(** [users/service.py:387-407 list_users] *)
Definition list_users `{Libraries} (q : option string) (r : option ActorRole) (st : option UserStatus)
  (limit : nat) (cursor : option string) : M UWorld exn (list AppUser * option string * bool) :=
  page <- list_users_page (if ostr_true q then Some (normalize_username (or_empty q)) else None) r st limit cursor ;;
  let '(items, has_more) := page in
  ret (items, if has_more then user_id <$> last items else None, has_more).

(** [users/repository.py:202-214 active_admin_count] *)
Definition active_admin_count : M UWorld exn nat :=
  gets (fun w => length (filter (fun u => bool_decide (role u = ADMIN) && bool_decide (user_status u = ACTIVE) = true)
                           (snd <$> map_to_list (users w)))).
End Users.

(** ** Failed jobs *)

Definition changed_le (x y : IndexJob) : Prop := job_updated_at y <= job_updated_at x.
#[export] Instance changed_le_dec x y : Decision (changed_le x y).
Proof. unfold changed_le. apply _. Defined.
(** [indexing/repository.py:291-305 failed] *)
Definition failed_jobs (limit : nat) : M World exn (list IndexJob) :=
  rows <- gets (fun w => take limit (listing changed_le (fun j => bool_decide (status j = JOB_FAILED))
                                       (snd <$> map_to_list (jobs w)))) ;;
  map_m validate_attempts rows.

(** ** Page by page *)

#[export] Instance page_le_trans b : Transitive (page_le b).
Proof. intros x y z. destruct b; apply newer_le_trans. Qed.
#[export] Instance page_le_total b : Total (page_le b).
Proof. intros x y. destruct b; apply newer_le_total. Qed.
Lemma page_le_key b x y : page_le b x y -> page_le b y x -> case_id x = case_id y.
Proof. destruct b; intros H1 H2; exact (proj2 (newer_le_antisym _ _ _ _ H1 H2)). Qed.
Lemma page_le_after b x y : page_le b x y -> case_id x <> case_id y -> page_after b x y.
Proof. destruct b; apply newer_le_lt. Qed.
Lemma page_after_asym b x y : page_after b x y -> ~ page_after b y x.
Proof. destruct b; apply newer_lt_asym. Qed.

Lemma behind_row b c x :
  behind_cursor b (Some (updated_at x, case_id x)) c = bool_decide (page_after b x c).
Proof.
  apply Bool.eq_iff_eq_true. unfold behind_cursor.
  rewrite orb_true_iff, andb_true_iff, !bool_decide_eq_true, Z.eqb_eq.
  destruct b; unfold page_after, newer_lt; rewrite Z.ltb_lt; intuition lia.
Qed.

Lemma rows_keyed w :
  (forall i c, cases w !! i = Some c -> case_id c = i) -> NoDup (map case_id (rows_of w)).
Proof.
  intros Hk. unfold rows_of.
  assert (Hm : map case_id (map snd (map_to_list (cases w))) = map fst (map_to_list (cases w))).
  { rewrite map_map. apply map_ext_in. intros [i c] Hin.
    apply list_elem_of_In, elem_of_map_to_list in Hin. by apply Hk. }
  change (snd <$> map_to_list (cases w)) with (map snd (map_to_list (cases w))). rewrite Hm.
  apply NoDup_fst_map_to_list.
Qed.

Lemma in_rows w c :
  (forall i c, cases w !! i = Some c -> case_id c = i) -> c ∈ rows_of w <-> cases w !! case_id c = Some c.
Proof.
  intros Hk. unfold rows_of. rewrite list_elem_of_fmap. split.
  - intros ([i c'] & -> & Hin%elem_of_map_to_list). cbn. by rewrite (Hk _ _ Hin).
  - intros Hc. exists (case_id c, c). split; [done|]. by apply elem_of_map_to_list.
Qed.

(** Rows that are stored as the service writes them: an instant Python can write, an
    identifier in UTF-8, and contents that validate. *)
Definition sound_row (c : DiagnosisCase) : Prop :=
  stored_key (updated_at c) (case_id c) /\ forall w, case_record c w = (w, Ok c).

Lemma map_m_records l w : Forall sound_row l -> map_m case_record l w = (w, Ok l).
Proof.
  induction 1 as [|c l [_ Hc] _ IH]; [done|]. cbn [map_m]. unfold bind. by rewrite Hc, IH.
Qed.

Section CasePages.
Context (other_iso : string -> option Z) (w : World) (f : CaseFilters) (limit : nat) (sort : string).
Hypothesis keyed : forall i c, cases w !! i = Some c -> case_id c = i.
Hypothesis sound : forall c, c ∈ rows_of w -> case_ok f c = true -> sound_row c.
Let descending := negb (bool_decide (sort = "updated_at_asc")).

(** The cases of the list, in order. *)
Definition all_cases : list DiagnosisCase := listing (page_le descending) (case_ok f) (rows_of w).
Let cursor_of (c : DiagnosisCase) : string := encode_cursor (time_key (updated_at c) (case_id c)).

Lemma all_sound : Forall sound_row all_cases.
Proof. apply Forall_forall. intros c [Hok Hc]%elem_of_listing. by apply sound. Qed.

Lemma list_page_run cursor after k :
  time_cursor other_iso cursor = Ok after ->
  listing (page_le descending) (fun c => case_ok f c && behind_cursor descending after c) (rows_of w)
  = drop k all_cases ->
  list_page other_iso f limit cursor sort w
  = (w, Ok (take limit (drop k all_cases), length (filter (fun c => case_ok f c = true) (rows_of w)),
            snd (page_of cursor_of limit (drop k all_cases)))).
Proof.
  intros Hc Hl. unfold list_page. fold descending. cbv zeta. unfold bind at 1. rewrite Hc. cbn [lift_outcome ret].
  unfold bind, gets. cbv beta iota. rewrite Hl.
  rewrite take_take, length_take. replace (limit `min` S limit)%nat with limit by lia.
  rewrite map_m_records by (apply Forall_take, Forall_drop, all_sound).
  unfold ret, page_of, cursor_of. cbn [snd]. do 2 f_equal.
  destruct (Nat.ltb_spec limit (S limit `min` length (drop k all_cases))),
    (Nat.ltb_spec limit (length (drop k all_cases))); (done || lia).
Qed.

Lemma first_cases :
  list_page other_iso f limit None sort w
  = (w, Ok (take limit all_cases, length (filter (fun c => case_ok f c = true) (rows_of w)),
            snd (page_of cursor_of limit all_cases))).
Proof.
  rewrite (list_page_run None None 0) by (done || (rewrite drop_0; apply listing_ext; intros c; apply andb_true_r)).
  by rewrite drop_0.
Qed.

Lemma next_cases i c :
  all_cases !! i = Some c ->
  list_page other_iso f limit (Some (cursor_of c)) sort w
  = (w, Ok (take limit (drop (S i) all_cases), length (filter (fun c => case_ok f c = true) (rows_of w)),
            snd (page_of cursor_of limit (drop (S i) all_cases)))).
Proof.
  intros Hc. pose proof all_sound as Hs. rewrite Forall_forall in Hs.
  destruct (Hs c) as [[Ht Hi] _]; [by eapply list_elem_of_lookup_2|].
  apply (list_page_run _ (Some (updated_at c, case_id c))); [by apply time_cursor_key|].
  rewrite (listing_ext _ _ (fun y => case_ok f y && bool_decide (page_after descending c y)));
    [|intros y; by rewrite behind_row].
  exact (listing_next (page_le descending) (page_after descending) case_id (page_le_key _)
    (page_le_after _) (page_after_asym _) (case_ok f) _ i c (rows_keyed w keyed) Hc).
Qed.

Lemma all_cases_length : length all_cases = length (filter (fun c => case_ok f c = true) (rows_of w)).
Proof. unfold all_cases, listing. by rewrite merge_sort_Permutation. Qed.
End CasePages.

(** What a client sees of a page: the cases and the next cursor. *)
Definition case_fetch other_iso f limit sort w (cursor : option string)
  : outcome exn (list DiagnosisCase * option string) :=
  match snd (list_case_page other_iso f limit cursor sort w) with
  | Ok (items, _, next, _) => Ok (items, next)
  | Raise e => Raise e
  end.

(** the list of cases tells each case once. While the cases do not change, a client
    that follows the cursors, with any filters, in either order and with pages of any
    size, comes to the last page and has seen exactly the cases that match, each once and
    in the order of their last change; every page tells their number, and looking changes
    nothing. *)
Theorem case_pages other_iso w f limit sort :
  (0 < limit)%nat ->
  (forall i c, cases w !! i = Some c -> case_id c = i) ->
  (forall c, c ∈ rows_of w -> case_ok f c = true -> sound_row c) ->
  exists items,
    collect (case_fetch other_iso f limit sort w) (S (length (rows_of w))) None = Ok items
    /\ StronglySorted (page_after (negb (bool_decide (sort = "updated_at_asc")))) items
    /\ NoDup (map case_id items)
    /\ (forall c, c ∈ items <-> cases w !! case_id c = Some c /\ case_ok f c = true)
    /\ (forall cursor c, c ∈ items -> cursor = Some (encode_cursor (time_key (updated_at c) (case_id c))) ->
          exists page next, list_case_page other_iso f limit cursor sort w
            = (w, Ok (page, length items, next, bool_decide (is_Some next)))).
Proof.
  intros Hl Hk Hs. set (b := negb (bool_decide (sort = "updated_at_asc"))).
  exists (all_cases w f sort). split_and!.
  - apply (collect_all _ (fun c => encode_cursor (time_key (updated_at c) (case_id c))) limit); [done|..].
    + unfold case_fetch, list_case_page, bind. by rewrite (first_cases other_iso w f limit sort Hs).
    + intros i c Hc. unfold case_fetch, list_case_page, bind.
      by rewrite (next_cases other_iso w f limit sort Hk Hs i c Hc).
    + rewrite all_cases_length. pose proof (length_filter (fun c => case_ok f c = true) (rows_of w)). lia.
  - exact (listing_sorted (page_le b) (page_after b) case_id (page_le_after b) (case_ok f) _ (rows_keyed w Hk)).
  - unfold all_cases, listing. fold b. rewrite (Permutation_map _ (merge_sort_Permutation (page_le b) _)).
    apply filter_keys, rows_keyed, Hk.
  - intros c. unfold all_cases. rewrite elem_of_listing, in_rows by done. tauto.
  - intros cursor c [i Hc]%list_elem_of_lookup ->. do 2 eexists. unfold list_case_page, bind.
    rewrite (next_cases other_iso w f limit sort Hk Hs i c Hc). cbv beta iota. cbn [snd ret].
    by rewrite <-(all_cases_length w f sort).
Qed.

(** ** Users, page by page *)

#[export] Instance user_le_trans : Transitive user_le.
Proof. intros x y z. unfold user_le. apply transitivity. Qed.
#[export] Instance user_le_total : Total user_le.
Proof. intros x y. unfold user_le. apply total, _. Qed.

Definition user_after (x y : AppUser) : Prop := text_lt (user_id x) (user_id y).
#[export] Instance user_after_dec x y : Decision (user_after x y) := text_lt_dec _ _.

Definition user_rows (w : UWorld) : list AppUser := snd <$> map_to_list (users w).

Definition user_fetch `{Libraries} like q r st limit w (cursor : option string)
  : outcome exn (list AppUser * option string) :=
  match snd (list_users like q r st limit cursor w) with
  | Ok (items, next, _) => Ok (items, next)
  | Raise e => Raise e
  end.
Definition normal_query `{Libraries} (q : option string) : option string :=
  if ostr_true q then Some (normalize_username (or_empty q)) else None.

(** The administrator who follows the cursors of the list of users sees each user that
    matches once, by identifier. *)
Theorem user_pages `{Libraries} like q r st limit w :
  (0 < limit)%nat ->
  (forall i u, users w !! i = Some u -> user_id u = i) -> (forall i u, users w !! i = Some u -> i <> "") ->
  exists items,
    collect (user_fetch like q r st limit w) (S (length (user_rows w))) None = Ok items
    /\ StronglySorted user_after items
    /\ (forall u, u ∈ items <-> u ∈ user_rows w /\ user_ok like (normal_query q) r st u = true).
Proof.
  intros Hl Hk Hne. set (ok := user_ok like (normal_query q) r st).
  assert (Hn : NoDup (map user_id (user_rows w))).
  { unfold user_rows. change (snd <$> ?l) with (map snd l). rewrite map_map.
    rewrite (map_ext_in _ fst); [apply NoDup_fst_map_to_list|].
    intros [i u] Hin%list_elem_of_In%elem_of_map_to_list. by apply Hk. }
  exists (listing user_le ok (user_rows w)). split_and!.
  - assert (Hpage : forall cursor l, listing user_le (fun u => ok u && (negb (ostr_true cursor)
        || bool_decide (text_lt (or_empty cursor) (user_id u)))) (user_rows w) = l ->
      user_fetch like q r st limit w cursor = Ok (page_of user_id limit l)).
    { intros cursor l <-. unfold user_fetch, list_users, list_users_page, bind, gets, ret, page_of.
      fold (normal_query q) (user_rows w) ok. cbn [snd].
      set (l := listing _ _ _). rewrite take_take, length_take. replace (limit `min` S limit)%nat with limit by lia.
      do 2 f_equal. destruct (Nat.ltb_spec limit (S limit `min` length l)), (Nat.ltb_spec limit (length l));
        (done || lia). }
    apply (collect_all _ user_id limit); [done|..].
    + apply Hpage. apply listing_ext. intros u. apply andb_true_r.
    + intros i u Hu. apply Hpage.
      assert (Hu0 : user_id u <> "").
      { pose proof (list_elem_of_lookup_2 _ _ _ Hu) as [_ Hin]%elem_of_listing.
        apply list_elem_of_fmap in Hin as ([j u'] & -> & Hin%elem_of_map_to_list). cbn.
        rewrite (Hk _ _ Hin). by eapply Hne. }
      assert (Ht : ostr_true (Some (user_id u)) = true) by (cbn; by destruct (user_id u)).
      rewrite (listing_ext _ _ (fun v => ok v && bool_decide (user_after u v))).
      * exact (listing_next user_le user_after user_id (fun x y => anti_symm String.le _ _)
          (fun x y => text_le_lt _ _) (fun x y => text_lt_asym _ _) ok _ i u Hn Hu).
      * intros v. by rewrite Ht.
    + unfold listing. rewrite merge_sort_Permutation.
      pose proof (length_filter (fun u => ok u = true) (user_rows w)). lia.
  - exact (listing_sorted user_le user_after user_id (fun x y => text_le_lt _ _) ok _ Hn).
  - intros u. rewrite elem_of_listing. tauto.
Qed.

(** ** Three cases in pages of two *)

Definition listed_case (i author : string) (steps : option (list string)) (changed : Z) : DiagnosisCase :=
  mkCase i ("s-" ++ i) "r" "rv" None (Some "pcs") None None None None None "fan" steps (Some []) (Some [])
    DRAFT None None 1 None IDX_PENDING None false None author 0 changed.
Definition listed_world (third : option (list string)) : World :=
  empty_world <| cases := {["c1" := listed_case "c1" "ann" (Some []) 100;
                            "c2" := listed_case "c2" "bob" (Some []) 100;
                            "c3" := listed_case "c3" "ann" third 200]} |>.
Definition no_filters : CaseFilters := mkCaseFilters None None None None None None.
Definition by_ann : CaseFilters := mkCaseFilters None None None None (Some "ann") None.

Definition ids_of (o : outcome exn (list DiagnosisCase * option string)) : option (list string * bool) :=
  match o with Ok (l, next) => Some (map case_id l, bool_decide (is_Some next)) | Raise _ => None end.

Example first_page_of_cases :
  ids_of (case_fetch (fun _ => None) no_filters 2 "updated_at_desc" (listed_world (Some [])) None)
  = Some (["c3"; "c1"], true)
  /\ ids_of (case_fetch (fun _ => None) by_ann 2 "updated_at_asc" (listed_world (Some [])) None)
     = Some (["c1"; "c3"], false).
Proof. vm_compute. by split. Qed.

(** One row that does not validate makes every page it belongs to fail, and with it the
    list: nothing behind it can be reached. *)
Example poisoned_row_hides_list :
  case_fetch (fun _ => None) no_filters 2 "updated_at_desc" (listed_world None) None = Raise ValidationError.
Proof. vm_compute. reflexivity. Qed.

Lemma listed_sound c : c ∈ rows_of (listed_world (Some [])) -> sound_row c.
Proof.
  revert c. apply Forall_forall. vm_compute rows_of.
  repeat (constructor; [split; [split; reflexivity|reflexivity]|]). constructor.
Qed.

Lemma case_pages_witness :
  exists items,
    collect (case_fetch (fun _ => None) no_filters 2 "updated_at_desc" (listed_world (Some []))) 4 None = Ok items
    /\ map case_id items = ["c3"; "c1"; "c2"] /\ NoDup (map case_id items).
Proof.
  destruct (case_pages (fun _ => None) (listed_world (Some [])) no_filters 2 "updated_at_desc")
    as (items & Hc & _ & Hn & _).
  - lia.
  - apply (bool_decide_unpack (map_Forall (fun i c => case_id c = i) _)). vm_compute. exact I.
  - intros c Hc _. by apply listed_sound.
  - exists items. change (S (length (rows_of (listed_world (Some []))))) with 4%nat in Hc.
    split; [exact Hc|]. split; [|exact Hn]. vm_compute in Hc. injection Hc as <-. reflexivity.
Defined.
