(* ===== verification/Api.v ===== *)
(** * The HTTP interface

    [app.py], [api/]: what happens to a request before a service sees it: the middleware
    with its checks of keys, tokens, sizes and rates, the routes, and the guards of the
    handlers. The authentication of a token, the rate limiter and the validation of bodies
    and parameters are arguments. Texts, spans, metrics and response headers are left
    out, and the redirects of paths with a slash at the end. *)

From Stdlib Require Import Ascii SpecFloat.
From S2P Require Import Prelude Errors Tools Contracts Text Float.
Open Scope Z_scope.

(** ** Settings

    [core/config.py]: the settings the validator and the HTTP layer read, their bounds and
    the validator. Settings that only carry an address, a name or a limit of a client are
    left out. *)

Inductive AuthMode := DEVELOPMENT_HEADERS | TRUSTED_HEADERS | JWT.
#[export] Instance AuthMode_eq_dec : EqDecision AuthMode.
Proof. solve_decision. Defined.
Inductive ModelMode := MODEL_DISABLED | OPENAI_COMPATIBLE | OPENAI.
#[export] Instance ModelMode_eq_dec : EqDecision ModelMode.
Proof. solve_decision. Defined.

(** A literal of two values is a bool; a secret may be missing.
    [core/config.py:8-136 Settings] *)
Record Settings := mkSettings {
  app_env : string;
  auth_mode : AuthMode;
  internal_api_key : option string;
  jwt_access_secret : option string;
  jwt_refresh_secret : option string;
  model_mode : ModelMode;
  model_gateway_base_url : option string;
  model_gateway_api_key : option string;
  openai_api_key : option string;
  observability_langfuse : bool;
  langfuse_public_key : option string;
  langfuse_secret_key : option string;
  retrieval_hybrid : bool;
  embedding_enabled : bool;
  embedding_base_url : option string;
  embedding_api_key : option string;
  embedding_dimension : Z;
  milvus_vector_dimension : Z;
  rerank_http : bool;
  rerank_base_url : option string;
  rerank_api_key : option string;
  retrieval_keyword_weight : float;
  retrieval_vector_weight : float;
  retrieval_rerank_weight : float;
  final_retrieval_weight : float;
  final_source_reliability_weight : float;
  final_verification_weight : float;
  final_relevance_to_alarm_weight : float;
  final_freshness_weight : float;
  index_sync : bool;
  graph_neo4j : bool;
  neo4j_password : option string;
  pilot_mode : bool;
  pilot_allowed_actors : string;
  rate_limit_enabled : bool;
  rate_limit_diagnosis_per_minute : Z;
  rate_limit_review_per_minute : Z;
  rate_limit_case_write_per_minute : Z;
  rate_limit_stream_concurrent : Z;
  request_body_max_bytes : Z;
}.

(** [self.app_env in {"local", "test"}] *)
Definition local_env (env : string) : bool := bool_decide (env ∈ ["local"; "test"]).

(** [not secret or len(secret.encode()) < 32]; strings are their bytes. *)
Definition long_secret (o : option string) : bool :=
  match o with Some s => (32 <=? Z.of_nat (String.length s)) | None => false end.

(** [abs(sum(group) - 1.0) > 1e-9] *)
Definition off_by (group : list float) : bool :=
  flt (literal 1 1000000000) (SFabs (fsub (fsum group) (float_of_Z 1))).

Definition weights_of (s : Settings) : list (list float) :=
  [[retrieval_keyword_weight s; retrieval_vector_weight s; retrieval_rerank_weight s];
   [final_retrieval_weight s; final_source_reliability_weight s; final_verification_weight s;
    final_relevance_to_alarm_weight s; final_freshness_weight s]].

(** The bounds of the fields ([Field(ge=...)]).
    [core/config.py:96-135 Field] *)
Definition fields_valid (s : Settings) : bool :=
  forallb (forallb (fun w => fle zero w && fle w (float_of_Z 1))) (weights_of s)
  && (1 <=? rate_limit_diagnosis_per_minute s) && (1 <=? rate_limit_review_per_minute s)
  && (1 <=? rate_limit_case_write_per_minute s) && (1 <=? rate_limit_stream_concurrent s)
  && (1024 <=? request_body_max_bytes s).

(** The reason of the first rule that is broken.
    [core/config.py:139-208 validate_dependencies_and_weights] *)
Definition validate_dependencies_and_weights (s : Settings) : option string :=
  let has o := ostr_true o in
  if bool_decide (auth_mode s = DEVELOPMENT_HEADERS) && negb (local_env (app_env s)) then
    Some "development_headers authentication is limited to local and test"
  else if bool_decide (auth_mode s = TRUSTED_HEADERS) && negb (has (internal_api_key s)) then
    Some "INTERNAL_API_KEY is required for trusted_headers authentication"
  else if bool_decide (auth_mode s = JWT) && negb (has (internal_api_key s)) then
    Some "INTERNAL_API_KEY is required for JWT authentication"
  else if bool_decide (auth_mode s = JWT) && negb (long_secret (jwt_access_secret s)) then
    Some "JWT_ACCESS_SECRET must contain at least 32 bytes"
  else if bool_decide (auth_mode s = JWT) && negb (long_secret (jwt_refresh_secret s)) then
    Some "JWT_REFRESH_SECRET must contain at least 32 bytes"
  else if bool_decide (auth_mode s = JWT) && bool_decide (jwt_access_secret s = jwt_refresh_secret s) then
    Some "Access and refresh JWT secrets must differ"
  else if pilot_mode s
          && (bool_decide (auth_mode s = DEVELOPMENT_HEADERS) || negb (has (internal_api_key s))) then
    Some "PILOT_MODE requires gateway authentication and INTERNAL_API_KEY"
  else if index_sync s && negb (local_env (app_env s)) then
    Some "INDEX_EXECUTION_MODE=sync is limited to local and test"
  else if graph_neo4j s && negb (has (neo4j_password s)) then
    Some "NEO4J_PASSWORD is required when GRAPH_MODE=neo4j"
  else if observability_langfuse s && negb (has (langfuse_public_key s) && has (langfuse_secret_key s)) then
    Some "LANGFUSE_PUBLIC_KEY and LANGFUSE_SECRET_KEY are required when OBSERVABILITY_MODE=langfuse"
  else if bool_decide (model_mode s = OPENAI_COMPATIBLE)
          && negb (has (model_gateway_base_url s) && has (model_gateway_api_key s)) then
    Some "MODEL_GATEWAY_BASE_URL and MODEL_GATEWAY_API_KEY are required when MODEL_MODE=openai_compatible"
  else if bool_decide (model_mode s = OPENAI) && negb (has (openai_api_key s)) then
    Some "OPENAI_API_KEY is required when MODEL_MODE=openai"
  else if negb (embedding_dimension s =? 1024) || negb (milvus_vector_dimension s =? 1024) then
    Some "BGE-M3 and Milvus vector dimensions must both be 1024"
  else if retrieval_hybrid s
          && (negb (embedding_enabled s) || negb (has (embedding_base_url s)) || negb (has (embedding_api_key s))) then
    Some "Hybrid retrieval requires openai-compatible embedding credentials"
  else if embedding_enabled s && negb (has (embedding_base_url s) && has (embedding_api_key s)) then
    Some "Embedding base URL and API key are required"
  else if rerank_http s && negb (has (rerank_base_url s) && has (rerank_api_key s)) then
    Some "Reranker base URL and API key are required"
  else if existsb off_by (weights_of s) then
    Some "Retrieval and final score weight groups must each sum to 1"
  else None.

(** The settings a process can start with. *)
Definition settings_valid (s : Settings) : Prop :=
  fields_valid s = true /\ validate_dependencies_and_weights s = None.

(** What the validator makes sure of for the HTTP layer. *)
Lemma validated_auth s :
  settings_valid s ->
  (local_env (app_env s) = false -> auth_mode s <> DEVELOPMENT_HEADERS)
  /\ (auth_mode s <> DEVELOPMENT_HEADERS ->
      exists key, internal_api_key s = Some key /\ key <> "")
  /\ (pilot_mode s = true -> auth_mode s <> DEVELOPMENT_HEADERS).
Proof.
  intros [_ Hv]. unfold validate_dependencies_and_weights in Hv. cbv zeta in Hv.
  assert (Hkey : ostr_true (internal_api_key s) = true ->
            exists key, internal_api_key s = Some key /\ key <> "").
  { destruct (internal_api_key s) as [k|]; [|done]. exists k. split; [done|]. by destruct k. }
  destruct (auth_mode s) eqn:Ea; cbn in Hv.
  - destruct (local_env (app_env s)) eqn:El; [|done]. cbn in Hv.
    destruct (pilot_mode s) eqn:Ep; [done|]. by split_and!.
  - destruct (ostr_true (internal_api_key s)); [|done]. split_and!; auto.
  - destruct (ostr_true (internal_api_key s)); [|done]. split_and!; auto.
Qed.

(** ** Requests *)

(** Header names are in lower case, as the server hands them on. *)
Record HttpRequest := mkHttpRequest {
  rq_method : string;
  rq_path : string;
  rq_headers : list (string * string);
  rq_body_length : Z;
}.
Definition header (name : string) (r : HttpRequest) : option string :=
  snd <$> find_first (fun kv => bool_decide (fst kv = name)) (rq_headers r).

(** An answer without a service: its status and the code of the error. *)
Record Rejection := mkRejection { rj_status : Z; rj_code : string }.

(** The operations behind the routes, by the names of their functions. *)
Inductive Endpoint :=
| Login | Refresh | Me | ChangePassword | Logout | LogoutAll
| ListUsers | CreateUser | GetUser | PatchUser | DisableUser | EnableUser | ResetPassword | RevokeSessions
| Live | Ready | Metrics
| Capabilities | Sites | Devices | Device | Alarms | Alarm
| Sessions | SessionTimeline | EvidenceDetail | SessionTimeseries
| CreateSession | Chat | SessionMessage | StreamMessage | GetSession
| ReviewDiagnosis | ListCases | GetCase | GetCaseHistory | PatchCase | SubmitCase | ReviewCase | DisableCase
| ReviseCase | ReindexCase.
#[export] Instance Endpoint_eq_dec : EqDecision Endpoint.
Proof. solve_decision. Defined.

Inductive Answer :=
| Reject (r : Rejection)
| Admit (e : Endpoint) (actor : option ActorContext).

Section Guards.
Context (st : Settings).

(** ** Actors *)

(** [re.fullmatch(r"[A-Za-z0-9][A-Za-z0-9_.:@-]{0,127}", actor_id)] *)
Definition alnum (a : ascii) : bool :=
  let n := nat_of_ascii a in
  (48 <=? n)%nat && (n <=? 57)%nat || (65 <=? n)%nat && (n <=? 90)%nat || (97 <=? n)%nat && (n <=? 122)%nat.
Definition actor_char (a : ascii) : bool :=
  alnum a || bool_decide (a ∈ ["_"; "."; ":"; "@"; "-"]%char).
Definition actor_id_format (s : string) : bool :=
  match String.list_ascii_of_string s with
  | a :: l => alnum a && forallb actor_char l && (length l <=? 127)%nat
  | [] => false
  end.

Definition role_of_value (s : string) : option ActorRole :=
  find_first (fun r => bool_decide (role_value r = s)) [VIEWER; OPERATOR; REVIEWER; ADMIN].

(** [authenticated] is the actor the middleware stored with the request.
    [api/auth.py:15-40 actor_from_request] *)
Definition actor_from_request (authenticated : option ActorContext) (r : HttpRequest) (explicit : bool)
  : outcome exn ActorContext :=
  match auth_mode st with
  | JWT =>
      match authenticated with
      | Some a => Ok a
      | None => Raise (Domain ActorRequiredError [])
      end
  | mode =>
      if bool_decide (mode = TRUSTED_HEADERS)
         && negb (bool_decide (header "x-internal-api-key" r = internal_api_key st))
      then Raise (Domain AuthenticationError [])
      else
        let explicit := explicit || bool_decide (mode = TRUSTED_HEADERS) in
        match header "x-actor-id" r, header "x-actor-role" r with
        | Some i, Some v =>
            if negb (str_true i) || negb (str_true v) then
              if explicit then Raise (Domain ActorRequiredError []) else Ok (mkActor "local-operator" OPERATOR)
            else if negb (actor_id_format i) then Raise (Domain ActorRequiredError [])
            else if String.prefix "service:" i
                    && negb (bool_decide (header "x-service-actor" r = Some "trusted"))
            then Raise (Domain AuthenticationError [])
            else match role_of_value v with
                 | Some role => Ok (mkActor i role)
                 | None => Raise (Domain ActorRoleInvalidError [])
                 end
        | _, _ =>
            if explicit then Raise (Domain ActorRequiredError []) else Ok (mkActor "local-operator" OPERATOR)
        end
  end.

(** [api/auth.py:43-45 require_roles] *)
Definition require_roles (a : ActorContext) (roles : list ActorRole) : outcome exn ActorContext :=
  if bool_decide (actor_role a ∈ roles) then Ok a else Raise (Domain PermissionDeniedError []).

(** [{value.strip() for value in text.split(",") if value.strip()}] *)
Fixpoint split_on (sep : ascii) (s : string) : list string :=
  match s with
  | EmptyString => [""]
  | String a s =>
      if bool_decide (a = sep) then "" :: split_on sep s
      else match split_on sep s with
           | p :: l => String a p :: l
           | [] => [String a ""]
           end
  end.
Definition allowlist (text : string) : list string :=
  filter (fun v => str_true v = true) (map strip (split_on ","%char text)).

(** [api/auth.py:48-54 require_pilot_write] *)
Definition require_pilot_write (a : ActorContext) : outcome exn ActorContext :=
  if negb (pilot_mode st) || bool_decide (actor_id a ∈ allowlist (pilot_allowed_actors st)) then Ok a
  else Raise (Domain PermissionDeniedError []).

Definition then_ {A B} (o : outcome exn A) (f : A -> outcome exn B) : outcome exn B :=
  match o with Ok a => f a | Raise e => Raise e end.

(** ** The handlers *)

(** A handler: who may call the operation behind it. *)
Definition Guard : Type := option ActorContext -> HttpRequest -> outcome exn (option ActorContext).

Definition READ_ROLES : list ActorRole := [VIEWER; OPERATOR; REVIEWER; ADMIN].
(** [api/catalog.py:21-22 _authorize] *)
Definition _authorize : Guard := fun a r =>
  then_ (actor_from_request a r false) (fun actor => then_ (require_roles actor READ_ROLES) (fun x => Ok (Some x))).
(** [api/users.py:19-22 _actor] *)
Definition _actor : Guard := fun a r =>
  then_ (actor_from_request a r true) (fun actor => then_ (require_roles actor [ADMIN]) (fun x => Ok (Some x))).
Definition open : Guard := fun _ _ => Ok None.
Definition any_actor : Guard := fun a r => then_ (actor_from_request a r false) (fun x => Ok (Some x)).
(** [api/diagnosis.py:32-34 require_roles] *)
Definition diagnosis_write : Guard := fun a r =>
  then_ (actor_from_request a r false) (fun actor =>
  then_ (require_roles actor [OPERATOR; REVIEWER; ADMIN]) (fun actor =>
  then_ (require_pilot_write actor) (fun x => Ok (Some x)))).
(** [api/cases.py:32-34 require_roles] *)
Definition case_write : Guard := fun a r =>
  then_ (actor_from_request a r true) (fun actor =>
  then_ (require_roles actor [REVIEWER; ADMIN]) (fun actor =>
  then_ (require_pilot_write actor) (fun x => Ok (Some x)))).
(** [removeprefix("Bearer ")] of the header or of nothing.
    [api/metrics.py:11-19 metrics] *)
Definition metrics_guard : Guard := fun _ r =>
  let authorization := or_empty (header "authorization" r) in
  let bearer := if String.prefix "Bearer " authorization
                then String.substring 7 (String.length authorization - 7) authorization else authorization in
  if negb (local_env (app_env st))
     && negb (bool_decide (header "x-internal-api-key" r = internal_api_key st))
     && negb (bool_decide (Some bearer = internal_api_key st))
  then Raise (Domain AuthenticationError []) else Ok None.

(** ** Routes *)

Record Route := mkRoute {
  rt_method : string;
  rt_path : string;
  rt_endpoint : Endpoint;
  rt_guard : Guard;
}.

(** [api/auth_sessions.py:34-45 login] *)
Definition login_route : Route := mkRoute "POST" "/api/v1/auth/login" Login open.
(** [api/auth_sessions.py:48-58 refresh] *)
Definition refresh_route : Route := mkRoute "POST" "/api/v1/auth/refresh" Refresh open.
(** [api/auth_sessions.py:61-64 me] *)
Definition me_route : Route := mkRoute "GET" "/api/v1/auth/me" Me any_actor.
(** [api/auth_sessions.py:67-81 change_password] *)
Definition change_password_route : Route := mkRoute "POST" "/api/v1/auth/change-password" ChangePassword any_actor.
(** [api/auth_sessions.py:84-86 logout] *)
Definition logout_route : Route := mkRoute "POST" "/api/v1/auth/logout" Logout any_actor.
(** [api/auth_sessions.py:89-91 logout_all] *)
Definition logout_all_route : Route := mkRoute "POST" "/api/v1/auth/logout-all" LogoutAll any_actor.
(** [api/auth_sessions.py:16-16 router] *)
Definition auth_routes : list Route :=
  [login_route; refresh_route; me_route; change_password_route; logout_route; logout_all_route].
(** [api/users.py:30-41 list_users] *)
Definition list_users_route : Route := mkRoute "GET" "/api/v1/users" ListUsers _actor.
(** [api/users.py:44-48 create_user] *)
Definition create_user_route : Route := mkRoute "POST" "/api/v1/users" CreateUser _actor.
(** [api/users.py:51-54 get_user] *)
Definition get_user_route : Route := mkRoute "GET" "/api/v1/users/{user_id}" GetUser _actor.
(** [api/users.py:57-64 patch_user] *)
Definition patch_user_route : Route := mkRoute "PATCH" "/api/v1/users/{user_id}" PatchUser _actor.
(** [api/users.py:67-71 disable_user] *)
Definition disable_user_route : Route := mkRoute "POST" "/api/v1/users/{user_id}/disable" DisableUser _actor.
(** [api/users.py:74-78 enable_user] *)
Definition enable_user_route : Route := mkRoute "POST" "/api/v1/users/{user_id}/enable" EnableUser _actor.
(** [api/users.py:81-90 reset_password] *)
Definition reset_password_route : Route := mkRoute "POST" "/api/v1/users/{user_id}/reset-password" ResetPassword _actor.
(** [api/users.py:93-97 revoke_sessions] *)
Definition revoke_sessions_route : Route := mkRoute "POST" "/api/v1/users/{user_id}/revoke-sessions" RevokeSessions _actor.
(** [api/users.py:16-16 router] *)
Definition users_routes : list Route :=
  [list_users_route; create_user_route; get_user_route; patch_user_route; disable_user_route;
   enable_user_route; reset_password_route; revoke_sessions_route].
(** [api/health.py:39-43 live] *)
Definition live_route : Route := mkRoute "GET" "/health/live" Live open.
(** [api/health.py:59-60 ready] *)
Definition ready_route : Route := mkRoute "GET" "/health/ready" Ready open.
(** [api/health.py:13-13 router] *)
Definition health_routes : list Route :=
  [live_route; ready_route].
(** [api/catalog.py:25-28 capabilities] *)
Definition capabilities_route : Route := mkRoute "GET" "/api/v1/capabilities" Capabilities _authorize.
(** [api/catalog.py:31-34 sites] *)
Definition sites_route : Route := mkRoute "GET" "/api/v1/sites" Sites _authorize.
(** [api/catalog.py:37-50 devices] *)
Definition devices_route : Route := mkRoute "GET" "/api/v1/devices" Devices _authorize.
(** [api/catalog.py:67-70 device] *)
Definition device_route : Route := mkRoute "GET" "/api/v1/devices/{device_id}" Device _authorize.
(** [api/catalog.py:73-90 alarms] *)
Definition alarms_route : Route := mkRoute "GET" "/api/v1/alarms" Alarms _authorize.
(** [api/catalog.py:108-111 alarm] *)
Definition alarm_route : Route := mkRoute "GET" "/api/v1/alarms/{alarm_id}" Alarm _authorize.
(** [api/catalog.py:17-17 router] *)
Definition catalog_routes : list Route :=
  [capabilities_route; sites_route; devices_route; device_route; alarms_route; alarm_route].
(** [api/session_queries.py:19-37 sessions] *)
Definition sessions_route : Route := mkRoute "GET" "/api/v1/diagnosis/sessions" Sessions _authorize.
(** [api/session_queries.py:56-63 timeline] *)
Definition timeline_route : Route := mkRoute "GET" "/api/v1/diagnosis/sessions/{session_id}/timeline" SessionTimeline _authorize.
(** [api/session_queries.py:11-11 router] *)
Definition session_routes : list Route :=
  [sessions_route; timeline_route].
(** [api/evidence.py:18-26 evidence_detail] *)
Definition evidence_detail_route : Route := mkRoute "GET" "/api/v1/diagnosis/sessions/{session_id}/evidence/{evidence_id}" EvidenceDetail _authorize.
(** [api/evidence.py:29-40 timeseries] *)
Definition timeseries_route : Route := mkRoute "GET" "/api/v1/diagnosis/sessions/{session_id}/timeseries" SessionTimeseries _authorize.
(** [api/evidence.py:10-10 router] *)
Definition evidence_routes : list Route :=
  [evidence_detail_route; timeseries_route].
(** [api/diagnosis.py:26-36 create_session] *)
Definition create_session_route : Route := mkRoute "POST" "/api/v1/diagnosis/sessions" CreateSession diagnosis_write.
(** [api/diagnosis.py:39-49 chat] *)
Definition chat_route : Route := mkRoute "POST" "/api/v1/diagnosis/chat" Chat diagnosis_write.
(** [api/diagnosis.py:52-67 session_message] *)
Definition session_message_route : Route := mkRoute "POST" "/api/v1/diagnosis/sessions/{session_id}/messages" SessionMessage diagnosis_write.
(** [api/diagnosis.py:77-86 stream_message] *)
Definition stream_message_route : Route := mkRoute "POST" "/api/v1/diagnosis/sessions/{session_id}/messages/stream" StreamMessage diagnosis_write.
(** [api/diagnosis.py:144-155 get_session] *)
Definition get_session_route : Route := mkRoute "GET" "/api/v1/diagnosis/sessions/{session_id}" GetSession _authorize.
(** [api/diagnosis.py:23-23 router] *)
Definition diagnosis_routes : list Route :=
  [create_session_route; chat_route; session_message_route; stream_message_route; get_session_route].
(** [api/cases.py:21-35 review_diagnosis] *)
Definition review_diagnosis_route : Route := mkRoute "POST" "/api/v1/diagnosis/sessions/{session_id}/review" ReviewDiagnosis case_write.
(** [api/cases.py:38-52 list_cases] *)
Definition list_cases_route : Route := mkRoute "GET" "/api/v1/cases" ListCases any_actor.
(** [api/cases.py:77-80 get_case] *)
Definition get_case_route : Route := mkRoute "GET" "/api/v1/cases/{case_id}" GetCase any_actor.
(** [api/cases.py:83-88 case_history] *)
Definition case_history_route : Route := mkRoute "GET" "/api/v1/cases/{case_id}/history" GetCaseHistory any_actor.
(** [api/cases.py:91-101 patch_case] *)
Definition patch_case_route : Route := mkRoute "PATCH" "/api/v1/cases/{case_id}" PatchCase case_write.
(** [api/cases.py:104-114 submit_case] *)
Definition submit_case_route : Route := mkRoute "POST" "/api/v1/cases/{case_id}/submit" SubmitCase case_write.
(** [api/cases.py:117-128 review_case] *)
Definition review_case_route : Route := mkRoute "POST" "/api/v1/cases/{case_id}/review" ReviewCase case_write.
(** [api/cases.py:131-142 disable_case] *)
Definition disable_case_route : Route := mkRoute "POST" "/api/v1/cases/{case_id}/disable" DisableCase case_write.
(** [api/cases.py:145-156 revise_case] *)
Definition revise_case_route : Route := mkRoute "POST" "/api/v1/cases/{case_id}/revisions" ReviseCase case_write.
(** [api/cases.py:159-169 reindex_case] *)
Definition reindex_case_route : Route := mkRoute "POST" "/api/v1/cases/{case_id}/reindex" ReindexCase case_write.
(** [api/cases.py:18-18 router] *)
Definition cases_routes : list Route :=
  [review_diagnosis_route; list_cases_route; get_case_route; case_history_route; patch_case_route;
   submit_case_route; review_case_route; disable_case_route; revise_case_route; reindex_case_route].
(** [api/metrics.py:10-11 metrics] *)
Definition metrics_route : Route := mkRoute "GET" "/metrics" Metrics metrics_guard.
(** The routers in the order they are included.
    [app.py:261-269 include_router] *)
Definition routes : list Route :=
  auth_routes ++ users_routes ++ health_routes ++ catalog_routes ++ session_routes ++ evidence_routes
  ++ diagnosis_routes ++ cases_routes ++ [metrics_route].

(** A parameter of a path is one part of it that is not empty. *)
Definition part_matches (template part : string) : bool :=
  if String.prefix "{" template then str_true part else bool_decide (template = part).
Definition path_matches (template path : string) : bool :=
  let ts := split_on "/"%char template in
  let ps := split_on "/"%char path in
  (length ts =? length ps)%nat && forallb (fun tp => part_matches (fst tp) (snd tp)) (zip ts ps).

(** The first route that fits; 405 if only the method does not. *)
Definition find_route (r : HttpRequest) : Route + Rejection :=
  match find_first (fun t => path_matches (rt_path t) (rq_path r) && bool_decide (rt_method t = rq_method r)) routes with
  | Some t => inl t
  | None => inr (if existsb (fun t => path_matches (rt_path t) (rq_path r)) routes
                 then mkRejection 405 "" else mkRejection 404 "")
  end.
End Guards.

(** ** The middleware *)

(** What the middleware asks: the authentication of an access token with whether its user
    must change the password, the limiter, the slots for streams, and whether body and
    parameters of a request are what the handler declares. *)
Class HttpPorts (W : Type) := mkHttpPorts {
  authenticate_access : string -> M W abort (ActorContext * bool);
  rate_allow : string -> string -> Z -> M W abort (bool * Z);
  acquire_stream : string -> Z -> M W abort bool;
  valid_payload : Endpoint -> HttpRequest -> bool;
}.

Section Middleware.
Context {W : Type} `{HttpPorts W} (st : Settings).
Abbreviation HTTP := (M W abort).

Definition rejection (c : error_class) (status : Z) : Rejection := mkRejection status (code c).

(** [api/errors.py:50-103 install_error_handlers] *)
Definition error_answer (e : exn) : Rejection :=
  match e with
  | Domain c _ => rejection c (http_status c)
  | _ => mkRejection 500 "INTERNAL_ERROR"
  end.

Definition public_paths : list string := ["/api/v1/auth/login"; "/api/v1/auth/refresh"].
(** [app.py:146-151 allowed_during_password_change] *)
Definition allowed_during_password_change : list string :=
  ["/api/v1/auth/me"; "/api/v1/auth/change-password"; "/api/v1/auth/logout"; "/api/v1/auth/logout-all"].

(** The actor of a request under the API's path, or the answer that ends it.
    [app.py:105-164 auth_mode] *)
Definition authenticate (r : HttpRequest) : HTTP (Rejection + option ActorContext) :=
  if negb (bool_decide (auth_mode st = JWT) && String.prefix "/api/v1/" (rq_path r)) then ret (inr None)
  else if negb (bool_decide (header "x-internal-api-key" r = internal_api_key st)) then
    ret (inl (rejection AuthenticationError 401))
  else if bool_decide (rq_path r ∈ public_paths) then ret (inr None)
  else
    let authorization := or_empty (header "authorization" r) in
    if negb (String.prefix "Bearer " authorization) then ret (inl (rejection AuthTokenMissingError 401))
    else
      catch
        (found <- authenticate_access (String.substring 7 (String.length authorization - 7) authorization) ;;
         guard (negb (snd found) || bool_decide (rq_path r ∈ allowed_during_password_change))
           (Exc (Domain AuthPasswordChangeRequiredError [])) ;;;
         ret (inr (Some (fst found))))
        (fun e => match e with
                  | Exc (Domain c _) =>
                      ret (inl (rejection c (if isinstance c AuthPasswordChangeRequiredError then 403 else 401)))
                  | _ => raise e
                  end).

(** [content_length.isdigit() and int(content_length) > limit], for the digits of ASCII. *)
Fixpoint decimal (acc : Z) (s : string) : option Z :=
  match s with
  | EmptyString => Some acc
  | String a s =>
      let n := Z.of_nat (nat_of_ascii a) in
      if (48 <=? n) && (n <=? 57) then decimal (acc * 10 + (n - 48)) s else None
  end.
Definition writes (r : HttpRequest) : bool := bool_decide (rq_method r ∈ ["POST"; "PUT"; "PATCH"]).
(** [app.py:165-183 content_length] *)
Definition too_large (r : HttpRequest) : bool :=
  writes r
  && (match header "content-length" r with
      | Some s => str_true s && match decimal 0 s with Some n => request_body_max_bytes st <? n | None => false end
      | None => false
      end || (request_body_max_bytes st <? rq_body_length r)).

(** [app.py:45-46 _uses_generic_write_rate_limit] *)
Definition _uses_generic_write_rate_limit (r : HttpRequest) : bool :=
  writes r && negb (bool_decide (rq_path r ∈ public_paths)).

Definition ends_with (suffix s : string) : bool :=
  let n := String.length s in
  let k := String.length suffix in
  (k <=? n)%nat && bool_decide (String.substring (n - k) k s = suffix).
(** [app.py:187-201 group] *)
Definition rate_group (r : HttpRequest) : string * Z :=
  if ends_with "/review" (rq_path r) then ("review", rate_limit_review_per_minute st)
  else match String.index 0 "/cases/" (rq_path r) with
       | Some _ => ("case_write", rate_limit_case_write_per_minute st)
       | None => ("diagnosis", rate_limit_diagnosis_per_minute st)
       end.

(** The name the limiter counts for: the actor of the token, or what the header says.
    [app.py:82-94 actor_id] *)
Definition rate_actor (a : option ActorContext) (r : HttpRequest) : string :=
  match a with
  | Some a => if str_true (actor_id a) then actor_id a else "local-operator"
  | None => match header "x-actor-id" r with
            | Some i => if str_true i then i else "local-operator"
            | None => "local-operator"
            end
  end.

(** [app.py:184-225 rate_limit_enabled] *)
Definition rate_limited (a : option ActorContext) (r : HttpRequest) : HTTP (option Rejection) :=
  if rate_limit_enabled st && _uses_generic_write_rate_limit r then
    let '(group, limit) := rate_group r in
    try_else (rate_allow (rate_actor a r) group limit)
      (fun answer => ret (if fst answer then None else Some (mkRejection 429 "RATE_LIMITED")))
      (fun e => match e with
                | Exc _ => ret (if pilot_mode st then Some (mkRejection 503 "RATE_LIMIT_UNAVAILABLE") else None)
                | Cancelled => raise Cancelled
                end)
  else ret None.

(** The slot of a stream.
    [api/diagnosis.py:87-112 stream_acquired] *)
Definition stream_slot (a : ActorContext) : HTTP (option Rejection) :=
  if rate_limit_enabled st then
    try_else (acquire_stream (actor_id a) (rate_limit_stream_concurrent st))
      (fun acquired => ret (if acquired then None else Some (mkRejection 429 "RATE_LIMITED")))
      (fun e => match e with
                | Exc _ => ret (Some (if pilot_mode st then mkRejection 503 "RATE_LIMIT_UNAVAILABLE"
                                      else mkRejection 429 "RATE_LIMITED"))
                | Cancelled => raise Cancelled
                end)
  else ret None.

(** A request that passed the middleware: the route, the validation of what it carries,
    the guard of its handler. *)
Definition dispatch (a : option ActorContext) (r : HttpRequest) : HTTP Answer :=
  match find_route st r with
  | inr j => ret (Reject j)
  | inl t =>
      if negb (valid_payload (rt_endpoint t) r) then ret (Reject (mkRejection 422 "VALIDATION_ERROR"))
      else match rt_guard t a r with
           | Raise e => ret (Reject (error_answer e))
           | Ok None => ret (Admit (rt_endpoint t) None)
           | Ok (Some actor) =>
               full <- (if bool_decide (rt_endpoint t = StreamMessage) then stream_slot actor else ret None) ;;
               ret (match full with Some j => Reject j | None => Admit (rt_endpoint t) (Some actor) end)
           end
  end.

(** Whether a request gets to a service, and as whom.
    [app.py:75-236 request_context_middleware] *)
Definition front (r : HttpRequest) : HTTP Answer :=
  found <- authenticate r ;;
  match found with
  | inl j => ret (Reject j)
  | inr a =>
      if too_large r then ret (Reject (mkRejection 413 "REQUEST_BODY_TOO_LARGE"))
      else
        limited <- rate_limited a r ;;
        match limited with
        | Some j => ret (Reject j)
        | None => dispatch a r
        end
  end.
End Middleware.

(** ** Readiness *)

(** What the probes of the dependencies found; [None] for one that is not used.
    [api/health.py:21-28 ReadyDependencies] *)
Record Probes := mkProbes {
  pb_mysql : bool; pb_redis : bool; pb_influxdb : bool;
  pb_minio : bool; pb_milvus : bool; pb_embedding : bool; pb_reranker : option bool;
}.
Record Readiness := mkReadiness {
  rd_ready : bool;
  rd_status : Z;
  rd_retrieval_ready : bool;
  rd_indexing_ready : bool;
  rd_graph_ready : bool;
}.
(** [api/health.py:100-131 ready] *)
Definition ready (st : Settings) (p : Probes) : Readiness :=
  let core := [pb_mysql p; pb_redis p; pb_influxdb p]
              ++ if retrieval_hybrid st then [pb_minio p; pb_milvus p; pb_embedding p] else [] in
  let status := forallb id core in
  mkReadiness status (if status then 200 else 503)
    (retrieval_hybrid st && pb_minio p && pb_milvus p && pb_embedding p)
    (index_sync st) (graph_neo4j st).
