(* ===== verification/ApiProps.v ===== *)
(** * Who gets to the services

    A request is handed to a service only for an identified actor with the role of the
    operation, within the limits of size and rate; the exceptions are stated. *)

From Stdlib Require Import Ascii.
From S2P Require Import Prelude Errors Tools Float Contracts Text Api.
Open Scope Z_scope.

(** Closed decisions. *)
Ltac decide_now := apply (bool_decide_unpack _); vm_compute; exact I.
Ltac refute H := apply (bool_decide_pack _) in H; vm_compute in H; destruct H.

(** The table of routes, spelled out. *)
Ltac unfold_routes :=
  unfold routes, auth_routes, users_routes, health_routes, catalog_routes, session_routes, evidence_routes,
    diagnosis_routes, cases_routes, login_route, refresh_route, me_route, change_password_route,
    logout_route, logout_all_route, list_users_route, create_user_route, get_user_route,
    patch_user_route, disable_user_route, enable_user_route, reset_password_route,
    revoke_sessions_route, live_route, ready_route, capabilities_route, sites_route, devices_route,
    device_route, alarms_route, alarm_route, sessions_route, timeline_route, evidence_detail_route,
    timeseries_route, create_session_route, chat_route, session_message_route, stream_message_route,
    get_session_route, review_diagnosis_route, list_cases_route, get_case_route, case_history_route,
    patch_case_route, submit_case_route, review_case_route, disable_case_route, revise_case_route,
    reindex_case_route, metrics_route;
  cbn [app].

(** ** Paths *)

Lemma split_on_ne sep s : split_on sep s <> [].
Proof. induction s as [|a s IH]; simpl; [done|]. case_bool_decide; [done|]. by destruct (split_on sep s). Qed.

(** The parts determine the path. *)
Lemma split_on_inj sep s s' : split_on sep s = split_on sep s' -> s = s'.
Proof.
  revert s'. induction s as [|a s IH]; intros [|b s']; simpl; [done|..].
  - case_bool_decide; [|destruct (split_on sep s') eqn:E; [by apply split_on_ne in E|done]].
    intros [= E]. symmetry in E. by apply split_on_ne in E.
  - case_bool_decide; [|destruct (split_on sep s) eqn:E; [by apply split_on_ne in E|done]].
    intros [= E]. by apply split_on_ne in E.
  - pose proof (split_on_ne sep s) as Hs. pose proof (split_on_ne sep s') as Hs'.
    case_bool_decide as Ea; case_bool_decide as Eb.
    + intros [= E]. subst. f_equal. by apply IH.
    + destruct (split_on sep s'); [done|]. by intros [=].
    + destruct (split_on sep s); [done|]. by intros [=].
    + destruct (split_on sep s) as [|p l] eqn:E; [done|]. destruct (split_on sep s') as [|p' l'] eqn:E'; [done|].
      intros [= -> -> ->]. f_equal. apply IH. by rewrite E'.
Qed.

(** A path without parameters is matched by itself only. *)
Lemma literal_path template path :
  forallb (fun t => negb (String.prefix "{" t)) (split_on "/"%char template) = true ->
  path_matches template path = true -> path = template.
Proof.
  unfold path_matches. intros Hl Hm. apply andb_true_iff in Hm as [Hn Hm].
  apply Nat.eqb_eq in Hn. symmetry. apply (split_on_inj "/"%char). revert Hl Hm Hn.
  generalize (split_on "/"%char template) as ts, (split_on "/"%char path) as ps.
  induction ts as [|t ts IH]; intros [|p ps]; simpl; try done.
  intros [Ht Hts]%andb_true_iff [Hp Hps]%andb_true_iff [= Hn]. unfold part_matches in Hp.
  apply negb_true_iff in Ht. rewrite Ht in Hp. apply bool_decide_eq_true in Hp as ->.
  f_equal. by apply IH.
Qed.

(** ** Guards *)

(** The roles an operation is meant for. *)
Definition allowed_roles (e : Endpoint) : list ActorRole :=
  match e with
  | ListUsers | CreateUser | GetUser | PatchUser | DisableUser | EnableUser | ResetPassword
  | RevokeSessions => [ADMIN]
  | ReviewDiagnosis | PatchCase | SubmitCase | ReviewCase | DisableCase | ReviseCase
  | ReindexCase => [REVIEWER; ADMIN]
  | CreateSession | Chat | SessionMessage | StreamMessage => [OPERATOR; REVIEWER; ADMIN]
  | _ => [VIEWER; OPERATOR; REVIEWER; ADMIN]
  end.
(** The writes a pilot restricts to its list of actors. *)
Definition pilot_writes : list Endpoint :=
  [ReviewDiagnosis; PatchCase; SubmitCase; ReviewCase; DisableCase; ReviseCase; ReindexCase;
   CreateSession; Chat; SessionMessage; StreamMessage].

Section Access.
Context (st : Settings).

Definition with_key (r : HttpRequest) : Prop := header "x-internal-api-key" r = internal_api_key st.
Definition bearer_key (r : HttpRequest) : Prop :=
  exists key, internal_api_key st = Some key
    /\ (header "authorization" r = Some (("Bearer " ++ key)%string) \/ or_empty (header "authorization" r) = key).

(** What a guard makes sure of. *)
Definition guarded_as (e : Endpoint) (a : option ActorContext) (r : HttpRequest) (x : option ActorContext) : Prop :=
  match x with
  | None => e ∈ [Live; Ready; Login; Refresh]
            \/ (e = Metrics /\ (local_env (app_env st) = true \/ with_key r \/ bearer_key r))
  | Some actor =>
      (e ∉ [Live; Ready; Login; Refresh; Metrics])
      /\ actor_role actor ∈ allowed_roles e
      /\ (pilot_mode st = true -> e ∈ pilot_writes -> actor_id actor ∈ allowlist (pilot_allowed_actors st))
      /\ exists explicit, actor_from_request st a r explicit = Ok actor
  end.

Lemma then_ok {A B} (o : outcome exn A) (f : A -> outcome exn B) b :
  then_ o f = Ok b -> exists a, o = Ok a /\ f a = Ok b.
Proof. destruct o; [|done]. eauto. Qed.
Lemma require_roles_ok a roles a' : require_roles a roles = Ok a' -> a' = a /\ actor_role a ∈ roles.
Proof. unfold require_roles. case_bool_decide; [|done]. by intros [= <-]. Qed.
Lemma require_pilot_write_ok a a' :
  require_pilot_write st a = Ok a' ->
  a' = a /\ (pilot_mode st = true -> actor_id a ∈ allowlist (pilot_allowed_actors st)).
Proof.
  unfold require_pilot_write. destruct (negb _ || _) eqn:E; [|done]. intros [= <-]. split; [done|].
  intros Hp. rewrite Hp in E. by apply bool_decide_eq_true in E.
Qed.

Lemma prefix_split p s : String.prefix p s = true ->
  s = (p ++ String.substring (String.length p) (String.length s - String.length p) s)%string.
Proof.
  revert s. induction p as [|a p IH]; intros s Hp; simpl.
  - clear Hp. rewrite Nat.sub_0_r. change (s = String.substring 0 (String.length s) s).
    induction s as [|b s IH]; [done|]. simpl. by f_equal.
  - destruct s as [|b s]; [done|]. simpl in Hp |- *. destruct (ascii_dec a b) as [->|]; [|done].
    match goal with |- _ = _ +:+ ?t => change (String b s = String b (p +:+ t)) end.
    f_equal. by apply IH.
Qed.

Lemma metrics_guarded a r x : metrics_guard st a r = Ok x -> guarded_as Metrics a r x.
Proof.
  unfold metrics_guard. cbv zeta. destruct (_ && _) eqn:E; [done|]. intros [= <-]. right. split; [done|].
  apply andb_false_iff in E as [E|E]; [apply andb_false_iff in E as [E|E]|]; apply negb_false_iff in E.
  - by left.
  - right. left. by apply bool_decide_eq_true in E.
  - right. right. apply bool_decide_eq_true in E. eexists. split; [by symmetry|].
    destruct (header "authorization" r) as [h|]; simpl in *; [|by right].
    destruct (String.prefix "Bearer " h) eqn:Ep; [|by right]. left. f_equal. by apply prefix_split in Ep.
Qed.

(** One lemma for the guards that name an actor. *)
Lemma actor_guarded e a r explicit actor :
  e ∉ [Live; Ready; Login; Refresh; Metrics] -> actor_from_request st a r explicit = Ok actor ->
  actor_role actor ∈ allowed_roles e ->
  (pilot_mode st = true -> e ∈ pilot_writes -> actor_id actor ∈ allowlist (pilot_allowed_actors st)) ->
  guarded_as e a r (Some actor).
Proof. intros. split_and!; eauto. Qed.

Ltac guard_steps :=
  unfold any_actor, _authorize, _actor, diagnosis_write, case_write;
  repeat match goal with
    | |- then_ _ _ = Ok _ -> _ => intros (? & ? & Hthen)%then_ok; revert Hthen
    | |- Ok _ = Ok _ -> _ => intros [= <-]
    | H : require_roles _ _ = Ok _ |- _ => apply require_roles_ok in H as [-> ?]
    | H : require_pilot_write _ _ = Ok _ |- _ => apply require_pilot_write_ok in H as [-> ?]
    end.

Lemma role_known (role : ActorRole) : role ∈ READ_ROLES.
Proof. destruct role; unfold READ_ROLES; set_solver. Qed.

Lemma routes_guarded : Forall (fun t => forall a r x, rt_guard t a r = Ok x -> guarded_as (rt_endpoint t) a r x) (routes st).
Proof.
  unfold_routes.
  repeat (apply Forall_cons; split; [intros a r x; cbn [rt_guard rt_endpoint]|]); [..|apply Forall_nil_2].
  all: try (intros [= <-]; left; by decide_now); try apply metrics_guarded.
  all: guard_steps; eapply actor_guarded; eauto; try apply role_known; try by decide_now.
  all: intros _ Hw; by refute Hw.
Qed.
End Access.

Lemma find_route_in st r t :
  find_route st r = inl t -> t ∈ routes st /\ path_matches (rt_path t) (rq_path r) = true.
Proof.
  unfold find_route. destruct (find_first _ _) as [t'|] eqn:E; [|by destruct (existsb _ _)]. intros [= <-].
  apply find_first_Some in E as [Hin Hp]. apply andb_true_iff in Hp as [? _]. done.
Qed.

Lemma login_paths st :
  Forall (fun t => rt_endpoint t ∈ [Login; Refresh] ->
            forallb (fun p => negb (String.prefix "{" p)) (split_on "/"%char (rt_path t)) = true
            /\ String.prefix "/api/v1/" (rt_path t) = true) (routes st).
Proof.
  unfold_routes.
  repeat (apply Forall_cons; split; [cbn [rt_endpoint rt_path]; intros Hr; first [by split|by refute Hr]|]).
  apply Forall_nil_2.
Qed.

(** ** The middleware *)

Section Front.
Context {W : Type} `{HttpPorts W} (st : Settings).

(** The actor the middleware found is the one of the token the request carries. *)
Definition by_token (r : HttpRequest) (actor : ActorContext) : Prop :=
  with_key st r
  /\ exists token must_change w w', header "authorization" r = Some (("Bearer " ++ token)%string)
    /\ authenticate_access token w = (w', Ok (actor, must_change))
    /\ (must_change = true -> rq_path r ∈ allowed_during_password_change).

Lemma authenticate_found r w w' a :
  authenticate st r w = (w', Ok (inr a)) ->
  (forall actor, a = Some actor -> auth_mode st = JWT /\ by_token r actor)
  /\ (auth_mode st = JWT -> String.prefix "/api/v1/" (rq_path r) = true -> with_key st r).
Proof.
  unfold authenticate. destruct (bool_decide (auth_mode st = JWT)) eqn:Em; cbn [negb andb];
    [apply bool_decide_eq_true in Em|intros [= _ <-]; apply bool_decide_eq_false in Em; by split].
  destruct (String.prefix "/api/v1/" (rq_path r)); cbn [negb]; [|by intros [= _ <-]].
  destruct (bool_decide (header _ r = _)) eqn:Ek; cbn [negb]; [apply bool_decide_eq_true in Ek|done].
  destruct (bool_decide (rq_path r ∈ public_paths)); [by intros [= _ <-]|].
  destruct (String.prefix "Bearer " _) eqn:Eb; cbn [negb]; [|done].
  set (token := String.substring _ _ _). intros Hc. split; [|done]. intros actor ->. split; [done|].
  split; [done|]. unfold catch in Hc.
  destruct ((_ <- _ ;; _) w) as [w1 [x|e]] eqn:E; [|destruct e as [[]|]; discriminate Hc].
  injection Hc as -> ->. apply bind_ok_inv in E as ([actor' mc] & w2 & Ha & E).
  apply bind_ok_inv in E as ([] & w3 & Hg & [= _ <-]). exists token, mc, w, w2. split_and!; [|done|].
  - destruct (header "authorization" r) as [h|]; [|done]. f_equal. by apply prefix_split in Eb.
  - intros ->. unfold guard in Hg. cbn [snd negb orb] in Hg. by case_bool_decide.
Qed.

(** A request that is admitted, taken apart. *)
Lemma front_admits r w w' e x :
  front st r w = (w', Ok (Admit e x)) ->
  exists a w1 w2 w3 t, authenticate st r w = (w1, Ok (inr a)) /\ too_large st r = false
    /\ rate_limited st a r w1 = (w2, Ok None)
    /\ t ∈ routes st /\ path_matches (rt_path t) (rq_path r) = true /\ rt_endpoint t = e
    /\ valid_payload e r = true /\ rt_guard t a r = Ok x
    /\ (forall actor, x = Some actor -> e = StreamMessage -> stream_slot st actor w2 = (w3, Ok None)).
Proof.
  unfold front. intros Hf. apply bind_ok_inv in Hf as ([j|a] & w1 & Ha & Hf); [done|].
  destruct (too_large st r) eqn:Et; [done|]. apply bind_ok_inv in Hf as ([j|] & w2 & Hr & Hf); [done|].
  unfold dispatch in Hf. destruct (find_route st r) as [t|j] eqn:Ht; [|done].
  apply find_route_in in Ht as [Hin Hm].
  destruct (valid_payload (rt_endpoint t) r) eqn:Hv; [|done]. cbn [negb] in Hf.
  destruct (rt_guard t a r) as [[actor|]|] eqn:Hg; [|injection Hf as <- <- <-|done].
  - apply bind_ok_inv in Hf as ([j|] & w3 & Hs & Hf); [done|]. injection Hf as <- <- <-.
    exists a, w1, w2, w3, t. split_and!; try done. intros actor' [= <-] He.
    by rewrite bool_decide_true in Hs.
  - exists a, w1, w2, w2, t. by split_and!.
Qed.

(** How the actor of an admitted request is known. *)
Definition identified (r : HttpRequest) (actor : ActorContext) : Prop :=
  match auth_mode st with
  | JWT => by_token r actor
  | TRUSTED_HEADERS =>
      with_key st r /\ header "x-actor-id" r = Some (actor_id actor)
      /\ header "x-actor-role" r = Some (role_value (actor_role actor))
  | DEVELOPMENT_HEADERS =>
      (header "x-actor-id" r = Some (actor_id actor) /\ header "x-actor-role" r = Some (role_value (actor_role actor)))
      \/ actor = mkActor "local-operator" OPERATOR
  end.

Lemma role_of_value_ok v role : role_of_value v = Some role -> v = role_value role.
Proof. unfold role_of_value. intros [_ Hr]%find_first_Some. by apply bool_decide_eq_true in Hr. Qed.

Lemma actor_identified a r explicit actor :
  (forall actor, a = Some actor -> auth_mode st = JWT /\ by_token r actor) ->
  actor_from_request st a r explicit = Ok actor -> identified r actor.
Proof.
  intros Ha. unfold actor_from_request, identified.
  assert (Hh : forall i v (b : bool),
    (if negb (str_true i) || negb (str_true v)
     then if b then Raise (Domain ActorRequiredError []) else Ok (mkActor "local-operator" OPERATOR)
     else if negb (actor_id_format i) then Raise (Domain ActorRequiredError [])
     else if String.prefix "service:" i && negb (bool_decide (header "x-service-actor" r = Some "trusted"))
     then Raise (Domain AuthenticationError [])
     else match role_of_value v with
          | Some role => Ok (mkActor i role)
          | None => Raise (Domain ActorRoleInvalidError [])
          end) = Ok actor ->
    (i = actor_id actor /\ v = role_value (actor_role actor))
    \/ (b = false /\ actor = mkActor "local-operator" OPERATOR)).
  { intros i v b. destruct (negb _ || negb _); [destruct b; [done|intros [= <-]; by right]|].
    destruct (negb _); [done|]. destruct (_ && _); [done|].
    destruct (role_of_value v) as [role|] eqn:Er; [|done]. intros [= <-]. left.
    split; [done|]. by apply role_of_value_ok in Er. }
  destruct (auth_mode st); cbn [bool_decide negb andb]; rewrite ?bool_decide_true, ?bool_decide_false by done.
  - cbn [andb]. destruct (header "x-actor-id" r) as [i|], (header "x-actor-role" r) as [v|];
      try (destruct (_ || _); [done|intros [= <-]; by right]).
    intros [[-> ->]|[_ ->]]%Hh; [by left|by right].
  - destruct (bool_decide (header _ _ = internal_api_key st)) eqn:Ek; [|done].
    apply bool_decide_eq_true in Ek. cbn [andb negb]. rewrite orb_true_r.
    destruct (header "x-actor-id" r) as [i|], (header "x-actor-role" r) as [v|]; try done.
    intros Hx. by destruct (Hh i v true Hx) as [[-> ->]|[? _]].
  - destruct a as [a|]; [|done]. intros [= <-]. by apply (Ha a).
Qed.
End Front.




(** ** Concrete requests *)

(** The world of the example: the names the limiter was asked for. *)
Definition api_ports (limiter : outcome abort (bool * Z)) : HttpPorts (list string) := {|
  authenticate_access token :=
    if bool_decide (token = "root") then ret (mkActor "root" ADMIN, false)
    else if bool_decide (token = "rita") then ret (mkActor "rita" REVIEWER, false)
    else raise (Exc (Domain AuthTokenInvalidError []));
  rate_allow name _ _ := modify (cons name) ;;; match limiter with Ok a => ret a | Raise e => raise e end;
  acquire_stream name _ := match limiter with Ok (b, _) => ret b | Raise e => raise e end;
  valid_payload _ _ := true;
|}.
Definition demo_settings (mode : AuthMode) (pilot : bool) : Settings :=
  mkSettings "production" mode (Some "key") (Some "aaaaaaaaaaaaaaaaaaaaaaaaaaaaaaaa")
    (Some "bbbbbbbbbbbbbbbbbbbbbbbbbbbbbbbb") MODEL_DISABLED None None None false None None false false
    None None 1024 1024 false None None (literal 30 100) (literal 40 100) (literal 30 100)
    (literal 35 100) (literal 20 100) (literal 15 100) (literal 15 100) (literal 15 100) false false None
    pilot "rita, otto" true 30 10 10 2 1048576.
Definition request (method path : string) (headers : list (string * string)) : HttpRequest :=
  mkHttpRequest method path headers 10.
Definition ask (mode : AuthMode) (pilot : bool) (limiter : outcome abort (bool * Z)) (r : HttpRequest) :=
  @front _ (api_ports limiter) (demo_settings mode pilot) r [].

Abbreviation key_header := ("x-internal-api-key", "key").
Abbreviation review_request :=
  (request "POST" "/api/v1/cases/C1/review" [key_header; ("authorization", "Bearer rita")]).

Lemma demo_settings_valid : settings_valid (demo_settings JWT true) /\ settings_valid (demo_settings TRUSTED_HEADERS false).
Proof. split; split; vm_compute; reflexivity. Qed.




(** A browser asks before a request to another origin, without the key and without a
    token; the middleware answers before the CORS middleware sees the question. *)
Example preflight_refused :
  snd (ask JWT false (Ok (true, 0))
    (request "OPTIONS" "/api/v1/cases" [("origin", "https://ui.example"); ("access-control-request-method", "GET")]))
  = Ok (Reject (rejection AuthenticationError 401)).
Proof. vm_compute. reflexivity. Qed.

(** In a pilot an administrator who is not on the list may not submit a case but may
    create users. *)
Example pilot_admin_writes_users :
  let as_root path := request "POST" path [key_header; ("authorization", "Bearer root")] in
  snd (ask JWT true (Ok (true, 0)) (as_root "/api/v1/cases/C1/submit")) = Ok (Reject (rejection PermissionDeniedError 403))
  /\ snd (ask JWT true (Ok (true, 0)) (as_root "/api/v1/users")) = Ok (Admit CreateUser (Some (mkActor "root" ADMIN))).
Proof. vm_compute. by split. Qed.

(** Whoever sets the headers can be a service. *)
Example service_actor_by_header :
  snd (ask TRUSTED_HEADERS false (Ok (true, 0))
    (request "POST" "/api/v1/cases/C1/review"
      [key_header; ("x-actor-id", "service:indexer"); ("x-actor-role", "admin"); ("x-service-actor", "trusted")]))
  = Ok (Admit ReviewCase (Some (mkActor "service:indexer" ADMIN))).
Proof. vm_compute. reflexivity. Qed.

(** With headers the limiter counts before the key is looked at: a stranger uses up what
    somebody else may do. *)
Example stranger_uses_up_limit :
  ask TRUSTED_HEADERS false (Ok (true, 0)) (request "POST" "/api/v1/cases/C1/review" [("x-actor-id", "alice")])
  = (["alice"], Ok (Reject (rejection AuthenticationError 401))).
Proof. vm_compute. reflexivity. Qed.

(** While the limiter is down and there is no pilot, a message is let through, but a
    stream is refused as one too many. *)
Example limiter_down_refuses_streams :
  let down := Raise (Exc ConnectionError) in
  let send path := request "POST" path [key_header; ("authorization", "Bearer rita")] in
  snd (ask JWT false down (send "/api/v1/diagnosis/sessions/s1/messages"))
  = Ok (Admit SessionMessage (Some (mkActor "rita" REVIEWER)))
  /\ snd (ask JWT false down (send "/api/v1/diagnosis/sessions/s1/messages/stream"))
     = Ok (Reject (mkRejection 429 "RATE_LIMITED")).
Proof. vm_compute. by split. Qed.
