(* ===== verification/Lifespan.v ===== *)
(** * The life of the process

    [bootstrap/lifespan.py]: which clients are made of the settings, what happens when a
    store is not there at the start, and what is closed at the end; [ensure_collections]
    of [providers/milvus.py]; and the probes of [api/health.py]. Whether a connection or a
    close succeeds is an argument. The registration of the tools and the construction of
    services and repositories around the clients are left out. *)

From S2P Require Import Prelude Errors Tools Float Api.
Open Scope Z_scope.

(** ** The collections of the vector store *)

(** The names of the three collections and the dimension of their vectors. *)
Record MilvusConfig := mkMilvusConfig {
  manual_collection : string;
  ticket_collection : string;
  case_collection : string;
  dimension : Z;
}.
(** The collections there are, with the dimension of the field [embedding] if they have
    one, and the number of calls made. *)
Record VectorStore := mkVectorStore {
  vs_collections : gmap string (option Z);
  vs_calls : nat;
}.
#[export] Instance VectorStore_eta : Eta VectorStore := fun v => mkVectorStore (vs_collections v) (vs_calls v).

Section Collections.
(** The n-th look at a collection may fail, or be cancelled. *)
Context (mc : MilvusConfig) (milvus_call : nat -> outcome abort unit).
Abbreviation V := (M VectorStore abort).

Definition call_milvus : V unit := fun v =>
  (v <| vs_calls ::= S |>, milvus_call (vs_calls v)).
(** A collection of another dimension is refused, a missing one is created.
    [providers/milvus.py:42-78 _ensure_collection_sync] *)
Definition _ensure_collection_sync (name : string) : V unit :=
  call_milvus ;;;
  found <- gets (fun v => vs_collections v !! name) ;;
  match found with
  | Some d =>
      guard (bool_decide (d = Some (dimension mc))) (Exc (Domain MilvusSchemaMismatchError []))
  | None => modify (fun v => v <| vs_collections ::= insert name (Some (dimension mc)) |>)
  end.
(** At the start nothing has failed yet, so the breaker lets the call pass; what it learns
    is left out.
    [providers/milvus.py:80-98 ensure_collections] *)
Definition ensure_collections : V unit :=
  except
    (_ensure_collection_sync (manual_collection mc) ;;;
     _ensure_collection_sync (ticket_collection mc) ;;;
     _ensure_collection_sync (case_collection mc))
    (fun e => match e with
              | Domain MilvusSchemaMismatchError _ => raise (Exc e)
              | _ => raise (Exc (Domain MilvusUnavailableError []))
              end).
End Collections.

(** ** Clients *)

(** The clients the process makes. *)
Inductive Resource :=
| TracerOf | Mysql | Redis | Influx | Model | Minio | Embedding | Milvus | Reranker | Neo4j.
#[export] Instance Resource_eq_dec : EqDecision Resource.
Proof. solve_decision. Defined.

(** What is called to let a client go, by the names [_close] logs. *)
Definition closers (r : Resource) : list string :=
  match r with
  | TracerOf => ["tracer_flush"; "tracer_shutdown"]
  | Mysql => ["mysql"]
  | Redis => ["redis"]
  | Influx => ["influxdb"]
  | Embedding => ["embedding"]
  | Milvus => ["milvus"]
  | Reranker => ["reranker"]
  | Neo4j => ["neo4j"]
  | Model | Minio => []
  end.

(** The clients that depend on the settings.
    [bootstrap/container.py ProviderContainer] *)
Record ProviderContainer := mkContainer {
  pc_model : bool;
  pc_minio : bool;
  pc_embedding : bool;
  pc_vector_search : bool;
  pc_reranker : bool;
  pc_neo4j : bool;
}.

(** The process: the clients made and the closes begun, in order, and the vector store. *)
Record Process := mkProcess {
  opened : list Resource;
  closings : list string;
  vectors : VectorStore;
}.
#[export] Instance Process_eta : Eta Process := fun p => mkProcess (opened p) (closings p) (vectors p).

(** What the outside answers: connecting to the vector store, the bucket, the calls of
    [ensure_collections], and each close. *)
Class Surroundings := mkSurroundings {
  milvus_connects : outcome abort unit;
  bucket_there : outcome abort unit;
  milvus_call : nat -> outcome abort unit;
  closing : string -> outcome abort unit;
}.

Section Lifespan.
Context `{Surroundings} (st : Settings) (mc : MilvusConfig).
Abbreviation P := (M Process abort).

Definition answer_of {A} (o : outcome abort A) : P A := match o with Ok a => ret a | Raise e => raise e end.
Definition make (r : Resource) : P unit := modify (fun p => p <| opened ::= fun l => l ++ [r] |>).
Definition make_if (b : bool) (r : Resource) : P bool := when b (make r) ;;; ret b.
Definition on_vectors {A} (m : M VectorStore abort A) : P A := fun p =>
  let '(v, o) := m (vectors p) in (p <| vectors := v |>, o).

(** Errors and timeouts are logged; a cancellation goes on.
    [bootstrap/lifespan.py:60-65 _close] *)
Definition _close (name : string) : P unit :=
  modify (fun p => p <| closings ::= fun l => l ++ [name] |>) ;;;
  except (answer_of (closing name)) (fun _ => ret tt).

(** [bootstrap/lifespan.py:46-57 create_tracer] *)
Definition create_tracer : P unit :=
  when (observability_langfuse st)
    (guard (bool_decide (is_Some (langfuse_public_key st)) && bool_decide (is_Some (langfuse_secret_key st)))
       (Exc AssertionError)) ;;;
  make TracerOf.

(** Whether there is a gateway to the model.
    [bootstrap/lifespan.py:110-116 model_mode] *)
Definition model_wanted : bool :=
  bool_decide (model_mode st = OPENAI) && ostr_true (openai_api_key st)
  || bool_decide (model_mode st = OPENAI_COMPATIBLE) && ostr_true (model_gateway_base_url st)
     && ostr_true (model_gateway_api_key st).

Definition milvus_down (e : exn) : bool :=
  match e with Domain c _ => isinstance c MilvusUnavailableError | _ => false end.
(** [bootstrap/lifespan.py:143-162 vector_search] *)
Definition connect_milvus : P bool :=
  if retrieval_hybrid st then
    except (answer_of milvus_connects ;;; make Milvus ;;; ret true)
      (fun e => if milvus_down e then ret false else raise (Exc e))
  else ret false.
(** A store without its collections is let go again.
    [bootstrap/lifespan.py:188-199 vector_search] *)
Definition ensure_vector_search (connected : bool) : P bool :=
  if connected then
    except (on_vectors (ensure_collections mc milvus_call) ;;; ret true)
      (fun e => if milvus_down e then _close "milvus" ;;; ret false else raise (Exc e))
  else ret false.

(** [bootstrap/lifespan.py:70-199 lifespan] *)
Definition startup : P ProviderContainer :=
  create_tracer ;;; make Mysql ;;; make Redis ;;; make Influx ;;;
  model <- make_if model_wanted Model ;;
  minio <- make_if (retrieval_hybrid st) Minio ;;
  embedding <- make_if (embedding_enabled st) Embedding ;;
  connected <- connect_milvus ;;
  reranker <- make_if (rerank_http st) Reranker ;;
  neo4j <- make_if (graph_neo4j st) Neo4j ;;
  (if minio then answer_of bucket_there else ret tt) ;;;
  vector_search <- ensure_vector_search connected ;;
  ret (mkContainer model minio embedding vector_search reranker neo4j).

(** [bootstrap/lifespan.py:290-305 _close] *)
Definition shutdown (c : ProviderContainer) : P unit :=
  when (pc_embedding c) (_close "embedding") ;;;
  when (pc_reranker c) (_close "reranker") ;;;
  when (pc_vector_search c) (_close "milvus") ;;;
  when (pc_neo4j c) (_close "neo4j") ;;;
  _close "tracer_flush" ;;; _close "tracer_shutdown" ;;; _close "redis" ;;; _close "influxdb" ;;; _close "mysql".
End Lifespan.

(** ** Probes *)

(** The probes run over the clients there are: without a vector store the probe of a hybrid
    process has nothing to ask.
    [api/health.py:69-99 health] *)
Definition readiness (st : Settings) (c : ProviderContainer) (p : Probes) : outcome exn Readiness :=
  if retrieval_hybrid st && negb (pc_minio c && pc_vector_search c && pc_embedding c)
  then Raise AttributeError
  else Ok (ready st p).

(** ** Theorems *)

Section EnsureCollections.
Context (mc : MilvusConfig) (milvus_call : nat -> outcome abort unit).

Definition collection_names : list string := [manual_collection mc; ticket_collection mc; case_collection mc].

Lemma ensure_one name v v' o :
  _ensure_collection_sync mc milvus_call name v = (v', o) ->
  (forall n d, vs_collections v !! n = Some d -> vs_collections v' !! n = Some d)
  /\ (forall n, n <> name -> vs_collections v' !! n = vs_collections v !! n)
  /\ (o = Ok tt -> vs_collections v' !! name = Some (Some (dimension mc))).
Proof.
  unfold _ensure_collection_sync, call_milvus, bind, gets, modify, guard, raise, ret.
  destruct (milvus_call _) as [[]|e]; cbn.
  - destruct (vs_collections v !! name) as [d|] eqn:E.
    + case_bool_decide; intros [= <- <-]; cbn; split_and!; congruence.
    + intros [= <- <-]. cbn. split_and!.
      * intros n d Hn. rewrite lookup_insert_ne; [done|congruence].
      * intros n Hn. by rewrite lookup_insert_ne.
      * intros _. by rewrite lookup_insert_eq.
  - intros [= <- <-]. cbn. split_and!; done.
Qed.

(** The collections are made once and never changed: whatever fails, a collection that
    was there stays as it was and no other one is made; when it succeeds the three are
    there with vectors of the configured dimension. *)
Theorem collections_ensured v v' o :
  ensure_collections mc milvus_call v = (v', o) ->
  (forall n d, vs_collections v !! n = Some d -> vs_collections v' !! n = Some d)
  /\ (forall n, n ∉ collection_names -> vs_collections v' !! n = vs_collections v !! n)
  /\ (o = Ok tt -> forall n, n ∈ collection_names -> vs_collections v' !! n = Some (Some (dimension mc)))
  /\ (forall e, o = Raise (Exc e) -> e = Domain MilvusUnavailableError []
        \/ exists l, e = Domain MilvusSchemaMismatchError l).
Proof.
  unfold ensure_collections, except, catch. set (m := _ ;;; _).
  assert (Hm : forall v1 o1, m v = (v1, o1) ->
    (forall n d, vs_collections v !! n = Some d -> vs_collections v1 !! n = Some d)
    /\ (forall n, n ∉ collection_names -> vs_collections v1 !! n = vs_collections v !! n)
    /\ (o1 = Ok tt -> forall n, n ∈ collection_names -> vs_collections v1 !! n = Some (Some (dimension mc)))).
  { intros v1 o1. unfold m, collection_names, bind.
    destruct (_ensure_collection_sync _ _ (manual_collection mc) v) as [w1 o2] eqn:E1.
    apply ensure_one in E1 as (K1 & N1 & D1). destruct o2 as [[]|e]; [|intros [= <- <-]; set_solver].
    destruct (_ensure_collection_sync _ _ (ticket_collection mc) w1) as [w2 o2] eqn:E2.
    apply ensure_one in E2 as (K2 & N2 & D2). destruct o2 as [[]|e]; [|intros [= <- <-]; split_and!; [auto| |done]].
    2: { intros n Hn. rewrite N2, N1 by set_solver. done. }
    intros E3. apply ensure_one in E3 as (K3 & N3 & D3). split_and!; [auto| |].
    - intros n Hn. rewrite N3, N2, N1 by set_solver. done.
    - intros -> n Hn. rewrite !elem_of_cons in Hn. destruct Hn as [->|[->|[->|[]%elem_of_nil]]]; auto. }
  destruct (m v) as [v1 [[]|[e|]]]; destruct (Hm _ _ eq_refl) as (H1 & H2 & H3).
  - intros [= <- <-]. split_and!; [done..|]. by intros e.
  - assert (Hr : forall e', (v1, Raise (Exc e') : outcome abort unit) = (v', o) ->
      (e' = Domain MilvusUnavailableError [] \/ exists l, e' = Domain MilvusSchemaMismatchError l) ->
      (forall n d, vs_collections v !! n = Some d -> vs_collections v' !! n = Some d)
      /\ (forall n, n ∉ collection_names -> vs_collections v' !! n = vs_collections v !! n)
      /\ (o = Ok tt -> forall n, n ∈ collection_names -> vs_collections v' !! n = Some (Some (dimension mc)))
      /\ (forall e, o = Raise (Exc e) -> e = Domain MilvusUnavailableError []
            \/ exists l, e = Domain MilvusSchemaMismatchError l)).
    { intros e' [= <- <-] He'. split_and!; [done..|]. by intros e0 [= <-]. }
    destruct e; try (intros Heq; apply (Hr _ Heq); by left).
    destruct c; intros Heq; apply (Hr _ Heq); eauto.
  - intros [= <- <-]. split_and!; [done..|]. by intros e.
Qed.
End EnsureCollections.

(** What a state still has to close, if every client is to be closed once. *)
Definition owed (l : list string) (p : Process) : Prop :=
  closings p ++ l ≡ₚ flat_map closers (opened p).

Section Owing.
Context `{Surroundings} (st : Settings) (mc : MilvusConfig).

Lemma owed_perm l l' p : l ≡ₚ l' -> owed l p -> owed l' p.
Proof. unfold owed. by intros ->. Qed.

Lemma make_owed r p p' u l : make r p = (p', Ok u) -> owed l p -> owed (closers r ++ l) p'.
Proof.
  intros [= <-] Hl. unfold owed in *. cbn. rewrite flat_map_app, <-Hl. cbn. rewrite app_nil_r.
  rewrite (Permutation_app_comm (closers r)). by rewrite app_assoc.
Qed.
Lemma make_if_owed b r p p' b' l :
  make_if b r p = (p', Ok b') -> owed l p -> b' = b /\ owed ((if b then closers r else []) ++ l) p'.
Proof.
  unfold make_if. intros (u & p1 & H1 & Hr)%bind_ok_inv Hl. injection Hr as <- <-. split; [done|].
  destruct b; [by eapply make_owed|]. by injection H1 as <- _.
Qed.

Lemma close_owed name p p' u l :
  _close name p = (p', Ok u) -> owed (name :: l) p -> owed l p'.
Proof.
  unfold _close. intros (u1 & p1 & H1 & Hr)%bind_ok_inv Hl. injection H1 as <- _.
  unfold except, catch, answer_of in Hr. unfold owed in *.
  destruct (closing name) as [[]|[e|]]; cbn in Hr; try done; injection Hr as <- _; cbn; by rewrite <-Hl, <-app_assoc.
Qed.
Lemma close_returns name p :
  closing name <> Raise Cancelled -> _close name p = (p <| closings ::= fun l => l ++ [name] |>, Ok tt).
Proof.
  intros Hc. unfold _close, bind, modify, except, catch, answer_of.
  destruct (closing name) as [[]|[e|]]; done.
Qed.

Lemma on_vectors_same {A} (m : M VectorStore abort A) p p' o :
  on_vectors m p = (p', o) -> opened p' = opened p /\ closings p' = closings p.
Proof. unfold on_vectors. destruct (m _). by intros [= <- _]. Qed.

Lemma connect_owed p p' b l :
  connect_milvus st p = (p', Ok b) -> owed l p -> owed ((if b then ["milvus"] else []) ++ l) p'.
Proof.
  unfold connect_milvus, except, catch, bind, answer_of. destruct (retrieval_hybrid st).
  - destruct milvus_connects as [[]|[e|]]; cbn.
    + intros [= <- <-]. by eapply (make_owed Milvus).
    + destruct (milvus_down e); [|done]. by intros [= <- <-].
    + done.
  - by intros [= <- <-].
Qed.
Lemma connect_true p p' :
  connect_milvus st p = (p', Ok true) -> retrieval_hybrid st = true /\ milvus_connects = Ok tt.
Proof.
  unfold connect_milvus, except, catch, bind, answer_of. destruct (retrieval_hybrid st); [|done].
  destruct milvus_connects as [[]|[e|]]; cbn; [done| |done]. by destruct (milvus_down e).
Qed.

Lemma ensure_owed b p p' b' l :
  ensure_vector_search mc b p = (p', Ok b') -> owed ((if b then ["milvus"] else []) ++ l) p ->
  owed ((if b' then ["milvus"] else []) ++ l) p'.
Proof.
  unfold ensure_vector_search. destruct b; [|by intros [= <- <-]].
  unfold except, catch, bind at 1. destruct (on_vectors _ p) as [p1 [[]|[e|]]] eqn:E.
  - intros [= <- <-] Hl. destruct (on_vectors_same _ _ _ _ E) as [Ho Hc]. unfold owed in *. by rewrite Ho, Hc.
  - destruct (milvus_down e); [|done]. intros (u & p2 & H2 & Hr)%bind_ok_inv Hl. injection Hr as <- <-.
    destruct (on_vectors_same _ _ _ _ E) as [Ho Hc].
    eapply close_owed; [exact H2|]. unfold owed in *. by rewrite Ho, Hc.
  - done.
Qed.
Lemma ensure_vector_search_true b p p' :
  ensure_vector_search mc b p = (p', Ok true) ->
  b = true /\ forall n, n ∈ collection_names mc -> vs_collections (vectors p') !! n = Some (Some (dimension mc)).
Proof.
  unfold ensure_vector_search. destruct b; [|done]. unfold except, catch, bind at 1.
  destruct (on_vectors _ p) as [p1 [[]|[e|]]] eqn:E; [|destruct (milvus_down e); [|done]|done].
  - intros [= <-]. split; [done|]. unfold on_vectors in E.
    destruct (ensure_collections _ _ _) as [v o] eqn:Ev. injection E as <- ->.
    apply collections_ensured in Ev as (_ & _ & Hk & _). by apply Hk.
  - by intros (u & p2 & _ & Hr)%bind_ok_inv.
Qed.

(** The closes of the end of the process, in order. *)
Definition names_of (c : ProviderContainer) : list string :=
  (if pc_embedding c then ["embedding"] else []) ++ (if pc_reranker c then ["reranker"] else [])
  ++ (if pc_vector_search c then ["milvus"] else []) ++ (if pc_neo4j c then ["neo4j"] else [])
  ++ ["tracer_flush"; "tracer_shutdown"; "redis"; "influxdb"; "mysql"].

Lemma bring_forward {A} (a b m r : list A) : a ++ b ++ m ++ r ≡ₚ m ++ a ++ b ++ r.
Proof. rewrite (Permutation_app_swap_app b m r). apply Permutation_app_swap_app. Qed.

Lemma startup_owes p p' c :
  startup st mc p = (p', Ok c) -> owed [] p -> owed (names_of c) p'.
Proof.
  unfold startup. intros (u0 & p0 & H0 & Hr)%bind_ok_inv Hp.
  unfold create_tracer in H0. apply bind_ok_inv in H0 as (u & p1 & Hg & H0).
  assert (owed [] p1) as Hp1.
  { destruct (observability_langfuse st); [|by injection Hg as <- _].
    cbn in Hg. destruct (_ && _); [by injection Hg as <- _|done]. }
  apply (make_owed TracerOf) with (l := []) in H0; [|done].
  apply bind_ok_inv in Hr as (u1 & p2 & H1 & Hr). eapply make_owed in H1; [|exact H0].
  apply bind_ok_inv in Hr as (u2 & p3 & H2 & Hr). eapply make_owed in H2; [|exact H1].
  apply bind_ok_inv in Hr as (u3 & p4 & H3 & Hr). eapply make_owed in H3; [|exact H2].
  apply bind_ok_inv in Hr as (m & p5 & H4 & Hr). eapply make_if_owed in H4 as [-> H4]; [|exact H3].
  apply bind_ok_inv in Hr as (mi & p6 & H5 & Hr). eapply make_if_owed in H5 as [-> H5]; [|exact H4].
  apply bind_ok_inv in Hr as (em & p7 & H6 & Hr). eapply make_if_owed in H6 as [-> H6]; [|exact H5].
  apply bind_ok_inv in Hr as (co & p8 & H7 & Hr). eapply connect_owed in H7; [|exact H6].
  apply bind_ok_inv in Hr as (re & p9 & H8 & Hr). eapply make_if_owed in H8 as [-> H8]; [|exact H7].
  apply bind_ok_inv in Hr as (ne & p10 & H9 & Hr). eapply make_if_owed in H9 as [-> H9]; [|exact H8].
  apply bind_ok_inv in Hr as (u4 & p11 & H10 & Hr).
  assert (p11 = p10) as ->.
  { destruct (retrieval_hybrid st); [|by injection H10]. unfold answer_of in H10.
    destruct bucket_there as [[]|]; [by injection H10|done]. }
  apply bind_ok_inv in Hr as (ve & p12 & H11 & Hr). injection Hr as <- <-.
  eapply ensure_owed in H11.
  2: { eapply owed_perm; [apply bring_forward|exact H9]. }
  eapply owed_perm; [|exact H11]. unfold names_of. cbn [pc_embedding pc_reranker pc_vector_search pc_neo4j].
  destruct model_wanted, (retrieval_hybrid st), (embedding_enabled st), (rerank_http st), (graph_neo4j st), ve;
    cbn; apply (bool_decide_unpack _); vm_compute; exact I.
Qed.
End Owing.

Definition new_process (v : VectorStore) : Process := mkProcess [] [] v.

Lemma shutdown_run `{Surroundings} c p :
  (forall name, closing name <> Raise Cancelled) ->
  shutdown c p = (p <| closings ::= fun l => l ++ names_of c |>, Ok tt).
Proof.
  intros Hc. unfold shutdown, names_of, when, bind, ret.
  destruct (pc_embedding c), (pc_reranker c), (pc_vector_search c), (pc_neo4j c);
    rewrite ?close_returns by done; cbn; unfold set; cbn; by rewrite <-?app_assoc.
Qed.

(** A process that started closes every client it made exactly once, the database last,
    whatever the closes answer; a vector store that was let go at the start is not closed
    again. *)
Theorem everything_closed `{Surroundings} st mc v p c :
  startup st mc (new_process v) = (p, Ok c) -> (forall name, closing name <> Raise Cancelled) ->
  exists p', shutdown c p = (p', Ok tt)
    /\ closings p' ≡ₚ flat_map closers (opened p') /\ last (closings p') = Some "mysql".
Proof.
  intros Hs Hc. apply startup_owes in Hs; [|exact (Permutation_refl [])]. eexists. split; [by apply shutdown_run|].
  split; [exact Hs|]. cbn. unfold names_of. rewrite !app_assoc.
  change ["tracer_flush"; "tracer_shutdown"; "redis"; "influxdb"; "mysql"]
    with (["tracer_flush"; "tracer_shutdown"; "redis"; "influxdb"] ++ ["mysql"]).
  rewrite app_assoc. apply last_snoc.
Qed.

(** The clients of valid settings: the model unless it is disabled, object store and
    embedding for hybrid retrieval, reranker and graph as they are set; the vector store
    only for hybrid retrieval, when it could be reached and has its collections. *)
Theorem clients_of_settings `{Surroundings} st mc v p c :
  settings_valid st -> startup st mc (new_process v) = (p, Ok c) ->
  (pc_model c = true <-> model_mode st <> MODEL_DISABLED)
  /\ pc_minio c = retrieval_hybrid st /\ (retrieval_hybrid st = true -> pc_embedding c = true)
  /\ pc_reranker c = rerank_http st /\ pc_neo4j c = graph_neo4j st
  /\ (pc_vector_search c = true -> retrieval_hybrid st = true /\ milvus_connects = Ok tt
      /\ forall n, n ∈ collection_names mc -> vs_collections (vectors p) !! n = Some (Some (dimension mc))).
Proof.
  intros [_ Hv] Hs.
  assert (Hm : model_wanted st = true <-> model_mode st <> MODEL_DISABLED).
  { clear Hs. unfold validate_dependencies_and_weights in Hv. cbv zeta in Hv. unfold model_wanted.
    repeat match type of Hv with (if ?b then _ else _) = _ => destruct b eqn:?; [discriminate Hv|] end.
    destruct (model_mode st); cbn in *.
    - split; [done|by intros []].
    - split; [done|]. intros _. rewrite orb_false_l. by destruct (ostr_true (model_gateway_base_url st)), (ostr_true (model_gateway_api_key st)).
    - split; [done|]. intros _. by destruct (ostr_true (openai_api_key st)). }
  assert (He : retrieval_hybrid st = true -> embedding_enabled st = true).
  { intros Hh. unfold validate_dependencies_and_weights in Hv. cbv zeta in Hv.
    repeat match type of Hv with (if ?b then _ else _) = _ => destruct b eqn:?; [discriminate Hv|] end.
    rewrite Hh in *. by destruct (embedding_enabled st). }
  unfold startup in Hs. apply bind_ok_inv in Hs as (u0 & p0 & _ & Hs).
  apply bind_ok_inv in Hs as (u1 & p1 & _ & Hs). apply bind_ok_inv in Hs as (u2 & p2 & _ & Hs).
  apply bind_ok_inv in Hs as (u3 & p3 & _ & Hs). apply bind_ok_inv in Hs as (m & p4 & H4 & Hs).
  apply bind_ok_inv in Hs as (mi & p5 & H5 & Hs). apply bind_ok_inv in Hs as (em & p6 & H6 & Hs).
  apply bind_ok_inv in Hs as (co & p7 & H7 & Hs). apply bind_ok_inv in Hs as (re & p8 & H8 & Hs).
  apply bind_ok_inv in Hs as (ne & p9 & H9 & Hs). apply bind_ok_inv in Hs as (u4 & p10 & _ & Hs).
  apply bind_ok_inv in Hs as (ve & p11 & H11 & Hs). injection Hs as <- <-. cbn.
  assert (Hmk : forall b r q q' b', make_if b r q = (q', Ok b') -> b' = b).
  { intros b r q q' b'. unfold make_if. intros (u & q1 & _ & Hr)%bind_ok_inv. by injection Hr. }
  apply Hmk in H4 as ->, H5 as ->, H6 as ->, H8 as ->, H9 as ->.
  split_and!; [done|done|done|done|done|].
  intros ->. apply (ensure_vector_search_true mc) in H11 as [-> Hn]. apply connect_true in H7 as [? ?]. done.
Qed.

(** ** A hybrid process *)

Definition hybrid_settings : Settings :=
  mkSettings "production" JWT (Some "key") (Some "aaaaaaaaaaaaaaaaaaaaaaaaaaaaaaaa")
    (Some "bbbbbbbbbbbbbbbbbbbbbbbbbbbbbbbb") OPENAI None None (Some "sk") false None None true true
    (Some "http://embed") (Some "k") 1024 1024 true (Some "http://rerank") (Some "k")
    (literal 30 100) (literal 40 100) (literal 30 100)
    (literal 35 100) (literal 20 100) (literal 15 100) (literal 15 100) (literal 15 100) false true (Some "n")
    false "" true 30 10 10 2 1048576.
Definition demo_milvus : MilvusConfig := mkMilvusConfig "manuals" "tickets" "cases" 1024.
Definition demo_surroundings (connects bucket : outcome abort unit) (call : nat -> outcome abort unit)
  : Surroundings :=
  {| milvus_connects := connects; bucket_there := bucket; milvus_call := call; closing _ := Raise (Exc TimeoutError) |}.
Definition no_vectors : VectorStore := mkVectorStore ∅ 0.

Lemma hybrid_settings_valid : settings_valid hybrid_settings.
Proof. split; vm_compute; reflexivity. Qed.

(** Every close fails, and the store lost its second collection call: all the same each
    client is closed once. *)
Lemma everything_closed_witness :
  let E := demo_surroundings (Ok tt) (Ok tt) (fun n => if (n =? 1)%nat then Raise (Exc ConnectionError) else Ok tt) in
  exists p c p', @startup E hybrid_settings demo_milvus (new_process no_vectors) = (p, Ok c)
    /\ pc_vector_search c = false /\ @shutdown E c p = (p', Ok tt)
    /\ closings p' = ["milvus"; "embedding"; "reranker"; "neo4j"; "tracer_flush"; "tracer_shutdown"; "redis";
                      "influxdb"; "mysql"]
    /\ closings p' ≡ₚ flat_map closers (opened p').
Proof.
  cbv zeta. set (E := demo_surroundings _ _ _).
  destruct (@startup E hybrid_settings demo_milvus (new_process no_vectors)) as [p [c|e]] eqn:Es;
    [|vm_compute in Es; discriminate Es].
  destruct (@everything_closed E hybrid_settings demo_milvus no_vectors p c Es) as (p' & Hp & Hc & _);
    [discriminate|].
  exists p, c, p'. split; [done|]. vm_compute in Es. injection Es as <- <-. split; [done|]. split; [exact Hp|].
  split; [|exact Hc]. vm_compute in Hp. injection Hp as <-. reflexivity.
Defined.

Lemma clients_of_settings_witness :
  let E := demo_surroundings (Ok tt) (Ok tt) (fun _ => Ok tt) in
  exists p c, @startup E hybrid_settings demo_milvus (new_process no_vectors) = (p, Ok c)
    /\ c = mkContainer true true true true true true
    /\ vs_collections (vectors p) !! "cases" = Some (Some 1024).
Proof.
  cbv zeta. set (E := demo_surroundings _ _ _).
  destruct (@startup E hybrid_settings demo_milvus (new_process no_vectors)) as [p [c|e]] eqn:Es;
    [|vm_compute in Es; discriminate Es].
  destruct (@clients_of_settings E hybrid_settings demo_milvus no_vectors p c hybrid_settings_valid Es)
    as (_ & _ & _ & _ & _ & Hv).
  exists p, c. split; [done|]. assert (Hc : c = mkContainer true true true true true true).
  { vm_compute in Es. by injection Es as _ <-. }
  split; [exact Hc|]. rewrite Hc in Hv. apply (Hv eq_refl). apply (bool_decide_unpack _). vm_compute. exact I.
Defined.

(** A start that fails after clients were made closes none of them: only what follows the
    start is inside the [try] block. *)
Example failed_start_closes_nothing :
  let E := demo_surroundings (Ok tt) (Raise (Exc (Domain MinioUnavailableError []))) (fun _ => Ok tt) in
  let '(p, o) := @startup E hybrid_settings demo_milvus (new_process no_vectors) in
  o = Raise (Exc (Domain MinioUnavailableError [])) /\ closings p = []
  /\ opened p = [TracerOf; Mysql; Redis; Influx; Model; Minio; Embedding; Milvus; Reranker; Neo4j].
Proof. vm_compute. by split_and!. Qed.

(** A process that started without the vector store runs on keywords; asked whether it is
    ready it neither says yes nor no but fails. *)
Example ready_fails_without_milvus :
  let E := demo_surroundings (Raise (Exc (Domain MilvusUnavailableError []))) (Ok tt) (fun _ => Ok tt) in
  match snd (@startup E hybrid_settings demo_milvus (new_process no_vectors)) with
  | Ok c => pc_vector_search c = false
            /\ readiness hybrid_settings c (mkProbes true true true true false true (Some true)) = Raise AttributeError
            /\ error_answer AttributeError = mkRejection 500 "INTERNAL_ERROR"
  | Raise _ => False
  end.
Proof. vm_compute. by split_and!. Qed.
