(* ===== verification/EvidenceView.v ===== *)
(** * Evidence and time series of a session

    [evidence/service.py], [evidence/repository.py]: the detail of one piece of evidence
    and the time series behind a diagnosis. The stores it reads through its ports and the time series client are
    operations of a class; instants are microseconds and carry whether they have a time
    zone, since Python does not compare those that have with those that have not. *)

From S2P Require Store CaseApp Library.
From S2P Require Import Prelude Errors Json Float Text Iso Tools Contracts Templates.
Open Scope Z_scope.

(** ** Data *)

(** [datetime]: aware of its time zone or not. *)
Record Datetime := mkDatetime { dt_micros : Z; dt_aware : bool }.
#[export] Instance Datetime_eq_dec : EqDecision Datetime.
Proof. solve_decision. Defined.

(** The columns of a session the service reads. *)
Record SessionView := mkSessionView {
  sv_trace_id : string;
  sv_device_id : option string;
  sv_alarm_id : option string;
}.
(** [evidence/ports.py:14-18 EvidenceSourceDetail] *)
Record EvidenceSourceDetail := mkSourceDetail {
  sd_title : string;
  sd_payload_name : string;
  sd_payload : json;
  sd_content_excerpt : option string;
}.
(** What a session remembers that matters here: the evidence, and the two texts of its
    time window. *)
Record MemoryView := mkMemoryView {
  mv_evidence : list Evidence;
  mv_time_window : option (option string * option string);
}.
(** [evidence/contracts.py:9-23 EvidenceDetail] *)
Record EvidenceDetail := mkEvidenceDetail {
  ed_evidence_id : string;
  ed_source_type : string;
  ed_source_id : string;
  ed_title : string;
  ed_summary : string;
  ed_citation : string;
  ed_verified : bool;
  ed_scores : list (string * option float);
  ed_metadata : list (string * json);
  ed_content_excerpt : option string;
  ed_detail : list (string * json);
}.
(** [evidence/contracts.py:26-35 TimeseriesSeries] *)
Record TimeseriesSeries := mkSeries {
  ts_metric : string;
  ts_unit : option string;
  ts_points : list (Z * float * string);
}.
Inductive WindowSource := REQUESTED | SESSION_MEMORY | ALARM_TIME | CURRENT.
(** [evidence/contracts.py:38-44 SessionTimeseriesResponse] *)
Record SessionTimeseriesResponse := mkTimeseriesResponse {
  tr_device_id : string;
  tr_start_time : Datetime;
  tr_end_time : Datetime;
  tr_window_source : WindowSource;
  tr_empty : bool;
  tr_series : list TimeseriesSeries;
}.

(** The ports of the service; the run is known by its template; [read_datetime] is
    [datetime.fromisoformat].
    [evidence/ports.py:21-50 EvidenceSessionPort] *)
Class EvidencePorts (W : Type) := mkEvidencePorts {
  get_session : string -> M W abort (option SessionView);
  latest_result : string -> M W abort (option (list Evidence));
  get_memory : string -> M W abort (option MemoryView);
  run_for_session : string -> string -> M W abort (option (option string));
  latest_run : string -> M W abort (option (option string));
  source_manual : string -> M W abort (option EvidenceSourceDetail);
  source_ticket : string -> M W abort (option EvidenceSourceDetail);
  source_case : string -> M W abort (option EvidenceSourceDetail);
  alarm_time : string -> M W abort Datetime;
  now : M W abort Datetime;
  read_datetime : string -> option Datetime;
  query_points : string -> list string -> Datetime -> Datetime -> list string ->
    M W abort (list (string * list (Z * float * string)));
}.

(** [evidence/service.py:23-31 UNITS] *)
Definition UNITS : list (string * string) :=
  [("cabinet_temperature", "°C"); ("ambient_temperature", "°C"); ("fan_speed", "rpm"); ("dc_voltage", "V");
   ("dc_current", "A"); ("ac_power", "kW")].
Definition unit_of (name : string) : option string :=
  snd <$> find_first (fun kv => bool_decide (fst kv = name)) UNITS.

Section Service.
Context {W : Type} `{EvidencePorts W}.
Abbreviation V := (M W abort).
Definition domain {A} (c : error_class) : V A := raise (Exc (Domain c [])).

(** [next((item for item in evidence if item.evidence_id == evidence_id), None)] *)
Definition named (evidence_id : string) (l : list Evidence) : option Evidence :=
  find_first (fun e => bool_decide (Contracts.evidence_id e = evidence_id)) l.

(** The evidence of the latest answer, or else what the session remembers.
    [evidence/service.py:70-87 evidence] *)
Definition find_evidence (session_id evidence_id : string) : V Evidence :=
  result <- latest_result session_id ;;
  match result ≫= named evidence_id with
  | Some e => ret e
  | None =>
      memory <- get_memory session_id ;;
      match memory ≫= (fun m => named evidence_id (mv_evidence m)) with
      | Some e => ret e
      | None => domain ResourceNotFoundError
      end
  end.

(** [evidence/service.py:91-97 source_detail] *)
Definition source_of (e : Evidence) : V (option EvidenceSourceDetail) :=
  if bool_decide (source_type e = "manual") then
    source_manual (if ostr_true (ev_chunk_id e) then or_empty (ev_chunk_id e) else source_id e)
  else if bool_decide (source_type e = "ticket") then source_ticket (source_id e)
  else if bool_decide (source_type e = "case") then source_case (source_id e)
  else ret None.

(** [evidence.metadata.get(key)], null when it is missing. *)
Definition meta_value (key : string) (e : Evidence) : json :=
  default JNull (snd <$> find_first (fun kv => bool_decide (fst kv = key)) (metadata e)).

(** [evidence/service.py:66-133 detail] *)
Definition detail (session_id evidence_id : string) : V EvidenceDetail :=
  session <- get_session session_id ;;
  match session with
  | None => domain ResourceNotFoundError
  | Some session =>
      e <- find_evidence session_id evidence_id ;;
      source <- source_of e ;;
      let graph := bool_decide (source_type e = "graph") in
      let series := if bool_decide (source_type e = "timeseries")
                    then [("timeseries_descriptor",
                           JObj [("device_id", jopt (sv_device_id session)); ("metric", meta_value "metric" e);
                                 ("time_window", meta_value "time_window" e)])] else [] in
      ret (mkEvidenceDetail (Contracts.evidence_id e) (source_type e) (source_id e)
             (match source with Some d => sd_title d | None => if graph then "关联关系摘要" else source_id e end)
             (summary e) (citation e) (ev_verified e)
             [("retrieval_score", retrieval_score e); ("source_reliability", source_reliability e);
              ("verification_score", verification_score e); ("freshness_score", freshness_score e);
              ("relevance_to_alarm", relevance_to_alarm e); ("final_score", final_score e)]
             (metadata e)
             (match source with Some d => sd_content_excerpt d | None => if graph then Some (summary e) else None end)
             (match source with Some d => [(sd_payload_name d, sd_payload d)] | None => series end))
  end.

(** The template of the run; a run without one, or one that is not registered, has none.
    [evidence/service.py:153-160 template] *)
Definition run_template (run : option (option string)) : V (option DiagnosisTemplate) :=
  match run with
  | Some (Some t) =>
      if str_true t then
        match get TEMPLATES t with
        | Ok t => ret (Some t)
        | Raise (TemplateNotFoundError _) => ret None
        | Raise e => raise (Exc e)
        end
      else ret None
  | _ => ret None
  end.

Definition minutes_before (d : Datetime) (n : Z) : Datetime :=
  mkDatetime (dt_micros d - n * 60000000) (dt_aware d).

Definition parsed (s : string) : V Datetime :=
  match read_datetime s with Some d => ret d | None => raise (Exc ValueError) end.

(** The window around the alarm of the session, or up to now.
    [evidence/service.py:177-185 alarm] *)
Definition session_window (session : SessionView) (t : DiagnosisTemplate)
  : V (WindowSource * Datetime * Datetime) :=
  let before stop := minutes_before stop (default_window_minutes t) in
  match sv_alarm_id session with
  | Some alarm =>
      if str_true alarm then stop <- alarm_time alarm ;; ret (ALARM_TIME, before stop, stop)
      else stop <- now ;; ret (CURRENT, before stop, stop)
  | None => stop <- now ;; ret (CURRENT, before stop, stop)
  end.

(** Where the window comes from, its start and its end.
    [evidence/service.py:168-185 window] *)
Definition window_of (session : SessionView) (memory : option MemoryView) (t : DiagnosisTemplate)
  (start_time end_time : option Datetime) : V (WindowSource * Datetime * Datetime) :=
  match start_time, end_time with
  | Some start, Some stop => ret (REQUESTED, start, stop)
  | Some start, None => stop <- now ;; ret (REQUESTED, start, stop)
  | None, Some stop => ret (REQUESTED, minutes_before stop (default_window_minutes t), stop)
  | None, None =>
      match memory ≫= mv_time_window with
      | Some (Some a, Some b) =>
          if str_true a && str_true b
          then start <- parsed a ;; stop <- parsed b ;; ret (SESSION_MEMORY, start, stop)
          else session_window session t
      | _ => session_window session t
      end
  end.

(** [evidence/service.py:135-214 timeseries] *)
Definition timeseries (session_id : string) (run_id metric : option string)
  (start_time end_time : option Datetime) : V SessionTimeseriesResponse :=
  session <- get_session session_id ;;
  match session with
  | None => domain ResourceNotFoundError
  | Some session =>
      guard (ostr_true (sv_device_id session)) (Exc (Domain ResourceNotFoundError [])) ;;;
      let device := or_empty (sv_device_id session) in
      run <- (if ostr_true run_id then run_for_session (or_empty run_id) session_id
              else latest_run session_id) ;;
      guard (negb (ostr_true run_id) || bool_decide (is_Some run)) (Exc (Domain ResourceNotFoundError [])) ;;;
      template <- run_template run ;;
      match template with
      | None => domain InvalidRequestError
      | Some t =>
          let wanted := if ostr_true metric then [or_empty metric] else metrics t in
          guard (list_true wanted && forallb (fun m => bool_decide (m ∈ metrics t)) wanted)
            (Exc (Domain InvalidRequestError [])) ;;;
          memory <- get_memory session_id ;;
          window <- window_of session memory t start_time end_time ;;
          let '(source, start, stop) := window in
          guard (Bool.eqb (dt_aware start) (dt_aware stop)) (Exc TypeError) ;;;
          guard (dt_micros start <? dt_micros stop) (Exc (Domain InvalidRequestError [])) ;;;
          points <- query_points device wanted start stop (measurements t) ;;
          ret (mkTimeseriesResponse device start stop source
                 (negb (existsb (fun kv => list_true (snd kv)) points))
                 (map (fun kv => mkSeries (fst kv) (unit_of (fst kv)) (snd kv)) points))
      end
  end.
End Service.

(** ** The sources of evidence *)

(** The tables of the sources; a ticket comes with its device. *)
Record SourceTables := mkSourceTables {
  st_chunks : list Library.ChunkRow;
  st_tickets : list (Library.TicketRow * string);
  st_cases : list Store.DiagnosisCase;
}.

Section Sources.
Context (t : SourceTables).

Definition jopt_list (o : option (list string)) : json :=
  match o with Some l => JList (map JStr l) | None => JNull end.

(** [evidence/repository.py:17-42 manual] *)
Definition manual (id : string) : option EvidenceSourceDetail :=
  (fun c =>
     let excerpt := str_take 1200 (Library.ck_content c) in
     mkSourceDetail (Library.ck_chapter_title c) "manual_location"
       (JObj [("doc_id", JStr (Library.ck_doc_id c)); ("version", JStr (Library.ck_version c));
              ("chapter_title", JStr (Library.ck_chapter_title c));
              ("page_no", match Library.ck_page_no c with Some n => JInt n | None => JNull end);
              ("section_type", JStr (Library.ck_section_type c)); ("content_excerpt", JStr excerpt);
              ("effective", JBool (Library.ck_effective c)); ("verified", JBool (Library.ck_verified c))])
       (Some excerpt))
  <$> find_first (fun c => bool_decide (Library.ck_chunk_id c = id)) (st_chunks t).

(** [evidence/repository.py:43-62 ticket] *)
Definition ticket (id : string) : option EvidenceSourceDetail :=
  (fun row =>
     let '(k, device) := row in
     mkSourceDetail ("工单 " ++ Library.tk_ticket_id k) "ticket_detail"
       (JObj [("ticket_id", JStr (Library.tk_ticket_id k)); ("device_id", JStr device);
              ("device_model", JStr (Library.tk_device_model k)); ("alarm_name", JStr (Library.tk_alarm_name k));
              ("fault_symptom", JStr (Library.tk_fault_symptom k)); ("root_cause", JStr (Library.tk_root_cause k));
              ("action_taken", JStr (Library.tk_action_taken k)); ("is_verified", JBool (Library.tk_is_verified k));
              ("close_time", jopt (isoformat <$> Library.tk_close_time k))]) None)
  <$> find_first (fun row => bool_decide (Library.tk_ticket_id (fst row) = id)) (st_tickets t).

(** [evidence/repository.py:64-81 case] *)
Definition case (id : string) : option EvidenceSourceDetail :=
  (fun c =>
     mkSourceDetail ("案例 " ++ Store.case_id c) "case_detail"
       (JObj [("case_id", JStr (Store.case_id c)); ("case_version", JInt (Store.case_version c));
              ("root_cause", JStr (Store.root_cause c)); ("resolution_steps", jopt_list (Store.resolution_steps c));
              ("review_status", JStr (CaseApp.case_status_value (Store.review_status c)));
              ("reviewer", jopt (Store.reviewer c)); ("evidence_refs", jopt_list (Store.evidence_refs c))]) None)
  <$> find_first (fun c => bool_decide (Store.case_id c = id)) (st_cases t).

(** The ports of the service with the repository behind them. *)
Definition over_tables {W} (P : EvidencePorts W) : EvidencePorts W := {|
  get_session := get_session;
  latest_result := latest_result;
  get_memory := get_memory;
  run_for_session := run_for_session;
  latest_run := latest_run;
  source_manual i := ret (manual i);
  source_ticket i := ret (ticket i);
  source_case i := ret (case i);
  alarm_time := alarm_time;
  now := now;
  read_datetime := read_datetime;
  query_points := query_points;
|}.

(** The source of a piece of evidence, by its kind. *)
Definition source_row (e : Evidence) : option EvidenceSourceDetail :=
  if bool_decide (source_type e = "manual") then
    manual (if ostr_true (ev_chunk_id e) then or_empty (ev_chunk_id e) else source_id e)
  else if bool_decide (source_type e = "ticket") then ticket (source_id e)
  else if bool_decide (source_type e = "case") then case (source_id e)
  else None.

Lemma source_of_tables {W} (P : EvidencePorts W) e w :
  @source_of W (over_tables P) e w = (w, Ok (source_row e)).
Proof.
  unfold source_of, source_row. by repeat case_bool_decide.
Qed.
End Sources.

(** ** What a session is shown *)

(** evidence stays with its session. A detail that is shown is the evidence of that
    name in the latest answer of the session or, when that has none, in its memory, with
    its summary, citation and scores; the source it is looked up in is the one of its kind,
    under its own identifier. *)
Theorem evidence_of_the_session `{EvidencePorts W} session_id evidence_id w w' d :
  detail session_id evidence_id w = (w', Ok d) ->
  exists (e : Evidence) w1 w2 w3 w4 result,
    latest_result session_id w1 = (w2, Ok result)
    /\ (result ≫= named evidence_id = Some e
        \/ (result ≫= named evidence_id = None
            /\ exists memory, get_memory session_id w2 = (w3, Ok (Some memory))
                 /\ named evidence_id (mv_evidence memory) = Some e))
    /\ ed_evidence_id d = evidence_id /\ ed_evidence_id d = Contracts.evidence_id e
    /\ ed_source_id d = source_id e /\ ed_summary d = summary e /\ ed_citation d = citation e
    /\ ed_verified d = ev_verified e /\ ed_scores d !! 5%nat = Some ("final_score", final_score e)
    /\ exists source, source_of e w4 = (w', Ok source)
         /\ (forall s, source = Some s -> ed_title d = sd_title s /\ ed_detail d = [(sd_payload_name s, sd_payload s)]).
Proof.
  unfold detail. intros Hd. apply bind_ok_inv in Hd as ([session|] & w1 & _ & Hd); [|done].
  apply bind_ok_inv in Hd as (e & w4 & He & Hd). apply bind_ok_inv in Hd as (source & w5 & Hs & Hd).
  injection Hd as <- <-. unfold find_evidence in He.
  apply bind_ok_inv in He as (result & w2 & Hr & He).
  assert (Hname : forall l (e : Evidence), named evidence_id l = Some e -> Contracts.evidence_id e = evidence_id).
  { intros l e' [_ Hn]%find_first_Some. by apply bool_decide_eq_true in Hn. }
  destruct (result ≫= named evidence_id) as [e'|] eqn:En.
  - injection He as -> ->. exists e, w1, w4, w4, w4, result. split_and!; try done; [by left|..].
    + destruct result; [|done]. by apply Hname in En.
    + exists source. split; [done|]. by intros s ->.
  - apply bind_ok_inv in He as (memory & w3 & Hm & He).
    destruct (memory ≫= _) as [e'|] eqn:Em; [|done]. injection He as -> ->.
    destruct memory as [memory|]; [|done]. cbn in Em.
    exists e, w1, w2, w4, w4, result. split_and!; try done; [by right; eauto|by apply Hname in Em|].
    exists source. split; [done|]. by intros s ->.
Qed.

(** C15: the time series that are shown belong to the diagnosis. They were asked of the
    device of the session, for metrics and measurements of the template of one of its
    runs, over a window that starts before it ends. *)
Theorem timeseries_of_the_session `{EvidencePorts W} session_id run_id metric start_time end_time w w' r :
  timeseries session_id run_id metric start_time end_time w = (w', Ok r) ->
  exists session t run wanted w0 w1 w2 w3 w4 points,
    get_session session_id w = (w0, Ok (Some session))
    /\ (if ostr_true run_id then run_for_session (or_empty run_id) session_id else latest_run session_id) w1
       = (w2, Ok (Some (Some run)))
    /\ get TEMPLATES run = Ok t /\ sv_device_id session = Some (tr_device_id r)
    /\ wanted <> [] /\ (forall m, m ∈ wanted -> m ∈ metrics t)
    /\ query_points (tr_device_id r) wanted (tr_start_time r) (tr_end_time r) (measurements t) w3 = (w4, Ok points)
    /\ map ts_metric (tr_series r) = map fst points /\ map ts_points (tr_series r) = map snd points
    /\ dt_micros (tr_start_time r) < dt_micros (tr_end_time r)
    /\ dt_aware (tr_start_time r) = dt_aware (tr_end_time r).
Proof.
  unfold timeseries. intros Hr. apply bind_ok_inv in Hr as ([session|] & w0 & Hs & Hr); [|done].
  apply bind_ok_inv in Hr as ([] & w1 & Hdev & Hr). cbv zeta in Hr.
  apply bind_ok_inv in Hr as (run & w2 & Hrun & Hr). apply bind_ok_inv in Hr as ([] & w3 & _ & Hr).
  apply bind_ok_inv in Hr as ([t|] & w4 & Ht & Hr); [|done].
  apply bind_ok_inv in Hr as ([] & w5 & Hm & Hr). apply bind_ok_inv in Hr as (memory & w6 & _ & Hr).
  apply bind_ok_inv in Hr as ([[source start] stop] & w7 & _ & Hr).
  apply bind_ok_inv in Hr as ([] & w8 & Haw & Hr). apply bind_ok_inv in Hr as ([] & w9 & Hlt & Hr).
  apply bind_ok_inv in Hr as (points & w10 & Hq & Hr). injection Hr as <- <-.
  unfold guard in Hdev, Hm, Haw, Hlt.
  destruct (ostr_true (sv_device_id session)) eqn:Ed; [|done].
  destruct (_ && _) eqn:Em in Hm; [|done]. apply andb_true_iff in Em as [Hne Hall].
  destruct (Bool.eqb _ _) eqn:Ea; [|done]. destruct (_ <? _) eqn:El; [|done].
  unfold run_template in Ht. destruct run as [[run|]|]; try done.
  destruct (str_true run); [|done]. destruct (get TEMPLATES run) as [t'|[]] eqn:Eg; try done.
  injection Ht as _ ->. eexists session, t, run, _, w0, _, _, w9, w10, points.
  split_and!; [done|exact Hrun|done| | | |exact Hq|..]; cbn.
  - by destruct (sv_device_id session).
  - by destruct (if ostr_true metric then _ else _).
  - intros m Hm'. rewrite forallb_forall in Hall.
    apply list_elem_of_In in Hm'. specialize (Hall m Hm'). by apply bool_decide_eq_true in Hall.
  - by rewrite map_map.
  - by rewrite map_map.
  - by apply Z.ltb_lt.
  - by apply eqb_prop.
Qed.

(** What a detail shows of the tables: the row the evidence names, as it is now, or, when
    it is gone, the evidence alone. *)
Theorem detail_shows_row {W} (P : EvidencePorts W) t session_id evidence_id w w' d :
  @detail W (over_tables t P) session_id evidence_id w = (w', Ok d) ->
  exists (e : Evidence) w1, @find_evidence W P session_id evidence_id w1 = (w', Ok e)
    /\ ed_evidence_id d = Contracts.evidence_id e
    /\ match source_row t e with
       | Some s => ed_title d = sd_title s /\ ed_detail d = [(sd_payload_name s, sd_payload s)]
                   /\ ed_content_excerpt d = sd_content_excerpt s
       | None => source_type e <> "graph" -> ed_title d = source_id e /\ ed_content_excerpt d = None
       end.
Proof.
  unfold detail. intros Hd. apply bind_ok_inv in Hd as ([session|] & w1 & _ & Hd); [|done].
  apply bind_ok_inv in Hd as (e & w2 & He & Hd). apply bind_ok_inv in Hd as (source & w3 & Hs & Hd).
  rewrite source_of_tables in Hs. injection Hs as <- <-. injection Hd as <- <-.
  exists e, w1. split; [exact He|]. split; [done|].
  destruct (source_row t e) as [s|]; [done|]. intros Hg. cbn. by rewrite bool_decide_false.
Qed.

(** ** A session with one piece of evidence *)

Definition demo_evidence : Evidence :=
  mkEvidence "ticket:T1" "ticket" "T1" "风扇停转" "[工单: T1]" true zero zero None None None None None None
    None None false [].
Definition demo_view : EvidencePorts unit := {|
  get_session s := ret (if bool_decide (s = "s1") then Some (mkSessionView "t" (Some "PCS-001") (Some "A1")) else None);
  latest_result _ := ret None;
  get_memory _ := ret (Some (mkMemoryView [demo_evidence] None));
  run_for_session _ _ := ret None;
  latest_run _ := ret (Some (Some "pcs_fan_abnormal_v1"));
  source_manual _ := ret None;
  source_ticket i := ret (Some (mkSourceDetail ("工单 " ++ i) "ticket_detail" (JObj []) None));
  source_case _ := ret None;
  alarm_time _ := ret (mkDatetime 7200000000 true);
  now := ret (mkDatetime 9000000000 true);
  read_datetime _ := None;
  query_points _ ms _ _ _ := ret (map (fun m => (m, [])) ms);
|}.

Lemma evidence_of_the_session_witness :
  exists d, @detail _ demo_view "s1" "ticket:T1" tt = (tt, Ok d) /\ ed_title d = "工单 T1"
    /\ ed_summary d = "风扇停转" /\ ed_evidence_id d = "ticket:T1"
    /\ snd (@detail _ demo_view "s1" "ticket:T2" tt) = Raise (Exc (Domain ResourceNotFoundError [])).
Proof.
  destruct (@detail _ demo_view "s1" "ticket:T1" tt) as [[] [d|e]] eqn:E; [|vm_compute in E; discriminate E].
  exists d. split; [done|].
  destruct (@evidence_of_the_session _ demo_view "s1" "ticket:T1" tt tt d E)
    as (e & w1 & w2 & w3 & w4 & result & _ & _ & Hi & _).
  vm_compute in E. injection E as <-. split_and!; [reflexivity..|exact Hi|reflexivity].
Defined.

Lemma timeseries_of_the_session_witness :
  exists r, @timeseries _ demo_view "s1" None None None None tt = (tt, Ok r)
    /\ tr_window_source r = ALARM_TIME /\ dt_micros (tr_end_time r) = 7200000000
    /\ dt_micros (tr_start_time r) < dt_micros (tr_end_time r) /\ tr_empty r = true.
Proof.
  destruct (@timeseries _ demo_view "s1" None None None None tt) as [[] [r|e]] eqn:E; [|vm_compute in E; discriminate E].
  exists r. split; [done|].
  destruct (@timeseries_of_the_session _ demo_view "s1" None None None None tt tt r E)
    as (session & t & run & wanted & w0 & w1 & w2 & w3 & w4 & points & _ & _ & _ & _ & _ & _ & _ & _ & _ & Hlt & _).
  vm_compute in E. injection E as <-. split_and!; [reflexivity..|exact Hlt|reflexivity].
Defined.

(** A start without a time zone and no end: the comparison with the present raises a
    TypeError, which is no answer of the API but an internal error. *)
Example naive_start_fails :
  snd (@timeseries _ demo_view "s1" None None (Some (mkDatetime 0 false)) None tt) = Raise (Exc TypeError)
  /\ snd (@timeseries _ demo_view "s1" None None (Some (mkDatetime 9000000000 true)) None tt)
     = Raise (Exc (Domain InvalidRequestError [])).
Proof. vm_compute. by split. Qed.

(** A ticket that is in the table, and one that is not. *)
Definition demo_sources : SourceTables :=
  mkSourceTables []
    [(Library.mkTicketRow "T1" "S1" "PCS-500" "风扇故障" "风扇不转" "风扇供电异常" "更换风扇" true None None None,
      "PCS-001")] [].
Lemma detail_shows_row_witness :
  exists d, @detail _ (over_tables demo_sources demo_view) "s1" "ticket:T1" tt = (tt, Ok d)
    /\ ed_title d = "工单 T1" /\ map fst (ed_detail d) = ["ticket_detail"]
    /\ ed_title d = sd_title (default (mkSourceDetail "" "" JNull None) (source_row demo_sources demo_evidence)).
Proof.
  destruct (@detail _ (over_tables demo_sources demo_view) "s1" "ticket:T1" tt) as [[] [d|e]] eqn:E;
    [|vm_compute in E; discriminate E].
  exists d. split; [done|].
  destruct (detail_shows_row demo_view demo_sources "s1" "ticket:T1" tt tt d E) as (e & w1 & He & _ & Hs).
  vm_compute in He. assert (Ee : e = demo_evidence) by (vm_compute; congruence). subst e.
  vm_compute in E. injection E as <-. split_and!; [reflexivity..|]. exact (proj1 Hs).
Defined.
