(* ===== verification/Influx.v ===== *)
(** * The time series client

    [providers/influxdb.py]: the queries in Flux and the summaries of their points. What
    the database answers to a query is an argument; instants are microseconds. *)

From Stdlib Require Import Ascii SpecFloat.
From stdpp Require Import pretty sorting.
From S2P Require Import Prelude Errors Json Float Text Iso Tools ToolData.
Open Scope Z_scope.

(** ** Summaries *)

(** Finite floats as integers times powers of two. *)
Definition exponent_of (x : float) : Z := match x with S754_finite _ _ e => e | _ => 0 end.
Definition scaled (low : Z) (x : float) : Z :=
  match x with
  | S754_finite s m e => (if s then -1 else 1) * Z.pos m * 2 ^ (e - low)
  | _ => 0
  end.
Definition is_nan (x : float) : bool := match x with S754_nan => true | _ => false end.
Definition is_infinite (x : float) : bool := match x with S754_infinity _ => true | _ => false end.

(** [math.fsum]: the exact sum, rounded once. An overflow on the way to a sum that fits is
    not modelled. *)
Definition exact_sum (l : list float) : outcome exn float :=
  let specials := filter (fun x => is_finite x = false) l in
  if list_true specials then
    if is_nan (fold_left fadd (filter (fun x => is_infinite x = true) specials) zero) then Raise ValueError
    else Ok (fold_left fadd specials zero)
  else
    let low := fold_left Z.min (map exponent_of l) 0 in
    let total := binary_normalize 53 1024 (fold_left Z.add (map (scaled low) l) 0) low false in
    if is_finite total then Ok total else Raise OverflowError.
(** [statistics.fmean] *)
Definition fmean (l : list float) : outcome exn float :=
  match exact_sum l with
  | Ok s => Ok (fdiv s (float_of_Z (Z.of_nat (length l))))
  | Raise e => Raise e
  end.

Inductive Trend := RISING | FALLING | STABLE.
Definition trend_value (t : Trend) : string :=
  match t with RISING => "rising" | FALLING => "falling" | STABLE => "stable" end.
(** The summary of a metric that has points. *)
Record Summary := mkSummary {
  sm_first : float;
  sm_last : float;
  sm_min : float;
  sm_max : float;
  sm_average : float;
  sm_trend : Trend;
  sm_point_count : nat;
}.

Definition earlier (p q : Z * float) : Prop := fst p <= fst q.
#[export] Instance earlier_dec : RelDecision earlier := fun p q => decide (fst p <= fst q).
#[export] Instance earlier_total : Total earlier.
Proof. intros p q. unfold earlier. lia. Qed.
#[export] Instance earlier_trans : Transitive earlier.
Proof. intros p q r. unfold earlier. lia. Qed.

(** The trend of the difference between the last and the first value.
    [providers/influxdb.py:13-14 trend] *)
Definition trend_of (first last : float) : Trend :=
  let delta := fsub last first in
  if flt (literal 1 100) delta then RISING
  else if flt delta (SFopp (literal 1 100)) then FALLING else STABLE.

(** [None] for a metric without points.
    [providers/influxdb.py:8-25 summarize_points] *)
Definition summarize_points (points : list (Z * float)) : outcome exn (option Summary) :=
  match map snd (stable_sort earlier points) with
  | [] => Ok None
  | v :: rest =>
      let values := v :: rest in
      match fmean values with
      | Raise e => Raise e
      | Ok average =>
          let final := default v (last values) in
          Ok (Some (mkSummary v final (fmin_of v rest) (fmax_of v rest) average (trend_of v final)
                      (length values)))
      end
  end.

(** ** Queries *)

Definition quote : ascii := ascii_of_nat 34.
Definition backslash : ascii := ascii_of_nat 92.
(** [s.replace(chr(34), r)] *)
Fixpoint replace_quotes (r : list ascii) (l : list ascii) : list ascii :=
  match l with
  | [] => []
  | a :: l => (if bool_decide (a = quote) then r else [a]) ++ replace_quotes r l
  end.
Definition on_bytes (f : list ascii -> list ascii) (s : string) : string :=
  String.string_of_list_ascii (f (String.list_ascii_of_string s)).
(** A backslash goes before every quote.
    [providers/influxdb.py:55-55 escaped_device] *)
Definition escaped_device : string -> string := on_bytes (replace_quotes [backslash; quote]).
Definition quote_text (s : string) : string := String quote (s ++ String quote "").

(** [" or ".join(...)] over comparisons with a text.
    [providers/influxdb.py:56-61 metric_filter] *)
Definition any_equal (field : string) (values : list string) : string :=
  str_join " or " (map (fun v => (field ++ " == " ++ quote_text v)%string) values).

(** An optional value, or an error. *)
Definition from_some {W E A} (e : E) (o : option A) : M W E A :=
  match o with Some a => ret a | None => raise e end.

Section Client.
Context (bucket : string).

Definition flux_filters (device_id : string) (metrics measurements : list string) : string :=
  (" |> filter(fn: (r) => " ++ any_equal "r._measurement" measurements ++ ")"
   ++ " |> filter(fn: (r) => r.device_id == " ++ quote_text (escaped_device device_id) ++ ")"
   ++ " |> filter(fn: (r) => " ++ any_equal "r.metric_name" (map (on_bytes (replace_quotes [])) metrics) ++ ")"
   ++ " |> filter(fn: (r) => r._field == " ++ quote_text "value" ++ ")")%string.

(** The query for the values of a window; times are given as texts.
    [providers/influxdb.py:62-70 flux] *)
Definition flux (device_id : string) (metrics : list string) (start_time end_time : string) (max_points : Z)
  (measurements : list string) : string :=
  ("from(bucket: " ++ quote_text bucket ++ ") |> range(start: " ++ start_time ++ ", stop: " ++ end_time ++ ")"
   ++ flux_filters device_id metrics measurements ++ " |> limit(n: " ++ pretty max_points ++ ")")%string.

(** [int(x)] of a finite float *)
Definition truncated (x : float) : Z :=
  match x with
  | S754_finite s m e => (if s then -1 else 1) * Z.shiftr (Z.shiftl (Z.pos m) (Z.max 0 e)) (Z.max 0 (- e))
  | _ => 0
  end.
(** The seconds of one point, when a window is shown in at most [max_points] points; exact
    while the window has less than 2^53 microseconds.
    [providers/influxdb.py:109-118 window] *)
Definition aggregate_window (start_time end_time max_points : Z) (metrics : list string) : Z :=
  let per_series := Z.max 1 (max_points / Z.max 1 (Z.of_nat (length metrics))) in
  Z.max 1 (truncated (fdiv (literal (end_time - start_time) 1000000) (float_of_Z per_series))).
(** [providers/influxdb.py:119-128 flux] *)
Definition flux_points (device_id : string) (metrics : list string) (start_time end_time : string)
  (window max_points : Z) (measurements : list string) : string :=
  ("from(bucket: " ++ quote_text bucket ++ ") |> range(start: " ++ start_time ++ ", stop: " ++ end_time ++ ")"
   ++ flux_filters device_id metrics measurements ++ " |> aggregateWindow(every: " ++ pretty window
   ++ "s, fn: mean, createEmpty: false) |> limit(n: " ++ pretty max_points ++ ")")%string.

(** A record of an answer: the name of its metric as text, time, value and quality. *)
Record FluxRecord := mkFluxRecord {
  fr_metric : string;
  fr_time : Z;
  fr_value : float;
  fr_quality : option string;
}.
Context {W : Type} (client : string -> M W abort (list FluxRecord)) (other_iso : string -> option Z).

(** [measurements or ["pcs_metrics"]], each of the known ones.
    [providers/influxdb.py:46-54 selected_measurements] *)
Definition selected_measurements (measurements : list string) : M W abort (list string) :=
  let selected := if list_true measurements then measurements else ["pcs_metrics"] in
  guard (forallb (fun m => bool_decide (m ∈ allowed_measurements)) selected) (Exc ValueError) ;;;
  ret selected.

Definition points_of (records : list FluxRecord) (metric : string) : list FluxRecord :=
  filter (fun r => fr_metric r = metric) records.

(** One summary per metric, in the order the metrics were asked for.
    [providers/influxdb.py:37-82 query] *)
Definition query (device_id : string) (metrics : list string) (start_time end_time : string) (max_points : Z)
  (measurements : list string) : M W abort (list (string * option Summary)) :=
  selected <- selected_measurements measurements ;;
  records <- client (flux device_id metrics start_time end_time max_points selected) ;;
  summaries <- map_m (fun m =>
      s <- match summarize_points (map (fun r => (fr_time r, fr_value r)) (points_of records m)) with
           | Ok s => ret s
           | Raise e => raise (Exc e)
           end ;;
      ret (m, s)) metrics ;;
  ret (fold_left (fun d kv => dict_set (fst kv) (snd kv) d) summaries []).

Definition record_le (p q : FluxRecord) : Prop := fr_time p <= fr_time q.
#[local] Instance record_le_dec : RelDecision record_le := fun p q => decide (fr_time p <= fr_time q).

(** [str(values.get("quality") or "good")] *)
Definition quality_of (r : FluxRecord) : string :=
  if ostr_true (fr_quality r) then or_empty (fr_quality r) else "good".
(** The points of each metric by time.
    [providers/influxdb.py:84-143 query_points] *)
Definition query_points (device_id : string) (metrics : list string) (start_time end_time : string) (max_points : Z)
  (measurements : list string) : M W abort (list (string * list (Z * float * string))) :=
  selected <- selected_measurements measurements ;;
  stop <- from_some (Exc ValueError) (fromisoformat other_iso end_time) ;;
  start <- from_some (Exc ValueError) (fromisoformat other_iso start_time) ;;
  let window := aggregate_window start stop max_points metrics in
  records <- client (flux_points device_id metrics start_time end_time window max_points selected) ;;
  ret (fold_left (fun d kv => dict_set (fst kv) (snd kv) d)
    (map (fun m => (m, map (fun r => (fr_time r, fr_value r, quality_of r))
                         (stable_sort record_le (points_of records m)))) metrics) []).
End Client.

(** ** Reading a text of Flux back *)

(** A text ends at the first quote no backslash stands before; interpolation with a dollar
    sign is not part of this. *)
Fixpoint read_literal (l : list ascii) : option (list ascii * list ascii) :=
  match l with
  | [] => None
  | a :: l =>
      if bool_decide (a = quote) then Some ([], l)
      else if bool_decide (a = backslash) then
        match l with
        | b :: l => (fun x => (b :: fst x, snd x)) <$> read_literal l
        | [] => None
        end
      else (fun x => (a :: fst x, snd x)) <$> read_literal l
  end.

Lemma read_escaped l rest :
  Forall (fun a => a <> backslash) l ->
  read_literal (replace_quotes [backslash; quote] l ++ quote :: rest) = Some (l, rest).
Proof.
  induction 1 as [|a l Ha _ IH]; [reflexivity|]. cbn [replace_quotes]. rewrite <-app_assoc.
  destruct (decide (a = quote)) as [->|Hq].
  - rewrite bool_decide_true by done. cbn. by rewrite IH.
  - rewrite bool_decide_false by done. cbn [app read_literal].
    rewrite !bool_decide_false by done. by rewrite IH.
Qed.

Lemma replace_quotes_none l : Forall (fun a => a <> quote) (replace_quotes [] l).
Proof.
  induction l as [|a l IH]; cbn [replace_quotes]; [constructor|].
  case_bool_decide; [done|]. by constructor.
Qed.

Lemma read_plain l rest :
  Forall (fun a => a <> backslash) l -> Forall (fun a => a <> quote) l ->
  read_literal (l ++ quote :: rest) = Some (l, rest).
Proof.
  induction 1 as [|a l Ha _ IH]; [reflexivity|]. intros [Hq Hl]%Forall_cons. cbn [app read_literal].
  rewrite !bool_decide_false by done. by rewrite IH.
Qed.

Lemma replace_quotes_keeps (P : ascii -> Prop) l : Forall P l -> Forall P (replace_quotes [] l).
Proof. induction 1; cbn [replace_quotes]; [constructor|]. case_bool_decide; [done|]. by constructor. Qed.

(** names stay inside their quotes. In the queries to the time series database the
    text of a device without a backslash is read back as that device, whatever quotes it
    has, and the text of a metric as the metric without its quotes; what follows is read
    as before. *)
Theorem names_stay_quoted device metric rest :
  Forall (fun a => a <> backslash) (String.list_ascii_of_string device) ->
  Forall (fun a => a <> backslash) (String.list_ascii_of_string metric) ->
  read_literal (String.list_ascii_of_string (escaped_device device) ++ quote :: rest)
  = Some (String.list_ascii_of_string device, rest)
  /\ read_literal (String.list_ascii_of_string (on_bytes (replace_quotes []) metric) ++ quote :: rest)
     = Some (filter (fun a => a <> quote) (String.list_ascii_of_string metric), rest).
Proof.
  intros Hd Hm. unfold escaped_device, on_bytes. rewrite !String.list_ascii_of_string_of_list_ascii.
  split; [by apply read_escaped|].
  rewrite read_plain; [|by apply replace_quotes_keeps|apply replace_quotes_none]. f_equal. f_equal.
  clear. induction (String.list_ascii_of_string metric) as [|a l IH]; [done|].
  cbn [replace_quotes]. rewrite filter_cons. case_bool_decide as E; [subst a|].
  - by rewrite decide_False by auto.
  - rewrite decide_True by done. cbn. by f_equal.
Qed.

(** ** Summaries *)

Lemma sorted_same (l l' : list (Z * float)) :
  l ≡ₚ l' -> NoDup (map fst l) -> stable_sort earlier l = stable_sort earlier l'.
Proof.
  intros Hp Hn.
  assert (Hss : forall k, StronglySorted earlier (stable_sort earlier k))
    by (intros k; apply (Sorted_StronglySorted _), stable_sort_Sorted, _).
  apply (StronglySorted_unique_strong earlier); [|done|done|].
  - intros p q Hp' Hq H1 H2. assert (Ht : fst p = fst q) by (unfold earlier in *; lia).
    rewrite stable_sort_permutation in Hp', Hq. rewrite <-Hp in Hq.
    apply list_elem_of_lookup in Hp' as [i Hi]. apply list_elem_of_lookup in Hq as [j Hj].
    assert (i = j).
    { apply (NoDup_lookup (map fst l) i j (fst p)); [done|by rewrite list_lookup_fmap, Hi|].
      by rewrite list_lookup_fmap, Hj, Ht. }
    subst j. congruence.
  - by rewrite !stable_sort_permutation.
Qed.

Lemma strongly_sorted_snoc {A} (R : A -> A -> Prop) l x : StronglySorted R (l ++ [x]) -> Forall (fun y => R y x) l.
Proof.
  induction l as [|y l IH]; intros Hs; [constructor|]. inversion Hs as [|z k Hl Hy]; subst.
  constructor; [|by apply IH]. rewrite Forall_forall in Hy. apply Hy, elem_of_app. right. left.
Qed.

(** the order of the points does not matter. Points of different times have the same
    summary in whatever order the database returns them; the summary is about all of
    them, from the earliest to the latest. *)
Theorem summary_ignores_order (l l' : list (Z * float)) :
  l ≡ₚ l' -> NoDup (map fst l) ->
  summarize_points l = summarize_points l'
  /\ forall s, summarize_points l = Ok (Some s) ->
     sm_point_count s = length l
     /\ (exists t, (t, sm_first s) ∈ l /\ Forall (fun p => t <= fst p) l)
     /\ (exists t, (t, sm_last s) ∈ l /\ Forall (fun p => fst p <= t) l)
     /\ sm_trend s = trend_of (sm_first s) (sm_last s).
Proof.
  intros Hp Hn. split; [unfold summarize_points; by rewrite (sorted_same l l')|].
  intros s. unfold summarize_points. pose proof (stable_sort_permutation earlier l) as Hperm.
  assert (Hs : StronglySorted earlier (stable_sort earlier l))
    by (apply (Sorted_StronglySorted _), stable_sort_Sorted, _).
  destruct (stable_sort earlier l) as [|[t v] rest] eqn:E; [done|]. cbn [map snd].
  destruct (fmean _) as [average|]; [|done]. intros [= <-]. cbn.
  inversion Hs as [|x y Hrest Hall]; subst. split_and!; [..|done].
  - rewrite length_map, <-Hperm. done.
  - exists t. rewrite <-Hperm. split; [left|]. constructor; [done|].
    apply (Forall_impl _ _ _ Hall). by intros p.
  - destruct (last ((t, v) :: rest)) as [[t' v']|] eqn:El; [|by apply last_None in El].
    pose proof El as (front & Ef)%last_Some. exists t'.
    assert (Ev : last (v :: map snd rest) = Some v').
    { change (v :: map snd rest) with (map snd ((t, v) :: rest)). rewrite Ef, map_app. cbn [map snd]. apply last_snoc. }
    rewrite Ev. cbn. rewrite <-Hperm, Ef. split; [apply elem_of_app; right; left|].
    rewrite Ef in Hs. apply strongly_sorted_snoc in Hs. apply Forall_app. split; [|by repeat constructor].
    exact Hs.
Qed.

Lemma names_stay_quoted_witness :
  let device := String.string_of_list_ascii ["P"; quote; "1"]%char in
  Forall (fun a => a <> backslash) (String.list_ascii_of_string device)
  /\ read_literal (String.list_ascii_of_string (escaped_device device) ++ [quote; ")"%char])
     = Some (["P"; quote; "1"]%char, [")"%char]).
Proof.
  assert (Hd : Forall (fun a => a <> backslash) ["P"; quote; "1"]%char) by (repeat constructor; discriminate).
  split; [exact Hd|].
  exact (proj1 (names_stay_quoted (String.string_of_list_ascii ["P"; quote; "1"]%char) "" [")"%char] Hd ltac:(constructor))).
Defined.

Lemma summary_ignores_order_witness :
  let points := [(2, literal 3 2); (1, literal 1 2); (3, literal 1 1)] in
  let shuffled := [(3, literal 1 1); (2, literal 3 2); (1, literal 1 2)] in
  summarize_points points = summarize_points shuffled
  /\ match summarize_points points with
     | Ok (Some s) => sm_first s = literal 1 2 /\ sm_last s = literal 1 1 /\ sm_average s = literal 1 1
                      /\ sm_trend s = RISING /\ sm_max s = literal 3 2
     | _ => False
     end.
Proof.
  cbv zeta. assert (Hp : [(2, literal 3 2); (1, literal 1 2); (3, literal 1 1)]
                        ≡ₚ [(3, literal 1 1); (2, literal 3 2); (1, literal 1 2)]).
  { etransitivity; [apply perm_swap|]. etransitivity; [apply perm_skip, perm_swap|].
    etransitivity; [apply perm_swap|]. by apply perm_skip, perm_swap. }
  split; [|vm_compute; by split_and!].
  refine (proj1 (summary_ignores_order _ _ Hp _)). apply (bool_decide_unpack _). vm_compute. exact I.
Defined.

(** A backslash before a quote ends the text early: the rest of the name is read as Flux. *)
Example backslash_ends_text :
  let device := String.string_of_list_ascii [backslash; quote; ")"]%char in
  read_literal (String.list_ascii_of_string (escaped_device device) ++ [quote])
  = Some ([backslash], [")"%char; quote]).
Proof. vm_compute. reflexivity. Qed.
